(* ===== verification/_CoqProject ===== *)
-Q . S2P
Prelude.v
Fifo.v
CString.v
Lines.v
Dbl.v
Ring.v
Wakeups.v
Transport.v
DtnTables.v
FlowCounters.v
Timers.v
Telemetry.v
Congestion.v
Pacing.v
KafkaConsume.v
Episode.v
Network.v
SharedRecord.v
Listener.v
ThreadCopies.v
Bitrate.v
Retrans.v
SocketDump.v
HpnExchange.v
HpnClient.v
BinnClient.v
Rtt.v
AppBandwidth.v
Monitors.v
HttpApi.v
UserConfig.v
TunCli.v
Tuner.v
SysTuning.v
NicTuning.v
Assess.v
DtnTune.v
Startup.v
Boot.v
