(* ===== verification/Prelude.v ===== *)
(** * The tuning module of a data-transfer node: a verification library

    The program under src/userspace runs on a DTN (data-transfer node).  Packets
    arrive with in-band telemetry; when a switch queue on the path stays congested
    the receiving DTN tells the sending DTN, which paces its interface, and lifts
    the pacing when the congestion is over.  Beside that loop the program measures
    the bit rate and the retransmission rate of the link, tries larger or smaller
    socket buffers, answers HPNSSH clients and an HTTP interface, and keeps a
    record of what it did.

    ** The parts, and the files that model them (all in user_dtn.c unless named)

    - [Prelude]: outcomes of C code ([res]: a value, undefined behaviour [Ub], or a
      wait [Blocked]), the loop of a program over the answers of the kernel, functional
      record update, arrays indexed by C integers, circular arrays, machine integers
      with their wrap-around, byte order.
    - [CString], [Dbl]: the C library the program relies on: strings, decimal
      conversions, [strstr], [atoi], [strtoul], [inet_pton]; IEEE doubles (the
      Standard Library's [spec_float] at 53 bits) and the "%.2f" printing.
    - [Lines]: text files read with [getline] into one reused buffer, and the
      scanning loops over what the buffer holds, stale bytes included.
    - [Fifo]: the interface of a bounded queue shared by threads (a type class), and
      the theorems its users get from the interface alone.
    - [Ring]: [sMsg], [sMsgsIn], [sMsgsOut] under [dtn_mutex]: five producers and one
      consumer; it implements [Fifo].
    - [Wakeups]: the threads that wait at it, on the condition variables [full] and
      [empty], and the signals.
    - [Transport]: [readn], [readn2], [writen] (wrapsomeunix.c), the client loop
      [fDoRunSendMessageToPeer], and the decoding at the head of [process_request].
    - [DtnTables]: [aSrc_Dtn_IPs], [aDest_Dtn_IPs], the booking of peers and the
      house-keeping timer, with a finite map as abstract value.
    - [FlowCounters]: [sFlowCounters], [record_activity], the "-pc" report.
    - [Timers]: [makeTimer], the sleeps, the timer handlers and the detector state
      ([vq_TimerIsSet], [vCanStartEvaluationTimer], [vSentPacingOver], ...).
    - [Telemetry]: [sample_func] (extremes, congestion decision, BPF map updates,
      sources) and [fDoRunBpfCollectionPerfEventArray2].
    - [Congestion]: runs of the detector: telemetry, timer expiries, new sources,
      the idle check and the sender in any order, as a step relation.
    - [Pacing]: [process_request], [fDoQinfoAssessment2], [fDoResetPacing2],
      [fDoCleanupResetPacing2], [fDoQinfoAssessmentKafka], over the shared-memory
      record [sResetPacingBack]; one handler is one step.
    - [SharedRecord]: the same handlers one access to the record or the interface at a
      time, and the processes of one host that interleave.
    - [Listener]: [fDoRunGetMessageFromPeer], which books the peers and forks those
      processes.
    - [ThreadCopies]: the global copy of the record that each process has, and threads
      that share one (the Kafka consumer and the bit-rate thread).
    - [Bitrate]: a round of [fDoRunGetThresholds] with the search for a better
      [tcp_wmem] ([check_if_bitrate_too_low]); [fGetTxBitRate].
    - [Retrans]: a round of [doRunFindRetransmissionRate].
    - [SocketDump] (src/iter/iter_tcp4.bpf.c): the BPF iterator that prints the list of
      sockets, and the loop by which the retransmission thread reads it.
    - [HpnExchange]: the HPNSSH requests, fed by the telemetry's extremes (the order of
      the words is an argument: a build with binn sends them as they are), and the
      listener [doHandleHpnsshQfactorEnv].
    - [HpnClient] (myclient.c): the test client of that service; [BinnClient]
      (mybinncli.c): the client and the messages of a build with binn.
    - [KafkaConsume]: [fDoRunKafkaConsume], which feeds [fDoQinfoAssessmentKafka].
    - [Episode]: one episode of congestion across both hosts, composed of the parts
      above; [Network]: any number of hosts, their senders and the processes forked
      per connection, each process one step, as one step relation.
    - [Rtt]: a round of [fDoRunFindHighestRtt] (the ping of the DTNs in turn, the
      comparison with the kernel's round trips) and [fDoSetChannels].
    - [AppBandwidth]: [fCheckAppBandwidth], [fGetAppBandWidth] and their turn in
      [fDoRunGetThresholds].
    - [Monitors]: [fDoCpuMonitoring], [fDoCheckSoftirqd], [fGetMtuInfoOfDevices] and
      the thread [fDoRunHelperDtn].
    - [HttpApi]: [check_req].
    - [UserConfig] (user_assess.c): [fDoGetUserCfgValues], [fCheck_log_limit].
    - [TunCli] (src/cli/tuncli.c): the operator's command line.
    - [Tuner] (user_assess.c): a recommended command, run or kept for the menu.
    - [SysTuning] (user_assess.c): [fDoSystemTuning] and its tables.
    - [NicTuning] (user_assess.c): the checks of the BIOS and of the interface.
    - [Assess] (user_assess.c): [user_assess] and the files of the menu.
    - [DtnTune] (src/assess-tuning/dtn_tune.c): the stand-alone assessment, a program of
      its own.
    - [Startup]: [main] up to its threads, and the times of the timers; [Boot]: the
      fork, the globals the threads find, the handler of SIGINT.

    ** How they interact

    [Telemetry] changes the detector of [Timers] and the tables of [DtnTables], and
    puts messages in [Ring]; the timer handlers of [Timers] put messages there too
    and record activities in [FlowCounters]; [Transport] takes them out and brings
    them to the peer, where [Listener] takes the connection and [Pacing] acts on them
    (in [SharedRecord] access by access, which is the same for a process that is not
    interrupted); [Bitrate] runs the idle check of
    [Timers] and the cleanup of [Pacing], and rotates the flows; [HttpApi] changes
    the thresholds [Telemetry] reads; [HpnExchange] takes what [Telemetry] publishes
    (and its listener writes the address by which [Retrans] selects lines);
    [AppBandwidth] refreshes the times of [DtnTables] that the house-keeping sweep
    compares; [KafkaConsume] drives the Kafka half of [Pacing].  [Startup] reads the
    configuration ([UserConfig]) and runs the assessment ([Assess]), which calls
    [SysTuning] and [NicTuning]; both hand their commands to [Tuner].
    [SysTuning.system_tuning] is written over the treatment of one value, and its
    theorems over the class [Prescribes], which says what such a treatment promises;
    [SysTuning] and [DtnTune] are its two instances.  [SocketDump] produces what
    [Retrans] parses, [HpnClient] speaks with [HpnExchange], and [TunCli] sends what
    [HttpApi] answers, to the port that [UserConfig] read.

    ** Conventions

    A C function is a Rocq function from the globals it uses (a record with the C
    names) to [res] of the new globals.  What the kernel answers ([timer_settime],
    [shmat], [read], [write], [accept], the clock, the output of a [popen]) is an
    argument.  A command given to [system] is text, returned as a trace (for the
    pacing commands, a value with [render] giving the text).  A critical section, a
    handler and a round of a thread are atomic steps; a wait on a condition variable
    is [Blocked] (in [Wakeups] the sleepers are kept).  An access outside an array, and a copy longer than its buffer, is
    [Ub].  Words of network structures are kept as they sit in memory on a
    little-endian host; [htonl] and [ntohl] are explicit.  Recursion is structural
    on the data (bytes, lines, kernel answers) or on a fuel that the callers supply
    large enough: [sample_loop] gets the length of the remaining bytes, each turn
    consuming 24 of them ([metas_of_length] counts the turns exactly); [readn2_loop]
    gets 6, its greatest number of turns ([readn2_result]); [next_ip] gets the 10
    turns of [vIpCount]; [passes] (the clients of [HpnClient] and [BinnClient]) gets
    one more than the answers of the kernel ([passes_enough]), [read_lines] one more
    than the bytes; the decimal printers get 20 digits, enough for a 64-bit
    number.

    ** What the theorems show

    - The loop as a whole ([congestion_episode]): a congested hop paces the source,
      and the end of the congestion lifts the pacing.  Among many hosts, whatever
      overtakes what, the sources are re-paced at most as often as the evaluation
      timers, their stops in idle seconds and their failures allow
      ([network_rate_limited]); while processes end in time, messages
      are served in order ([network_orderly]).
    - Queue and transport: order, no loss, capacity nineteen ([ring_is_fifo]), no
      lost wake-up ([no_wakeup_is_lost]); bytes survive any fragmentation
      ([written_bytes_are_read], [readn_exact]); the head message reaches the DTN it is about and is
      decoded as meant ([head_message_reaches_peer], [requests_act_as_reported]).
      [writen] ends ([writen_terminates]).
    - Detection: the reports are counted exactly by the ends of the evaluation timer
      ([qinfo_rate_limited]), resets answer reports,
      suppression always ends, a calm hop stops the alarms ([Congestion]).
    - Pacing: the shared record agrees with the last command, rates stay between 2
      and 34 Gb/s, a reset lifts the pacing once, learning mode changes nothing; the
      commands of the Kafka consumer are counted in the same way, idle seconds
      included ([kafka_commands_rate_limited]).
    - Processes that interleave: handlers in accesses are the handlers
      ([uninterrupted_process_is_serial]); three accesses a job bring every process to
      its end, and below 34 Gb/s an interface that is paced is then recorded as paced,
      so that a reset of any peer lifts it ([released], [peers_cannot_strand_pacing]);
      the copy of the record in each process makes no difference as long as the
      process has one thread ([private_copies_are_immaterial]).
    - Tables: the sweep, the bookings and the bandwidth turn refine a finite map
      under an invariant; a connected peer survives the sweep.
    - Telemetry: extremes of a poll, map updates of a sample, announcement of a
      source; HPNSSH replies carry these extremes.
    - Rates: exact kilobits, the published rate, bounds on the buffer commands, the
      retransmission counters read and averaged.
    - Fairness of the pings ([every_peer_is_pinged]).
    - HTTP: a setting request stores its number and nothing else; the settings'
      invariant.
    - Configuration: a file is read as the finite map of its settings and the
      globals follow it ([config_sets_globals]); they are well typed whatever the
      file holds ([config_always_wf]).
    - Assessment: one pass settles the kernel settings, lowers no number or maximum, and adds
      one delimited block to sysctl.conf ([SysTuning]); ring sizes are bounded
      ([NicTuning]); the menu offers exactly what the flags would run, and without
      flags nothing is changed ([Assess]).
    - Stand-alone assessment: it tunes as the daemon where both treat a triple alike
      ([standalone_tunes_as_daemon]) and reaches what it recommends elsewhere; its menu
      offers what its flags would run; the speed it tunes for is that of an interface.
    - Start-up: the threads need a live interface, the timers get the configured
      times ([Startup]); the state they find satisfies the invariants assumed by the
      theorems above ([threads_start_well_formed]).
    - Across programs: the kernel's counters are read back exactly
      ([kernel_counts_read_back]); the operator's commands take effect
      ([operator_command_takes_effect]); the test client shows the extremes the
      telemetry published as long as its thread is prompt ([hpn_session_shows_polls]),
      also with binn if the objects have the sizes of the buffers
      ([binn_session_shows_replies]), and never a reading that was not published
      ([client_log_was_published]).
    - Defects shown by theorems: [alarm_survives_setting_change],
      [retransmission_branch_misrecords], [global_rate_is_pooled_over_count],
      [interval_retrans_wraps], [eleventh_peer_overruns], [eleventh_source_overruns],
      [report_undefined_iff], [long_number_overruns], [best_wmem_used_uninitialised],
      [unset_api_port_is_minus_one], [timers_from_configuration],
      [hpn_client_diverts_retransmissions], [ring_at_8192_goes_to_maximum],
      [larger_minimum_hides_small_maximum], [name_memory_never_skips],
      [app_bandwidth_is_last_measured], [no_average_switches_off],
      [unset_port_disconnects], [standalone_needs_lro], [failed_connect_ends_client],
      [tuning_called_learning], [sigint_without_segment], [stray_socket],
      [overtaken_reset_leaves_paced], [crossed_reports_strand_pacing],
      [cleanup_crossing_report], [shared_copy_strands_pacing],
      [longer_reply_breaks_the_framing],
      [refused_client_keeps_trying].

    ** What is not modelled

    The text of the log and of the CSV file and the variables that only throttle
    logging; signal delivery inside a critical section (the handlers lock
    [dtn_mutex], which they may interrupt); the failure of disarming a timer (the
    code does not look); the answers of [pthread_create] and the joins at the end of
    [main]; the Kafka client library and its examples (src/userspace/kafka), libbpf
    and its loaders (src/common), which are third-party or only call such code; the
    code that the preprocessor removes, and [fDoManageRtt], which returns at its
    first statement.  facil.io, which carries a
    request from [TunCli] to [HttpApi], is a parameter with the hypothesis [carries];
    in [SocketDump] the kernel's clock, CONFIG_HZ and the text of %pK are parameters.
    [process_request] runs in a process forked per connection: the settings it reads
    are those at the fork, here the [penv] given with a message.  In [Network] a
    forked process is one step; the interleaving of the processes of one host is the
    subject of [SharedRecord], where the handlers of one process take turns;
    [ThreadCopies] lets its threads interleave.  binn is a class with the laws [BinnLaws]; how many bytes
    an object takes is a hypothesis where it matters. *)
From Stdlib Require Import ZArith Lia Ascii String.
From stdpp Require Import base list strings numbers option.
Open Scope Z_scope.

(** ** Outcomes of C code

    [Ub] is a computation whose behaviour C leaves undefined (an access outside
    an array); [Blocked] is a thread that waits on a condition variable. *)
Inductive res (A : Type) : Type :=
| Ret (a : A)
| Ub
| Blocked.
Arguments Ret {A} a.
Arguments Ub {A}.
Arguments Blocked {A}.

#[export] Instance res_ret : MRet res := fun A a => Ret a.
#[export] Instance res_bind : MBind res := fun A B k r =>
  match r with Ret a => k a | Ub => Ub | Blocked => Blocked end.

Definition of_opt {A} (o : option A) : res A :=
  match o with Some a => Ret a | None => Ub end.

Lemma bind_Ret {A B} (r : res A) (k : A → res B) b :
  (r ≫= k) = Ret b ↔ ∃ a, r = Ret a ∧ k a = Ret b.
Proof.
  destruct r; cbn; split; [eauto|intros (? & ? & ?); congruence|done|intros (? & ? & ?); done|done|intros (? & ? & ?); done].
Qed.
Lemma of_opt_Ret {A} (o : option A) a : of_opt o = Ret a ↔ o = Some a.
Proof. destruct o; cbn; split; congruence. Qed.

(** ** Programs that go round a loop

    A pass uses answers of the kernel (the list) and ends the program or goes on;
    as many passes as there are answers, and one more, are enough when a pass that
    goes on has used one. *)
Inductive pass_end (C K X : Type) := Again (c : C) (ks : list K) | Done (o : X).
Arguments Again {C K X} c ks.
Arguments Done {C K X} o.
Section Passes.
Context {C K D X : Type} (pass : list K → C → res (list D * pass_end C K X)).
Fixpoint passes (fuel : nat) (ks : list K) (c : C) : res (list D * X) :=
  match fuel with
  | O => Blocked
  | S fuel =>
      '(ds, e) ← pass ks c;
      match e with
      | Done o => Ret (ds, o)
      | Again c ks => '(ds', o) ← passes fuel ks c; Ret (ds ++ ds', o)
      end
  end.
Definition run_passes (ks : list K) (c : C) : res (list D * X) := passes (S (length ks)) ks c.
Context (pass_uses : ∀ ks c ds c' ks', pass ks c = Ret (ds, Again c' ks') → (length ks' < length ks)%nat).
Lemma passes_enough fuel ks c : (length ks < fuel)%nat → passes fuel ks c = run_passes ks c.
Proof using pass_uses.
  unfold run_passes.
  assert (∀ f1 f2 ks c, (length ks < f1)%nat → (length ks < f2)%nat → passes f1 ks c = passes f2 ks c) as H; [|intros; apply H; lia].
  intros f1. induction f1 as [|f1 IH]; intros [|f2] k x H1 H2; [lia..|]. cbn [passes].
  destruct (pass k x) as [[ds [x' k'|o]]| |] eqn:E; cbn [mbind res_bind]; [|done..].
  apply pass_uses in E. by rewrite (IH f2) by lia.
Qed.
Lemma run_again ks c ds c' ks' :
  pass ks c = Ret (ds, Again c' ks') → run_passes ks c = ('(ds', o) ← run_passes ks' c'; Ret (ds ++ ds', o)).
Proof using pass_uses.
  intros E. unfold run_passes at 1. cbn [passes]. rewrite E. cbn [mbind res_bind].
  by rewrite passes_enough by (by eapply pass_uses).
Qed.
Lemma run_done ks c ds o : pass ks c = Ret (ds, Done o) → run_passes ks c = Ret (ds, o).
Proof. intros E. unfold run_passes. cbn [passes]. by rewrite E. Qed.
End Passes.

(** ** Functional record update

    A state record declares one [Settable] instance (its eta expansion); the
    setter of each field is then derived by type-class resolution. *)
Declare Scope tuning_scope.
Delimit Scope tuning_scope with tuning.
Class Settable (R : Type) := eta_fields : R → R.
Class SetField {R T : Type} (get : R → T) := set_field : (T → T) → R → R.
#[global] Hint Mode SetField - - ! : typeclass_instances.
Ltac derive_set_field :=
  lazymatch goal with
  | |- @SetField ?R ?T ?get =>
      let e := eval hnf in (@eta_fields R _) in
      let upd := fresh "upd" in let s := fresh "s" in
      intros upd s;
      let b := eval cbv beta in (e s) in
      let p := eval pattern (get s) in b in
      lazymatch p with
      | ?F _ => let r := eval cbv beta in (F (upd (get s))) in exact r
      end
  end.
#[global] Hint Extern 0 (SetField _) => derive_set_field : typeclass_instances.
Notation "s <| f := v |>" := (set_field (get := f) (fun _ => v) s)
  (at level 1, f at level 10, v at level 200, left associativity,
   format "s  <| f  :=  v |>") : tuning_scope.
Open Scope tuning_scope.

(** ** Arrays indexed by C integers: an index out of range is [None] *)
Section Arrays.
Context {A : Type}.
Implicit Types (l : list A) (i : Z).

Definition zget l i : option A :=
  if i <? 0 then None else l !! Z.to_nat i.
Definition zset l i (x : A) : option (list A) :=
  if (0 <=? i) && (i <? Z.of_nat (length l)) then Some (<[Z.to_nat i := x]> l) else None.

Lemma zget_Some l i : 0 ≤ i < Z.of_nat (length l) → is_Some (zget l i).
Proof.
  intros [??]. unfold zget. destruct (Z.ltb_spec i 0); [lia|].
  apply lookup_lt_is_Some_2. lia.
Qed.
Lemma zget_lt l i x : zget l i = Some x → 0 ≤ i < Z.of_nat (length l).
Proof.
  unfold zget. destruct (Z.ltb_spec i 0); [done|].
  intros ?%lookup_lt_Some. lia.
Qed.
Lemma zset_Some l i x :
  0 ≤ i < Z.of_nat (length l) → zset l i x = Some (<[Z.to_nat i := x]> l).
Proof.
  intros [??]. unfold zset. destruct (Z.leb_spec 0 i); [|lia].
  destruct (Z.ltb_spec i (Z.of_nat (length l))); [done|lia].
Qed.
Lemma zset_inv l i x l' :
  zset l i x = Some l' → 0 ≤ i < Z.of_nat (length l) ∧ l' = <[Z.to_nat i := x]> l.
Proof.
  unfold zset. destruct (Z.leb_spec 0 i), (Z.ltb_spec i (Z.of_nat (length l))); cbn;
    intros; simplify_eq; lia || done.
Qed.
Lemma zset_None l i x : i < 0 ∨ Z.of_nat (length l) ≤ i → zset l i x = None.
Proof.
  intros. unfold zset. destruct (Z.leb_spec 0 i), (Z.ltb_spec i (Z.of_nat (length l))); cbn; lia || done.
Qed.
Lemma zget_zset l i x l' j :
  zset l i x = Some l' → zget l' j = if decide (i = j) then Some x else zget l j.
Proof.
  intros [? ->]%zset_inv. unfold zget. case_decide as E; subst.
  - destruct (Z.ltb_spec j 0); [lia|]. apply list_lookup_insert_eq. lia.
  - destruct (Z.ltb_spec j 0); [done|]. apply list_lookup_insert_ne. lia.
Qed.
Lemma length_zset l i x l' : zset l i x = Some l' → length l' = length l.
Proof. intros [? ->]%zset_inv. apply length_insert. Qed.
End Arrays.

(** ** Circular arrays

    [ring_holds n xs slots]: after writing the elements of [xs] one by one at
    index 0, 1, ... modulo [n], slot [i mod n] holds the latest of them. *)
Section RingHolds.
Context {A : Type} (n : nat) (Hn : (0 < n)%nat).
Implicit Types xs slots : list A.

Definition ring_holds xs slots : Prop :=
  length slots = n ∧
  ∀ i, (i < length xs)%nat → (length xs ≤ i + n)%nat → slots !! (i mod n)%nat = xs !! i.

Lemma ring_holds_nil slots : length slots = n → ring_holds [] slots.
Proof using. split; [done|]. intros i Hi. inversion Hi. Qed.
Lemma ring_holds_snoc xs slots x :
  ring_holds xs slots → ring_holds (xs ++ [x]) (<[(length xs mod n)%nat := x]> slots).
Proof using Hn.
  intros [Hl Hw]. split; [by rewrite length_insert|]. rewrite length_app. cbn [length].
  intros i Hi Hin. destruct (decide (i = length xs)) as [->|Hne].
  - rewrite list_lookup_insert_eq by (rewrite Hl; apply Nat.mod_upper_bound; lia).
    by rewrite lookup_app_r, Nat.sub_diag by lia.
  - rewrite lookup_app_l by lia. rewrite list_lookup_insert_ne; [apply Hw; lia|].
    intros E. pose proof (Nat.div_mod_eq (length xs) n). pose proof (Nat.div_mod_eq i n).
    destruct (decide (length xs / n ≤ i / n)%nat); nia.
Qed.
(** The slots written since the last wrap, in order. *)
Lemma ring_holds_take xs slots :
  ring_holds xs slots → (0 < length xs)%nat →
  take ((length xs - 1) mod n + 1) slots = drop (length xs - ((length xs - 1) mod n + 1)) xs.
Proof using Hn.
  intros [Hl Hw] Hpos. set (k := length xs) in *.
  pose proof (Nat.div_mod_eq (k - 1) n). pose proof (Nat.mod_upper_bound (k - 1) n).
  set (m := ((k - 1) mod n + 1)%nat) in *.
  apply list_eq. intros j. rewrite lookup_drop. destruct (decide (j < m)%nat).
  - rewrite lookup_take_lt by done. rewrite <- Hw by lia. f_equal.
    replace (k - m + j)%nat with (j + (k - 1) / n * n)%nat by nia.
    rewrite Nat.Div0.mod_add, Nat.mod_small by lia. done.
  - rewrite lookup_take_ge by lia. symmetry. apply lookup_ge_None_2. lia.
Qed.
(** Once full, the slots are the last [n] elements in some order. *)
Lemma ring_holds_perm xs slots :
  ring_holds xs slots → (n ≤ length xs)%nat → slots ≡ₚ drop (length xs - n) xs.
Proof using Hn.
  intros [Hl Hw] Hge. set (k := length xs) in *.
  pose proof (Nat.div_mod_eq k n). pose proof (Nat.mod_upper_bound k n). set (m := (k mod n)%nat) in *.
  assert (slots = drop (k - m) xs ++ take (n - m) (drop (k - n) xs)) as ->.
  { apply list_eq. intros j. destruct (decide (j < m)%nat) as [Hj|Hj].
    - rewrite lookup_app_l by (rewrite length_drop; fold k; lia). rewrite lookup_drop, <- Hw by (fold k; lia).
      f_equal. replace (k - m + j)%nat with (j + k / n * n)%nat by nia.
      rewrite Nat.Div0.mod_add, Nat.mod_small by lia. done.
    - rewrite lookup_app_r by (rewrite length_drop; fold k; lia). rewrite length_drop. fold k.
      destruct (decide (j < n)%nat).
      + rewrite lookup_take_lt by lia. rewrite lookup_drop, <- Hw by (fold k; lia). f_equal.
        assert (1 ≤ k / n)%nat by (apply Nat.div_le_lower_bound; lia).
        assert ((k / n - 1) * n = n * (k / n) - n ∧ n ≤ n * (k / n))%nat as [??] by nia.
        replace (k - n + (j - (k - (k - m))))%nat with (j + (k / n - 1) * n)%nat by lia.
        rewrite Nat.Div0.mod_add, Nat.mod_small by lia. done.
      + rewrite lookup_take_ge by lia. apply lookup_ge_None_2. lia. }
  rewrite Permutation_app_comm.
  rewrite <- (take_drop (n - m) (drop (k - n) xs)) at 2. rewrite drop_drop.
  replace (k - n + (n - m))%nat with (k - m)%nat by lia. done.
Qed.
End RingHolds.

(** ** Machine integers: values in Z, wrap-around written out *)
Definition u8 (x : Z) : Z := x mod 2 ^ 8.
Definition u16 (x : Z) : Z := x mod 2 ^ 16.
Definition u32 (x : Z) : Z := x mod 2 ^ 32.
Definition u64 (x : Z) : Z := x mod 2 ^ 64.
Definition i32 (x : Z) : Z := (x + 2 ^ 31) mod 2 ^ 32 - 2 ^ 31.
Definition is_u32 (x : Z) : Prop := 0 ≤ x < 2 ^ 32.

(** Bytes of a 32-bit word and of a 16-bit word, least significant first. *)
Definition byte_of (k x : Z) : Z := (x / 2 ^ (8 * k)) mod 2 ^ 8.
Definition le32 (a b c d : Z) : Z := a + b * 2 ^ 8 + c * 2 ^ 16 + d * 2 ^ 24.
Definition le16 (a b : Z) : Z := a + b * 2 ^ 8.

(** [htonl]/[ntohl] and [htons]/[ntohs] of a little-endian host. *)
Definition htonl (x : Z) : Z := le32 (byte_of 3 x) (byte_of 2 x) (byte_of 1 x) (byte_of 0 x).
Definition ntohl (x : Z) : Z := htonl x.
Definition htons (x : Z) : Z := le16 (byte_of 1 x) (byte_of 0 x).
Definition ntohs (x : Z) : Z := htons x.

Ltac zdivmod := Z.to_euclidean_division_equations; lia.

Lemma u32_range x : is_u32 (u32 x).
Proof. unfold is_u32, u32. apply Z.mod_pos_bound. lia. Qed.
Lemma u32_small x : is_u32 x → u32 x = x.
Proof. apply Z.mod_small. Qed.
Lemma i32_range x : -2 ^ 31 ≤ i32 x < 2 ^ 31.
Proof. unfold i32. pose proof (Z.mod_pos_bound (x + 2 ^ 31) (2 ^ 32)). lia. Qed.
Lemma i32_small x : -2 ^ 31 ≤ x < 2 ^ 31 → i32 x = x.
Proof. intros. unfold i32. rewrite Z.mod_small; lia. Qed.

Lemma byte_of_range k x : 0 ≤ byte_of k x < 256.
Proof. unfold byte_of. apply Z.mod_pos_bound. lia. Qed.
Lemma le32_bytes x : is_u32 x → le32 (byte_of 0 x) (byte_of 1 x) (byte_of 2 x) (byte_of 3 x) = x.
Proof. unfold is_u32, le32, byte_of. intros. zdivmod. Qed.
Lemma le32_range a b c d :
  0 ≤ a < 256 → 0 ≤ b < 256 → 0 ≤ c < 256 → 0 ≤ d < 256 → is_u32 (le32 a b c d).
Proof. unfold is_u32, le32. lia. Qed.
Lemma byte_of_le32 a b c d :
  0 ≤ a < 256 → 0 ≤ b < 256 → 0 ≤ c < 256 → 0 ≤ d < 256 →
  byte_of 0 (le32 a b c d) = a ∧ byte_of 1 (le32 a b c d) = b ∧
  byte_of 2 (le32 a b c d) = c ∧ byte_of 3 (le32 a b c d) = d.
Proof. unfold le32, byte_of. intros. repeat split; zdivmod. Qed.

Lemma htonl_range x : is_u32 (htonl x).
Proof. apply le32_range; apply byte_of_range. Qed.
Lemma htonl_htonl x : is_u32 x → htonl (htonl x) = x.
Proof.
  intros Hx. unfold htonl at 1.
  destruct (byte_of_le32 (byte_of 3 x) (byte_of 2 x) (byte_of 1 x) (byte_of 0 x))
    as (H0 & H1 & H2 & H3); try apply byte_of_range.
  unfold htonl. rewrite H0, H1, H2, H3. by apply le32_bytes.
Qed.
Lemma ntohl_htonl x : is_u32 x → ntohl (htonl x) = x.
Proof. apply htonl_htonl. Qed.
Lemma htonl_ntohl x : is_u32 x → htonl (ntohl x) = x.
Proof. apply htonl_htonl. Qed.

Create HintDb word discriminated.
#[export] Hint Resolve u32_range htonl_range byte_of_range : word.

(** ** Tactics shared by the components *)

(** Case analysis on the integer comparisons of the goal. *)
Ltac zbool :=
  repeat match goal with
  | |- context [Z.ltb ?a ?b] => destruct (Z.ltb_spec a b)
  | |- context [Z.leb ?a ?b] => destruct (Z.leb_spec a b)
  | |- context [Z.eqb ?a ?b] => destruct (Z.eqb_spec a b)
  end.
(** Open the next step of a successful computation of the [res] monad. *)
Tactic Notation "inv_bind" hyp(H) "as" simple_intropattern(x) ident(Hx) :=
  apply bind_Ret in H as (x & Hx & H); cbv beta iota in H.
