(* ===== verification/Fifo.v ===== *)
(** * What a bounded queue promises to the threads that share it

    The interface of a blocking queue between any number of producers and one
    consumer, each operation being one critical section.  The client theorems
    (order, no loss, no duplication) are proved against the
    interface; [Ring] discharges it. *)
From Stdlib Require Import ZArith Lia.
From stdpp Require Import base list numbers relations.
From S2P Require Import Prelude.

Class BoundedFifo (Q P M : Type) := {
  q_wf : Q → Prop;
  q_init : Q;
  q_list : Q → list M;
  q_cap : nat;
  (** the messages producer [p] may append to [q] *)
  q_makes : P → Q → M → Prop;
  q_send : P → Q → res Q;
  q_recv : Q → res (M * Q);
  q_cap_pos : (0 < q_cap)%nat;
  q_init_wf : q_wf q_init;
  q_init_list : q_list q_init = [];
  q_bound : ∀ q, q_wf q → (length (q_list q) ≤ q_cap)%nat;
  q_send_spec : ∀ p q, q_wf q →
    (q_send p q = Blocked ∧ length (q_list q) = q_cap) ∨
    (∃ m q', q_send p q = Ret q' ∧ q_wf q' ∧ q_list q' = q_list q ++ [m] ∧
       q_makes p q m ∧ (length (q_list q) < q_cap)%nat);
  q_recv_spec : ∀ q, q_wf q →
    (q_recv q = Blocked ∧ q_list q = []) ∨
    (∃ m q', q_recv q = Ret (m, q') ∧ q_wf q' ∧ q_list q = m :: q_list q')
}.

Section Client.
Context {Q P M : Type} `{BoundedFifo Q P M}.

(** A configuration: the shared queue, the messages sent so far (as they were
    published) and those the consumer has taken. *)
Record conf := mkConf { c_q : Q; c_sent : list M; c_recd : list M }.

Inductive fifo_step : conf → conf → Prop :=
| step_send p q q' m sent recd :
    q_send p q = Ret q' → q_list q' = q_list q ++ [m] →
    fifo_step (mkConf q sent recd) (mkConf q' (sent ++ [m]) recd)
| step_recv q q' m sent recd :
    q_recv q = Ret (m, q') →
    fifo_step (mkConf q sent recd) (mkConf q' sent (recd ++ [m])).

Definition conf_init : conf := mkConf q_init [] [].
Definition conf_inv (c : conf) : Prop :=
  q_wf (c_q c) ∧ c_sent c = c_recd c ++ q_list (c_q c).

Lemma conf_inv_init : conf_inv conf_init.
Proof. split; [apply q_init_wf|]. cbn. by rewrite q_init_list. Qed.

Lemma conf_inv_step c c' : conf_inv c → fifo_step c c' → conf_inv c'.
Proof.
  intros [Hwf Hs] Hstep. inversion Hstep as [p q q' m sent recd E El|q q' m sent recd E]; subst; cbn in *.
  - destruct (q_send_spec p q Hwf) as [[? _]|(m' & q'' & E' & ? & ? & _)]; [congruence|].
    rewrite E in E'. simplify_eq. split; cbn; [done|]. by rewrite El, app_assoc.
  - destruct (q_recv_spec q Hwf) as [[? _]|(m' & q'' & E' & ? & El)]; [congruence|].
    rewrite E in E'. simplify_eq. split; cbn; [done|]. by rewrite El, <- app_assoc.
Qed.

Lemma fifo_reachable c : rtc fifo_step conf_init c → conf_inv c.
Proof.
  intros Hr. assert (∀ a, rtc fifo_step a c → conf_inv a → conf_inv c) as Hind.
  { clear Hr. induction 1; eauto using conf_inv_step. }
  eapply Hind; eauto using conf_inv_init.
Qed.
End Client.
Arguments conf Q M : clear implicits.
