(* ===== verification/CString.v ===== *)
(** * C strings and the libc conversions the tuning module uses

    A C string is a [string] (the bytes before its NUL).  [strstr], [strchr],
    [isdigit]-driven scanning, decimal printing ([%u], [%d]) and reading
    ([atoi], [strtoul] on a digit run), and dotted IPv4 addresses. *)
From Stdlib Require Import ZArith Lia Ascii String.
From stdpp Require Import base list strings numbers option.
From S2P Require Import Prelude.
Open Scope Z_scope.

(** ** Characters *)
Definition code (c : ascii) : Z := Z.of_N (N_of_ascii c).
Definition isdigit (c : ascii) : bool := (48 <=? code c) && (code c <=? 57).
Definition isalpha (c : ascii) : bool :=
  ((65 <=? code c) && (code c <=? 90)) || ((97 <=? code c) && (code c <=? 122)).
Definition isalnum (c : ascii) : bool := isdigit c || isalpha c.
Definition isblank (c : ascii) : bool := (code c =? 32) || (code c =? 9).
Definition isspace (c : ascii) : bool := (code c =? 32) || ((9 <=? code c) && (code c <=? 13)).
Definition digit_val (c : ascii) : Z := code c - 48.
Definition digit_chr (d : Z) : ascii := ascii_of_N (Z.to_N (48 + d)).
Definition nl : string := String (ascii_of_N 10) EmptyString.
Definition tab : string := String (ascii_of_N 9) EmptyString.
Definition dq : string := String (ascii_of_N 34) EmptyString.

Lemma code_digit_chr d : 0 ≤ d < 10 → code (digit_chr d) = 48 + d.
Proof. intros. unfold code, digit_chr. rewrite N_ascii_embedding; lia. Qed.
Lemma isdigit_digit_chr d : 0 ≤ d < 10 → isdigit (digit_chr d) = true.
Proof. intros. unfold isdigit. rewrite code_digit_chr by done. zbool; lia || done. Qed.
Lemma digit_val_chr d : 0 ≤ d < 10 → digit_val (digit_chr d) = d.
Proof. intros. unfold digit_val. rewrite code_digit_chr; lia. Qed.
Lemma digit_val_range c : isdigit c = true → 0 ≤ digit_val c < 10.
Proof. unfold isdigit, digit_val. zbool; cbn; intros; lia || done. Qed.

(** ** Scanning *)
(** A scanning loop over characters satisfying [p]: the run it passes, and the rest. *)
Fixpoint span (p : ascii → bool) (s : string) : string * string :=
  match s with
  | EmptyString => (EmptyString, EmptyString)
  | String c s' => if p c then let '(a, b) := span p s' in (String c a, b) else (EmptyString, s)
  end.
(** [strstr(s, pat)]: the suffix of [s] at the first occurrence of [pat]. *)
Fixpoint strstr (s pat : string) : option string :=
  if String.prefix pat s then Some s
  else match s with EmptyString => None | String _ s' => strstr s' pat end.
(** [strchr(s, c)] *)
Fixpoint strchr (s : string) (c : ascii) : option string :=
  match s with
  | EmptyString => None
  | String d s' => if Ascii.eqb d c then Some s else strchr s' c
  end.
(** [p + n], within the string and its NUL. *)
Fixpoint drop_str (n : nat) (s : string) : string :=
  match n, s with
  | O, _ => s
  | S n', String _ s' => drop_str n' s'
  | S _, EmptyString => EmptyString
  end.
(** The first [n] characters. *)
Fixpoint take_str (n : nat) (s : string) : string :=
  match n, s with S n', String c s' => String c (take_str n' s') | _, _ => EmptyString end.
Fixpoint str_forall (p : ascii → bool) (s : string) : bool :=
  match s with EmptyString => true | String c s' => p c && str_forall p s' end.
Definition strlen (s : string) : Z := Z.of_nat (String.length s).

Lemma str_app_cons c (a b : string) : String c a +:+ b = String c (a +:+ b).
Proof. done. Qed.
Lemma str_app_nil_l (b : string) : "" +:+ b = b.
Proof. done. Qed.

Section Span.
Context (p : ascii → bool).
Lemma span_app s : (span p s).1 +:+ (span p s).2 = s.
Proof.
  induction s as [|c s IH]; [done|]. cbn. destruct (p c); [|done].
  destruct (span p s); cbn in *. by rewrite str_app_cons, IH.
Qed.
Lemma span_forall s : str_forall p (span p s).1 = true.
Proof.
  induction s as [|c s IH]; [done|]. cbn. destruct (p c) eqn:E; [|done].
  destruct (span p s); cbn in *. by rewrite E.
Qed.
Lemma span_stop s t :
  str_forall p s = true →
  (∀ c t', t = String c t' → p c = false) →
  span p (s +:+ t) = (s, t).
Proof.
  intros Hs Ht. induction s as [|c s IH]; cbn in *.
  - rewrite str_app_nil_l. destruct t as [|c t]; [done|]. cbn. by rewrite (Ht c t).
  - rewrite str_app_cons. cbn. destruct (p c); [|done]. by rewrite IH.
Qed.
End Span.

Lemma str_app_assoc (a b c : string) : a +:+ (b +:+ c) = (a +:+ b) +:+ c.
Proof. induction a as [|x a IH]; [done|]. by rewrite !str_app_cons, IH. Qed.
Lemma str_app_nil (a : string) : a +:+ "" = a.
Proof. induction a as [|x a IH]; [done|]. by rewrite str_app_cons, IH. Qed.
Lemma str_forall_app p a b : str_forall p (a +:+ b) = str_forall p a && str_forall p b.
Proof. induction a as [|x a IH]; [done|]. rewrite str_app_cons. cbn. by rewrite IH, andb_assoc. Qed.
Lemma str_prefix_app pat s : String.prefix pat (pat +:+ s) = true.
Proof.
  induction pat as [|c pat IH]; [by destruct s|]. rewrite str_app_cons. cbn.
  destruct (ascii_dec c c); [done|congruence].
Qed.
Lemma strstr_prefix pat s : strstr (pat +:+ s) pat = Some (pat +:+ s).
Proof.
  pose proof (str_prefix_app pat s) as H. destruct (pat +:+ s) as [|c t]; cbn [strstr]; by rewrite H.
Qed.

(** ** Decimal printing: [%u] and [%d] *)
Fixpoint dec_go (fuel : nat) (n : Z) (acc : string) : string :=
  match fuel with
  | O => acc
  | S f =>
      let acc' := String (digit_chr (n mod 10)) acc in
      if n / 10 =? 0 then acc' else dec_go f (n / 10) acc'
  end.
(** 20 digits hold any 64-bit value. *)
Definition dec (n : Z) : string := dec_go 20 n EmptyString.
Definition decs (n : Z) : string := if n <? 0 then "-" +:+ dec (- n) else dec n.

(** ** Decimal reading *)
(** Value of a digit run: the loop of [strtoul]/[atoi] before overflow. *)
Fixpoint num_go (acc : Z) (s : string) : Z :=
  match s with
  | EmptyString => acc
  | String c s' => if isdigit c then num_go (acc * 10 + digit_val c) s' else acc
  end.
Definition num (s : string) : Z := num_go 0 s.
(** [strtoul(s, 0, 10)]: blanks, an optional sign, digits; saturates. *)
Definition strtoul (s : string) : Z :=
  let s := (span isspace s).2 in
  let '(neg, s) := match s with
                   | String c s' => if Ascii.eqb c "-" then (true, s')
                                    else if Ascii.eqb c "+" then (false, s') else (false, s)
                   | EmptyString => (false, s)
                   end in
  let v := num s in
  if 2 ^ 64 <=? v then 2 ^ 64 - 1 else if neg : bool then u64 (- v) else v.
(** [atoi(s)]: [strtol] (saturating at the long range) cut to int. *)
Definition atoi (s : string) : Z :=
  let s := (span isspace s).2 in
  let '(neg, s) := match s with
                   | String c s' => if Ascii.eqb c "-" then (true, s')
                                    else if Ascii.eqb c "+" then (false, s') else (false, s)
                   | EmptyString => (false, s)
                   end in
  let v := if neg : bool then - num s else num s in
  i32 (Z.max (- 2 ^ 63) (Z.min (2 ^ 63 - 1) v)).

Lemma dec_go_digits f n acc :
  0 ≤ n → str_forall isdigit acc = true → str_forall isdigit (dec_go f n acc) = true.
Proof.
  revert n acc. induction f as [|f IH]; intros n acc Hn Ha; cbn; [done|].
  assert (str_forall isdigit (String (digit_chr (n mod 10)) acc) = true).
  { cbn. rewrite isdigit_digit_chr by (apply Z.mod_pos_bound; lia). done. }
  destruct (n / 10 =? 0); [done|]. apply IH; [|done]. apply Z.div_pos; lia.
Qed.
Lemma dec_digits n : 0 ≤ n → str_forall isdigit (dec n) = true.
Proof. intros. by apply dec_go_digits. Qed.

Lemma num_dec_go f n acc :
  0 ≤ n < 10 ^ Z.of_nat f → (0 < f)%nat → num_go 0 (dec_go f n acc) = num_go n acc.
Proof.
  revert n acc. induction f as [|f IH]; intros n acc Hn Hf; [lia|]. cbn [dec_go].
  rewrite Nat2Z.inj_succ, Z.pow_succ_r in Hn by lia.
  assert (0 ≤ n mod 10 < 10) by (apply Z.mod_pos_bound; lia).
  assert (Hc : ∀ m, num_go m (String (digit_chr (n mod 10)) acc) = num_go (m * 10 + n mod 10) acc).
  { intros m. cbn. by rewrite isdigit_digit_chr, digit_val_chr. }
  destruct (Z.eqb_spec (n / 10) 0).
  - rewrite Hc. f_equal. zdivmod.
  - rewrite IH; [|zdivmod|destruct f; [cbn in Hn; zdivmod|lia]]. rewrite Hc. f_equal. zdivmod.
Qed.
Lemma num_dec n : 0 ≤ n < 10 ^ 20 → num (dec n) = n.
Proof. intros. unfold num, dec. by rewrite num_dec_go by lia. Qed.
Lemma dec_inj m n : 0 ≤ m < 10 ^ 20 → 0 ≤ n < 10 ^ 20 → dec m = dec n → m = n.
Proof. intros Hm Hn E. rewrite <- (num_dec m), <- (num_dec n) by done. by rewrite E. Qed.

(** ** Dotted IPv4 addresses ([union uIP] of unp.h)

    [uip_byte k y] is [a[k]] of a [union uIP] whose word is [y]. *)
Definition uip_byte (k y : Z) : Z := byte_of k y.
(** [sprintf(s, "%u.%u.%u.%u", a[0], a[1], a[2], a[3])] *)
Definition ip_string (y : Z) : string :=
  dec (uip_byte 0 y) +:+ "." +:+ dec (uip_byte 1 y) +:+ "." +:+
  dec (uip_byte 2 y) +:+ "." +:+ dec (uip_byte 3 y).

(** One field of [inet_pton]: a digit run of value at most 255. *)
Definition pton_field (s : string) : option (Z * string) :=
  let '(d, r) := span isdigit s in
  if (0 <? strlen d) && (num d <=? 255) then Some (num d, r) else None.
Definition pton_dot (s : string) : option string :=
  match s with String c r => if Ascii.eqb c "." then Some r else None | _ => None end.
(** [inet_pton(AF_INET, s)]: the address word in memory (network) order. *)
Definition inet_pton (s : string) : option Z :=
  '(a, s) ← pton_field s; s ← pton_dot s;
  '(b, s) ← pton_field s; s ← pton_dot s;
  '(c, s) ← pton_field s; s ← pton_dot s;
  '(d, s) ← pton_field s;
  match s with EmptyString => Some (le32 a b c d) | _ => None end.

Lemma dec_go_nonempty f n a : (0 < f)%nat → 0 < strlen (dec_go f n a).
Proof.
  assert (∀ f n a, 0 < strlen a → 0 < strlen (dec_go f n a)) as Hacc.
  { clear. intros f. induction f as [|f IH]; intros n a Ha; [done|]. cbn.
    destruct (n / 10 =? 0); [|apply IH]; unfold strlen; cbn; lia. }
  intros Hf. destruct f as [|f]; [lia|]. cbn.
  destruct (n / 10 =? 0); [|apply Hacc]; unfold strlen; cbn; lia.
Qed.
Lemma dec_nonempty n : 0 < strlen (dec n).
Proof. apply dec_go_nonempty. lia. Qed.

Lemma pton_field_dec n t :
  0 ≤ n < 256 → (∀ c t', t = String c t' → isdigit c = false) →
  pton_field (dec n +:+ t) = Some (n, t).
Proof.
  intros Hn Ht. unfold pton_field. rewrite span_stop by (try apply dec_digits; auto; lia).
  pose proof (dec_nonempty n). rewrite num_dec by lia. zbool; lia || done.
Qed.

(** The text of an address is read back as the address. *)
Lemma inet_pton_ip_string y : is_u32 y → inet_pton (ip_string y) = Some y.
Proof.
  intros Hy. unfold inet_pton, ip_string, uip_byte.
  assert (∀ c t' s, "." +:+ s = String c t' → isdigit c = false) as Hdot.
  { intros c t' s E. rewrite str_app_cons in E. by simplify_eq. }
  do 3 (rewrite pton_field_dec by (try apply byte_of_range; intros; eapply Hdot; eauto);
    cbn [mbind option_bind]; rewrite str_app_cons, str_app_nil_l; cbn [pton_dot mbind option_bind Ascii.eqb Bool.eqb]).
  pose proof (pton_field_dec (byte_of 3 y) "" (byte_of_range _ _)) as E.
  rewrite str_app_nil in E. rewrite E by done. cbn. by rewrite le32_bytes.
Qed.
Lemma ip_string_inj x y : is_u32 x → is_u32 y → ip_string x = ip_string y → x = y.
Proof.
  intros Hx Hy E. apply (f_equal inet_pton) in E.
  rewrite !inet_pton_ip_string in E by done. congruence.
Qed.

(** ** Hexadecimal printing: [%08X] of a 32-bit word and [%X] *)
Definition hex_chr (d : Z) : ascii := ascii_of_N (Z.to_N (if d <? 10 then 48 + d else 55 + d)).
Definition hex_val (c : ascii) : Z := if code c <? 65 then code c - 48 else code c - 55.
Fixpoint hex_go (n : nat) (x : Z) (acc : string) : string :=
  match n with
  | O => acc
  | S n' => hex_go n' (x / 16) (String (hex_chr (x mod 16)) acc)
  end.
Definition hex8 (x : Z) : string := hex_go 8 x EmptyString.
Definition hexX (x : Z) : string :=
  match (span (Ascii.eqb "0") (hex8 x)).2 with EmptyString => "0" | s => s end.
Fixpoint unhex (acc : Z) (s : string) : Z :=
  match s with EmptyString => acc | String c s' => unhex (acc * 16 + hex_val c) s' end.

Example hex_ex : hex8 48879 = "0000BEEF" ∧ hexX 48879 = "BEEF" ∧ hexX 0 = "0".
Proof. vm_compute. done. Qed.

Lemma hex_val_chr d : 0 ≤ d < 16 → hex_val (hex_chr d) = d.
Proof.
  intros. unfold hex_val, hex_chr, code.
  destruct (Z.ltb_spec d 10); rewrite N_ascii_embedding by lia; zbool; lia.
Qed.
Lemma unhex_go n x acc k :
  0 ≤ x < 16 ^ Z.of_nat n → unhex k (hex_go n x acc) = unhex (k * 16 ^ Z.of_nat n + x) acc.
Proof.
  revert x acc k. induction n as [|n IH]; intros x acc k Hx.
  - cbn. f_equal. cbn in Hx. lia.
  - rewrite Nat2Z.inj_succ, Z.pow_succ_r in * by lia. cbn [hex_go]. rewrite IH by zdivmod.
    cbn [unhex]. rewrite hex_val_chr by (apply Z.mod_pos_bound; lia). f_equal.
    pose proof (Z.div_mod x 16). lia.
Qed.
Lemma hex8_inj x y : is_u32 x → is_u32 y → hex8 x = hex8 y → x = y.
Proof.
  unfold is_u32, hex8. intros Hx Hy E. apply (f_equal (unhex 0)) in E.
  rewrite !unhex_go in E by (cbn; lia). done.
Qed.

(** ** Lengths *)
Lemma strlen_nonneg s : 0 ≤ strlen s.
Proof. unfold strlen. lia. Qed.
Lemma strlen_cons c s : strlen (String c s) = 1 + strlen s.
Proof. unfold strlen. cbn [String.length]. lia. Qed.
Lemma strlen_app a b : strlen (a +:+ b) = strlen a + strlen b.
Proof.
  induction a as [|c a IH]; [rewrite str_app_nil_l; unfold strlen; cbn; lia|].
  rewrite str_app_cons, !strlen_cons, IH. lia.
Qed.
Lemma dec_go_len f n acc : strlen (dec_go f n acc) ≤ Z.of_nat f + strlen acc.
Proof.
  revert n acc. induction f as [|f IH]; intros n acc; cbn [dec_go]; [lia|].
  case_match; [rewrite strlen_cons; lia|]. etrans; [apply IH|]. rewrite strlen_cons. lia.
Qed.
Lemma dec_len n : strlen (dec n) ≤ 20.
Proof. unfold dec. pose proof (dec_go_len 20 n "") as H. change (strlen "") with 0 in H. lia. Qed.
Lemma decs_len n : strlen (decs n) ≤ 21.
Proof.
  unfold decs. pose proof (dec_len n). pose proof (dec_len (- n)).
  case_match; [|lia]. rewrite strlen_app. change (strlen "-") with 1. lia.
Qed.

(** ** Reading back what was printed *)
Lemma isdigit_nonspace c : isdigit c = true → isspace c = false ∧ Ascii.eqb c "-" = false ∧ Ascii.eqb c "+" = false.
Proof.
  intros Hd. split_and!.
  - revert Hd. unfold isdigit, isspace. zbool; cbn; done || lia.
  - apply Ascii.eqb_neq. intros ->. discriminate Hd.
  - apply Ascii.eqb_neq. intros ->. discriminate Hd.
Qed.
(** A conversion starts at the first digit of a digit run. *)
Lemma strtoul_digits s : str_forall isdigit s = true → num s < 2 ^ 64 → strtoul s = num s.
Proof.
  intros Hs Hn. destruct s as [|c s]; [done|]. cbn [str_forall] in Hs. apply andb_true_iff in Hs as [Hc _].
  apply isdigit_nonspace in Hc as (H1 & H2 & H3). unfold strtoul. cbn [span]. rewrite H1. cbn [snd].
  rewrite H2, H3. destruct (Z.leb_spec (2 ^ 64) (num (String c s))); [lia|done].
Qed.
Lemma strtoul_dec n : 0 ≤ n < 2 ^ 64 → strtoul (dec n) = n.
Proof.
  intros Hn. rewrite strtoul_digits; [apply num_dec; lia|apply dec_digits; lia|rewrite num_dec; lia].
Qed.
Lemma atoi_digits s : str_forall isdigit s = true → 0 ≤ num s < 2 ^ 31 → atoi s = num s.
Proof.
  intros Hs Hn. destruct s as [|c s]; [done|]. cbn [str_forall] in Hs. apply andb_true_iff in Hs as [Hc _].
  apply isdigit_nonspace in Hc as (H1 & H2 & H3). unfold atoi. cbn [span]. rewrite H1. cbn [snd].
  rewrite H2, H3. rewrite Z.min_r, Z.max_r by lia. apply i32_small. lia.
Qed.
(** [strstr] passes over text that lacks the first character of the pattern. *)
Lemma strstr_skip s c pat t :
  str_forall (λ d, negb (Ascii.eqb d c)) s = true → strstr (s +:+ t) (String c pat) = strstr t (String c pat).
Proof.
  induction s as [|d s IH]; [done|]. rewrite str_app_cons. cbn [str_forall]. intros [Hd Hs]%andb_true_iff.
  apply negb_true_iff, Ascii.eqb_neq in Hd. cbn [strstr String.prefix].
  destruct (ascii_dec c d); [congruence|]. by apply IH.
Qed.
Lemma drop_str_app a b : drop_str (String.length a) (a +:+ b) = b.
Proof. induction a as [|c a IH]; [by destruct b|]. rewrite str_app_cons. exact IH. Qed.
(** A number below [10^k] has at most [k] digits. *)
Lemma dec_go_len_bound k f n acc :
  0 ≤ n < 10 ^ Z.of_nat (S k) → strlen (dec_go f n acc) ≤ Z.of_nat (S k) + strlen acc.
Proof.
  revert f n acc. induction k as [|k IH]; intros f n acc Hn; (destruct f as [|f]; [cbn [dec_go]; lia|]); cbn [dec_go].
  - change (10 ^ Z.of_nat 1) with 10 in Hn. rewrite Z.div_small by lia. cbn [Z.eqb]. rewrite strlen_cons. lia.
  - destruct (n / 10 =? 0); [rewrite strlen_cons; lia|]. etrans; [apply IH|rewrite strlen_cons; lia].
    rewrite (Nat2Z.inj_succ (S k)), Z.pow_succ_r in Hn by lia. zdivmod.
Qed.
Lemma dec_len_u32 n : is_u32 n → strlen (dec n) ≤ 10.
Proof.
  intros Hn. pose proof (dec_go_len_bound 9 20 n "") as H. change (strlen "") with 0 in H.
  change (10 ^ Z.of_nat 10) with 10000000000 in H. unfold is_u32, dec in *. lia.
Qed.
(** A number followed by something else. *)
Lemma num_go_app acc s t :
  str_forall isdigit s = true → (∀ c t', t = String c t' → isdigit c = false) → num_go acc (s +:+ t) = num_go acc s.
Proof.
  intros Hs Ht. revert acc Hs. induction s as [|c s IH]; intros acc Hs.
  - rewrite str_app_nil_l. destruct t as [|c t]; [done|]. cbn. by rewrite (Ht c t).
  - rewrite str_app_cons. cbn in *. apply andb_true_iff in Hs as [-> ?]. by apply IH.
Qed.
Lemma atoi_dec_app n t :
  0 ≤ n < 2 ^ 31 → (∀ c t', t = String c t' → isdigit c = false) → atoi (dec n +:+ t) = n.
Proof.
  intros Hn Ht. pose proof (dec_digits n ltac:(lia)) as Hd. pose proof (num_dec n ltac:(lia)) as Hnum.
  pose proof (num_go_app 0 _ _ Hd Ht) as E. change (num_go 0 (dec n)) with (num (dec n)) in E. rewrite Hnum in E.
  pose proof (dec_nonempty n). destruct (dec n) as [|c s]; [done|]. rewrite str_app_cons in *. cbn in Hd.
  apply andb_true_iff in Hd as [Hc _]. apply isdigit_nonspace in Hc as (H1 & H2 & H3).
  unfold atoi. cbn [span]. rewrite H1. cbn [snd]. rewrite H2, H3. unfold num. rewrite E.
  rewrite Z.min_r, Z.max_r by lia. apply i32_small. lia.
Qed.
Lemma atoi_dec n : 0 ≤ n < 2 ^ 31 → atoi (dec n) = n.
Proof. intros. rewrite <- (str_app_nil (dec n)). by apply atoi_dec_app. Qed.
Lemma decs_nonneg n : 0 ≤ n → decs n = dec n.
Proof. intros. unfold decs. destruct (Z.ltb_spec n 0); [lia|done]. Qed.
