(* ===== verification/Lines.v ===== *)
(** * Text files read line by line

    [getline] into one buffer that is reused for every line, and the scanning
    loops the program runs over that buffer.  The buffer is the string of the
    bytes written to it so far (a NUL ends a line; the bytes behind it are left
    from longer lines before).  A loop that runs past the last byte ever written
    reads memory no one initialised: [Ub]. *)
From Stdlib Require Import ZArith Lia Ascii String.
From stdpp Require Import base list strings numbers option.
From S2P Require Import Prelude CString.
Open Scope Z_scope.

Definition NUL : ascii := Ascii.zero.
Definition not_nul (c : ascii) : bool := negb (Ascii.eqb c NUL).
(** The C string at the start of a piece of memory. *)
Definition cstr (m : string) : string := (span not_nul m).1.
(** [getline(&line, &len, f)]: the line and its NUL over the old contents. *)
Definition getline_buf (b l : string) : string :=
  l +:+ String NUL (drop_str (S (String.length l)) b).
(** [while (p(m[i])) i++]: the bytes passed, and the rest from the byte that stopped it. *)
Definition scan_while (p : ascii → bool) (m : string) : res (string * string) :=
  match span p m with
  | (_, EmptyString) => Ub
  | (a, b) => Ret (a, b)
  end.
Definition nondigit (c : ascii) : bool := negb (isdigit c).
Definition nonalpha (c : ascii) : bool := negb (isalpha c).
(** The first digit run (the first word) at or after a place in memory. *)
Definition digits_at (m : string) : res string :=
  '(_, r) ← scan_while nondigit m; '(d, _) ← scan_while isdigit r; Ret d.
Definition word_at (m : string) : res string :=
  '(_, r) ← scan_while nonalpha m; '(d, _) ← scan_while isalpha r; Ret d.
(** A copy of [s] into a buffer of [n] bytes, without a final NUL. *)
Definition fits (n : Z) (s : string) : res unit := if strlen s <=? n then Ret tt else Ub.
(** [strcpy(s, t)] into a buffer of [n] bytes: a NUL follows. *)
Definition fits_nul (n : Z) (s : string) : res unit := if strlen s <? n then Ret tt else Ub.

(** [while (getline(...) != -1) body]; [body] says whether it breaks off the loop. *)
Fixpoint each_line {A} (body : string → A → res (A * bool)) (b : string) (ls : list string) (a : A) : res A :=
  match ls with
  | [] => Ret a
  | l :: ls' =>
      let b' := getline_buf b l in
      '(a', stop) ← body b' a;
      if stop : bool then Ret a' else each_line body b' ls' a'
  end.
(** [strcpy(s, line)] into [char s[n]], then the final newline dropped (the code
    reads [s[strlen(s) - 1]]: in front of the buffer when the line is empty). *)
Fixpoint chomp (s : string) : string :=
  match s with
  | EmptyString => EmptyString
  | String c EmptyString => if code c =? 10 then EmptyString else s
  | String c s' => String c (chomp s')
  end.
Definition copy_chomp (n : Z) (m : string) : res string :=
  let s := cstr m in
  _ ← fits_nul n s;
  match s with EmptyString => Ub | _ => Ret (chomp s) end.

(** ** Lemmas *)
Lemma isdigit_not_nul c : isdigit c = true → not_nul c = true.
Proof. intros H. apply negb_true_iff, Ascii.eqb_neq. intros ->. discriminate H. Qed.
Lemma isalnum_not_nul c : isalnum c = true → not_nul c = true.
Proof. intros H. apply negb_true_iff, Ascii.eqb_neq. intros ->. discriminate H. Qed.
Lemma str_forall_weaken p q s :
  (∀ c, p c = true → q c = true) → str_forall p s = true → str_forall q s = true.
Proof.
  intros Hpq. induction s as [|c s IH]; [done|]. cbn. intros [Hc Hs]%andb_true_iff.
  by rewrite (Hpq _ Hc), IH.
Qed.
Lemma cstr_app s t : str_forall not_nul s = true → cstr (s +:+ String NUL t) = s.
Proof. intros H. unfold cstr. rewrite span_stop; [done..|]. by intros ?? [= <- ?]. Qed.
Lemma cstr_id s : str_forall not_nul s = true → cstr s = s.
Proof. intros H. unfold cstr. rewrite <- (str_app_nil s) at 1. by rewrite span_stop. Qed.
Lemma cstr_getline b l : str_forall not_nul l = true → cstr (getline_buf b l) = l.
Proof. apply cstr_app. Qed.
Lemma scan_stop p s c t : str_forall p s = true → p c = false → scan_while p (s +:+ String c t) = Ret (s, String c t).
Proof. intros Hs Hc. unfold scan_while. rewrite span_stop; [done..|]. by intros ?? [= <- ?]. Qed.
(** A loop over a line stops inside the line if a byte of it stops the loop. *)
Lemma getline_buf_app b s t : getline_buf b (s +:+ t) = s +:+ (t +:+ String NUL (drop_str (S (String.length (s +:+ t))) b)).
Proof. unfold getline_buf. by rewrite str_app_assoc. Qed.
(** A loop that the continuation of the text stops. *)
Lemma scan_more p s t :
  t ≠ EmptyString → (∀ c t', t = String c t' → p c = false) →
  scan_while p (s +:+ t) = Ret ((span p s).1, (span p s).2 +:+ t).
Proof.
  intros Hne Ht. unfold scan_while. assert (span p (s +:+ t) = ((span p s).1, (span p s).2 +:+ t)) as ->.
  { induction s as [|c s IH]; [|].
    - rewrite !str_app_nil_l. destruct t as [|c t]; [done|]. cbn. by rewrite (Ht c t).
    - rewrite str_app_cons. cbn. destruct (p c); [|done]. rewrite IH. by destruct (span p s). }
  destruct ((span p s).2 +:+ t) eqn:E; [|done]. destruct (span p s).2; [|discriminate E].
  by rewrite str_app_nil_l in E.
Qed.
Lemma chomp_line s : str_forall (λ c, negb (code c =? 10)) s = true → chomp (s +:+ nl) = s.
Proof.
  induction s as [|c s IH]; [done|]. cbn [str_forall]. intros [Hc Hs]%andb_true_iff.
  rewrite str_app_cons. specialize (IH Hs). cbn [chomp]. destruct (s +:+ nl) eqn:E; [|by rewrite IH].
  destruct s; discriminate E.
Qed.
Lemma take_str_all n s : strlen s ≤ Z.of_nat n → take_str n s = s.
Proof.
  revert s. induction n as [|n IH]; intros [|c s]; rewrite ?strlen_cons; cbn [take_str]; intros H; try done.
  - pose proof (strlen_nonneg s). lia.
  - rewrite IH; [done|lia].
Qed.
Lemma fits_ok n s : strlen s ≤ n → fits n s = Ret tt.
Proof. intros H. unfold fits. by rewrite (proj2 (Z.leb_le _ _)). Qed.
Lemma fits_nul_ok n s : strlen s < n → fits_nul n s = Ret tt.
Proof. intros H. unfold fits_nul. by rewrite (proj2 (Z.ltb_lt _ _)). Qed.

Section EachLine.
Context {A : Type} (body : string → A → res (A * bool)).
(** An invariant of the state is kept by the whole loop. *)
Lemma each_line_inv (P : A → Prop) b ls a a' :
  (∀ m a a' stop, P a → body m a = Ret (a', stop) → P a') →
  P a → each_line body b ls a = Ret a' → P a'.
Proof using.
  intros Hb. revert b a. induction ls as [|l ls IH]; intros b a Ha; cbn [each_line].
  - by intros [= <-].
  - intros E. inv_bind E as [a1 stop] E1. apply Hb in E1; [|done].
    destruct stop; [by simplify_eq|]. eauto.
Qed.
End EachLine.
(** Two loops in step: a run of the first is matched by a run of the second. *)
Lemma each_line_sim {A B} (f : string → A → res (A * bool)) (g : string → B → res (B * bool)) (R : A → B → Prop) m ls a a' b :
  (∀ m a a' b stop, R a b → f m a = Ret (a', stop) → ∃ b', g m b = Ret (b', stop) ∧ R a' b') →
  R a b → each_line f m ls a = Ret a' → ∃ b', each_line g m ls b = Ret b' ∧ R a' b'.
Proof.
  intros Hs. revert m a b. induction ls as [|l ls IH]; intros m a b HR; cbn [each_line].
  - intros [= <-]. eauto.
  - intros E. inv_bind E as [a1 stop] E1. destruct (Hs _ _ _ _ _ HR E1) as (b1 & Eb & HR1).
    rewrite Eb. cbn [mbind res_bind]. destruct stop; [simplify_eq; eauto|]. eauto.
Qed.
