(* ===== verification/Dbl.v ===== *)
(** * C doubles

    IEEE-754 binary64 with round-to-nearest-even, on the executable
    [spec_float] of the Standard Library: the operations the program uses,
    conversions from integers, decimal constants and the [%.2f] rendering. *)
From Stdlib Require Import ZArith Lia Ascii String.
From Stdlib Require Import SpecFloat.
From stdpp Require Import base list strings numbers option.
From S2P Require Import Prelude CString.
Open Scope Z_scope.

Declare Scope dbl_scope.
Delimit Scope dbl_scope with dbl.

Definition double : Type := spec_float.
Definition dadd : double → double → double := SFadd 53 1024.
Definition dsub : double → double → double := SFsub 53 1024.
Definition dmul : double → double → double := SFmul 53 1024.
Definition ddiv : double → double → double := SFdiv 53 1024.
Definition dltb : double → double → bool := SFltb.
Definition dleb : double → double → bool := SFleb.
Definition deqb : double → double → bool := SFeqb.
(** [(double)z] for an integer [z]. *)
Definition dofZ (z : Z) : double := binary_normalize 53 1024 z 0 false.
(** The constant [n / d] of the source, correctly rounded: for a decimal
    constant the quotient of its digits by a power of ten (both exact). *)
Definition dconst (n d : Z) : double := ddiv (dofZ n) (dofZ d).
Definition dzero : double := S754_zero false.
(** [if (x)] on a double: anything but a zero is true, NaN included. *)
Definition dtruth (x : double) : bool := negb (deqb x dzero).

(** The numbers of the source: [2.0], [34.0], [40.0], [0.95], [0.10], ... *)
Definition d2 : double := dofZ 2.
Definition d34 : double := dofZ 34.
Definition d40 : double := dofZ 40.
Definition d0_95 : double := dconst 95 100.
Definition d0_10 : double := dconst 10 100.
Definition d0_90 : double := dconst 9 10.
Definition d0_30 : double := dconst 30 100.
Definition d0_002 : double := dconst 2 1000.
Definition d1000 : double := dofZ 1000.
Definition d1e6 : double := dofZ 1000000.
Definition d100 : double := dofZ 100.

(** ** [%.2f] *)
(** Nearest integer to [n / d], ties to even. *)
Definition div_even (n d : Z) : Z :=
  let q := n / d in let r := n mod d in
  if (2 * r <? d) then q
  else if (d <? 2 * r) then q + 1
  else if Z.even q then q else q + 1.
(** [|x| * 10^k] rounded to an integer, for a finite [x = m * 2^e]. *)
Definition scaled (k : Z) (m : positive) (e : Z) : Z :=
  if 0 <=? e then Zpos m * 2 ^ e * 10 ^ k else div_even (Zpos m * 10 ^ k) (2 ^ (- e)).
Fixpoint pad_zeros (n : nat) (s : string) : string :=
  match n with O => s | S n' => if (String.length s <? n)%nat then pad_zeros n' (String "0" s) else s end.
(** Digits of a non-negative integer of any size (a double has at most 309). *)
Definition dec_big (n : Z) : string := dec_go 320 n EmptyString.
Definition fmt (k : nat) (x : double) : string :=
  let frac (n : Z) := (pad_zeros k (dec_big (n mod 10 ^ Z.of_nat k)))%string in
  let body n := dec_big (n / 10 ^ Z.of_nat k) +:+ "." +:+ frac n in
  match x with
  | S754_nan => "nan"
  | S754_infinity s => if s then "-inf" else "inf"
  | S754_zero s => (if s then "-" else "") +:+ body 0
  | S754_finite s m e => (if s then "-" else "") +:+ body (scaled (Z.of_nat k) m e)
  end.
Definition fmt2 : double → string := fmt 2.

Example fmt2_ex1 : fmt2 (dmul (dconst 125 10) d0_90) = "11.25". Proof. vm_compute. reflexivity. Qed.
Example fmt2_ex2 : fmt2 d2 = "2.00". Proof. vm_compute. reflexivity. Qed.
Example fmt2_ex3 : fmt2 (dconst 7 1000) = "0.01". Proof. vm_compute. reflexivity. Qed.
Example fmt2_ex4 : fmt2 (dconst 1005 1000) = "1.00". Proof. vm_compute. reflexivity. Qed.
Example fmt2_ex5 : fmt2 (dofZ 100) = "100.00". Proof. vm_compute. reflexivity. Qed.

(** ** Reading *)
(** [sscanf(s, "%lf", &v)] on digits with at most one dot; no digits leave the 0.0. *)
Definition sscanf_lf (s : string) : double :=
  let '(ip, r) := span isdigit s in
  let fp := match r with String c r' => if Ascii.eqb c "." then (span isdigit r').1 else "" | _ => "" end in
  if (strlen ip =? 0) && (strlen fp =? 0) then dzero
  else dconst (num (ip +:+ fp)) (10 ^ strlen fp).

(** ** Order facts *)
Definition is_nan (x : double) : bool := match x with S754_nan => true | _ => false end.

Lemma dltb_irrefl x : dltb x x = false.
Proof.
  unfold dltb, SFltb, SFcompare. destruct x as [[]|[]| |[] m e]; try done;
    by rewrite Z.compare_refl, ?Pos.compare_cont_refl.
Qed.
Lemma deqb_refl x : is_nan x = false → deqb x x = true.
Proof.
  unfold deqb, SFeqb, SFcompare. destruct x as [[]|[]| |[] m e]; try done;
    by rewrite Z.compare_refl, ?Pos.compare_cont_refl.
Qed.
Lemma deqb_dltb x y : deqb x y = true → dltb x y = false.
Proof.
  unfold deqb, SFeqb, dltb, SFltb. by destruct (SFcompare x y) as [[]|].
Qed.
Lemma dltb_dleb x y : dltb x y = true → dleb x y = true.
Proof. unfold dltb, SFltb, dleb, SFleb. by destruct (SFcompare x y) as [[]|]. Qed.
Lemma SFcompare_antisym x y : SFcompare y x = option_map CompOpp (SFcompare x y).
Proof.
  unfold SFcompare. destruct x as [[]|[]| |[] mx ex], y as [[]|[]| |[] my ey]; try done;
    rewrite (Z.compare_antisym ex ey);
    assert (Pos.compare_cont Eq my mx = CompOpp (Pos.compare_cont Eq mx my)) as Hp
      by (by rewrite Pos.compare_cont_antisym);
    destruct (ex ?= ey); cbn; try done; rewrite Hp; by destruct (Pos.compare_cont Eq mx my).
Qed.
Lemma dltb_asym x y : dltb x y = true → dltb y x = false.
Proof.
  unfold dltb, SFltb. rewrite (SFcompare_antisym x y). by destruct (SFcompare x y) as [[]|].
Qed.
Lemma dleb_dltb_false x y : dleb x y = true → dltb y x = false.
Proof.
  unfold dltb, SFltb, dleb, SFleb. rewrite (SFcompare_antisym x y). by destruct (SFcompare x y) as [[]|].
Qed.
Lemma SFcompare_None x y : SFcompare x y = None → is_nan x = true ∨ is_nan y = true.
Proof.
  unfold SFcompare. destruct x as [[]|[]| |[] mx ex], y as [[]|[]| |[] my ey]; cbn; try done; auto;
    destruct (ex ?= ey); try done; destruct (Pos.compare_cont Eq mx my); done.
Qed.
Lemma dltb_total x y : is_nan x = false → is_nan y = false → dltb x y = false → dleb y x = true.
Proof.
  intros Hx Hy. unfold dltb, SFltb, dleb, SFleb. rewrite (SFcompare_antisym x y).
  destruct (SFcompare x y) as [[]|] eqn:E; cbn; try done.
  apply SFcompare_None in E as [|]; congruence.
Qed.
