(* ===== verification/Ring.v ===== *)
(** * The queue of messages to the peer

    [sMsg[SMSGS_BUFFER_SIZE]] with [sMsgsIn]/[sMsgsOut] of userspace/user_dtn.c:
    a ring protected by [dtn_mutex], filled by the timer handlers, the telemetry
    callback and the bit-rate thread (each waits on [empty] while the ring is
    full) and drained by [fDoRunSendMessageToPeer] (which waits on [full]).
    A critical section is one atomic operation; [Blocked] is the wait. *)
From Stdlib Require Import ZArith Lia Ascii String.
From stdpp Require Import base list list_numbers strings numbers option relations.
From S2P Require Import Prelude CString Fifo.
Open Scope Z_scope.

(** ** [struct PeerMsg] (unp.h)

    Words are as they sit in memory; [src_ip_addr] and [dst_ip_addr] are the
    word [y] of their [union uIP].  [pts] points at one of the two static
    time-stamp buffers of the telemetry tracker, or is null. *)
Inductive tsbuf := BufMin | BufMax.
#[export] Instance tsbuf_eq_dec : EqDecision tsbuf.
Proof. solve_decision. Defined.

Record PeerMsg := mkPeerMsg {
  msg_no : Z;
  seq_no : Z;
  value : Z;
  hop_latency : Z;
  queue_occupancy : Z;
  switch_id : Z;
  vlan_id : Z;
  timestamp : string;
  msg : string;
  src_ip_addr : Z;
  dst_ip_addr : Z;
  vHopDelay : Z;
  pts : option tsbuf
}.
#[export] Instance PeerMsg_eq_dec : EqDecision PeerMsg.
Proof. solve_decision. Defined.
#[export] Instance eta_PeerMsg : Settable PeerMsg := fun m =>
  mkPeerMsg (msg_no m) (seq_no m) (value m) (hop_latency m) (queue_occupancy m)
    (switch_id m) (vlan_id m) (timestamp m) (msg m) (src_ip_addr m) (dst_ip_addr m)
    (vHopDelay m) (pts m).
Definition zero_msg : PeerMsg := mkPeerMsg 0 0 0 0 0 0 0 "" "" 0 0 0 None.

(** Message numbers and the operations of an HPNSSH request (unp.h). *)
Definition TEST_MSG := 0.
Definition QINFO_MSG := 1.
Definition HPNSSH_MSG := 2.
Definition RESET_PACING_MSG := 3.
Definition CLEANUP_RESET_PACING_MSG := 4.
Definition HPNSSH_READ := 33.
Definition HPNSSH_READALL := 44.
Definition HPNSSH_SHUTDOWN := 55.
Definition HPNSSH_START := 99.
Definition HPNSSH_READ_FS := 133.
Definition HPNSSH_READALL_FS := 144.
Definition HPNSSH_DUMMY := 166.

Definition SMSGS_BUFFER_SIZE := 20.

Record Ring := mkRing {
  sMsg : list PeerMsg;
  sMsgsIn : Z;
  sMsgsOut : Z;
  cdone : bool;
  sMsgSeqNo : Z;
  sMsgSeqNoConn : Z
}.
#[export] Instance eta_Ring : Settable Ring := fun r =>
  mkRing (sMsg r) (sMsgsIn r) (sMsgsOut r) (cdone r) (sMsgSeqNo r) (sMsgSeqNoConn r).
(** The globals as initialised, after [memset(&sMsg,0,sizeof(sMsg))] in [main]. *)
Definition ring_init : Ring := mkRing (replicate 20 zero_msg) 0 0 false 0 0.

(** ** Producers *)
(** The wait condition of every producer. *)
Definition ring_full (r : Ring) : bool :=
  (sMsgsIn r + 1) mod SMSGS_BUFFER_SIZE =? sMsgsOut r.
(** One critical section of a producer: the slot [sMsg[sMsgsIn]] is updated
    field by field by [fill] (fields it does not assign keep what the slot's
    previous message left there), then published. *)
Definition put (fill : PeerMsg → PeerMsg) (r : Ring) : res Ring :=
  if ring_full r then Blocked else
  slot ← of_opt (zget (sMsg r) (sMsgsIn r));
  arr ← of_opt (zset (sMsg r) (sMsgsIn r) (fill slot));
  Ret (r <| sMsg := arr |> <| cdone := true |>
         <| sMsgsIn := (sMsgsIn r + 1) mod SMSGS_BUFFER_SIZE |>).
(** [sMsgSeqNo++; ... seq_no = htonl(sMsgSeqNo)] in the critical section. *)
Definition put_seq (fill : PeerMsg → PeerMsg) (r : Ring) : res Ring :=
  let seq := u32 (sMsgSeqNo r + 1) in
  r' ← put (fun m => fill m <| seq_no := htonl seq |>) r;
  Ret (r' <| sMsgSeqNo := seq |>).

Definition fill_qinfo_hop (vQinfo vHop src dst : Z) (m : PeerMsg) : PeerMsg :=
  m <| msg := "Hello there!!! This is a Qinfo with HopD msg..." +:+ nl |>
    <| msg_no := htonl QINFO_MSG |> <| value := htonl vQinfo |>
    <| vHopDelay := htonl vHop |> <| src_ip_addr := src |> <| dst_ip_addr := dst |>.
Definition fill_qinfo (vQinfo src dst : Z) (m : PeerMsg) : PeerMsg :=
  m <| msg := "Hello there!!! This is a Qinfo msg..." +:+ nl |>
    <| msg_no := htonl QINFO_MSG |> <| value := htonl vQinfo |>
    <| vHopDelay := 0 |> <| src_ip_addr := src |> <| dst_ip_addr := dst |>.
(** The critical sections of the two queue-occupancy timer handlers. *)
Definition put_qinfo_hop (vQinfo vHop src dst : Z) : Ring → res Ring :=
  put_seq (fill_qinfo_hop vQinfo vHop src dst).
Definition put_qinfo (vQinfo src dst : Z) : Ring → res Ring :=
  put_seq (fill_qinfo vQinfo src dst).
(** [src_ip] is the global [src_ip_addr.y]. *)
Definition fill_cleanup (src_ip : Z) (m : PeerMsg) : PeerMsg :=
  m <| msg := "Hello there!!! This is a Reset CleanUp Pacing msg..." +:+ nl |>
    <| msg_no := htonl CLEANUP_RESET_PACING_MSG |> <| value := 0 |> <| vHopDelay := 0 |>
    <| src_ip_addr := src_ip |> <| dst_ip_addr := 0 |>.
Definition SendResetCleanUpPacingMsg (src_ip : Z) : Ring → res Ring :=
  put_seq (fill_cleanup src_ip).
(** [k_src], [k_dst] are [pHop_key->flow_key.src_ip] and [.dst_ip]. *)
Definition fill_reset (k_src k_dst : Z) (m : PeerMsg) : PeerMsg :=
  m <| msg := "Hello there!!! This is a Reset Pacing msg..." +:+ nl |>
    <| msg_no := htonl RESET_PACING_MSG |> <| value := 0 |> <| vHopDelay := 0 |>
    <| src_ip_addr := ntohl k_src |> <| dst_ip_addr := ntohl k_dst |>.
Definition SendResetPacingMsg (k_src k_dst : Z) : Ring → res Ring :=
  put_seq (fill_reset k_src k_dst).
(** The start-of-traffic message of [sample_func]: its own sequence counter,
    and [vHopDelay] is not assigned. *)
Definition fill_start (vlan src dst : Z) (m : PeerMsg) : PeerMsg :=
  m <| msg := "Hello there!!! This is a Start of Traffic  msg..." +:+ nl |>
    <| msg_no := htonl TEST_MSG |> <| value := 0 |> <| vlan_id := htons vlan |>
    <| src_ip_addr := src |> <| dst_ip_addr := dst |>.
Definition put_start (vlan src dst : Z) (r : Ring) : res Ring :=
  let seq := u32 (sMsgSeqNoConn r + 1) in
  r' ← put (fun m => fill_start vlan src dst m <| seq_no := htonl seq |>) r;
  Ret (r' <| sMsgSeqNoConn := seq |>).

(** ** Consumer: the critical section of [fDoRunSendMessageToPeer] *)
Definition get (r : Ring) : res (PeerMsg * Ring) :=
  if sMsgsIn r =? sMsgsOut r then Blocked else
  m ← of_opt (zget (sMsg r) (sMsgsOut r));
  Ret (m, r <| sMsgsOut := (sMsgsOut r + 1) mod SMSGS_BUFFER_SIZE |> <| cdone := false |>).

(** ** Invariant and abstract contents *)
Definition ring_wf (r : Ring) : Prop :=
  length (sMsg r) = 20%nat ∧ 0 ≤ sMsgsIn r < 20 ∧ 0 ≤ sMsgsOut r < 20.
Definition count (r : Ring) : Z := (sMsgsIn r - sMsgsOut r) mod 20.
Definition slot (r : Ring) (k : Z) : option PeerMsg :=
  zget (sMsg r) ((sMsgsOut r + k) mod 20).
Definition contents (r : Ring) : list PeerMsg := omap (slot r) (seqZ 0 (count r)).

Lemma ring_wf_init : ring_wf ring_init.
Proof. done. Qed.
Lemma count_range r : 0 ≤ count r < 20.
Proof. apply Z.mod_pos_bound. lia. Qed.
Lemma slot_Some r k : ring_wf r → is_Some (slot r k).
Proof.
  intros (Hl & _). apply zget_Some. rewrite Hl. pose proof (Z.mod_pos_bound (sMsgsOut r + k) 20). lia.
Qed.

Lemma omap_length {A B} (f : A → option B) (l : list A) : (∀ x, is_Some (f x)) → length (omap f l) = length l.
Proof. intros Hf. induction l as [|x l IH]; [done|]. cbn. destruct (Hf x) as [y ->]. cbn. by rewrite IH. Qed.
Lemma omap_ext_in {A B} (f g : A → option B) (l : list A) : (∀ x, x ∈ l → f x = g x) → omap f l = omap g l.
Proof.
  induction l as [|x l IH]; intros Hfg; [done|]. cbn.
  rewrite (Hfg x) by left. rewrite IH by (intros; apply Hfg; by right). done.
Qed.
Lemma omap_fmap_l {A B C} (f : B → option C) (g : A → B) (l : list A) :
  omap f (g <$> l) = omap (λ x, f (g x)) l.
Proof. induction l as [|x l IH]; [done|]. cbn. by rewrite IH. Qed.
Lemma contents_length r : ring_wf r → Z.of_nat (length (contents r)) = count r.
Proof.
  intros Hwf. unfold contents. rewrite omap_length by (intros; by apply slot_Some).
  rewrite length_seqZ. pose proof (count_range r). lia.
Qed.
Lemma ring_full_count r : ring_wf r → ring_full r = (count r =? 19).
Proof.
  intros (_ & ? & ?). unfold ring_full, count, SMSGS_BUFFER_SIZE.
  zbool; try done; exfalso; zdivmod.
Qed.
Lemma ring_empty_count r : ring_wf r → (sMsgsIn r =? sMsgsOut r) = (count r =? 0).
Proof. intros (_ & ? & ?). unfold count. zbool; try done; exfalso; zdivmod. Qed.

(** A producer that is not blocked appends exactly its message. *)
Lemma put_spec fill r :
  ring_wf r →
  if count r =? 19 then put fill r = Blocked
  else ∃ old r', put fill r = Ret r' ∧ ring_wf r' ∧
         contents r' = contents r ++ [fill old] ∧
         sMsgSeqNo r' = sMsgSeqNo r ∧ sMsgSeqNoConn r' = sMsgSeqNoConn r.
Proof.
  intros Hwf. unfold put. rewrite ring_full_count by done.
  pose proof Hwf as (Hl & Hin & Hout).
  destruct (Z.eqb_spec (count r) 19) as [|Hc]; [done|].
  destruct (zget_Some (sMsg r) (sMsgsIn r)) as [old Hold]; [lia|].
  rewrite Hold. cbn. rewrite zset_Some by lia. cbn.
  eexists old, _. split; [done|]. unfold SMSGS_BUFFER_SIZE in *.
  assert (Hi' : 0 ≤ (sMsgsIn r + 1) mod 20 < 20) by (apply Z.mod_pos_bound; lia).
  split_and!; cbn; try (done || lia).
  - split_and!; cbn; rewrite ?length_insert; lia.
  - unfold contents, count; cbn. pose proof (count_range r) as Hcr. unfold count in Hc, Hcr.
    replace (((sMsgsIn r + 1) mod 20 - sMsgsOut r) mod 20) with ((sMsgsIn r - sMsgsOut r) mod 20 + 1) by zdivmod.
    rewrite seqZ_app by lia. rewrite omap_app. f_equal.
    + apply omap_ext_in. intros k [Hk1 Hk2]%elem_of_seqZ. unfold slot, zget; cbn.
      pose proof (Z.mod_pos_bound (sMsgsOut r + k) 20). destruct (Z.ltb_spec ((sMsgsOut r + k) mod 20) 0); [lia|].
      apply list_lookup_insert_ne. intros E. apply Z2Nat.inj in E; [|lia..]. zdivmod.
    + change (seqZ (0 + (sMsgsIn r - sMsgsOut r) mod 20) 1)
        with [0 + (0 + (sMsgsIn r - sMsgsOut r) mod 20)].
      cbn [omap list_omap]. unfold slot; cbn [sMsg sMsgsOut set_field].
      replace ((sMsgsOut r + (0 + (0 + (sMsgsIn r - sMsgsOut r) mod 20))) mod 20) with (sMsgsIn r) by zdivmod.
      unfold zget; cbn. destruct (Z.ltb_spec (sMsgsIn r) 0); [lia|].
      rewrite list_lookup_insert_eq by lia. done.
Qed.

(** The consumer takes the oldest message and keeps the rest in order. *)
Lemma get_spec r :
  ring_wf r →
  if count r =? 0 then get r = Blocked
  else ∃ m r', get r = Ret (m, r') ∧ ring_wf r' ∧ contents r = m :: contents r' ∧
         sMsgSeqNo r' = sMsgSeqNo r ∧ sMsgSeqNoConn r' = sMsgSeqNoConn r.
Proof.
  intros Hwf. unfold get. rewrite ring_empty_count by done.
  pose proof Hwf as (Hl & Hin & Hout).
  destruct (Z.eqb_spec (count r) 0) as [|Hc]; [done|].
  destruct (zget_Some (sMsg r) (sMsgsOut r)) as [m Hm]; [lia|].
  rewrite Hm. cbn. eexists m, _. split; [done|]. unfold SMSGS_BUFFER_SIZE in *.
  assert (Ho' : 0 ≤ (sMsgsOut r + 1) mod 20 < 20) by (apply Z.mod_pos_bound; lia).
  split_and!; cbn; try (done || lia). pose proof (count_range r).
  unfold contents. replace (count r) with (Z.succ (count r - 1)) by lia.
  rewrite seqZ_cons by lia. cbn [omap list_omap]. unfold slot at 1.
  rewrite Z.add_0_r, Z.mod_small, Hm by lia. f_equal.
  unfold count; cbn. pose proof (count_range r) as Hcr. unfold count in Hc, Hcr.
  replace ((sMsgsIn r - (sMsgsOut r + 1) mod 20) mod 20) with ((sMsgsIn r - sMsgsOut r) mod 20 - 1) by zdivmod.
  rewrite Z.pred_succ.
  change (Z.succ 0) with (1 + 0). rewrite <- fmap_add_seqZ, omap_fmap_l.
  apply omap_ext_in. intros k [Hk1 Hk2]%elem_of_seqZ. unfold slot; cbn. f_equal. zdivmod.
Qed.

(** The producers, in one form: [put] of a filling that depends on the ring's
    counters, and which counter it advances. *)
Inductive producer :=
| PQinfoHop (vQinfo vHop src dst : Z)
| PQinfo (vQinfo src dst : Z)
| PCleanup (src : Z)
| PReset (k_src k_dst : Z)
| PStart (vlan src dst : Z).
Definition run_producer (p : producer) : Ring → res Ring :=
  match p with
  | PQinfoHop q h s d => put_qinfo_hop q h s d
  | PQinfo q s d => put_qinfo q s d
  | PCleanup s => SendResetCleanUpPacingMsg s
  | PReset s d => SendResetPacingMsg s d
  | PStart v s d => put_start v s d
  end.
(** The fields a producer assigns (the others keep the slot's old value). *)
Definition message_of (p : producer) (seq : Z) (old : PeerMsg) : PeerMsg :=
  match p with
  | PQinfoHop q h s d => fill_qinfo_hop q h s d old
  | PQinfo q s d => fill_qinfo q s d old
  | PCleanup s => fill_cleanup s old
  | PReset s d => fill_reset s d old
  | PStart v s d => fill_start v s d old
  end <| seq_no := htonl seq |>.
Definition is_start (p : producer) : bool := match p with PStart _ _ _ => true | _ => false end.
(** Sequence number the next message of the producer's kind carries. *)
Definition next_seq (p : producer) (r : Ring) : Z :=
  u32 ((if is_start p then sMsgSeqNoConn r else sMsgSeqNo r) + 1).

Lemma run_producer_spec p r :
  ring_wf r →
  if count r =? 19 then run_producer p r = Blocked
  else ∃ old r', run_producer p r = Ret r' ∧ ring_wf r' ∧
         contents r' = contents r ++ [message_of p (next_seq p r) old] ∧
         (if is_start p then sMsgSeqNoConn r' = next_seq p r ∧ sMsgSeqNo r' = sMsgSeqNo r
          else sMsgSeqNo r' = next_seq p r ∧ sMsgSeqNoConn r' = sMsgSeqNoConn r).
Proof.
  intros Hwf. pose proof (λ f, put_spec f r Hwf) as H.
  assert (∀ fill, (∀ m, fill m = message_of p (next_seq p r) m) →
    if count r =? 19 then put fill r = Blocked else
    ∃ old r', put fill r = Ret r' ∧ ring_wf r' ∧
      contents r' = contents r ++ [message_of p (next_seq p r) old] ∧
      sMsgSeqNo r' = sMsgSeqNo r ∧ sMsgSeqNoConn r' = sMsgSeqNoConn r) as H'.
  { intros fill Hfill. specialize (H fill). destruct (count r =? 19); [done|].
    destruct H as (old & r' & ? & ? & Hc & ?). rewrite Hfill in Hc. eauto 7. }
  clear H.
  destruct p; cbn [run_producer is_start];
    unfold put_qinfo_hop, put_qinfo, SendResetCleanUpPacingMsg, SendResetPacingMsg, put_seq, put_start;
    (match goal with |- context [put ?f r] => specialize (H' f) end);
    (destruct (count r =? 19); [rewrite H' by done; done|]);
    (destruct H' as (old & r' & -> & Hw & Hc & Hs & Hs'); [done|]);
    cbn; eexists old, _; (split; [reflexivity|]); split_and!; cbn; try done;
    rewrite <- Hc; done.
Qed.

(** ** The ring implements the queue interface *)
#[export] Program Instance ring_fifo : BoundedFifo Ring producer PeerMsg := {|
  q_wf := ring_wf;
  q_init := ring_init;
  q_list := contents;
  q_cap := 19;
  q_makes := fun p r m => ∃ old, m = message_of p (next_seq p r) old;
  q_send := run_producer;
  q_recv := get;
|}.
Next Obligation. cbn. lia. Qed.
Next Obligation. apply ring_wf_init. Qed.
Next Obligation. done. Qed.
Next Obligation.
  intros r Hwf. pose proof (contents_length r Hwf). pose proof (count_range r). cbn. lia.
Qed.
Next Obligation.
  intros p r Hwf. pose proof (run_producer_spec p r Hwf) as Hp.
  pose proof (contents_length r Hwf) as Hl. pose proof (count_range r).
  destruct (Z.eqb_spec (count r) 19); [left; split; [done|cbn; lia]|right].
  destruct Hp as (old & r' & ? & ? & ? & _). eexists _, r'. split_and!; eauto. cbn. lia.
Qed.
Next Obligation.
  intros r Hwf. pose proof (get_spec r Hwf) as Hg.
  pose proof (contents_length r Hwf) as Hl.
  destruct (Z.eqb_spec (count r) 0) as [E|].
  - left. split; [done|]. rewrite E in Hl. by destruct (contents r).
  - right. destruct Hg as (m & r' & ? & ? & ? & _). eauto.
Qed.

(** ** Properties *)

(** C2: Whatever the order in which the timer handlers, the telemetry callback,
    the bit-rate thread and the sender enter their critical sections, the messages
    taken so far followed by those in the ring are the messages published, in
    order: none is lost, duplicated or overtaken, and the ring never holds more
    than nineteen. *)
Theorem ring_is_fifo (c : conf Ring PeerMsg) :
  rtc (fifo_step (P := producer)) conf_init c →
  c_sent c = c_recd c ++ contents (c_q c) ∧ (length (contents (c_q c)) ≤ 19)%nat.
Proof. intros [Hwf Hs]%fifo_reachable. split; [exact Hs|]. exact (q_bound _ Hwf). Qed.

Definition demo_reset : producer := PReset 16777226 33554442.
Definition after_put (r : Ring) : Ring := match run_producer demo_reset r with Ret r' => r' | _ => r end.
Lemma ring_is_fifo_witness :
  let r := after_put ring_init in
  ∃ m, contents r = [m] ∧ rtc (fifo_step (P := producer)) conf_init (mkConf r [m] []) ∧
    [m] = [] ++ contents r.
Proof.
  cbv zeta. eexists. split; [vm_compute; reflexivity|].
  assert (rtc (fifo_step (P := producer)) conf_init (mkConf (after_put ring_init) (contents (after_put ring_init)) [])) as H.
  { eapply rtc_once. apply (step_send demo_reset ring_init _ _ [] []); vm_compute; reflexivity. }
  split; [exact H|]. exact (proj1 (ring_is_fifo _ H)).
Defined.
