(* ===== verification/Wakeups.v ===== *)
(** * Waiting and waking at the queue

    [Ring] takes a critical section as one step and a wait as [Blocked].  Here the
    threads that wait are kept: a producer that finds the ring full releases
    [dtn_mutex] and sleeps on [empty] until it is signalled, takes the mutex and
    looks again; the sender sleeps on [full] while the ring is empty; each signals
    the other when it has changed the ring.  [pthread_cond_signal] wakes one of the
    sleepers, whichever the kernel picks, and is lost when nobody sleeps; a sleeper
    may also wake without a signal. *)
From Stdlib Require Import ZArith Lia.
From stdpp Require Import base list numbers relations option.
From S2P Require Import Prelude CString Fifo Ring.
Open Scope Z_scope.

(** ** The threads at the queue *)
Inductive sender_state := Running | AsleepOnFull.
(** The ring; the producers asleep on [empty], in the middle of their critical
    section; those that were woken and have not got the mutex back; the sender. *)
Record Gate := mkGate {
  ga_ring : Ring;
  ga_asleep : list producer;
  ga_woken : list producer;
  ga_sender : sender_state
}.
#[export] Instance eta_Gate : Settable Gate := fun g => mkGate (ga_ring g) (ga_asleep g) (ga_woken g) (ga_sender g).
Definition gate_init : Gate := mkGate ring_init [] [] Running.

(** [Pthread_cond_signal(&full)]: only the sender waits there. *)
Definition signal_full (g : Gate) : Gate := g <| ga_sender := Running |>.
(** [Pthread_cond_signal(&empty)]; [k] is the kernel's pick among the sleepers. *)
Definition signal_empty (k : nat) (g : Gate) : Gate :=
  let k := (k mod length (ga_asleep g))%nat in
  match ga_asleep g !! k with
  | Some p => g <| ga_asleep := delete k (ga_asleep g) |> <| ga_woken := ga_woken g ++ [p] |>
  | None => g
  end.
(** A producer that holds the mutex: it sleeps while the ring is full, and signals
    what it has put. *)
Definition enter (p : producer) (g : Gate) : res Gate :=
  match run_producer p (ga_ring g) with
  | Blocked => Ret (g <| ga_asleep := ga_asleep g ++ [p] |>)
  | Ret r => Ret (signal_full (g <| ga_ring := r |>))
  | Ub => Ub
  end.
(** The [i]-th of those woken gets the mutex and looks again. *)
Definition resume (i : nat) (g : Gate) : res Gate :=
  match ga_woken g !! i with
  | Some p => enter p (g <| ga_woken := delete i (ga_woken g) |>)
  | None => Blocked
  end.
(** The sender gets the mutex, unless it sleeps. *)
Definition take_turn (k : nat) (g : Gate) : res Gate :=
  match ga_sender g with
  | AsleepOnFull => Blocked
  | Running =>
      match get (ga_ring g) with
      | Blocked => Ret (g <| ga_sender := AsleepOnFull |>)
      | Ret (_, r) => Ret (signal_empty k (g <| ga_ring := r |>))
      | Ub => Ub
      end
  end.
Inductive gate_event :=
| Enter (p : producer)
| Resume (i : nat)
| Take (k : nat)
| Spurious (k : nat)         (* a producer wakes without a signal *)
| SpuriousSender.
Definition gate_do (ev : gate_event) (g : Gate) : res Gate :=
  match ev with
  | Enter p => enter p g
  | Resume i => resume i g
  | Take k => take_turn k g
  | Spurious k => Ret (signal_empty k g)
  | SpuriousSender => Ret (g <| ga_sender := Running |>)
  end.
Fixpoint gate_run (evs : list gate_event) (g : Gate) : res Gate :=
  match evs with [] => Ret g | ev :: evs' => g' ← gate_do ev g; gate_run evs' g' end.

(** ** Invariant *)
(** The sender sleeps only at an empty ring; while a producer sleeps, every free
    slot is promised to one that was woken. *)
Record gate_ok (g : Gate) : Prop := {
  go_ring : ring_wf (ga_ring g);
  go_sender : ga_sender g = AsleepOnFull → contents (ga_ring g) = [];
  go_asleep : ga_asleep g ≠ [] → (19 ≤ length (contents (ga_ring g)) + length (ga_woken g))%nat
}.
Lemma gate_ok_init : gate_ok gate_init.
Proof. constructor; [apply ring_wf_init|done|done]. Qed.

(** The ring seen as its contents. *)
Lemma producer_cases p r :
  ring_wf r →
  run_producer p r = Blocked ∧ length (contents r) = 19%nat ∨
  ∃ r' m, run_producer p r = Ret r' ∧ ring_wf r' ∧ contents r' = contents r ++ [m].
Proof.
  intros Hwf. pose proof (run_producer_spec p r Hwf) as H. pose proof (contents_length r Hwf) as Hl.
  destruct (Z.eqb_spec (count r) 19); [left; split; [done|lia]|right]. destruct H as (old & r' & E & Hw & Hc & _). eauto.
Qed.
Lemma get_cases r :
  ring_wf r →
  get r = Blocked ∧ contents r = [] ∨ ∃ m r', get r = Ret (m, r') ∧ ring_wf r' ∧ contents r = m :: contents r'.
Proof.
  intros Hwf. pose proof (get_spec r Hwf) as H. pose proof (contents_length r Hwf) as Hl.
  destruct (Z.eqb_spec (count r) 0); [left; split; [done|destruct (contents r); [done|cbn in Hl; lia]]|right].
  destruct H as (m & r' & E & Hw & Hc & _). eauto.
Qed.
(** A signal wakes one sleeper, if there is one. *)
Lemma signal_cases k g :
  ga_asleep g = [] ∧ signal_empty k g = g ∨
  ∃ i p, ga_asleep g !! i = Some p ∧
    signal_empty k g = g <| ga_asleep := delete i (ga_asleep g) |> <| ga_woken := ga_woken g ++ [p] |>.
Proof.
  unfold signal_empty. destruct (ga_asleep g) as [|p0 l] eqn:E; [by left|right].
  destruct (lookup_lt_is_Some_2 (p0 :: l) (k mod length (p0 :: l))) as [p Hp]; [apply Nat.mod_upper_bound; cbn; lia|].
  rewrite Hp. eauto.
Qed.
Lemma length_delete_lookup {A} (l : list A) i x : l !! i = Some x → length l = S (length (delete i l)).
Proof. intros H. rewrite length_delete by eauto. pose proof (lookup_lt_Some _ _ _ H). lia. Qed.

Lemma enter_ok p g g' :
  ring_wf (ga_ring g) → (ga_sender g = AsleepOnFull → contents (ga_ring g) = []) →
  (ga_asleep g ≠ [] → (19 ≤ length (contents (ga_ring g)) + S (length (ga_woken g)))%nat) →
  enter p g = Ret g' → gate_ok g'.
Proof.
  intros Hr Hs Ha. unfold enter. destruct (producer_cases p (ga_ring g) Hr) as [[-> Hl]|(r & m & -> & Hr' & Hc)]; intros E; simplify_eq.
  - constructor; [done|done|]. intros _. cbn. lia.
  - constructor; [done|done|]. cbn. intros H. rewrite Hc, length_app. specialize (Ha H). cbn. lia.
Qed.
Lemma signal_ok k g :
  ring_wf (ga_ring g) → (ga_sender g = AsleepOnFull → contents (ga_ring g) = []) →
  (ga_asleep g ≠ [] → (19 ≤ length (contents (ga_ring g)) + S (length (ga_woken g)))%nat) →
  gate_ok (signal_empty k g).
Proof.
  intros Hr Hs Ha. destruct (signal_cases k g) as [[E ->]|(i & p & E & ->)].
  - constructor; [done|done|]. by rewrite E.
  - constructor; [done|done|]. cbn. intros _. rewrite length_app. cbn.
    assert (ga_asleep g ≠ []) as H by (by intros H; rewrite H in E). specialize (Ha H). lia.
Qed.
Lemma gate_step_ok ev g g' : gate_ok g → gate_do ev g = Ret g' → gate_ok g'.
Proof.
  intros [Hr Hs Ha]. destruct ev as [p|i|k|k|]; cbn [gate_do].
  - apply enter_ok; [done|done|]. intros H. specialize (Ha H). lia.
  - unfold resume. destruct (ga_woken g !! i) as [p|] eqn:E; [|done]. apply length_delete_lookup in E.
    apply enter_ok; [done|done|]. cbn. intros H. specialize (Ha H). lia.
  - unfold take_turn. destruct (ga_sender g) eqn:Es; [|done].
    destruct (get_cases (ga_ring g) Hr) as [[-> Hc]|(m & r & -> & Hr' & Hc)]; intros E; simplify_eq.
    + by constructor.
    + apply signal_ok; cbn; [done|by rewrite Es|]. intros H. specialize (Ha H). rewrite Hc in Ha. cbn in Ha. lia.
  - intros E. simplify_eq. apply signal_ok; [done|done|]. intros H. specialize (Ha H). lia.
  - intros E. simplify_eq. by constructor.
Qed.
Lemma gate_run_ok evs g g' : gate_ok g → gate_run evs g = Ret g' → gate_ok g'.
Proof.
  revert g. induction evs as [|ev evs IH]; intros g Hg E; cbn [gate_run] in E; [by simplify_eq|].
  inv_bind E as g1 E1. eapply IH; [by eapply gate_step_ok|done].
Qed.

(** ** Progress *)
(** What is left to do: a message to take, a woken producer, a sleeping one. *)
Definition work (g : Gate) : nat :=
  length (contents (ga_ring g)) + 2 * length (ga_woken g) + 3 * length (ga_asleep g).
(** A turn of a thread that is awake, with the kernel's pick [k]. *)
Definition awake_turn (k : nat) (ev : gate_event) : Prop := ev = Take k ∨ ∃ i, ev = Resume i.
Lemma someone_goes_on k g :
  gate_ok g → (0 < work g)%nat → ∃ ev g', awake_turn k ev ∧ gate_do ev g = Ret g' ∧ (work g' < work g)%nat.
Proof.
  intros [Hr Hs Ha] Hw. unfold work in *. destruct (get_cases (ga_ring g) Hr) as [[Hg Hc]|(m & r & Hg & Hr' & Hc)].
  - assert (∃ p l, ga_woken g = p :: l) as (p & l & El).
    { destruct (ga_woken g) as [|p l] eqn:El; [|eauto]. rewrite Hc in Hw. cbn in Hw.
      destruct (ga_asleep g) as [|q l] eqn:Ea; [cbn in Hw; lia|]. rewrite Hc in Ha. specialize (Ha ltac:(done)). cbn in Ha. lia. }
    exists (Resume 0). destruct (producer_cases p (ga_ring g) Hr) as [[_ Hl]|(r & m & E & Hr' & Hc')]; [rewrite Hc in Hl; done|].
    eexists. split; [right; eauto|]. split; [cbn [gate_do]; unfold resume; rewrite El; cbn; unfold enter; cbn; by rewrite E|].
    cbn. rewrite Hc', Hc, El. cbn. lia.
  - assert (ga_sender g = Running) as Es.
    { destruct (ga_sender g) eqn:Es; [done|]. rewrite Hs in Hc by done. done. }
    exists (Take k). eexists. split; [by left|]. split; [cbn [gate_do]; unfold take_turn; by rewrite Es, Hg|].
    destruct (signal_cases k (g <| ga_ring := r |>)) as [[Ea ->]|(i & p & Ea & ->)]; cbn in *; rewrite Hc; cbn.
    + lia.
    + apply length_delete_lookup in Ea. rewrite length_app. cbn. lia.
Qed.
Lemma all_get_through k g :
  gate_ok g → ∃ evs g', Forall (awake_turn k) evs ∧ gate_run evs g = Ret g' ∧ work g' = 0%nat.
Proof.
  remember (work g) as n eqn:En. revert g En. induction (lt_wf n) as [n _ IH]. intros g -> Hg.
  destruct (Nat.eq_dec (work g) 0%nat) as [|Hne]; [by exists [], g|].
  destruct (someone_goes_on k g Hg) as (ev & g1 & Hev & E1 & Hlt); [lia|].
  destruct (IH _ Hlt g1 eq_refl) as (evs & g' & Hevs & E & Hw); [by eapply gate_step_ok|].
  exists (ev :: evs), g'. split; [by constructor|]. cbn [gate_run]. rewrite E1. done.
Qed.
Lemma work_0 g : work g = 0%nat → contents (ga_ring g) = [] ∧ ga_woken g = [] ∧ ga_asleep g = [].
Proof. unfold work. intros H. split_and!; apply nil_length_inv; lia. Qed.

(** ** Properties *)
(** C38: No wake-up is lost.  However any number of producers and the sender come,
    sleep and wake, with or without a signal and in whatever order: the sender
    sleeps only at an empty ring, and while a producer sleeps every free slot is
    promised to one that was woken; so that from every reachable state the turns of
    threads that are awake, whichever sleeper each signal picks, bring all messages
    into the ring and out of it, with nobody left asleep. *)
Theorem no_wakeup_is_lost evs g k :
  gate_run evs gate_init = Ret g →
  (ga_sender g = AsleepOnFull → contents (ga_ring g) = []) ∧
  (ga_asleep g ≠ [] → (19 - length (contents (ga_ring g)) ≤ length (ga_woken g))%nat) ∧
  ∃ evs' g', Forall (awake_turn k) evs' ∧ gate_run evs' g = Ret g' ∧
    contents (ga_ring g') = [] ∧ ga_woken g' = [] ∧ ga_asleep g' = [].
Proof.
  intros E. pose proof (gate_run_ok _ _ _ gate_ok_init E) as Hg. split; [apply Hg|].
  split; [intros H; pose proof (go_asleep g Hg H); lia|].
  destruct (all_get_through k g Hg) as (evs' & g' & Hevs & E' & Hw%work_0). eauto.
Qed.

(** Twenty-one producers come while the sender is away: two sleep.  The sender
    takes one message and wakes one of them; another producer is faster. *)
Definition crowd : list gate_event :=
  replicate 21 (Enter demo_reset) ++ [Take 1; Enter demo_reset; Resume 0].
Lemma no_wakeup_is_lost_witness :
  ∃ g, gate_run crowd gate_init = Ret g ∧ length (ga_asleep g) = 2%nat ∧ ga_woken g = [] ∧
    length (contents (ga_ring g)) = 19%nat ∧
    ∃ evs' g', Forall (awake_turn 0) evs' ∧ gate_run evs' g = Ret g' ∧
      contents (ga_ring g') = [] ∧ ga_woken g' = [] ∧ ga_asleep g' = [].
Proof.
  eexists. split; [vm_compute; reflexivity|]. split; [vm_compute; reflexivity|]. split; [vm_compute; reflexivity|].
  split; [vm_compute; reflexivity|].
  apply (no_wakeup_is_lost crowd). vm_compute. reflexivity.
Defined.
