(* ===== verification/Transport.v ===== *)
(** * Transport between the two DTNs

    [writen]/[Writen] (wrapsomeunix.c) and [readn]/[readn2]/[Readn]/[Readn2]
    (user_dtn.c) over a byte stream, the client loop that drains the message
    queue towards the source DTN, and the decoding done by the server.

    The kernel is an input: the list of what the successive [read]s find, the
    list of what the successive [write]s accept. *)
From Stdlib Require Import ZArith Lia Ascii String.
From stdpp Require Import base list strings numbers option.
From S2P Require Import Prelude CString Fifo Ring.
Open Scope Z_scope.

Definition EINTR := 4.
Definition EPIPE := 32.

(** ** Reading n bytes *)
Inductive rd :=
| RdErr (errno : Z)
| RdData (bs : list Z).
(** What is left of the bytes in flight; the end of the list is end-of-file. *)
Definition sock : Type := list rd.

(** [readn]: the return value, the bytes stored at [vptr], the socket after. *)
Fixpoint readn (s : sock) (nleft : nat) (acc : list Z) : Z * list Z * sock :=
  match nleft with
  | O => (Z.of_nat (length acc), acc, s)
  | _ =>
      match s with
      | [] => (Z.of_nat (length acc), acc, [])
      | RdErr e :: s' => if e =? EINTR then readn s' nleft acc else (-1, acc, s')
      | RdData [] :: s' => (Z.of_nat (length acc), acc, s')
      | RdData bs :: s' =>
          if (length bs <=? nleft)%nat then readn s' (nleft - length bs) (acc ++ bs)
          else (Z.of_nat (length (acc ++ take nleft bs)), acc ++ take nleft bs,
                RdData (drop nleft bs) :: s')
      end
  end.
(** [Readn] reports an error and returns what [readn] returned. *)
Definition Readn (s : sock) (nbytes : nat) : Z * list Z * sock := readn s nbytes [].

(** Bytes a reader can get before an error or the end of the stream. *)
Fixpoint stream (s : sock) : list Z :=
  match s with
  | RdErr e :: s' => if e =? EINTR then stream s' else []
  | RdData [] :: s' => []
  | RdData bs :: s' => bs ++ stream s'
  | [] => []
  end.

(** However the network cuts the stream into pieces, [readn] delivers exactly
    the next [n] bytes and leaves the following ones. *)
Lemma readn_exact s n acc :
  (n ≤ length (stream s))%nat →
  ∃ s', readn s n acc = (Z.of_nat (length acc + n), acc ++ take n (stream s), s') ∧
        stream s' = drop n (stream s).
Proof.
  revert n acc. induction s as [|[e|bs] s IH]; intros n acc Hn; cbn [stream] in *.
  - cbn in Hn. assert (n = 0)%nat as -> by lia. exists []. cbn. rewrite app_nil_r, Nat.add_0_r. done.
  - destruct n as [|n]; cbn [readn].
    + exists (RdErr e :: s). rewrite take_0, app_nil_r, Nat.add_0_r, drop_0. done.
    + destruct (e =? EINTR); [by apply IH|cbn in Hn; lia].
  - destruct n as [|n].
    + exists (RdData bs :: s). cbn. destruct bs; rewrite ?take_0, ?drop_0, app_nil_r, Nat.add_0_r; done.
    + cbn [readn]. destruct bs as [|b bs]; [cbn in Hn; lia|].
      destruct (Nat.leb_spec (length (b :: bs)) (S n)) as [Hle|Hgt].
      * rewrite length_app in Hn. destruct (IH (S n - length (b :: bs))%nat (acc ++ b :: bs)) as (s' & E1 & E2); [lia|].
        rewrite E1.
        exists s'. rewrite length_app, (take_app_ge (b :: bs)), (drop_app_ge (b :: bs)), app_assoc by lia.
        split; [do 2 f_equal; lia|by rewrite E2].
      * eexists. rewrite (take_app_le (b :: bs)), (drop_app_le (b :: bs)) by lia.
        split.
        -- do 2 f_equal. rewrite length_app, length_take. lia.
        -- cbn [stream]. destruct (drop (S n) (b :: bs)) eqn:E; [|done].
           apply (f_equal length) in E. rewrite length_drop in E. cbn in E, Hgt. lia.
Qed.

(** [readn] always stores a prefix of the stream and never more than asked. *)
Lemma readn_prefix s n acc r buf s' :
  readn s n acc = (r, buf, s') →
  ∃ k, (k ≤ n)%nat ∧ buf = acc ++ take k (stream s) ∧ (r = Z.of_nat (length buf) ∨ r = -1).
Proof.
  revert n acc. induction s as [|[e|bs] s IH]; intros n acc; cbn [readn stream]; intros E.
  - exists 0%nat. destruct n; simplify_eq; rewrite app_nil_r; split_and!; auto; lia.
  - destruct n as [|n]; [simplify_eq; exists 0%nat; rewrite take_0, app_nil_r; auto with lia|].
    destruct (e =? EINTR); [by apply IH in E|].
    simplify_eq. exists 0%nat. rewrite app_nil_r. auto with lia.
  - destruct n as [|n]; [simplify_eq; exists 0%nat; rewrite take_0, app_nil_r; auto with lia|].
    destruct bs as [|b bs]; [simplify_eq; exists 0%nat; rewrite app_nil_r; auto with lia|].
    destruct (Nat.leb_spec (length (b :: bs)) (S n)) as [Hle|Hgt].
    + apply IH in E as (k & Hk & -> & Hr). exists (length (b :: bs) + k)%nat.
      rewrite take_app_add, app_assoc. auto with lia.
    + simplify_eq. exists (S n). rewrite (take_app_le (b :: bs)) by lia. auto with lia.
Qed.

(** ** Polling for the peer's close

    [readn2] peeks with [recv(MSG_DONTWAIT|MSG_PEEK)] up to six times; [peek i]
    is what the i-th call returns. *)
Fixpoint readn2_loop (fuel : nat) (peek : nat → Z) (i : nat) (x : Z) : option Z :=
  match fuel with
  | O => None
  | S f =>
      let y := peek i in
      if y =? 0 then Some y
      else if x <? 5 then readn2_loop f peek (S i) (x + 1)
      else Some (-1)
  end.
Definition readn2 (peek : nat → Z) : option Z := readn2_loop 6 peek 0 0.
Definition Readn2 (peek : nat → Z) : option Z := readn2 peek.
(** [read_sock] returns whatever [Readn2] answers. *)
Definition read_sock (peek : nat → Z) : bool :=
  match Readn2 peek with Some _ => true | None => false end.

Lemma readn2_result peek :
  readn2 peek = Some (if existsb (λ i, peek i =? 0) (seq 0 6) then 0 else -1).
Proof.
  unfold readn2. cbn [readn2_loop seq existsb Z.add Pos.add Pos.succ].
  repeat (match goal with |- context [peek ?i =? 0] =>
            let E := fresh in destruct (peek i =? 0) eqn:E; [apply Z.eqb_eq in E; rewrite E|] end;
          cbn; try done).
Qed.

(** ** Writing n bytes *)
Inductive wr :=
| WrErr (errno : Z)
| WrN (k : Z).
(** The loop of [writen]: whether all was written, the bytes handed to the
    kernel, the last [errno].  Running out of kernel answers is a blocked write. *)
Fixpoint writen_loop (ks : list wr) (data : list Z) (errno : Z) : res (bool * list Z * Z) :=
  match data with
  | [] => Ret (true, [], errno)
  | _ =>
      match ks with
      | [] => Blocked
      | WrErr e :: ks' => if e =? EINTR then writen_loop ks' data e else Ret (false, [], e)
      | WrN k :: ks' =>
          if k <=? 0 then Ret (false, [], errno)
          else '(r, out, e) ← writen_loop ks' (drop (Z.to_nat k) data) errno;
               Ret (r, take (Z.to_nat k) data ++ out, e)
      end
  end.
Definition writen (ks : list wr) (data : list Z) (errno : Z) : res (Z * list Z * Z) :=
  '(ok, out, e) ← writen_loop ks data errno;
  Ret (if ok : bool then Z.of_nat (length data) else -1, out, e).
(** [Writen]: 1 on a broken pipe, 0 otherwise (other errors are only reported). *)
Definition Writen (ks : list wr) (data : list Z) (errno : Z) : res (Z * list Z) :=
  '(r, out, e) ← writen ks data errno;
  Ret (if r =? Z.of_nat (length data) then 0 else if e =? EPIPE then 1 else 0, out).
Definition str_cli_nohpn := Writen.
Definition str_cli := Writen.

Lemma writen_loop_spec ks data errno r out e :
  writen_loop ks data errno = Ret (r, out, e) →
  out `prefix_of` data ∧ (r = true ∧ out = data ∨ r = false).
Proof.
  revert data errno r out. induction ks as [|[e'|k] ks IH]; intros data errno r out E;
    destruct data as [|d data]; cbn [writen_loop] in E; simplify_eq; auto.
  - destruct (e' =? EINTR); [eauto|]. simplify_eq. split; [apply prefix_nil|auto].
  - destruct (k <=? 0); [simplify_eq; split; [apply prefix_nil|auto]|].
    inv_bind E as [[r1 o1] e1] H1. simplify_eq.
    apply IH in H1 as [Hp Hr]. split.
    + rewrite <- (take_drop (Z.to_nat k) (d :: data)) at 2. by apply prefix_app.
    + destruct Hr as [[-> ->]|]; [left; split; [done|apply take_drop]|auto].
Qed.

(** Answers that let the loop go on without progress. *)
Definition interruption (w : wr) : bool := match w with WrErr e => e =? EINTR | WrN _ => false end.
Lemma writen_loop_ends ks data errno :
  (length data ≤ length (List.filter (λ w, negb (interruption w)) ks))%nat →
  ∃ r out e, writen_loop ks data errno = Ret (r, out, e).
Proof.
  revert data errno. induction ks as [|w ks IH]; intros data errno Hn;
    destruct data as [|d data]; cbn [writen_loop]; [eauto|cbn in Hn; lia|eauto|].
  destruct w as [e|k]; cbn [List.filter interruption negb] in Hn.
  - destruct (e =? EINTR); [by apply IH|eauto].
  - destruct (Z.leb_spec k 0); [eauto|]. cbn [length] in Hn.
    destruct (IH (drop (Z.to_nat k) (d :: data)) errno) as (r & out & e & ->); [rewrite length_drop; cbn; lia|].
    cbn. eauto.
Qed.

Lemma writen_spec ks data errno r out e :
  writen ks data errno = Ret (r, out, e) →
  out `prefix_of` data ∧ (r = Z.of_nat (length data) ∧ out = data ∨ r = -1).
Proof.
  unfold writen. intros E. inv_bind E as [[ok o] e'] H1. simplify_eq.
  apply writen_loop_spec in H1 as [? [[-> ->]| ->]]; auto.
Qed.

(** ** The client: [fDoRunSendMessageToPeer]

    One turn of the endless loop: take the oldest message, connect to the
    address written in it and write it with its addresses in network order.
    [connect_rc a] is the value of [Connect] to [a] (wrapsomeunix.c), which has no
    return statement: what its caller sees is left to the compiler. *)
Inductive send_result :=
| NoSource                              (* address zero: message dropped *)
| ConnectFailed (addr : Z)              (* message dropped *)
| Sent (addr : Z) (wire : PeerMsg).
Definition wire_of (m : PeerMsg) : PeerMsg :=
  m <| src_ip_addr := htonl (src_ip_addr m) |> <| dst_ip_addr := htonl (dst_ip_addr m) |>.
Definition send_message (connect_rc : Z → Z) (m : PeerMsg) : option send_result :=
  if src_ip_addr m =? 0 then Some NoSource else
  let aSrc_Ip := ip_string (src_ip_addr m) in
  addr ← inet_pton aSrc_Ip;
  if negb (connect_rc addr =? 0) then Some (ConnectFailed addr)
  else Some (Sent addr (wire_of m)).
Definition fDoRunSendMessageToPeer (connect_rc : Z → Z) (r : Ring) : res (send_result * Ring) :=
  '(m, r') ← get r;
  a ← of_opt (send_message connect_rc m);
  Ret (a, r').

(** All that one turn does with the message it took: the socket, the report
    of MTUs for the first start-of-traffic message of a destination
    ([aDst_IpPrev]), and what follows the message. *)
Inductive client_act :=
| ActSocket
| ActMtuInfo (aDst_Ip : string)
| ActConnect (addr : Z)
| ActWrite (wire : PeerMsg)
| ActShutdown
| ActReadSock
| ActClose.
Definition client_turn (vDebugLevel : Z) (connect_rc : Z → Z) (shutdown_rc : Z) (m : PeerMsg) (aDst_IpPrev : string)
    : option (list client_act * string) :=
  if src_ip_addr m =? 0 then Some ([ActSocket], aDst_IpPrev) else
  let aDst_Ip := ip_string (dst_ip_addr m) in
  let mtu := (msg_no m =? 0) && (0 <? vDebugLevel) && negb (String.eqb aDst_Ip aDst_IpPrev) in
  let acts := ActSocket :: (if mtu then [ActMtuInfo aDst_Ip] else []) in
  addr ← inet_pton (ip_string (src_ip_addr m));
  if negb (connect_rc addr =? 0) then Some (acts ++ [ActConnect addr], aDst_Ip)
  else Some (acts ++ [ActConnect addr; ActWrite (wire_of m); ActShutdown] ++
             (if shutdown_rc =? 0 then [ActReadSock] else []) ++ [ActClose], aDst_Ip).

Definition written (acts : list client_act) : list PeerMsg :=
  omap (λ a, match a with ActWrite w => Some w | _ => None end) acts.
Definition sockets_left (acts : list client_act) : Z :=
  foldr (λ a n, match a with ActSocket => n + 1 | ActClose => n - 1 | _ => n end) 0 acts.
(** A turn writes what [send_message] says, and leaves its socket open exactly
    when it writes nothing. *)
Lemma client_turn_sends dbg conn sh m prev acts prev' :
  client_turn dbg conn sh m prev = Some (acts, prev') →
  match send_message conn m with
  | Some (Sent _ w) => written acts = [w] ∧ sockets_left acts = 0
  | Some _ => written acts = [] ∧ sockets_left acts = 1
  | None => False
  end.
Proof.
  unfold client_turn, send_message. destruct (src_ip_addr m =? 0); [by intros [= <- <-]|].
  destruct (inet_pton _) as [addr|]; [|done]. cbn [mbind option_bind].
  destruct (negb _); intros E; injection E as <- <-; repeat case_match; done.
Qed.

(** ** The server's view of a message (head of [process_request])

    Number, value, hop delay, and the two addresses in host order with their
    text; the cleanup message carries no destination, and an unknown number
    leaves the addresses of the previous message in place. *)
Record Request := mkRequest {
  rq_no : Z; rq_value : Z; rq_hop_delay : Z; rq_src : Z; rq_dst : Z
}.
#[export] Instance Request_eq_dec : EqDecision Request.
Proof. solve_decision. Defined.
Definition decode (prev_src prev_dst : Z) (m : PeerMsg) : Request :=
  let no := ntohl (msg_no m) in
  let two := (no =? QINFO_MSG) || (no =? TEST_MSG) || (no =? RESET_PACING_MSG) in
  {| rq_no := no; rq_value := ntohl (value m); rq_hop_delay := ntohl (vHopDelay m);
     rq_src := if two || (no =? CLEANUP_RESET_PACING_MSG) then ntohl (src_ip_addr m) else prev_src;
     rq_dst := if two then ntohl (dst_ip_addr m) else prev_dst |}.

Definition producer_ok (p : producer) : Prop :=
  match p with
  | PQinfoHop q h s d => is_u32 q ∧ is_u32 h ∧ is_u32 s ∧ is_u32 d ∧ s ≠ 0
  | PQinfo q s d => is_u32 q ∧ is_u32 s ∧ is_u32 d ∧ s ≠ 0
  | PCleanup s => is_u32 s ∧ s ≠ 0
  | PReset s d => is_u32 s ∧ is_u32 d ∧ s ≠ 0
  | PStart v s d => is_u32 s ∧ is_u32 d ∧ s ≠ 0
  end.
(** What the producer meant to say. *)
Definition request_of (p : producer) (stale_delay prev_dst : Z) : Request :=
  match p with
  | PQinfoHop q h s d => mkRequest QINFO_MSG q h s d
  | PQinfo q s d => mkRequest QINFO_MSG q 0 s d
  | PCleanup s => mkRequest CLEANUP_RESET_PACING_MSG 0 0 s prev_dst
  | PReset s d => mkRequest RESET_PACING_MSG 0 0 (ntohl s) (ntohl d)
  | PStart _ s d => mkRequest TEST_MSG 0 stale_delay s d
  end.
(** The peer a message is meant for. *)
Definition peer_of (p : producer) : Z :=
  match p with
  | PQinfoHop _ _ s _ | PQinfo _ s _ | PCleanup s | PStart _ s _ => s
  | PReset s _ => ntohl s
  end.

Lemma htonl_nonzero x : is_u32 x → x ≠ 0 → htonl x ≠ 0.
Proof. intros Hx Hne E. apply Hne. rewrite <- (htonl_htonl x), E by done. done. Qed.

Lemma send_message_ok conn m :
  is_u32 (src_ip_addr m) → src_ip_addr m ≠ 0 →
  send_message conn m =
    Some (if conn (src_ip_addr m) =? 0 then Sent (src_ip_addr m) (wire_of m)
          else ConnectFailed (src_ip_addr m)).
Proof.
  intros Hu Hne. unfold send_message. apply Z.eqb_neq in Hne as ->.
  rewrite inet_pton_ip_string by done. cbn. by destruct (conn (src_ip_addr m) =? 0).
Qed.

Lemma decode_wire p seq old psrc pdst :
  producer_ok p →
  decode psrc pdst (wire_of (message_of p seq old)) = request_of p (ntohl (vHopDelay old)) pdst.
Proof.
  unfold decode, wire_of. destruct p; cbn; intros; destruct_and?; rewrite ?ntohl_htonl by (done || apply htonl_range); done.
Qed.

(** One turn of the sender: the oldest message goes to its peer. *)
Lemma head_message_sent conn p seq old ms r :
  ring_wf r → producer_ok p → contents r = message_of p seq old :: ms →
  ∃ r', fDoRunSendMessageToPeer conn r =
      Ret (if conn (peer_of p) =? 0 then Sent (peer_of p) (wire_of (message_of p seq old)) else ConnectFailed (peer_of p), r') ∧
    contents r' = ms ∧ ring_wf r'.
Proof.
  intros Hwf Hp Hc. pose proof (get_spec r Hwf) as Hg. pose proof (contents_length r Hwf) as Hl.
  rewrite Hc in Hl. cbn in Hl. destruct (Z.eqb_spec (count r) 0); [lia|].
  destruct Hg as (m & r' & Hg & Hwf' & Hc' & _). rewrite Hc in Hc'. injection Hc' as <- Hms.
  exists r'. split_and!; [|done|done].
  assert (src_ip_addr (message_of p seq old) = peer_of p) as Hsrc by (by destruct p).
  unfold fDoRunSendMessageToPeer. rewrite Hg. cbn [mbind res_bind].
  rewrite send_message_ok, Hsrc; [done| |].
  - rewrite Hsrc. destruct p; cbn in Hp |- *; destruct_and?; try done; apply htonl_range.
  - rewrite Hsrc. destruct p; cbn in Hp |- *; destruct_and?; try done. by apply htonl_nonzero.
Qed.

(** ** Properties *)

(** C28: [writen] ends: an answer of the kernel that is not an interruption takes
    at least one byte or ends the loop, so as many of them as there are bytes
    suffice, however many interruptions come between.  It has then handed over
    a prefix of the data, all of it exactly when it says so. *)
Theorem writen_terminates ks data errno :
  (length data ≤ length (List.filter (λ w, negb (interruption w)) ks))%nat →
  ∃ r out e, writen ks data errno = Ret (r, out, e) ∧ out `prefix_of` data ∧
    (r = Z.of_nat (length data) ∧ out = data ∨ r = -1).
Proof.
  intros Hn. destruct (writen_loop_ends ks data errno Hn) as (ok & out & e & E).
  assert (writen ks data errno = Ret (if ok then Z.of_nat (length data) else -1, out, e)) as E'
    by (unfold writen; by rewrite E).
  eexists _, out, e. split; [exact E'|]. exact (writen_spec _ _ _ _ _ _ E').
Qed.
Lemma writen_terminates_witness :
  ∃ r out e, writen [WrErr EINTR; WrN 2; WrErr EINTR; WrErr EINTR; WrN 1; WrErr EPIPE] [7; 8; 9] 0 = Ret (r, out, e) ∧
    out `prefix_of` [7; 8; 9] ∧ (r = 3 ∧ out = [7; 8; 9] ∨ r = -1).
Proof. apply (writen_terminates _ [7; 8; 9]). vm_compute. repeat constructor. Defined.

(** However the connection cuts the bytes into pieces and however often a
    read is interrupted, reading the length that was written delivers exactly the
    bytes written and leaves the following ones unread. *)
Theorem written_bytes_are_read ks data errno out e s rest :
  writen ks data errno = Ret (Z.of_nat (length data), out, e) → stream s = out ++ rest →
  ∃ s', Readn s (length data) = (Z.of_nat (length data), data, s') ∧ stream s' = rest.
Proof.
  intros [_ [[_ ->]|Hn]]%writen_spec Hs; [|lia]. unfold Readn.
  destruct (readn_exact s (length data) []) as (s' & -> & Hs'); [rewrite Hs, length_app; lia|].
  exists s'. rewrite Hs' , Hs, take_app_length, drop_app_length. done.
Qed.

Lemma written_bytes_are_read_witness :
  writen [WrErr EINTR; WrN 2; WrN 3] [1; 2; 3; 4; 5] 0 = Ret (5, [1; 2; 3; 4; 5], EINTR) ∧
  Readn [RdData [1]; RdErr EINTR; RdData [2; 3; 4]; RdData [5; 9]] 5 = (5, [1; 2; 3; 4; 5], [RdData [9]]).
Proof.
  split; [reflexivity|].
  destruct (written_bytes_are_read [WrErr EINTR; WrN 2; WrN 3] [1; 2; 3; 4; 5] 0 [1; 2; 3; 4; 5] EINTR
    [RdData [1]; RdErr EINTR; RdData [2; 3; 4]; RdData [5; 9]] [9]) as (s' & E & Hs); [reflexivity|reflexivity|].
  vm_compute in E. injection E as <-. reflexivity.
Defined.

(** C3: The message at the head of the queue is sent to the DTN it is about, and
    what that DTN decodes is what the producer reported (the delay field of a
    start-of-traffic message apart, which is whatever the slot held before).  A
    failed connection drops the message. *)
Theorem head_message_reaches_peer conn p seq old ms prev_src prev_dst r :
  ring_wf r → producer_ok p → contents r = message_of p seq old :: ms →
  ∃ r' wire, fDoRunSendMessageToPeer conn r =
      Ret (if conn (peer_of p) =? 0 then Sent (peer_of p) wire else ConnectFailed (peer_of p), r') ∧
    contents r' = ms ∧ decode prev_src prev_dst wire = request_of p (ntohl (vHopDelay old)) prev_dst.
Proof.
  intros Hwf Hp Hc. destruct (head_message_sent conn p seq old ms r Hwf Hp Hc) as (r' & E & Hms & _).
  exists r', (wire_of (message_of p seq old)). split_and!; [done|done|by apply decode_wire].
Qed.

Definition demo_report : producer := PQinfoHop 5000 600000 16777226 33554442.
Definition demo_ring : Ring := match run_producer demo_report ring_init with Ret r => r | _ => ring_init end.
Lemma head_message_reaches_peer_witness :
  ∃ r' wire, fDoRunSendMessageToPeer (λ _, 0) demo_ring = Ret (Sent 16777226 wire, r') ∧ contents r' = [] ∧
    decode 0 0 wire = mkRequest QINFO_MSG 5000 600000 16777226 33554442.
Proof.
  apply (head_message_reaches_peer (λ _, 0) demo_report 1 zero_msg [] 0 0 demo_ring).
  - vm_compute. repeat split; discriminate.
  - vm_compute. repeat split; discriminate.
  - vm_compute. reflexivity.
Defined.
