(* ===== verification/DtnTables.v ===== *)
(** * The tables of DTNs in conversation

    [aSrc_Dtn_IPs] (the sources this host receives from, filled by the telemetry
    callback) and [aDest_Dtn_IPs] (the destinations that report to this host,
    filled by [fDoRunGetMessageFromPeer]): ten slots each, a slot with address 0
    is free.  The house-keeping timer removes the entries that have been silent
    for [vHouseTime] seconds and clears the role flag of an empty table.

    The scan, the refresh/occupy step and the sweep are the same code on both
    entry types, so they are modelled once over an interface of entries; the
    abstract value of a table is the finite map from address to last activity. *)
From Stdlib Require Import ZArith Lia Ascii String.
From stdpp Require Import base list gmap strings numbers option.
From S2P Require Import Prelude CString Dbl.
Open Scope Z_scope.

Definition MAX_NUM_IP_ATTACHED := 10.
Definition vHouseTime := 18.

(** What the table code needs of an entry. *)
Class DtnEntry (E : Type) := {
  e_ip : E → Z;
  e_last : E → Z;
  e_zero : E;
  e_zero_ip : e_ip e_zero = 0
}.

Inductive scan_result :=
| IpFound (i : Z)
| IpMissing (first_plus_1 : Z).
(** The search loop: the first entry equal to [ip], or one more than the index
    of the first free entry met (0 when there was none). *)
Fixpoint scan (ips : list Z) (ip i first : Z) : scan_result :=
  match ips with
  | [] => IpMissing first
  | a :: ips' =>
      if a =? ip then IpFound i
      else scan ips' ip (i + 1) (if (a =? 0) && (first =? 0) then i + 1 else first)
  end.

Section Table.
Context {E : Type} `{DtnEntry E}.
Implicit Types (es : list E) (n : Z).

(** The loop of [tHouseKeeping_TimerID_Handler] over one table; [now i] is the
    clock read for entry [i]. *)
Fixpoint house_loop (now : nat → Z) (i : nat) es n : list E * Z :=
  match es with
  | [] => ([], n)
  | e :: es' =>
      let stale := negb (e_ip e =? 0) && (vHouseTime <=? now i - e_last e) in
      let '(rest, n') := house_loop now (S i) es' (if stale then u32 (n - 1) else n) in
      ((if stale then e_zero else e) :: rest, n')
  end.

(** Entries in use, and the abstract table. *)
Definition used es : nat := length (filter (λ e, e_ip e ≠ 0) es).
Definition table_abs es : gmap Z Z :=
  list_to_map ((λ e, (e_ip e, e_last e)) <$> filter (λ e, e_ip e ≠ 0) es).
Definition distinct es : Prop := NoDup (e_ip <$> filter (λ e, e_ip e ≠ 0) es).
Record table_wf es n : Prop := {
  wf_len : length es = 10%nat;
  wf_distinct : distinct es;
  wf_count : n = Z.of_nat (used es)
}.

Lemma used_le es : (used es ≤ length es)%nat.
Proof. apply length_filter. Qed.

Lemma table_abs_lookup es a t :
  distinct es →
  table_abs es !! a = Some t ↔ a ≠ 0 ∧ ∃ i e, es !! i = Some e ∧ e_ip e = a ∧ e_last e = t.
Proof.
  intros Hd. unfold table_abs. rewrite <- elem_of_list_to_map.
  - rewrite list_elem_of_fmap. split.
    + intros (e & [= -> ->] & [He [i Hi]%list_elem_of_lookup]%list_elem_of_filter). eauto 6.
    + intros (Ha & i & e & Hi & <- & <-). exists e. split; [done|].
      apply list_elem_of_filter. split; [done|]. by eapply list_elem_of_lookup_2.
  - rewrite <- list_fmap_compose. exact Hd.
Qed.

Lemma distinct_lookup es i j e e' :
  distinct es → es !! i = Some e → es !! j = Some e' → e_ip e = e_ip e' → e_ip e ≠ 0 → i = j.
Proof.
  unfold distinct. revert i j. induction es as [|x es IH]; intros i j Hd Hi Hj He Hne; [done|].
  destruct i as [|i], j as [|j]; cbn in Hi, Hj; simplify_eq; [done| | |].
  - rewrite filter_cons_True in Hd by done. cbn in Hd. pose proof (NoDup_cons_1_1 _ _ Hd) as Hn.
    exfalso. apply Hn. rewrite He. apply list_elem_of_fmap_2, list_elem_of_filter.
    split; [congruence|]. by eapply list_elem_of_lookup_2.
  - rewrite filter_cons_True in Hd by congruence. cbn in Hd. pose proof (NoDup_cons_1_1 _ _ Hd) as Hn.
    exfalso. apply Hn. rewrite <- He. apply list_elem_of_fmap_2, list_elem_of_filter.
    split; [congruence|]. by eapply list_elem_of_lookup_2.
  - f_equal. eapply IH; eauto. rewrite filter_cons in Hd. case_decide; [|done].
    cbn in Hd. by eapply NoDup_cons_1_2.
Qed.

Lemma distinct_intro es :
  (∀ i j e e', es !! i = Some e → es !! j = Some e' → e_ip e = e_ip e' → e_ip e ≠ 0 → i = j) →
  distinct es.
Proof.
  unfold distinct. induction es as [|x es IH]; intros Hu; [constructor|].
  assert (NoDup (e_ip <$> filter (λ e, e_ip e ≠ 0) es)) as Hes.
  { apply IH. intros i j e e' ???? . assert (S i = S j); [|lia]. by eapply (Hu (S i) (S j)). }
  rewrite filter_cons. case_decide as Hx; [|done]. cbn. constructor; [|done].
  intros (e & Ee & [He [i Hi]%list_elem_of_lookup]%list_elem_of_filter)%list_elem_of_fmap.
  by specialize (Hu O (S i) x e eq_refl Hi Ee Hx).
Qed.

Lemma used_insert es i e e' :
  es !! i = Some e →
  Z.of_nat (used (<[i := e']> es)) =
    Z.of_nat (used es) - (if decide (e_ip e = 0) then 0 else 1) + (if decide (e_ip e' = 0) then 0 else 1).
Proof.
  unfold used. revert i. induction es as [|x es IH]; intros i Hi; [done|].
  destruct i as [|i]; cbn in Hi; simplify_eq.
  - change (<[0%nat := e']> (e :: es)) with (e' :: es). rewrite !filter_cons.
    repeat case_decide; cbn [length]; try lia; tauto.
  - change (<[S i := e']> (x :: es)) with (x :: <[i := e']> es). rewrite !filter_cons.
    specialize (IH i Hi). destruct (decide (e_ip e = 0)), (decide (e_ip e' = 0));
      case_decide; cbn [length]; lia.
Qed.

(** Overwriting slot [i], free or already of this address, with an entry of a
    non-zero address that is nowhere else. *)
Lemma table_put es n i e e' :
  table_wf es n → es !! i = Some e → e_ip e' ≠ 0 →
  (∀ j x, es !! j = Some x → e_ip x = e_ip e' → j = i) →
  (e_ip e = 0 ∨ e_ip e = e_ip e') →
  let n' := if decide (e_ip e = 0) then n + 1 else n in
  table_wf (<[i := e']> es) n' ∧
  table_abs (<[i := e']> es) = <[e_ip e' := e_last e']> (table_abs es).
Proof.
  intros [Hl Hd Hn] Hi He' Hfresh Hslot n'.
  pose proof (lookup_lt_Some _ _ _ Hi) as Hlt.
  assert (distinct (<[i := e']> es)) as Hd'.
  { apply distinct_intro. intros j k x y Hj Hk Exy Hx.
    rewrite list_lookup_insert in Hj, Hk.
    repeat case_decide; destruct_and?; subst; simplify_eq; try done.
    all: first [by eapply (distinct_lookup es) | by eapply Hfresh | symmetry; by eapply Hfresh]. }
  split.
  - split; [by rewrite length_insert|done|]. rewrite (used_insert es i e e' Hi). subst n'.
    repeat case_decide; try tauto; lia.
  - apply map_eq. intros a. apply option_eq. intros t.
    rewrite lookup_insert_Some, !table_abs_lookup by done.
    split.
    + intros (Ha & j & x & Hj & <- & <-). rewrite list_lookup_insert in Hj.
      case_decide; destruct_and?; simplify_eq; [by left|].
      right. split; [|eauto 6]. intros E'. assert (j = i) as -> by eauto. destruct_or?; destruct_and?; naive_solver lia.
    + intros [[<- <-]|(Ha & Ha0 & j & x & Hj & <- & <-)].
      * split; [done|]. exists i, e'. by rewrite list_lookup_insert_eq.
      * split; [done|]. exists j, x. split; [|done]. rewrite list_lookup_insert_ne; [done|].
        intros ->. simplify_eq. destruct Hslot; congruence.
Qed.

Lemma house_loop_lookup now i es n j :
  (house_loop now i es n).1 !! j =
    (λ e, if negb (e_ip e =? 0) && (vHouseTime <=? now (i + j)%nat - e_last e) then e_zero else e) <$> es !! j.
Proof.
  revert i n j. induction es as [|e es IH]; intros i n j; cbn [house_loop]; [done|].
  case_match eqn:EH. cbn. destruct j as [|j]; cbn.
  - by rewrite Nat.add_0_r.
  - change l with (l, z).1. rewrite <- EH, IH. by rewrite Nat.add_succ_r.
Qed.
Lemma house_loop_length now i es n : length (house_loop now i es n).1 = length es.
Proof.
  revert i n. induction es as [|e es IH]; intros i n; cbn [house_loop]; [done|].
  case_match eqn:EH. cbn. f_equal. change l with (l, z).1. by rewrite <- EH.
Qed.
Lemma house_loop_count now i es n :
  Z.of_nat (used es) ≤ n < 2 ^ 32 →
  (house_loop now i es n).2 =
    n - Z.of_nat (used es) + Z.of_nat (used (house_loop now i es n).1).
Proof.
  revert i n. induction es as [|e es IH]; intros i n Hn; cbn [house_loop]; [cbn; lia|].
  case_match eqn:EH. cbn [snd fst].
  pose proof (f_equal snd EH) as E2. pose proof (f_equal fst EH) as E1. cbn in E1, E2. subst l z.
  unfold used in *. rewrite !filter_cons in *.
  destruct (Z.eqb_spec (e_ip e) 0) as [Hz|Hz]; cbn [negb andb].
  - rewrite decide_False in Hn by tauto. rewrite !decide_False by tauto. rewrite IH by done. lia.
  - rewrite decide_True in Hn by done. rewrite (decide_True (P := e_ip e ≠ 0)) by done.
    cbn [length] in *. destruct (vHouseTime <=? now i - e_last e).
    + rewrite IH by (rewrite u32_small; unfold is_u32; lia).
      rewrite decide_False by (rewrite e_zero_ip; tauto). rewrite u32_small by (unfold is_u32; lia). lia.
    + rewrite IH by lia. rewrite decide_True by done. cbn [length]. lia.
Qed.

(** The sweep removes exactly the silent entries. *)
Lemma house_loop_wf now es n :
  table_wf es n → table_wf (house_loop now 0 es n).1 (house_loop now 0 es n).2.
Proof.
  intros [Hl Hd ->]. pose proof (used_le es).
  assert (Z.of_nat (used es) ≤ Z.of_nat (used es) < 2 ^ 32) as Hu by lia.
  split; [by rewrite house_loop_length| |rewrite house_loop_count by done; lia].
  apply distinct_intro. intros i j e e' Hi Hj He Hne. rewrite house_loop_lookup in Hi, Hj.
  apply fmap_Some in Hi as (x & Hi & ->), Hj as (y & Hj & ->).
  pose proof e_zero_ip. repeat case_match; try congruence. by eapply (distinct_lookup es).
Qed.
Lemma house_loop_abs now es n t0 t1 ip t :
  table_wf es n → (∀ i, t0 ≤ now i ≤ t1) → table_abs es !! ip = Some t →
  (t1 - t < vHouseTime → table_abs (house_loop now 0 es n).1 !! ip = Some t) ∧
  (vHouseTime ≤ t0 - t → table_abs (house_loop now 0 es n).1 !! ip = None).
Proof.
  intros Hwf Hnow Ht. pose proof (house_loop_wf now es n Hwf) as [_ Hd' _].
  destruct Hwf as [_ Hd _]. rewrite table_abs_lookup in Ht by done.
  destruct Ht as (Hne & i & e & Hi & Hip & Hlast). pose proof (Hnow i) as Hi'.
  apply Z.eqb_neq in Hne as Hb. split; intros Hs.
  - apply table_abs_lookup; [done|]. split; [done|]. exists i, e. split; [|done].
    rewrite house_loop_lookup, Hi. cbn. destruct (Z.leb_spec vHouseTime (now i - e_last e)); [lia|].
    by rewrite andb_false_r.
  - apply eq_None_not_Some. intros [t' Ht']. apply table_abs_lookup in Ht' as (_ & j & e' & Hj & Hip' & _); [|done].
    rewrite house_loop_lookup in Hj. apply fmap_Some in Hj as (x & Hj & Hx). subst e'.
    pose proof e_zero_ip. destruct (negb _ && _) eqn:Hc; [congruence|].
    assert (i = j) as <- by (eapply (distinct_lookup es); eauto; congruence). simplify_eq.
    rewrite Hb in Hc. cbn in Hc. apply Z.leb_gt in Hc. lia.
Qed.
Lemma house_loop_subset now es n ip t :
  table_wf es n → table_abs (house_loop now 0 es n).1 !! ip = Some t → table_abs es !! ip = Some t.
Proof.
  intros Hwf Ht. pose proof (house_loop_wf now es n Hwf) as [_ Hd' _]. destruct Hwf as [_ Hd _].
  apply table_abs_lookup in Ht as (Hne & i & e & Hi & Hip & Hl); [|done].
  apply table_abs_lookup; [done|]. split; [done|]. rewrite house_loop_lookup in Hi.
  apply fmap_Some in Hi as (x & Hi & ->). pose proof e_zero_ip. case_match; [congruence|]. eauto.
Qed.

(** The search finds the entry of [ip], or else the first free slot. *)
Lemma scan_found_or_free es ip i0 first :
  0 ≤ first → 0 ≤ i0 →
  match scan (e_ip <$> es) ip i0 first with
  | IpFound i => ∃ k e, i = i0 + Z.of_nat k ∧ es !! k = Some e ∧ e_ip e = ip
  | IpMissing f =>
      (∀ k e, es !! k = Some e → e_ip e ≠ ip) ∧
      (f = first ∧ (first = 0 → ∀ k e, es !! k = Some e → e_ip e ≠ 0) ∨
       first = 0 ∧ ∃ k e, f = i0 + Z.of_nat k + 1 ∧ es !! k = Some e ∧ e_ip e = 0)
  end.
Proof.
  revert i0 first. induction es as [|x es IH]; intros i0 first Hf Hi; cbn [scan fmap list_fmap].
  - split; [done|]. left. done.
  - destruct (Z.eqb_spec (e_ip x) ip) as [Hx|Hx].
    { exists O, x. cbn. split_and!; [lia|done|done]. }
    set (first' := if (e_ip x =? 0) && (first =? 0) then i0 + 1 else first).
    assert (0 ≤ first') by (subst first'; case_match; lia).
    specialize (IH (i0 + 1) first' ltac:(done) ltac:(lia)).
    destruct (scan (e_ip <$> es) ip (i0 + 1) first') as [i|f].
    + destruct IH as (k & e & -> & ? & ?). exists (S k), e. split_and!; [lia|done|done].
    + destruct IH as [Hno Hf']. split; [intros [|k] e; cbn; intros; simplify_eq; eauto|].
      subst first'. destruct (Z.eqb_spec (e_ip x) 0) as [Hx0|Hx0], (Z.eqb_spec first 0) as [Hf0|Hf0]; cbn in Hf'.
      * right. split; [done|]. destruct Hf' as [[-> _]|[? _]]; [|lia]. exists O, x. cbn. split_and!; [lia|done|done].
      * left. destruct Hf' as [[-> _]|[? _]]; [|lia]. split; [done|lia].
      * destruct Hf' as [[-> Hall]|[-> (k & e & -> & ? & ?)]].
        -- left. split; [done|]. intros _ [|k] e; cbn; intros; simplify_eq; eauto.
        -- right. split; [done|]. exists (S k), e. split_and!; [lia|done|done].
      * left. destruct Hf' as [[-> _]|[? _]]; [|lia]. split; [done|lia].
Qed.
Lemma scan_missing_full es ip f :
  scan (e_ip <$> es) ip 0 0 = IpMissing f → used es = length es → f = 0.
Proof.
  intros Hs Hu. pose proof (scan_found_or_free es ip 0 0) as H1. rewrite Hs in H1.
  destruct H1 as [_ [[-> _]|[_ (k & e & _ & Hk & He)]]]; [done..|].
  exfalso. assert (∀ k e, es !! k = Some e → e_ip e ≠ 0) as Hall; [|by eapply Hall].
  clear -Hu. unfold used in Hu. revert Hu. induction es as [|x es IH]; intros Hu k e Hk; [done|].
  rewrite filter_cons in Hu. pose proof (length_filter (λ e, e_ip e ≠ 0) es).
  case_decide; cbn in Hu; [|lia]. destruct k as [|k]; cbn in Hk; simplify_eq; eauto.
Qed.
Lemma used_room es : (used es < length es)%nat → ∃ k e, es !! k = Some e ∧ e_ip e = 0.
Proof.
  unfold used. induction es as [|x es IH]; cbn [length]; [lia|]. rewrite filter_cons.
  case_decide as Hx; cbn [length].
  - intros. destruct IH as (k & e & ? & ?); [lia|]. by exists (S k), e.
  - intros _. exists O, x. split; [done|]. by destruct (decide (e_ip x = 0)).
Qed.
End Table.

(** ** The entries *)
(** [sSrc_Dtn_IPs_t], without the port list, which nothing uses. *)
Record sSrc_Dtn_IPs_t := mkSrc {
  es_src_ip_addr : Z;
  es_aSrc_Ip2 : string;
  es_last_time_ip : Z;
  es_currently_exist : bool
}.
#[export] Instance eta_Src : Settable sSrc_Dtn_IPs_t := fun e =>
  mkSrc (es_src_ip_addr e) (es_aSrc_Ip2 e) (es_last_time_ip e) (es_currently_exist e).
#[export] Instance src_entry : DtnEntry sSrc_Dtn_IPs_t := {|
  e_ip := es_src_ip_addr; e_last := es_last_time_ip; e_zero := mkSrc 0 "" 0 false; e_zero_ip := eq_refl
|}.

(** [sRetransmission_Cntrs_t] *)
Record sRetransmission_Cntrs_t := mkCntrs {
  total_retrans : Z;
  packets_sent : Z;
  int_total_retrans : Z;
  int_packets_sent : Z;
  vRateCount : Z;
  fRateArrayDone : bool;
  found : bool;
  vRetransmissionRate : double
}.
#[export] Instance eta_Cntrs : Settable sRetransmission_Cntrs_t := fun c =>
  mkCntrs (total_retrans c) (packets_sent c) (int_total_retrans c) (int_packets_sent c)
    (vRateCount c) (fRateArrayDone c) (found c) (vRetransmissionRate c).
Definition cntrs_zero : sRetransmission_Cntrs_t := mkCntrs 0 0 0 0 0 false false dzero.

(** [sDest_Dtn_IPs_t], without the unused [vIsVlan]. *)
Record sDest_Dtn_IPs_t := mkDest {
  ed_dest_ip_addr : Z;
  ed_aDest_Ip2 : string;
  ed_aDest_Ip2_Binary : string;
  ed_last_time_ip : Z;
  ed_currently_exist : bool;
  vThis_app_tx_Gbits_per_sec : double;
  sRetransmission_Cntrs : sRetransmission_Cntrs_t
}.
#[export] Instance eta_Dest : Settable sDest_Dtn_IPs_t := fun e =>
  mkDest (ed_dest_ip_addr e) (ed_aDest_Ip2 e) (ed_aDest_Ip2_Binary e) (ed_last_time_ip e)
    (ed_currently_exist e) (vThis_app_tx_Gbits_per_sec e) (sRetransmission_Cntrs e).
Definition dest_zero : sDest_Dtn_IPs_t := mkDest 0 "" "" 0 false dzero cntrs_zero.
#[export] Instance dest_entry : DtnEntry sDest_Dtn_IPs_t := {|
  e_ip := ed_dest_ip_addr; e_last := ed_last_time_ip; e_zero := dest_zero; e_zero_ip := eq_refl
|}.

(** ** The globals of the tables *)
Record Tables := mkTables {
  aSrc_Dtn_IPs : list sSrc_Dtn_IPs_t;
  currently_attached_networks : Z;
  vIamADestDtn : bool;
  new_traffic : bool;
  aDest_Dtn_IPs : list sDest_Dtn_IPs_t;
  currently_dest_networks : Z;
  vIamASrcDtn : bool;
  aDest_Ip2 : string;
  aDest_Ip2_Binary : string;
  aLocal_Ip : string;
  aLocal_IpPrev : string
}.
#[export] Instance eta_Tables : Settable Tables := fun t =>
  mkTables (aSrc_Dtn_IPs t) (currently_attached_networks t) (vIamADestDtn t) (new_traffic t)
    (aDest_Dtn_IPs t) (currently_dest_networks t) (vIamASrcDtn t) (aDest_Ip2 t)
    (aDest_Ip2_Binary t) (aLocal_Ip t) (aLocal_IpPrev t).
Definition tables_init : Tables :=
  mkTables (replicate 10 e_zero) 0 false false (replicate 10 e_zero) 0 false "" "" "" "".

(** [tHouseKeeping_TimerID_Handler]: [now_src i], [now_dst i] are the clock reads. *)
Definition tHouseKeeping_TimerID_Handler (now_src now_dst : nat → Z) (t : Tables) : Tables :=
  let t :=
    if vIamADestDtn t then
      let '(es, n) := house_loop now_src 0 (aSrc_Dtn_IPs t) (currently_attached_networks t) in
      t <| aSrc_Dtn_IPs := es |> <| currently_attached_networks := n |>
        <| vIamADestDtn := negb (n =? 0) |>
    else t in
  if vIamASrcDtn t then
    let '(es, n) := house_loop now_dst 0 (aDest_Dtn_IPs t) (currently_dest_networks t) in
    t <| aDest_Dtn_IPs := es |> <| currently_dest_networks := n |>
      <| vIamASrcDtn := negb (n =? 0) |>
  else t.

(** The table part of [sample_func], for the source address of one hop. *)
Definition src_table_step (ip clk : Z) (t : Tables) : res Tables :=
  match scan (e_ip <$> aSrc_Dtn_IPs t) ip 0 0 with
  | IpFound i =>
      e ← of_opt (zget (aSrc_Dtn_IPs t) i);
      es ← of_opt (zset (aSrc_Dtn_IPs t) i (e <| es_currently_exist := true |> <| es_last_time_ip := clk |>));
      Ret (t <| aSrc_Dtn_IPs := es |> <| new_traffic := false |>)
  | IpMissing first =>
      let i := first - 1 in
      es ← of_opt (zset (aSrc_Dtn_IPs t) i (mkSrc ip (ip_string ip) clk true));
      Ret (t <| aSrc_Dtn_IPs := es |>
             <| currently_attached_networks := u32 (currently_attached_networks t + 1) |>
             <| new_traffic := true |>)
  end.

(** What [fDoRunGetMessageFromPeer] starts after booking a connection. *)
Inductive accept_act :=
| GetMtuInfoOfDevices (local_ip : string)
| ForkProcessRequest.

(** The part of it that books the peer ([s_addr] of [getpeername]); the counters
    and the rate of a fresh slot are left as they are. *)
Definition book_peer (s_addr clk : Z) (t : Tables) : res Tables :=
  '(es, n) ←
    match scan (e_ip <$> aDest_Dtn_IPs t) s_addr 0 0 with
    | IpFound i =>
        e ← of_opt (zget (aDest_Dtn_IPs t) i);
        es ← of_opt (zset (aDest_Dtn_IPs t) i (e <| ed_currently_exist := true |> <| ed_last_time_ip := clk |>));
        Ret (es, currently_dest_networks t)
    | IpMissing first =>
        let i := first - 1 in
        e ← of_opt (zget (aDest_Dtn_IPs t) i);
        es ← of_opt (zset (aDest_Dtn_IPs t) i
               (e <| ed_dest_ip_addr := s_addr |> <| ed_currently_exist := true |>
                  <| ed_last_time_ip := clk |> <| ed_aDest_Ip2_Binary := hex8 s_addr |>
                  <| ed_aDest_Ip2 := ip_string s_addr |>));
        Ret (es, u32 (currently_dest_networks t + 1))
    end;
  Ret (t <| aDest_Dtn_IPs := es |> <| currently_dest_networks := n |>
         <| aDest_Ip2_Binary := hex8 s_addr |> <| vIamASrcDtn := true |>
         <| aDest_Ip2 := ip_string s_addr |>).
(** One accepted connection: [peername], [sockname] are [None] when
    [getpeername], [getsockname] fail; with Kafka in use it is closed unread. *)
Definition accept_peer (gUseApacheKafka : bool) (vDebugLevel : Z) (peername sockname : option Z)
    (clk : Z) (t : Tables) : res (Tables * list accept_act) :=
  if gUseApacheKafka then Ret (t, []) else
  t ← match peername with Some a => book_peer a clk t | None => Ret t end;
  match sockname with
  | None => Ret (t, [ForkProcessRequest])
  | Some l =>
      let local := ip_string l in
      let mtu := (0 <? vDebugLevel) && negb (String.eqb local (aLocal_IpPrev t)) in
      Ret (t <| aLocal_Ip := local |> <| aLocal_IpPrev := local |>,
           (if mtu then [GetMtuInfoOfDevices local] else []) ++ [ForkProcessRequest])
  end.

(** ** Invariant of the globals *)
Record tables_wf (t : Tables) : Prop := {
  twf_src : table_wf (aSrc_Dtn_IPs t) (currently_attached_networks t);
  twf_dst : table_wf (aDest_Dtn_IPs t) (currently_dest_networks t);
  (** a table in use has its role flag set, so that the sweep runs over it *)
  twf_src_flag : currently_attached_networks t ≠ 0 → vIamADestDtn t = true;
  twf_dst_flag : currently_dest_networks t ≠ 0 → vIamASrcDtn t = true
}.
Definition src_abs (t : Tables) : gmap Z Z := table_abs (aSrc_Dtn_IPs t).
Definition dst_abs (t : Tables) : gmap Z Z := table_abs (aDest_Dtn_IPs t).

Section TableOps.
Context {E : Type} `{DtnEntry E}.
Implicit Types (es : list E) (n : Z).

Lemma zget_nat {A} (l : list A) k : zget l (Z.of_nat k) = l !! k.
Proof. unfold zget. destruct (Z.ltb_spec (Z.of_nat k) 0); [lia|]. by rewrite Nat2Z.id. Qed.
Lemma zset_nat {A} (l : list A) k x y : l !! k = Some y → zset l (Z.of_nat k) x = Some (<[k := x]> l).
Proof.
  intros Hk%lookup_lt_Some. rewrite zset_Some by lia. by rewrite Nat2Z.id.
Qed.

Lemma table_abs_known es n ip :
  table_wf es n → ip ≠ 0 →
  (∃ k e, es !! k = Some e ∧ e_ip e = ip) ↔ is_Some (table_abs es !! ip).
Proof.
  intros [_ Hd _] Hip. split.
  - intros (k & e & Hk & He). exists (e_last e). apply table_abs_lookup; eauto 6.
  - intros [t (_ & k & e & ? & ? & _)%table_abs_lookup]; eauto.
Qed.

(** The slot the search selects, for a known address or a table with room. *)
Lemma scan_selects es n ip :
  table_wf es n → ip ≠ 0 → is_Some (table_abs es !! ip) ∨ n < MAX_NUM_IP_ATTACHED →
  ∃ k e, es !! k = Some e ∧ (∀ j x, es !! j = Some x → e_ip x = ip → j = k) ∧
    ((scan (e_ip <$> es) ip 0 0 = IpFound (Z.of_nat k) ∧ e_ip e = ip ∧ is_Some (table_abs es !! ip)) ∨
     (scan (e_ip <$> es) ip 0 0 = IpMissing (Z.of_nat k + 1) ∧ e_ip e = 0 ∧ table_abs es !! ip = None)).
Proof.
  intros Hwf Hip Hroom. pose proof (scan_found_or_free es ip 0 0) as Hs.
  pose proof (table_abs_known es n ip Hwf Hip) as Hk. pose proof Hwf as [Hl Hd Hn].
  destruct (scan (e_ip <$> es) ip 0 0) as [i|f].
  - destruct Hs as (k & e & -> & Hke & He); [done..|]. exists k, e. split; [done|].
    split; [intros; by eapply (distinct_lookup es); eauto; congruence|]. left. rewrite Z.add_0_l.
    split_and!; [done..|]. apply Hk. eauto.
  - destruct Hs as [Hno Hf]; [done..|].
    assert (table_abs es !! ip = None) as Hnone.
    { apply eq_None_not_Some. rewrite <- Hk. intros (k & e & ? & ?). by eapply Hno. }
    rewrite Hnone in Hroom. destruct Hroom as [[? ?]|Hroom]; [done|].
    destruct Hf as [[-> Hall]|[_ (k & e & -> & Hke & He)]].
    + destruct (used_room es) as (k & e & ? & ?); [unfold MAX_NUM_IP_ATTACHED in *; lia|].
      exfalso. by eapply Hall.
    + exists k, e. split; [done|]. split; [intros j x Hj Hx; by destruct (Hno j x)|].
      right. rewrite Z.add_0_l. done.
Qed.
Lemma scan_full es ip :
  length es = 10%nat → used es = 10%nat → ip ≠ 0 → distinct es → table_abs es !! ip = None →
  scan (e_ip <$> es) ip 0 0 = IpMissing 0.
Proof.
  intros Hl Hu Hip Hd Hno. pose proof (scan_found_or_free es ip 0 0) as Hs.
  destruct (scan (e_ip <$> es) ip 0 0) as [i|f] eqn:Hscan.
  - destruct Hs as (k & e & -> & Hke & He); [done..|]. exfalso.
    assert (table_abs es !! ip = Some (e_last e)) as Ht; [|congruence].
    apply table_abs_lookup; [done|]. split; [done|]. by exists k, e.
  - f_equal. eapply scan_missing_full; [done|lia].
Qed.
End TableOps.

(** The invariant survives, and the abstract table sees an insertion. *)
Lemma src_table_step_spec ip clk t :
  table_wf (aSrc_Dtn_IPs t) (currently_attached_networks t) → ip ≠ 0 →
  is_Some (src_abs t !! ip) ∨ currently_attached_networks t < MAX_NUM_IP_ATTACHED →
  ∃ es n, src_table_step ip clk t =
      Ret (t <| aSrc_Dtn_IPs := es |> <| currently_attached_networks := n |>
             <| new_traffic := bool_decide (src_abs t !! ip = None) |>) ∧
    table_wf es n ∧ table_abs es = <[ip := clk]> (src_abs t) ∧
    n = currently_attached_networks t + (if bool_decide (src_abs t !! ip = None) then 1 else 0).
Proof.
  intros Hwf Hip Hroom. unfold src_table_step, src_abs in *.
  destruct (scan_selects _ _ _ Hwf Hip Hroom) as (k & e & Hk & Huniq & Hcase).
  assert (currently_attached_networks t ≤ 10) as Hle
    by (destruct Hwf as [Hl _ ->]; pose proof (used_le (aSrc_Dtn_IPs t)); lia).
  destruct Hcase as [(-> & He & [old Hold])|(-> & He & Hnone)].
  - rewrite zget_nat, Hk. cbn [of_opt mbind res_bind]. erewrite zset_nat by done. cbn [of_opt mbind res_bind].
    rewrite Hold. rewrite bool_decide_false by done.
    set (e' := e <| es_currently_exist := true |> <| es_last_time_ip := clk |>).
    destruct (table_put _ _ k e e' Hwf Hk) as [Hwf' Habs]; [subst e'; cbn in *; congruence| |right; done|].
    { intros j x Hj Hx. eapply Huniq; [done|]. subst e'. cbn in *. congruence. }
    rewrite decide_False in Hwf' by congruence. eexists _, _. split; [reflexivity|].
    split; [done|]. split; [|lia]. etrans; [exact Habs|]. cbn in He. subst e'. cbn. by rewrite He.
  - replace (Z.of_nat k + 1 - 1) with (Z.of_nat k) by lia. erewrite zset_nat by done.
    cbn [of_opt mbind res_bind]. rewrite Hnone. rewrite bool_decide_true by done.
    assert (e_ip (mkSrc ip (ip_string ip) clk true) = ip) as Hip' by done.
    edestruct (table_put _ _ k e (mkSrc ip (ip_string ip) clk true) Hwf Hk) as [Hwf' Habs];
      [rewrite Hip'; done|intros j x Hj Hx; rewrite Hip' in Hx; eauto|by left|].
    rewrite decide_True in Hwf' by done. eexists _, _. split; [reflexivity|].
    destruct Hwf as [_ _ Hn]. rewrite u32_small by (unfold is_u32; lia).
    split_and!; [done|done|lia].
Qed.

Lemma book_peer_spec a clk t :
  table_wf (aDest_Dtn_IPs t) (currently_dest_networks t) → a ≠ 0 →
  is_Some (dst_abs t !! a) ∨ currently_dest_networks t < MAX_NUM_IP_ATTACHED →
  ∃ t', book_peer a clk t = Ret t' ∧
    table_wf (aDest_Dtn_IPs t') (currently_dest_networks t') ∧ dst_abs t' = <[a := clk]> (dst_abs t) ∧
    currently_dest_networks t' = currently_dest_networks t + (if bool_decide (dst_abs t !! a = None) then 1 else 0) ∧
    vIamASrcDtn t' = true ∧ aDest_Ip2 t' = ip_string a ∧ aDest_Ip2_Binary t' = hex8 a ∧
    aSrc_Dtn_IPs t' = aSrc_Dtn_IPs t ∧ vIamADestDtn t' = vIamADestDtn t ∧
    currently_attached_networks t' = currently_attached_networks t.
Proof.
  intros Hwf Hip Hroom. unfold book_peer, dst_abs in *.
  destruct (scan_selects _ _ _ Hwf Hip Hroom) as (k & e & Hk & Huniq & Hcase).
  assert (currently_dest_networks t ≤ 10) as Hle
    by (destruct Hwf as [Hl _ ->]; pose proof (used_le (aDest_Dtn_IPs t)); lia).
  destruct Hcase as [(-> & He & [old Hold])|(-> & He & Hnone)];
    [|replace (Z.of_nat k + 1 - 1) with (Z.of_nat k) by lia];
    rewrite zget_nat, Hk; cbn [of_opt mbind res_bind]; erewrite zset_nat by done;
    cbn [of_opt mbind res_bind].
  - rewrite Hold. rewrite bool_decide_false by done.
    set (e' := e <| ed_currently_exist := true |> <| ed_last_time_ip := clk |>).
    destruct (table_put _ _ k e e' Hwf Hk) as [Hwf' Habs]; [subst e'; cbn in *; congruence| |right; done|].
    { intros j x Hj Hx. eapply Huniq; [done|]. subst e'. cbn in *. congruence. }
    rewrite decide_False in Hwf' by congruence. eexists. split; [reflexivity|]. cbn.
    split_and!; try done; [|lia]. etrans; [exact Habs|]. cbn in He. subst e'. cbn. by rewrite He.
  - rewrite Hnone. rewrite bool_decide_true by done.
    match goal with |- context [<[k := ?x]> _] => set (e' := x) end.
    assert (e_ip e' = a) as Hip' by done.
    edestruct (table_put _ _ k e e' Hwf Hk) as [Hwf' Habs];
      [rewrite Hip'; done|intros j x Hj Hx; rewrite Hip' in Hx; eauto|by left|].
    rewrite decide_True in Hwf' by done. eexists. split; [reflexivity|]. cbn.
    destruct Hwf as [_ _ Hn]. rewrite u32_small by (unfold is_u32; lia).
    split_and!; try done; lia.
Qed.

(** A counter whose role flag is clear is zero. *)
Lemma house_flag (n : Z) (b : bool) : (n ≠ 0 → b = true) → b = false → n = 0.
Proof. intros H Hb. destruct (decide (n = 0)); [done|]. rewrite H in Hb; done. Qed.

(** What the handler does to each table, swept or empty. *)
Lemma house_keeping_parts now_src now_dst t :
  tables_wf t →
  let t' := tHouseKeeping_TimerID_Handler now_src now_dst t in
  let hs := house_loop now_src 0 (aSrc_Dtn_IPs t) (currently_attached_networks t) in
  let hd := house_loop now_dst 0 (aDest_Dtn_IPs t) (currently_dest_networks t) in
  (vIamADestDtn t = true ∧ aSrc_Dtn_IPs t' = hs.1 ∧ currently_attached_networks t' = hs.2 ∧
     vIamADestDtn t' = negb (hs.2 =? 0) ∨
   currently_attached_networks t = 0 ∧ aSrc_Dtn_IPs t' = aSrc_Dtn_IPs t ∧
     currently_attached_networks t' = 0 ∧ vIamADestDtn t' = false) ∧
  (vIamASrcDtn t = true ∧ aDest_Dtn_IPs t' = hd.1 ∧ currently_dest_networks t' = hd.2 ∧
     vIamASrcDtn t' = negb (hd.2 =? 0) ∨
   currently_dest_networks t = 0 ∧ aDest_Dtn_IPs t' = aDest_Dtn_IPs t ∧
     currently_dest_networks t' = 0 ∧ vIamASrcDtn t' = false).
Proof.
  intros [_ _ Hs Hd]. cbv zeta. unfold tHouseKeeping_TimerID_Handler.
  destruct (vIamADestDtn t) eqn:Es, (vIamASrcDtn t) eqn:Ed;
    try (pose proof (house_flag _ _ Hs eq_refl)); try (pose proof (house_flag _ _ Hd eq_refl));
    destruct (house_loop now_src _ _ _) as [es n]; cbn -[house_loop]; rewrite ?Ed;
    destruct (house_loop now_dst _ _ _) as [es' n']; cbn; split;
    first [left; split_and!; done | right; split_and!; done].
Qed.

Section Empty.
Context {E : Type} `{DtnEntry E}.
Lemma table_abs_empty (es : list E) : table_wf es 0 → table_abs es = ∅.
Proof.
  intros [_ _ Hn]. unfold table_abs, used in *.
  destruct (filter (λ e, e_ip e ≠ 0) es) eqn:Ef; [done|]. cbn in Hn. lia.
Qed.
Lemma flag_of_count n : n ≠ 0 → negb (n =? 0) = true.
Proof. by intros ->%Z.eqb_neq. Qed.
End Empty.

(** ** Properties *)

Lemma house_keeping_wf now_src now_dst t : tables_wf t → tables_wf (tHouseKeeping_TimerID_Handler now_src now_dst t).
Proof.
  intros Hwf. pose proof (house_keeping_parts now_src now_dst t Hwf) as [Ps Pd]. destruct Hwf as [Ws Wd Fs Fd].
  pose proof (house_loop_wf now_src _ _ Ws) as Ws'. pose proof (house_loop_wf now_dst _ _ Wd) as Wd'.
  destruct Ps as [(_ & E1 & E2 & E3)|(Z1 & E1 & E2 & E3)], Pd as [(_ & E4 & E5 & E6)|(Z4 & E4 & E5 & E6)];
    rewrite ?Z1 in Ws; rewrite ?Z4 in Wd;
    split; rewrite ?E1, ?E2, ?E3, ?E4, ?E5, ?E6; first [done | apply flag_of_count].
Qed.

(** C13: The invariant of both tables (at most ten entries, no address twice, the
    counter is the number of entries, a table in use has its role flag) survives
    the house-keeping sweep; an address silent for [vHouseTime] seconds at every
    clock read of the sweep is removed, one heard from more recently is kept with
    its time, and nothing is added. *)
Theorem housekeeping_removes_silent now_src now_dst t t0 t1 :
  tables_wf t → (∀ i, t0 ≤ now_src i ≤ t1) → (∀ i, t0 ≤ now_dst i ≤ t1) →
  let t' := tHouseKeeping_TimerID_Handler now_src now_dst t in
  tables_wf t' ∧
  ∀ (abs : Tables → gmap Z Z), abs = src_abs ∨ abs = dst_abs →
    (∀ ip l, abs t' !! ip = Some l → abs t !! ip = Some l) ∧
    (∀ ip l, abs t !! ip = Some l → t1 - l < vHouseTime → abs t' !! ip = Some l) ∧
    (∀ ip l, abs t !! ip = Some l → vHouseTime ≤ t0 - l → abs t' !! ip = None).
Proof.
  intros Hwf Hs Hd t'. pose proof (house_keeping_parts now_src now_dst t Hwf) as [Ps Pd].
  split; [by apply house_keeping_wf|]. destruct Hwf as [Ws Wd Fs Fd]. fold t' in Ps, Pd.
  intros abs [-> | ->]; [destruct Ps as [(_ & E1 & _)|(Z1 & E1 & _)]|destruct Pd as [(_ & E1 & _)|(Z1 & E1 & _)]];
    unfold src_abs, dst_abs; rewrite E1.
  2,4: rewrite table_abs_empty by (by rewrite Z1 in *); split_and!; intros ? ?; rewrite lookup_empty; done.
  - split_and!; intros ip l Hl; [by eapply house_loop_subset|..];
      by eapply (house_loop_abs now_src _ _ t0 t1).
  - split_and!; intros ip l Hl; [by eapply house_loop_subset|..];
      by eapply (house_loop_abs now_dst _ _ t0 t1).
Qed.

(** A table set by one connection at time 100. *)
Definition demo_tables : Tables :=
  match book_peer 33554442 100 tables_init with Ret t => t | _ => tables_init end.
Lemma demo_tables_wf : tables_wf demo_tables.
Proof.
  split; try done; split; try done; unfold distinct; apply (bool_decide_unpack _); vm_compute; exact I.
Qed.
Lemma housekeeping_removes_silent_witness :
  dst_abs demo_tables !! 33554442 = Some 100 ∧
  dst_abs (tHouseKeeping_TimerID_Handler (λ _, 118) (λ _, 118) demo_tables) !! 33554442 = None.
Proof.
  assert (dst_abs demo_tables !! 33554442 = Some 100) as Hl by (vm_compute; reflexivity).
  split; [exact Hl|].
  destruct (housekeeping_removes_silent (λ _, 118) (λ _, 118) demo_tables 118 118 demo_tables_wf) as [_ H]; [lia|lia|].
  destruct (H dst_abs (or_intror eq_refl)) as (_ & _ & Hgone). apply (Hgone _ _ Hl). vm_compute. discriminate.
Defined.

(** A connection from a peer that is known, or for which the table has room,
    is booked: the table becomes the old one with the peer's time, the invariant
    holds, this host is a source DTN and looks for the peer's eight hexadecimal
    digits in the socket list, and a child is started for the requests. *)
Theorem accepted_peer_is_booked vDebugLevel a sockname clk t :
  tables_wf t → a ≠ 0 → is_Some (dst_abs t !! a) ∨ currently_dest_networks t < MAX_NUM_IP_ATTACHED →
  ∃ t' acts, accept_peer false vDebugLevel (Some a) sockname clk t = Ret (t', acts ++ [ForkProcessRequest]) ∧
    tables_wf t' ∧ dst_abs t' = <[a := clk]> (dst_abs t) ∧ src_abs t' = src_abs t ∧
    vIamASrcDtn t' = true ∧ aDest_Ip2_Binary t' = hex8 a.
Proof.
  intros [Ws Wd Fs Fd] Ha Hroom.
  destruct (book_peer_spec a clk t Wd Ha Hroom) as (t1 & E & Wd1 & Habs & _ & Hsrc & _ & Hhex & Es & Ef & En).
  unfold accept_peer. rewrite E. cbn [mbind res_bind].
  assert (∀ t', aSrc_Dtn_IPs t' = aSrc_Dtn_IPs t1 → vIamADestDtn t' = vIamADestDtn t1 →
    currently_attached_networks t' = currently_attached_networks t1 → aDest_Dtn_IPs t' = aDest_Dtn_IPs t1 →
    vIamASrcDtn t' = vIamASrcDtn t1 → currently_dest_networks t' = currently_dest_networks t1 → tables_wf t') as Hwf'.
  { intros t' E1 E2 E3 E4 E5 E6. split; rewrite ?E1, ?E2, ?E3, ?E4, ?E5, ?E6, ?Es, ?Ef, ?En; done. }
  destruct sockname as [l|].
  - eexists _, _. split; [reflexivity|]. split_and!; try done; [by apply Hwf'|..]; unfold src_abs; cbn; by rewrite Es.
  - exists t1, []. split; [reflexivity|]. split_and!; try done; [by apply Hwf'|..]; unfold src_abs; by rewrite Es.
Qed.
Lemma accepted_peer_is_booked_witness :
  ∃ t' acts, accept_peer false 1 (Some 50331658) (Some 16777226) 105 demo_tables = Ret (t', acts ++ [ForkProcessRequest]) ∧
    dst_abs t' = <[50331658 := 105]> (dst_abs demo_tables) ∧ aDest_Ip2_Binary t' = "0300000A".
Proof.
  destruct (accepted_peer_is_booked 1 50331658 (Some 16777226) 105 demo_tables demo_tables_wf) as
    (t' & acts & E & _ & H1 & _ & _ & H2); [done|right; vm_compute; reflexivity|].
  exists t', acts. split; [exact E|]. split; [exact H1|exact H2].
Defined.

(** When ten peers are in the table, a connection from an eleventh writes in
    front of the array: the index of the first free slot, which was never set, is
    decremented to -1. *)
Theorem eleventh_peer_overruns vDebugLevel a sockname clk t :
  tables_wf t → a ≠ 0 → dst_abs t !! a = None → currently_dest_networks t = MAX_NUM_IP_ATTACHED →
  accept_peer false vDebugLevel (Some a) sockname clk t = Ub.
Proof.
  intros [_ [Hl Hd Hn] _ _] Ha Hno Hfull. unfold accept_peer, book_peer.
  rewrite scan_full by (done || unfold MAX_NUM_IP_ATTACHED in *; lia). done.
Qed.
Definition booked (t : Tables) (a : Z) : Tables := match book_peer a 100 t with Ret t' => t' | _ => t end.
Definition crowded : Tables := foldl booked tables_init [1; 2; 3; 4; 5; 6; 7; 8; 9; 10].
Lemma eleventh_peer_overruns_witness : accept_peer false 1 (Some 11) None 105 crowded = Ub.
Proof.
  apply eleventh_peer_overruns; [|done|vm_compute; reflexivity|vm_compute; reflexivity].
  split; try done; split; try done; unfold distinct; apply (bool_decide_unpack _); vm_compute; exact I.
Defined.
