(* ===== verification/FlowCounters.v ===== *)
(** * The record of tuning activities per flow

    [sFlowCounters], [record_activity], the rotation of flows done by
    [fDoRunGetThresholds] when receive traffic starts, and the text that the
    HTTP request "-pc" answers (in [check_req]). *)
From Stdlib Require Import ZArith Lia Ascii String.
From stdpp Require Import base list strings numbers option relations.
From S2P Require Import Prelude CString.
Open Scope Z_scope.

Definition MAX_TUNING_ACTIVITIES_PER_FLOW := 10.
Definition MAX_SIZE_TUNING_STRING := 1500.
Definition NUM_OF_FLOWS_TO_KEEP_TRACK_OF := 4.
(** [MAX_SIZE_OF_THE_RESPONSE] *)
Definition MAX_SIZE_OF_THE_RESPONSE :=
  MAX_TUNING_ACTIVITIES_PER_FLOW * MAX_SIZE_TUNING_STRING * NUM_OF_FLOWS_TO_KEEP_TRACK_OF
    + 2 * 4 * NUM_OF_FLOWS_TO_KEEP_TRACK_OF.

Record sFlowCounters_t := mkFlow {
  num_tuning_activities : Z;
  gFlowCountUsed : bool;
  what_was_done : list string
}.
#[export] Instance eta_Flow : Settable sFlowCounters_t := fun f =>
  mkFlow (num_tuning_activities f) (gFlowCountUsed f) (what_was_done f).
Record Flows := mkFlows {
  sFlowCounters : list sFlowCounters_t;
  vFlowCount : Z;
  vFlowCountWrapped : bool;
  myCount : Z;                       (* static in [record_activity] *)
  rx_traffic : bool;
  vFirstTimeThru : bool              (* local of [fDoRunGetThresholds] *)
}.
#[export] Instance eta_Flows : Settable Flows := fun f =>
  mkFlows (sFlowCounters f) (vFlowCount f) (vFlowCountWrapped f) (myCount f) (rx_traffic f) (vFirstTimeThru f).
Definition flow_zero : sFlowCounters_t := mkFlow 0 false (replicate 10 "").
Definition flows_init : Flows := mkFlows (replicate 4 flow_zero) 0 false 0 false true.

(** What [record_activity] appends to the text. *)
Definition add_to_activity (s : Flows) (c : sFlowCounters_t) : string :=
  ":::***vFlowcount = " +:+ decs (vFlowCount s) +:+ ", num_tuning_activty = " +:+
  decs (num_tuning_activities c + 1) +:+ ", myCount = " +:+ dec (myCount s).
(** [record_activity]: the caller's buffer and the slot hold
    [MAX_SIZE_TUNING_STRING] bytes, a longer text overruns them. *)
Definition record_activity (pActivity : string) (s : Flows) : res Flows :=
  c ← of_opt (zget (sFlowCounters s) (vFlowCount s));
  let text := pActivity +:+ add_to_activity s c in
  if MAX_SIZE_TUNING_STRING <=? strlen text then Ub else
  w ← of_opt (zset (what_was_done c) (num_tuning_activities c) text);
  let n := num_tuning_activities c + 1 in
  let c' := c <| what_was_done := w |> <| gFlowCountUsed := true |>
              <| num_tuning_activities := if n =? MAX_TUNING_ACTIVITIES_PER_FLOW then 0 else n |> in
  fs ← of_opt (zset (sFlowCounters s) (vFlowCount s) c');
  Ret (s <| sFlowCounters := fs |> <| myCount := u32 (myCount s + 1) |>).

(** The end of each round of [fDoRunGetThresholds]: a start of receive traffic
    opens the next flow; the second component is [new_traffic] as it leaves it. *)
Definition track_rx_flow (rx_kbits_per_sec : Z) (new_traffic : bool) (s : Flows) : res (Flows * bool) :=
  let s := if rx_kbits_per_sec =? 0 then s <| rx_traffic := false |> else s in
  let new_traffic := if rx_kbits_per_sec =? 0 then false else new_traffic in
  if negb (rx_kbits_per_sec =? 0) && negb (rx_traffic s) then
    let s := s <| rx_traffic := true |> in
    if vFirstTimeThru s then Ret (s <| vFirstTimeThru := false |>, true)
    else
      let n := vFlowCount s + 1 in
      let s := if n =? NUM_OF_FLOWS_TO_KEEP_TRACK_OF
               then s <| vFlowCountWrapped := true |> <| vFlowCount := 0 |>
               else s <| vFlowCount := n |> in
      c ← of_opt (zget (sFlowCounters s) (vFlowCount s));
      fs ← of_opt (zset (sFlowCounters s) (vFlowCount s)
                     (c <| num_tuning_activities := 0 |> <| gFlowCountUsed := false |>));
      Ret (s <| sFlowCounters := fs |>, true)
  else Ret (s, new_traffic).

(** ** The answer to "-pc" *)
(** Activities of a flow that the report lists. *)
Definition num_activities (c : sFlowCounters_t) : Z :=
  if (num_tuning_activities c =? 0) && gFlowCountUsed c then MAX_TUNING_ACTIVITIES_PER_FLOW
  else num_tuning_activities c.
Definition reported (c : sFlowCounters_t) : list string :=
  take (Z.to_nat (num_activities c)) (what_was_done c).
Definition no_activity_text : string := "***No tuning activity has happened so far***" +:+ nl.
(** Each text and its line feed. *)
Fixpoint lines (l : list string) : string :=
  match l with [] => "" | a :: l' => a +:+ nl +:+ lines l' end.
(** The loop over the flows, [g] counting up: what is in [aResp] below [start]. *)
Fixpoint report_loop (wrapped : bool) (g : Z) (cs : list sFlowCounters_t) (aResp : string) : string :=
  match cs with
  | [] => aResp
  | c :: cs' =>
      report_loop wrapped (g + 1) cs'
        (if (num_tuning_activities c =? 0) && negb (gFlowCountUsed c) && negb wrapped && (g =? 0)
         then no_activity_text
         else aResp +:+ lines (reported c))
  end.
(** [aResp[start-1] = 0]: the last character becomes the terminator; with
    [start = 0] the store is outside the array. *)
Fixpoint drop_last_char (s : string) : option string :=
  match s with
  | EmptyString => None
  | String c EmptyString => Some EmptyString
  | String c s' => r ← drop_last_char s'; Some (String c r)
  end.
Definition tuning_activities_report (s : Flows) : res string :=
  let vLoopMax := if vFlowCountWrapped s then NUM_OF_FLOWS_TO_KEEP_TRACK_OF else vFlowCount s + 1 in
  of_opt (drop_last_char
            (report_loop (vFlowCountWrapped s) 0 (take (Z.to_nat vLoopMax) (sFlowCounters s)) "")).

(** ** Well-formedness *)
Record flow_wf (c : sFlowCounters_t) : Prop := {
  fwf_len : length (what_was_done c) = 10%nat;
  fwf_num : 0 ≤ num_tuning_activities c < 10;
  fwf_used : num_tuning_activities c ≠ 0 → gFlowCountUsed c = true;
  fwf_fit : Forall (λ a, strlen a < MAX_SIZE_TUNING_STRING) (what_was_done c)
}.
Record flows_wf (s : Flows) : Prop := {
  fswf_len : length (sFlowCounters s) = 4%nat;
  fswf_cur : 0 ≤ vFlowCount s < 4;
  fswf_all : Forall flow_wf (sFlowCounters s)
}.

(** What recording does to the current flow. *)
Definition push (text : string) (c : sFlowCounters_t) : sFlowCounters_t :=
  mkFlow ((num_tuning_activities c + 1) mod 10) true
    (<[Z.to_nat (num_tuning_activities c) := text]> (what_was_done c)).

Lemma add_to_activity_len s c : strlen (add_to_activity s c) ≤ 120.
Proof.
  unfold add_to_activity. rewrite !strlen_app.
  pose proof (decs_len (vFlowCount s)). pose proof (decs_len (num_tuning_activities c + 1)).
  pose proof (dec_len (myCount s)).
  change (strlen ":::***vFlowcount = ") with 19. change (strlen ", num_tuning_activty = ") with 23.
  change (strlen ", myCount = ") with 12. lia.
Qed.
Lemma push_wf text c : strlen text < MAX_SIZE_TUNING_STRING → flow_wf c → flow_wf (push text c).
Proof.
  intros Ht [Hl Hn Hu Hf]. split; cbn; [by rewrite length_insert|apply Z.mod_pos_bound; lia|done|].
  by apply Forall_insert.
Qed.

Lemma record_activity_spec act s :
  flows_wf s → strlen act ≤ 1379 →
  ∃ c, zget (sFlowCounters s) (vFlowCount s) = Some c ∧ flow_wf c ∧
    record_activity act s =
      Ret (s <| sFlowCounters := <[Z.to_nat (vFlowCount s) := push (act +:+ add_to_activity s c) c]> (sFlowCounters s) |>
             <| myCount := u32 (myCount s + 1) |>) ∧
    strlen (act +:+ add_to_activity s c) < MAX_SIZE_TUNING_STRING.
Proof.
  intros [Hl Hc Hall] Ha. destruct (zget_Some (sFlowCounters s) (vFlowCount s)) as [c Hget]; [lia|].
  assert (flow_wf c) as Hwf.
  { unfold zget in Hget. destruct (vFlowCount s <? 0); [done|]. by eapply Forall_lookup_1. }
  exists c. split; [done|]. split; [done|]. pose proof Hwf as [Hcl Hn Hu Hf].
  unfold record_activity. rewrite Hget. cbn [of_opt mbind res_bind].
  pose proof (add_to_activity_len s c).
  assert (strlen (act +:+ add_to_activity s c) < 1500) as Hlt by (rewrite strlen_app; lia).
  unfold MAX_SIZE_TUNING_STRING. destruct (Z.leb_spec 1500 (strlen (act +:+ add_to_activity s c))); [lia|].
  rewrite zset_Some by lia. cbn [of_opt mbind res_bind]. rewrite zset_Some by lia.
  cbn [of_opt mbind res_bind]. split; [|done]. unfold push. do 4 f_equal.
  unfold MAX_TUNING_ACTIVITIES_PER_FLOW. destruct c as [n u w]; cbn in *. do 2 f_equal.
  destruct (Z.eqb_spec (n + 1) 10) as [->|]; [done|]. rewrite Z.mod_small by lia. done.
Qed.
Lemma record_activity_wf act s :
  flows_wf s → strlen act ≤ 1379 → ∃ s', record_activity act s = Ret s' ∧ flows_wf s'.
Proof.
  intros Hwf Ha. destruct (record_activity_spec act s Hwf Ha) as (c & Hget & Hc & -> & Hlt).
  eexists. split; [done|]. destruct Hwf as [Hl Hcur Hall].
  split; cbn; [by rewrite length_insert|done|]. apply Forall_insert; [done|]. by apply push_wf.
Qed.

(** ** The ring of texts inside a flow *)
(** [texts] recorded on a fresh flow. *)
Definition holds (texts : list string) (c : sFlowCounters_t) : Prop :=
  num_tuning_activities c = Z.of_nat (length texts) mod 10 ∧
  gFlowCountUsed c = negb (Z.of_nat (length texts) =? 0) ∧
  ring_holds 10 texts (what_was_done c).

Lemma holds_fresh w : length w = 10%nat → holds [] (mkFlow 0 false w).
Proof. intros H. split; [done|]. split; [done|]. exact (ring_holds_nil 10 w H). Qed.
Lemma holds_push texts text c : holds texts c → holds (texts ++ [text]) (push text c).
Proof.
  intros (Hn & Hu & Hr). unfold holds.
  cbn [push num_tuning_activities gFlowCountUsed what_was_done]. split; [|split].
  - rewrite length_app, Hn, Nat2Z.inj_add. by rewrite Zplus_mod_idemp_l.
  - rewrite length_app. cbn [length]. destruct (Z.eqb_spec (Z.of_nat (length texts + 1)) 0); [lia|done].
  - assert (Z.to_nat (num_tuning_activities c) = (length texts mod 10)%nat) as ->.
    { rewrite Hn. change 10 with (Z.of_nat 10). rewrite <- Nat2Z.inj_mod. lia. }
    apply ring_holds_snoc; [lia|done].
Qed.
Lemma holds_reported texts c :
  holds texts c → (0 < length texts)%nat →
  reported c = drop (length texts - ((length texts - 1) mod 10 + 1)) texts.
Proof.
  intros (Hn & Hu & Hr) Hpos. unfold reported. rewrite <- (ring_holds_take 10 ltac:(lia) _ _ Hr Hpos). f_equal.
  set (k := length texts) in *. unfold num_activities, MAX_TUNING_ACTIVITIES_PER_FLOW. rewrite Hu.
  destruct (Z.eqb_spec (Z.of_nat k) 0); [lia|]. cbn [negb]. rewrite andb_true_r, Hn.
  change 10 with (Z.of_nat 10) at 1 3. rewrite <- !Nat2Z.inj_mod.
  pose proof (Nat.div_mod_eq k 10). pose proof (Nat.mod_upper_bound k 10).
  pose proof (Nat.div_mod_eq (k - 1) 10). pose proof (Nat.mod_upper_bound (k - 1) 10).
  destruct (Z.eqb_spec (Z.of_nat (k mod 10)) 0); lia.
Qed.

(** ** Runs of recordings *)
Fixpoint record_all (acts : list string) (s : Flows) : res Flows :=
  match acts with [] => Ret s | a :: acts' => s' ← record_activity a s; record_all acts' s' end.
Definition current (s : Flows) : option sFlowCounters_t := zget (sFlowCounters s) (vFlowCount s).

Lemma flows_wf_current s : flows_wf s → ∃ c, current s = Some c ∧ flow_wf c.
Proof.
  intros [Hl Hc Hall]. destruct (zget_Some (sFlowCounters s) (vFlowCount s)) as [c Hget]; [lia|].
  exists c. split; [done|]. unfold zget in Hget. destruct (vFlowCount s <? 0); [done|].
  by eapply Forall_lookup_1.
Qed.

Lemma record_all_holds acts s texts c :
  flows_wf s → current s = Some c → holds texts c → Forall (λ a, strlen a ≤ 1379) acts →
  ∃ s' c' more, record_all acts s = Ret s' ∧ flows_wf s' ∧ vFlowCount s' = vFlowCount s ∧
    current s' = Some c' ∧ holds (texts ++ more) c' ∧ Forall2 (λ a t, ∃ suffix, t = a +:+ suffix) acts more.
Proof.
  revert s texts c. induction acts as [|a acts IH]; intros s texts c Hwf Hc Hh Hacts.
  - exists s, c, []. rewrite app_nil_r. split_and!; done.
  - apply Forall_cons_1 in Hacts as [Ha Hacts].
    destruct (record_activity_spec a s Hwf Ha) as (c0 & Hc0 & Hcwf & Hrec & Hlt).
    destruct (record_activity_wf a s Hwf Ha) as (s1 & Hrec1 & Hwf1).
    unfold current in Hc. assert (c0 = c) as -> by congruence.
    set (text := a +:+ add_to_activity s c) in *. pose proof Hrec1 as Hrec2.
    rewrite Hrec in Hrec2. injection Hrec2 as Hs1.
    assert (vFlowCount s1 = vFlowCount s) as Hv by (by rewrite <- Hs1).
    assert (current s1 = Some (push text c)) as Hc1.
    { unfold current. rewrite Hv, <- Hs1. cbn. pose proof (zget_lt _ _ _ Hc0). unfold zget.
      destruct (Z.ltb_spec (vFlowCount s) 0); [lia|]. apply list_lookup_insert_eq. lia. }
    destruct (IH s1 (texts ++ [text]) (push text c) Hwf1 Hc1) as (s' & c' & more & E & Hwf' & Hv' & Hc' & Hh' & Hp);
      [by apply holds_push|done|].
    exists s', c', (text :: more). cbn [record_all]. rewrite Hrec1. cbn [mbind res_bind].
    rewrite <- app_assoc in Hh'. split_and!; try done; [congruence|].
    constructor; [|done]. by eexists.
Qed.

(** Opening a flow leaves its record empty. *)
Lemma track_rx_flow_wf rx nt s :
  flows_wf s → ∃ s' nt', track_rx_flow rx nt s = Ret (s', nt') ∧ flows_wf s'.
Proof.
  intros Hwf. unfold track_rx_flow.
  assert (flows_wf (if rx =? 0 then s <| rx_traffic := false |> else s)) as Hwf0
    by (destruct (rx =? 0); destruct Hwf; by split).
  set (s0 := if rx =? 0 then _ else _) in *. clearbody s0.
  destruct (negb (rx =? 0) && negb (rx_traffic s0)); [|eauto].
  cbn. destruct (vFirstTimeThru s0); [eexists _, _; split; [done|]; destruct Hwf0; by split|].
  destruct Hwf0 as [Hl Hcur Hall]. unfold NUM_OF_FLOWS_TO_KEEP_TRACK_OF.
  assert (∃ v, 0 ≤ v < 4 ∧ (if vFlowCount s0 + 1 =? 4 then 0 else vFlowCount s0 + 1) = v) as (v & Hv & Ev).
  { eexists. split; [|done]. destruct (Z.eqb_spec (vFlowCount s0 + 1) 4); lia. }
  destruct (zget_Some (sFlowCounters s0) v) as [c Hc]; [lia|].
  assert (flow_wf c) as Hcwf.
  { unfold zget in Hc. destruct (v <? 0); [done|]. by eapply Forall_lookup_1. }
  destruct (vFlowCount s0 + 1 =? 4); subst v; cbn -[zget zset]; rewrite Hc; cbn -[zget zset];
    rewrite zset_Some by lia; cbn [of_opt mbind res_bind];
    (eexists _, _; split; [done|]; split; cbn; [by rewrite length_insert|lia|];
     apply Forall_insert; [done|]; destruct Hcwf; split; cbn; done || lia).
Qed.

(** ** The text of the report *)
Lemma drop_last_char_app s c : drop_last_char (s +:+ String c "") = Some s.
Proof.
  induction s as [|d s IH]; [done|]. rewrite str_app_cons. cbn [drop_last_char].
  destruct (s +:+ String c "") eqn:E; [by destruct s|]. by rewrite IH.
Qed.
Lemma drop_last_char_len s r : drop_last_char s = Some r → strlen s = strlen r + 1.
Proof.
  revert r. induction s as [|c s IH]; intros r E; [done|]. cbn in E.
  destruct s as [|d s]; [simplify_eq; done|].
  apply bind_Some in E as (r' & E & [= <-]). apply IH in E.
  rewrite (strlen_cons c (String d s)), E, strlen_cons. lia.
Qed.
Lemma drop_last_char_None s : drop_last_char s = None ↔ s = "".
Proof.
  split; [|by intros ->]. induction s as [|c s IH]; [done|]. cbn.
  destruct s as [|d s]; [done|]. intros E. apply bind_None in E as [E|(x & _ & E)]; [|done].
  by specialize (IH E).
Qed.
Lemma lines_len l : Forall (λ a, strlen a < MAX_SIZE_TUNING_STRING) l →
  strlen (lines l) ≤ 1500 * Z.of_nat (length l).
Proof.
  unfold MAX_SIZE_TUNING_STRING. induction 1 as [|a l Ha _ IH]; [done|]. cbn [lines length].
  rewrite !strlen_app. change (strlen nl) with 1. lia.
Qed.
Lemma reported_fits c : flow_wf c → strlen (lines (reported c)) ≤ 15000.
Proof.
  intros [Hl Hn Hu Hf]. etrans; [apply lines_len, Forall_take, Hf|].
  unfold reported. rewrite length_take. lia.
Qed.
Lemma report_loop_len w g cs aResp :
  Forall flow_wf cs →
  strlen (report_loop w g cs aResp) ≤ strlen aResp + 15000 * Z.of_nat (length cs).
Proof.
  revert g aResp. induction cs as [|c cs IH]; intros g aResp Hcs; [cbn; lia|].
  apply Forall_cons_1 in Hcs as [Hc Hcs]. cbn [report_loop length]. etrans; [by apply IH|].
  pose proof (reported_fits c Hc). pose proof (strlen_nonneg aResp). case_match.
  - change (strlen no_activity_text) with 45. lia.
  - rewrite strlen_app. lia.
Qed.
Lemma report_loop_lines w g cs aResp :
  (w = true ∨ 0 < g) → report_loop w g cs aResp = aResp +:+ lines (concat (reported <$> cs)).
Proof.
  revert g aResp. induction cs as [|c cs IH]; intros g aResp Hg; [cbn; by rewrite str_app_nil|].
  cbn [report_loop fmap list_fmap concat].
  assert ((num_tuning_activities c =? 0) && negb (gFlowCountUsed c) && negb w && (g =? 0) = false) as ->.
  { destruct Hg as [->|Hg]; [by rewrite andb_false_r|]. apply Z.lt_neq, not_eq_sym, Z.eqb_neq in Hg as ->.
    apply andb_false_r. }
  rewrite IH by (destruct Hg; [by left|right; lia]). rewrite <- str_app_assoc. f_equal.
  generalize (reported c) as l. induction l as [|a l IHl]; [done|]. cbn [lines app].
  rewrite <- !str_app_assoc. do 2 f_equal. done.
Qed.
Lemma lines_nil_inv l : lines l = "" → l = [].
Proof. destruct l as [|a l]; [done|]. cbn [lines]. destruct a; intros E; discriminate E. Qed.
Lemma reported_nil c : flow_wf c → reported c = [] ↔ num_tuning_activities c = 0 ∧ gFlowCountUsed c = false.
Proof.
  intros [Hl Hn Hu _]. unfold reported, num_activities, MAX_TUNING_ACTIVITIES_PER_FLOW. split.
  - intros E. apply (f_equal length) in E. rewrite length_take, Hl in E. change (@length string []) with 0%nat in E.
    destruct (Z.eqb_spec (num_tuning_activities c) 0) as [->|]; cbn [andb] in E; [|lia].
    by destruct (gFlowCountUsed c).
  - intros [-> ->]. done.
Qed.
Lemma report_loop_nonempty w g cs aResp : aResp ≠ "" → report_loop w g cs aResp ≠ "".
Proof.
  revert g aResp. induction cs as [|c cs IH]; intros g aResp Hne; [done|]. cbn [report_loop].
  apply IH. case_match; [done|]. by destruct aResp.
Qed.
(** The report is empty only once the flows have wrapped and none has any
    activity on record. *)
Lemma report_empty s :
  flows_wf s →
  report_loop (vFlowCountWrapped s) 0
    (take (Z.to_nat (if vFlowCountWrapped s then NUM_OF_FLOWS_TO_KEEP_TRACK_OF else vFlowCount s + 1)) (sFlowCounters s)) "" = ""
  ↔ vFlowCountWrapped s = true ∧ Forall (λ c, reported c = []) (sFlowCounters s).
Proof.
  intros [Hl Hcur Hall]. destruct (vFlowCountWrapped s) eqn:Hw.
  - rewrite take_ge by (rewrite Hl; unfold NUM_OF_FLOWS_TO_KEEP_TRACK_OF; lia). rewrite report_loop_lines by auto. rewrite str_app_nil_l.
    split.
    + intros E%lines_nil_inv. split; [done|]. by apply concat_nil_Forall, Forall_fmap in E.
    + intros [_ E]. apply (Forall_fmap reported (λ x, x = [])), concat_nil_Forall in E. by rewrite E.
  - split; [|by intros []]. intros E. exfalso. revert E.
    destruct (sFlowCounters s) as [|c cs] eqn:Ecs; [done|].
    replace (Z.to_nat (vFlowCount s + 1)) with (S (Z.to_nat (vFlowCount s))) by lia.
    cbn [take report_loop]. apply report_loop_nonempty. apply Forall_cons_1 in Hall as [Hc _].
    destruct ((num_tuning_activities c =? 0) && negb (gFlowCountUsed c)) eqn:Eb; cbn; [done|].
    rewrite str_app_nil_l. intros E%lines_nil_inv. apply reported_nil in E as [E1 E2]; [|done].
    by rewrite E1, E2 in Eb.
Qed.

(** ** Reachable states *)
Inductive flows_step : Flows → Flows → Prop :=
| step_record act s s' : strlen act ≤ 1379 → record_activity act s = Ret s' → flows_step s s'
| step_track rx nt s s' nt' : track_rx_flow rx nt s = Ret (s', nt') → flows_step s s'.

Lemma flows_init_wf : flows_wf flows_init.
Proof. split; [done|cbn; lia|]. repeat constructor; cbn; lia || done. Qed.
Lemma flows_reachable s : rtc flows_step flows_init s → flows_wf s.
Proof.
  intros Hr. assert (∀ a, rtc flows_step a s → flows_wf a → flows_wf s) as Hind; [|by apply (Hind flows_init Hr flows_init_wf)]. clear Hr.
  induction 1 as [|a b c Hstep _ IH]; [done|]. intros Hwf. apply IH.
  destruct Hstep as [act a b Ha E|rx nt a b nt' E].
  - destruct (record_activity_wf act a Hwf Ha) as (? & E' & ?). congruence.
  - destruct (track_rx_flow_wf rx nt a Hwf) as (? & ? & E' & ?). congruence.
Qed.

(** ** Properties *)

(** C29: A flow that starts empty and records [k > 0] activities reports, in the
    order they happened, exactly the last [(k-1) mod 10 + 1] of them: all of them
    up to ten, and after the eleventh only those since the last wrap. *)
Theorem flow_report_is_last_recorded acts s c :
  flows_wf s → current s = Some c → num_tuning_activities c = 0 → gFlowCountUsed c = false →
  acts ≠ [] → Forall (λ a, strlen a ≤ 1379) acts →
  ∃ s' c' texts, record_all acts s = Ret s' ∧ current s' = Some c' ∧
    Forall2 (λ a t, ∃ suffix, t = a +:+ suffix) acts texts ∧
    reported c' = drop (length acts - ((length acts - 1) mod 10 + 1)) texts.
Proof.
  intros Hwf Hc Hn Hu Hne Hacts. pose proof (flows_wf_current s Hwf) as (c0 & Hc0 & Hcwf).
  rewrite Hc in Hc0. injection Hc0 as <-. destruct c as [n u w]; cbn in *; subst.
  destruct (record_all_holds acts s [] _ Hwf Hc) as (s' & c' & more & E & _ & _ & Hc' & Hh & Hp); [|done|].
  { apply holds_fresh. by destruct Hcwf. }
  exists s', c', more. split_and!; [done..|]. rewrite (Forall2_length _ _ _ Hp).
  apply holds_reported; [done|]. apply Forall2_length in Hp. destruct acts; [done|]. cbn in *. lia.
Qed.

Lemma flow_report_is_last_recorded_witness :
  ∃ s' c' texts, record_all (replicate 12 "act") flows_init = Ret s' ∧ current s' = Some c' ∧
    Forall2 (λ a t, ∃ suffix, t = a +:+ suffix) (replicate 12 "act") texts ∧
    reported c' = drop 10 texts.
Proof.
  apply (flow_report_is_last_recorded (replicate 12 "act") flows_init flow_zero);
    [apply flows_init_wf|done|done|done|done|].
  apply Forall_replicate. vm_compute. discriminate.
Defined.

(** C37: In every state the threads can reach, recording an activity (of a text
    that fits) and tracking the receive traffic are defined: no array is left.  The
    "-pc" answer fits in the response buffer, except that it stores in front of it
    when, and only when, the flow index has wrapped and no flow has an activity on
    record. *)
Theorem flow_records_stay_in_bounds s :
  rtc flows_step flows_init s →
  (∀ act, strlen act ≤ 1379 → ∃ s', record_activity act s = Ret s') ∧
  (∀ rx nt, ∃ s' nt', track_rx_flow rx nt s = Ret (s', nt')) ∧
  (vFlowCountWrapped s = true ∧ Forall (λ c, reported c = []) (sFlowCounters s) ∧ tuning_activities_report s = Ub ∨
   ¬ (vFlowCountWrapped s = true ∧ Forall (λ c, reported c = []) (sFlowCounters s)) ∧
   ∃ r, tuning_activities_report s = Ret r ∧ strlen r < MAX_SIZE_OF_THE_RESPONSE).
Proof.
  intros Hwf%flows_reachable. split_and!.
  - intros act Ha. destruct (record_activity_wf act s Hwf Ha) as (? & ? & ?). eauto.
  - intros rx nt. destruct (track_rx_flow_wf rx nt s Hwf) as (? & ? & ? & ?). eauto.
  - pose proof (report_empty s Hwf) as He. unfold tuning_activities_report.
    destruct (drop_last_char _) as [r|] eqn:E; [right|left; by apply drop_last_char_None, He in E as [? ?]].
    split; [by intros H%He%drop_last_char_None; rewrite E in H|]. exists r. split; [done|]. apply drop_last_char_len in E.
    destruct Hwf as [Hl Hcur Hall]. set (n := Z.to_nat _) in E.
    pose proof (report_loop_len (vFlowCountWrapped s) 0 (take n (sFlowCounters s)) "") as H.
    specialize (H ltac:(by apply Forall_take)). rewrite length_take, Hl in H.
    change (strlen "") with 0 in H. change MAX_SIZE_OF_THE_RESPONSE with 60032. lia.
Qed.

(** Seconds with and without traffic, and nothing recorded. *)
Fixpoint track_all (rxs : list Z) (s : Flows) : Flows :=
  match rxs with
  | [] => s
  | rx :: rxs' => track_all rxs' (match track_rx_flow rx false s with Ret (s', _) => s' | _ => s end)
  end.
Lemma track_all_reachable rxs s : flows_wf s → rtc flows_step s (track_all rxs s).
Proof.
  revert s. induction rxs as [|rx rxs IH]; intros s Hwf; [done|]. cbn [track_all].
  destruct (track_rx_flow_wf rx false s Hwf) as (s' & nt & E & Hwf'). rewrite E.
  eapply rtc_l; [by eapply step_track|by apply IH].
Qed.
Definition five_flows : Flows := track_all [8; 0; 8; 0; 8; 0; 8; 0; 8] flows_init.
Lemma flow_records_stay_in_bounds_witness :
  (∃ s', record_activity "first" flows_init = Ret s') ∧ (∃ r, tuning_activities_report flows_init = Ret r) ∧
  tuning_activities_report five_flows = Ub.
Proof.
  destruct (flow_records_stay_in_bounds flows_init (rtc_refl _ _)) as (H1 & _ & [(Hw & _)|(_ & r & E & _)]); [discriminate Hw|].
  split; [apply H1; vm_compute; discriminate|]. split; [by exists r|].
  destruct (flow_records_stay_in_bounds five_flows) as (_ & _ & [(_ & _ & H)|(Hn & _)]);
    [apply track_all_reachable, flows_init_wf|exact H|].
  exfalso. apply Hn. split; [vm_compute; reflexivity|repeat constructor; vm_compute; reflexivity].
Defined.

(** The "-pc" answer stores outside its buffer ([aResp[start-1]] with
    [start = 0]) exactly when the flow counters have wrapped and no flow has any
    activity on record. *)
Theorem report_undefined_iff s :
  flows_wf s →
  tuning_activities_report s = Ub ↔
  vFlowCountWrapped s = true ∧ Forall (λ c, reported c = []) (sFlowCounters s).
Proof.
  intros Hwf. rewrite <- report_empty by done. unfold tuning_activities_report.
  rewrite <- drop_last_char_None. destruct (drop_last_char _); cbn; split; congruence.
Qed.

Lemma report_undefined_iff_witness :
  tuning_activities_report (flows_init <| vFlowCountWrapped := true |>) = Ub.
Proof.
  apply report_undefined_iff; [|split; [done|by repeat constructor]].
  split; [done|split; vm_compute; done|]. repeat constructor; vm_compute; done.
Defined.
