(* ===== verification/Timers.v ===== *)
(** * Timers and the hysteresis of the congestion report

    The POSIX timers of user_dtn.c and their handlers.  A queue that stays over
    its thresholds for [gInterval] microseconds makes a timer expire, whose
    handler sends a QINFO message to the source and starts the evaluation timer;
    until that one expires no other QINFO message is sent.

    A timer is a one-shot alarm of the kernel: [timer_settime] arms or disarms
    it, an armed timer may expire (which disarms it and runs its handler).
    Whether [timer_settime] succeeds is an input ([rc]). *)
From Stdlib Require Import ZArith Lia Ascii String.
From stdpp Require Import base list strings numbers option.
From S2P Require Import Prelude CString Ring DtnTables FlowCounters.
Open Scope Z_scope.

(** ** Phases (user_assess.c) *)
Inductive workflow_phases := STARTING | ASSESSMENT | LEARNING | TUNING.
#[export] Instance workflow_phases_eq_dec : EqDecision workflow_phases.
Proof. solve_decision. Defined.
Definition phase2str (p : workflow_phases) : string :=
  match p with
  | STARTING => "STARTING" | ASSESSMENT => "ASSESSMENT" | LEARNING => "LEARNING" | TUNING => "TUNING"
  end.

(** ** Durations *)
Record timespec := mkTs { tv_sec : Z; tv_nsec : Z }.
Record itimerspec := mkIts { it_value : timespec; it_interval : timespec }.
#[export] Instance eta_Its : Settable itimerspec := fun i => mkIts (it_value i) (it_interval i).
(** [makeTimer]: [sigaction_rc] is what [sigaction] answers; the division and
    the remainder are C's, truncating. *)
Definition makeTimer (sigaction_rc expires_usecs : Z) (startTmr : itimerspec) (interval : bool)
  : Z * itimerspec :=
  let sec := Z.quot (expires_usecs * 1000) 1000000000 in
  let nsec := Z.rem (expires_usecs * 1000) 1000000000 in
  if sigaction_rc =? -1 then (-1, startTmr) else
  (0, let t := startTmr <| it_value := mkTs sec nsec |> in
      if interval then t <| it_interval := mkTs sec nsec |> else t).

Inductive ns_answer := NsDone | NsFail (errno : Z) (remaining : timespec).
Definition EINTR := 4.
(** The loop of [msleep] and [my_usleep]: the requests made of [nanosleep], and
    the value returned ([None] while still asleep). *)
Fixpoint nanosleep_loop (answers : list ns_answer) (ts : timespec) : list timespec * option Z :=
  match answers with
  | [] => ([ts], None)
  | NsDone :: _ => ([ts], Some 0)
  | NsFail e rem :: answers' =>
      if e =? EINTR then let '(reqs, r) := nanosleep_loop answers' rem in (ts :: reqs, r)
      else ([ts], Some (-1))
  end.
Definition msleep (answers : list ns_answer) (msec : Z) : list timespec * option Z :=
  if msec <? 0 then ([], Some (-1))
  else nanosleep_loop answers (mkTs (Z.quot msec 1000) (Z.rem msec 1000 * 1000000)).
Definition my_usleep (answers : list ns_answer) (usec : Z) : list timespec * option Z :=
  if usec <? 0 then ([], Some (-1))
  else nanosleep_loop answers (mkTs (Z.quot usec 1000000) (Z.rem usec 1000000 * 1000)).

(** ** The state of the detection *)
Record sTimerData_t := mkTData { td_src : Z; td_dst : Z; td_vQinfo : Z; td_vHopDelay : Z }.
Record Detector := mkDet {
  vq_TimerIsSet : bool;
  vCanStartEvaluationTimer : bool;
  vSentPacingOver : bool;
  curr_hop_key_hop_index : Z;
  sqOCC_TimerID_Data : sTimerData_t;
  (** the kernel's side: which one-shot timers are running *)
  qOCC_Hop_armed : bool;
  qOCC_armed : bool;
  qEvaluation_armed : bool;
  ring : Ring;
  flows : Flows
}.
#[export] Instance eta_Det : Settable Detector := fun d =>
  mkDet (vq_TimerIsSet d) (vCanStartEvaluationTimer d) (vSentPacingOver d) (curr_hop_key_hop_index d)
    (sqOCC_TimerID_Data d) (qOCC_Hop_armed d) (qOCC_armed d) (qEvaluation_armed d) (ring d) (flows d).
Definition det_init : Detector :=
  mkDet false true false 0 (mkTData 0 0 0 0) false false false ring_init flows_init.

(** What a handler reads of its surroundings: the time stamp, the phase, whether
    Kafka is in use, and the answer of [timer_settime]. *)
Record henv := mkHenv { he_ctime : string; he_phase : workflow_phases; he_kafka : bool; he_rc : Z }.

Definition fStartEvaluationTimer (e : henv) (d : Detector) : Detector :=
  if he_rc e =? 0 then
    let d := d <| vCanStartEvaluationTimer := false |> <| qEvaluation_armed := true |> in
    if he_kafka e then d else d <| vSentPacingOver := true |>
  else d.

(** The fields of [struct hop_key] the detection uses. *)
Record hop_id := mkHop { h_index : Z; h_src_ip : Z; h_dst_ip : Z }.

Definition EvaluateQOcc_and_HopDelay (rc : Z) (k : hop_id) (vQinfo vHopDelay : Z) (d : Detector) : Detector :=
  if vq_TimerIsSet d then d
  else if rc =? 0 then
    d <| qOCC_Hop_armed := true |> <| vq_TimerIsSet := true |>
      <| curr_hop_key_hop_index := h_index k |>
      <| sqOCC_TimerID_Data := mkTData (ntohl (h_src_ip k)) (ntohl (h_dst_ip k)) vQinfo vHopDelay |>
  else d.
Definition EvaluateQOccUserInfo (rc : Z) (k : hop_id) (vQinfo : Z) (d : Detector) : Detector :=
  if vq_TimerIsSet d then d
  else if rc =? 0 then
    d <| qOCC_armed := true |> <| vq_TimerIsSet := true |>
      <| curr_hop_key_hop_index := h_index k |>
      <| sqOCC_TimerID_Data := mkTData (ntohl (h_src_ip k)) (ntohl (h_dst_ip k)) vQinfo 0 |>
  else d.

(** The text both queue-occupancy handlers record. *)
Definition alarm_activity (e : henv) (d : Detector) : string :=
  he_ctime e +:+ " " +:+ phase2str (he_phase e) +:+ ": ***hop_key.hop_index " +:+
  hexX (curr_hop_key_hop_index d) +:+ ", Doing Something".

Definition qOCC_Hop_TimerID_Handler (e : henv) (d : Detector) : res Detector :=
  let d := d <| vq_TimerIsSet := false |> in
  fl ← record_activity (alarm_activity e d) (flows d);
  let d := d <| flows := fl |> in
  if vCanStartEvaluationTimer d then
    let t := sqOCC_TimerID_Data d in
    r ← put_qinfo_hop (td_vQinfo t) (td_vHopDelay t) (td_src t) (td_dst t) (ring d);
    Ret (fStartEvaluationTimer e (d <| ring := r |>))
  else Ret d.
Definition qOCC_TimerID_Handler (e : henv) (d : Detector) : res Detector :=
  let d := d <| vq_TimerIsSet := false |> in
  fl ← record_activity (alarm_activity e d) (flows d);
  let d := d <| flows := fl |> in
  if vCanStartEvaluationTimer d then
    let t := sqOCC_TimerID_Data d in
    r ← put_qinfo (td_vQinfo t) (td_src t) (td_dst t) (ring d);
    Ret (fStartEvaluationTimer e (d <| ring := r |>))
  else Ret d.
Definition qEvaluation_TimerID_Handler (d : Detector) : Detector :=
  d <| vCanStartEvaluationTimer := true |>.

(** What the bit-rate thread does to the detection in a second without traffic:
    alarms off; from the second one in a row ([twice]), the evaluation timer off
    and, after a report, a clean-up message to [src_ip] (the global
    [src_ip_addr.y]). *)
Definition idle_detector (twice : bool) (src_ip : Z) (d : Detector) : res Detector :=
  let d := if vq_TimerIsSet d
           then d <| qOCC_armed := false |> <| qOCC_Hop_armed := false |> <| vq_TimerIsSet := false |> else d in
  let d := if negb (vCanStartEvaluationTimer d) && twice
           then d <| qEvaluation_armed := false |> <| vCanStartEvaluationTimer := true |> else d in
  if vSentPacingOver d && twice && vCanStartEvaluationTimer d then
    r ← SendResetCleanUpPacingMsg src_ip (ring d);
    Ret (d <| ring := r |> <| vSentPacingOver := false |>)
  else Ret d.

(** ** Expiry of a timer: [timerHandler] dispatches on the timer's identity *)
Inductive timer := T_qOCC_Hop | T_qOCC | T_qEvaluation | T_HouseKeeping.
#[export] Instance timer_eq_dec : EqDecision timer.
Proof. solve_decision. Defined.
Definition timerHandler (e : henv) (now_src now_dst : nat → Z) (t : timer) (d : Detector) (tb : Tables)
  : res (Detector * Tables) :=
  if decide (t = T_qOCC_Hop) then d ← qOCC_Hop_TimerID_Handler e d; Ret (d, tb)
  else if decide (t = T_qOCC) then d ← qOCC_TimerID_Handler e d; Ret (d, tb)
  else if decide (t = T_qEvaluation) then Ret (qEvaluation_TimerID_Handler d, tb)
  else Ret (d, tHouseKeeping_TimerID_Handler now_src now_dst tb).
(** An expiry disarms the one-shot timers; the house-keeping timer repeats. *)
Definition disarm (t : timer) (d : Detector) : Detector :=
  match t with
  | T_qOCC_Hop => d <| qOCC_Hop_armed := false |>
  | T_qOCC => d <| qOCC_armed := false |>
  | T_qEvaluation => d <| qEvaluation_armed := false |>
  | T_HouseKeeping => d
  end.
Definition armed (t : timer) (d : Detector) : bool :=
  match t with
  | T_qOCC_Hop => qOCC_Hop_armed d
  | T_qOCC => qOCC_armed d
  | T_qEvaluation => qEvaluation_armed d
  | T_HouseKeeping => true
  end.

(** ** Lemmas *)
(** The time a setting stands for, in nanoseconds. *)
Definition nanosecs (t : timespec) : Z := tv_sec t * 10 ^ 9 + tv_nsec t.
(** A timer of a non-negative number of microseconds is set to exactly that
    time, with a nanosecond part the kernel accepts. *)
Lemma makeTimer_exact usecs old interval :
  0 ≤ usecs < 2 ^ 31 →
  ∃ t, makeTimer 0 usecs old interval = (0, t) ∧
    nanosecs (it_value t) = usecs * 1000 ∧ 0 ≤ tv_nsec (it_value t) < 10 ^ 9 ∧
    it_interval t = (if interval then it_value t else it_interval old).
Proof.
  intros Hu. unfold makeTimer, nanosecs. eexists. split; [reflexivity|].
  destruct interval; cbn; (split_and!; [zdivmod..|reflexivity]).
Qed.
