(* ===== verification/Telemetry.v ===== *)
(** * Telemetry: the perf-buffer callback and the polling loop

    [sample_func] of user_dtn.c: a sample is a [struct hop_key] followed by one
    [struct int_hop_metadata] per hop.  Each hop updates the extremes of the
    poll, arms or disarms the congestion timers, writes the BPF maps and keeps
    the table of sources; [fDoRunBpfCollectionPerfEventArray2] polls, and hands
    the extremes of each poll to the HPNSSH thread. *)
From Stdlib Require Import ZArith Lia Ascii String.
From stdpp Require Import base list strings numbers option.
From S2P Require Import Prelude CString Ring DtnTables FlowCounters Timers.
Open Scope Z_scope.

(** ** Layout (filter_defs.h, int_defs.h); words as they sit in memory *)
Definition b8 (bs : list Z) (k : nat) : Z := default 0 (bs !! k).
Definition rd16 (bs : list Z) (k : nat) : Z := le16 (b8 bs k) (b8 bs (k + 1)).
Definition rd32 (bs : list Z) (k : nat) : Z :=
  le32 (b8 bs k) (b8 bs (k + 1)) (b8 bs (k + 2)) (b8 bs (k + 3)).

Record flow_key := mkFlowKey {
  fk_switch_id : Z; fk_egress_port : Z; fk_vlan_id : Z; fk_src_ip : Z; fk_dst_ip : Z;
  fk_src_port : Z; fk_dst_port : Z; fk_resv1 : Z
}.
Record hop_key := mkHopKey { hk_flow : flow_key; hk_hop_index : Z }.
Definition sizeof_hop_key : nat := 28.
Definition hop_key_of (bs : list Z) : hop_key :=
  mkHopKey (mkFlowKey (rd32 bs 0) (rd16 bs 4) (rd16 bs 6) (rd32 bs 8) (rd32 bs 12)
              (rd16 bs 16) (rd16 bs 18) (rd32 bs 20)) (rd32 bs 24).
Record int_hop_metadata := mkMeta {
  m_switch_id : Z; m_ingress_port_id : Z; m_egress_port_id : Z; m_hop_latency : Z;
  m_queue_info : Z; m_ingress_time : Z; m_egress_time : Z
}.
Definition sizeof_meta : nat := 24.
Definition meta_of (bs : list Z) : int_hop_metadata :=
  mkMeta (rd32 bs 0) (rd16 bs 4) (rd16 bs 6) (rd32 bs 8) (rd32 bs 12) (rd32 bs 16) (rd32 bs 20).

(** Values derived from a hop's metadata. *)
Definition hop_qinfo (m : int_hop_metadata) : Z := Z.land (ntohl (m_queue_info m)) 0xffffff.
Definition hop_latency_of (m : int_hop_metadata) : Z :=
  u32 (ntohl (m_egress_time m) - ntohl (m_ingress_time m)).

(** ** BPF map updates, as a trace *)
Record flow_thresholds := mkFlowThr {
  ft_hop_latency_threshold : Z; ft_hop_latency_delta : Z; ft_sink_time_threshold : Z;
  ft_sink_time_delta : Z; ft_total_hops : Z
}.
#[export] Instance eta_FlowThr : Settable flow_thresholds := fun f =>
  mkFlowThr (ft_hop_latency_threshold f) (ft_hop_latency_delta f) (ft_sink_time_threshold f)
    (ft_sink_time_delta f) (ft_total_hops f).
Record hop_thresholds := mkHopThr {
  ht_hop_latency_threshold : Z; ht_hop_latency_delta : Z; ht_queue_occupancy_threshold : Z;
  ht_queue_occupancy_delta : Z; ht_switch_id : Z
}.
Inductive map_update :=
| UpdHop (k : hop_key) (v : hop_thresholds)        (* BPF_ANY *)
| UpdFlow (k : flow_key) (v : flow_thresholds)     (* BPF_ANY *)
| NewCounter (k : flow_key).                       (* BPF_NOEXIST, a zero counter *)

(** ** State *)
(** The thresholds an operator may change (see HttpApi). *)
Record Thresholds := mkThr {
  vHOP_LATENCY_DELTA : Z;
  vFLOW_LATENCY_DELTA : Z;
  vQUEUE_OCCUPANCY_DELTA : Z;
  vFLOW_SINK_TIME_DELTA : Z;
  vUseRetransmissionRate : bool
}.
#[export] Instance eta_Thr : Settable Thresholds := fun t =>
  mkThr (vHOP_LATENCY_DELTA t) (vFLOW_LATENCY_DELTA t) (vQUEUE_OCCUPANCY_DELTA t)
    (vFLOW_SINK_TIME_DELTA t) (vUseRetransmissionRate t).
Definition thresholds_init : Thresholds := mkThr 500000 500000 415 4000000000 false.
Definition QINFO_START_MIN_VALUE := 0xFFFFFF.

(** [qinfo_{min,max}_value], [qinfo_hop_latency_*], [qinfo_hop_switch_id_*],
    [qinfo_clk_*], [qinfo_ms_ctime_buf_*] *)
Record extreme := mkExt {
  x_value : Z; x_hop_latency : Z; x_hop_switch_id : Z; x_clk : Z; x_ms_ctime_buf : string
}.
#[export] Instance eta_Ext : Settable extreme := fun x =>
  mkExt (x_value x) (x_hop_latency x) (x_hop_switch_id x) (x_clk x) (x_ms_ctime_buf x).
Record Sampler := mkSampler {
  det : Detector;
  tabs : Tables;
  perf_buffer_poll_start : bool;
  qinfo_min : extreme;
  qinfo_max : extreme;
  vQinfoUserValue : Z;
  flow_sink_time_threshold : Z;
  g_src_ip_addr : Z;               (* the global [src_ip_addr.y] *)
  g_dst_ip_addr : Z
}.
#[export] Instance eta_Sampler : Settable Sampler := fun s =>
  mkSampler (det s) (tabs s) (perf_buffer_poll_start s) (qinfo_min s) (qinfo_max s)
    (vQinfoUserValue s) (flow_sink_time_threshold s) (g_src_ip_addr s) (g_dst_ip_addr s).
Definition sampler_init : Sampler :=
  mkSampler det_init tables_init false (mkExt QINFO_START_MIN_VALUE 0 0 0 "") (mkExt 0 0 0 0 "") 0 0 0 0.

(** The clock and the kernel as one hop finds them: the time stamp of the
    extremes, the time stored in the source table, the answer of
    [timer_settime]. *)
Record hop_env := mkHopEnv { ho_clk : Z; ho_ms : string; ho_table_clk : Z; ho_rc : Z }.

(** ** One hop *)
Definition note_extremes (e : hop_env) (m : int_hop_metadata) (s : Sampler) : Sampler :=
  let x := mkExt (hop_qinfo m) (hop_latency_of m) (ntohl (m_switch_id m)) (ho_clk e) (ho_ms e) in
  let s := if hop_qinfo m <? x_value (qinfo_min s) then s <| qinfo_min := x |> else s in
  let s := if (x_value (qinfo_max s) <? hop_qinfo m) && negb (perf_buffer_poll_start s)
           then s <| qinfo_max := x |> else s in
  s <| perf_buffer_poll_start := false |> <| vQinfoUserValue := hop_qinfo m |>.

(** The congestion decision.  Disarming a timer is taken to succeed: the code
    does not look at the answer. *)
Definition hop_decision (th : Thresholds) (rc : Z) (k : hop_id) (q lat : Z) (d : Detector) : res Detector :=
  if (vHOP_LATENCY_DELTA th <? lat) && (vQUEUE_OCCUPANCY_DELTA th <? q) then
    Ret (EvaluateQOcc_and_HopDelay rc k q lat d)
  else if vUseRetransmissionRate th && (vQUEUE_OCCUPANCY_DELTA th <? q) then
    Ret (EvaluateQOccUserInfo rc k q d)
  else
    let d :=
      if vq_TimerIsSet d then
        let d := if vUseRetransmissionRate th then d <| qOCC_armed := false |> else d in
        d <| qOCC_Hop_armed := false |> <| vq_TimerIsSet := false |>
      else d in
    if vSentPacingOver d && vCanStartEvaluationTimer d then
      r ← SendResetPacingMsg (h_src_ip k) (h_dst_ip k) (ring d);
      Ret (d <| ring := r |> <| vSentPacingOver := false |>)
    else Ret d.

(** The table of sources and the start-of-traffic message. *)
Definition note_source (e : hop_env) (fk : flow_key) (s : Sampler) : res Sampler :=
  let src := ntohl (fk_src_ip fk) in
  let dst := ntohl (fk_dst_ip fk) in
  let s := s <| g_src_ip_addr := src |> <| g_dst_ip_addr := dst |> in
  t ← src_table_step src (ho_table_clk e) (tabs s);
  if new_traffic t then
    let t := t <| new_traffic := false |> <| vIamADestDtn := true |> in
    r ← put_start (fk_vlan_id fk) src dst (ring (det s));
    Ret (s <| tabs := t |> <| det := (det s) <| ring := r |> |>)
  else Ret (s <| tabs := t |>).

(** The body of the loop of [sample_func] for hop number [i]. *)
Definition hop_body (th : Thresholds) (e : hop_env) (fk : flow_key) (i : Z) (m : int_hop_metadata)
    (fu : flow_thresholds) (s : Sampler) : res (Sampler * flow_thresholds * list map_update) :=
  let s := note_extremes e m s in
  d ← hop_decision th (ho_rc e) (mkHop i (fk_src_ip fk) (fk_dst_ip fk)) (hop_qinfo m) (hop_latency_of m) (det s);
  let s := s <| det := d |> in
  let upd := UpdHop (mkHopKey fk i)
               (mkHopThr (hop_latency_of m) (vHOP_LATENCY_DELTA th) (hop_qinfo m)
                  (vQUEUE_OCCUPANCY_DELTA th) (ntohl (m_switch_id m))) in
  let '(s, fu) :=
    if i =? 0 then
      (s <| flow_sink_time_threshold := ntohl (m_ingress_time m) |>,
       fu <| ft_sink_time_threshold := ntohl (m_ingress_time m) |>)
    else (s, fu) in
  let fu := fu <| ft_hop_latency_threshold := u32 (ft_hop_latency_threshold fu + hop_latency_of m) |> in
  s ← note_source e fk s;
  Ret (s, fu, [upd]).

(** The loop: [fuel] counts the metadata that may remain ([length rest] is
    enough, each turn consumes 24 bytes). *)
Fixpoint sample_loop (fuel : nat) (th : Thresholds) (env : Z → hop_env) (fk : flow_key) (i : Z)
    (rest : list Z) (fu : flow_thresholds) (s : Sampler)
  : res (Sampler * flow_thresholds * Z * list map_update) :=
  match fuel with
  | O => Ret (s, fu, i, [])
  | S fuel =>
      if (sizeof_meta <=? length rest)%nat then
        '(s, fu, us) ← hop_body th (env i) fk i (meta_of rest) fu s;
        '(s, fu, i, us') ← sample_loop fuel th env fk (u32 (i + 1)) (drop sizeof_meta rest) fu s;
        Ret (s, fu, i, us ++ us')
      else Ret (s, fu, i, [])
  end.
Definition sample_func (th : Thresholds) (env : Z → hop_env) (data : list Z) (s : Sampler)
  : res (Sampler * list map_update) :=
  if (length data <? sizeof_hop_key)%nat then Ret (s, []) else
  let fk := hk_flow (hop_key_of data) in
  let rest := drop sizeof_hop_key data in
  let fu := mkFlowThr 0 (vFLOW_LATENCY_DELTA th) 0 (vFLOW_SINK_TIME_DELTA th) 0 in
  '(s, fu, i, us) ← sample_loop (length rest) th env fk 0 rest fu s;
  Ret (s, us ++ [UpdFlow fk (fu <| ft_total_hops := i |>); NewCounter fk]).

(** ** The polling loop and the hand-over to the HPNSSH thread *)
Record HpnRet := mkHpnRet {
  sHpnRetMsg : PeerMsg;
  sHpnRetMsg2 : PeerMsg;
  hpnretcdone : bool
}.
#[export] Instance eta_HpnRet : Settable HpnRet := fun h =>
  mkHpnRet (sHpnRetMsg h) (sHpnRetMsg2 h) (hpnretcdone h).
Definition hpnret_init : HpnRet := mkHpnRet zero_msg zero_msg false.

(** The first message copies the time stamp, the second points at its buffer. *)
Definition fill_first (x : extreme) (m : PeerMsg) : PeerMsg :=
  m <| timestamp := x_ms_ctime_buf x |> <| hop_latency := x_hop_latency x |>
    <| queue_occupancy := x_value x |> <| switch_id := x_hop_switch_id x |>.
Definition fill_second (b : tsbuf) (x : extreme) (m : PeerMsg) : PeerMsg :=
  m <| pts := Some b |> <| hop_latency := x_hop_latency x |>
    <| queue_occupancy := x_value x |> <| switch_id := x_hop_switch_id x |>.
Definition publish (s : Sampler) (h : HpnRet) : HpnRet :=
  let mn := qinfo_min s in let mx := qinfo_max s in
  if perf_buffer_poll_start s then h else
  if negb (x_value mn =? QINFO_START_MIN_VALUE) && negb (x_value mx =? 0) then
    if x_clk mn <=? x_clk mx then
      h <| sHpnRetMsg := fill_first mn (sHpnRetMsg h) |>
        <| sHpnRetMsg2 := fill_second BufMax mx (sHpnRetMsg2 h) |> <| hpnretcdone := true |>
    else
      h <| sHpnRetMsg := fill_first mx (sHpnRetMsg h) |>
        <| sHpnRetMsg2 := fill_second BufMin mn (sHpnRetMsg2 h) |> <| hpnretcdone := true |>
  else if negb (x_value mn =? QINFO_START_MIN_VALUE) then
    h <| sHpnRetMsg := fill_first mn (sHpnRetMsg h) |> <| hpnretcdone := true |>
  else
    h <| sHpnRetMsg := fill_first mx (sHpnRetMsg h) |> <| hpnretcdone := true |>.

(** The samples one [perf_buffer__poll] delivers. *)
Fixpoint run_samples (th : Thresholds) (samples : list ((Z → hop_env) * list Z)) (s : Sampler)
  : res (Sampler * list map_update) :=
  match samples with
  | [] => Ret (s, [])
  | (env, data) :: samples' =>
      '(s, us) ← sample_func th env data s;
      '(s, us') ← run_samples th samples' s;
      Ret (s, us ++ us')
  end.
Definition poll_begin (s : Sampler) : Sampler :=
  s <| perf_buffer_poll_start := true |>
    <| qinfo_min := (qinfo_min s) <| x_value := QINFO_START_MIN_VALUE |> |>
    <| qinfo_max := (qinfo_max s) <| x_value := 0 |> |>.
(** One turn of the do-while loop, [err] being what the poll answers; the last
    component tells whether the loop goes on. *)
Definition perf_poll (th : Thresholds) (samples : list ((Z → hop_env) * list Z)) (err : Z)
    (s : Sampler) (h : HpnRet) : res (Sampler * HpnRet * list map_update * bool) :=
  '(s, us) ← run_samples th samples (poll_begin s);
  let h := if 0 <=? err then publish s h else h in
  Ret (s, h, us, (0 <=? err) || (err =? -4)).

(** The set-up of the thread: the four timers, then the five maps and the
    perf buffer; the list of what it obtained and must release. *)
Inductive setup_result :=
| TimerProblem (which : timer)
| MapsMissing (opened : list string)
| PerfBufferMissing (opened : list string)
| Running.
Definition map_names : list string :=
  ["flow_counters_map"; "flow_thresholds_map"; "hop_thresholds_map"; "perf_output_map"; "int_dscp_map"].
(** [open name] is the descriptor [bpf_obj_get] answers. *)
Fixpoint open_maps (opn : string → Z) (names : list string) (opened : list string) : list string * bool :=
  match names with
  | [] => (opened, true)
  | n :: names' => if opn n <? 0 then (opened, false) else open_maps opn names' (opened ++ [n])
  end.
Definition bpf_setup (make_rc : timer → Z) (opn : string → Z) (pb_ok : bool) : setup_result :=
  if negb (make_rc T_qOCC_Hop =? 0) then TimerProblem T_qOCC_Hop
  else if negb (make_rc T_qOCC =? 0) then TimerProblem T_qOCC
  else if negb (make_rc T_qEvaluation =? 0) then TimerProblem T_qEvaluation
  else if negb (make_rc T_HouseKeeping =? 0) then TimerProblem T_HouseKeeping
  else let '(opened, ok) := open_maps opn map_names [] in
  if negb ok then MapsMissing opened
  else if negb pb_ok then PerfBufferMissing opened
  else Running.
(** The label [close_maps]: descriptors are closed, in the order of [map_names],
    up to the first that is not positive; the perf buffer is freed when all were
    closed and it exists. *)
Fixpoint close_fds (fd : string → Z) (names : list string) : list string :=
  match names with
  | [] => []
  | n :: names' => if fd n <=? 0 then [] else n :: close_fds fd names'
  end.
Definition close_maps (fd : string → Z) (pb : bool) : list string * bool :=
  let closed := close_fds fd map_names in
  (closed, (length closed =? length map_names)%nat && pb).

(** ** What a sample says *)
(** The complete metadata records of a sample. *)
Fixpoint metas_of (fuel : nat) (rest : list Z) : list int_hop_metadata :=
  match fuel with
  | O => []
  | S fuel => if (sizeof_meta <=? length rest)%nat then meta_of rest :: metas_of fuel (drop sizeof_meta rest) else []
  end.
Definition sample_metas (data : list Z) : list int_hop_metadata :=
  if (length data <? sizeof_hop_key)%nat then []
  else let rest := drop sizeof_hop_key data in metas_of (length rest) rest.

Lemma metas_of_length fuel rest :
  (length rest ≤ fuel)%nat → length (metas_of fuel rest) = (length rest / 24)%nat.
Proof.
  revert rest. induction fuel as [|fuel IH]; intros rest Hf; cbn [metas_of].
  - destruct rest; [done|cbn in Hf; lia].
  - destruct (Nat.leb_spec sizeof_meta (length rest)) as [H|H]; unfold sizeof_meta in *.
    + cbn [length]. rewrite IH by (rewrite length_drop; lia). rewrite length_drop.
      replace (length rest) with (1 * 24 + (length rest - 24))%nat at 2 by lia.
      rewrite Nat.div_add_l by lia. lia.
    + cbn [length]. by rewrite Nat.div_small.
Qed.

(** A set-up that fails at a map closes exactly what it had opened (descriptor 0
    apart, which the code takes for none). *)
Lemma failed_setup_closes_opened make_rc opn pb_ok opened :
  (∀ n, opn n ≠ 0) → bpf_setup make_rc opn pb_ok = MapsMissing opened → close_maps opn false = (opened, false).
Proof.
  intros Hopn E. unfold bpf_setup in E. repeat (destruct (negb (_ =? 0)); [done|]).
  destruct (open_maps opn map_names []) as [o ok] eqn:Eo. destruct ok; cbn [negb] in E; [by destruct pb_ok|].
  injection E as ->. unfold close_maps. rewrite andb_false_r. f_equal.
  assert (∀ names acc, open_maps opn names acc = (opened, false) → opened = acc ++ close_fds opn names) as H.
  { induction names as [|n names IH]; intros acc H; cbn [open_maps close_fds] in *; [done|].
    pose proof (Hopn n). destruct (Z.ltb_spec (opn n) 0), (Z.leb_spec (opn n) 0); try lia.
    - simplify_eq. by rewrite app_nil_r.
    - apply IH in H. by rewrite H, <- app_assoc. }
  symmetry. apply (H map_names [] Eo).
Qed.

(** ** Extremes of a poll *)
Definition same_extremes (a b : Sampler) : Prop :=
  x_value (qinfo_min a) = x_value (qinfo_min b) ∧ x_value (qinfo_max a) = x_value (qinfo_max b) ∧
  perf_buffer_poll_start a = perf_buffer_poll_start b.
Definition poll_qinfos (samples : list ((Z → hop_env) * list Z)) : list Z :=
  hop_qinfo <$> concat ((λ x, sample_metas x.2) <$> samples).

Lemma note_source_extremes e fk s s' : note_source e fk s = Ret s' → same_extremes s' s.
Proof.
  unfold note_source, same_extremes. intros E. inv_bind E as t Ht.
  destruct (new_traffic t); [inv_bind E as r Hr|]; by simplify_eq.
Qed.
Lemma hop_body_extremes th e fk i m fu s s' fu' us :
  hop_body th e fk i m fu s = Ret (s', fu', us) →
  x_value (qinfo_min s') = Z.min (x_value (qinfo_min s)) (hop_qinfo m) ∧
  x_value (qinfo_max s') =
    (if perf_buffer_poll_start s then x_value (qinfo_max s) else Z.max (x_value (qinfo_max s)) (hop_qinfo m)) ∧
  perf_buffer_poll_start s' = false.
Proof.
  unfold hop_body. intros E. inv_bind E as d Hd.
  assert (∃ s1, same_extremes s1 (note_extremes e m s) ∧ same_extremes s' s1) as (s1 & H1 & H2).
  { destruct (i =? 0); inv_bind E as s2 Hs2; simplify_eq; apply note_source_extremes in Hs2;
      (eexists; split; [|exact Hs2]; done). }
  destruct H1 as (E1 & E2 & E3), H2 as (F1 & F2 & F3). rewrite F1, F2, F3, E1, E2, E3.
  unfold note_extremes. destruct (perf_buffer_poll_start s) eqn:Hp;
    destruct (Z.ltb_spec (hop_qinfo m) (x_value (qinfo_min s))); cbn; rewrite Hp; cbn; rewrite ?andb_false_r, ?andb_true_r; cbn;
    (destruct (Z.ltb_spec (x_value (qinfo_max s)) (hop_qinfo m)); cbn; split_and!; lia || done).
Qed.

Definition mins (v0 : Z) (qs : list Z) : Z := foldl Z.min v0 qs.
Definition maxs (v0 : Z) (qs : list Z) : Z := foldl Z.max v0 qs.
(** Extremes as the code keeps them: the maximum passes over the first value of
    a poll. *)
Definition extremes_after (s s' : Sampler) (qs : list Z) : Prop :=
  x_value (qinfo_min s') = mins (x_value (qinfo_min s)) qs ∧
  x_value (qinfo_max s') = maxs (x_value (qinfo_max s)) (if perf_buffer_poll_start s then tail qs else qs) ∧
  perf_buffer_poll_start s' = (if decide (qs = []) then perf_buffer_poll_start s else false).
Lemma extremes_after_nil s s' : same_extremes s' s → extremes_after s s' [].
Proof.
  intros (E1 & E2 & E3). unfold extremes_after. rewrite E1, E2, E3. split_and!; try done.
  by destruct (perf_buffer_poll_start s).
Qed.
Lemma extremes_after_app s s' s'' qs qs' :
  extremes_after s s' qs → extremes_after s' s'' qs' → extremes_after s s'' (qs ++ qs').
Proof.
  unfold extremes_after, mins, maxs. intros (A1 & A2 & A3) (B1 & B2 & B3).
  rewrite B1, B2, B3, A1, A2, A3. split_and!.
  - by rewrite foldl_app.
  - destruct (decide (qs = [])) as [->|]; cbn [foldl app tail]; [by destruct (perf_buffer_poll_start s)|].
    destruct (perf_buffer_poll_start s); [|by rewrite foldl_app].
    destruct qs; [done|]. cbn [tail app]. by rewrite foldl_app.
  - destruct qs, qs'; cbn; done.
Qed.

Lemma sample_loop_extremes fuel th env fk i rest fu s s' fu' i' us :
  sample_loop fuel th env fk i rest fu s = Ret (s', fu', i', us) →
  extremes_after s s' (hop_qinfo <$> metas_of fuel rest).
Proof.
  revert i rest fu s s' fu' i' us. induction fuel as [|fuel IH]; intros i rest fu s s' fu' i' us E;
    cbn [sample_loop metas_of] in *.
  - simplify_eq. by apply extremes_after_nil.
  - destruct (sizeof_meta <=? length rest)%nat; [|simplify_eq; by apply extremes_after_nil].
    inv_bind E as [[s1 fu1] us1] H1. inv_bind E as [[[s2 fu2] i2] us2] H2. simplify_eq.
    apply IH in H2. apply hop_body_extremes in H1 as (M1 & M2 & M3).
    rewrite fmap_cons. apply (extremes_after_app s s1 s' [hop_qinfo (meta_of rest)]); [|done].
    split_and!; [done| |done]. rewrite M2. by destruct (perf_buffer_poll_start s).
Qed.
Lemma run_samples_extremes th samples s s' us :
  run_samples th samples s = Ret (s', us) → extremes_after s s' (poll_qinfos samples).
Proof.
  revert s us. induction samples as [|[env data] samples IH]; intros s us E; cbn [run_samples] in E.
  - simplify_eq. by apply extremes_after_nil.
  - inv_bind E as [s1 us1] H1. inv_bind E as [s2 us2] H2. simplify_eq. apply IH in H2.
    unfold poll_qinfos in *. cbn [fmap list_fmap concat]. rewrite fmap_app.
    eapply extremes_after_app; [|exact H2]. unfold sample_func in H1. unfold sample_metas. cbn [snd].
    destruct (length data <? sizeof_hop_key)%nat; [simplify_eq; by apply extremes_after_nil|].
    inv_bind H1 as [[[s3 fu3] i3] us3] H3. simplify_eq. by eapply sample_loop_extremes.
Qed.

(** ** The map updates of a sample *)
Definition hop_update (th : Thresholds) (fk : flow_key) (i : Z) (m : int_hop_metadata) : map_update :=
  UpdHop (mkHopKey fk i)
    (mkHopThr (hop_latency_of m) (vHOP_LATENCY_DELTA th) (hop_qinfo m)
       (vQUEUE_OCCUPANCY_DELTA th) (ntohl (m_switch_id m))).
Fixpoint hop_updates (th : Thresholds) (fk : flow_key) (i : Z) (ms : list int_hop_metadata) : list map_update :=
  match ms with [] => [] | m :: ms' => hop_update th fk i m :: hop_updates th fk (i + 1) ms' end.
Definition total_latency (ms : list int_hop_metadata) : Z := foldr (λ m a, hop_latency_of m + a) 0 ms.

Lemma u32_add_l a b : u32 (u32 a + b) = u32 (a + b).
Proof. unfold u32. by rewrite Zplus_mod_idemp_l. Qed.

Lemma hop_body_updates th e fk i m fu s s' fu' us :
  hop_body th e fk i m fu s = Ret (s', fu', us) →
  us = [hop_update th fk i m] ∧
  fu' = (if i =? 0 then fu <| ft_sink_time_threshold := ntohl (m_ingress_time m) |> else fu)
          <| ft_hop_latency_threshold := u32 (ft_hop_latency_threshold fu + hop_latency_of m) |>.
Proof.
  unfold hop_body. intros E. inv_bind E as d Hd. destruct (i =? 0); inv_bind E as s2 Hs2; by simplify_eq.
Qed.
Lemma sample_loop_updates fuel th env fk i rest fu s s' fu' i' us :
  sample_loop fuel th env fk i rest fu s = Ret (s', fu', i', us) →
  0 ≤ i → i + Z.of_nat (length (metas_of fuel rest)) < 2 ^ 32 → is_u32 (ft_hop_latency_threshold fu) →
  let ms := metas_of fuel rest in
  us = hop_updates th fk i ms ∧ i' = i + Z.of_nat (length ms) ∧
  ft_hop_latency_threshold fu' = u32 (ft_hop_latency_threshold fu + total_latency ms) ∧
  ft_hop_latency_delta fu' = ft_hop_latency_delta fu ∧ ft_sink_time_delta fu' = ft_sink_time_delta fu ∧
  ft_sink_time_threshold fu' =
    match ms with m :: _ => if i =? 0 then ntohl (m_ingress_time m) else ft_sink_time_threshold fu
                | [] => ft_sink_time_threshold fu end.
Proof.
  revert i rest fu s s' fu' i' us. induction fuel as [|fuel IH]; intros i rest fu s s' fu' i' us E Hi Hlt Hu;
    cbn [sample_loop metas_of] in *.
  - simplify_eq. cbn. rewrite !Z.add_0_r, u32_small by done. done.
  - destruct (sizeof_meta <=? length rest)%nat.
    2:{ simplify_eq. cbn. rewrite !Z.add_0_r, u32_small by done. done. }
    inv_bind E as [[s1 fu1] us1] H1. inv_bind E as [[[s2 fu2] i2] us2] H2. simplify_eq.
    apply hop_body_updates in H1 as [-> ->]. cbn [length] in Hlt.
    rewrite (u32_small (i + 1)) in H2 by (unfold is_u32; lia).
    apply IH in H2 as (-> & -> & -> & -> & -> & ->); [|lia|lia|cbn; apply u32_range].
    cbn [length hop_updates total_latency foldr]. unfold set_field.
    destruct (Z.eqb_spec i 0); cbn [ft_hop_latency_threshold ft_hop_latency_delta ft_sink_time_delta ft_sink_time_threshold];
      rewrite u32_add_l; (split_and!; try done; [lia|f_equal; unfold total_latency; lia|]);
      destruct (metas_of fuel (drop sizeof_meta rest)); destruct (Z.eqb_spec (i + 1) 0); try done; lia.
Qed.

(** ** Sources *)
Lemma src_table_full ip clk t :
  table_wf (aSrc_Dtn_IPs t) (currently_attached_networks t) →
  currently_attached_networks t = MAX_NUM_IP_ATTACHED → ip ≠ 0 → src_abs t !! ip = None →
  src_table_step ip clk t = Ub.
Proof.
  intros [Hl Hd Hn] Hfull Hip Hno. unfold src_table_step, MAX_NUM_IP_ATTACHED in *.
  rewrite scan_full by (done || lia). rewrite zset_None by lia. done.
Qed.
Lemma note_source_spec e fk s :
  let src := ntohl (fk_src_ip fk) in
  let new := bool_decide (src_abs (tabs s) !! src = None) in
  table_wf (aSrc_Dtn_IPs (tabs s)) (currently_attached_networks (tabs s)) → src ≠ 0 →
  is_Some (src_abs (tabs s) !! src) ∨ currently_attached_networks (tabs s) < MAX_NUM_IP_ATTACHED →
  ring_wf (ring (det s)) → count (ring (det s)) ≠ 19 →
  ∃ s' old, note_source e fk s = Ret s' ∧
    src_abs (tabs s') = <[src := ho_table_clk e]> (src_abs (tabs s)) ∧
    table_wf (aSrc_Dtn_IPs (tabs s')) (currently_attached_networks (tabs s')) ∧
    vIamADestDtn (tabs s') = new || vIamADestDtn (tabs s) ∧ new_traffic (tabs s') = false ∧
    contents (ring (det s')) = contents (ring (det s)) ++
      (if new then [message_of (PStart (fk_vlan_id fk) src (ntohl (fk_dst_ip fk)))
                      (u32 (sMsgSeqNoConn (ring (det s)) + 1)) old] else []).
Proof.
  intros src new Hwf Hip Hroom Hr Hc. unfold note_source. fold src.
  destruct (src_table_step_spec src (ho_table_clk e) (tabs s) Hwf Hip Hroom) as (es & n & E & Hwf' & Habs & Hn).
  cbn [tabs set_field].
  pose proof (run_producer_spec (PStart (fk_vlan_id fk) src (ntohl (fk_dst_ip fk))) (ring (det s)) Hr) as Hp.
  destruct (Z.eqb_spec (count (ring (det s))) 19) as [|_]; [done|].
  destruct Hp as (old & r' & Ep & Hr' & Ec & _). cbn [run_producer] in Ep.
  rewrite E. cbn -[put_start]. fold new. destruct new eqn:Hnew; cbn -[put_start].
  - rewrite Ep. cbn. eexists _, old. split; [reflexivity|]. cbn. unfold src_abs; cbn. split_and!; try done.
  - eexists _, old. split; [reflexivity|]. cbn. rewrite app_nil_r. unfold src_abs; cbn. split_and!; done.
Qed.

(** ** Properties *)

(** C14: After the samples of one poll, the minimum is the least queue occupancy
    of all hops of all samples (bounded by the start value), and the maximum is the
    greatest of all of them but the first: the first hop of a poll is never a
    maximum, as the code compares it only once a hop has been seen. *)
Theorem poll_extremes th samples err s h s' h' us again :
  perf_poll th samples err s h = Ret (s', h', us, again) →
  let qs := poll_qinfos samples in
  x_value (qinfo_min s') = foldl Z.min QINFO_START_MIN_VALUE qs ∧
  x_value (qinfo_max s') = foldl Z.max 0 (tail qs) ∧
  again = (0 <=? err) || (err =? -4).
Proof.
  unfold perf_poll. intros E. inv_bind E as [s1 us1] H. simplify_eq.
  apply run_samples_extremes in H as (E1 & E2 & _). done.
Qed.

(** A packet with two hops: a key from 10.0.0.1 to 10.0.0.2 and, hop by hop, the
    switch, the ports, the latency, the queue occupancy and the two times. *)
Definition demo_env (i : Z) : hop_env := mkHopEnv (100 + i) "Wed Jun 30 21:49:08" 100 0.
Definition demo_word (x : Z) : list Z := [byte_of 3 x; byte_of 2 x; byte_of 1 x; byte_of 0 x].
Definition demo_hop (q : Z) : list Z :=
  demo_word 7 ++ demo_word 0 ++ demo_word 0 ++ demo_word q ++ demo_word 1000 ++ demo_word 1500.
Definition demo_data (qs : list Z) : list Z :=
  [0; 0; 0; 7; 0; 0; 0; 0; 1; 0; 0; 10; 2; 0; 0; 10; 0; 0; 0; 0; 0; 0; 0; 0; 0; 0; 0; 0] ++ concat (demo_hop <$> qs).
Definition state_of {A B} (r : res (A * B)) (d : A) : A := match r with Ret (a, _) => a | _ => d end.

Lemma poll_extremes_witness :
  ∃ s' h' us, perf_poll thresholds_init [(demo_env, demo_data [90; 20]); (demo_env, demo_data [30])] 2 sampler_init hpnret_init
      = Ret (s', h', us, true) ∧
    x_value (qinfo_min s') = 20 ∧ x_value (qinfo_max s') = 30.
Proof.
  destruct (perf_poll thresholds_init [(demo_env, demo_data [90; 20]); (demo_env, demo_data [30])] 2 sampler_init hpnret_init)
    as [[[[s' h'] us] again]| |] eqn:E; [|vm_compute in E; discriminate..].
  destruct (poll_extremes _ _ _ _ _ _ _ _ _ E) as (E1 & E2 & E3).
  exists s', h', us. split; [by rewrite E3|]. rewrite E1, E2. split; vm_compute; reflexivity.
Defined.

(** C15: A sample of [n] complete hops writes [n] entries of the hop map, the i-th
    under index [i] with that hop's latency and queue occupancy, then the entry of
    the flow with the sum of the latencies modulo 2^32, the ingress time of the
    first hop and the number of hops, then a fresh counter; a sample shorter than
    its key writes nothing. *)
Theorem sample_updates_maps th env data s s' us :
  Z.of_nat (length data) < 2 ^ 32 → sample_func th env data s = Ret (s', us) →
  let fk := hk_flow (hop_key_of data) in let ms := sample_metas data in
  us = if (length data <? 28)%nat then []
       else hop_updates th fk 0 ms ++
         [UpdFlow fk (mkFlowThr (u32 (total_latency ms)) (vFLOW_LATENCY_DELTA th)
            (match ms with m :: _ => ntohl (m_ingress_time m) | [] => 0 end) (vFLOW_SINK_TIME_DELTA th)
            ((Z.of_nat (length data) - 28) / 24));
          NewCounter fk].
Proof.
  intros Hl E. cbv zeta. unfold sample_func, sample_metas, sizeof_hop_key in *.
  destruct (Nat.ltb_spec (length data) 28) as [Hs|Hs]; [by simplify_eq|].
  inv_bind E as [[[s1 fu] i] us1] H. simplify_eq.
  assert (length (metas_of (length (drop 28 data)) (drop 28 data)) = (length data - 28) / 24)%nat as Hm
    by (rewrite metas_of_length, length_drop; done).
  apply sample_loop_updates in H as (-> & -> & E1 & E2 & E3 & E4); [|lia| |done].
  2:{ rewrite Hm. pose proof (Nat.Div0.div_le_mono (length data - 28) (length data - 28) 24).
      assert ((length data - 28) / 24 ≤ length data - 28)%nat by (apply Nat.Div0.div_le_upper_bound; lia). lia. }
  rewrite Hm, Nat2Z.inj_div, Nat2Z.inj_sub by lia.
  destruct fu as [f1 f2 f3 f4 f5]. cbn [ft_hop_latency_threshold ft_hop_latency_delta ft_sink_time_delta ft_sink_time_threshold] in *.
  subst. done.
Qed.
Lemma sample_updates_maps_witness :
  let fk := hk_flow (hop_key_of (demo_data [90; 20])) in
  ∃ s', sample_func thresholds_init demo_env (demo_data [90; 20]) sampler_init =
    Ret (s', [UpdHop (mkHopKey fk 0) (mkHopThr 500 500000 90 415 7);
              UpdHop (mkHopKey fk 1) (mkHopThr 500 500000 20 415 7);
              UpdFlow fk (mkFlowThr 1000 500000 1000 4000000000 2); NewCounter fk]).
Proof.
  cbv zeta.
  destruct (sample_func thresholds_init demo_env (demo_data [90; 20]) sampler_init) as [[s' us]| |] eqn:E;
    [|vm_compute in E; discriminate..].
  assert (Z.of_nat (length (demo_data [90; 20])) < 2 ^ 32) as Hl by (vm_compute; reflexivity).
  pose proof (sample_updates_maps thresholds_init demo_env (demo_data [90; 20]) sampler_init s' us Hl E) as H.
  exists s'. rewrite H. vm_compute. reflexivity.
Defined.

(** The source of a hop is entered in the table of sources with the time of
    the hop; it is announced to its DTN by one start-of-traffic message when, and
    only when, it was not in the table, and then this host is a destination DTN. *)
Theorem source_announced_once e fk s :
  let src := ntohl (fk_src_ip fk) in
  let new := bool_decide (src_abs (tabs s) !! src = None) in
  table_wf (aSrc_Dtn_IPs (tabs s)) (currently_attached_networks (tabs s)) → src ≠ 0 →
  is_Some (src_abs (tabs s) !! src) ∨ currently_attached_networks (tabs s) < MAX_NUM_IP_ATTACHED →
  ring_wf (ring (det s)) → count (ring (det s)) ≠ 19 →
  ∃ s' old, note_source e fk s = Ret s' ∧
    src_abs (tabs s') = <[src := ho_table_clk e]> (src_abs (tabs s)) ∧
    table_wf (aSrc_Dtn_IPs (tabs s')) (currently_attached_networks (tabs s')) ∧
    vIamADestDtn (tabs s') = new || vIamADestDtn (tabs s) ∧
    contents (ring (det s')) = contents (ring (det s)) ++
      (if new then [message_of (PStart (fk_vlan_id fk) src (ntohl (fk_dst_ip fk)))
                      (u32 (sMsgSeqNoConn (ring (det s)) + 1)) old] else []).
Proof.
  intros src new Hwf Hip Hroom Hr Hc.
  destruct (note_source_spec e fk s Hwf Hip Hroom Hr Hc) as (s' & old & E & H1 & H2 & H3 & _ & H4).
  exists s', old. done.
Qed.
Definition demo_key : flow_key := mkFlowKey 7 0 3 167772161 167772162 0 0 0.
Lemma source_announced_once_witness :
  ∃ s' old, note_source (demo_env 0) demo_key sampler_init = Ret s' ∧
    src_abs (tabs s') = {[ 16777226 := 100 ]} ∧
    contents (ring (det s')) = [message_of (PStart 3 16777226 33554442) 1 old].
Proof.
  destruct (source_announced_once (demo_env 0) demo_key sampler_init) as (s' & old & E & H1 & _ & _ & H2).
  - split; try done. unfold distinct. apply (bool_decide_unpack _). vm_compute. exact I.
  - vm_compute. discriminate.
  - right. vm_compute. reflexivity.
  - apply ring_wf_init.
  - vm_compute. discriminate.
  - exists s', old. split; [exact E|]. split; [exact H1|exact H2].
Defined.

(** With ten sources in the table, a hop of an eleventh makes the callback
    write in front of the array (index -1). *)
Theorem eleventh_source_overruns e fk s :
  let src := ntohl (fk_src_ip fk) in
  table_wf (aSrc_Dtn_IPs (tabs s)) (currently_attached_networks (tabs s)) → src ≠ 0 →
  currently_attached_networks (tabs s) = MAX_NUM_IP_ATTACHED → src_abs (tabs s) !! src = None →
  note_source e fk s = Ub.
Proof.
  intros src Hwf Hip Hfull Hno. unfold note_source. cbn [tabs set_field]. fold src.
  by rewrite (src_table_full src (ho_table_clk e) (tabs s)).
Qed.
Definition crowd_of (t : Tables) (a : Z) : Tables := match src_table_step a 100 t with Ret t' => t' | _ => t end.
Definition crowded_sampler : Sampler :=
  sampler_init <| tabs := foldl crowd_of tables_init [1; 2; 3; 4; 5; 6; 7; 8; 9; 10] |>.
Lemma eleventh_source_overruns_witness : note_source (demo_env 0) demo_key crowded_sampler = Ub.
Proof.
  apply eleventh_source_overruns.
  - split; try done. unfold distinct. apply (bool_decide_unpack _). vm_compute. exact I.
  - vm_compute. discriminate.
  - vm_compute. reflexivity.
  - vm_compute. reflexivity.
Defined.
