(* ===== verification/Congestion.v ===== *)
(** * The congestion report over time

    The operations of Timers and Telemetry that touch the detection, as a step
    relation: one hop of telemetry, the expiry of an armed timer, a
    start-of-traffic message, an idle second seen by the bit-rate thread, the
    sender draining the queue.  Each step carries
    the messages it appends to the queue, so a run tells what the source DTN is
    sent and in which order. *)
From Stdlib Require Import ZArith Lia Ascii String.
From stdpp Require Import base list strings numbers option.
From S2P Require Import Prelude CString Ring DtnTables FlowCounters Timers Telemetry.
Open Scope Z_scope.

Inductive det_event :=
| EHop (th : Thresholds) (rc : Z) (k : hop_id) (q lat : Z)
| EFire (t : timer) (e : henv)
| EStart (vlan src dst : Z)
| EIdle (twice : bool) (src : Z)
| ESend.

(** The effect of an event; [None] where the event cannot happen. *)
Definition det_do (ev : det_event) (d : Detector) : option (res Detector) :=
  match ev with
  | EHop th rc k q lat => Some (hop_decision th rc k q lat d)
  | EFire t e =>
      if armed t d
      then Some ('(d', _) ← timerHandler e (λ _, 0) (λ _, 0) t (disarm t d) tables_init; Ret d')
      else None
  | EStart v s dd => Some (r ← put_start v s dd (ring d); Ret (d <| ring := r |>))
  | EIdle twice s => Some (idle_detector twice s d)
  | ESend => Some ('(_, r) ← get (ring d); Ret (d <| ring := r |>))
  end.
(** One step, with the messages it appends. *)
Inductive det_step (d : Detector) (ev : det_event) : list PeerMsg → Detector → Prop :=
| ds_append d' sent :
    ev ≠ ESend → det_do ev d = Some (Ret d') →
    contents (ring d') = contents (ring d) ++ sent → det_step d ev sent d'
| ds_drain d' :
    ev = ESend → det_do ev d = Some (Ret d') → det_step d ev [] d'.
(** Runs from the initial state, latest event last. *)
Inductive det_run : list (det_event * list PeerMsg) → Detector → Prop :=
| run_init : det_run [] det_init
| run_step tr d ev sent d' :
    det_run tr d → det_step d ev sent d' → det_run (tr ++ [(ev, sent)]) d'.

(** ** Observations *)
Definition kind (m : PeerMsg) : Z := ntohl (msg_no m).
Definition sent_of_kind (k : Z) (tr : list (det_event * list PeerMsg)) : nat :=
  length (filter (λ m, kind m = k) (concat tr.*2)).
Definition do_event (d : Detector) (ev : det_event) : option Detector :=
  match det_do ev d with Some (Ret d') => Some d' | _ => None end.
Definition after (d : Detector) (ev : det_event) : Detector := default d (do_event d ev).
(** The ends of a suppression: the evaluation timer expires; it is stopped, while
    it runs, in a second without traffic that follows another. *)
Definition timer_expires (d : Detector) (ev : det_event) : bool :=
  match ev with EFire T_qEvaluation _ => true | _ => false end.
Definition idle_stops (d : Detector) (ev : det_event) : bool :=
  match ev with EIdle twice _ => twice && negb (vCanStartEvaluationTimer d) | _ => false end.
(** A report after which [timer_settime] of the evaluation timer fails. *)
Definition start_fails (d : Detector) (ev : det_event) : bool :=
  match ev with
  | EFire T_qOCC_Hop e | EFire T_qOCC e => vCanStartEvaluationTimer d && negb (he_rc e =? 0)
  | _ => false
  end.
(** How many events of a run satisfy [p] in the state they meet. *)
Fixpoint tally (p : Detector → det_event → bool) (d : Detector) (tr : list (det_event * list PeerMsg)) : nat :=
  match tr with
  | [] => 0
  | (ev, _) :: tr' => (if p d ev then 1 else 0) + tally p (after d ev) tr'
  end.
Definition flag (b : bool) : nat := if b then 1 else 0.
(** The reports a run has room for: one for each end of a suppression and each
    that could not begin, and one for the suppression that still lasts. *)
Definition alarm_periods (tr : list (det_event * list PeerMsg)) (d : Detector) : nat :=
  tally timer_expires det_init tr + tally idle_stops det_init tr + tally start_fails det_init tr
  + flag (negb (vCanStartEvaluationTimer d)).

Lemma sent_of_kind_snoc k tr ev sent :
  sent_of_kind k (tr ++ [(ev, sent)]) = (sent_of_kind k tr + length (filter (λ m, kind m = k) sent))%nat.
Proof.
  unfold sent_of_kind. rewrite fmap_app, concat_app, list.filter_app, length_app. cbn.
  by rewrite app_nil_r.
Qed.
Definition state_after (d : Detector) (tr : list (det_event * list PeerMsg)) : Detector :=
  foldl (λ d x, after d x.1) d tr.
Lemma tally_snoc p d tr ev sent :
  tally p d (tr ++ [(ev, sent)]) = (tally p d tr + if p (state_after d tr) ev then 1 else 0)%nat.
Proof. revert d. induction tr as [|[ev' s'] tr IH]; intros d; cbn [app tally]; [cbn; lia|]. rewrite IH. unfold state_after. cbn [foldl fst]. lia. Qed.
Lemma det_step_after d ev sent d' : det_step d ev sent d' → after d ev = d'.
Proof. unfold after, do_event. by intros [? ? _ -> _|? _ ->]. Qed.
Lemma det_run_after tr d : det_run tr d → state_after det_init tr = d.
Proof.
  induction 1 as [|tr d ev sent d' _ IH Hs]; [done|]. unfold state_after in *. rewrite foldl_app, IH. cbn. by eapply det_step_after.
Qed.
(** A suppression ends. *)
Definition lifts (d : Detector) (ev : det_event) : bool := timer_expires d ev || idle_stops d ev.
Lemma tally_lifts d tr : tally lifts d tr = (tally timer_expires d tr + tally idle_stops d tr)%nat.
Proof.
  revert d. induction tr as [|[ev s] tr IH]; intros d; [done|]. cbn [tally]. rewrite IH.
  assert ((if lifts d ev then 1 else 0) = (if timer_expires d ev then 1 else 0) + (if idle_stops d ev then 1 else 0))%nat as ->; [|lia].
  unfold lifts. by destruct ev as [th rc k q lat|[] e|v sa dd|[] sa|].
Qed.

(** ** What a step does *)
(** The step relation's summary: the queue stays well formed, and the flags and
    the messages follow one of five patterns. *)
Inductive det_effect (d : Detector) (ev : det_event) (sent : list PeerMsg) (d' : Detector) : Prop :=
| eff_quiet :
    lifts d ev = false → start_fails d ev = false → filter (λ m, kind m = QINFO_MSG) sent = [] →
    filter (λ m, kind m = RESET_PACING_MSG) sent = [] →
    vCanStartEvaluationTimer d' = vCanStartEvaluationTimer d →
    (vSentPacingOver d' = true → vSentPacingOver d = true) →
    qEvaluation_armed d' = qEvaluation_armed d → det_effect d ev sent d'
| eff_reset m :
    lifts d ev = false → start_fails d ev = false → sent = [m] → kind m = RESET_PACING_MSG →
    vSentPacingOver d = true → vCanStartEvaluationTimer d = true →
    vCanStartEvaluationTimer d' = true → vSentPacingOver d' = false →
    qEvaluation_armed d' = qEvaluation_armed d → det_effect d ev sent d'
| eff_alarm m :
    lifts d ev = false → start_fails d ev = false → sent = [m] → kind m = QINFO_MSG →
    vCanStartEvaluationTimer d = true → vCanStartEvaluationTimer d' = false →
    qEvaluation_armed d' = true → det_effect d ev sent d'
| eff_alarm_failed m :
    lifts d ev = false → start_fails d ev = true → sent = [m] → kind m = QINFO_MSG →
    vCanStartEvaluationTimer d = true → vCanStartEvaluationTimer d' = true →
    vSentPacingOver d' = vSentPacingOver d →
    qEvaluation_armed d' = qEvaluation_armed d → det_effect d ev sent d'
| eff_lifted :
    lifts d ev = true → start_fails d ev = false → filter (λ m, kind m = QINFO_MSG) sent = [] →
    filter (λ m, kind m = RESET_PACING_MSG) sent = [] →
    vCanStartEvaluationTimer d = false → vCanStartEvaluationTimer d' = true →
    (vSentPacingOver d' = true → vSentPacingOver d = true) →
    qEvaluation_armed d' = false → det_effect d ev sent d'.

Lemma kind_message_of p seq old :
  kind (message_of p seq old) =
    match p with
    | PQinfoHop _ _ _ _ | PQinfo _ _ _ => QINFO_MSG
    | PCleanup _ => CLEANUP_RESET_PACING_MSG
    | PReset _ _ => RESET_PACING_MSG
    | PStart _ _ _ => TEST_MSG
    end.
Proof. destruct p; vm_compute; done. Qed.

Lemma run_producer_sends p r r' sent :
  ring_wf r → run_producer p r = Ret r' → contents r' = contents r ++ sent →
  ring_wf r' ∧ ∃ old, sent = [message_of p (next_seq p r) old].
Proof.
  intros Hwf E Hs. pose proof (run_producer_spec p r Hwf) as Hp.
  destruct (count r =? 19); [congruence|]. destruct Hp as (old & r2 & E2 & Hw & Hc & _).
  rewrite E in E2. injection E2 as <-. split; [done|]. exists old. rewrite Hc in Hs. by simplify_list_eq.
Qed.

Lemma alarm_effect (hop : bool) e d d' sent :
  ring_wf (ring d) →
  (if hop then qOCC_Hop_TimerID_Handler e (disarm T_qOCC_Hop d)
   else qOCC_TimerID_Handler e (disarm T_qOCC d)) = Ret d' →
  contents (ring d') = contents (ring d) ++ sent →
  ring_wf (ring d') ∧
  det_effect d (EFire (if hop then T_qOCC_Hop else T_qOCC) e) sent d'.
Proof.
  intros Hwf E Hs.
  assert (∃ fl, let d1 := (disarm (if hop then T_qOCC_Hop else T_qOCC) d) <| vq_TimerIsSet := false |> <| flows := fl |> in
    if vCanStartEvaluationTimer d then
      ∃ p r, run_producer p (ring d) = Ret r ∧
        (∀ seq old, kind (message_of p seq old) = QINFO_MSG) ∧
        d' = fStartEvaluationTimer e (d1 <| ring := r |>)
    else d' = d1) as (fl & H).
  { destruct hop; unfold qOCC_Hop_TimerID_Handler, qOCC_TimerID_Handler in E; inv_bind E as fl Hfl;
      exists fl; cbn in E |- *; destruct (vCanStartEvaluationTimer d); try (by simplify_eq);
      inv_bind E as r Hr; simplify_eq.
    - eexists (PQinfoHop _ _ _ _), r. split_and!; [exact Hr|intros; apply kind_message_of|done].
    - eexists (PQinfo _ _ _), r. split_and!; [exact Hr|intros; apply kind_message_of|done]. }
  cbv zeta in H. destruct (vCanStartEvaluationTimer d) eqn:Hcan.
  - destruct H as (p & r & Hr & Hk & ->).
    assert (ring (fStartEvaluationTimer e ((disarm (if hop then T_qOCC_Hop else T_qOCC) d) <| vq_TimerIsSet := false |> <| flows := fl |> <| ring := r |>)) = r) as Hring
      by (unfold fStartEvaluationTimer; destruct hop, (he_rc e =? 0), (he_kafka e); done).
    rewrite Hring in *. destruct (run_producer_sends p _ _ _ Hwf Hr Hs) as (Hw & old & ->).
    split; [done|]. destruct (he_rc e =? 0) eqn:Hrc.
    + eapply eff_alarm; [by destruct hop|by destruct hop; cbn; rewrite Hcan, Hrc|done|apply Hk|done| |];
        unfold fStartEvaluationTimer; rewrite Hrc; by destruct hop, (he_kafka e).
    + eapply eff_alarm_failed; [by destruct hop|by destruct hop; cbn; rewrite Hcan, Hrc|done|apply Hk|done| | |];
        unfold fStartEvaluationTimer; rewrite Hrc; by destruct hop.
  - subst d'. split; [by destruct hop|].
    assert (sent = []) as -> by (destruct hop; cbn in Hs; rewrite <- (app_nil_r (contents (ring d))) in Hs at 1; by simplify_list_eq).
    apply eff_quiet; destruct hop; cbn; rewrite ?Hcan; done.
Qed.

Lemma same_ring_sends d d' sent :
  ring d' = ring d → contents (ring d') = contents (ring d) ++ sent → sent = [].
Proof. intros -> Hs. rewrite <- (app_nil_r (contents (ring d))) in Hs at 1. by simplify_list_eq. Qed.

(** The hop decision with the branch it takes. *)
Lemma hop_decision_effect th rc k q lat d d' sent :
  ring_wf (ring d) → hop_decision th rc k q lat d = Ret d' →
  contents (ring d') = contents (ring d) ++ sent →
  ring_wf (ring d') ∧ det_effect d (EHop th rc k q lat) sent d'.
Proof.
  intros Hwf E Hs. unfold hop_decision in E.
  assert (ring d' = ring d → vCanStartEvaluationTimer d' = vCanStartEvaluationTimer d →
          vSentPacingOver d' = vSentPacingOver d → qEvaluation_armed d' = qEvaluation_armed d →
          ring_wf (ring d') ∧ det_effect d (EHop th rc k q lat) sent d') as Hq.
  { intros Hr ???. pose proof (same_ring_sends _ _ _ Hr Hs) as ->. rewrite Hr. split; [done|]. apply eff_quiet; congruence || done. }
  destruct ((vHOP_LATENCY_DELTA th <? lat) && (vQUEUE_OCCUPANCY_DELTA th <? q)).
  { simplify_eq. unfold EvaluateQOcc_and_HopDelay in *. apply Hq; by destruct (vq_TimerIsSet d), (rc =? 0). }
  destruct (vUseRetransmissionRate th && (vQUEUE_OCCUPANCY_DELTA th <? q)).
  { simplify_eq. unfold EvaluateQOccUserInfo in *. apply Hq; by destruct (vq_TimerIsSet d), (rc =? 0). }
  set (d1 := if vq_TimerIsSet d then _ else d) in E.
  assert (ring d1 = ring d ∧ vCanStartEvaluationTimer d1 = vCanStartEvaluationTimer d ∧
          vSentPacingOver d1 = vSentPacingOver d ∧ qEvaluation_armed d1 = qEvaluation_armed d) as (F1 & F2 & F3 & F4)
    by (subst d1; by destruct (vq_TimerIsSet d), (vUseRetransmissionRate th)).
  clearbody d1. rewrite F1, F2, F3 in E.
  destruct (vSentPacingOver d) eqn:Hsent; [destruct (vCanStartEvaluationTimer d) eqn:Hcan|]; cbn [andb] in E;
    [|simplify_eq; by apply Hq..].
  inv_bind E as r Hr. simplify_eq. cbn in Hs |- *.
  destruct (run_producer_sends (PReset (h_src_ip k) (h_dst_ip k)) _ _ _ Hwf Hr Hs) as (Hw & old & ->).
  split; [done|]. by eapply eff_reset.
Qed.

Lemma idle_effect twice src d d' sent :
  ring_wf (ring d) → qEvaluation_armed d = negb (vCanStartEvaluationTimer d) → idle_detector twice src d = Ret d' →
  contents (ring d') = contents (ring d) ++ sent →
  ring_wf (ring d') ∧ det_effect d (EIdle twice src) sent d'.
Proof.
  intros Hwf Ha E Hs. unfold idle_detector in E. cbv zeta in E.
  set (d1 := if vq_TimerIsSet d then _ else d) in E.
  assert (ring d1 = ring d ∧ vCanStartEvaluationTimer d1 = vCanStartEvaluationTimer d ∧
          vSentPacingOver d1 = vSentPacingOver d ∧ qEvaluation_armed d1 = qEvaluation_armed d) as (F1 & F2 & F3 & F4)
    by (subst d1; by destruct (vq_TimerIsSet d)).
  clearbody d1. rewrite F2 in E.
  destruct twice; rewrite ?andb_true_r, ?andb_false_r in E.
  - set (d2 := if negb _ then _ else d1) in E.
    assert (ring d2 = ring d ∧ vCanStartEvaluationTimer d2 = true ∧ vSentPacingOver d2 = vSentPacingOver d ∧
            qEvaluation_armed d2 = false) as (G1 & G2 & G3 & G4)
      by (subst d2; destruct (vCanStartEvaluationTimer d) eqn:Hc; cbn; by rewrite ?F1, ?F2, ?F3, ?F4, ?Ha, ?Hc).
    clearbody d2. rewrite G1, G2, G3, andb_true_r in E.
    assert (∀ st, filter (λ m, kind m = QINFO_MSG) st = [] → filter (λ m, kind m = RESET_PACING_MSG) st = [] →
      vCanStartEvaluationTimer d' = true → qEvaluation_armed d' = false →
      (vSentPacingOver d' = true → vSentPacingOver d = true) → det_effect d (EIdle true src) st d') as Heff.
    { intros st H1 H2 H3 H4 H5. destruct (vCanStartEvaluationTimer d) eqn:Hc.
      - apply eff_quiet; try done; [unfold lifts; cbn; by rewrite Hc|by rewrite H3|by rewrite H4, Ha].
      - apply eff_lifted; try done. unfold lifts. cbn. by rewrite Hc. }
    destruct (vSentPacingOver d) eqn:Hv.
    + inv_bind E as r Hr. simplify_eq. cbn in Hs |- *.
      destruct (run_producer_sends (PCleanup src) _ _ _ Hwf Hr Hs) as (Hw & old & ->). split; [done|].
      apply Heff; try done; rewrite filter_cons, kind_message_of; by case_decide.
    + simplify_eq. pose proof (same_ring_sends d _ _ G1 Hs) as ->. rewrite G1. split; [done|].
      apply Heff; try done; by rewrite G3.
  - cbn [andb] in E. simplify_eq. pose proof (same_ring_sends d _ _ F1 Hs) as ->. rewrite F1. split; [done|].
    apply eff_quiet; congruence || done.
Qed.

Lemma det_step_effect d ev sent d' :
  ring_wf (ring d) → qEvaluation_armed d = negb (vCanStartEvaluationTimer d) →
  det_step d ev sent d' → ring_wf (ring d') ∧ det_effect d ev sent d'.
Proof.
  intros Hwf Hev [d1 sent1 He E Hs|d1 -> E].
  - destruct ev as [th rc k q lat|t e|v s dd|tw s|]; cbn [det_do] in E; [| | | |done].
    + injection E as E. by eapply hop_decision_effect.
    + destruct (armed t d) eqn:Hat; [|done]. injection E as E. inv_bind E as [d2 tb] H. simplify_eq.
      destruct t; unfold timerHandler in H; repeat case_decide; try done; [inv_bind H as d3 Hd3; simplify_eq..| |].
      * by apply (alarm_effect true e d).
      * by apply (alarm_effect false e d).
      * simplify_eq. split; [exact Hwf|]. pose proof (same_ring_sends d _ _ eq_refl Hs) as ->. apply eff_lifted; try done.
        cbn in Hat. rewrite Hev in Hat. by destruct (vCanStartEvaluationTimer d).
      * simplify_eq. split; [exact Hwf|]. pose proof (same_ring_sends d1 _ _ eq_refl Hs) as ->. by apply eff_quiet.
    + injection E as E. inv_bind E as r Hr. simplify_eq. cbn in Hs |- *.
      destruct (run_producer_sends (PStart v s dd) _ _ _ Hwf Hr Hs) as (Hw & old & ->). split; [done|].
      apply eff_quiet; try done; rewrite filter_cons, kind_message_of; by case_decide.
    + injection E as E. by apply idle_effect.
  - cbn in E. injection E as E. inv_bind E as [m r] Hr. simplify_eq. pose proof (get_spec _ Hwf) as Hg.
    destruct (count (ring d) =? 0); [congruence|]. destruct Hg as (m2 & r2 & E & Hw & _).
    rewrite Hr in E. simplify_eq. split; [done|]. by apply eff_quiet.
Qed.

(** ** Invariant of runs *)
Record run_inv (tr : list (det_event * list PeerMsg)) (d : Detector) : Prop := {
  ri_ring : ring_wf (ring d);
  ri_qinfo : sent_of_kind QINFO_MSG tr = (tally lifts det_init tr + tally start_fails det_init tr
                                          + flag (negb (vCanStartEvaluationTimer d)))%nat;
  ri_reset : (sent_of_kind RESET_PACING_MSG tr + flag (vSentPacingOver d) ≤ sent_of_kind QINFO_MSG tr)%nat;
  ri_armed : qEvaluation_armed d = negb (vCanStartEvaluationTimer d)
}.

Lemma det_run_inv tr d : det_run tr d → run_inv tr d.
Proof.
  induction 1 as [|tr d ev sent d' Hrun [Hr Hq Hp Ha] Hstep].
  - split; [apply ring_wf_init|done|cbn; lia|done].
  - destruct (det_step_effect _ _ _ _ Hr Ha Hstep) as [Hr' Heff].
    destruct Heff as [Ex Ef Fq Fr C S A|m Ex Ef -> K S C C' S' A|m Ex Ef -> K C C' A'|m Ex Ef -> K C C' S A|Ex Ef Fq Fr C C' S A];
      split; rewrite ?sent_of_kind_snoc, ?tally_snoc, ?(det_run_after _ _ Hrun); rewrite ?Ex, ?Ef; try done.
    all: rewrite ?Fq, ?Fr, ?filter_cons, ?K; rewrite ?C, ?C', ?A, ?A' in *; cbn [flag filter length list_filter negb] in *.
    all: try congruence.
    all: try (repeat case_decide; cbn [length] in *; try done; try rewrite S; try rewrite S'; rewrite ?S in *; cbn [flag] in *; lia).
    all: destruct (vSentPacingOver d') eqn:?; [rewrite ?S in * by done|]; repeat case_decide; cbn [length flag] in *; done || lia.
Qed.
Lemma qinfo_count tr d : det_run tr d → sent_of_kind QINFO_MSG tr = alarm_periods tr d.
Proof. intros [_ Hq _ _]%det_run_inv. rewrite Hq, tally_lifts. done. Qed.

(** The alarm timers: while the thresholds stay the same, [vq_TimerIsSet] says
    exactly whether one of them is running. *)
Definition alarm_inv (d : Detector) : Prop :=
  vq_TimerIsSet d = qOCC_Hop_armed d || qOCC_armed d ∧ (qOCC_Hop_armed d && qOCC_armed d = false).
Definition uses_retrans (b : bool) (ev : det_event) : Prop :=
  match ev with EHop th _ _ _ _ => vUseRetransmissionRate th = b | _ => True end.

Lemma alarm_inv_step b d ev sent d' :
  alarm_inv d → (b = false → qOCC_armed d = false) → uses_retrans b ev → det_step d ev sent d' →
  alarm_inv d' ∧ (b = false → qOCC_armed d' = false).
Proof.
  intros [Hv Hx] Hb Hu Hstep.
  assert (det_do ev d = Some (Ret d')) as E by (by destruct Hstep). clear Hstep.
  destruct ev as [th rc k q lat|t e|v s dd|tw s|]; cbn [det_do] in E.
  - injection E as E. cbn in Hu. unfold hop_decision in E. rewrite Hu in E.
    destruct ((vHOP_LATENCY_DELTA th <? lat) && (vQUEUE_OCCUPANCY_DELTA th <? q)).
    { simplify_eq. unfold EvaluateQOcc_and_HopDelay, alarm_inv. rewrite Hv.
      destruct (qOCC_Hop_armed d) eqn:A1, (qOCC_armed d) eqn:A2; try done; cbn; rewrite ?A1, ?A2, ?Hv; try done.
      destruct (rc =? 0); cbn; rewrite ?A1, ?A2, ?Hv; done. }
    destruct (b && (vQUEUE_OCCUPANCY_DELTA th <? q)) eqn:Hbq.
    { simplify_eq. unfold EvaluateQOccUserInfo, alarm_inv. rewrite Hv. apply andb_true_iff in Hbq as [-> _].
      destruct (qOCC_Hop_armed d) eqn:A1, (qOCC_armed d) eqn:A2; try done; cbn; rewrite ?A1, ?A2, ?Hv; try done.
      destruct (rc =? 0); cbn; rewrite ?A1, ?A2, ?Hv; done. }
    set (d1 := if vq_TimerIsSet d then _ else d) in E.
    assert (alarm_inv d1 ∧ (b = false → qOCC_armed d1 = false)) as Hd1.
    { subst d1. unfold alarm_inv. rewrite Hv.
      destruct b, (qOCC_Hop_armed d) eqn:A1, (qOCC_armed d) eqn:A2; try done; cbn; rewrite ?A1, ?A2, ?Hv; try done.
      all: by specialize (Hb eq_refl). }
    clearbody d1. destruct (vSentPacingOver d1 && vCanStartEvaluationTimer d1); [inv_bind E as r Hr|]; by simplify_eq.
  - destruct (armed t d) eqn:Ht; [|done]. injection E as E. inv_bind E as [d2 tb] H. simplify_eq.
    unfold timerHandler in H. unfold alarm_inv in *.
    destruct t; repeat case_decide; try done; cbn in Ht.
    1,2: inv_bind H as d3 Hd3; simplify_eq; unfold qOCC_Hop_TimerID_Handler, qOCC_TimerID_Handler in Hd3;
         inv_bind Hd3 as fl Hfl; cbn in Hd3; rewrite Ht in Hx, Hv; cbn in Hx, Hv;
         (destruct (vCanStartEvaluationTimer d); [inv_bind Hd3 as r Hr|]); simplify_eq;
         unfold fStartEvaluationTimer; destruct (he_rc e =? 0), (he_kafka e); cbn;
         rewrite ?andb_true_r, ?orb_false_r in *; rewrite ?Hx; try done.
    + by simplify_eq.
    + by simplify_eq.
  - injection E as E. inv_bind E as r Hr. by simplify_eq.
  - injection E as E. unfold idle_detector in E. cbv zeta in E.
    set (d1 := if vq_TimerIsSet d then _ else d) in E.
    assert (alarm_inv d1 ∧ (b = false → qOCC_armed d1 = false)) as Hd1.
    { subst d1. unfold alarm_inv. destruct (vq_TimerIsSet d) eqn:V; [done|]. by rewrite V. }
    clearbody d1. set (d2 := if negb (vCanStartEvaluationTimer d1) && tw then _ else d1) in E.
    assert (alarm_inv d2 ∧ (b = false → qOCC_armed d2 = false)) as Hd2
      by (subst d2; by destruct (negb (vCanStartEvaluationTimer d1) && tw)).
    clearbody d2. destruct (vSentPacingOver d2 && tw && vCanStartEvaluationTimer d2); [inv_bind E as r Hr|]; by simplify_eq.
  - injection E as E. inv_bind E as [m r] Hr. by simplify_eq.
Qed.

Lemma det_run_alarm b tr d :
  det_run tr d → Forall (λ x, uses_retrans b x.1) tr → alarm_inv d ∧ (b = false → qOCC_armed d = false).
Proof.
  induction 1 as [|tr d ev sent d' _ IH Hstep]; [intros _; by split; [split|]|].
  intros [Htr [Hev _]%Forall_cons_1]%Forall_app. destruct (IH Htr) as [Hi Hb].
  by apply (alarm_inv_step b d ev sent d').
Qed.

(** ** Properties *)

(** C6: However telemetry, timer expiries, new sources, idle seconds and the sender
    interleave, the number of congestion reports (QINFO) that go to the source DTN
    is exactly the number of times the evaluation timer has expired, plus the times
    it was stopped while it ran because the link had been idle for two seconds,
    plus the reports after which it could not be started, plus one while it runs:
    no other report is ever sent. *)
Theorem qinfo_rate_limited tr d :
  det_run tr d →
  sent_of_kind QINFO_MSG tr =
    (tally timer_expires det_init tr + tally idle_stops det_init tr + tally start_fails det_init tr
     + flag (qEvaluation_armed d))%nat.
Proof. intros Hr. rewrite (qinfo_count tr d Hr). destruct (det_run_inv _ _ Hr) as [_ _ _ ->]. done. Qed.

(** A hop of a congested queue, its alarm, and the report that goes out. *)
Definition calm_env : henv := mkHenv "Wed Jun 30 21:49:08." LEARNING false 0.
Definition congested : det_event := EHop thresholds_init 0 (mkHop 0 16777226 33554442) 500 600000.
Definition calm : det_event := EHop thresholds_init 0 (mkHop 0 16777226 33554442) 5 600.
(** What the event appended to the queue. *)
Definition appended (d d' : Detector) : list PeerMsg := drop (length (contents (ring d))) (contents (ring d')).
Fixpoint replay (evs : list det_event) (tr : list (det_event * list PeerMsg)) (d : Detector)
  : option (list (det_event * list PeerMsg) * Detector) :=
  match evs with
  | [] => Some (tr, d)
  | ev :: evs' =>
      match do_event d ev with
      | Some d' =>
          let sent := appended d d' in
          if bool_decide (contents (ring d') = contents (ring d) ++ sent)
          then replay evs' (tr ++ [(ev, sent)]) d' else None
      | None => None
      end
  end.

Lemma replay_run evs tr d tr' d' :
  Forall (λ ev, ev ≠ ESend) evs → det_run tr d → replay evs tr d = Some (tr', d') → det_run tr' d'.
Proof.
  revert tr d. induction evs as [|ev evs IH]; intros tr d Hev Hr E; cbn in E; [by simplify_eq|].
  apply Forall_cons_1 in Hev as [Hne Hev]. unfold do_event in E.
  destruct (det_do ev d) as [[d1| |]|] eqn:Ed; try done.
  case_bool_decide; [|done]. eapply IH; [done| |exact E]. eapply run_step; [done|]. by apply ds_append.
Qed.

Definition alarm_run : list det_event := [congested; EFire T_qOCC_Hop calm_env].
(** The alarm, then the evaluation timer's expiry, then a calm hop. *)
Definition recovery_run : list det_event := alarm_run ++ [EFire T_qEvaluation calm_env; calm].
Lemma replay_demo evs :
  Forall (λ ev, ev ≠ ESend) evs → is_Some (replay evs [] det_init) → ∃ tr d, det_run tr d ∧ replay evs [] det_init = Some (tr, d).
Proof. intros Hev [[tr d] E]. exists tr, d. split; [|done]. by eapply replay_run; [|apply run_init|]. Qed.

(** An alarm, two idle seconds in a row, and a second alarm. *)
Definition stopped_run : list det_event := alarm_run ++ [EIdle false 33554442; EIdle true 33554442] ++ alarm_run.
Lemma qinfo_rate_limited_witness :
  ∃ tr d, det_run tr d ∧ replay stopped_run [] det_init = Some (tr, d) ∧ sent_of_kind QINFO_MSG tr = 2%nat ∧
    tally timer_expires det_init tr = 0%nat ∧ tally idle_stops det_init tr = 1%nat ∧
    sent_of_kind QINFO_MSG tr =
      (tally timer_expires det_init tr + tally idle_stops det_init tr + tally start_fails det_init tr
       + flag (qEvaluation_armed d))%nat.
Proof.
  destruct (replay_demo stopped_run) as (tr & d & Hr & E); [by repeat constructor|vm_compute; eauto|].
  exists tr, d. split; [done|]. split; [done|]. split; [vm_compute in E; injection E as <- _; reflexivity|].
  split; [vm_compute in E; injection E as <- _; reflexivity|]. split; [vm_compute in E; injection E as <- _; reflexivity|].
  by apply (qinfo_rate_limited tr d).
Defined.

(** A pacing reset is sent to the source only as the answer to an earlier
    congestion report: in any run there are never more resets than reports. *)
Theorem reset_only_after_report tr d :
  det_run tr d → (sent_of_kind RESET_PACING_MSG tr ≤ sent_of_kind QINFO_MSG tr)%nat.
Proof. intros [_ _ Hp _]%det_run_inv. lia. Qed.

Lemma reset_only_after_report_witness :
  ∃ tr d, det_run tr d ∧ sent_of_kind RESET_PACING_MSG tr = 1%nat ∧
    (sent_of_kind RESET_PACING_MSG tr ≤ sent_of_kind QINFO_MSG tr)%nat.
Proof.
  destruct (replay_demo recovery_run) as (tr & d & Hr & E); [by repeat constructor|vm_compute; eauto|].
  exists tr, d. split; [done|]. split; [vm_compute in E; injection E as <- _; reflexivity|].
  by apply (reset_only_after_report tr d).
Defined.

(** Reporting never locks up: whenever reports are suppressed, the evaluation
    timer is running, and its expiry is possible and allows reports again. *)
Theorem suppressed_reports_resume tr d e :
  det_run tr d → vCanStartEvaluationTimer d = false →
  ∃ d', det_step d (EFire T_qEvaluation e) [] d' ∧ vCanStartEvaluationTimer d' = true.
Proof.
  intros [_ _ _ Ha]%det_run_inv Hc. rewrite Hc in Ha.
  exists (qEvaluation_TimerID_Handler (disarm T_qEvaluation d)). split; [|done].
  apply ds_append; [done| |cbn; by rewrite app_nil_r]. cbn. rewrite Ha. done.
Qed.

Lemma suppressed_reports_resume_witness :
  ∃ tr d d', det_run tr d ∧ det_step d (EFire T_qEvaluation calm_env) [] d' ∧ vCanStartEvaluationTimer d' = true.
Proof.
  destruct (replay_demo alarm_run) as (tr & d & Hr & E); [by repeat constructor|vm_compute; eauto|].
  destruct (suppressed_reports_resume tr d calm_env Hr) as (d' & H1 & H2);
    [vm_compute in E; injection E as _ <-; reflexivity|].
  exists tr, d, d'. done.
Defined.

(** A hop that does not exceed what the alarms look for. *)
Definition calm_hop (th : Thresholds) (q lat : Z) : Prop :=
  q ≤ vQUEUE_OCCUPANCY_DELTA th ∨ (lat ≤ vHOP_LATENCY_DELTA th ∧ vUseRetransmissionRate th = false).

(** While the setting [vUseRetransmissionRate] stays the same, a single hop
    within the thresholds stops every running congestion alarm: a report is sent
    only for a congestion that lasted the whole interval. *)
Theorem calm_hop_stops_alarms b tr d th rc k q lat d' :
  det_run tr d → Forall (λ x, uses_retrans b x.1) tr → vUseRetransmissionRate th = b →
  calm_hop th q lat → hop_decision th rc k q lat d = Ret d' →
  qOCC_Hop_armed d' = false ∧ qOCC_armed d' = false ∧ vq_TimerIsSet d' = false.
Proof.
  intros Hr Htr Hth Hcalm E. destruct (det_run_alarm b tr d Hr Htr) as [[Hv Hx] Hb].
  unfold hop_decision in E. rewrite Hth in E.
  assert ((vHOP_LATENCY_DELTA th <? lat) && (vQUEUE_OCCUPANCY_DELTA th <? q) = false) as E1.
  { destruct Hcalm as [Hq|[Hl _]]; zbool; cbn; done || lia. }
  assert (b && (vQUEUE_OCCUPANCY_DELTA th <? q) = false) as E2.
  { destruct Hcalm as [Hq|[_ Hb']]; [destruct b; zbool; cbn; done || lia|]. rewrite Hth in Hb'. by rewrite Hb'. }
  rewrite E1, E2 in E.
  set (d1 := if vq_TimerIsSet d then _ else d) in E.
  assert (qOCC_Hop_armed d1 = false ∧ qOCC_armed d1 = false ∧ vq_TimerIsSet d1 = false) as Hd1.
  { subst d1. rewrite Hv. destruct b, (qOCC_Hop_armed d) eqn:A1, (qOCC_armed d) eqn:A2; try done; cbn;
      rewrite ?A1, ?A2, ?Hv; try done; by specialize (Hb eq_refl). }
  clearbody d1. destruct (vSentPacingOver d1 && vCanStartEvaluationTimer d1); [inv_bind E as r Hr'|]; by simplify_eq.
Qed.

Definition congested_det : Detector := default det_init (do_event det_init congested).
Lemma calm_hop_stops_alarms_witness :
  qOCC_Hop_armed congested_det = true ∧
  ∃ d', hop_decision thresholds_init 0 (mkHop 0 16777226 33554442) 5 600 congested_det = Ret d' ∧
    qOCC_Hop_armed d' = false.
Proof.
  split; [reflexivity|]. eexists. split; [reflexivity|].
  apply (calm_hop_stops_alarms false [(congested, [])] congested_det thresholds_init 0 (mkHop 0 16777226 33554442) 5 600).
  - apply (run_step [] det_init congested [] congested_det run_init). by apply ds_append.
  - apply Forall_singleton. reflexivity.
  - reflexivity.
  - left. vm_compute. discriminate.
  - reflexivity.
Defined.

(** Turning [vUseRetransmissionRate] off while the queue-occupancy alarm runs
    leaves that alarm running through calm hops (they disarm it only when the
    setting is on), so it still reports a congestion that is over. *)
Theorem alarm_survives_setting_change th rc k q lat d d' :
  qOCC_armed d = true → vUseRetransmissionRate th = false → calm_hop th q lat →
  hop_decision th rc k q lat d = Ret d' → qOCC_armed d' = true.
Proof.
  intros Ha Hth Hcalm E. unfold hop_decision in E. rewrite Hth in E. cbn [andb] in E.
  assert ((vHOP_LATENCY_DELTA th <? lat) && (vQUEUE_OCCUPANCY_DELTA th <? q) = false) as E1.
  { destruct Hcalm as [Hq|[Hl _]]; zbool; cbn; done || lia. }
  rewrite E1 in E. set (d1 := if vq_TimerIsSet d then _ else d) in E.
  assert (qOCC_armed d1 = true) as Hd1 by (subst d1; by destruct (vq_TimerIsSet d)).
  clearbody d1. destruct (vSentPacingOver d1 && vCanStartEvaluationTimer d1); [inv_bind E as r Hr'|]; by simplify_eq.
Qed.

Lemma alarm_survives_setting_change_witness :
  let d := EvaluateQOccUserInfo 0 (mkHop 0 16777226 33554442) 500 det_init in
  ∃ d', hop_decision thresholds_init 0 (mkHop 0 16777226 33554442) 5 600 d = Ret d' ∧ qOCC_armed d' = true.
Proof.
  cbv zeta. eexists. split; [reflexivity|].
  eapply (alarm_survives_setting_change thresholds_init 0 (mkHop 0 16777226 33554442) 5 600
            (EvaluateQOccUserInfo 0 (mkHop 0 16777226 33554442) 500 det_init));
    [reflexivity|reflexivity|left; vm_compute; discriminate|reflexivity].
Defined.
