(* ===== verification/Pacing.v ===== *)
(** * Pacing: what the source DTN does about congestion

    [process_request] of user_dtn.c and the three actions it starts: adjusting
    the [fq] pacing of the interface ([fDoQinfoAssessment2], and
    [fDoQinfoAssessmentKafka] for a Kafka consumer), lifting it
    ([fDoResetPacing2]) and removing the queueing discipline
    ([fDoCleanupResetPacing2]).  What was done last is kept in a shared-memory
    segment ([sResetPacingBack]) that the processes forked per peer share.

    The commands handed to [system] are values of [tc_cmd] with their text; one
    handler is one atomic step (the segment has no lock).  Whether [shmat]
    succeeds is an input.  The process-private copy [sResetPacingBack] is always
    overwritten by [shm_read] before it is used, so only the segment is state. *)
From Stdlib Require Import ZArith Lia Ascii String.
From stdpp Require Import base list strings numbers option relations.
From S2P Require Import Prelude CString Dbl Ring Transport DtnTables FlowCounters Timers.
Open Scope Z_scope.

Definition REGULAR_PACING_FLAG_SET := 1.
Definition NOPACING_FLAG_SET := 99.

(** ** The shared record *)
Record sResetPacingBack_t := mkBack { set : Z; current_pacing : double }.
Definition back_init : sResetPacingBack_t := mkBack 0 dzero.
(** [shm_write] and [shm_read]; [att] tells whether [shmat] succeeds. *)
Definition shm_write (att : bool) (v old : sResetPacingBack_t) : sResetPacingBack_t := if att then v else old.
Definition shm_read (att : bool) (shm : sResetPacingBack_t) : option sResetPacingBack_t :=
  if att then Some shm else None.
(** [shm_read(...) && sResetPacingBack.set] *)
Definition pacing_set (att : bool) (shm : sResetPacingBack_t) : option sResetPacingBack_t :=
  b ← shm_read att shm; if set b =? 0 then None else Some b.

(** ** Commands *)
Inductive tc_cmd :=
| TcInstall (rate : double)     (* remove the root discipline, add fq with a rate *)
| TcChange (rate : double)      (* change the rate of fq *)
| TcNopacing                    (* fq without pacing *)
| TcDel.                        (* remove the root discipline *)
Definition render (netDevice : string) (c : tc_cmd) : string :=
  match c with
  | TcInstall r => "tc qdisc del dev " +:+ netDevice +:+ " root 2>/dev/null; tc qdisc add dev "
                     +:+ netDevice +:+ " root fq maxrate " +:+ fmt2 r +:+ "gbit"
  | TcChange r => "tc qdisc change dev " +:+ netDevice +:+ " root fq maxrate " +:+ fmt2 r +:+ "gbit pacing"
  | TcNopacing => "tc qdisc change dev " +:+ netDevice +:+ " root fq nopacing"
  | TcDel => "tc qdisc del dev " +:+ netDevice +:+ " root 2>/dev/null"
  end.

(** ** What the handlers read *)
Record penv := mkPenv {
  gTuningMode : bool;
  netDeviceSpeed : Z;                              (* Mb/s *)
  vMaxPacingRate : double;
  vGlobal_average_tx_Gbits_per_sec : double;
  vGlobalRetransmissionRate : double;
  vRetransmissionRateThreshold : double;
  attached : bool                                  (* [shmat] succeeds *)
}.
(** The segment and the commands run, oldest first. *)
Record Pacer := mkPacer { shm : sResetPacingBack_t; ran : list tc_cmd }.
#[export] Instance eta_Pacer : Settable Pacer := fun p => mkPacer (shm p) (ran p).
Definition pacer_init : Pacer := mkPacer back_init [].
Definition store (e : penv) (v : sResetPacingBack_t) (p : Pacer) : Pacer :=
  p <| shm := shm_write (attached e) v (shm p) |>.
Definition run (cs : list tc_cmd) (p : Pacer) : Pacer := p <| ran := ran p ++ cs |>.

(** The search of [aDest_Dtn_IPs] all handlers start with. *)
Fixpoint find_dest (es : list sDest_Dtn_IPs_t) (dest_ip_addr : Z) : option sDest_Dtn_IPs_t :=
  match es with
  | [] => None
  | e :: es' =>
      if ed_dest_ip_addr e =? 0 then find_dest es' dest_ip_addr
      else if negb (dest_ip_addr =? ed_dest_ip_addr e) then find_dest es' dest_ip_addr
      else Some e
  end.

(** ** Congestion reported: [fDoQinfoAssessment2] *)
(** The new pacing value: a share of the bit rate, at least 2, and 40 for
    anything above 34. *)
Definition new_pacing_value (avg rate : double) : double :=
  let v := dmul avg rate in
  let v := if dltb d34 v then d40 else v in
  if dltb v d2 then d2 else v.
(** What both branches decide to do: flag, commands and value. *)
Definition plan_pacing (cur : option sResetPacingBack_t) (v : double) : option (Z * list tc_cmd * double) :=
  match cur with
  | Some b =>
      if deqb v d40 then
        if set b =? NOPACING_FLAG_SET then None
        else if set b =? REGULAR_PACING_FLAG_SET then Some (NOPACING_FLAG_SET, [TcNopacing], v)
        else None
      else Some (REGULAR_PACING_FLAG_SET, [TcChange v], v)
  | None =>
      let v := if dltb d34 v then d34 else v in
      Some (REGULAR_PACING_FLAG_SET, [TcInstall v], v)
  end.
(** With [USEGLOBALRETRAN] the rate compared is the global one. *)
Definition fDoQinfoAssessment2 (e : penv) (es : list sDest_Dtn_IPs_t) (hop_delay dest_ip_addr : Z) (p : Pacer) : Pacer :=
  let found := find_dest es dest_ip_addr in
  let avg := vGlobal_average_tx_Gbits_per_sec e in
  if negb (dtruth avg) then p else
  let v := new_pacing_value avg (vMaxPacingRate e) in
  match found with
  | None => p
  | Some _ =>
      if negb (hop_delay =? 0) then
        match plan_pacing (pacing_set (attached e) (shm p)) v with
        | None => p
        | Some (flag, cs, v) =>
            if gTuningMode e then store e (mkBack flag v) (run cs p) else p
        end
      else if dltb (vRetransmissionRateThreshold e) (vGlobalRetransmissionRate e) then
        match plan_pacing (pacing_set (attached e) (shm p)) v with
        | None => p
        | Some (_, cs, v) =>
            if gTuningMode e then store e (mkBack REGULAR_PACING_FLAG_SET v) (run cs p) else p
        end
      else p
  end.

(** ** Congestion over: [fDoResetPacing2], [fDoCleanupResetPacing2] *)
Definition fDoResetPacing2 (e : penv) (es : list sDest_Dtn_IPs_t) (dest_ip_addr : Z) (p : Pacer) : Pacer :=
  match find_dest es dest_ip_addr with
  | None => p
  | Some _ =>
      match pacing_set (attached e) (shm p) with
      | None => p
      | Some b =>
          if gTuningMode e then
            if set b =? NOPACING_FLAG_SET then p
            else if set b =? REGULAR_PACING_FLAG_SET then
              run [TcNopacing] (store e (mkBack NOPACING_FLAG_SET dzero) p)
            else p
          else p
      end
  end.
Definition fDoCleanupResetPacing2 (e : penv) (p : Pacer) : Pacer :=
  match pacing_set (attached e) (shm p) with
  | None => p
  | Some _ => if gTuningMode e then run [TcDel] (store e (mkBack 0 dzero) p) else p
  end.
(** The earlier versions, still in the file: both remove the discipline. *)
Definition fDoResetPacing (e : penv) (es : list sDest_Dtn_IPs_t) (dest_ip_addr : Z) (p : Pacer) : Pacer :=
  match find_dest es dest_ip_addr with
  | None => p
  | Some _ =>
      match pacing_set (attached e) (shm p) with
      | None => p
      | Some _ => if gTuningMode e then run [TcDel] (store e (mkBack 0 dzero) p) else p
      end
  end.
Definition fDoCleanupResetPacing := fDoCleanupResetPacing2.

(** ** One message from a destination: [process_request] *)
Definition dispatch (e : penv) (es : list sDest_Dtn_IPs_t) (r : Request) (p : Pacer) : Pacer :=
  if rq_no r =? QINFO_MSG then fDoQinfoAssessment2 e es (rq_hop_delay r) (rq_dst r) p
  else if rq_no r =? RESET_PACING_MSG then fDoResetPacing2 e es (rq_dst r) p
  else if rq_no r =? TEST_MSG then p
  else if rq_no r =? CLEANUP_RESET_PACING_MSG then fDoCleanupResetPacing2 e p
  else p.
(** What [Readn] answers to [sizeof(from_cli)]: closed, a whole message, or
    anything else (an error, or fewer bytes) which leaves in [from_cli] a
    message [m] that may be stale; the code only tests for 0. *)
Inductive req_input := ReqClosed | ReqMsg (m : PeerMsg).
Fixpoint process_request (es : list sDest_Dtn_IPs_t) (inputs : list (penv * req_input))
    (prev_src prev_dst : Z) (p : Pacer) : res Pacer :=
  match inputs with
  | [] => Blocked
  | (_, ReqClosed) :: _ => Ret p
  | (e, ReqMsg m) :: inputs' =>
      let r := decode prev_src prev_dst m in
      process_request es inputs' (rq_src r) (rq_dst r) (dispatch e es r p)
  end.

(** ** Residual bandwidth from Kafka: [fDoQinfoAssessmentKafka] *)
(** The state it works on: the pacing record and the evaluation timer. *)
Record KafkaState := mkKafka { kpacer : Pacer; kdet : Detector }.
Definition gbps_of_payload (payload : string) : double :=
  let residual := strtoul payload in
  if residual =? 0 then dzero else ddiv (ddiv (dofZ residual) d1000) d1e6.
Definition kafka_pacing_value (avg Gbps : double) : double :=
  let v := dmul (dadd avg Gbps) d0_95 in if dltb d34 v then d40 else v.
(** [set = ...; shm_write; system(cmd); fStartEvaluationTimer(0)], in tuning mode
    and when the evaluation timer is not running. *)
Definition kafka_adjust (e : penv) (h : henv) (b : sResetPacingBack_t) (cs : list tc_cmd) (k : KafkaState) : KafkaState :=
  if vCanStartEvaluationTimer (kdet k)
  then mkKafka (store e b (run cs (kpacer k))) (fStartEvaluationTimer h (kdet k))
  else k.
Definition kafka_lift (e : penv) (h : henv) (cur : option sResetPacingBack_t) (k : KafkaState) : KafkaState :=
  match cur with
  | Some b => if gTuningMode e && (set b =? REGULAR_PACING_FLAG_SET)
              then kafka_adjust e h (mkBack NOPACING_FLAG_SET dzero) [TcNopacing] k else k
  | None => k
  end.
Definition fDoQinfoAssessmentKafka (e : penv) (h : henv) (payload : string) (k : KafkaState) : KafkaState :=
  let Gbps := gbps_of_payload payload in
  let avg := vGlobal_average_tx_Gbits_per_sec e in
  let vFDevSpeed := ddiv (dofZ (netDeviceSpeed e)) d1000 in
  if negb (dtruth avg) then k else
  let cur := pacing_set (attached e) (shm (kpacer k)) in
  let v := kafka_pacing_value avg Gbps in
  if dltb (dadd avg Gbps) (dmul vFDevSpeed d0_95) then
    if dleb (dmul vFDevSpeed d0_95) v then kafka_lift e h cur k
    else if dltb v (dmul vFDevSpeed d0_10) then k
    else
      let modify := match cur with
                    | None => true
                    | Some b => dltb (dmul (current_pacing b) d0_95) v || dltb v (dmul (current_pacing b) d0_95)
                    end in
      if gTuningMode e && modify then
        kafka_adjust e h (mkBack REGULAR_PACING_FLAG_SET v)
          [match cur with Some _ => TcChange v | None => TcInstall v end] k
      else k
  else kafka_lift e h cur k.

(** ** The record and the commands agree *)
(** What the record says was the last thing done. *)
Definition last_cmd (p : Pacer) : option tc_cmd := list.last (ran p).
Inductive agrees : sResetPacingBack_t → option tc_cmd → Prop :=
| ag_never : agrees back_init None
| ag_removed : agrees (mkBack 0 dzero) (Some TcDel)
| ag_installed v : agrees (mkBack REGULAR_PACING_FLAG_SET v) (Some (TcInstall v))
| ag_changed v : agrees (mkBack REGULAR_PACING_FLAG_SET v) (Some (TcChange v))
| ag_lifted v : agrees (mkBack NOPACING_FLAG_SET v) (Some TcNopacing).
Definition pacer_ok (p : Pacer) : Prop := agrees (shm p) (last_cmd p).

Lemma last_run cs c p : last_cmd (run (cs ++ [c]) p) = Some c.
Proof. unfold last_cmd, run. cbn. by rewrite app_assoc, last_snoc. Qed.
Lemma last_run1 c p : last_cmd (run [c] p) = Some c.
Proof. apply (last_run []). Qed.
Lemma last_store e v p : last_cmd (store e v p) = last_cmd p.
Proof. done. Qed.
Lemma shm_store e v p : attached e = true → shm (store e v p) = v.
Proof. unfold store, shm_write. cbn. by intros ->. Qed.

(** A plan always has one command, and the flag that goes with it. *)
Lemma plan_pacing_agrees cur v flag cs v' :
  plan_pacing cur v = Some (flag, cs, v') → ∃ c, cs = [c] ∧ agrees (mkBack flag v') (Some c).
Proof.
  unfold plan_pacing. destruct cur as [b|]; [destruct (deqb v d40); [destruct (set b =? NOPACING_FLAG_SET);
    [done|destruct (set b =? REGULAR_PACING_FLAG_SET); [|done]]|]|]; intros; simplify_eq;
    eexists; (split; [reflexivity|]); constructor.
Qed.
Lemma store_run_agrees e b c p :
  attached e = true → agrees b (Some c) → pacer_ok (store e b (run [c] p)).
Proof.
  intros Ha Hb. unfold pacer_ok. by rewrite shm_store, last_store, last_run1.
Qed.

Lemma qinfo2_hop_ok e es hop_delay dst p :
  attached e = true → hop_delay ≠ 0 → pacer_ok p → pacer_ok (fDoQinfoAssessment2 e es hop_delay dst p).
Proof.
  intros Ha Hh Hp. unfold fDoQinfoAssessment2. apply Z.eqb_neq in Hh. rewrite Hh. cbn [negb].
  destruct (negb (dtruth _)); [done|]. destruct (find_dest es dst); [|done].
  destruct (plan_pacing _ _) as [[[flag cs] v]|] eqn:E; [|done]. destruct (gTuningMode e); [|done].
  apply plan_pacing_agrees in E as (c & -> & Hc). by apply store_run_agrees.
Qed.
Lemma reset2_ok e es dst p : attached e = true → pacer_ok p → pacer_ok (fDoResetPacing2 e es dst p).
Proof.
  intros Ha Hp. unfold fDoResetPacing2. destruct (find_dest es dst); [|done].
  destruct (pacing_set _ _) as [b|]; [|done]. destruct (gTuningMode e); [|done].
  destruct (set b =? NOPACING_FLAG_SET); [done|]. destruct (set b =? REGULAR_PACING_FLAG_SET); [|done].
  apply (store_run_agrees e (mkBack NOPACING_FLAG_SET dzero) TcNopacing p Ha). constructor.
Qed.
Lemma cleanup2_ok e p : attached e = true → pacer_ok p → pacer_ok (fDoCleanupResetPacing2 e p).
Proof.
  intros Ha Hp. unfold fDoCleanupResetPacing2. destruct (pacing_set _ _); [|done].
  destruct (gTuningMode e); [|done]. apply (store_run_agrees e (mkBack 0 dzero) TcDel p Ha). constructor.
Qed.
Lemma kafka_ok e h payload k :
  attached e = true → pacer_ok (kpacer k) → pacer_ok (kpacer (fDoQinfoAssessmentKafka e h payload k)).
Proof.
  intros Ha Hp. unfold fDoQinfoAssessmentKafka. destruct (negb (dtruth _)); [done|].
  assert (∀ b c, agrees b (Some c) → pacer_ok (kpacer (kafka_adjust e h b [c] k))) as Hadj.
  { intros b c Hb. unfold kafka_adjust. destruct (vCanStartEvaluationTimer _); [|done]. by apply store_run_agrees. }
  assert (∀ cur, pacer_ok (kpacer (kafka_lift e h cur k))) as Hlift.
  { intros [b|]; cbn; [|done]. destruct (_ && _); [|done]. apply Hadj. constructor. }
  destruct (dltb _ _); [|apply Hlift]. destruct (dleb _ _); [apply Hlift|].
  destruct (dltb _ _); [done|]. destruct (gTuningMode e && _); [|done]. apply Hadj.
  destruct (pacing_set _ _); constructor.
Qed.

(** ** The pacing value *)
Lemma new_pacing_value_range avg rate :
  is_nan (dmul avg rate) = false →
  let v := new_pacing_value avg rate in
  is_nan v = false ∧ dleb d2 v = true ∧ (dleb v d34 = true ∨ v = d40).
Proof.
  intros Hn. unfold new_pacing_value. set (x := dmul avg rate) in *.
  destruct (dltb d34 x) eqn:H34; [by repeat split; auto; vm_compute|].
  destruct (dltb x d2) eqn:H2; [by repeat split; auto; vm_compute|].
  cbn. split; [done|]. split; [by apply dltb_total|]. left. by apply dltb_total.
Qed.

(** ** Properties *)

(** One action on the pacing of the interface, with the segment attached:
    a report with a hop delay, a reset, a cleanup, a Kafka message. *)
Inductive pacing_step : KafkaState → KafkaState → Prop :=
| ps_report e es hop_delay dst k :
    attached e = true → hop_delay ≠ 0 →
    pacing_step k (mkKafka (fDoQinfoAssessment2 e es hop_delay dst (kpacer k)) (kdet k))
| ps_reset e es dst k :
    attached e = true → pacing_step k (mkKafka (fDoResetPacing2 e es dst (kpacer k)) (kdet k))
| ps_cleanup e k :
    attached e = true → pacing_step k (mkKafka (fDoCleanupResetPacing2 e (kpacer k)) (kdet k))
| ps_kafka e h payload k :
    attached e = true → pacing_step k (fDoQinfoAssessmentKafka e h payload k).

Lemma pacing_step_ok k k' : pacing_step k k' → pacer_ok (kpacer k) → pacer_ok (kpacer k').
Proof.
  destruct 1; intros Hp; [by apply qinfo2_hop_ok|by apply reset2_ok|by apply cleanup2_ok|by apply kafka_ok].
Qed.

(** C7: Through any sequence of reports with a hop delay, resets, cleanups and
    Kafka messages, the shared record says what the last command did: nothing yet
    or removed (flag 0), paced at a rate (flag 1), or pacing lifted (flag 99). *)
Theorem record_matches_interface k :
  rtc pacing_step (mkKafka pacer_init det_init) k → agrees (shm (kpacer k)) (last_cmd (kpacer k)).
Proof.
  intros Hr. assert (pacer_ok (kpacer (mkKafka pacer_init det_init))) as H0 by constructor.
  revert H0. induction Hr as [k|k k1 k2 H1 _ IH]; [done|]. intros H0. by apply IH, (pacing_step_ok k).
Qed.

Definition demo_penv : penv := mkPenv true 40000 d0_90 (dofZ 20) dzero d0_002 true.
Definition demo_dests : list sDest_Dtn_IPs_t := [dest_zero <| ed_dest_ip_addr := 33554442 |>].
Definition paced : Pacer := fDoQinfoAssessment2 demo_penv demo_dests 600000 33554442 pacer_init.
Lemma record_matches_interface_witness :
  render "eth0" <$> ran paced = ["tc qdisc del dev eth0 root 2>/dev/null; tc qdisc add dev eth0 root fq maxrate 18.00gbit"] ∧
  agrees (shm paced) (last_cmd paced).
Proof.
  split; [vm_compute; reflexivity|]. apply (record_matches_interface (mkKafka paced det_init)).
  eapply rtc_once. by apply (ps_report demo_penv demo_dests 600000 33554442 (mkKafka pacer_init det_init)).
Defined.

(** C23: Every rate a congestion report makes the host pace at is between 2 and 34
    Gb/s, whatever the bit rate and the configured share (only a product that is
    not a number is excluded). *)
Theorem report_rates_bounded e es hop_delay dst p c :
  is_nan (dmul (vGlobal_average_tx_Gbits_per_sec e) (vMaxPacingRate e)) = false →
  c ∈ drop (length (ran p)) (ran (fDoQinfoAssessment2 e es hop_delay dst p)) →
  match c with
  | TcInstall r | TcChange r => dleb d2 r = true ∧ dleb r d34 = true
  | TcNopacing => True
  | TcDel => False
  end.
Proof.
  intros Hn. pose proof (new_pacing_value_range _ _ Hn) as (Hnan & Hlo & Hhi).
  set (v := new_pacing_value _ _) in *.
  assert (∀ cur flag cs v' c, plan_pacing cur v = Some (flag, cs, v') → c ∈ cs →
    match c with TcInstall r | TcChange r => dleb d2 r = true ∧ dleb r d34 = true | TcNopacing => True | TcDel => False end) as Hplan.
  { intros cur flag cs v' c' E Hc. unfold plan_pacing in E. destruct cur as [b|].
    - destruct (deqb v d40) eqn:E40.
      + destruct (set b =? NOPACING_FLAG_SET); [done|]. destruct (set b =? REGULAR_PACING_FLAG_SET); [|done].
        simplify_eq. by apply list_elem_of_singleton in Hc as ->.
      + simplify_eq. apply list_elem_of_singleton in Hc as ->. destruct Hhi as [|Hhi]; [done|].
        rewrite Hhi in E40. by vm_compute in E40.
    - simplify_eq. apply list_elem_of_singleton in Hc as ->. destruct (dltb d34 v) eqn:E34.
      + split; vm_compute; reflexivity.
      + split; [done|]. by apply dltb_total. }
  unfold fDoQinfoAssessment2. fold v.
  assert (∀ q, ran q = ran p → c ∈ drop (length (ran p)) (ran q) → False) as Hsame.
  { intros q ->. rewrite drop_all. apply not_elem_of_nil. }
  assert (∀ e b cs, ran (store e b (run cs p)) = ran p ++ cs) as Hrun by done.
  destruct (negb _); [by intros []%Hsame|]. destruct (find_dest es dst); [|by intros []%Hsame].
  destruct (negb (hop_delay =? 0)); [|destruct (dltb _ _); [|by intros []%Hsame]];
    (destruct (plan_pacing _ v) as [[[flag cs] v']|] eqn:E; [|by intros []%Hsame]);
    (destruct (gTuningMode e); [|by intros []%Hsame]);
    rewrite Hrun, drop_app_length; by apply (Hplan _ _ _ _ _ E).
Qed.

Lemma report_rates_bounded_witness :
  ran paced = [TcInstall (dofZ 18)] ∧ dleb d2 (dofZ 18) = true ∧ dleb (dofZ 18) d34 = true.
Proof.
  assert (ran paced = [TcInstall (dofZ 18)]) as E by (vm_compute; reflexivity).
  split; [exact E|].
  apply (report_rates_bounded demo_penv demo_dests 600000 33554442 pacer_init (TcInstall (dofZ 18))); [vm_compute; reflexivity|].
  change (TcInstall (dofZ 18) ∈ ran paced). rewrite E. apply list_elem_of_singleton. reflexivity.
Defined.

(** What a message of each producer makes its DTN do. *)
Definition action_of (p : producer) (e : penv) (es : list sDest_Dtn_IPs_t) : Pacer → Pacer :=
  match p with
  | PQinfoHop _ h _ d => fDoQinfoAssessment2 e es h d
  | PQinfo _ _ d => fDoQinfoAssessment2 e es 0 d
  | PReset _ d => fDoResetPacing2 e es (ntohl d)
  | PCleanup _ => fDoCleanupResetPacing2 e
  | PStart _ _ _ => λ p, p
  end.
Fixpoint actions (es : list sDest_Dtn_IPs_t) (ms : list (penv * producer)) (p : Pacer) : Pacer :=
  match ms with [] => p | (e, m) :: ms' => actions es ms' (action_of m e es p) end.

(** C9: A DTN that reads the messages of a connection up to its end does for each,
    in order, what its producer asked for: reports adjust the pacing for the
    reporting destination, resets lift it, cleanups remove it and start-of-traffic
    messages do nothing; whatever the slots of the queue held before. *)
Theorem requests_act_as_reported es (ms : list (penv * producer * Z * PeerMsg)) e' prev_src prev_dst p :
  Forall (λ m, producer_ok m.1.1.2) ms →
  process_request es
    (((λ m, (m.1.1.1, ReqMsg (wire_of (message_of m.1.1.2 m.1.2 m.2)))) <$> ms) ++ [(e', ReqClosed)])
    prev_src prev_dst p = Ret (actions es ((λ m, m.1.1) <$> ms) p).
Proof.
  revert prev_src prev_dst p. induction ms as [|[[[e q] seq] old] ms IH]; intros ps pd p Hok; [done|].
  apply Forall_cons_1 in Hok as [Hq Hok]. cbn in Hq. cbn [fmap list_fmap app process_request fst snd actions].
  rewrite decode_wire by done. rewrite IH by done. f_equal. f_equal.
  by destruct q.
Qed.
Lemma requests_act_as_reported_witness :
  process_request demo_dests
    [(demo_penv, ReqMsg (wire_of (message_of (PQinfoHop 5000 600000 16777226 33554442) 1 zero_msg)));
     (demo_penv, ReqMsg (wire_of (message_of (PReset 167772161 167772162) 2 zero_msg))); (demo_penv, ReqClosed)] 0 0 pacer_init
  = Ret (fDoResetPacing2 demo_penv demo_dests 33554442 paced).
Proof.
  apply (requests_act_as_reported demo_dests
    [(demo_penv, PQinfoHop 5000 600000 16777226 33554442, 1, zero_msg); (demo_penv, PReset 167772161 167772162, 2, zero_msg)]).
  apply Forall_cons_2; [vm_compute; repeat split; discriminate|].
  apply Forall_cons_2; [vm_compute; repeat split; discriminate|apply Forall_nil_2].
Defined.

(** A reset from a known peer lifts a pacing at a rate with one command, and
    a second reset finds nothing to do. *)
Theorem reset_lifts_pacing_once e es dst p :
  gTuningMode e = true → attached e = true → is_Some (find_dest es dst) → set (shm p) = REGULAR_PACING_FLAG_SET →
  let p' := fDoResetPacing2 e es dst p in
  ran p' = ran p ++ [TcNopacing] ∧ shm p' = mkBack NOPACING_FLAG_SET dzero ∧ fDoResetPacing2 e es dst p' = p'.
Proof.
  intros Ht Ha [d Hd] Hs. cbv zeta.
  assert (fDoResetPacing2 e es dst p = run [TcNopacing] (store e (mkBack NOPACING_FLAG_SET dzero) p)) as ->.
  { unfold fDoResetPacing2, pacing_set, shm_read. rewrite Hd, Ha, Ht. cbn. rewrite Hs. cbn. by rewrite Hs. }
  assert (shm (run [TcNopacing] (store e (mkBack NOPACING_FLAG_SET dzero) p)) = mkBack NOPACING_FLAG_SET dzero) as Hshm
    by (by apply shm_store).
  split_and!; [done|done|]. unfold fDoResetPacing2 at 1, pacing_set, shm_read. by rewrite Hd, Ha, Ht, Hshm.
Qed.
Lemma reset_lifts_pacing_once_witness :
  let p' := fDoResetPacing2 demo_penv demo_dests 33554442 paced in
  ran p' = ran paced ++ [TcNopacing] ∧ shm p' = mkBack NOPACING_FLAG_SET dzero ∧
  fDoResetPacing2 demo_penv demo_dests 33554442 p' = p'.
Proof.
  apply reset_lifts_pacing_once; [reflexivity|reflexivity|eexists; vm_compute; reflexivity|vm_compute; reflexivity].
Defined.

(** In learning mode no message changes the pacing or runs a command; nor does
    a report or a reset about a destination that is not in the table. *)
Theorem pacing_left_alone e es r p :
  gTuningMode e = false ∨
    (find_dest es (rq_dst r) = None ∧ rq_no r ≠ CLEANUP_RESET_PACING_MSG) →
  dispatch e es r p = p.
Proof.
  intros H. unfold dispatch, fDoQinfoAssessment2, fDoResetPacing2, fDoCleanupResetPacing2.
  destruct H as [->|[-> Hne]].
  - repeat case_match; done.
  - apply Z.eqb_neq in Hne as ->. repeat case_match; done.
Qed.
Lemma pacing_left_alone_witness :
  dispatch demo_penv demo_dests (mkRequest QINFO_MSG 5000 600000 16777226 50331658) paced = paced.
Proof. apply pacing_left_alone. right. split; [vm_compute; reflexivity|vm_compute; discriminate]. Defined.

(** The branch of a report without a hop delay (retransmissions above the
    threshold) breaks the record: when the share of the bit rate exceeds 34 Gb/s
    and the interface is paced, it lifts the pacing but records it as set. *)
Theorem retransmission_branch_misrecords e es dst p :
  gTuningMode e = true → attached e = true → is_Some (find_dest es dst) →
  dtruth (vGlobal_average_tx_Gbits_per_sec e) = true →
  dltb d34 (dmul (vGlobal_average_tx_Gbits_per_sec e) (vMaxPacingRate e)) = true →
  dltb (vRetransmissionRateThreshold e) (vGlobalRetransmissionRate e) = true →
  set (shm p) = REGULAR_PACING_FLAG_SET →
  let p' := fDoQinfoAssessment2 e es 0 dst p in
  last_cmd p' = Some TcNopacing ∧ set (shm p') = REGULAR_PACING_FLAG_SET ∧ ¬ pacer_ok p'.
Proof.
  intros Ht Ha [d Hd] Hb Hv Hr Hs. cbv zeta.
  assert (fDoQinfoAssessment2 e es 0 dst p = store e (mkBack REGULAR_PACING_FLAG_SET d40) (run [TcNopacing] p)) as ->.
  { unfold fDoQinfoAssessment2. rewrite Hd, Hb, Hr, Ht. cbn [negb Z.eqb].
    unfold new_pacing_value. rewrite Hv. change (dltb d40 d2) with false. cbv iota.
    unfold plan_pacing, pacing_set, shm_read. rewrite Ha. cbn. rewrite Hs. cbn. by rewrite Hs. }
  rewrite last_store, last_run1, shm_store by done. split_and!; [done|done|].
  unfold pacer_ok. rewrite last_store, last_run1, shm_store by done. inversion 1.
Qed.
Definition fast_penv : penv := mkPenv true 100000 d0_90 (dofZ 40) (dofZ 1) d0_002 true.
Lemma retransmission_branch_misrecords_witness :
  let p' := fDoQinfoAssessment2 fast_penv demo_dests 0 33554442 paced in
  last_cmd p' = Some TcNopacing ∧ set (shm p') = REGULAR_PACING_FLAG_SET ∧ ¬ pacer_ok p'.
Proof.
  apply retransmission_branch_misrecords;
    [reflexivity|reflexivity|eexists; vm_compute; reflexivity|vm_compute; reflexivity..].
Defined.
