(* ===== verification/KafkaConsume.v ===== *)
(** * The Kafka consumer

    [fDoRunKafkaConsume] of user_dtn.c, the thread that replaces the telemetry
    callback when use_apache_kafka is set: it subscribes to a topic and hands
    every message to [fDoQinfoAssessmentKafka] until the consumer reports an
    error or the program is stopped.

    librdkafka and GLib are outside: what the set-up calls answer and what each
    poll brings are inputs.  [g_error] ends the whole process, as GLib documents
    it, so the statements behind it are not reached. *)
From Stdlib Require Import ZArith Lia Ascii String.
From stdpp Require Import base list strings numbers option.
From S2P Require Import Prelude CString Dbl DtnTables FlowCounters Timers Pacing.
Open Scope Z_scope.

(** ** The thread *)
(** How far the set-up comes: config.ini, the consumer, the subscription. *)
Inductive kafka_setup := NoConfigFile | NoConsumer | NoSubscription | Subscribed.
(** What happens to the polling thread: a poll that brings nothing, the end of
    a partition, an error or a message (with what the handler reads then); the
    signal that clears [run_kconsumer], which the loop tests before each poll.
    What happens in between in other threads: the evaluation timer expires (if
    it is armed), or the bit-rate thread sees a second without traffic. *)
Inductive kafka_event :=
| NoMessage
| PartitionEof
| ConsumerError
| Message (e : penv) (h : henv) (payload : string)
| EvaluationTimer
| IdleSecond (e : penv) (twice : bool) (src : Z)
| SigInt.
Inductive kafka_end :=
| Aborted               (* g_error *)
| ConsumerFailed        (* consumer closed and destroyed, the thread returns *)
| Stopped.              (* consumer closed and destroyed, the thread sleeps until exit *)
Fixpoint poll_loop (evs : list kafka_event) (k : KafkaState) : res (kafka_end * KafkaState) :=
  match evs with
  | [] => Blocked
  | NoMessage :: evs' => poll_loop evs' k
  | PartitionEof :: evs' => poll_loop evs' k
  | ConsumerError :: _ => Ret (ConsumerFailed, k)
  | Message e h payload :: evs' =>
      poll_loop evs' (if he_kafka h then fDoQinfoAssessmentKafka e h payload k else k)
  | EvaluationTimer :: evs' =>
      poll_loop evs'
        (if armed T_qEvaluation (kdet k)
         then mkKafka (kpacer k) (qEvaluation_TimerID_Handler (disarm T_qEvaluation (kdet k))) else k)
  | IdleSecond e twice src :: evs' =>
      d ← idle_detector twice src (kdet k);
      poll_loop evs' (mkKafka (fDoCleanupResetPacing2 e (kpacer k)) d)
  | SigInt :: _ => Ret (Stopped, k)
  end.
Definition fDoRunKafkaConsume (s : kafka_setup) (evs : list kafka_event) (k : KafkaState) : res (kafka_end * KafkaState) :=
  match s with
  | Subscribed => poll_loop evs k
  | NoConfigFile | NoConsumer | NoSubscription => Ret (Aborted, k)
  end.

(** ** Lemmas *)
Definition ends (ev : kafka_event) : option kafka_end :=
  match ev with ConsumerError => Some ConsumerFailed | SigInt => Some Stopped | _ => None end.
Definition shm_attached (ev : kafka_event) : Prop :=
  match ev with Message e _ _ | IdleSecond e _ _ => attached e = true | _ => True end.
(** The state after an event that does not end the loop. *)
Definition after (k : KafkaState) (ev : kafka_event) : KafkaState :=
  match poll_loop [ev; SigInt] k with Ret (_, k') => k' | _ => k end.
(** The commands of the consumer: all but the removals, which are those of the
    idle seconds. *)
Definition is_removal (c : tc_cmd) : bool := match c with TcDel => true | _ => false end.
Definition consumer_cmds (k : KafkaState) : nat := length (List.filter (λ c, negb (is_removal c)) (ran (kpacer k))).
(** The end of a suppression, by the evaluation timer or by the second of two
    idle seconds; a message acted on whose evaluation timer could not be started. *)
Definition timer_expires (k : KafkaState) (ev : kafka_event) : bool :=
  match ev with EvaluationTimer => armed T_qEvaluation (kdet k) | _ => false end.
Definition idle_stops (k : KafkaState) (ev : kafka_event) : bool :=
  match ev with IdleSecond _ twice _ => twice && negb (vCanStartEvaluationTimer (kdet k)) | _ => false end.
Definition start_fails (k : KafkaState) (ev : kafka_event) : bool :=
  match ev with
  | Message _ h _ => negb (he_rc h =? 0) && negb (consumer_cmds (after k ev) =? consumer_cmds k)%nat
  | _ => false
  end.
Fixpoint tally (p : KafkaState → kafka_event → bool) (k : KafkaState) (evs : list kafka_event) : nat :=
  match evs with [] => 0 | ev :: evs' => (if p k ev then 1 else 0) + tally p (after k ev) evs' end.
Definition suppressing (k : KafkaState) : nat := if vCanStartEvaluationTimer (kdet k) then 0 else 1.
(** The detector of a program that uses Kafka: it owes the peer nothing, and the
    evaluation timer runs exactly while messages are not acted on. *)
Record consumer_ok (k : KafkaState) : Prop := {
  co_pacer : pacer_ok (kpacer k);
  co_silent : vSentPacingOver (kdet k) = false;
  co_armed : qEvaluation_armed (kdet k) = negb (vCanStartEvaluationTimer (kdet k))
}.

(** A message does nothing, or it runs one command and starts the timer. *)
Lemma kafka_acts e h payload k :
  fDoQinfoAssessmentKafka e h payload k = k ∨
  vCanStartEvaluationTimer (kdet k) = true ∧
  ∃ c, ran (kpacer (fDoQinfoAssessmentKafka e h payload k)) = ran (kpacer k) ++ [c] ∧ is_removal c = false ∧
       kdet (fDoQinfoAssessmentKafka e h payload k) = fStartEvaluationTimer h (kdet k).
Proof.
  assert (∀ b c, is_removal c = false →
    let k' := kafka_adjust e h b [c] k in
    k' = k ∨ vCanStartEvaluationTimer (kdet k) = true ∧
    ∃ c', ran (kpacer k') = ran (kpacer k) ++ [c'] ∧ is_removal c' = false ∧ kdet k' = fStartEvaluationTimer h (kdet k)) as Hadj.
  { intros b c Hc. unfold kafka_adjust. destruct (vCanStartEvaluationTimer _); [right|by left]. split; [done|]. by exists c. }
  unfold fDoQinfoAssessmentKafka, kafka_lift. repeat case_match; try (by left); by apply Hadj.
Qed.
Lemma cleanup_cmds e p :
  length (List.filter (λ c, negb (is_removal c)) (ran (fDoCleanupResetPacing2 e p))) =
  length (List.filter (λ c, negb (is_removal c)) (ran p)).
Proof.
  unfold fDoCleanupResetPacing2. destruct (pacing_set _ _); [|done]. destruct (gTuningMode e); [|done].
  cbn. rewrite List.filter_app, length_app. cbn. lia.
Qed.
(** A second without traffic, when no cleanup message is owed. *)
Lemma idle_silent twice src d :
  vSentPacingOver d = false → qEvaluation_armed d = negb (vCanStartEvaluationTimer d) →
  ∃ d', idle_detector twice src d = Ret d' ∧ vSentPacingOver d' = false ∧
    vCanStartEvaluationTimer d' = vCanStartEvaluationTimer d || twice ∧
    qEvaluation_armed d' = negb (vCanStartEvaluationTimer d').
Proof.
  destruct d as [v c p i t a1 a2 a3 rg fl]. cbn. intros -> ->. unfold idle_detector.
  destruct v, c, twice; cbn; (eexists; split; [reflexivity|]); by split_and!.
Qed.
(** One event: the loop goes on, and the commands are accounted for. *)
Lemma event_counted ev evs k :
  ends ev = None → shm_attached ev → consumer_ok k →
  poll_loop (ev :: evs) k = poll_loop evs (after k ev) ∧ consumer_ok (after k ev) ∧
  (consumer_cmds (after k ev) + suppressing k =
   consumer_cmds k + (if timer_expires k ev then 1 else 0) + (if idle_stops k ev then 1 else 0)
   + (if start_fails k ev then 1 else 0) + suppressing (after k ev))%nat.
Proof.
  intros He Hat [Hp Hs Ha].
  destruct ev as [| | |e h payload| |e twice src|]; try discriminate; unfold after; cbn [poll_loop timer_expires idle_stops start_fails].
  - split_and!; [done|by constructor|lia].
  - split_and!; [done|by constructor|lia].
  - unfold start_fails, after. cbn [poll_loop].
    destruct (he_kafka h) eqn:Hk; [|split_and!; [done|by constructor|rewrite Nat.eqb_refl, andb_false_r; lia]].
    destruct (kafka_acts e h payload k) as [E|(Hc & c & Er & Hr & Ed)].
    { rewrite E. split_and!; [done|by constructor|rewrite Nat.eqb_refl, andb_false_r; lia]. }
    split; [done|]. set (k' := fDoQinfoAssessmentKafka e h payload k) in *.
    assert (consumer_cmds k' = S (consumer_cmds k)) as En.
    { unfold consumer_cmds. rewrite Er, List.filter_app, length_app. cbn. rewrite Hr. cbn. lia. }
    assert (vSentPacingOver (kdet k') = false ∧ vCanStartEvaluationTimer (kdet k') = negb (he_rc h =? 0) ∧
            qEvaluation_armed (kdet k') = (he_rc h =? 0)) as (H1 & H2 & H3).
    { rewrite Ed. unfold fStartEvaluationTimer. rewrite Hk. destruct (he_rc h =? 0); cbn; by rewrite ?Hs, ?Hc, ?Ha, ?Hc. }
    split; [constructor; [by apply kafka_ok|done|by rewrite H2, H3, negb_involutive]|].
    unfold suppressing. rewrite En, Hc, H2. destruct (Nat.eqb_spec (S (consumer_cmds k)) (consumer_cmds k)); [lia|].
    destruct (he_rc h =? 0); cbn; lia.
  - cbn [armed]. rewrite Ha. destruct (vCanStartEvaluationTimer (kdet k)) eqn:Hc; cbn [negb].
    + split_and!; [done|constructor; by rewrite ?Ha, ?Hc|lia].
    + split_and!; [done|by constructor|]. unfold suppressing, consumer_cmds. cbn. rewrite Hc. lia.
  - destruct (idle_silent twice src (kdet k) Hs Ha) as (d' & -> & H1 & H2 & H3). cbn [mbind res_bind].
    split; [done|]. split; [constructor; [by apply cleanup2_ok|done|done]|].
    unfold suppressing, consumer_cmds. cbn [kpacer kdet]. rewrite cleanup_cmds, H2.
    destruct (vCanStartEvaluationTimer (kdet k)), twice; cbn; lia.
Qed.

(** ** Theorems *)
(** C25: The consumer runs until its first error or the stop signal and no
    further.  Till then, whatever idle seconds and expiries of the evaluation
    timer come in between, the commands it has run are exactly as many as the
    expiries of that timer, the times it was stopped while it ran (in the second of
    two idle seconds), and the messages acted on after which it could not be
    started, and one more while it runs; and the shared record says what the last
    command, of the consumer or of an idle second, did. *)
Theorem kafka_commands_rate_limited pre fin rest r k :
  Forall (λ ev, ends ev = None ∧ shm_attached ev) pre → ends fin = Some r → consumer_ok k →
  ∃ k', fDoRunKafkaConsume Subscribed (pre ++ fin :: rest) k = Ret (r, k') ∧
    agrees (shm (kpacer k')) (last_cmd (kpacer k')) ∧
    (consumer_cmds k' + suppressing k =
     consumer_cmds k + tally timer_expires k pre + tally idle_stops k pre + tally start_fails k pre + suppressing k')%nat.
Proof.
  intros Hpre Hfin. cbn [fDoRunKafkaConsume]. revert k.
  induction Hpre as [|ev pre [He Ha] _ IH]; intros k Hk.
  - exists k. split; [destruct fin; cbn in Hfin; by simplify_eq|]. split; [by destruct Hk|]. cbn. lia.
  - destruct (event_counted ev (pre ++ fin :: rest) k He Ha Hk) as (E1 & Hk1 & Hn).
    destruct (IH _ Hk1) as (k' & E & Hok & Hsp). exists k'. cbn [app]. rewrite E1. split; [done|]. split; [done|].
    cbn [tally]. lia.
Qed.

Definition kafka_henv : henv := mkHenv "" TUNING true 0.
Lemma consumer_ok_init : consumer_ok (mkKafka pacer_init det_init).
Proof. constructor; [constructor|done|done]. Qed.
(** A first rate; a message that comes too early; two idle seconds, which stop the
    timer and remove the pacing; a second rate, and an expiry. *)
Definition kafka_run : list kafka_event := [
  Message demo_penv kafka_henv "4000000000"; NoMessage; Message demo_penv kafka_henv "2000000000";
  IdleSecond demo_penv false 0; IdleSecond demo_penv true 0; PartitionEof; Message demo_penv kafka_henv "9000000000"; EvaluationTimer].
Lemma kafka_commands_rate_limited_witness :
  ∃ k', fDoRunKafkaConsume Subscribed (kafka_run ++ [SigInt]) (mkKafka pacer_init det_init) = Ret (Stopped, k') ∧
    length (ran (kpacer k')) = 3%nat ∧ consumer_cmds k' = 2%nat ∧ agrees (shm (kpacer k')) (last_cmd (kpacer k')).
Proof.
  destruct (kafka_commands_rate_limited kafka_run SigInt [] Stopped (mkKafka pacer_init det_init))
    as (k' & E & Hag & _); [repeat constructor|reflexivity|exact consumer_ok_init|].
  exists k'. split; [exact E|]. split; [vm_compute in E; injection E as <-; reflexivity|]. split; [|exact Hag].
  vm_compute in E. injection E as <-. reflexivity.
Defined.
