(* ===== verification/Episode.v ===== *)
(** * An episode of congestion, from one host to the other

    The destination DTN sees a hop above its thresholds; its alarm expires and a
    report travels to the source DTN, which paces its interface; when the
    evaluation timer has expired and the hop is calm again, a reset travels the
    same way and the pacing is lifted.  The pieces are those of [Telemetry],
    [Timers], [Ring], [Transport] and [Pacing]; this file only puts them
    together. *)
From Stdlib Require Import ZArith Lia Ascii String.
From stdpp Require Import base strings numbers option list.
From S2P Require Import Prelude CString Dbl Ring Transport DtnTables FlowCounters Timers Telemetry Pacing.
Open Scope Z_scope.

(** One turn of the sender, and the process the peer forks for the connection:
    it reads the message, then the close. *)
Definition deliver (conn : Z → Z) (pe : penv) (es : list sDest_Dtn_IPs_t) (r : Ring) (p : Pacer) : res (Ring * Pacer) :=
  '(sent, r) ← fDoRunSendMessageToPeer conn r;
  match sent with
  | Sent _ wire => p ← process_request es [(pe, ReqMsg wire); (pe, ReqClosed)] 0 0 p; Ret (r, p)
  | NoSource | ConnectFailed _ => Ret (r, p)
  end.

Section Episode.
(** The destination's thresholds and surroundings; the hop; the source's
    settings and its table of destinations. *)
Context (th : Thresholds) (e : henv) (k : hop_id) (now_src now_dst : nat → Z) (tb : Tables).
Context (conn : Z → Z) (pe : penv) (es : list sDest_Dtn_IPs_t).

(** The expiry of a timer.  One that is not armed never expires: to wait for it
    is to wait for ever. *)
Definition expire (t : timer) (d : Detector) : res Detector :=
  if armed t d then '(d, _) ← timerHandler e now_src now_dst t (disarm t d) tb; Ret d else Blocked.
(** The congested hop, the alarm, the report, the evaluation timer, the calm
    hop, the reset.  The pacer is shown after the report and at the end. *)
Definition episode (q lat q' lat' : Z) (d : Detector) (p : Pacer) : res (Detector * Pacer * Pacer) :=
  d ← hop_decision th 0 k q lat d;
  d ← expire T_qOCC_Hop d;
  '(r, p1) ← deliver conn pe es (ring d) p;
  d ← expire T_qEvaluation (d <| ring := r |>);
  d ← hop_decision th 0 k q' lat' d;
  '(r, p2) ← deliver conn pe es (ring d) p1;
  Ret (d <| ring := r |>, p1, p2).
End Episode.

(** ** Lemmas *)
Lemma deliver_one conn pe es r p pr seq old :
  ring_wf r → producer_ok pr → contents r = [message_of pr seq old] → conn (peer_of pr) = 0 →
  ∃ r', deliver conn pe es r p = Ret (r', action_of pr pe es p) ∧ ring_wf r' ∧ contents r' = [].
Proof.
  intros Hwf Hp Hc Hconn. destruct (head_message_sent conn pr seq old [] r Hwf Hp Hc) as (r' & E & Hc' & Hwf').
  exists r'. unfold deliver. rewrite E, Hconn. cbn [mbind res_bind Z.eqb process_request].
  rewrite decode_wire by done. split; [|done]. by destruct pr.
Qed.
Lemma put_into_empty pr r :
  ring_wf r → contents r = [] →
  ∃ r' seq old, run_producer pr r = Ret r' ∧ ring_wf r' ∧ contents r' = [message_of pr seq old].
Proof.
  intros Hwf Hc. pose proof (run_producer_spec pr r Hwf) as H. pose proof (contents_length r Hwf) as Hl. rewrite Hc in Hl.
  cbn in Hl. destruct (Z.eqb_spec (count r) 19); [lia|]. destruct H as (old & r' & E & Hwf' & Hc' & _).
  rewrite Hc in Hc'. eauto 6.
Qed.
Lemma hexX_len x : strlen (hexX x) ≤ 8.
Proof.
  unfold hexX. pose proof (span_app (Ascii.eqb "0") (hex8 x)) as H. apply (f_equal strlen) in H. rewrite strlen_app in H.
  pose proof (strlen_nonneg (span (Ascii.eqb "0") (hex8 x)).1). assert (strlen (hex8 x) = 8) by done.
  destruct (span (Ascii.eqb "0") (hex8 x)).2; [done|]. lia.
Qed.
Lemma alarm_activity_len e d : strlen (he_ctime e) ≤ 40 → strlen (alarm_activity e d) ≤ 1379.
Proof.
  intros H. unfold alarm_activity. rewrite !strlen_app. pose proof (hexX_len (curr_hop_key_hop_index d)).
  assert (strlen (phase2str (he_phase e)) ≤ 10) by (by destruct (he_phase e)). cbn -[strlen]. unfold strlen at 2 4 6. cbn. lia.
Qed.
(** The alarm of a hop: when it may, the handler queues one report and starts
    the evaluation timer. *)
Lemma hop_alarm_reports e d :
  ring_wf (ring d) → contents (ring d) = [] → flows_wf (flows d) → strlen (he_ctime e) ≤ 40 →
  vCanStartEvaluationTimer d = true → he_rc e = 0 → he_kafka e = false →
  let t := sqOCC_TimerID_Data d in
  ∃ d' seq old, qOCC_Hop_TimerID_Handler e d = Ret d' ∧ ring_wf (ring d') ∧
    contents (ring d') = [message_of (PQinfoHop (td_vQinfo t) (td_vHopDelay t) (td_src t) (td_dst t)) seq old] ∧
    vq_TimerIsSet d' = false ∧ vSentPacingOver d' = true ∧ qEvaluation_armed d' = true.
Proof.
  intros Hr Hc Hf Hl Hcan Hrc Hk. cbv zeta. unfold qOCC_Hop_TimerID_Handler. set (d0 := d <| vq_TimerIsSet := false |>).
  destruct (record_activity_wf (alarm_activity e d0) (flows d0) Hf (alarm_activity_len e d0 Hl)) as (fl & -> & _).
  cbn [mbind res_bind].
  destruct (put_into_empty (PQinfoHop (td_vQinfo (sqOCC_TimerID_Data d)) (td_vHopDelay (sqOCC_TimerID_Data d))
              (td_src (sqOCC_TimerID_Data d)) (td_dst (sqOCC_TimerID_Data d))) (ring d) Hr Hc) as (r & seq & old & E & Hr' & Hc').
  cbn [run_producer] in E. subst d0. cbn. rewrite Hcan, E. cbn. unfold fStartEvaluationTimer. rewrite Hrc, Hk. cbn.
  eexists _, seq, old. split; [reflexivity|]. done.
Qed.
(** A congested hop sets the alarm when none is set. *)
Lemma congested_hop_alarms th k q lat d :
  vQUEUE_OCCUPANCY_DELTA th < q → vHOP_LATENCY_DELTA th < lat → vq_TimerIsSet d = false →
  hop_decision th 0 k q lat d =
    Ret (d <| qOCC_Hop_armed := true |> <| vq_TimerIsSet := true |> <| curr_hop_key_hop_index := h_index k |>
           <| sqOCC_TimerID_Data := mkTData (ntohl (h_src_ip k)) (ntohl (h_dst_ip k)) q lat |>).
Proof.
  intros Hq Hl Hv. unfold hop_decision, EvaluateQOcc_and_HopDelay.
  by rewrite (proj2 (Z.ltb_lt _ _) Hq), (proj2 (Z.ltb_lt _ _) Hl), Hv.
Qed.
Lemma expire_hop e ns nd tb d :
  qOCC_Hop_armed d = true → expire e ns nd tb T_qOCC_Hop d = qOCC_Hop_TimerID_Handler e (disarm T_qOCC_Hop d).
Proof. intros Ha. unfold expire. cbn [armed]. rewrite Ha. unfold timerHandler. cbn. by destruct (qOCC_Hop_TimerID_Handler _ _). Qed.
Lemma expire_evaluation e ns nd tb d :
  qEvaluation_armed d = true →
  expire e ns nd tb T_qEvaluation d = Ret (qEvaluation_TimerID_Handler (disarm T_qEvaluation d)).
Proof. intros Ha. unfold expire. cbn [armed]. by rewrite Ha. Qed.
(** A calm hop after a report queues one reset. *)
Lemma calm_hop_resets th k q lat d :
  ring_wf (ring d) → contents (ring d) = [] → q ≤ vQUEUE_OCCUPANCY_DELTA th →
  vSentPacingOver d = true → vCanStartEvaluationTimer d = true →
  ∃ d' seq old, hop_decision th 0 k q lat d = Ret d' ∧ ring_wf (ring d') ∧
    contents (ring d') = [message_of (PReset (h_src_ip k) (h_dst_ip k)) seq old] ∧
    vq_TimerIsSet d' = false ∧ vSentPacingOver d' = false ∧ vCanStartEvaluationTimer d' = true.
Proof.
  intros Hr Hc Hq Hs Hcan. destruct (put_into_empty (PReset (h_src_ip k) (h_dst_ip k)) (ring d) Hr Hc) as (r & seq & old & E & Hr' & Hc').
  cbn [run_producer] in E. unfold hop_decision. rewrite (proj2 (Z.ltb_ge _ _) Hq), !andb_false_r.
  destruct (vq_TimerIsSet d) eqn:Hv; [destruct (vUseRetransmissionRate th)|]; cbn; rewrite Hs, Hcan; cbn; rewrite E; cbn;
    eexists _, seq, old; (split; [reflexivity|]); done.
Qed.

(** ** The episode *)
(** The source's first pacing: a share of its bit rate, at least 2 and at most
    34 Gb/s. *)
Definition first_pacing (pe : penv) : double :=
  let v := new_pacing_value (vGlobal_average_tx_Gbits_per_sec pe) (vMaxPacingRate pe) in
  if dltb d34 v then d34 else v.
(** A source in tuning mode that sends, knows the destination, and is not paced. *)
Record source_ready (pe : penv) (es : list sDest_Dtn_IPs_t) (dst : Z) (p : Pacer) : Prop := {
  sr_tuning : gTuningMode pe = true;
  sr_attached : attached pe = true;
  sr_sends : dtruth (vGlobal_average_tx_Gbits_per_sec pe) = true;
  sr_knows : is_Some (find_dest es dst);
  sr_unpaced : set (shm p) = 0;
  sr_rate : is_nan (dmul (vGlobal_average_tx_Gbits_per_sec pe) (vMaxPacingRate pe)) = false
}.
Lemma first_pacing_range pe :
  is_nan (dmul (vGlobal_average_tx_Gbits_per_sec pe) (vMaxPacingRate pe)) = false →
  dleb d2 (first_pacing pe) = true ∧ dleb (first_pacing pe) d34 = true.
Proof.
  intros Hn%new_pacing_value_range. unfold first_pacing. cbv zeta in *.
  destruct Hn as (Hn & H2 & Hhi). destruct (dltb d34 _) eqn:E; [by split; vm_compute|]. split; [done|]. by apply dltb_total.
Qed.
Lemma report_installs pe es dst lat p :
  source_ready pe es dst p → lat ≠ 0 →
  fDoQinfoAssessment2 pe es lat dst p =
    store pe (mkBack REGULAR_PACING_FLAG_SET (first_pacing pe)) (run [TcInstall (first_pacing pe)] p).
Proof.
  intros [Ht Ha Hs [x Hx] Hp _] Hl. unfold fDoQinfoAssessment2, pacing_set, shm_read. rewrite Hx, Hs, Ha. cbn. rewrite Hp.
  apply Z.eqb_neq in Hl as ->. cbn. by rewrite Ht.
Qed.
Lemma reset_lifts pe es dst p v :
  gTuningMode pe = true → attached pe = true → is_Some (find_dest es dst) → shm p = mkBack REGULAR_PACING_FLAG_SET v →
  fDoResetPacing2 pe es dst p = run [TcNopacing] (store pe (mkBack NOPACING_FLAG_SET dzero) p).
Proof. intros Ht Ha [x Hx] Hp. unfold fDoResetPacing2, pacing_set, shm_read. by rewrite Hx, Ha, Hp, Ht. Qed.

(** A destination with nothing pending. *)
Record detector_idle (d : Detector) : Prop := {
  di_quiet : vq_TimerIsSet d = false;
  di_can : vCanStartEvaluationTimer d = true;
  di_ring : ring_wf (ring d);
  di_empty : contents (ring d) = [];
  di_flows : flows_wf (flows d)
}.

(** C1: An episode of congestion is answered from end to end.  A hop above both
    thresholds at an idle destination arms the alarm, whose expiry (an unarmed
    timer never expires) leads, through the queue, the
    connection and the peer's process, to one tc command that installs a pacing
    between 2 and 34 Gb/s (a share of the source's bit rate), recorded in the
    shared memory, and starts the evaluation timer; when that has expired and the
    hop is calm, to one command that lifts the pacing.  Nothing stays queued, and neither an alarm
    nor an owed reset is left. *)
Theorem congestion_episode th e k now_src now_dst tb conn pe es q lat q' lat' d p :
  vQUEUE_OCCUPANCY_DELTA th < q → vHOP_LATENCY_DELTA th < lat → q' ≤ vQUEUE_OCCUPANCY_DELTA th →
  is_u32 q → is_u32 lat → lat ≠ 0 → is_u32 (h_src_ip k) → is_u32 (h_dst_ip k) → h_src_ip k ≠ 0 →
  detector_idle d → he_rc e = 0 → he_kafka e = false → strlen (he_ctime e) ≤ 40 →
  conn (ntohl (h_src_ip k)) = 0 → source_ready pe es (ntohl (h_dst_ip k)) p →
  ∃ d' p1 p2, episode th e k now_src now_dst tb conn pe es q lat q' lat' d p = Ret (d', p1, p2) ∧
    ran p1 = ran p ++ [TcInstall (first_pacing pe)] ∧ shm p1 = mkBack REGULAR_PACING_FLAG_SET (first_pacing pe) ∧
    dleb d2 (first_pacing pe) = true ∧ dleb (first_pacing pe) d34 = true ∧
    ran p2 = ran p1 ++ [TcNopacing] ∧ shm p2 = mkBack NOPACING_FLAG_SET dzero ∧
    contents (ring d') = [] ∧ vq_TimerIsSet d' = false ∧ vSentPacingOver d' = false ∧ vCanStartEvaluationTimer d' = true.
Proof.
  intros Hq Hlat Hq' Hu Hul Hl0 Hus Hud Hs0 [Hi1 Hi2 Hi3 Hi4 Hi5] Hrc Hk Hct Hconn Hsrc.
  assert (is_u32 (ntohl (h_src_ip k)) ∧ is_u32 (ntohl (h_dst_ip k))) as [Hns Hnd] by (split; apply htonl_range).
  assert (ntohl (h_src_ip k) ≠ 0) as Hn0 by (by apply htonl_nonzero).
  unfold episode. rewrite (congested_hop_alarms th k q lat d) by done. cbn [mbind res_bind].
  rewrite expire_hop by done. match goal with |- context [disarm T_qOCC_Hop ?x] => set (d1 := disarm T_qOCC_Hop x) end.
  destruct (hop_alarm_reports e d1) as (d2 & seq & old & E2 & Hr2 & Hc2 & Hv2 & Hs2 & Ha2); [done..|].
  rewrite E2. cbn [mbind res_bind].
  destruct (deliver_one conn pe es (ring d2) p (PQinfoHop q lat (ntohl (h_src_ip k)) (ntohl (h_dst_ip k))) seq old Hr2)
    as (r1 & -> & Hr1 & Hc1); [cbn; tauto|exact Hc2|exact Hconn|].
  cbn [mbind res_bind action_of]. rewrite (report_installs _ _ _ _ _ Hsrc) by exact Hl0. destruct Hsrc as [Ht Ha _ Hkn _ Hrate].
  rewrite expire_evaluation by exact Ha2. cbn [mbind res_bind].
  match goal with |- context [hop_decision th 0 k q' lat' ?x] => set (d3 := x) end.
  destruct (calm_hop_resets th k q' lat' d3) as (d4 & seq' & old' & -> & Hr4 & Hc4 & Hv4 & Hs4 & Hcan4); [done..|].
  cbn [mbind res_bind]. destruct (deliver_one conn pe es (ring d4)
    (store pe (mkBack REGULAR_PACING_FLAG_SET (first_pacing pe)) (run [TcInstall (first_pacing pe)] p))
    (PReset (h_src_ip k) (h_dst_ip k)) seq' old' Hr4) as (r2 & -> & Hr2' & Hc2'); [cbn; tauto|exact Hc4|exact Hconn|].
  cbn [mbind res_bind action_of]. rewrite (reset_lifts _ _ _ _ (first_pacing pe)) by (done || by apply shm_store).
  eexists _, _, _. split; [reflexivity|]. split_and!; [done|by apply shm_store|by apply first_pacing_range|by apply first_pacing_range|done|by apply shm_store|done..].
Qed.

Definition episode_hop : hop_id := mkHop 1 167772161 167772162.
Lemma idle_init : detector_idle det_init.
Proof. constructor; [done|done|apply ring_wf_init|done|apply flows_init_wf]. Qed.
Lemma source_ready_demo : source_ready demo_penv demo_dests 33554442 pacer_init.
Proof. constructor; try (vm_compute; reflexivity). eexists. vm_compute. reflexivity. Qed.
Lemma congestion_episode_witness :
  ∃ d' p1 p2, episode thresholds_init (mkHenv "now" TUNING false 0) episode_hop (λ _, 0) (λ _, 0) tables_init
      (λ _, 0) demo_penv demo_dests 600 700000 5 10 det_init pacer_init = Ret (d', p1, p2) ∧
    render "eth0" <$> ran p2 = ["tc qdisc del dev eth0 root 2>/dev/null; tc qdisc add dev eth0 root fq maxrate 18.00gbit";
                                "tc qdisc change dev eth0 root fq nopacing"].
Proof.
  destruct (congestion_episode thresholds_init (mkHenv "now" TUNING false 0) episode_hop (λ _, 0) (λ _, 0) tables_init
    (λ _, 0) demo_penv demo_dests 600 700000 5 10 det_init pacer_init) as (d' & p1 & p2 & E & H1 & _ & _ & _ & H2 & _).
  - vm_compute. reflexivity.
  - vm_compute. reflexivity.
  - vm_compute. discriminate.
  - unfold is_u32. lia.
  - unfold is_u32. lia.
  - lia.
  - unfold is_u32. cbn. lia.
  - unfold is_u32. cbn. lia.
  - cbn. lia.
  - exact idle_init.
  - reflexivity.
  - reflexivity.
  - vm_compute. discriminate.
  - reflexivity.
  - exact source_ready_demo.
  - exists d', p1, p2. split; [exact E|]. rewrite H2, H1. vm_compute. reflexivity.
Defined.
