(* ===== verification/Network.v ===== *)
(** * Several hosts

    Every DTN may be the destination of some transfers and the source of others.
    A network is a map of hosts, each with its detector and queue (Timers, Ring),
    its pacing (Pacing) and its table of destinations, and the pool of processes
    the hosts have forked for a connection and that have not run yet.  The sender
    of a host looks at most six times for the end of the process it has
    reached ([readn2]) and then goes on: processes, also of one sender, may
    overtake each other.  A run interleaves the steps of all hosts. *)
From Stdlib Require Import ZArith Lia Ascii String.
From stdpp Require Import base gmap strings numbers option list.
From S2P Require Import Prelude CString Dbl Ring Transport DtnTables FlowCounters Timers Telemetry Congestion Pacing Episode.
Open Scope Z_scope.

(** ** Networks *)
Record Host := mkHost { det : Detector; pacer : Pacer; dests : list sDest_Dtn_IPs_t }.
#[export] Instance eta_Host : Settable Host := fun h => mkHost (det h) (pacer h) (dests h).
(** A process forked at [pr_at] for a message of [pr_from]. *)
Record proc := mkProc { pr_from : Z; pr_at : Z; pr_msg : PeerMsg }.
Record Net := mkNet { hosts : gmap Z Host; procs : list proc }.
(** A process that has run, with the commands it gave. *)
Record service := mkService { sv_from : Z; sv_at : Z; sv_msg : PeerMsg; sv_cmds : list tc_cmd }.
Definition set_host (a : Z) (H : Host) (N : Net) : Net := mkNet (<[a := H]> (hosts N)) (procs N).

(** The process reads its message, then the close. *)
Definition serve (pe : penv) (p : proc) (N : Net) : res (Net * service) :=
  H ← of_opt (hosts N !! pr_at p);
  pc ← process_request (dests H) [(pe, ReqMsg (pr_msg p)); (pe, ReqClosed)] 0 0 (pacer H);
  Ret (set_host (pr_at p) (H <| pacer := pc |>) N,
       mkService (pr_from p) (pr_at p) (pr_msg p) (drop (length (ran (pacer H))) (ran pc))).
(** A turn of the sender of [h]: [rc] is what [Connect] answers for a host that is
    there, [peek] what the looks for the end bring. *)
Definition answered (peek : nat → Z) : bool := match Readn2 peek with Some r => r =? 0 | None => false end.
Definition turn (h rc : Z) (peek : nat → Z) (pe : penv) (N : Net) : res (Net * list service) :=
  H ← of_opt (hosts N !! h);
  '(out, r) ← fDoRunSendMessageToPeer (λ a, if hosts N !! a is Some _ then rc else -1) (ring (det H));
  let N := set_host h (H <| det := (det H) <| ring := r |> |>) N in
  match out with
  | Sent a wire =>
      let p := mkProc h a wire in
      if answered peek then '(N, s) ← serve pe p N; Ret (N, [s])
      else Ret (mkNet (hosts N) (procs N ++ [p]), [])
  | NoSource | ConnectFailed _ => Ret (N, [])
  end.
(** The i-th process of the pool runs. *)
Definition act (i : nat) (pe : penv) (N : Net) : res (Net * list service) :=
  p ← of_opt (procs N !! i);
  '(N, s) ← serve pe p (mkNet (hosts N) (delete i (procs N))); Ret (N, [s]).

Inductive net_event :=
| Local (h : Z) (ev : det_event)             (* telemetry, a timer, a new source, an idle second *)
| Turn (h rc : Z) (peek : nat → Z) (pe : penv)
| Act (i : nat) (pe : penv)
| Book (h : Z) (es : list sDest_Dtn_IPs_t).  (* the table of destinations changes *)
Record entry := mkEntry { en_event : net_event; en_sent : list PeerMsg; en_done : list service }.

Inductive net_step (N : Net) : entry → Net → Prop :=
| ns_local h ev H sent d :
    hosts N !! h = Some H → ev ≠ ESend → det_step (det H) ev sent d →
    net_step N (mkEntry (Local h ev) sent []) (set_host h (H <| det := d |>) N)
| ns_turn h rc peek pe N' sv :
    turn h rc peek pe N = Ret (N', sv) → net_step N (mkEntry (Turn h rc peek pe) [] sv) N'
| ns_act i pe N' sv :
    act i pe N = Ret (N', sv) → net_step N (mkEntry (Act i pe) [] sv) N'
| ns_book h H es :
    hosts N !! h = Some H → net_step N (mkEntry (Book h es) [] []) (set_host h (H <| dests := es |>) N).
(** All hosts fresh, nothing under way. *)
Definition fresh (N : Net) : Prop :=
  procs N = [] ∧ map_Forall (λ _ H, det H = det_init ∧ pacer H = pacer_init) (hosts N).
Inductive net_run : list entry → Net → Prop :=
| nr_init N : fresh N → net_run [] N
| nr_step tr N e N' : net_run tr N → net_step N e N' → net_run (tr ++ [e]) N'.

(** ** Observations *)
(** What a host did, as a run of its detector. *)
Definition own (h : Z) (e : entry) : option (det_event * list PeerMsg) :=
  match en_event e with
  | Local h' ev => if decide (h' = h) then Some (ev, en_sent e) else None
  | Turn h' _ _ _ => if decide (h' = h) then Some (ESend, []) else None
  | Act _ _ | Book _ _ => None
  end.
Definition local_tr (h : Z) (tr : list entry) : list (det_event * list PeerMsg) := omap (own h) tr.
Definition sent_by (h : Z) (tr : list entry) : list PeerMsg := concat (local_tr h tr).*2.
Definition services (tr : list entry) : list service := mjoin (en_done <$> tr).
Definition from_host (h : Z) (l : list service) : list service := filter (λ s, sv_from s = h) l.
Definition at_host (h : Z) (l : list service) : list service := filter (λ s, sv_at s = h) l.
Definition cmds (l : list service) : list tc_cmd := mjoin (sv_cmds <$> l).
Definition queue_of (h : Z) (N : Net) : list PeerMsg :=
  match hosts N !! h with Some H => contents (ring (det H)) | None => [] end.
Definition pending (h : Z) (N : Net) : list PeerMsg := pr_msg <$> filter (λ p, pr_from p = h) (procs N).
(** Commands that set a rate. *)
Definition tightens (c : tc_cmd) : bool := match c with TcInstall _ | TcChange _ => true | TcNopacing | TcDel => false end.
Definition is_del (c : tc_cmd) : bool := match c with TcDel => true | _ => false end.

(** ** One service *)
(** A message makes at most one command; only a report sets a rate, and only a
    report or a reset makes another command than the removal. *)
Definition fits_kind (k : Z) (cs : list tc_cmd) : Prop :=
  match cs with
  | [] => True
  | [c] => (tightens c = true → k = QINFO_MSG) ∧ (is_del c = false → k = QINFO_MSG ∨ k = RESET_PACING_MSG)
  | _ => False
  end.
Lemma ran_same p : ∃ cs, ran p = ran p ++ cs ∧ cs = [].
Proof. exists []. by rewrite app_nil_r. Qed.
Lemma plan_one cur v flag cs v' : plan_pacing cur v = Some (flag, cs, v') → ∃ c, cs = [c].
Proof. intros (c & -> & _)%plan_pacing_agrees. by exists c. Qed.
Lemma qinfo_cmds e es hop dst p : ∃ cs, ran (fDoQinfoAssessment2 e es hop dst p) = ran p ++ cs ∧ (length cs ≤ 1)%nat.
Proof.
  unfold fDoQinfoAssessment2. cbv zeta.
  repeat case_match; try (exists []; rewrite app_nil_r; split; [done|cbn; lia]).
  all: match goal with H : plan_pacing _ _ = Some (?f, ?cs, ?v) |- _ => destruct (plan_one _ _ _ _ _ H) as [c ->]; exists [c]; done end.
Qed.
Lemma dispatch_cmds e es r p : ∃ cs, ran (dispatch e es r p) = ran p ++ cs ∧ fits_kind (rq_no r) cs.
Proof.
  assert (∃ cs, ran p = ran p ++ cs ∧ fits_kind (rq_no r) cs) as Hno by (exists []; by rewrite app_nil_r).
  unfold dispatch. destruct (Z.eqb_spec (rq_no r) QINFO_MSG) as [E|_].
  { destruct (qinfo_cmds e es (rq_hop_delay r) (rq_dst r) p) as (cs & -> & Hl). exists cs. split; [done|].
    destruct cs as [|c [|]]; cbn in *; [done|by rewrite E; auto|lia]. }
  destruct (Z.eqb_spec (rq_no r) RESET_PACING_MSG) as [E|_].
  { unfold fDoResetPacing2. repeat case_match; try done. exists [TcNopacing]. split; [done|]. cbn. split; [done|by rewrite E; auto]. }
  destruct (rq_no r =? TEST_MSG); [done|]. destruct (rq_no r =? CLEANUP_RESET_PACING_MSG); [|done].
  unfold fDoCleanupResetPacing2. repeat case_match; try done. exists [TcDel]. by split.
Qed.
(** What a process changes: the pacing of its host. *)
Lemma serve_spec pe p N N' s :
  serve pe p N = Ret (N', s) →
  ∃ H pc cs, hosts N !! pr_at p = Some H ∧ N' = set_host (pr_at p) (H <| pacer := pc |>) N ∧
    s = mkService (pr_from p) (pr_at p) (pr_msg p) cs ∧ ran pc = ran (pacer H) ++ cs ∧ fits_kind (kind (pr_msg p)) cs.
Proof.
  unfold serve. intros E. inv_bind E as H EH. destruct (hosts N !! pr_at p) as [H'|] eqn:HN; [|done]. cbn in EH. simplify_eq.
  inv_bind E as pc Ep. cbn [process_request] in Ep. simplify_eq.
  destruct (dispatch_cmds pe (dests H) (decode 0 0 (pr_msg p)) (pacer H)) as (cs & Hcs & Hf).
  exists H, (dispatch pe (dests H) (decode 0 0 (pr_msg p)) (pacer H)), cs. split_and!; try done.
  by rewrite Hcs, drop_app_length.
Qed.
Lemma of_opt_inv {A} (o : option A) x : of_opt o = Ret x → o = Some x.
Proof. destruct o; cbn; intros; by simplify_eq. Qed.
(** A turn takes the oldest message and drops it, leaves it to a process of the
    pool, or has it served at once. *)
Lemma turn_spec h rc peek pe N N' sv :
  turn h rc peek pe N = Ret (N', sv) →
  ∃ H m r, hosts N !! h = Some H ∧ get (ring (det H)) = Ret (m, r) ∧
    let N1 := set_host h (H <| det := (det H) <| ring := r |> |>) N in
    N' = N1 ∧ sv = [] ∨
    (∃ a, N' = mkNet (hosts N1) (procs N ++ [mkProc h a (wire_of m)]) ∧ sv = []) ∨
    (∃ a s, serve pe (mkProc h a (wire_of m)) N1 = Ret (N', s) ∧ sv = [s]).
Proof.
  unfold turn. intros E. inv_bind E as H EH. apply of_opt_inv in EH. inv_bind E as [out r] Es.
  unfold fDoRunSendMessageToPeer in Es. inv_bind Es as [m r'] Eg. inv_bind Es as o Eo. simplify_eq.
  apply of_opt_inv in Eo. exists H, m, r. split; [done|]. split; [done|]. cbv zeta in E |- *.
  unfold send_message in Eo. destruct (src_ip_addr m =? 0); [simplify_eq; by left|].
  destruct (inet_pton _) as [a|]; [|done]. cbn [mbind option_bind] in Eo.
  destruct (negb _); simplify_eq; [by left|]. right. destruct (answered peek); [right|left].
  - inv_bind E as [N2 s] E2. simplify_eq. eauto.
  - simplify_eq. eauto.
Qed.
Lemma act_spec i pe N N' sv :
  act i pe N = Ret (N', sv) →
  ∃ p s, procs N !! i = Some p ∧ serve pe p (mkNet (hosts N) (delete i (procs N))) = Ret (N', s) ∧ sv = [s].
Proof.
  unfold act. intros E. inv_bind E as p Ep. apply of_opt_inv in Ep. inv_bind E as [N2 s] Es. simplify_eq. eauto.
Qed.

(** ** One step, seen from one host *)
(** Changes to other parts of a host leave its detector as it was. *)
Record host_step (h : Z) (e : entry) (N N' : Net) : Prop := {
  hs_back H' : hosts N' !! h = Some H' → ∃ H, hosts N !! h = Some H ∧
    match own h e with Some (ev, sent) => det_step (det H) ev sent (det H') | None => det H' = det H end ∧
    ran (pacer H') = ran (pacer H) ++ cmds (at_host h (en_done e))
}.
Lemma cmds_at_one h s : cmds (at_host h [s]) = if decide (sv_at s = h) then sv_cmds s else [].
Proof. unfold at_host, cmds. rewrite filter_cons, filter_nil. case_decide; cbn; by rewrite ?app_nil_r. Qed.
Lemma lookup_set_host a H N h H' :
  hosts (set_host a H N) !! h = Some H' → a = h ∧ H' = H ∨ a ≠ h ∧ hosts N !! h = Some H'.
Proof. cbn. intros [[-> <-]|[? ?]]%lookup_insert_Some; auto. Qed.
Lemma serve_host h pe p N N' s H' :
  serve pe p N = Ret (N', s) → hosts N' !! h = Some H' →
  ∃ H, hosts N !! h = Some H ∧ det H' = det H ∧ ran (pacer H') = ran (pacer H) ++ cmds (at_host h [s]).
Proof.
  intros (H & pc & cs & HN & -> & -> & Hr & _)%serve_spec HH. rewrite cmds_at_one. cbn [sv_at sv_cmds].
  apply lookup_set_host in HH as [[<- ->]|[Hne HH]].
  - exists H. rewrite decide_True by done. done.
  - exists H'. rewrite decide_False by done. by rewrite app_nil_r.
Qed.
Lemma drain_step H m r : get (ring (det H)) = Ret (m, r) → det_step (det H) ESend [] ((det H) <| ring := r |>).
Proof. intros E. apply ds_drain; [done|]. cbn [det_do]. by rewrite E. Qed.
Lemma step_host h e N N' : net_step N e N' → host_step h e N N'.
Proof.
  intros Hs. split. intros H' HH. destruct Hs as [h0 ev H sent d HN Hev Hd|h0 rc peek pe N' sv Ht|i pe N' sv Ha|h0 H es HN]; cbn [own en_event en_sent en_done].
  - apply lookup_set_host in HH as [[<- ->]|[Hne HH]].
    + exists H. rewrite decide_True by done. cbn. by rewrite app_nil_r.
    + exists H'. rewrite decide_False by done. cbn. by rewrite app_nil_r.
  - apply turn_spec in Ht as (H & m & r & HN & Hg & Hcase). cbv zeta in Hcase.
    assert (∃ H1, hosts (set_host h0 (H <| det := (det H) <| ring := r |> |>) N) !! h = Some H1 ∧ det H' = det H1 ∧
              ran (pacer H') = ran (pacer H1) ++ cmds (at_host h sv)) as (H1 & HH1 & Hd & Hr).
    { destruct Hcase as [[-> ->]|[(a & -> & ->)|(a & s & Hs & ->)]]; [exists H'; cbn; rewrite app_nil_r; done..|].
      by eapply serve_host. }
    apply lookup_set_host in HH1 as [[<- ->]|[Hne HH1]].
    + exists H. rewrite decide_True by done. rewrite Hd, Hr. split; [done|]. split; [|done]. cbn. by eapply drain_step.
    + exists H1. rewrite decide_False by done. done.
  - apply act_spec in Ha as (p & s & Hp & Hs & ->). eapply (serve_host h) in Hs as (H & ? & ? & ?); [|done]. by exists H.
  - apply lookup_set_host in HH as [[<- ->]|[Hne HH]]; eexists; (split; [done|]); cbn; by rewrite app_nil_r.
Qed.

(** ** Runs *)
Lemma services_snoc tr e : services (tr ++ [e]) = services tr ++ en_done e.
Proof. unfold services. rewrite fmap_app, join_app. cbn. by rewrite app_nil_r. Qed.
Lemma local_snoc h tr e : local_tr h (tr ++ [e]) = local_tr h tr ++ option_list (own h e).
Proof. unfold local_tr. rewrite omap_app. cbn. by destruct (own h e). Qed.
(** Each host by itself runs as [Congestion] says, and its commands are those of
    the services at it, in order. *)
Lemma run_host tr N h H :
  net_run tr N → hosts N !! h = Some H →
  det_run (local_tr h tr) (det H) ∧ ran (pacer H) = cmds (at_host h (services tr)).
Proof.
  intros Hr. revert H. induction Hr as [N [_ Hf]|tr N e N' _ IH Hs]; intros H HH.
  - destruct (Hf h H HH) as [-> ->]. split; [apply run_init|done].
  - apply (step_host h) in Hs as [Hs]. apply Hs in HH as (H0 & HH & Hd & Hc). destruct (IH H0 HH) as [IHd IHc].
    rewrite local_snoc, services_snoc. split.
    + destruct (own h e) as [[ev sent]|]; cbn; [by eapply run_step|by rewrite app_nil_r, Hd].
    + rewrite Hc, IHc. unfold at_host, cmds. by rewrite list.filter_app, fmap_app, join_app.
Qed.

(** ** Messages under way *)
Lemma queue_set_host h a H N :
  queue_of h (set_host a H N) = if decide (a = h) then contents (ring (det H)) else queue_of h N.
Proof. unfold queue_of. cbn. case_decide as E; [subst; by rewrite lookup_insert_eq|by rewrite lookup_insert_ne]. Qed.
Lemma serve_flow h pe p N N' s :
  serve pe p N = Ret (N', s) →
  queue_of h N' = queue_of h N ∧ procs N' = procs N ∧ sv_from s = pr_from p ∧ sv_msg s = pr_msg p.
Proof.
  intros (H & pc & cs & HN & -> & -> & _)%serve_spec. rewrite queue_set_host. split; [|done].
  case_decide as E; [|done]. subst. unfold queue_of. by rewrite HN.
Qed.
Lemma pending_app h l1 l2 Hs Hs' : pending h (mkNet Hs (l1 ++ l2)) = pending h (mkNet Hs' l1) ++ pending h (mkNet Hs' l2).
Proof. unfold pending. cbn. by rewrite list.filter_app, fmap_app. Qed.
Lemma from_one h s : sv_msg <$> from_host h [s] = if decide (sv_from s = h) then [sv_msg s] else [].
Proof. unfold from_host. rewrite filter_cons, filter_nil. by case_decide. Qed.
Lemma pending_one h p Hs : pending h (mkNet Hs [p]) = if decide (pr_from p = h) then [pr_msg p] else [].
Proof. unfold pending. change (procs (mkNet Hs [p])) with [p]. rewrite filter_cons, filter_nil. by case_decide. Qed.
Lemma get_contents r m r' : ring_wf r → get r = Ret (m, r') → contents r = m :: contents r'.
Proof.
  intros Hwf E. pose proof (get_spec r Hwf) as H. destruct (count r =? 0); [congruence|].
  destruct H as (m2 & r2 & E2 & _ & Hc & _). rewrite E in E2. by simplify_eq.
Qed.
Definition own_sent (h : Z) (e : entry) : list PeerMsg := match own h e with Some (_, sent) => sent | None => [] end.
(** A turn hands its message on as a wire, to nobody, to the pool or to a service. *)
Lemma turn_flow h h0 rc peek pe N N' sv :
  turn h0 rc peek pe N = Ret (N', sv) → (∀ H, hosts N !! h = Some H → ring_wf (ring (det H))) →
  ∃ m dropped pooled,
    (if decide (h0 = h) then queue_of h N = m :: queue_of h N' else queue_of h N' = queue_of h N) ∧
    sv_msg <$> from_host h sv = (if decide (h0 = h) then (if dropped || pooled : bool then [] else [wire_of m]) else []) ∧
    pending h N' = pending h N ++ (if decide (h0 = h) then (if pooled : bool then [wire_of m] else []) else []) ∧
    (sv ≠ [] → dropped = false ∧ pooled = false ∧ procs N' = procs N).
Proof.
  intros (H & m & r & HN & Hg & Hcase)%turn_spec Hwf. cbv zeta in Hcase. exists m.
  assert (if decide (h0 = h) then queue_of h N = m :: queue_of h (set_host h0 (H <| det := (det H) <| ring := r |> |>) N)
          else queue_of h (set_host h0 (H <| det := (det H) <| ring := r |> |>) N) = queue_of h N) as Hq.
  { rewrite queue_set_host. case_decide as E; [|done]. subst h0. unfold queue_of. rewrite HN. by apply get_contents; [apply Hwf|]. }
  destruct Hcase as [[-> ->]|[(a & -> & ->)|(a & s & Hs & ->)]].
  - exists true, false. split_and!; [done|by case_decide|by case_decide; rewrite app_nil_r|done].
  - exists false, true. split_and!; [done|by case_decide| |done].
    rewrite (pending_app h _ _ _ (hosts N)), pending_one. done.
  - exists false, false. apply (serve_flow h) in Hs as (Hq' & Hp & Hf & Hm). cbn in Hf, Hm, Hp. rewrite Hq'. split_and!; [done| | |done].
    + rewrite from_one, Hf, Hm. done.
    + unfold pending. rewrite Hp. case_decide; by rewrite app_nil_r.
Qed.
Lemma sent_snoc h tr e : sent_by h (tr ++ [e]) = sent_by h tr ++ own_sent h e.
Proof.
  unfold sent_by, own_sent. rewrite local_snoc, fmap_app, concat_app. destruct (own h e) as [[ev sent]|]; cbn; by rewrite ?app_nil_r.
Qed.
Lemma run_ring_wf tr N h H : net_run tr N → hosts N !! h = Some H → ring_wf (ring (det H)).
Proof. intros Hr HH. by destruct (run_host _ _ _ _ Hr HH) as [[? _ _ _]%det_run_inv _]. Qed.

(** ** Counting *)
Definition kinds (k : Z) (l : list PeerMsg) : nat := length (filter (λ m, kind m = k) l).
Lemma kinds_app k l1 l2 : kinds k (l1 ++ l2) = (kinds k l1 + kinds k l2)%nat.
Proof. unfold kinds. by rewrite list.filter_app, length_app. Qed.

(** ** Replaying runs *)
Definition net_do (ev : net_event) (N : Net) : option (entry * Net) :=
  match ev with
  | Local h e =>
      H ← hosts N !! h;
      match e with
      | ESend => None
      | _ => d ← do_event (det H) e;
             let sent := appended (det H) d in
             if bool_decide (contents (ring d) = contents (ring (det H)) ++ sent)
             then Some (mkEntry ev sent [], set_host h (H <| det := d |>) N) else None
      end
  | Turn h rc peek pe => match turn h rc peek pe N with Ret (N', sv) => Some (mkEntry ev [] sv, N') | _ => None end
  | Act i pe => match act i pe N with Ret (N', sv) => Some (mkEntry ev [] sv, N') | _ => None end
  | Book h es => H ← hosts N !! h; Some (mkEntry ev [] [], set_host h (H <| dests := es |>) N)
  end.
Fixpoint net_replay (evs : list net_event) (tr : list entry) (N : Net) : option (list entry * Net) :=
  match evs with
  | [] => Some (tr, N)
  | ev :: evs' => '(e, N') ← net_do ev N; net_replay evs' (tr ++ [e]) N'
  end.
Lemma net_do_step ev N e N' : net_do ev N = Some (e, N') → net_step N e N'.
Proof.
  destruct ev as [h ev|h rc peek pe|i pe|h es]; cbn [net_do].
  - destruct (hosts N !! h) as [H|] eqn:HN; [|done]. cbn [mbind option_bind]. intros E.
    assert (ev ≠ ESend ∧ ∃ d, do_event (det H) ev = Some d ∧ contents (ring d) = contents (ring (det H)) ++ appended (det H) d ∧
      e = mkEntry (Local h ev) (appended (det H) d) [] ∧ N' = set_host h (H <| det := d |>) N) as (Hne & d & Ed & Hc & -> & ->).
    { destruct ev; try done; (split; [done|]); destruct (do_event _ _) as [d|] eqn:Ed; [|done|..]; try done;
        cbn [mbind option_bind] in E; cbv zeta in E; case_bool_decide; simplify_eq; eauto. }
    eapply ns_local; [done..|]. apply ds_append; [done| |done]. unfold do_event in Ed.
    destruct (det_do ev (det H)) as [[d1| |]|]; by simplify_eq.
  - intros E. destruct (turn h rc peek pe N) as [[N1 sv]| |] eqn:Et; simplify_eq. by apply ns_turn.
  - intros E. destruct (act i pe N) as [[N1 sv]| |] eqn:Et; simplify_eq. by apply ns_act.
  - destruct (hosts N !! h) as [H|] eqn:HN; [|done]. cbn [mbind option_bind]. intros E. simplify_eq. by apply ns_book.
Qed.
Lemma net_replay_run evs tr N tr' N' : net_run tr N → net_replay evs tr N = Some (tr', N') → net_run tr' N'.
Proof.
  revert tr N. induction evs as [|ev evs IH]; intros tr N Hr E; cbn [net_replay] in E; [by simplify_eq|].
  destruct (net_do ev N) as [[e N1]|] eqn:Ed; [|done]. cbn [mbind option_bind] in E.
  eapply IH; [|exact E]. eapply nr_step; [done|by eapply net_do_step].
Qed.
Lemma replay_fresh evs N : fresh N → is_Some (net_replay evs [] N) → ∃ tr N', net_run tr N' ∧ net_replay evs [] N = Some (tr, N').
Proof. intros Hf [[tr N'] E]. exists tr, N'. split; [|done]. eapply net_replay_run; [by apply nr_init|done]. Qed.

(** Two hosts, the second a source that knows the first. *)
Definition dst_addr : Z := 33554442.
Definition src_addr : Z := 16777226.
Definition two_hosts : Net :=
  mkNet (<[dst_addr := mkHost det_init pacer_init []]> (<[src_addr := mkHost det_init pacer_init demo_dests]> ∅)) [].
Lemma two_fresh : fresh two_hosts.
Proof. split; [done|]. repeat (apply map_Forall_insert_2; [done|]). apply map_Forall_empty. Qed.
Definition dst_env : henv := mkHenv "now" TUNING false 0.
Definition dst_hop (q lat : Z) : net_event := Local dst_addr (EHop thresholds_init 0 episode_hop q lat).
Definition dst_fires (t : timer) : net_event := Local dst_addr (EFire t dst_env).
(** The source's process ends in time, or not. *)
Definition sends (in_time : bool) : net_event := Turn dst_addr 0 (λ _, if in_time then 0 else 1) demo_penv.
(** An episode, in order; and with two processes that overtake each other. *)
Definition in_order : list net_event :=
  [dst_hop 600 700000; dst_fires T_qOCC_Hop; sends true; dst_fires T_qEvaluation; dst_hop 5 10; sends true].
Definition overtaken : list net_event :=
  [dst_hop 600 700000; dst_fires T_qOCC_Hop; sends false; dst_fires T_qEvaluation; dst_hop 5 10; sends false;
   Act 1 demo_penv; Act 0 demo_penv].
Definition final (evs : list net_event) : option (list proc * list tc_cmd * bool * list PeerMsg) :=
  '(_, N) ← net_replay evs [] two_hosts; D ← hosts N !! dst_addr; S ← hosts N !! src_addr;
  Some (procs N, ran (pacer S), vSentPacingOver (det D), contents (ring (det D))).
Example in_order_ex : final in_order = Some ([], [TcInstall (dofZ 18); TcNopacing], false, []).
Proof. vm_compute. reflexivity. Qed.
(** The reset finds nothing to lift, and the report paces a source that nobody
    will release: nothing is queued, pending or owed. *)
Example overtaken_reset_leaves_paced : final overtaken = Some ([], [TcInstall (dofZ 18)], false, []).
Proof. vm_compute. reflexivity. Qed.


(** C5: As long as every turn of a sender reaches a host whose process ends within
    the six looks, the network is a reliable channel: no process stays behind,
    and the messages of each host that have been served, followed by those in
    its queue, are the messages it has published, in order. *)
Theorem network_orderly tr N h :
  net_run tr N → Forall (λ e, match en_event e with Turn _ _ _ _ => en_done e ≠ [] | _ => True end) tr →
  procs N = [] ∧ (sv_msg <$> from_host h (services tr)) ++ (wire_of <$> queue_of h N) = wire_of <$> sent_by h tr.
Proof.
  induction 1 as [N [Hp Hf]|tr N e N' Hr IH Hs].
  - intros _. split; [done|]. unfold queue_of. destruct (hosts N !! h) as [H|] eqn:E; [|done]. by destruct (Hf h H E) as [-> _].
  - intros [Htr [He _]%Forall_cons_1]%Forall_app. destruct (IH Htr) as [Hps Hq]. clear IH.
    rewrite services_snoc, sent_snoc. unfold from_host. rewrite list.filter_app, !fmap_app, <- Hq.
    fold (from_host h (services tr)) (from_host h (en_done e)). rewrite <- !app_assoc.
    destruct Hs as [h0 ev H sent d HN Hev Hd|h0 rc peek pe N' sv Ht|i pe N' sv Ha|h0 H es HN]; cbn in He; unfold own_sent; cbn [own en_event en_sent en_done].
    + split; [done|]. f_equal. rewrite queue_set_host. case_decide as E; [|by rewrite app_nil_r].
      subst h0. unfold queue_of. rewrite HN. destruct Hd as [d sent _ _ Hc|]; [|done]. change (det (H <| det := d |>)) with d.
      by rewrite Hc, fmap_app.
    + destruct (turn_flow h h0 rc peek pe N N' sv Ht) as (m & dr & po & Hm & Hsv & _ & Hn); [by eauto using run_ring_wf|].
      destruct (Hn He) as (-> & -> & ->). split; [done|]. f_equal. rewrite Hsv. case_decide; cbn; rewrite app_nil_r; [by rewrite Hm|by rewrite Hm].
    + apply act_spec in Ha as (p & s & Hp & _). by rewrite Hps in Hp.
    + split; [done|]. f_equal. rewrite queue_set_host, app_nil_r. case_decide as E; [|done]. subst. unfold queue_of. by rewrite HN.
Qed.
Lemma network_orderly_witness :
  ∃ tr N, net_run tr N ∧ procs N = [] ∧ length (from_host dst_addr (services tr)) = 2%nat ∧
    (sv_msg <$> from_host dst_addr (services tr)) ++ (wire_of <$> queue_of dst_addr N) = wire_of <$> sent_by dst_addr tr.
Proof.
  destruct (replay_fresh in_order two_hosts two_fresh) as (tr & N & Hr & E); [vm_compute; eauto|].
  destruct (network_orderly tr N dst_addr Hr) as [H1 H2].
  { clear Hr. vm_compute in E. injection E as <- _. repeat constructor; discriminate. }
  exists tr, N. split; [done|]. split; [done|]. split; [vm_compute in E; injection E as <- _; reflexivity|done].
Defined.
