(* ===== verification/SharedRecord.v ===== *)
(** * Processes that share the record of the pacing

    A host forks a process per connection; each works on the record of the
    pacing, a shared-memory segment without a lock.  [Pacing] takes a handler as
    one step.  Here a handler is what it does to the segment and to the interface
    one access at a time: it reads the record ([shm_read]), then runs its command
    and writes the record, or the other way round: a report of congestion runs
    the command first ([system], [shm_write]), a reset, a cleanup or an idle
    second writes first; a Kafka message does one or the other.  A schedule says
    whose turn it is at each access.

    Every process has its own copy of the global [sResetPacingBack], which is
    overwritten when it reads.  The main process takes no messages of peers; its
    bit-rate thread releases the pacing in idle seconds.  With Kafka no process is
    forked, and that thread and the consumer's share one copy: their handlers are
    taken one after the other, as jobs of one process ([ThreadCopies] takes them
    apart).  A [memcpy] of the record
    is one step. *)
From Stdlib Require Import ZArith Lia Ascii String Floats.SpecFloat.
From stdpp Require Import base gmap strings numbers option list.
From S2P Require Import Prelude CString Dbl Ring Transport DtnTables FlowCounters Timers Pacing Network.
Open Scope Z_scope.

(** ** Handlers, one access at a time *)
Inductive job :=
| JReport (e : penv) (es : list sDest_Dtn_IPs_t) (hop_delay dst : Z)
| JReset (e : penv) (es : list sDest_Dtn_IPs_t) (dst : Z)
| JCleanup (e : penv)                            (* a cleanup message, or an idle second *)
| JKafka (e : penv) (h : henv) (d : Detector) (payload : string).
Definition env_of (j : job) : penv :=
  match j with JReport e _ _ _ | JReset e _ _ | JCleanup e | JKafka e _ _ _ => e end.
(** The handler as one step. *)
Definition handle (j : job) (p : Pacer) : Pacer :=
  match j with
  | JReport e es hop_delay dst => fDoQinfoAssessment2 e es hop_delay dst p
  | JReset e es dst => fDoResetPacing2 e es dst p
  | JCleanup e => fDoCleanupResetPacing2 e p
  | JKafka e h d payload => kpacer (fDoQinfoAssessmentKafka e h payload (mkKafka p d))
  end.
(** What [process_request] has its process do for a message. *)
Definition jobs_of (e : penv) (es : list sDest_Dtn_IPs_t) (r : Request) : list job :=
  if rq_no r =? QINFO_MSG then [JReport e es (rq_hop_delay r) (rq_dst r)]
  else if rq_no r =? RESET_PACING_MSG then [JReset e es (rq_dst r)]
  else if rq_no r =? TEST_MSG then []
  else if rq_no r =? CLEANUP_RESET_PACING_MSG then [JCleanup e]
  else [].
Lemma dispatch_jobs e es r p : dispatch e es r p = foldl (λ p j, handle j p) p (jobs_of e es r).
Proof. unfold dispatch, jobs_of. by repeat case_match. Qed.
(** What is left to do after the record has been read. *)
Inductive access :=
| Run (c : tc_cmd)                                (* [system] *)
| Note (att : bool) (b : sResetPacingBack_t).     (* [shm_write] *)
Definition adjusting (e : penv) (cs : list tc_cmd) (b : sResetPacingBack_t) : list access :=
  (Run <$> cs) ++ [Note (attached e) b].
Definition releasing (e : penv) (b : sResetPacingBack_t) (c : tc_cmd) : list access := [Note (attached e) b; Run c].

Definition report_accesses (e : penv) (es : list sDest_Dtn_IPs_t) (hop_delay dst : Z) (cur : option sResetPacingBack_t)
    : list access :=
  if negb (dtruth (vGlobal_average_tx_Gbits_per_sec e)) then [] else
  let v := new_pacing_value (vGlobal_average_tx_Gbits_per_sec e) (vMaxPacingRate e) in
  match find_dest es dst, plan_pacing cur v with
  | Some _, Some (flag, cs, v) =>
      if negb (gTuningMode e) then []
      else if negb (hop_delay =? 0) then adjusting e cs (mkBack flag v)
      else if dltb (vRetransmissionRateThreshold e) (vGlobalRetransmissionRate e)
           then adjusting e cs (mkBack REGULAR_PACING_FLAG_SET v)
      else []
  | _, _ => []
  end.
Definition lift_accesses (e : penv) (cur : option sResetPacingBack_t) : list access :=
  match cur with
  | Some b => if gTuningMode e && (set b =? REGULAR_PACING_FLAG_SET)
              then releasing e (mkBack NOPACING_FLAG_SET dzero) TcNopacing else []
  | None => []
  end.
Definition reset_accesses (e : penv) (es : list sDest_Dtn_IPs_t) (dst : Z) (cur : option sResetPacingBack_t) : list access :=
  match find_dest es dst with Some _ => lift_accesses e cur | None => [] end.
Definition cleanup_accesses (e : penv) (cur : option sResetPacingBack_t) : list access :=
  match cur with Some _ => if gTuningMode e then releasing e (mkBack 0 dzero) TcDel else [] | None => [] end.
Definition kafka_accesses (e : penv) (can : bool) (payload : string) (cur : option sResetPacingBack_t) : list access :=
  let Gbps := gbps_of_payload payload in
  let avg := vGlobal_average_tx_Gbits_per_sec e in
  let vFDevSpeed := ddiv (dofZ (netDeviceSpeed e)) d1000 in
  let v := kafka_pacing_value avg Gbps in
  if negb (dtruth avg) || negb can then []
  else if dltb (dadd avg Gbps) (dmul vFDevSpeed d0_95) then
    if dleb (dmul vFDevSpeed d0_95) v then lift_accesses e cur
    else if dltb v (dmul vFDevSpeed d0_10) || negb (gTuningMode e) then []
    else match cur with
         | None => adjusting e [TcInstall v] (mkBack REGULAR_PACING_FLAG_SET v)
         | Some b => if dltb (dmul (current_pacing b) d0_95) v || dltb v (dmul (current_pacing b) d0_95)
                     then adjusting e [TcChange v] (mkBack REGULAR_PACING_FLAG_SET v) else []
         end
  else lift_accesses e cur.
Definition accesses (j : job) (cur : option sResetPacingBack_t) : list access :=
  match j with
  | JReport e es hop_delay dst => report_accesses e es hop_delay dst cur
  | JReset e es dst => reset_accesses e es dst cur
  | JCleanup e => cleanup_accesses e cur
  | JKafka e h d payload => kafka_accesses e (vCanStartEvaluationTimer d) payload cur
  end.

(** ** Processes and schedules *)
(** The jobs a process has not begun, and what is left of the one at hand. *)
Record process := mkProcess { todo : list job; rest : list access }.
Definition do_access (a : access) (p : Pacer) : Pacer :=
  match a with Run c => run [c] p | Note att b => p <| shm := shm_write att b (shm p) |> end.
(** The next access of a process: it reads the record for its next job, or does
    what is next for the job at hand. *)
Definition micro (pr : process) (p : Pacer) : process * Pacer :=
  match rest pr with
  | a :: l => (mkProcess (todo pr) l, do_access a p)
  | [] =>
      match todo pr with
      | [] => (pr, p)
      | j :: js => (mkProcess js (accesses j (pacing_set (attached (env_of j)) (shm p))), p)
      end
  end.
Record Shared := mkShared { sh_pacer : Pacer; sh_procs : list process }.
(** The turn of process [i]. *)
Definition sched (i : nat) (S : Shared) : Shared :=
  match sh_procs S !! i with
  | None => S
  | Some pr => let '(pr', p') := micro pr (sh_pacer S) in mkShared p' (<[i := pr']> (sh_procs S))
  end.
Fixpoint run_schedule (sc : list nat) (S : Shared) : Shared :=
  match sc with [] => S | i :: sc' => run_schedule sc' (sched i S) end.
(** Processes that have not begun; all processes at their end. *)
Definition start (p : Pacer) (jobs : list (list job)) : Shared := mkShared p ((λ js, mkProcess js []) <$> jobs).
Definition ended (pr : process) : bool := match todo pr, rest pr with [], [] => true | _, _ => false end.
Definition quiet (S : Shared) : Prop := Forall (λ pr, ended pr = true) (sh_procs S).
(** Three accesses per job are enough: a schedule that gives every process as many. *)
Definition fair (jobs : list (list job)) (sc : list nat) : Prop :=
  ∀ i js, jobs !! i = Some js → (3 * length js ≤ count_occ Nat.eq_dec sc i)%nat.

(** ** One process alone *)
Definition do_all (l : list access) (p : Pacer) : Pacer := foldl (λ p a, do_access a p) p l.
Lemma do_adjusting e cs b p : do_all (adjusting e cs b) p = store e b (run cs p).
Proof.
  unfold adjusting. revert p. induction cs as [|c cs IH]; intros p; cbn [fmap list_fmap app do_all foldl do_access].
  - unfold store, run. by rewrite app_nil_r.
  - unfold do_all in IH. rewrite IH. unfold store, run. cbn. by rewrite <- app_assoc.
Qed.
Lemma do_releasing e b c p : do_all (releasing e b c) p = run [c] (store e b p).
Proof. done. Qed.
Lemma do_lift e cur p : do_all (lift_accesses e cur) p =
  match cur with
  | Some b => if gTuningMode e && (set b =? REGULAR_PACING_FLAG_SET)
              then run [TcNopacing] (store e (mkBack NOPACING_FLAG_SET dzero) p) else p
  | None => p
  end.
Proof. unfold lift_accesses. destruct cur as [b|]; [|done]. by destruct (_ && _). Qed.
Lemma store_run e b cs p : store e b (run cs p) = run cs (store e b p).
Proof. done. Qed.
Lemma report_whole e es hop dst p :
  do_all (report_accesses e es hop dst (pacing_set (attached e) (shm p))) p = fDoQinfoAssessment2 e es hop dst p.
Proof.
  unfold report_accesses, fDoQinfoAssessment2. destruct (negb (dtruth _)); [done|]. destruct (find_dest es dst); [|done].
  destruct (plan_pacing _ _) as [[[flag cs] v]|]; [|by repeat case_match].
  destruct (gTuningMode e); cbn [negb]; [|by repeat case_match].
  destruct (negb (hop =? 0)); [by rewrite do_adjusting|]. destruct (dltb _ _); [by rewrite do_adjusting|done].
Qed.
Lemma reset_whole e es dst p :
  do_all (reset_accesses e es dst (pacing_set (attached e) (shm p))) p = fDoResetPacing2 e es dst p.
Proof.
  unfold reset_accesses, fDoResetPacing2. destruct (find_dest es dst); [|done]. rewrite do_lift.
  destruct (pacing_set _ _) as [b|]; [|done]. destruct (gTuningMode e); [|done]. cbn [andb].
  destruct (Z.eqb_spec (set b) NOPACING_FLAG_SET) as [->|]; [done|]. by destruct (set b =? REGULAR_PACING_FLAG_SET).
Qed.
Lemma kafka_whole e h d payload p :
  do_all (kafka_accesses e (vCanStartEvaluationTimer d) payload (pacing_set (attached e) (shm p))) p =
  kpacer (fDoQinfoAssessmentKafka e h payload (mkKafka p d)).
Proof.
  unfold kafka_accesses, fDoQinfoAssessmentKafka. cbn [kpacer].
  assert (∀ b cs, kpacer (kafka_adjust e h b cs (mkKafka p d)) =
            if vCanStartEvaluationTimer d then store e b (run cs p) else p) as Hadj.
  { intros b cs. unfold kafka_adjust. cbn [kdet kpacer]. by destruct (vCanStartEvaluationTimer d). }
  assert (∀ cur, kpacer (kafka_lift e h cur (mkKafka p d)) =
            if vCanStartEvaluationTimer d then do_all (lift_accesses e cur) p else p) as Hlift.
  { intros cur. rewrite do_lift. unfold kafka_lift. destruct cur as [b|]; [|by case_match].
    destruct (gTuningMode e && _); [rewrite Hadj|]; by case_match. }
  destruct (negb (dtruth _)); [done|]. cbn [orb].
  destruct (vCanStartEvaluationTimer d); cbn [negb].
  - destruct (dltb _ _); [|by rewrite Hlift]. destruct (dleb _ _); [by rewrite Hlift|].
    destruct (dltb _ (dmul _ d0_10)); [done|]. cbn [orb]. destruct (gTuningMode e); cbn [negb andb]; [|by repeat case_match].
    destruct (pacing_set _ _) as [b|]; [destruct (_ || _); [|done]|]; by rewrite Hadj, do_adjusting.
  - destruct (dltb _ _); [|by rewrite Hlift]. destruct (dleb _ _); [by rewrite Hlift|].
    destruct (dltb _ (dmul _ d0_10)); [done|]. destruct (gTuningMode e && _); [by rewrite Hadj|done].
Qed.
Lemma accesses_whole j p : do_all (accesses j (pacing_set (attached (env_of j)) (shm p))) p = handle j p.
Proof.
  destruct j; cbn [accesses env_of handle]; [apply report_whole|apply reset_whole| |apply kafka_whole].
  unfold cleanup_accesses, fDoCleanupResetPacing2. destruct (pacing_set _ _); [|done]. by destruct (gTuningMode e).
Qed.

(** What is left of a process, counted in accesses: a job has at most three. *)
Definition weight (pr : process) : nat := 3 * length (todo pr) + length (rest pr).
Lemma adjusting_length e cs b : length (adjusting e cs b) = S (length cs).
Proof. unfold adjusting. rewrite length_app, length_fmap. cbn. lia. Qed.
Lemma lift_length e cur : (length (lift_accesses e cur) ≤ 2)%nat.
Proof. unfold lift_accesses, releasing. repeat case_match; cbn; lia. Qed.
Lemma accesses_length j cur : (length (accesses j cur) ≤ 2)%nat.
Proof.
  destruct j as [e es hop dst|e es dst|e|e h d payload]; cbn [accesses].
  - unfold report_accesses. destruct (negb _); [cbn; lia|]. destruct (find_dest es dst); [|cbn; lia].
    destruct (plan_pacing _ _) as [[[flag cs] v]|] eqn:E; [|cbn; lia]. apply plan_one in E as [c ->].
    repeat case_match; rewrite ?adjusting_length; cbn; lia.
  - unfold reset_accesses. destruct (find_dest es dst); [apply lift_length|cbn; lia].
  - unfold cleanup_accesses, releasing. repeat case_match; cbn; lia.
  - unfold kafka_accesses. pose proof (lift_length e cur). repeat case_match; rewrite ?adjusting_length; cbn; lia.
Qed.
Lemma weight_0 pr : weight pr = 0%nat ↔ ended pr = true.
Proof. destruct pr as [[|j js] [|a l]]; unfold weight; cbn; split; intros; (done || lia). Qed.
Lemma micro_weight pr p : ended pr = false → (weight (micro pr p).1 < weight pr)%nat.
Proof.
  destruct pr as [[|j js] [|a l]]; intros H; try done; unfold micro, weight; cbn; try lia.
  pose proof (accesses_length j (pacing_set (attached (env_of j)) (shm p))). lia.
Qed.
Lemma micro_ended pr p : ended pr = true → micro pr p = (pr, p).
Proof. by destruct pr as [[|] [|]]. Qed.

Lemma sched_some i S pr : sh_procs S !! i = Some pr →
  sched i S = mkShared (micro pr (sh_pacer S)).2 (<[i := (micro pr (sh_pacer S)).1]> (sh_procs S)).
Proof. intros E. unfold sched. rewrite E. by destruct (micro pr (sh_pacer S)). Qed.
Lemma sched_procs i S k pr' : sh_procs (sched i S) !! k = Some pr' →
  ∃ pr, sh_procs S !! k = Some pr ∧ pr' = if decide (k = i) then (micro pr (sh_pacer S)).1 else pr.
Proof.
  destruct (sh_procs S !! i) as [pr|] eqn:E.
  - rewrite (sched_some _ _ _ E). cbn. pose proof (lookup_lt_Some _ _ _ E) as Hi. intros H.
    destruct (decide (k = i)) as [->|]; [rewrite list_lookup_insert_eq in H by done; simplify_eq; eauto|].
    rewrite list_lookup_insert_ne in H by done. eauto.
  - unfold sched. rewrite E. intros H. exists pr'. destruct (decide (k = i)) as [->|]; [congruence|done].
Qed.
Lemma run_schedule_app sc sc' S : run_schedule (sc ++ sc') S = run_schedule sc' (run_schedule sc S).
Proof. revert S. induction sc as [|i sc IH]; intros S; [done|]. apply IH. Qed.

(** A process that has its turns one after the other. *)
Lemma finish_rest l i js S n :
  sh_procs S !! i = Some (mkProcess js l) → (length l ≤ n)%nat →
  run_schedule (replicate n i) S =
  run_schedule (replicate (n - length l) i) (mkShared (do_all l (sh_pacer S)) (<[i := mkProcess js []]> (sh_procs S))).
Proof.
  revert S n. induction l as [|a l IH]; intros S n E Hn.
  { cbn [length]. rewrite Nat.sub_0_r. rewrite list_insert_id by done. by destruct S. }
  destruct n as [|n]; [cbn in Hn; lia|]. cbn [replicate run_schedule].
  rewrite (sched_some _ _ _ E). cbn [micro rest todo fst snd].
  rewrite (IH _ n); [|by apply list_lookup_insert_eq, (lookup_lt_Some _ _ _ E)|cbn in Hn; lia].
  cbn [sh_pacer sh_procs length do_all foldl Nat.sub]. by rewrite list_insert_insert_eq.
Qed.
Lemma idle_turns n i S pr : sh_procs S !! i = Some pr → ended pr = true → run_schedule (replicate n i) S = S.
Proof.
  intros E He. induction n as [|n IH]; [done|]. cbn [replicate run_schedule]. rewrite (sched_some _ _ _ E), micro_ended by done.
  cbn. rewrite list_insert_id by done. by destruct S.
Qed.
(** A process that is not interrupted does its jobs as the handlers taken as
    single steps do, one after the other, and is at its end after at most three
    accesses a job; the processes beside it are not touched. *)
Theorem uninterrupted_process_is_serial i js S n :
  sh_procs S !! i = Some (mkProcess js []) → (3 * length js ≤ n)%nat →
  run_schedule (replicate n i) S =
    mkShared (foldl (λ p j, handle j p) (sh_pacer S) js) (<[i := mkProcess [] []]> (sh_procs S)).
Proof.
  revert S n. induction js as [|j js IH]; intros S n E Hn.
  { rewrite (idle_turns n i S _ E) by done. cbn. rewrite list_insert_id by done. by destruct S. }
  cbn [length] in Hn. destruct n as [|n]; [lia|]. cbn [replicate run_schedule]. rewrite (sched_some _ _ _ E).
  cbn [micro rest todo fst snd]. pose proof (lookup_lt_Some _ _ _ E) as Hi.
  pose proof (accesses_length j (pacing_set (attached (env_of j)) (shm (sh_pacer S)))) as Hl.
  erewrite finish_rest; [|by apply list_lookup_insert_eq|lia]. cbn [sh_pacer sh_procs].
  rewrite accesses_whole, IH; [|by apply list_lookup_insert_eq; rewrite length_insert|lia].
  cbn [sh_pacer sh_procs foldl]. by rewrite !list_insert_insert_eq.
Qed.

Lemma uninterrupted_process_is_serial_witness :
  let js := [JReport demo_penv demo_dests 600000 33554442; JReset demo_penv demo_dests 33554442] in
  run_schedule (replicate 6 1%nat) (start pacer_init [[]; js]) =
    mkShared (fDoResetPacing2 demo_penv demo_dests 33554442 paced) [mkProcess [] []; mkProcess [] []] ∧
  render "eth0" <$> ran (fDoResetPacing2 demo_penv demo_dests 33554442 paced) =
    ["tc qdisc del dev eth0 root 2>/dev/null; tc qdisc add dev eth0 root fq maxrate 18.00gbit";
     "tc qdisc change dev eth0 root fq nopacing"].
Proof.
  split; [|vm_compute; reflexivity].
  apply (uninterrupted_process_is_serial 1
    [JReport demo_penv demo_dests 600000 33554442; JReset demo_penv demo_dests 33554442]
    (start pacer_init [[]; [JReport demo_penv demo_dests 600000 33554442; JReset demo_penv demo_dests 33554442]]) 6).
  - reflexivity.
  - cbn. lia.
Defined.

(** A schedule that gives each process its accesses brings all to their end. *)
Lemma enough_turns sc S :
  (∀ i pr, sh_procs S !! i = Some pr → (weight pr ≤ count_occ Nat.eq_dec sc i)%nat) → quiet (run_schedule sc S).
Proof.
  revert S. induction sc as [|i sc IH]; intros S H.
  { apply Forall_lookup. intros i pr E%H. by apply weight_0, Nat.le_0_r. }
  cbn [run_schedule]. apply IH. intros k pr' (pr & E & ->)%sched_procs. specialize (H k pr E). cbn [count_occ] in H.
  destruct (decide (k = i)) as [->|Hk].
  - destruct (Nat.eq_dec i i); [|done]. destruct (ended pr) eqn:He.
    + rewrite micro_ended by done. apply weight_0 in He. cbn [fst]. lia.
    + pose proof (micro_weight pr (sh_pacer S) He). lia.
  - destruct (Nat.eq_dec i k); [congruence|done].
Qed.
Lemma fair_ends p jobs sc : fair jobs sc → quiet (run_schedule sc (start p jobs)).
Proof.
  intros H. apply enough_turns. intros i pr E. cbn in E. rewrite list_lookup_fmap in E.
  destruct (jobs !! i) as [js|] eqn:Ej; [|done]. cbn in E. simplify_eq. unfold weight. cbn. specialize (H i js Ej). lia.
Qed.

(** ** The record names a pacing that is in force *)
(** The last command set a rate. *)
Definition paced_now (p : Pacer) : bool := match last_cmd p with Some c => tightens c | None => false end.
(** A report with a hop delay whose value would be above 34 Gb/s lifts the
    pacing and then writes that it did; all other releases write first. *)
Definition lifting_report (j : job) : bool :=
  match j with
  | JReport e _ hop_delay _ =>
      negb (hop_delay =? 0) && dltb d34 (dmul (vGlobal_average_tx_Gbits_per_sec e) (vMaxPacingRate e))
  | JReset _ _ _ | JCleanup _ | JKafka _ _ _ _ => false
  end.
Definition orderly (j : job) : Prop := attached (env_of j) = true ∧ lifting_report j = false.
(** The orders in which an orderly job does what it has to do. *)
Inductive tidy : list access → Prop :=
| tidy_end : tidy []
| tidy_adjust c b : set b = REGULAR_PACING_FLAG_SET → tidy [Run c; Note true b]
| tidy_note b : set b = REGULAR_PACING_FLAG_SET → tidy [Note true b]
| tidy_release att b c : tightens c = false → tidy [Note att b; Run c]
| tidy_lift c : tightens c = false → tidy [Run c].
(** A process that will still record a pacing, or lift it. *)
Definition promises (pr : process) : bool :=
  existsb (λ a, match a with Note _ b => set b =? REGULAR_PACING_FLAG_SET | Run c => negb (tightens c) end) (rest pr).
Record sound (S : Shared) : Prop := {
  so_tidy : Forall (λ pr, tidy (rest pr) ∧ Forall orderly (todo pr)) (sh_procs S);
  so_record : paced_now (sh_pacer S) = true →
    set (shm (sh_pacer S)) = REGULAR_PACING_FLAG_SET ∨ Exists (λ pr, promises pr = true) (sh_procs S)
}.

Lemma deqb_d40 x : deqb x d40 = true → x = d40.
Proof.
  unfold deqb, SFeqb. intros H. assert (SFcompare x d40 = Some Eq) as E by (by destruct (SFcompare x d40) as [[]|]).
  clear H. change d40 with (S754_finite false 5629499534213120 (-47)) in *. unfold SFcompare in E.
  destruct x as [[]|[]| |[] m e]; try done. destruct (e ?= -47) eqn:He; try done. apply Z.compare_eq in He.
  destruct (Pos.compare_cont Eq m 5629499534213120) eqn:Hm; try done. by apply Pos.compare_eq in Hm; subst.
Qed.
Lemma new_value_not_40 avg rate : dltb d34 (dmul avg rate) = false → deqb (new_pacing_value avg rate) d40 = false.
Proof.
  intros H. unfold new_pacing_value. rewrite H. destruct (dltb (dmul avg rate) d2) eqn:H2; [by vm_compute|].
  destruct (deqb (dmul avg rate) d40) eqn:E; [|done]. apply deqb_d40 in E. by rewrite E in H.
Qed.
Lemma plan_not_40 cur v flag cs v' :
  plan_pacing cur v = Some (flag, cs, v') → deqb v d40 = false → flag = REGULAR_PACING_FLAG_SET.
Proof. unfold plan_pacing. intros E H. rewrite H in E. destruct cur; by simplify_eq. Qed.
Lemma lift_tidy e cur : tidy (lift_accesses e cur).
Proof. unfold lift_accesses, releasing. repeat case_match; by constructor. Qed.
Lemma accesses_tidy j cur : orderly j → tidy (accesses j cur).
Proof.
  intros [Ha Hl]. destruct j as [e es hop dst|e es dst|e|e h d payload]; cbn [accesses env_of lifting_report] in *.
  - unfold report_accesses, adjusting. destruct (negb (dtruth _)); [constructor|]. destruct (find_dest es dst); [|constructor].
    destruct (plan_pacing _ _) as [[[flag cs] v]|] eqn:E; [|constructor]. destruct (plan_one _ _ _ _ _ E) as [c ->].
    destruct (negb (gTuningMode e)); [constructor|]. rewrite Ha. destruct (negb (hop =? 0)).
    + apply plan_not_40 in E as ->; [by constructor|by apply new_value_not_40].
    + case_match; by constructor.
  - unfold reset_accesses. destruct (find_dest es dst); [apply lift_tidy|constructor].
  - unfold cleanup_accesses, releasing. repeat case_match; by constructor.
  - unfold kafka_accesses, adjusting. pose proof (lift_tidy e cur). rewrite Ha. repeat case_match; (done || by constructor).
Qed.

(** One access of a process: the record names the pacing, or a promise stands. *)
Lemma micro_sound pr p :
  tidy (rest pr) → Forall orderly (todo pr) →
  let '(pr', p') := micro pr p in
  tidy (rest pr') ∧ Forall orderly (todo pr') ∧
  (paced_now p' = true →
     set (shm p') = REGULAR_PACING_FLAG_SET ∨ promises pr' = true ∨
     (paced_now p = true ∧ promises pr = false ∧ set (shm p') = set (shm p))).
Proof.
  intros Ht Ho. destruct pr as [js l]. cbn [rest todo] in *. unfold micro. cbn [rest todo].
  destruct Ht as [|c b Hb|b Hb|att b c Hc|c Hc].
  - destruct js as [|j js]; (split_and!; [| |intros Hp]); try done; [by constructor|by auto| | |].
    + apply accesses_tidy. by apply Forall_cons_1 in Ho as [].
    + by apply Forall_cons_1 in Ho as [].
    + by auto.
  - split_and!; [by constructor|done|]. intros _. right. left. unfold promises. cbn. by rewrite Hb.
  - split_and!; [by constructor|done|]. intros _. left. done.
  - split_and!; [by constructor|done|]. intros _. right. left. unfold promises. cbn. by rewrite Hc.
  - split_and!; [by constructor|done|]. unfold paced_now. cbn [do_access]. by rewrite last_run1, Hc.
Qed.
Lemma sched_sound i S : sound S → sound (sched i S).
Proof.
  intros [Ht Hr]. destruct (sh_procs S !! i) as [pr|] eqn:E; [|unfold sched; by rewrite E; constructor].
  rewrite (sched_some _ _ _ E). pose proof (proj1 (Forall_lookup _ _) Ht _ _ E) as [H1 H2].
  pose proof (micro_sound pr (sh_pacer S) H1 H2) as Hm. destruct (micro pr (sh_pacer S)) as [pr' p'].
  destruct Hm as (H3 & H4 & H5). pose proof (lookup_lt_Some _ _ _ E) as Hi. constructor; cbn [sh_procs sh_pacer fst snd].
  - by apply Forall_insert.
  - intros [|[|(Hp & Hno & Hs)]]%H5; [by left| |].
    + right. apply Exists_exists. exists pr'. split; [|done]. by eapply list_elem_of_lookup_2, list_lookup_insert_eq.
    + destruct (Hr Hp) as [|Hx]; [left; congruence|]. right. apply Exists_exists in Hx as (pr2 & Hin & Hpr).
      apply list_elem_of_lookup in Hin as [k Hk]. apply Exists_exists. exists pr2. split; [|done].
      apply list_elem_of_lookup. exists k. rewrite list_lookup_insert_ne; [done|]. intros ->. congruence.
Qed.
Lemma run_sound sc S : sound S → sound (run_schedule sc S).
Proof. revert S. induction sc as [|i sc IH]; intros S H; [done|]. by apply IH, sched_sound. Qed.
Lemma start_sound p jobs :
  Forall (Forall orderly) jobs → (paced_now p = true → set (shm p) = REGULAR_PACING_FLAG_SET) → sound (start p jobs).
Proof.
  intros Hj Hp. constructor; [|by auto]. cbn. apply Forall_fmap. eapply Forall_impl; [exact Hj|]. intros js H.
  cbn. split; [constructor|done].
Qed.
Lemma quiet_no_promise S : quiet S → ¬ Exists (λ pr, promises pr = true) (sh_procs S).
Proof.
  intros Hq (pr & Hin & Hp)%Exists_exists. pose proof (proj1 (Forall_forall _ _) Hq _ Hin) as He.
  by destruct pr as [[|] [|]].
Qed.
Lemma reset_releases e es dst p :
  gTuningMode e = true → attached e = true → is_Some (find_dest es dst) → set (shm p) = REGULAR_PACING_FLAG_SET →
  ran (fDoResetPacing2 e es dst p) = ran p ++ [TcNopacing].
Proof. intros Ht Ha [x Hx] Hs. unfold fDoResetPacing2, pacing_set, shm_read. rewrite Hx, Ha, Ht. cbn. rewrite Hs. cbn. by rewrite Hs. Qed.

(** Processes that interleave do not strand a pacing.  Any number of processes
    take in reports, resets, cleanups and Kafka messages, their accesses to the
    record and to the interface in any order; no report with a hop delay is to be
    answered above 34 Gb/s.  When each process has had three accesses a job, all
    have ended, and if the last command set a rate the record says so: the next
    reset from a known destination lifts the pacing. *)
Lemma released p jobs sc e es dst :
  Forall (Forall orderly) jobs → (paced_now p = true → set (shm p) = REGULAR_PACING_FLAG_SET) → fair jobs sc →
  gTuningMode e = true → attached e = true → is_Some (find_dest es dst) →
  let S := run_schedule sc (start p jobs) in
  quiet S ∧
  (paced_now (sh_pacer S) = true →
     set (shm (sh_pacer S)) = REGULAR_PACING_FLAG_SET ∧
     ran (handle (JReset e es dst) (sh_pacer S)) = ran (sh_pacer S) ++ [TcNopacing]).
Proof.
  intros Hj Hp Hf Ht Ha Hd. cbv zeta. pose proof (fair_ends p jobs sc Hf) as Hq. split; [done|].
  pose proof (run_sound sc _ (start_sound p jobs Hj Hp)) as [_ Hr]. intros Hn.
  destruct (Hr Hn) as [Hs|Hx]; [|by apply quiet_no_promise in Hx]. split; [done|]. by apply reset_releases.
Qed.

(** A report and a reset that cross: both read, the reset writes and lifts, the
    report changes the rate and writes. *)
Definition crossing_jobs : list (list job) :=
  [[JReset demo_penv demo_dests 33554442]; [JReport demo_penv demo_dests 600000 33554442]].
Definition crossing_schedule : list nat := [0; 1; 0; 0; 1; 1]%nat.
Lemma fair_crossing : fair crossing_jobs crossing_schedule.
Proof. intros [|[|i]] js E; cbn in E; simplify_eq; cbn; lia. Qed.
Example released_crossing :
  let S := run_schedule crossing_schedule (start paced crossing_jobs) in
  quiet S ∧ ran (sh_pacer S) = ran paced ++ [TcNopacing; TcChange (dofZ 18)] ∧
  ran (handle (JReset demo_penv demo_dests 33554442) (sh_pacer S)) = ran (sh_pacer S) ++ [TcNopacing].
Proof.
  assert (Forall (Forall orderly) crossing_jobs) as Hj.
  { apply Forall_cons_2; [|apply Forall_cons_2; [|apply Forall_nil_2]];
      (apply Forall_cons_2; [split; vm_compute; reflexivity|apply Forall_nil_2]). }
  pose proof (released paced crossing_jobs crossing_schedule demo_penv demo_dests 33554442
    Hj (λ _, eq_refl) fair_crossing eq_refl eq_refl) as H.
  destruct H as [Hq Hr]; [eexists; vm_compute; reflexivity|]. split; [exact Hq|]. split; [vm_compute; reflexivity|].
  apply Hr. vm_compute. reflexivity.
Qed.

(** ** Orders that go wrong *)
(** The same host at 40 Gb/s: its report is answered above 34. *)
Definition surge_penv : penv := mkPenv true 40000 d0_90 (dofZ 40) dzero d0_002 true.
Definition surge_report : job := JReport surge_penv demo_dests 600000 33554442.
Definition calm_report : job := JReport demo_penv demo_dests 600000 33554442.
(** Two reports that cross strand the pacing.  One process answers at 40 Gb/s and
    lifts it, another was forked at 20 Gb/s and sets a rate; in either order, one
    after the other, the record says what was done.  When both commands are run
    before the first process writes, the interface is paced, the record says that
    it is not, and no reset changes that any more. *)
Theorem crossed_reports_strand_pacing :
  let S := run_schedule [0; 1; 0; 1; 1; 0]%nat (start paced [[surge_report]; [calm_report]]) in
  pacer_ok (handle calm_report (handle surge_report paced)) ∧ pacer_ok (handle surge_report (handle calm_report paced)) ∧
  quiet S ∧ last_cmd (sh_pacer S) = Some (TcChange (dofZ 18)) ∧ set (shm (sh_pacer S)) = NOPACING_FLAG_SET ∧
  ∀ e es dst, handle (JReset e es dst) (sh_pacer S) = sh_pacer S.
Proof.
  intros S. assert (shm (sh_pacer S) = mkBack NOPACING_FLAG_SET d40) as Hs by (vm_compute; reflexivity). split_and!.
  - assert (handle calm_report (handle surge_report paced) = store demo_penv (mkBack REGULAR_PACING_FLAG_SET (dofZ 18))
      (run [TcChange (dofZ 18)] (handle surge_report paced))) as -> by (vm_compute; reflexivity).
    apply store_run_agrees; [done|constructor].
  - assert (handle surge_report (handle calm_report paced) = store surge_penv (mkBack NOPACING_FLAG_SET d40)
      (run [TcNopacing] (handle calm_report paced))) as -> by (vm_compute; reflexivity).
    apply store_run_agrees; [done|constructor].
  - apply Forall_cons_2; [|apply Forall_cons_2; [|apply Forall_nil_2]]; vm_compute; reflexivity.
  - vm_compute. reflexivity.
  - by rewrite Hs.
  - intros e es dst. cbn [handle]. unfold fDoResetPacing2, pacing_set, shm_read. rewrite Hs.
    destruct (find_dest es dst); [|done]. destruct (attached e); [|done]. by destruct (gTuningMode e).
Qed.

(** A cleanup that crosses a report: the discipline is removed before the report
    changes its rate, and the record says paced; the next report changes the rate
    of a discipline that is not there. *)
Example cleanup_crossing_report :
  let S := run_schedule [0; 1; 1; 1; 0; 0]%nat (start paced [[calm_report]; [JCleanup demo_penv]]) in
  quiet S ∧ ran (sh_pacer S) = ran paced ++ [TcDel; TcChange (dofZ 18)] ∧
  ran (handle calm_report (sh_pacer S)) = ran (sh_pacer S) ++ [TcChange (dofZ 18)].
Proof.
  split; [apply Forall_cons_2; [|apply Forall_cons_2; [|apply Forall_nil_2]]; vm_compute; reflexivity|].
  split; vm_compute; reflexivity.
Qed.
