(* ===== verification/Listener.v ===== *)
(** * The listener for the peers, and the processes it forks

    [fDoRunGetMessageFromPeer] of user_dtn.c: connection by connection, the peer
    is booked (DtnTables) and a process is forked that takes the connection's
    messages ([process_request], Pacing) with the globals as they are then: its
    copy of the table of destinations does not change any more.  The processes of
    all connections share the record of the pacing (SharedRecord). *)
From Stdlib Require Import ZArith Lia Ascii String.
From stdpp Require Import base gmap strings numbers option list.
From S2P Require Import Prelude CString Dbl Ring Transport DtnTables FlowCounters Timers Pacing Network SharedRecord.
Open Scope Z_scope.

(** ** Connections *)
(** What a connection brings: the answers of [getpeername] and [getsockname], the
    clock, whether [fork] succeeds ([Fork] returns -1 when it does not, and the
    parent closes the connection), the child's globals, and the messages until
    the connection is closed. *)
Record connection := mkConn {
  cn_peer : option Z; cn_sock : option Z; cn_clk : Z; cn_fork : bool; cn_env : penv; cn_msgs : list PeerMsg
}.
Inductive incoming :=
| AcceptFails (errno : Z)                           (* EINTR or another error: on to the next *)
| Accepted (c : connection)
| HouseKeeping (now_src now_dst : nat → Z).         (* the timer's sweep, in between *)

(** The jobs of a process, message by message. *)
Fixpoint jobs_of_messages (e : penv) (es : list sDest_Dtn_IPs_t) (ms : list PeerMsg) (prev_src prev_dst : Z) : list job :=
  match ms with
  | [] => []
  | m :: ms' =>
      let r := decode prev_src prev_dst m in
      jobs_of e es r ++ jobs_of_messages e es ms' (rq_src r) (rq_dst r)
  end.
(** One turn: the tables, and the jobs of the process it forks, if any. *)
Definition listen_step (kafka : bool) (vDebugLevel : Z) (x : incoming) (t : Tables) : res (Tables * list (list job)) :=
  match x with
  | AcceptFails _ => Ret (t, [])
  | HouseKeeping now_src now_dst => Ret (tHouseKeeping_TimerID_Handler now_src now_dst t, [])
  | Accepted c =>
      '(t, acts) ← accept_peer kafka vDebugLevel (cn_peer c) (cn_sock c) (cn_clk c) t;
      Ret (t, if existsb (λ a, match a with ForkProcessRequest => cn_fork c | GetMtuInfoOfDevices _ => false end) acts
              then [jobs_of_messages (cn_env c) (aDest_Dtn_IPs t) (cn_msgs c) 0 0] else [])
  end.
Fixpoint fDoRunGetMessageFromPeer (kafka : bool) (vDebugLevel : Z) (xs : list incoming) (t : Tables)
    : res (Tables * list (list job)) :=
  match xs with
  | [] => Ret (t, [])
  | x :: xs' =>
      '(t, js) ← listen_step kafka vDebugLevel x t;
      '(t, jss) ← fDoRunGetMessageFromPeer kafka vDebugLevel xs' t;
      Ret (t, js ++ jss)
  end.

(** ** Properties *)
(** The jobs are what [process_request] does with the messages. *)
Lemma request_jobs e es ms ps pd p :
  process_request es (((λ m, (e, ReqMsg m)) <$> ms) ++ [(e, ReqClosed)]) ps pd p =
  Ret (foldl (λ p j, handle j p) p (jobs_of_messages e es ms ps pd)).
Proof.
  revert ps pd p. induction ms as [|m ms IH]; intros ps pd p; [done|].
  cbn [fmap list_fmap app process_request jobs_of_messages]. by rewrite IH, foldl_app, dispatch_jobs.
Qed.

(** A connection that was accepted leaves its peer in the table. *)
Lemma find_dest_known es k e a : es !! k = Some e → ed_dest_ip_addr e = a → a ≠ 0 → is_Some (find_dest es a).
Proof.
  revert k. induction es as [|x es IH]; intros [|k] Hk He Ha; cbn in *; try done; simplify_eq.
  - apply Z.eqb_neq in Ha as Ha'. rewrite Ha', Z.eqb_refl. cbn. by eexists.
  - destruct (ed_dest_ip_addr x =? 0); [by eapply IH|]. destruct (negb _); [by eapply IH|by eexists].
Qed.
Lemma booked_is_found t a clk : tables_wf t → a ≠ 0 → dst_abs t !! a = Some clk → is_Some (find_dest (aDest_Dtn_IPs t) a).
Proof.
  intros [_ Wd _ _] Ha Hl. destruct (proj2 (table_abs_known _ _ a Wd Ha)) as (k & e & Hk & He); [by eexists|].
  by eapply find_dest_known.
Qed.
Lemma accepted_named dbg a sock clk t t' acts :
  tables_wf t → a ≠ 0 → accept_peer false dbg (Some a) sock clk t = Ret (t', acts) →
  tables_wf t' ∧ dst_abs t' !! a = Some clk ∧ ∃ acts0, acts = acts0 ++ [ForkProcessRequest].
Proof.
  intros Hwf Ha E.
  destruct (decide (is_Some (dst_abs t !! a) ∨ currently_dest_networks t < MAX_NUM_IP_ATTACHED)) as [Hr|Hr].
  - destruct (accepted_peer_is_booked dbg a sock clk t Hwf Ha Hr) as (t0 & acts0 & E0 & Hwf0 & Habs & _).
    rewrite E0 in E. simplify_eq. split_and!; [done| |by eexists]. rewrite Habs. apply lookup_insert_eq.
  - rewrite eleventh_peer_overruns in E; [done|done|done| |].
    + destruct (dst_abs t !! a) eqn:Ea; [|done]. destruct Hr. left. by eexists.
    + destruct Hwf as [_ [Hl _ Hn] _ _]. pose proof (used_le (aDest_Dtn_IPs t)). unfold MAX_NUM_IP_ATTACHED in *. lia.
Qed.
Lemma accepted_unnamed dbg sock clk t t' acts :
  tables_wf t → accept_peer false dbg None sock clk t = Ret (t', acts) → tables_wf t'.
Proof.
  intros [H1 H2 H3 H4] E. unfold accept_peer in E. cbn [mbind res_bind] in E. by destruct sock; simplify_eq.
Qed.

(** ** Any number of peers *)
Definition conn_ok (c : connection) : Prop :=
  cn_peer c ≠ Some 0 ∧ attached (cn_env c) = true ∧
  dltb d34 (dmul (vGlobal_average_tx_Gbits_per_sec (cn_env c)) (vMaxPacingRate (cn_env c))) = false.
Definition incoming_ok (x : incoming) : Prop := match x with Accepted c => conn_ok c | _ => True end.
Lemma jobs_orderly e es ms ps pd :
  attached e = true → dltb d34 (dmul (vGlobal_average_tx_Gbits_per_sec e) (vMaxPacingRate e)) = false →
  Forall orderly (jobs_of_messages e es ms ps pd).
Proof.
  intros Ha Hr. revert ps pd. induction ms as [|m ms IH]; intros ps pd; [by constructor|]. cbn [jobs_of_messages].
  apply Forall_app_2; [|apply IH]. unfold jobs_of.
  repeat case_match; repeat constructor; cbn [env_of lifting_report]; rewrite ?Hr, ?andb_false_r; done.
Qed.
Lemma listen_step_ok dbg x t t' js :
  tables_wf t → incoming_ok x → listen_step false dbg x t = Ret (t', js) → tables_wf t' ∧ Forall (Forall orderly) js.
Proof.
  intros Hwf Hx E. destruct x as [errno|c|ns nd]; cbn [listen_step incoming_ok] in *; [by simplify_eq| |].
  - destruct Hx as (Hp & Ha & Hr). inv_bind E as [t1 acts] E1. simplify_eq. split.
    + destruct (cn_peer c) as [a|]; [|by eapply accepted_unnamed]. eapply accepted_named in E1 as [? _]; [done|done|congruence].
    + case_match; repeat constructor. by apply jobs_orderly.
  - simplify_eq. split; [by apply house_keeping_wf|constructor].
Qed.
Lemma listener_ok dbg xs t t' jss :
  tables_wf t → Forall incoming_ok xs → fDoRunGetMessageFromPeer false dbg xs t = Ret (t', jss) →
  tables_wf t' ∧ Forall (Forall orderly) jss.
Proof.
  intros Hwf Hxs. revert t t' jss Hwf. induction Hxs as [|x xs Hx _ IH]; intros t t' jss Hwf E; cbn [fDoRunGetMessageFromPeer] in E.
  { simplify_eq. by split. }
  inv_bind E as [t1 js] E1. inv_bind E as [t2 jss2] E2. simplify_eq. destruct (listen_step_ok _ _ _ _ _ Hwf Hx E1) as [Hwf1 Hjs].
  destruct (IH _ _ _ Hwf1 E2) as [Hwf2 Hjss]. split; [done|]. by apply Forall_app_2.
Qed.
Lemma idle_orderly idles : Forall (λ e, attached e = true) idles → Forall orderly (JCleanup <$> idles).
Proof. intros H. apply Forall_fmap. eapply Forall_impl; [exact H|]. done. Qed.
(** A connection that only brings a reset about its own peer. *)
Lemma reset_connection dbg c t a s d seq old :
  tables_wf t → a ≠ 0 → is_Some (dst_abs t !! a) ∨ currently_dest_networks t < MAX_NUM_IP_ATTACHED →
  cn_peer c = Some a → cn_fork c = true → producer_ok (PReset s d) → ntohl d = a →
  cn_msgs c = [wire_of (message_of (PReset s d) seq old)] →
  ∃ t' es, listen_step false dbg (Accepted c) t = Ret (t', [[JReset (cn_env c) es a]]) ∧ is_Some (find_dest es a).
Proof.
  intros Hwf Ha Hroom Hc Hf Hp Hd Hm. cbn [listen_step]. rewrite Hc.
  destruct (accepted_peer_is_booked dbg a (cn_sock c) (cn_clk c) t Hwf Ha Hroom) as (t' & acts & E & Hwf' & Habs & _).
  rewrite E. cbn [mbind res_bind]. exists t', (aDest_Dtn_IPs t'). split.
  - rewrite existsb_app. cbn [existsb]. rewrite Hf, orb_true_r. rewrite Hm. cbn [jobs_of_messages].
    rewrite decode_wire by done. cbn [app]. rewrite <- Hd. done.
  - eapply booked_is_found; [done|done|]. rewrite Habs. apply lookup_insert_eq.
Qed.

(** C8: Peers cannot strand the pacing.  The listener takes any connections, with
    sweeps of the tables in between, and forks a process for each with its own
    copy of the table; the processes and the idle seconds of the main process do
    what they do to the record and the interface in any order, while the share of
    the bit rate stays at or under 34 Gb/s.  When each has had three accesses a
    job, all are at their end; if the interface is paced then, the record says so,
    and the next connection of any peer that finds room in the table and brings a
    reset about that peer lifts the pacing, also when the peer was unknown or
    swept away meanwhile. *)
Theorem peers_cannot_strand_pacing dbg xs t t' jss idles sc p c a s d seq old :
  tables_wf t → Forall incoming_ok xs → fDoRunGetMessageFromPeer false dbg xs t = Ret (t', jss) →
  Forall (λ e, attached e = true) idles → (paced_now p = true → set (shm p) = REGULAR_PACING_FLAG_SET) →
  let jobs := (JCleanup <$> idles) :: jss in fair jobs sc →
  a ≠ 0 → is_Some (dst_abs t' !! a) ∨ currently_dest_networks t' < MAX_NUM_IP_ATTACHED →
  cn_peer c = Some a → cn_fork c = true → gTuningMode (cn_env c) = true → attached (cn_env c) = true →
  producer_ok (PReset s d) → ntohl d = a → cn_msgs c = [wire_of (message_of (PReset s d) seq old)] →
  let S := run_schedule sc (start p jobs) in
  quiet S ∧
  ∃ t'' js, listen_step false dbg (Accepted c) t' = Ret (t'', [js]) ∧
    (paced_now (sh_pacer S) = true →
       set (shm (sh_pacer S)) = REGULAR_PACING_FLAG_SET ∧
       ran (foldl (λ p j, handle j p) (sh_pacer S) js) = ran (sh_pacer S) ++ [TcNopacing]).
Proof.
  intros Hwf Hxs E Hi Hp jobs Hfair Ha Hroom Hc Hf Ht Hat Hpr Hd Hm S. destruct (listener_ok _ _ _ _ _ Hwf Hxs E) as [Hwf' Hjss].
  destruct (reset_connection dbg c t' a s d seq old) as (t'' & es & E' & Hes); [done..|].
  assert (Forall (Forall orderly) jobs) as Hj by (apply Forall_cons_2; [by apply idle_orderly|done]).
  destruct (released p jobs sc (cn_env c) es a Hj Hp Hfair Ht Hat Hes) as [Hq Hr].
  split; [exact Hq|]. exists t'', [JReset (cn_env c) es a]. split; [exact E'|exact Hr].
Qed.

(** Two peers: one reports congestion and is swept away, the other resets its own
    pacing; the report's process reads first and runs last. *)
Definition peer_conn (a : Z) (p : producer) : connection :=
  mkConn (Some a) (Some 16777226) 105 true demo_penv [wire_of (message_of p 1 zero_msg)].
Definition demo_arrivals : list incoming :=
  [Accepted (peer_conn 33554442 demo_report); AcceptFails 4; HouseKeeping (λ _, 500) (λ _, 500);
   Accepted (peer_conn 50331658 (PReset 167772161 167772163))].
Definition demo_schedule : list nat := [1; 2; 0; 0; 0; 2; 2; 1; 1]%nat.
Lemma fair_demo jss : length <$> jss = [1; 1]%nat → fair ([JCleanup demo_penv] :: jss) demo_schedule.
Proof.
  destruct jss as [|j1 [|j2 [|]]]; intros H; try done. injection H as H1 H2.
  intros [|[|[|i]]] js Hj; cbn in Hj; simplify_eq; rewrite ?H1, ?H2; cbn; lia.
Qed.
Lemma peers_cannot_strand_pacing_witness :
  ∃ t' jss, fDoRunGetMessageFromPeer false 1 demo_arrivals demo_tables = Ret (t', jss) ∧
    dst_abs t' !! 33554442 = None ∧
    let S := run_schedule demo_schedule (start pacer_init ([JCleanup demo_penv] :: jss)) in
    ran (sh_pacer S) = [TcInstall (dofZ 18)] ∧
    ∃ t'' js, listen_step false 1 (Accepted (peer_conn 33554442 (PReset 167772161 167772162))) t' = Ret (t'', [js]) ∧
      ran (foldl (λ p j, handle j p) (sh_pacer S) js) = [TcInstall (dofZ 18); TcNopacing].
Proof.
  destruct (fDoRunGetMessageFromPeer false 1 demo_arrivals demo_tables) as [[t' jss]| |] eqn:E;
    [|vm_compute in E; discriminate..].
  assert (E2 := E). vm_compute in E2. injection E2 as Et Ej. exists t', jss. split; [reflexivity|].
  assert (dst_abs t' !! 33554442 = None) as Hgone by (rewrite <- Et; vm_compute; reflexivity).
  split; [exact Hgone|].
  assert (length <$> jss = [1; 1]%nat) as Hl by (rewrite <- Ej; vm_compute; reflexivity).
  pose proof (fair_demo jss Hl) as Hfair.
  destruct (peers_cannot_strand_pacing 1 demo_arrivals demo_tables t' jss [demo_penv] demo_schedule pacer_init
    (peer_conn 33554442 (PReset 167772161 167772162)) 33554442 167772161 167772162 1 zero_msg) as (_ & t'' & js & E'' & H).
  - exact demo_tables_wf.
  - repeat (apply Forall_cons_2; [first [exact I|split_and!; [discriminate|reflexivity|vm_compute; reflexivity]]|]). apply Forall_nil_2.
  - exact E.
  - apply Forall_cons_2; [reflexivity|apply Forall_nil_2].
  - discriminate.
  - exact Hfair.
  - discriminate.
  - right. rewrite <- Et. vm_compute. reflexivity.
  - reflexivity.
  - reflexivity.
  - reflexivity.
  - reflexivity.
  - vm_compute. repeat split; discriminate.
  - vm_compute. reflexivity.
  - reflexivity.
  - assert (ran (sh_pacer (run_schedule demo_schedule (start pacer_init ([JCleanup demo_penv] :: jss)))) = [TcInstall (dofZ 18)]) as Hran
      by (rewrite <- Ej; vm_compute; reflexivity).
    cbv zeta. split; [exact Hran|]. exists t'', js. split; [exact E''|].
    destruct H as [_ Hr]; [unfold paced_now, last_cmd; cbn [fmap list_fmap]; rewrite Hran; reflexivity|].
    etransitivity; [exact Hr|]. cbn [fmap list_fmap]. rewrite Hran. reflexivity.
Defined.
