(* ===== verification/ThreadCopies.v ===== *)
(** * The copies of the shared record

    In the code a handler works on the global [sResetPacingBack]: [shm_read] copies
    the segment into it, the tests read it, the new values are stored in it, and
    [shm_write] copies it back.  SharedRecord leaves the copy out.  Here it is kept,
    one per process, and the handlers are taken apart further: reading, deciding,
    storing, writing and running a command are steps of their own.  For processes
    with one thread the copy makes no difference; two threads of one process can
    hand each other the wrong record. *)
From Stdlib Require Import ZArith Lia Ascii String.
From stdpp Require Import base gmap strings numbers option list.
From S2P Require Import Prelude CString Dbl Ring Transport DtnTables FlowCounters Timers Pacing KafkaConsume Network SharedRecord.
Open Scope Z_scope.

(** ** Threads *)
Inductive instr :=
| IDecide (j : job) (ok : bool)       (* the tests on the copy; [ok] is what [shm_read] answered *)
| ISet (b : sResetPacingBack_t)       (* [sResetPacingBack.set = ..; sResetPacingBack.current_pacing = ..] *)
| IWrite (att : bool)                 (* [shm_write] *)
| IRun (c : tc_cmd).                  (* [system] *)
(** [shm_read(&sResetPacingBack, shm) && sResetPacingBack.set] *)
Definition read_and_set (ok : bool) (copy : sResetPacingBack_t) : option sResetPacingBack_t :=
  if ok then if set copy =? 0 then None else Some copy else None.
Definition instrs_of (a : access) : list instr :=
  match a with Run c => [IRun c] | Note att b => [ISet b; IWrite att] end.
Definition expand (l : list access) : list instr := l ≫= instrs_of.
(** A thread of process [th_proc]; the jobs not begun and what is left of one. *)
Record thread := mkThread { th_proc : nat; th_todo : list job; th_rest : list instr }.
(** One step of a thread, with the copy of its process. *)
Definition thread_step (th : thread) (copy : sResetPacingBack_t) (p : Pacer) : thread * sResetPacingBack_t * Pacer :=
  let k := th_proc th in
  match th_rest th with
  | [] =>
      match th_todo th with
      | [] => (th, copy, p)
      | j :: js =>
          match shm_read (attached (env_of j)) (shm p) with
          | Some b => (mkThread k js [IDecide j true], b, p)
          | None => (mkThread k js [IDecide j false], copy, p)
          end
      end
  | IDecide j ok :: l => (mkThread k (th_todo th) (expand (accesses j (read_and_set ok copy)) ++ l), copy, p)
  | ISet b :: l => (mkThread k (th_todo th) l, b, p)
  | IWrite att :: l => (mkThread k (th_todo th) l, copy, p <| shm := shm_write att copy (shm p) |>)
  | IRun c :: l => (mkThread k (th_todo th) l, copy, run [c] p)
  end.
(** The threads of all processes, and the copy of each process. *)
Record Threads := mkThreads { ts_pacer : Pacer; ts_copies : nat → sResetPacingBack_t; ts_threads : list thread }.
Definition set_copy (k : nat) (b : sResetPacingBack_t) (f : nat → sResetPacingBack_t) : nat → sResetPacingBack_t :=
  λ k', if decide (k' = k) then b else f k'.
Definition turn_of (i : nat) (T : Threads) : Threads :=
  match ts_threads T !! i with
  | None => T
  | Some th =>
      let '(th', copy, p) := thread_step th (ts_copies T (th_proc th)) (ts_pacer T) in
      mkThreads p (set_copy (th_proc th) copy (ts_copies T)) (<[i := th']> (ts_threads T))
  end.
Fixpoint run_threads (sc : list nat) (T : Threads) : Threads :=
  match sc with [] => T | i :: sc' => run_threads sc' (turn_of i T) end.
Definition start_threads (p : Pacer) (copies : nat → sResetPacingBack_t) (jobs : list (nat * list job)) : Threads :=
  mkThreads p copies ((λ kj, mkThread kj.1 kj.2 []) <$> jobs).
Definition all_ended (T : Threads) : Prop := Forall (λ th, th_todo th = [] ∧ th_rest th = []) (ts_threads T).

(** ** One thread per process *)
(** What a thread has left, as accesses to the record and the interface. *)
Inductive left_over (copy : sResetPacingBack_t) : list instr → list access → Prop :=
| lo_same l : left_over copy (expand l) l
| lo_write att l : left_over copy (IWrite att :: expand l) (Note att copy :: l)
| lo_decide j ok : left_over copy [IDecide j ok] (accesses j (read_and_set ok copy)).
Definition mirrors (copies : nat → sResetPacingBack_t) (th : thread) (pr : process) : Prop :=
  th_todo th = todo pr ∧ left_over (copies (th_proc th)) (th_rest th) (rest pr).
Lemma expand_cons a l : expand (a :: l) = instrs_of a ++ expand l.
Proof. done. Qed.
(** A step of the thread is a step of the process it mirrors, or none. *)
Lemma thread_step_mirrors th copy p pr :
  th_todo th = todo pr → left_over copy (th_rest th) (rest pr) →
  let '(th', copy', p') := thread_step th copy p in
  th_proc th' = th_proc th ∧
  ∃ pr', (pr' = pr ∧ p' = p ∨ (pr', p') = micro pr p) ∧ th_todo th' = todo pr' ∧ left_over copy' (th_rest th') (rest pr').
Proof.
  destruct th as [k js l], pr as [js' l']. cbn [th_todo todo th_rest rest]. intros -> Hl. unfold thread_step, micro.
  cbn [th_rest th_todo th_proc todo rest]. destruct Hl as [l'|att l'|j ok].
  - destruct l' as [|a l']; [|rewrite expand_cons; destruct a as [c|att b]; cbn [instrs_of app]].
    + cbn. destruct js' as [|j js'].
      * split; [done|]. eexists. split; [by left|]. split; [done|]. apply (lo_same _ []).
      * unfold pacing_set, shm_read. destruct (attached (env_of j)); (split; [done|]);
          (eexists; split; [right; reflexivity|]); (split; [done|]); cbn [rest todo th_rest].
        -- apply (lo_decide (shm p) j true).
        -- apply (lo_decide copy j false).
    + split; [done|]. eexists. split; [right; reflexivity|]. split; [done|]. apply lo_same.
    + split; [done|]. eexists. split; [left; split; reflexivity|]. split; [done|]. apply lo_write.
  - split; [done|]. eexists. split; [right; reflexivity|]. split; [done|]. apply lo_same.
  - split; [done|]. eexists. split; [left; split; reflexivity|]. split; [done|]. cbn [th_rest rest]. rewrite app_nil_r. apply lo_same.
Qed.

(** *** The simulation *)
Record simulated (T : Threads) (S : Shared) : Prop := {
  si_pacer : ts_pacer T = sh_pacer S;
  si_single : NoDup (th_proc <$> ts_threads T);
  si_mirrors : Forall2 (mirrors (ts_copies T)) (ts_threads T) (sh_procs S)
}.
Lemma proc_insert i th th' (ths : list thread) :
  ths !! i = Some th → th_proc th' = th_proc th → th_proc <$> <[i := th']> ths = th_proc <$> ths.
Proof.
  intros E Hp. rewrite list_fmap_insert. apply list_insert_id. by rewrite list_lookup_fmap, E, Hp.
Qed.
(** The other threads belong to other processes and keep their copies. *)
Lemma mirrors_insert i th th' copy copies ths prs pr' :
  ths !! i = Some th → th_proc th' = th_proc th → NoDup (th_proc <$> ths) → Forall2 (mirrors copies) ths prs →
  th_todo th' = todo pr' → left_over copy (th_rest th') (rest pr') →
  Forall2 (mirrors (set_copy (th_proc th) copy copies)) (<[i := th']> ths) (<[i := pr']> prs).
Proof.
  intros Hi Hp Hnd Hall Ht Hl. pose proof (lookup_lt_Some _ _ _ Hi) as Hlt.
  apply Forall2_same_length_lookup. split; [rewrite !length_insert; by eapply Forall2_length|].
  intros j x y Hx Hy. destruct (decide (j = i)) as [->|Hne].
  - rewrite list_lookup_insert_eq in Hx by done. rewrite list_lookup_insert_eq in Hy by (by rewrite <- (Forall2_length _ _ _ Hall)).
    simplify_eq. split; [done|]. unfold set_copy. by rewrite Hp, decide_True.
  - rewrite list_lookup_insert_ne in Hx by done. rewrite list_lookup_insert_ne in Hy by done. destruct (proj1 (Forall2_same_length_lookup _ _ _) Hall) as [_ H].
    destruct (H j x y Hx Hy) as [H1 H2]. split; [done|]. unfold set_copy. rewrite decide_False; [done|]. intros Heq. apply Hne.
    eapply (NoDup_lookup _ j i (th_proc th)); [done|by rewrite list_lookup_fmap, Hx, <- Heq|by rewrite list_lookup_fmap, Hi].
Qed.
Lemma turn_simulated i T S : simulated T S → simulated (turn_of i T) S ∨ simulated (turn_of i T) (sched i S).
Proof.
  intros [Hp Hnd Hall]. unfold turn_of. destruct (ts_threads T !! i) as [th|] eqn:Hi; [|by left].
  destruct (Forall2_lookup_l _ _ _ _ _ Hall Hi) as (pr & Hpr & Ht & Hl).
  pose proof (thread_step_mirrors th (ts_copies T (th_proc th)) (ts_pacer T) pr Ht Hl) as Hm.
  destruct (thread_step th _ _) as [[th' copy'] p']. destruct Hm as (Hproc & pr' & Hcase & Ht' & Hl').
  destruct Hcase as [[-> ->]|Hstep].
  - left. split; cbn [ts_pacer ts_threads ts_copies]; [done|by erewrite proc_insert|].
    rewrite <- (list_insert_id (sh_procs S) i pr) by done. by eapply mirrors_insert.
  - right. rewrite (sched_some _ _ _ Hpr), <- Hp, <- Hstep.
    split; cbn [ts_pacer ts_threads ts_copies sh_pacer sh_procs fst snd]; [done|by erewrite proc_insert|]. by eapply mirrors_insert.
Qed.
Lemma threads_simulated sc T S : simulated T S → ∃ sc', sublist sc' sc ∧ simulated (run_threads sc T) (run_schedule sc' S).
Proof.
  revert T S. induction sc as [|i sc IH]; intros T S H; [by exists []|]. cbn [run_threads].
  destruct (turn_simulated i T S H) as [H'|H']; destruct (IH _ _ H') as (sc' & Hs & Hsim).
  - exists sc'. split; [by constructor|done].
  - exists (i :: sc'). split; [by constructor|done].
Qed.
Lemma start_simulated p copies jobs : NoDup jobs.*1 → simulated (start_threads p copies jobs) (start p jobs.*2).
Proof.
  intros Hnd. split; cbn [ts_pacer ts_threads ts_copies sh_pacer sh_procs start start_threads]; [done| |].
  - by rewrite <- list_fmap_compose.
  - clear Hnd. induction jobs as [|[k js] jobs IH]; [constructor|]. cbn [fmap list_fmap fst snd]. constructor; [|done].
    split; [done|]. apply (lo_same _ []).
Qed.
Lemma left_over_end copy l l' : left_over copy l l' → l = [] → l' = [].
Proof. intros [l2|att l2|j ok]; [|done..]. by destruct l2 as [|[c|att b] l2]. Qed.
Lemma ended_quiet T S : simulated T S → all_ended T → quiet S.
Proof.
  intros [_ _ Hall] He. apply Forall_lookup. intros i pr Hpr.
  destruct (Forall2_lookup_r _ _ _ _ _ Hall Hpr) as (th & Hth & Ht & Hl).
  destruct (proj1 (Forall_lookup _ _) He _ _ Hth) as [H1 H2]. rewrite H2 in Hl. unfold ended. rewrite <- Ht, H1.
  by rewrite (left_over_end _ _ _ Hl eq_refl).
Qed.

(** C24: For processes with one thread each, as those of the peers are, the copies
    make no difference: whatever the copies hold at first and however the single
    steps interleave, the record, the interface and what the processes have left
    are those of a schedule of accesses, a part of the same turns; when all threads
    are at their end so are the processes of that schedule. *)
Theorem private_copies_are_immaterial p copies jobs sc :
  NoDup jobs.*1 →
  let T := run_threads sc (start_threads p copies jobs) in
  ∃ sc', sublist sc' sc ∧
    let S := run_schedule sc' (start p jobs.*2) in
    sh_pacer S = ts_pacer T ∧ Forall2 (mirrors (ts_copies T)) (ts_threads T) (sh_procs S) ∧ (all_ended T → quiet S).
Proof.
  intros Hnd T. destruct (threads_simulated sc _ _ (start_simulated p copies jobs Hnd)) as (sc' & Hs & Hsim).
  exists sc'. split; [done|]. split_and!; [by destruct Hsim|by destruct Hsim|by apply ended_quiet].
Qed.

(** So the record of single-threaded processes names a pacing that is in force. *)
Lemma single_threads_keep_record p copies jobs sc :
  NoDup jobs.*1 → Forall (Forall orderly) jobs.*2 → (paced_now p = true → set (shm p) = REGULAR_PACING_FLAG_SET) →
  let T := run_threads sc (start_threads p copies jobs) in
  all_ended T → paced_now (ts_pacer T) = true → set (shm (ts_pacer T)) = REGULAR_PACING_FLAG_SET.
Proof.
  intros Hnd Hj Hp T He Hn. destruct (threads_simulated sc _ _ (start_simulated p copies jobs Hnd)) as (sc' & _ & Hsim).
  fold T in Hsim. pose proof (ended_quiet _ _ Hsim He) as Hq. destruct Hsim as [Ep _ _]. rewrite Ep in Hn |- *.
  destruct (run_sound sc' _ (start_sound p jobs.*2 Hj Hp)) as [_ Hr].
  destruct (Hr Hn) as [|Hx]; [done|by apply quiet_no_promise in Hx].
Qed.

Lemma private_copies_are_immaterial_witness :
  let jobs := [(1%nat, [calm_report]); (2%nat, [JReset demo_penv demo_dests 33554442])] in
  let sc := [0; 1; 0; 1; 1; 0; 1; 1; 0; 0; 0; 1; 0]%nat in
  let T := run_threads sc (start_threads paced (λ _, mkBack 0 dzero) jobs) in
  NoDup jobs.*1 ∧ ran (ts_pacer T) = ran paced ++ [TcChange (dofZ 18); TcNopacing] ∧
  ∃ sc', sublist sc' sc ∧
    let S := run_schedule sc' (start paced jobs.*2) in
    sh_pacer S = ts_pacer T ∧ Forall2 (mirrors (ts_copies T)) (ts_threads T) (sh_procs S) ∧ (all_ended T → quiet S).
Proof.
  assert (NoDup [1; 2]%nat) as Hnd by (apply (bool_decide_unpack (NoDup [1; 2]%nat)); vm_compute; exact I).
  split; [exact Hnd|]. split; [vm_compute; reflexivity|].
  apply (private_copies_are_immaterial paced (λ _, mkBack 0 dzero)
    [(1%nat, [calm_report]); (2%nat, [JReset demo_penv demo_dests 33554442])] [0; 1; 0; 1; 1; 0; 1; 1; 0; 0; 0; 1; 0]%nat).
  exact Hnd.
Defined.

(** ** Two threads of one process *)
(** With Kafka no process is forked: the consumer's thread and the bit-rate thread
    are threads of the main process and work on one copy. *)
Definition residual_message : job := JKafka demo_penv kafka_henv det_init "1000000000".
Definition main_threads : list (nat * list job) := [(0%nat, [residual_message]); (0%nat, [JCleanup demo_penv])].
Definition main_schedule : list nat := [0; 0; 0; 0; 1; 1; 0]%nat.

(** The two strand a pacing.  The message of the residual bandwidth installs a
    rate and stores it in the copy; the idle second then reads the record, which is
    still unset, over the copy, and the message writes that back.  One after the
    other, in either order, they agree; of two processes no schedule ends like this.
    Here the interface is paced for good as far as the idle seconds and the messages
    of the peers are concerned: none of them does anything any more. *)
Theorem shared_copy_strands_pacing :
  let T := run_threads main_schedule (start_threads pacer_init (λ _, back_init) main_threads) in
  let p := ts_pacer T in
  pacer_ok (handle (JCleanup demo_penv) (handle residual_message pacer_init)) ∧
  pacer_ok (handle residual_message (handle (JCleanup demo_penv) pacer_init)) ∧
  all_ended T ∧ last_cmd p = Some (TcInstall (kafka_pacing_value (dofZ 20) (dofZ 1))) ∧ set (shm p) = 0 ∧
  (∀ e, handle (JCleanup e) p = p) ∧ ∀ e es dst, handle (JReset e es dst) p = p.
Proof.
  intros T p. assert (shm p = back_init) as Hs by (vm_compute; reflexivity). split_and!.
  - assert (handle (JCleanup demo_penv) (handle residual_message pacer_init) =
      store demo_penv (mkBack 0 dzero) (run [TcDel] (handle residual_message pacer_init))) as -> by (vm_compute; reflexivity).
    apply store_run_agrees; [done|constructor].
  - assert (handle residual_message (handle (JCleanup demo_penv) pacer_init) =
      store demo_penv (mkBack REGULAR_PACING_FLAG_SET (kafka_pacing_value (dofZ 20) (dofZ 1)))
        (run [TcInstall (kafka_pacing_value (dofZ 20) (dofZ 1))] pacer_init)) as -> by (vm_compute; reflexivity).
    apply store_run_agrees; [done|constructor].
  - unfold all_ended. assert (ts_threads T = replicate 2 (mkThread 0 [] [])) as -> by (vm_compute; reflexivity).
    apply Forall_replicate. split; reflexivity.
  - vm_compute. reflexivity.
  - rewrite Hs. reflexivity.
  - intros e. cbn [handle]. unfold fDoCleanupResetPacing2, pacing_set, shm_read. rewrite Hs. by destruct (attached e).
  - intros e es dst. cbn [handle]. unfold fDoResetPacing2, pacing_set, shm_read. rewrite Hs.
    destruct (find_dest es dst); [|done]. by destruct (attached e).
Qed.
