(* ===== verification/Bitrate.v ===== *)
(** * The bit-rate thread

    [fDoRunGetThresholds] of user_dtn.c, one second per round: measure the
    interface's counters, react to an idle link, publish the average rate, set
    the channels back, tune [net.ipv4.tcp_wmem] up or down
    ([check_if_bitrate_too_low]), and track flows of received traffic; and
    [fGetTxBitRate], the measurement the HTTP side asks for.

    Inputs of a round: the counters [bpftrace] prints, the current value of
    [tcp_wmem], and the clock.  The accumulators, the hill-climbing state and
    what is handed to [system] are as in the code; a buffer no one has written
    is [None]. *)
From Stdlib Require Import ZArith Lia Ascii String.
From stdpp Require Import base list strings numbers option relations.
From S2P Require Import Prelude CString Dbl Ring DtnTables FlowCounters Timers Pacing.
Open Scope Z_scope.

Definition BITRATE_INTERVAL := 1.
Definition KTUNING_DELTA := 200000.
Definition MAX_TUNING_APPLY := 10.

(** ** Measuring *)
(** The counter lines after the first: before, and the later samples (tx, rx). *)
Record sample := mkSample { tx_before : Z; rx_before : Z; later : list (Z * Z) }.
(** The last pair whose transmit counter is not zero. *)
Definition last_bytes (l : list (Z * Z)) : Z * Z :=
  foldl (λ acc x, if x.1 =? 0 then acc else x) (0, 0) l.
(** [tx_kbits_per_sec], [rx_kbits_per_sec]: unsigned 64-bit arithmetic. *)
Definition kbits (before last : Z) : Z := u64 (8 * u64 (last - before)) / 1000.
Definition measure (s : sample) : Z * Z :=
  let '(tx, rx) := last_bytes (later s) in (kbits (tx_before s) tx, kbits (rx_before s) rx).

(** ** The thread's variables *)
Record Rates := mkRates {
  average_tx_kbits : double;
  average_tx_Gbits : double;
  average_rx_kbits : double;
  average_rx_Gbits : double;
  check_bitrate_interval : Z;
  vGlobal_tx : double;                       (* vGlobal_average_tx_Gbits_per_sec *)
  vGlobal_rx : double;
  highest_average_tx : double;
  previous_average_tx : double;
  best_wmem_val : option string;
  aApplyDefTunBest : option string;
  applied : bool;
  suggested : Z;
  nothing_done : Z;
  max_apply : Z;
  tune : Z;
  vDidSetChannel : bool;
  vTwiceInaRow : bool
}.
#[export] Instance eta_Rates : Settable Rates := fun r =>
  mkRates (average_tx_kbits r) (average_tx_Gbits r) (average_rx_kbits r) (average_rx_Gbits r)
    (check_bitrate_interval r) (vGlobal_tx r) (vGlobal_rx r) (highest_average_tx r)
    (previous_average_tx r) (best_wmem_val r) (aApplyDefTunBest r) (applied r) (suggested r)
    (nothing_done r) (max_apply r) (tune r) (vDidSetChannel r) (vTwiceInaRow r).
Definition rates_init : Rates :=
  mkRates dzero dzero dzero dzero 0 dzero dzero dzero dzero None None false 0 0 0 1 false false.
Definition zero_averages (r : Rates) : Rates :=
  r <| average_tx_Gbits := dzero |> <| average_tx_kbits := dzero |>
    <| average_rx_kbits := dzero |> <| average_rx_Gbits := dzero |>.

(** What a round reads. *)
Record benv := mkBenv {
  be_debug : Z;                              (* vDebugLevel *)
  be_tuning : bool;                          (* gTuningMode *)
  be_speed : Z;                              (* netDeviceSpeed, Mb/s *)
  be_device : string;                        (* netDevice *)
  be_good : double;                          (* vGoodBitrateValue *)
  be_my_tune_max : Z;
  be_wmem : option (Z * Z * Z);              (* what [sysctl net.ipv4.tcp_wmem] printed *)
  be_combined_only : bool;                   (* netDevice_only_combined_channel_cfg *)
  be_channels : Z * Z * Z;                   (* configured rx, tx, combined channels *)
  be_attached : bool;
  be_phase : workflow_phases;
  be_ms_ctime : string;
  be_src_ip : Z                              (* src_ip_addr.y *)
}.

(** ** Averaging *)
(** Folding one second into the averages; [None] where the value is above the
    speed of the interface and is skipped (the averages are then zeroed). *)
Definition average_step (speed tx_kbits rx_kbits : Z) (r : Rates) : Rates * bool :=
  let r := r <| average_tx_kbits := dadd (average_tx_kbits r) (dofZ tx_kbits) |>
             <| average_rx_kbits := dadd (average_rx_kbits r) (dofZ rx_kbits) |> in
  if BITRATE_INTERVAL <=? check_bitrate_interval r then
    let n := dofZ (check_bitrate_interval r) in
    let txk := ddiv (average_tx_kbits r) n in
    let rxk := ddiv (average_rx_kbits r) n in
    let r := r <| average_tx_kbits := txk |> <| average_tx_Gbits := ddiv txk d1e6 |>
               <| average_rx_kbits := rxk |> <| average_rx_Gbits := ddiv rxk d1e6 |>
               <| check_bitrate_interval := 0 |> in
    if dtruth (average_tx_Gbits r) then
      if dltb (dofZ (Z.quot speed 1000)) (average_tx_Gbits r) then (zero_averages r, false)
      else (r <| average_tx_Gbits := dadd (average_tx_Gbits r) d0_30 |>
              <| average_rx_Gbits := dadd (average_rx_Gbits r) d0_30 |>, true)
    else (r, true)
  else (r, true).

(** ** Setting the channels back *)
Definition channel_cmd (e : benv) : string :=
  let '(rx, tx, comb) := be_channels e in
  if be_combined_only e then "ethtool -L " +:+ be_device e +:+ " combined " +:+ decs comb
  else "ethtool -L " +:+ be_device e +:+ " rx " +:+ decs rx +:+ " tx " +:+ decs tx +:+ "  combined " +:+ decs comb.
(** The condition includes the log level. *)
Definition restore_channels (e : benv) (tx_kbits : Z) (r : Rates) : Rates * list string :=
  if (tx_kbits =? 0) && vDidSetChannel r && (0 <? be_debug e)
  then (r <| vDidSetChannel := false |>, [channel_cmd e]) else (r, []).

(** ** Tuning tcp_wmem: [check_if_bitrate_too_low] *)
Definition wmem_cmd (kmin kdef kmax : Z) : string :=
  "sysctl -w net.ipv4.tcp_wmem=" +:+ dq +:+ dec kmin +:+ " " +:+ decs kdef +:+ " " +:+ dec kmax +:+ dq.
Definition no_stdout (cmd : string) : string := cmd +:+ " >/dev/null".
Definition wmem_activity (e : benv) (cmd : string) : string :=
  be_ms_ctime e +:+ " " +:+ phase2str (be_phase e) +:+ ": ***ACTIVITY=APPLIED TUNING***: " +:+ cmd.
(** The command for the direction [tune]: [inl] a command, [inr tt] nothing to
    do; a third value re-applies the saved one, [Ub] if it was never saved. *)
Definition choose_wmem (tune kmin kdef kmax : Z) (saved : option string) : res (option string) :=
  if tune =? 1 then Ret (Some (wmem_cmd kmin kdef (u32 (kmax + KTUNING_DELTA))))
  else if tune =? 2 then
    if 600000 <? kmax then Ret (Some (wmem_cmd kmin kdef (u32 (kmax - KTUNING_DELTA)))) else Ret None
  else if tune =? 3 then c ← of_opt saved; Ret (Some c)
  else Ret None.
Definition check_if_bitrate_too_low (e : benv) (avg : double) (r : Rates) (fl : Flows)
  : res (Rates * Flows * list string) :=
  if negb (dltb avg (be_good e)) then Ret (r, fl, []) else
  match be_wmem e with
  | None => Ret (r, fl, [])
  | Some (kmin, kdef, kmax) =>
      if be_my_tune_max e =? 0 then Ret (r, fl, []) else
      let high := u32 (be_my_tune_max e) <=? kmax in
      if be_tuning e then
        if high then Ret (r <| nothing_done := 1 |>, fl, []) else
        choice ← choose_wmem (tune r) kmin kdef kmax (aApplyDefTunBest r);
        match choice with
        | None => Ret (r <| nothing_done := 1 |>, fl, [])
        | Some cmd =>
            fl ← record_activity (wmem_activity e cmd) fl;
            Ret (r <| aApplyDefTunBest := Some cmd |> <| applied := true |>, fl, [no_stdout cmd])
        end
      else Ret (if high then r <| nothing_done := 1 |> else r <| suggested := 1 |>, fl, [])
  end.

(** ** Hill climbing *)
(** Direction of the next step, from the averages. *)
Definition climb (r : Rates) : Rates :=
  let avg := average_tx_Gbits r in
  if (tune r =? 3) && dtruth avg then
    r <| tune := 0 |> <| applied := false |> <| nothing_done := 1 |>
  else
    let r := if dleb (highest_average_tx r) avg then
               let r := r <| highest_average_tx := avg |> in
               if applied r then r <| best_wmem_val := aApplyDefTunBest r |> <| max_apply := 0 |> else r
             else r in
    let r := r <| tune := if dltb (previous_average_tx r) (highest_average_tx r) then 1 else 2 |> in
    let r := r <| max_apply := if applied r then max_apply r + 1 else 0 |> in
    let r := if MAX_TUNING_APPLY <=? max_apply r
             then r <| tune := 3 |> <| aApplyDefTunBest := best_wmem_val r |> <| max_apply := 0 |> else r in
    r <| previous_average_tx := avg |>.
(** Whether this round goes on to [check_if_bitrate_too_low], or skips it. *)
Definition pause (r : Rates) : Rates * bool :=
  if negb (suggested r =? 0) then
    if 3 <? suggested r then (r <| suggested := 0 |>, true)
    else (r <| suggested := suggested r + 1 |>, false)
  else if applied r then (r <| applied := false |>, true)
  else if negb (nothing_done r =? 0) then
    if 5 <? nothing_done r then (r <| nothing_done := 0 |>, true)
    else (r <| nothing_done := nothing_done r + 1 |>, false)
  else (r, true).
(** The second component is false where the code jumps to [ck_stage], past the
    tracking of received flows. *)
Definition tune_step (e : benv) (r : Rates) (fl : Flows) : res (Rates * bool * Flows * list string) :=
  let '(r, go) := pause (climb r) in
  if negb go then Ret (zero_averages r, false, fl, []) else
  let r := r <| applied := false |> in
  '(r, fl, cs) ← (if dleb (dofZ 1) (average_tx_Gbits r)
                  then check_if_bitrate_too_low e (average_tx_Gbits r) r fl
                  else Ret (r, fl, []));
  Ret (zero_averages r, true, fl, cs).

(** ** An idle link *)
Definition penv_of (e : benv) : penv :=
  mkPenv (be_tuning e) (be_speed e) dzero dzero dzero dzero (be_attached e).
Definition idle_step (e : benv) (r : Rates) (d : Detector) (p : Pacer) : res (Rates * Detector * Pacer) :=
  d ← idle_detector (vTwiceInaRow r) (be_src_ip e) d;
  Ret (r <| vTwiceInaRow := true |>, d, fDoCleanupResetPacing2 (penv_of e) p).

(** ** One round of [fDoRunGetThresholds] *)
Record Monitor := mkMonitor { mrates : Rates; mdet : Detector; mpacer : Pacer; mnew_traffic : bool }.
Definition round (e : benv) (s : sample) (m : Monitor) : res (Monitor * list string) :=
  let '(tx, rx) := measure s in
  let r := (mrates m) <| check_bitrate_interval := check_bitrate_interval (mrates m) + 1 |> in
  '(r, d, p) ← (if (tx =? 0) && (rx =? 0) then idle_step e r (mdet m) (mpacer m)
                else Ret (r <| vTwiceInaRow := false |>, mdet m, mpacer m));
  let '(r, sane) := average_step (be_speed e) tx rx r in
  '(r, track, fl, cs) ←
    (if negb sane then Ret (r, true, flows d, [])
     else
       let r := if check_bitrate_interval r =? 0
                then r <| vGlobal_tx := average_tx_Gbits r |> <| vGlobal_rx := average_rx_Gbits r |> else r in
       let '(r, cs) := restore_channels e tx r in
       if check_bitrate_interval r =? 0 then
         '(r, track, fl, cs') ← tune_step e r (flows d); Ret (r, track, fl, cs ++ cs')
       else Ret (r, true, flows d, cs));
  '(fl, nt) ← (if track : bool then track_rx_flow rx (mnew_traffic m) fl else Ret (fl, mnew_traffic m));
  Ret (mkMonitor r (d <| flows := fl |>) p nt, cs).
Definition monitor_init : Monitor := mkMonitor rates_init det_init pacer_init false.

(** [fGetTxBitRate]: the same measurement with averages of its own; the new
    [vGlobal_average_tx_Gbits_per_sec], or [None] where it is left as it was. *)
Definition fGetTxBitRate (speed : Z) (s : sample) : option double :=
  let g := ddiv (ddiv (dadd dzero (dofZ (measure s).1)) (dofZ 1)) d1e6 in
  if dtruth g then
    if dltb (dofZ (Z.quot speed 1000)) g then None else Some (dadd g d0_30)
  else Some g.

(** [calculate_delta_for_csv]: seconds since its previous call; the state is
    [now_time] and [last_time]. *)
Definition calculate_delta_for_csv (t : Z) (st : Z * Z) : Z * (Z * Z) :=
  let '(now_time, last_time) := st in
  if now_time =? 0 then (0, (t, last_time)) else (t - now_time, (t, now_time)).

(** ** Facts about the measurement *)
Lemma kbits_exact before last :
  0 ≤ before ≤ last → 8 * (last - before) < 2 ^ 64 → kbits before last = 8 * (last - before) / 1000.
Proof.
  intros [? ?] Hlt. unfold kbits, u64. rewrite (Z.mod_small (last - before)) by lia.
  by rewrite Z.mod_small by lia.
Qed.
Lemma last_bytes_snoc l tx rx : tx ≠ 0 → last_bytes (l ++ [(tx, rx)]) = (tx, rx).
Proof. intros Htx. unfold last_bytes. rewrite foldl_app. cbn. by apply Z.eqb_neq in Htx as ->. Qed.

(** ** Runs *)
Inductive mon_step : Monitor → Monitor → Prop :=
| mon_round e s m m' cs : round e s m = Ret (m', cs) → mon_step m m'.

(** Between rounds the accumulators are zero. *)
Record settled (r : Rates) : Prop := {
  st_tx : average_tx_kbits r = dzero;
  st_rx : average_rx_kbits r = dzero;
  st_txG : average_tx_Gbits r = dzero;
  st_rxG : average_rx_Gbits r = dzero;
  st_interval : check_bitrate_interval r = 0
}.

Lemma check_fields e avg r fl r' fl' cs :
  check_if_bitrate_too_low e avg r fl = Ret (r', fl', cs) →
  vGlobal_tx r' = vGlobal_tx r ∧ check_bitrate_interval r' = check_bitrate_interval r.
Proof.
  unfold check_if_bitrate_too_low. intros E.
  destruct (negb _); [by simplify_eq|]. destruct (be_wmem e) as [[[kmin kdef] kmax]|]; [|by simplify_eq].
  destruct (be_my_tune_max e =? 0); [by simplify_eq|]. destruct (be_tuning e).
  - destruct (_ <=? _); [by simplify_eq|]. inv_bind E as c Hc. destruct c; [|by simplify_eq].
    inv_bind E as f Hf. by simplify_eq.
  - destruct (_ <=? _); by simplify_eq.
Qed.
Lemma climb_fields r :
  vGlobal_tx (climb r) = vGlobal_tx r ∧ check_bitrate_interval (climb r) = check_bitrate_interval r ∧
  average_tx_Gbits (climb r) = average_tx_Gbits r.
Proof.
  unfold climb. destruct ((tune r =? 3) && dtruth (average_tx_Gbits r)); [done|].
  destruct (dleb _ _); [destruct (applied r)|]; cbn; repeat case_match; done.
Qed.
Lemma pause_fields r :
  vGlobal_tx (pause r).1 = vGlobal_tx r ∧ check_bitrate_interval (pause r).1 = check_bitrate_interval r.
Proof. unfold pause. repeat case_match; done. Qed.
Lemma tune_step_fields e r fl r' b fl' cs :
  tune_step e r fl = Ret (r', b, fl', cs) → check_bitrate_interval r = 0 →
  settled r' ∧ vGlobal_tx r' = vGlobal_tx r.
Proof.
  unfold tune_step. intros E Hi. pose proof (climb_fields r) as (C1 & C2 & _).
  pose proof (pause_fields (climb r)) as (P1 & P2).
  destruct (pause (climb r)) as [r1 go]. cbn [fst] in *.
  assert (settled (zero_averages r1) ∧ vGlobal_tx (zero_averages r1) = vGlobal_tx r) as H1
    by (split; [split; cbn; congruence|cbn; congruence]).
  destruct go; cbn [negb] in E; [|by simplify_eq].
  inv_bind E as [[r2 fl2] cs2] H2. simplify_eq.
  assert (vGlobal_tx r2 = vGlobal_tx r ∧ check_bitrate_interval r2 = 0) as [G1 G2].
  { destruct (dleb _ _); [apply check_fields in H2 as [-> ->]; cbn; split; congruence|].
    simplify_eq. cbn. split; congruence. }
  split; [split; cbn; congruence|cbn; congruence].
Qed.

(** The rate published by a round that starts settled. *)
Definition second_rate (s : sample) : double :=
  ddiv (ddiv (dadd dzero (dofZ (measure s).1)) (dofZ 1)) d1e6.
Definition published (speed : Z) (s : sample) (previous : double) : double :=
  let g := second_rate s in
  if negb (dtruth g) then g
  else if dltb (dofZ (Z.quot speed 1000)) g then previous
  else dadd g d0_30.

Lemma average_step_settled speed tx rx r :
  settled r →
  let '(r', sane) := average_step speed tx rx (r <| check_bitrate_interval := 1 |>) in
  let g := ddiv (ddiv (dadd dzero (dofZ tx)) (dofZ 1)) d1e6 in
  check_bitrate_interval r' = 0 ∧ vGlobal_tx r' = vGlobal_tx r ∧
  sane = (negb (dtruth g) || negb (dltb (dofZ (Z.quot speed 1000)) g)) ∧
  (sane = true → average_tx_Gbits r' = if dtruth g then dadd g d0_30 else g) ∧
  (sane = false → settled r').
Proof.
  intros [H1 H2 H3 H4 H5]. unfold average_step.
  cbn -[dadd ddiv dofZ d1e6 d0_30 dtruth dltb]. rewrite H1.
  destruct (dtruth _) eqn:Ht; [|done]. destruct (dltb _ _) eqn:Hl; cbn -[dadd ddiv dofZ d1e6 d0_30 dtruth dltb].
  - by split_and!.
  - done.
Qed.

Lemma restore_fields e tx r :
  let r' := (restore_channels e tx r).1 in
  vGlobal_tx r' = vGlobal_tx r ∧ check_bitrate_interval r' = check_bitrate_interval r.
Proof. unfold restore_channels. by case_match. Qed.

Lemma round_settled e s m m' cs :
  round e s m = Ret (m', cs) → settled (mrates m) →
  settled (mrates m') ∧ vGlobal_tx (mrates m') = published (be_speed e) s (vGlobal_tx (mrates m)).
Proof.
  intros E Hs. unfold round in E. unfold published, second_rate. destruct (measure s) as [tx rx]. cbn [fst].
  rewrite (st_interval _ Hs) in E. change (0 + 1) with 1 in E.
  inv_bind E as [[r1 d1] p1] H1.
  assert (∃ r0, settled r0 ∧ r1 = r0 <| check_bitrate_interval := 1 |> ∧ vGlobal_tx r0 = vGlobal_tx (mrates m)) as (r0 & Hr0 & -> & Hg).
  { destruct ((tx =? 0) && (rx =? 0)).
    - unfold idle_step in H1. inv_bind H1 as d Hd. simplify_eq.
      exists ((mrates m) <| vTwiceInaRow := true |>). split_and!; [|done|done]. destruct Hs; by split.
    - simplify_eq. exists ((mrates m) <| vTwiceInaRow := false |>). split_and!; [|done|done]. destruct Hs; by split. }
  pose proof (average_step_settled (be_speed e) tx rx r0 Hr0) as Ha.
  destruct (average_step (be_speed e) tx rx _) as [r2 sane]. rewrite <- Hg.
  set (g := ddiv (ddiv (dadd dzero (dofZ tx)) (dofZ 1)) d1e6) in *.
  destruct Ha as (A1 & A2 & A3 & A4 & A5).
  inv_bind E as [[[r3 track] fl] cs3] H3. inv_bind E as [fl4 nt] H4. injection E as <- <-. cbn [mrates].
  destruct sane; cbn [negb] in H3.
  - rewrite A1 in H3. cbn [Z.eqb] in H3.
    pose proof (restore_fields e tx (r2 <| vGlobal_tx := average_tx_Gbits r2 |> <| vGlobal_rx := average_rx_Gbits r2 |>)) as HR.
    destruct (restore_channels e tx _) as [r5 cs5]. cbn [fst] in HR. destruct HR as [R1 R2].
    rewrite R2 in H3. cbn in H3. rewrite A1 in H3. cbn [Z.eqb] in H3.
    inv_bind H3 as [[[r6 tr6] fl6] cs6] H6. simplify_eq.
    apply tune_step_fields in H6 as [H7 H8]; [|by rewrite R2]. split; [done|].
    rewrite H8, R1. cbn. rewrite A4 by done. symmetry in A3.
    destruct (dtruth g); cbn in *; [|done]. by apply negb_true_iff in A3 as ->.
  - simplify_eq. split; [by apply A5|]. rewrite A2.
    symmetry in A3. apply orb_false_iff in A3 as [Ht Hd]. apply negb_false_iff in Ht, Hd. by rewrite Ht, Hd.
Qed.

(** ** Properties *)

(** As long as the counters do not go back and a second moves less than
    [2^61] bytes, the measured rate is the difference between the first counter
    line and the last one that is not zero, in kilobits; no 64-bit operation wraps. *)
Theorem measure_exact b rb l tx rx zs :
  tx ≠ 0 → Forall (λ x, x.1 = 0) zs → 0 ≤ b ≤ tx → 0 ≤ rb ≤ rx →
  8 * (tx - b) < 2 ^ 64 → 8 * (rx - rb) < 2 ^ 64 →
  measure (mkSample b rb (l ++ (tx, rx) :: zs)) = (8 * (tx - b) / 1000, 8 * (rx - rb) / 1000).
Proof.
  intros Htx Hzs Hb Hrb H1 H2. unfold measure. cbn [later tx_before rx_before].
  assert (last_bytes (l ++ (tx, rx) :: zs) = (tx, rx)) as ->.
  { replace (l ++ (tx, rx) :: zs) with ((l ++ [(tx, rx)]) ++ zs) by (by rewrite <- app_assoc).
    unfold last_bytes. rewrite foldl_app. fold (last_bytes (l ++ [(tx, rx)])). rewrite last_bytes_snoc by done.
    induction Hzs as [|z zs Hz _ IH]; [done|]. cbn. by rewrite Hz. }
  by rewrite !kbits_exact by lia.
Qed.

Lemma measure_exact_witness :
  measure (mkSample 1000 2000 ([(1500, 2100)] ++ (126000, 2600) :: [(0, 7)])) = (1000, 4).
Proof.
  apply (measure_exact 1000 2000 [(1500, 2100)] 126000 2600 [(0, 7)]); try lia. by apply Forall_singleton.
Defined.

(** C30: Every round publishes the rate of its own second only: whatever happened
    before, [vGlobal_average_tx_Gbits_per_sec] becomes the measured Gb/s plus
    0.30, zero for an idle second, and keeps its value for a rate above the speed
    of the interface. *)
Theorem published_rate_is_this_second e s m m' cs :
  rtc mon_step monitor_init m → round e s m = Ret (m', cs) →
  vGlobal_tx (mrates m') = published (be_speed e) s (vGlobal_tx (mrates m)).
Proof.
  intros Hr E. assert (settled (mrates m)) as Hs; [|by apply (round_settled e s m m' cs)].
  clear E. assert (∀ a b, rtc mon_step a b → settled (mrates a) → settled (mrates b)) as Hind.
  { induction 1 as [|a b c Hst _ IH]; [done|]. intros Ha. apply IH. destruct Hst as [e1 s1 a b cs1 E1].
    by apply round_settled in E1 as [? _]. }
  eapply Hind; [done|]. by split.
Qed.

(** A 100 Gb/s interface in tuning mode. *)
Definition demo_env : benv :=
  mkBenv 1 true 100000 "eth0" (dofZ 97) 67108864 (Some (4096, 87380, 1000000)) false (4, 4, 8) true LEARNING
    "Wed Jun 30 21:49:08.123 2021:" 167772161.
(** A second that transmits [gbit / 10] Gb. *)
Definition demo_second (gbit10 : Z) : sample := mkSample 1000 1000 [(1000 + gbit10 * 12500000, 1000)].
Lemma published_rate_is_this_second_witness :
  ∃ m' cs, round demo_env (demo_second 50) monitor_init = Ret (m', cs) ∧
    vGlobal_tx (mrates m') = dadd (dofZ 5) d0_30.
Proof.
  destruct (round demo_env (demo_second 50) monitor_init) as [[m' cs]| |] eqn:E; [|vm_compute in E; discriminate..].
  exists m', cs. split; [done|].
  rewrite (published_rate_is_this_second demo_env (demo_second 50) monitor_init m' cs); [|apply rtc_refl|done].
  vm_compute. reflexivity.
Defined.

(** Tuning runs a command only in tuning mode, below the good rate and while
    the maximum of [tcp_wmem] is under [my_tune_max]; going up adds 200000 without
    wrapping, going down keeps more than 400000, and otherwise it is the saved
    best value. *)
Theorem wmem_commands_bounded e avg r fl r' fl' cs kmin kdef kmax :
  check_if_bitrate_too_low e avg r fl = Ret (r', fl', cs) →
  be_wmem e = Some (kmin, kdef, kmax) → 0 ≤ be_my_tune_max e < 2 ^ 31 → 0 ≤ kmax < 2 ^ 32 →
  cs = [] ∨
  (be_tuning e = true ∧ dltb avg (be_good e) = true ∧ kmax < be_my_tune_max e ∧ applied r' = true ∧
   ∃ cmd, cs = [no_stdout cmd] ∧ aApplyDefTunBest r' = Some cmd ∧
     ((tune r = 1 ∧ cmd = wmem_cmd kmin kdef (kmax + KTUNING_DELTA)) ∨
      (tune r = 2 ∧ 600000 < kmax ∧ cmd = wmem_cmd kmin kdef (kmax - KTUNING_DELTA)) ∨
      (tune r = 3 ∧ aApplyDefTunBest r = Some cmd))).
Proof.
  unfold check_if_bitrate_too_low. intros E Hw Hm Hk. rewrite Hw in E.
  destruct (dltb avg (be_good e)) eqn:Hg; cbn [negb] in E; [|simplify_eq; by left].
  destruct (be_my_tune_max e =? 0); [simplify_eq; by left|].
  rewrite (u32_small (be_my_tune_max e)) in E by (unfold is_u32; lia).
  destruct (be_tuning e) eqn:Ht; [|simplify_eq; by left].
  destruct (Z.leb_spec (be_my_tune_max e) kmax); [simplify_eq; by left|].
  inv_bind E as c Hc. destruct c as [cmd|]; [|simplify_eq; by left]. inv_bind E as f Hf. simplify_eq.
  right. split_and!; try done. exists cmd. split_and!; try done.
  unfold choose_wmem, KTUNING_DELTA in *.
  destruct (Z.eqb_spec (tune r) 1); [left; simplify_eq; by rewrite u32_small by (unfold is_u32; lia)|right].
  destruct (Z.eqb_spec (tune r) 2).
  - left. destruct (Z.ltb_spec 600000 kmax); [|done]. simplify_eq. by rewrite u32_small by (unfold is_u32; lia).
  - right. destruct (Z.eqb_spec (tune r) 3); [|done]. inv_bind Hc as c Hc'. apply of_opt_Ret in Hc'. by simplify_eq.
Qed.

Lemma wmem_commands_bounded_witness :
  let cmd := wmem_cmd 4096 87380 1200000 in
  ∃ r' fl' cs, check_if_bitrate_too_low demo_env (dofZ 5) rates_init flows_init = Ret (r', fl', cs) ∧
    (cs = [] ∨ (applied r' = true ∧ cs = [no_stdout cmd])).
Proof.
  destruct (check_if_bitrate_too_low demo_env (dofZ 5) rates_init flows_init) as [[[r' fl'] cs]| |] eqn:E;
    [|vm_compute in E; discriminate..].
  exists r', fl', cs. split; [done|].
  destruct (wmem_commands_bounded demo_env (dofZ 5) rates_init flows_init r' fl' cs 4096 87380 1000000 E)
    as [|(_ & _ & _ & Ha & cmd & -> & _ & [[_ ->]|[[? _]|[? _]]])]; try done.
  - by left.
  - right. split; [done|]. reflexivity.
Defined.

(** Once the link has been idle, the next idle second in tuning mode stops
    everything congestion set in motion: no alarm runs, reports are possible
    again, no clean-up is owed to the peer, and the pacing record is cleared. *)
Theorem idle_second_clears e s m m' cs :
  round e s m = Ret (m', cs) → measure s = (0, 0) → vTwiceInaRow (mrates m) = true →
  be_tuning e = true → be_attached e = true →
  vq_TimerIsSet (mdet m') = false ∧ vCanStartEvaluationTimer (mdet m') = true ∧
  vSentPacingOver (mdet m') = false ∧ set (shm (mpacer m')) = 0.
Proof.
  intros E Hm Htw Ht Ha. unfold round in E. rewrite Hm in E. cbn [Z.eqb andb] in E.
  inv_bind E as [[r1 d1] p1] H1. unfold idle_step in H1.
  cbn -[idle_detector fDoCleanupResetPacing2] in H1. rewrite Htw in H1.
  inv_bind H1 as d Hd. simplify_eq.
  assert (vq_TimerIsSet d1 = false ∧ vCanStartEvaluationTimer d1 = true ∧ vSentPacingOver d1 = false) as (D1 & D2 & D3).
  { clear E. unfold idle_detector in Hd. cbv zeta in Hd. rewrite !andb_true_r in Hd.
    set (d0 := if vq_TimerIsSet (mdet m) then _ else _) in Hd.
    assert (vq_TimerIsSet d0 = false) as H0 by (subst d0; by destruct (vq_TimerIsSet (mdet m)) eqn:V).
    clearbody d0. destruct (vCanStartEvaluationTimer d0) eqn:Hc; cbn [negb] in Hd; cbn in Hd; rewrite ?Hc in Hd;
      destruct (vSentPacingOver d0) eqn:Hv; cbn in Hd; rewrite ?Hv, ?andb_true_r in Hd;
      try (inv_bind Hd as r Hr); by simplify_eq. }
  assert (set (shm (fDoCleanupResetPacing2 (penv_of e) (mpacer m))) = 0) as Hp.
  { unfold fDoCleanupResetPacing2, pacing_set, penv_of. cbn. rewrite Ha, Ht. cbn.
    destruct (Z.eqb_spec (set (shm (mpacer m))) 0); done. }
  destruct (average_step (be_speed e) 0 0 _) as [r2 sane].
  inv_bind E as [[[r3 track] fl] cs3] H3. inv_bind E as [fl4 nt] H4. by simplify_eq.
Qed.

(** An alarm is running, a report has been sent and pacing is on. *)
Definition busy_monitor : Monitor :=
  mkMonitor (rates_init <| vTwiceInaRow := true |>)
    (det_init <| vq_TimerIsSet := true |> <| vCanStartEvaluationTimer := false |> <| vSentPacingOver := true |>)
    (mkPacer (mkBack REGULAR_PACING_FLAG_SET d2) [TcInstall d2]) false.
Lemma idle_second_clears_witness :
  ∃ m' cs, round demo_env (mkSample 5 5 [(5, 5)]) busy_monitor = Ret (m', cs) ∧
    vSentPacingOver (mdet m') = false ∧ set (shm (mpacer m')) = 0.
Proof.
  destruct (round demo_env (mkSample 5 5 [(5, 5)]) busy_monitor) as [[m' cs]| |] eqn:E; [|vm_compute in E; discriminate..].
  exists m', cs. split; [done|].
  destruct (idle_second_clears demo_env (mkSample 5 5 [(5, 5)]) busy_monitor m' cs E) as (_ & _ & ? & ?); done.
Defined.

(** Rounds on a list of seconds. *)
Fixpoint rounds (e : benv) (ss : list sample) (m : Monitor) : res Monitor :=
  match ss with [] => Ret m | s :: ss' => '(m, _) ← round e s m; rounds e ss' m end.

(** The hill climbing can run a command it never built: ten applied changes
    that never beat the first average copy [best_wmem_val] before anything was
    stored in it, and the next tuning step hands that buffer to [system]. *)
Theorem best_wmem_used_uninitialised :
  ∃ m, rounds demo_env (demo_second 50 :: replicate 9 (demo_second 49)) monitor_init = Ret m ∧
    best_wmem_val (mrates m) = None ∧ round demo_env (demo_second 49) m = Ub.
Proof.
  destruct (rounds demo_env (demo_second 50 :: replicate 9 (demo_second 49)) monitor_init) as [m| |] eqn:E;
    [|vm_compute in E; discriminate..].
  exists m. vm_compute in E. injection E as <-. split_and!; vm_compute; reflexivity.
Qed.
