(* ===== verification/Retrans.v ===== *)
(** * The retransmission rate

    [doRunFindRetransmissionRate] of user_dtn.c: reads the socket list printed
    by the BPF iterator (/sys/fs/bpf/tcp4), adds up the retransmissions and the
    packets of the sockets of the peer, and averages the rates of the last
    intervals into [vGlobalRetransmissionRate].

    One round is one reading; the lines are an input (what [fgets] with a
    256-byte buffer returns).  [unsigned long] arithmetic is modulo 2^64. *)
From Stdlib Require Import ZArith Lia Ascii String.
From stdpp Require Import base list strings numbers option.
From S2P Require Import Prelude CString Dbl.
Open Scope Z_scope.

Definition NUM_RATES_TO_USE := 10.

(** ** One line *)
(** A digit run copied to [aValue[32]] and terminated: 32 digits or more write
    past the array. *)
Definition digits32 (s : string) : res (string * string) :=
  let '(d, rest) := span isdigit s in
  if 32 <=? strlen d then Ub else Ret (d, rest).
(** [p + n], [Ub] beyond the terminator. *)
Definition skip (n : nat) (s : string) : res string :=
  if strlen s <? Z.of_nat n then Ub else Ret (drop_str n s).
(** The retransmissions and packets of a line of the peer's sockets: [None] for
    other lines; a line without a packet count adds retransmissions only. *)
Definition parse_line (peer buffer : string) : res (option (Z * option Z)) :=
  match strstr buffer peer with
  | None => Ret None
  | Some f =>
      match strstr f "totrt" with
      | None => Ret None
      | Some f =>
          f ← skip 6 f;
          '(d, f) ← digits32 f;
          if strlen d =? 0 then Ret None else
          f ← skip 1 f;
          '(d2, _) ← digits32 f;
          Ret (Some (strtoul d, if strlen d2 =? 0 then None else Some (strtoul d2)))
      end
  end.
Record totals := mkTotals { total_retrans : Z; packets_sent : Z; found : bool }.
Fixpoint sum_lines (peer : string) (ls : list string) (t : totals) : res totals :=
  match ls with
  | [] => Ret t
  | l :: ls' =>
      o ← parse_line peer l;
      sum_lines peer ls'
        match o with
        | None => t
        | Some (r, p) =>
            mkTotals (u64 (total_retrans t + r))
              (match p with Some p => u64 (packets_sent t + p) | None => packets_sent t end) true
        end
  end.

(** ** The thread's variables *)
Record RState := mkRState {
  int_total_retrans : Z;
  int_packets_sent : Z;
  vRateCount : Z;
  fRateArrayDone : bool;
  aSaveRates : list double;
  aSaveIntRetrans : list Z;
  aSaveIntPackets : list Z;
  vGlobalRetransmissionRate : double;
  vAvgRetransmissionRate : double
}.
#[export] Instance eta_RState : Settable RState := fun r =>
  mkRState (int_total_retrans r) (int_packets_sent r) (vRateCount r) (fRateArrayDone r) (aSaveRates r)
    (aSaveIntRetrans r) (aSaveIntPackets r) (vGlobalRetransmissionRate r) (vAvgRetransmissionRate r).
Definition rstate_init : RState :=
  mkRState 0 0 0 false (replicate 10 dzero) (replicate 10 0) (replicate 10 0) dzero dzero.

(** [(a / (double)b) * 100.0] *)
Definition percent (a b : Z) : double := dmul (ddiv (dofZ a) (dofZ b)) d100.
(** The interval since the previous reading: differences (unsigned) while the
    packet total grows, zeros when the transfer ended. *)
Definition interval (t : totals) (r : RState) : Z * Z :=
  if int_packets_sent r <? packets_sent t
  then (u64 (total_retrans t - int_total_retrans r), u64 (packets_sent t - int_packets_sent r))
  else (0, 0).
Definition interval_rate (ir ip : Z) : double := if ip =? 0 then dzero else percent ir ip.
(** Storing the interval in the circular arrays. *)
Definition save (rate : double) (ir ip : Z) (r : RState) : res RState :=
  let '(i, n, full) := if vRateCount r <? NUM_RATES_TO_USE then (vRateCount r, vRateCount r + 1, fRateArrayDone r)
                       else (0, 1, true) in
  rates ← of_opt (zset (aSaveRates r) i rate);
  irs ← of_opt (zset (aSaveIntRetrans r) i ir);
  ips ← of_opt (zset (aSaveIntPackets r) i ip);
  Ret (r <| aSaveRates := rates |> <| aSaveIntRetrans := irs |> <| aSaveIntPackets := ips |>
         <| vRateCount := n |> <| fRateArrayDone := full |>).
(** How many entries the averages use. *)
Definition in_use (r : RState) : Z := if fRateArrayDone r then NUM_RATES_TO_USE else vRateCount r.
Definition sum64 (l : list Z) : Z := foldl (λ a x, u64 (a + x)) 0 l.
Definition sumd (l : list double) : double := foldl dadd dzero l.
Definition averages (r : RState) : double * double :=
  let n := in_use r in
  let k := Z.to_nat n in
  let ir := sum64 (take k (aSaveIntRetrans r)) in
  let ip := sum64 (take k (aSaveIntPackets r)) in
  (if n <=? 0 then dzero else ddiv (sumd (take k (aSaveRates r))) (dofZ n),
   if (n <=? 0) || (ip =? 0) then dzero else ddiv (percent ir ip) (dofZ n)).
(** One reading. *)
Definition retrans_round (peer : string) (ls : list string) (r : RState) : res RState :=
  t ← sum_lines peer ls (mkTotals 0 0 false);
  if found t then
    let '(ir, ip) := interval t r in
    r ← save (interval_rate ir ip) ir ip r;
    let '(avg, int_avg) := averages r in
    Ret (r <| vAvgRetransmissionRate := avg |> <| vGlobalRetransmissionRate := int_avg |>
           <| int_packets_sent := packets_sent t |> <| int_total_retrans := total_retrans t |>)
  else
    Ret (r <| int_total_retrans := 0 |> <| int_packets_sent := 0 |> <| vRateCount := 0 |>
           <| fRateArrayDone := false |>).

(** ** Windows of intervals *)
Fixpoint intervals (prev : Z * Z) (ts : list totals) : list (Z * Z) :=
  match ts with
  | [] => []
  | t :: ts' =>
      (if prev.2 <? packets_sent t then (u64 (total_retrans t - prev.1), u64 (packets_sent t - prev.2)) else (0, 0))
      :: intervals (total_retrans t, packets_sent t) ts'
  end.
Definition last_n {A} (n : nat) (l : list A) : list A := drop (length l - n) l.

Lemma sum64_acc a l : foldl (λ a x, u64 (a + x)) (u64 a) l = u64 (a + foldr Z.add 0 l).
Proof.
  revert a. induction l as [|x l IH]; intros a; cbn; [by rewrite Z.add_0_r|].
  assert (u64 (u64 a + x) = u64 (a + x)) as -> by (unfold u64; by rewrite Zplus_mod_idemp_l).
  rewrite IH. f_equal. lia.
Qed.
Lemma sum64_spec l : sum64 l = u64 (foldr Z.add 0 l).
Proof. exact (sum64_acc 0 l). Qed.
Lemma sum64_perm l l' : l ≡ₚ l' → sum64 l = sum64 l'.
Proof. intros Hp. rewrite !sum64_spec. f_equal. induction Hp; cbn; lia. Qed.

(** What [k] saved intervals leave in the arrays. *)
Record rinv (xs : list (Z * Z)) (r : RState) : Prop := {
  ri_rates : length (aSaveRates r) = 10%nat;
  ri_retr : ring_holds 10 xs.*1 (aSaveIntRetrans r);
  ri_pack : ring_holds 10 xs.*2 (aSaveIntPackets r);
  ri_count : vRateCount r = if decide (xs = []) then 0 else Z.of_nat ((length xs - 1) mod 10 + 1);
  ri_done : fRateArrayDone r = bool_decide (10 < length xs)%nat
}.

Lemma count_index k :
  (0 < k)%nat →
  let n := ((k - 1) mod 10 + 1)%nat in
  (n < 10)%nat ∧ (k mod 10 = n)%nat ∨ (n = 10 ∧ k mod 10 = 0)%nat.
Proof.
  intros Hk n. subst n. pose proof (Nat.div_mod_eq k 10). pose proof (Nat.mod_upper_bound k 10).
  pose proof (Nat.div_mod_eq (k - 1) 10). pose proof (Nat.mod_upper_bound (k - 1) 10). lia.
Qed.

Lemma save_rinv xs rate ir ip r :
  rinv xs r → ∃ r', save rate ir ip r = Ret r' ∧ rinv (xs ++ [(ir, ip)]) r' ∧
    int_total_retrans r' = int_total_retrans r ∧ int_packets_sent r' = int_packets_sent r.
Proof.
  intros [Hl [Hr Hrw] [Hp Hpw] Hc Hd]. unfold save, NUM_RATES_TO_USE.
  assert (∃ i : nat, i = (length xs mod 10)%nat ∧
    (if vRateCount r <? 10 then (vRateCount r, vRateCount r + 1, fRateArrayDone r) else (0, 1, true)) =
    (Z.of_nat i, Z.of_nat ((length xs) mod 10 + 1), bool_decide (10 < length (xs ++ [(ir, ip)]))%nat)) as (i & -> & ->).
  { eexists. split; [done|]. rewrite Hc, Hd, length_app. cbn [length].
    destruct (decide (xs = [])) as [->|Hne]; [done|].
    assert (0 < length xs)%nat by (destruct xs; [done|cbn; lia]).
    pose proof (Nat.div_mod_eq (length xs) 10). pose proof (Nat.mod_upper_bound (length xs) 10).
    destruct (count_index (length xs)) as [[? E]|[E1 E2]]; [lia| |].
    - destruct (Z.ltb_spec (Z.of_nat ((length xs - 1) mod 10 + 1)) 10); [|lia]. f_equal; [f_equal; lia|].
      apply bool_decide_ext. split; [lia|]. intros. destruct (decide (length xs = 10)%nat) as [E'|]; [|lia].
      rewrite E' in E. cbn in E. lia.
    - destruct (Z.ltb_spec (Z.of_nat ((length xs - 1) mod 10 + 1)) 10); [lia|]. rewrite E2.
      rewrite bool_decide_true by lia. done. }
  pose proof (Nat.mod_upper_bound (length xs) 10).
  rewrite !zset_Some by lia. cbn [of_opt mbind res_bind]. rewrite !Nat2Z.id.
  eexists. split; [reflexivity|]. split; [|done].
  assert (ring_holds 10 xs.*1 (aSaveIntRetrans r)) as H1 by (by split).
  assert (ring_holds 10 xs.*2 (aSaveIntPackets r)) as H2 by (by split).
  apply (ring_holds_snoc 10 ltac:(lia) _ _ ir) in H1. apply (ring_holds_snoc 10 ltac:(lia) _ _ ip) in H2.
  rewrite length_fmap in H1, H2.
  split; cbn -[Nat.modulo]; rewrite ?fmap_app; try done.
  - by rewrite length_insert.
  - rewrite decide_False by (by destruct xs). rewrite length_app. cbn [length].
    by rewrite Nat.add_sub.
Qed.

(** The pooled sums run over the last [min k 10] intervals. *)
Lemma averages_window xs r :
  rinv xs r → xs ≠ [] →
  let w := last_n 10 xs in
  (averages r).2 = (if sum64 w.*2 =? 0 then dzero
                    else ddiv (percent (sum64 w.*1) (sum64 w.*2)) (dofZ (Z.of_nat (length w)))).
Proof.
  intros [Hl Hr Hp Hc Hd] Hne w. set (k := length xs) in *.
  assert (0 < k)%nat as Hk by (subst k; destruct xs; [done|cbn; lia]).
  rewrite decide_False in Hc by done.
  assert (in_use r = Z.of_nat (min k 10) ∧ length w = min k 10) as [Hn Hw].
  { split; [|subst w; unfold last_n; rewrite length_drop; lia].
    unfold in_use, NUM_RATES_TO_USE. rewrite Hd. case_bool_decide; [lia|]. rewrite Hc. f_equal.
    pose proof (Nat.div_mod_eq (k - 1) 10). pose proof (Nat.mod_upper_bound (k - 1) 10). lia. }
  assert (∀ ys slots, ring_holds 10 ys slots → length ys = k → sum64 (take (min k 10) slots) = sum64 (last_n 10 ys)) as Hsum.
  { intros ys slots Hh Hy. unfold last_n. rewrite Hy.
    destruct (decide (10 ≤ k)%nat) as [Hge|Hlt].
    - rewrite take_ge by (destruct Hh; lia). apply sum64_perm. rewrite <- Hy at 1.
      apply (ring_holds_perm 10 ltac:(lia)); [done|lia].
    - pose proof (ring_holds_take 10 ltac:(lia) _ _ Hh) as Ht. rewrite Hy in Ht.
      rewrite Nat.mod_small in Ht by lia. replace (k - 1 + 1)%nat with k in Ht by lia.
      replace (min k 10) with k by lia. rewrite Ht by lia. by replace (k - k)%nat with (k - 10)%nat by lia. }
  assert (∀ A (f : Z * Z → A), last_n 10 (f <$> xs) = f <$> w) as Hf.
  { intros A f. unfold w, last_n. by rewrite length_fmap, fmap_drop. }
  unfold averages. rewrite Hn, Nat2Z.id. cbn [snd].
  rewrite (Hsum _ _ Hr), (Hsum _ _ Hp) by (by rewrite length_fmap). rewrite !Hf, Hw.
  destruct (Z.leb_spec (Z.of_nat (min k 10)) 0); [lia|]. done.
Qed.

(** ** Runs of readings *)
Fixpoint readings (peer : string) (lss : list (list string)) (r : RState) : res RState :=
  match lss with [] => Ret r | ls :: lss' => r ← retrans_round peer ls r; readings peer lss' r end.
Definition reading (peer : string) (ls : list string) (t : totals) : Prop :=
  sum_lines peer ls (mkTotals 0 0 false) = Ret t ∧ found t = true.

Lemma retrans_round_rinv peer ls t xs r :
  reading peer ls t → rinv xs r →
  ∃ r', retrans_round peer ls r = Ret r' ∧ rinv (xs ++ [interval t r]) r' ∧
    int_total_retrans r' = total_retrans t ∧ int_packets_sent r' = packets_sent t ∧
    vGlobalRetransmissionRate r' =
      (let w := last_n 10 (xs ++ [interval t r]) in
       if sum64 w.*2 =? 0 then dzero
       else ddiv (percent (sum64 w.*1) (sum64 w.*2)) (dofZ (Z.of_nat (length w)))).
Proof.
  intros [Hsum Hf] Hi. unfold retrans_round. rewrite Hsum. cbn [mbind res_bind]. rewrite Hf.
  destruct (interval t r) as [ir ip] eqn:Hint.
  destruct (save_rinv xs (interval_rate ir ip) ir ip r Hi) as (r1 & -> & Hi1 & _). cbn [mbind res_bind].
  pose proof (averages_window _ _ Hi1) as Ha. destruct (averages r1) as [avg iavg]. cbn [snd] in Ha.
  eexists. split; [reflexivity|]. split_and!; try done.
  - destruct Hi1. by split.
  - apply Ha. by destruct xs.
Qed.

Lemma readings_rinv peer lss ts xs r :
  Forall2 (reading peer) lss ts → rinv xs r →
  ∃ r', readings peer lss r = Ret r' ∧
    rinv (xs ++ intervals (int_total_retrans r, int_packets_sent r) ts) r' ∧
    (lss ≠ [] → vGlobalRetransmissionRate r' =
      (let w := last_n 10 (xs ++ intervals (int_total_retrans r, int_packets_sent r) ts) in
       if sum64 w.*2 =? 0 then dzero
       else ddiv (percent (sum64 w.*1) (sum64 w.*2)) (dofZ (Z.of_nat (length w))))).
Proof.
  intros Hr. revert xs r. induction Hr as [|ls t lss ts Hlt Hr IH]; intros xs r Hi.
  - exists r. cbn. rewrite app_nil_r. done.
  - destruct (retrans_round_rinv peer ls t xs r Hlt Hi) as (r1 & E & Hi1 & T1 & T2 & G).
    destruct (IH _ _ Hi1) as (r' & E' & Hi' & G'). exists r'. cbn [readings]. rewrite E. cbn [mbind res_bind].
    cbn [intervals fst snd]. rewrite T1, T2, <- app_assoc in Hi', G'. cbn [app] in Hi', G'.
    change (if int_packets_sent r <? packets_sent t then _ else _) with (interval t r).
    split_and!; [done..|]. intros _. destruct lss; [|by apply G'].
    inversion Hr; subst. cbn in E'. simplify_eq. exact G.
Qed.

(** ** Properties *)
Definition fresh (r : RState) : Prop :=
  length (aSaveRates r) = 10%nat ∧ length (aSaveIntRetrans r) = 10%nat ∧ length (aSaveIntPackets r) = 10%nat ∧
  vRateCount r = 0 ∧ fRateArrayDone r = false.
Lemma fresh_rinv r : fresh r → rinv [] r.
Proof.
  intros (H1 & H2 & H3 & H4 & H5). split; [done|by apply ring_holds_nil..|done|done].
Qed.

(** C31: After any sequence of readings, the retransmission rate the source acts
    on is 100 times the retransmissions over the packets of the last ten
    intervals, divided once more by the number of those intervals: averaging a
    ratio that is already pooled, it under-reports up to ten times. *)
Theorem global_rate_is_pooled_over_count peer lss ts r :
  fresh r → Forall2 (reading peer) lss ts → lss ≠ [] →
  let w := last_n 10 (intervals (int_total_retrans r, int_packets_sent r) ts) in
  ∃ r', readings peer lss r = Ret r' ∧
    vGlobalRetransmissionRate r' =
      if sum64 w.*2 =? 0 then dzero
      else ddiv (percent (sum64 w.*1) (sum64 w.*2)) (dofZ (Z.of_nat (length w))).
Proof.
  intros Hf Hr Hne w. destruct (readings_rinv peer lss ts [] r Hr (fresh_rinv r Hf)) as (r' & E & _ & G).
  exists r'. split; [done|]. by apply G.
Qed.

(** A line of the iterator for the peer 012E030A. *)
Definition demo_line (retr pk : Z) : string :=
  "  11: 012E030A:8B2E 022E030A:1451 01 04DC97C7:00000000 41 0 totrt " +:+ dec retr +:+ " " +:+ dec pk +:+ nl.
Lemma global_rate_is_pooled_over_count_witness :
  ∃ r', readings "022E030A" [[demo_line 10 1000]; [demo_line 30 2000]] rstate_init = Ret r' ∧
    vGlobalRetransmissionRate r' = ddiv (percent 30 2000) (dofZ 2).
Proof.
  destruct (global_rate_is_pooled_over_count "022E030A" [[demo_line 10 1000]; [demo_line 30 2000]]
              [mkTotals 10 1000 true; mkTotals 30 2000 true] rstate_init) as (r' & E & G); [done| |done|].
  - repeat constructor; vm_compute; reflexivity.
  - exists r'. split; [exact E|]. rewrite G. vm_compute. reflexivity.
Defined.

(** A line the iterator prints for the peer ([... peer ... totrt R P]) is read
    back as exactly R retransmissions and P packets, for all 64-bit counts. *)
Theorem parse_line_reads_counters peer line f retr pk :
  strstr line peer = Some (f +:+ "totrt " +:+ dec retr +:+ " " +:+ dec pk +:+ nl) →
  str_forall (λ d, negb (Ascii.eqb d "t")) f = true →
  0 ≤ retr < 2 ^ 64 → 0 ≤ pk < 2 ^ 64 →
  parse_line peer line = Ret (Some (retr, Some pk)).
Proof.
  intros Hs Hf Hr Hp. unfold parse_line. rewrite Hs, strstr_skip by done.
  change "totrt " with ("totrt" +:+ " "). rewrite <- str_app_assoc, strstr_prefix.
  assert (∀ n c t, 0 ≤ n → isdigit c = false → digits32 (dec n +:+ String c t) = Ret (dec n, String c t)) as Hdig.
  { intros n c t Hn Hc. unfold digits32. rewrite span_stop; [|by apply dec_digits|intros; by simplify_eq].
    pose proof (dec_len n). destruct (Z.leb_spec 32 (strlen (dec n))); [lia|done]. }
  change ("totrt" +:+ (" " +:+ (dec retr +:+ " " +:+ dec pk +:+ nl)))
    with ("totrt " +:+ (dec retr +:+ " " +:+ dec pk +:+ nl)).
  assert (∀ a b, skip (String.length a) (a +:+ b) = Ret b) as Hskip.
  { intros a b. unfold skip. rewrite strlen_app, drop_str_app. pose proof (strlen_nonneg b). unfold strlen in *.
    destruct (Z.ltb_spec (Z.of_nat (String.length a) + Z.of_nat (String.length b)) (Z.of_nat (String.length a))); [lia|done]. }
  rewrite (Hskip "totrt "). cbn [mbind res_bind].
  change (" " +:+ (dec pk +:+ nl)) with (String " " (dec pk +:+ nl)). rewrite Hdig by (done || lia). cbn [mbind res_bind]. pose proof (dec_nonempty retr). pose proof (dec_nonempty pk).
  destruct (Z.eqb_spec (strlen (dec retr)) 0); [lia|].
  change (String " " (dec pk +:+ nl)) with (" " +:+ (dec pk +:+ nl)). rewrite (Hskip " "). cbn [mbind res_bind].
  unfold nl. rewrite Hdig by (done || lia). cbn [mbind res_bind].
  destruct (Z.eqb_spec (strlen (dec pk)) 0); [lia|]. by rewrite !strtoul_dec by done.
Qed.

Lemma parse_line_reads_counters_witness :
  parse_line "022E030A" (demo_line 79 123456) = Ret (Some (79, Some 123456)).
Proof.
  apply (parse_line_reads_counters "022E030A" (demo_line 79 123456)
           "022E030A:1451 01 04DC97C7:00000000 41 0 " 79 123456); try lia; vm_compute; reflexivity.
Defined.

(** When the packet total grows while the retransmission total falls (a socket
    with many retransmissions went away), the interval's retransmissions wrap
    around 2^64 instead of being reset. *)
Theorem interval_retrans_wraps t r :
  int_packets_sent r < packets_sent t → 0 ≤ total_retrans t < int_total_retrans r → int_total_retrans r < 2 ^ 64 →
  (interval t r).1 = 2 ^ 64 - (int_total_retrans r - total_retrans t).
Proof.
  intros Hp Ht Hi. unfold interval. destruct (Z.ltb_spec (int_packets_sent r) (packets_sent t)); [|lia].
  cbn [fst]. unfold u64. symmetry. apply Z.mod_unique with (-1); lia.
Qed.
Lemma interval_retrans_wraps_witness :
  (interval (mkTotals 30 5000 true) (rstate_init <| int_total_retrans := 40 |> <| int_packets_sent := 4000 |>)).1
  = 2 ^ 64 - (40 - 30).
Proof.
  rewrite (interval_retrans_wraps (mkTotals 30 5000 true)
           (rstate_init <| int_total_retrans := 40 |> <| int_packets_sent := 4000 |>)); [reflexivity|cbn; lia..].
Defined.
