(* ===== verification/SocketDump.v ===== *)
(** * The list of sockets

    src/iter/iter_tcp4.bpf.c: the BPF iterator behind /sys/fs/bpf/tcp4, from
    which the retransmission thread takes its counts.  The kernel structures are
    records of the fields the program reads, with the widths of vmlinux.h; the
    kernel's clock, CONFIG_HZ and the text of %pK are parameters.  The text of
    every socket is the result; the theorems read it back with the parser of
    user_dtn.c (Retrans). *)
From Stdlib Require Import ZArith Lia Ascii String.
From stdpp Require Import base strings numbers option list.
From S2P Require Import Prelude CString Lines Retrans.
Open Scope Z_scope.

(** ** Formats *)
Fixpoint spaces (n : nat) : string := match n with O => EmptyString | S n' => String " " (spaces n') end.
(** [%4d], [%5u], [%8d] *)
Definition pad (w : Z) (s : string) : string := spaces (Z.to_nat (w - strlen s)) +:+ s.
(** [%0wX], of a value of at most 64 bits *)
Definition hexpad (w : nat) (x : Z) : string :=
  if x <? 16 ^ Z.of_nat w then hex_go w x EmptyString
  else (span (Ascii.eqb "0") (hex_go 16 x EmptyString)).2.
Example pad_ex : pad 5 "42" = "   42" ∧ hexpad 4 5523 = "1593" ∧ hexpad 8 (2 ^ 36) = "1000000000". Proof. vm_compute. done. Qed.

(** A long. *)
Definition i64 (x : Z) : Z := (x + 2 ^ 63) mod 2 ^ 64 - 2 ^ 63.

(** ** The sockets *)
Record tcp_sock := mkTcpSock {
  inet_daddr : Z;                            (* __be32, as the word in memory *)
  inet_rcv_saddr : Z;
  inet_dport : Z;                            (* __be16 *)
  inet_sport : Z;
  icsk_pending : Z;
  icsk_timeout : Z;
  sk_timer_pprev : bool;                     (* sk_timer.entry.pprev is not null *)
  sk_timer_expires : Z;
  sk_state : Z;
  sk_ack_backlog : Z;
  rcv_nxt : Z;
  copied_seq : Z;
  write_seq : Z;
  snd_una : Z;
  icsk_retransmits : Z;
  icsk_probes_out : Z;
  sk_socket : option Z;                      (* i_ino of its inode *)
  sk_refcnt : Z;
  tp : Z;                                    (* the address of the structure *)
  icsk_rto : Z;
  ack_ato : Z;
  ack_quick : Z;
  ack_pingpong : Z;
  snd_cwnd : Z;
  max_qlen : Z;
  snd_ssthresh : Z;
  total_retrans : Z;
  segs_out : Z
}.
Record tcp_timewait_sock := mkTimewait {
  tw_daddr : Z; tw_rcv_saddr : Z; tw_dport : Z; tw_sport : Z;
  tw_substate : Z; tw_timer_expires : Z; tw_refcnt : Z; tw : Z
}.
Record tcp_request_sock := mkRequest {
  ir_loc_addr : Z; ir_num : Z; ir_rmt_addr : Z; ir_rmt_port : Z;
  rsk_timer_expires : Z; num_timeout : Z; req : Z
}.
Inductive sock_common :=
| Tcp (s : tcp_sock)
| Timewait (s : tcp_timewait_sock)
| Request (s : tcp_request_sock)
| OtherSock.
(** The context of one call: [ctx->sk_common] may be null. *)
Record iter_ctx := mkCtx { sk : option (Z * sock_common); seq_num : Z; uid : Z }.
Definition ICSK_TIME_RETRANS := 1.
Definition ICSK_TIME_PROBE0 := 3.
Definition ICSK_TIME_LOSS_PROBE := 5.
Definition ICSK_TIME_REO_TIMEOUT := 6.
Definition AF_INET := 2.
Definition TCP_LISTEN := 10.
Definition TCP_SYN_RECV := 3.
Definition TCP_INFINITE_SSTHRESH := 0x7fffffff.
Definition TCP_PINGPONG_THRESH := 3.

Section Dump.
Context (CONFIG_HZ : Z) (jiffies : Z) (pK : Z → string).

(** A [clock_t] of the jiffies [x]; [tick_nsec] and the product are u64. *)
Definition jiffies_to_clock_t (x : Z) : Z :=
  let tick_nsec := u64 (1000000000 + CONFIG_HZ / 2) / CONFIG_HZ in
  let user_hz_nsec := 10000000 in
  if tick_nsec mod user_hz_nsec =? 0 then
    if CONFIG_HZ <? 100 then u64 (x * (100 / CONFIG_HZ)) else x / (CONFIG_HZ / 100)
  else u64 (x * tick_nsec) / user_hz_nsec.
Definition jiffies_delta_to_clock_t (delta : Z) : Z := if delta <=? 0 then 0 else jiffies_to_clock_t delta.
Definition sock_i_ino (s : tcp_sock) : Z := default 0 (sk_socket s).
Definition inet_csk_in_pingpong_mode (s : tcp_sock) : bool := TCP_PINGPONG_THRESH <=? ack_pingpong s.
Definition tcp_in_initial_slowstart (s : tcp_sock) : bool := TCP_INFINITE_SSTHRESH <=? snd_ssthresh s.
(** [timer_active] and [timer_expires] *)
Definition timer_of (s : tcp_sock) : Z * Z :=
  if (icsk_pending s =? ICSK_TIME_RETRANS) || (icsk_pending s =? ICSK_TIME_REO_TIMEOUT) ||
     (icsk_pending s =? ICSK_TIME_LOSS_PROBE) then (1, icsk_timeout s)
  else if icsk_pending s =? ICSK_TIME_PROBE0 then (4, icsk_timeout s)
  else if sk_timer_pprev s then (2, sk_timer_expires s)
  else (0, jiffies).
Definition rx_queue_of (s : tcp_sock) : Z :=
  if sk_state s =? TCP_LISTEN then i32 (sk_ack_backlog s) else Z.max 0 (i32 (rcv_nxt s - copied_seq s)).
Definition ends_text (n src srcp dest destp : Z) : string :=
  pad 4 (decs (i32 n)) +:+ ": " +:+ hex8 src +:+ ":" +:+ hexpad 4 srcp +:+ " " +:+ hex8 dest +:+ ":" +:+ hexpad 4 destp +:+ " ".
(** The fields between the addresses and the pointer. *)
Definition state_text (s : tcp_sock) (u : Z) : string :=
  let '(timer_active, timer_expires) := timer_of s in
  hexpad 2 (sk_state s) +:+ " " +:+ hex8 (u32 (write_seq s - snd_una s)) +:+ ":" +:+ hex8 (rx_queue_of s) +:+ " " +:+
  hexpad 2 timer_active +:+ ":" +:+ hexpad 8 (jiffies_delta_to_clock_t (i64 (timer_expires - jiffies))) +:+ " " +:+
  hex8 (icsk_retransmits s) +:+ " " +:+ pad 5 (dec u) +:+ " " +:+ pad 8 (dec (icsk_probes_out s)) +:+ " " +:+
  dec (sock_i_ino s) +:+ " " +:+ decs (sk_refcnt s) +:+ " ".
Definition window_text (s : tcp_sock) : string :=
  dec (jiffies_to_clock_t (icsk_rto s)) +:+ " " +:+ dec (jiffies_to_clock_t (ack_ato s)) +:+ " " +:+
  dec (Z.lor (ack_quick s * 2) (if inet_csk_in_pingpong_mode s then 1 else 0)) +:+ " " +:+ dec (snd_cwnd s) +:+ " " +:+
  decs (if sk_state s =? TCP_LISTEN then max_qlen s
        else if tcp_in_initial_slowstart s then -1 else i32 (snd_ssthresh s)) +:+ " ".
Definition dump_tcp_sock (s : tcp_sock) (u n : Z) : string :=
  ends_text n (inet_rcv_saddr s) (htons (inet_sport s)) (inet_daddr s) (htons (inet_dport s)) +:+
  state_text s u +:+ pK (tp s) +:+ " " +:+ window_text s +:+
  "totrt " +:+ dec (total_retrans s) +:+ " " +:+ dec (segs_out s) +:+ nl.
(** The time-wait line shows 0 for its uid. *)
Definition dump_tw_sock (s : tcp_timewait_sock) (n : Z) : string :=
  ends_text n (tw_rcv_saddr s) (htons (tw_sport s)) (tw_daddr s) (htons (tw_dport s)) +:+
  hexpad 2 (tw_substate s) +:+ " " +:+ hex8 0 +:+ ":" +:+ hex8 0 +:+ " " +:+ hexpad 2 3 +:+ ":" +:+
  hexpad 8 (jiffies_delta_to_clock_t (i64 (tw_timer_expires s - jiffies))) +:+ " " +:+ hex8 0 +:+ " " +:+
  pad 5 (dec 0) +:+ " " +:+ pad 8 (dec 0) +:+ " " +:+ dec 0 +:+ " " +:+ decs (tw_refcnt s) +:+ " " +:+ pK (tw s) +:+ nl.
Definition dump_req_sock (s : tcp_request_sock) (u n : Z) : string :=
  let ttd := Z.max 0 (i64 (rsk_timer_expires s - jiffies)) in
  ends_text n (ir_loc_addr s) (ir_num s) (ir_rmt_addr s) (htons (ir_rmt_port s)) +:+
  hexpad 2 TCP_SYN_RECV +:+ " " +:+ hex8 0 +:+ ":" +:+ hex8 0 +:+ " " +:+ hexpad 2 1 +:+ ":" +:+
  hexpad 8 (jiffies_to_clock_t ttd) +:+ " " +:+ hex8 (num_timeout s) +:+ " " +:+
  pad 5 (decs (i32 u)) +:+ " " +:+ pad 8 (dec 0) +:+ " " +:+ dec 0 +:+ " " +:+ dec 0 +:+ " " +:+ pK (req s) +:+ nl.
Definition header : string :=
  "  sl  local_address rem_address   st tx_queue rx_queue tr tm->when retrnsmt   uid  timeout inode" +:+ nl.
(** The lines one call writes; [seq_num] is cut to 32 bits. *)
Definition dump_tcp4 (c : iter_ctx) : list string :=
  match sk c with
  | None => []
  | Some (family, s) =>
      let n := u32 (seq_num c) in
      (if n =? 0 then [header] else []) ++
      if family =? AF_INET then
        match s with
        | Tcp s => [dump_tcp_sock s (uid c) n]
        | Timewait s => [dump_tw_sock s n]
        | Request s => [dump_req_sock s (uid c) n]
        | OtherSock => []
        end
      else []
  end.
(** What is read from the file: the calls of one session, in order. *)
Definition tcp4 (cs : list iter_ctx) : list string := concat (dump_tcp4 <$> cs).
End Dump.

Definition sock_ex : tcp_sock :=
  mkTcpSock 0x022E030A 0x012E030A 0x5114 0x2E8B 1 1200 false 0 1 0 500 400 81585351 0 0 0 (Some 13297797) 2 0 200 40 20 4 3722 0 500 79 120034.
Example dump_ex : dump_tcp_sock 1000 1000 (λ _, "00000000367a51de") sock_ex 0 11 =
  "  11: 012E030A:8B2E 022E030A:1451 01 04DCE4C7:00000064 01:00000014 00000000     0        0 13297797 2 00000000367a51de 20 4 41 3722 500 totrt 79 120034" +:+ nl.
Proof. vm_compute. done. Qed.

(** ** Reading the file

    [fgets(buffer, 256, pipe)] till the end: pieces of at most 255 characters,
    each ending at a newline if there is one. *)
Fixpoint fgets (n : nat) (s : string) : string * string :=
  match n, s with
  | S n', String c s' => if code c =? 10 then (String c EmptyString, s') else let '(a, b) := fgets n' s' in (String c a, b)
  | _, _ => (EmptyString, s)
  end.
Fixpoint read_lines (fuel : nat) (s : string) : list string :=
  match fuel, s with
  | S f, String _ _ => let '(l, r) := fgets 255 s in l :: read_lines f r
  | _, _ => []
  end.
Definition read_file (s : string) : list string := read_lines (S (String.length s)) s.

(** ** Lemmas: the text *)
(** No field holds a t (of "totrt") or a newline. *)
Definition field_char (c : ascii) : bool := negb (Ascii.eqb c "t") && negb (code c =? 10).
Definition is_field (s : string) : Prop := str_forall field_char s = true.
Lemma is_field_app a b : is_field a → is_field b → is_field (a +:+ b).
Proof. unfold is_field. rewrite str_forall_app. by intros -> ->. Qed.
Lemma field_digits s : str_forall isdigit s = true → is_field s.
Proof.
  apply str_forall_weaken. intros c Hc. apply andb_true_iff. split; apply negb_true_iff.
  - apply Ascii.eqb_neq. intros ->. discriminate Hc.
  - revert Hc. unfold isdigit. zbool; cbn; done || lia.
Qed.
Lemma field_dec n : 0 ≤ n → is_field (dec n).
Proof. intros. by apply field_digits, dec_digits. Qed.
Lemma field_decs n : is_field (decs n).
Proof.
  unfold decs. destruct (Z.ltb_spec n 0); [apply (is_field_app "-"); [done|]|]; apply field_dec; lia.
Qed.
Lemma field_spaces n : is_field (spaces n).
Proof. induction n as [|n IH]; [done|]. exact IH. Qed.
Lemma field_pad w s : is_field s → is_field (pad w s).
Proof. intros. apply is_field_app; [apply field_spaces|done]. Qed.
Lemma field_hex_chr d : 0 ≤ d < 16 → field_char (hex_chr d) = true.
Proof.
  intros Hd. assert (forallb (λ k, field_char (hex_chr k)) (seqZ 0 16) = true) as H by (vm_compute; reflexivity).
  rewrite forallb_forall in H. apply H, list_elem_of_In, elem_of_seqZ. lia.
Qed.
Lemma field_hex_go n x acc : is_field acc → is_field (hex_go n x acc).
Proof.
  revert x acc. induction n as [|n IH]; intros x acc Ha; [done|]. cbn [hex_go]. apply IH. unfold is_field in *. cbn [str_forall].
  by rewrite field_hex_chr by (apply Z.mod_pos_bound; lia).
Qed.
Lemma field_span p s : is_field s → is_field (span p s).2.
Proof. unfold is_field. intros Hs. rewrite <- (span_app p s), str_forall_app in Hs. by apply andb_true_iff in Hs as [_ ?]. Qed.
Lemma field_hexpad w x : is_field (hexpad w x).
Proof. unfold hexpad. case_match; [|apply field_span]; by apply field_hex_go. Qed.
Lemma field_hex8 x : is_field (hex8 x).
Proof. by apply field_hex_go. Qed.
Create HintDb fields discriminated.
#[export] Hint Resolve is_field_app field_dec field_decs field_pad field_hexpad field_hex8 : fields.
Ltac fields := repeat match goal with |- is_field (_ +:+ _) => apply is_field_app end; try reflexivity; auto with fields.
Lemma clock_nonneg hz x : 0 < hz → 0 ≤ x → 0 ≤ jiffies_to_clock_t hz x.
Proof.
  intros Hz Hx. unfold jiffies_to_clock_t. cbv zeta. repeat case_match; try apply Z.mod_pos_bound; try lia.
  - match goal with H : (hz <? 100) = false |- _ => apply Z.ltb_ge in H end. apply Z.div_pos; [done|]. apply Z.div_str_pos. lia.
  - apply Z.div_pos; [apply Z.mod_pos_bound|]; lia.
Qed.

(** [strstr] finds a pattern at or before a place where it is. *)
Lemma strstr_within p pat q : ∃ p1 p2, p = p1 +:+ p2 ∧ strstr (p +:+ (pat +:+ q)) pat = Some (p2 +:+ (pat +:+ q)).
Proof.
  induction p as [|c p (p1 & p2 & E & Es)].
  - exists "", "". split; [done|]. rewrite !str_app_nil_l. apply strstr_prefix.
  - rewrite str_app_cons. cbn [strstr]. destruct (String.prefix pat (String c (p +:+ (pat +:+ q)))).
    + by exists "", (String c p).
    + exists (String c p1), p2. by rewrite str_app_cons, <- E.
Qed.
Lemma strstr_suffix s pat f : strstr s pat = Some f → ∃ p, s = p +:+ f.
Proof.
  induction s as [|c s IH]; cbn [strstr]; case_match; try done.
  - intros [= <-]. by exists "".
  - intros [= <-]. by exists "".
  - intros (p & ->)%IH. by exists (String c p).
Qed.
(** *** Lengths *)
Lemma len_spaces n : strlen (spaces n) = Z.of_nat n.
Proof. induction n as [|n IH]; [done|]. cbn [spaces]. rewrite strlen_cons, IH. lia. Qed.
Lemma len_pad w s : strlen (pad w s) = Z.max w (strlen s).
Proof. unfold pad. rewrite strlen_app, len_spaces. pose proof (strlen_nonneg s). lia. Qed.
Lemma len_hex_go n x acc : strlen (hex_go n x acc) = Z.of_nat n + strlen acc.
Proof. revert x acc. induction n as [|n IH]; intros x acc; [done|]. cbn [hex_go]. rewrite IH, strlen_cons. lia. Qed.
Lemma len_hex8 x : strlen (hex8 x) = 8.
Proof. apply len_hex_go. Qed.
Lemma len_hexpad w x : x < 16 ^ Z.of_nat w → strlen (hexpad w x) = Z.of_nat w.
Proof. intros Hx. unfold hexpad. rewrite (proj2 (Z.ltb_lt _ _) Hx), len_hex_go. change (strlen "") with 0. lia. Qed.
Lemma len_hexpad16 w x : (w ≤ 16)%nat → strlen (hexpad w x) ≤ 16.
Proof.
  intros Hw. unfold hexpad. case_match; [rewrite len_hex_go; change (strlen "") with 0; lia|].
  pose proof (len_hex_go 16 x "") as H1. change (strlen "") with 0 in H1. rewrite <- (span_app (Ascii.eqb "0") (hex_go 16 x "")) in H1.
  rewrite strlen_app in H1. pose proof (strlen_nonneg (span (Ascii.eqb "0") (hex_go 16 x "")).1). lia.
Qed.
Lemma len_decs n : - 2 ^ 31 ≤ n < 2 ^ 31 → strlen (decs n) ≤ 11.
Proof.
  intros Hn. unfold decs. destruct (Z.ltb_spec n 0).
  - rewrite strlen_app. change (strlen "-") with 1. pose proof (dec_len_u32 (- n) ltac:(unfold is_u32; lia)). lia.
  - pose proof (dec_len_u32 n ltac:(unfold is_u32; lia)). lia.
Qed.
Lemma len_dec_small k n : 0 ≤ n < 10 ^ Z.of_nat (S k) → strlen (dec n) ≤ Z.of_nat (S k).
Proof. intros Hn. pose proof (dec_go_len_bound k 20 n "" Hn) as H. change (strlen "") with 0 in H. unfold dec. lia. Qed.
Lemma htons_range x : 0 ≤ htons x < 2 ^ 16.
Proof. unfold htons, le16. pose proof (byte_of_range 0 x). pose proof (byte_of_range 1 x). lia. Qed.
(** From 100 ticks a second on a time in [clock_t] is not longer. *)
Lemma clock_le hz x : 100 ≤ hz ≤ 1000 → 0 ≤ x → jiffies_to_clock_t hz x ≤ x.
Proof.
  intros Hz Hx. unfold jiffies_to_clock_t. cbv zeta. unfold u64. rewrite !(Z.mod_small (1000000000 + hz / 2)) by zdivmod.
  assert (0 ≤ (1000000000 + hz / 2) / hz ≤ 10000000) as Ht.
  { split; [apply Z.div_pos; zdivmod|]. apply Z.lt_succ_r, Z.div_lt_upper_bound; [lia|]. zdivmod. }
  rewrite (proj2 (Z.ltb_ge hz 100)) by lia. case_match.
  - apply Z.div_le_upper_bound; [apply Z.div_str_pos; lia|]. assert (1 ≤ hz / 100) by (apply Z.div_le_lower_bound; lia). nia.
  - revert Ht. generalize ((1000000000 + hz / 2) / hz). intros t Ht. apply Z.div_le_upper_bound; [lia|].
    etrans; [apply Z.mod_le; [apply Z.mul_nonneg_nonneg; lia|done]|]. rewrite Z.mul_comm. apply Z.mul_le_mono_nonneg_r; lia.
Qed.

(** *** Lines *)
Definition not_newline (c : ascii) : bool := negb (code c =? 10).
Definition is_line (l : string) : Prop := ∃ b, l = b +:+ nl ∧ str_forall not_newline b = true ∧ strlen b < 255.
Definition text (ls : list string) : string := foldr String.append EmptyString ls.
Lemma fgets_line n b r :
  str_forall not_newline b = true → strlen b < Z.of_nat n → fgets n (b +:+ (nl +:+ r)) = (b +:+ nl, r).
Proof.
  revert n. induction b as [|c b IH]; intros n Hb Hn; (destruct n as [|n]; [match type of Hn with strlen ?x < _ => pose proof (strlen_nonneg x) end; lia|]).
  - done.
  - rewrite strlen_cons in Hn. cbn [str_forall] in Hb. apply andb_true_iff in Hb as [Hc%negb_true_iff Hb].
    rewrite !str_app_cons. cbn [fgets]. rewrite Hc. by rewrite IH by (done || lia).
Qed.
Lemma read_text ls fuel :
  Forall is_line ls → (String.length (text ls) < fuel)%nat → read_lines fuel (text ls) = ls.
Proof.
  intros Hls. revert fuel. induction Hls as [|l ls (b & -> & Hb & Hl) _ IH]; intros fuel Hf.
  - by destruct fuel.
  - destruct fuel as [|fuel]; [lia|]. cbn [text foldr] in *. fold (text ls) in *.
    replace (String.append (b +:+ nl) (text ls)) with (b +:+ (nl +:+ text ls)) in * by apply str_app_assoc.
    assert (String.length (text ls) < String.length (b +:+ (nl +:+ text ls)))%nat as Hlen.
    { pose proof (strlen_app b (nl +:+ text ls)) as H1. rewrite (strlen_app nl) in H1. pose proof (strlen_nonneg b).
      unfold strlen in *. change (String.length nl) with 1%nat in H1. lia. }
    destruct (b +:+ (nl +:+ text ls)) as [|c t] eqn:E; [cbn in Hlen; lia|]. cbn [read_lines]. rewrite <- E in *.
    rewrite fgets_line by done. f_equal. apply IH. lia.
Qed.
Lemma read_file_text ls : Forall is_line ls → read_file (text ls) = ls.
Proof. intros. apply read_text; [done|lia]. Qed.
(** A line of fields. *)
Lemma field_line b : is_field b → strlen b < 255 → is_line (b +:+ nl).
Proof.
  intros Hb Hl. exists b. split; [done|]. split; [|done]. eapply str_forall_weaken; [|exact Hb].
  unfold field_char. by intros c [_ ?]%andb_true_iff.
Qed.
(** A line without "totrt" counts for nothing. *)
Lemma parse_field peer b : is_field b → parse_line peer (b +:+ nl) = Ret None.
Proof.
  intros Hb. unfold parse_line. destruct (strstr (b +:+ nl) peer) as [f|] eqn:E; [|done].
  apply strstr_suffix in E as (p & E).
  assert (str_forall (λ d, negb (Ascii.eqb d "t")) (b +:+ nl) = true) as Hx.
  { rewrite str_forall_app. apply andb_true_iff. split; [|done].
    eapply str_forall_weaken; [|exact Hb]. unfold field_char. by intros c [? _]%andb_true_iff. }
  rewrite E, str_forall_app in Hx. apply andb_true_iff in Hx as [_ Hx]. rewrite <- (str_app_nil f). by rewrite strstr_skip.
Qed.
Lemma hex8_head x : 0 ≤ x → ∃ d t, 0 ≤ d < 16 ∧ hex8 x = String (hex_chr d) t.
Proof.
  intros Hx. unfold hex8. do 8 (cbn [hex_go]). do 2 eexists. split; [|done]. apply Z.mod_pos_bound. lia.
Qed.
Lemma parse_header w : is_u32 w → parse_line (hex8 w) header = Ret None.
Proof.
  intros Hw. unfold parse_line. unfold is_u32 in Hw. destruct (hex8_head w ltac:(lia)) as (d & t & Hd & ->).
  assert (forallb (λ k, str_forall (λ c, negb (Ascii.eqb c (hex_chr k))) header) (seqZ 0 16) = true) as H by (vm_compute; reflexivity).
  rewrite forallb_forall in H. rewrite <- (str_app_nil header), strstr_skip; [done|]. apply H, list_elem_of_In, elem_of_seqZ. lia.
Qed.

(** A socket with the widths of the kernel's structures; the clock is positive. *)
Record sock_wf (s : tcp_sock) : Prop := {
  sw_daddr : is_u32 (inet_daddr s);
  sw_rcv_saddr : is_u32 (inet_rcv_saddr s);
  sw_state : 0 ≤ sk_state s < 256;
  sw_probes : 0 ≤ icsk_probes_out s < 256;
  sw_ino : match sk_socket s with Some i => 0 ≤ i < 2 ^ 64 | None => True end;
  sw_refcnt : - 2 ^ 31 ≤ sk_refcnt s < 2 ^ 31;
  sw_rto : is_u32 (icsk_rto s);
  sw_ato : is_u32 (ack_ato s);
  sw_quick : 0 ≤ ack_quick s < 256;
  sw_cwnd : is_u32 (snd_cwnd s);
  sw_qlen : - 2 ^ 31 ≤ max_qlen s < 2 ^ 31;
  sw_retrans : is_u32 (total_retrans s);
  sw_segs : is_u32 (segs_out s)
}.

Section Read.
Context (hz jiffies : Z) (pK : Z → string).
Hypothesis hz_range : 100 ≤ hz ≤ 1000.
(** %pK prints sixteen hexadecimal digits. *)
Hypothesis pK_field : ∀ a, is_field (pK a) ∧ strlen (pK a) = 16.
Definition front (s : tcp_sock) (n : Z) : string :=
  pad 4 (decs (i32 n)) +:+ ": " +:+ hex8 (inet_rcv_saddr s) +:+ ":" +:+ hexpad 4 (htons (inet_sport s)) +:+ " ".
Definition back (s : tcp_sock) (u : Z) : string :=
  ":" +:+ hexpad 4 (htons (inet_dport s)) +:+ " " +:+ state_text hz jiffies s u +:+ pK (tp s) +:+ " " +:+ window_text hz s.
Definition counts (s : tcp_sock) : string := "totrt " +:+ (dec (total_retrans s) +:+ (" " +:+ (dec (segs_out s) +:+ nl))).
Lemma dump_split s u n : dump_tcp_sock hz jiffies pK s u n = front s n +:+ (hex8 (inet_daddr s) +:+ (back s u +:+ counts s)).
Proof using. unfold dump_tcp_sock, ends_text, front, back, counts. by rewrite !str_app_assoc. Qed.
Lemma clock_delta_nonneg d : 0 ≤ jiffies_delta_to_clock_t hz d.
Proof using hz_range. unfold jiffies_delta_to_clock_t. destruct (Z.leb_spec d 0); [done|]. apply clock_nonneg; lia. Qed.
Lemma field_front s n : is_field (front s n).
Proof using. unfold front. fields. Qed.
Lemma field_state s u : 0 ≤ u → sock_wf s → is_field (state_text hz jiffies s u).
Proof using.
  intros Hu Hs. unfold state_text. destruct (timer_of jiffies s) as [ta te].
  assert (0 ≤ sock_i_ino s) by (unfold sock_i_ino; pose proof (sw_ino s Hs); destruct (sk_socket s); cbn in *; lia).
  pose proof (sw_probes s Hs). fields; try apply field_pad; apply field_dec; lia.
Qed.
Lemma quick_bound q (b : bool) : 0 ≤ q < 256 → 0 ≤ Z.lor (q * 2) (if b then 1 else 0) < 512.
Proof using.
  intros Hq. assert (0 ≤ Z.lor (q * 2) (if b then 1 else 0)) by (apply Z.lor_nonneg; destruct b; lia). split; [done|].
  destruct (Z.eq_dec (Z.lor (q * 2) (if b then 1 else 0)) 0) as [->|]; [done|].
  apply (Z.log2_lt_pow2 _ 9); [lia|]. rewrite Z.log2_lor by (destruct b; lia). apply Z.max_lub_lt.
  - destruct (Z.eq_dec q 0) as [->|]; [done|]. apply Z.log2_lt_pow2; lia.
  - by destruct b.
Qed.
Lemma field_window s : sock_wf s → is_field (window_text hz s).
Proof using hz_range.
  intros Hs. unfold window_text. pose proof (quick_bound (ack_quick s) (inet_csk_in_pingpong_mode s) (sw_quick s Hs)).
  pose proof (sw_rto s Hs). pose proof (sw_ato s Hs). pose proof (sw_cwnd s Hs). unfold is_u32 in *.
  fields; apply field_dec; try lia; apply clock_nonneg; lia.
Qed.
Lemma field_back s u : 0 ≤ u → sock_wf s → is_field (back s u).
Proof using hz_range pK_field.
  intros Hu Hs. unfold back. destruct (pK_field (tp s)). pose proof (field_state s u Hu Hs). pose proof (field_window s Hs).
  fields.
Qed.
Lemma read_counts s : sock_wf s →
  ∃ f, skip 6 (counts s) = Ret f ∧ (∃ g, digits32 f = Ret (dec (total_retrans s), g) ∧
    ∃ h, skip 1 g = Ret h ∧ digits32 h = Ret (dec (segs_out s), nl)).
Proof using.
  intros Hs. pose proof (sw_retrans s Hs) as Hr. pose proof (sw_segs s Hs) as Hp. unfold is_u32 in *.
  assert (∀ n t, 0 ≤ n < 2 ^ 32 → (∀ c t', t = String c t' → isdigit c = false) → digits32 (dec n +:+ t) = Ret (dec n, t)) as Hd.
  { intros n t Hn Ht. unfold digits32. rewrite span_stop by (auto; apply dec_digits; lia).
    pose proof (dec_len n). by rewrite (proj2 (Z.leb_gt _ _)) by lia. }
  exists (dec (total_retrans s) +:+ (" " +:+ (dec (segs_out s) +:+ nl))). split.
  - unfold skip, counts. rewrite strlen_app. change (strlen "totrt ") with 6. match goal with |- context [strlen ?x] => pose proof (strlen_nonneg x) end.
    rewrite (proj2 (Z.ltb_ge _ _)) by lia. by rewrite (drop_str_app "totrt ").
  - exists (" " +:+ (dec (segs_out s) +:+ nl)). split; [apply Hd; [lia|by intros ?? [= <- _]]|].
    exists (dec (segs_out s) +:+ nl). split; [|apply Hd; [lia|by intros ?? [= <- _]]].
    unfold skip. rewrite strlen_app. change (strlen " ") with 1. match goal with |- context [strlen ?x] => pose proof (strlen_nonneg x) end.
    rewrite (proj2 (Z.ltb_ge _ _)) by lia. done.
Qed.
Lemma parse_counts peer l x s :
  sock_wf s → is_field x → strstr l peer = Some (x +:+ counts s) →
  parse_line peer l = Ret (Some (total_retrans s, Some (segs_out s))).
Proof using.
  intros Hs Hx E. unfold parse_line. rewrite E. destruct (read_counts s Hs) as (f & E1 & g & E2 & h & E3 & E4).
  assert (str_forall (λ d, negb (Ascii.eqb d "t")) x = true) as Hx'
    by (eapply str_forall_weaken; [|exact Hx]; unfold field_char; by intros c [? _]%andb_true_iff).
  rewrite strstr_skip by done. change (counts s) with ("totrt" +:+ drop_str 5 (counts s)) at 1. rewrite strstr_prefix.
  change ("totrt" +:+ drop_str 5 (counts s)) with (counts s). rewrite E1. cbn [mbind res_bind]. rewrite E2. cbn [mbind res_bind].
  pose proof (dec_nonempty (total_retrans s)). pose proof (dec_nonempty (segs_out s)).
  rewrite (proj2 (Z.eqb_neq (strlen (dec (total_retrans s))) 0)) by lia. rewrite E3. cbn [mbind res_bind]. rewrite E4. cbn [mbind res_bind].
  rewrite (proj2 (Z.eqb_neq (strlen (dec (segs_out s))) 0)) by lia.
  pose proof (sw_retrans s Hs). pose proof (sw_segs s Hs). unfold is_u32 in *. by rewrite !strtoul_dec by lia.
Qed.
(** The line of a socket of the peer, read back. *)
Lemma parse_peer s u n :
  0 ≤ u → sock_wf s →
  parse_line (hex8 (inet_daddr s)) (dump_tcp_sock hz jiffies pK s u n) = Ret (Some (total_retrans s, Some (segs_out s))).
Proof using hz_range pK_field.
  intros Hu Hs. rewrite dump_split.
  destruct (strstr_within (front s n) (hex8 (inet_daddr s)) (back s u +:+ counts s)) as (p1 & p2 & E & Es).
  apply (parse_counts _ _ (p2 +:+ (hex8 (inet_daddr s) +:+ back s u)) s Hs); [|by rewrite Es, !str_app_assoc].
  pose proof (field_front s n) as Hf. rewrite E in Hf. unfold is_field in Hf. rewrite str_forall_app in Hf.
  apply andb_true_iff in Hf as [_ Hf]. pose proof (field_back s u Hu Hs). fields.
Qed.
(** *** Every line fits the buffer of the reader *)
Lemma len_state s u : is_u32 u → sock_wf s → strlen (state_text hz jiffies s u) ≤ 103.
Proof using.
  intros Hu Hs. unfold state_text.
  assert (0 ≤ (timer_of jiffies s).1 < 16 ^ 2) as Hta by (unfold timer_of; repeat case_match; cbn; lia).
  destruct (timer_of jiffies s) as [ta te]. cbn [fst] in Hta. rewrite !strlen_app, !len_hex8, !len_pad.
  rewrite (len_hexpad 2 (sk_state s)) by (pose proof (sw_state s Hs); cbn; lia). rewrite (len_hexpad 2 ta) by (cbn; lia).
  pose proof (len_hexpad16 8 (jiffies_delta_to_clock_t hz (i64 (te - jiffies))) ltac:(lia)).
  pose proof (dec_len_u32 u Hu). pose proof (len_dec_small 2 (icsk_probes_out s) ltac:(pose proof (sw_probes s Hs); cbn; lia)).
  pose proof (dec_len (sock_i_ino s)). pose proof (len_decs _ (sw_refcnt s Hs)).
  change (strlen " ") with 1. change (strlen ":") with 1. lia.
Qed.
Lemma len_window s : sock_wf s → strlen (window_text hz s) ≤ 49.
Proof using hz_range.
  intros Hs. unfold window_text. rewrite !strlen_app. change (strlen " ") with 1.
  assert (∀ x, is_u32 x → strlen (dec (jiffies_to_clock_t hz x)) ≤ 10) as Hc.
  { intros x Hx. apply dec_len_u32. unfold is_u32 in *. pose proof (clock_le hz x hz_range). pose proof (clock_nonneg hz x). lia. }
  pose proof (Hc _ (sw_rto s Hs)). pose proof (Hc _ (sw_ato s Hs)). pose proof (dec_len_u32 _ (sw_cwnd s Hs)).
  pose proof (quick_bound (ack_quick s) (inet_csk_in_pingpong_mode s) (sw_quick s Hs)) as Hq.
  match type of Hq with _ ≤ ?v < _ => pose proof (len_dec_small 2 v ltac:(cbn; lia)) end.
  match goal with |- context [decs ?x] => assert (strlen (decs x) ≤ 11) end.
  { apply len_decs. destruct (sk_state s =? TCP_LISTEN); [apply (sw_qlen s Hs)|].
    destruct (tcp_in_initial_slowstart s); [lia|apply i32_range]. }
  lia.
Qed.
Lemma len_ends n src srcp dest destp :
  0 ≤ srcp < 2 ^ 16 → 0 ≤ destp < 2 ^ 16 → strlen (ends_text n src srcp dest destp) ≤ 41.
Proof using.
  intros Hs Hd. unfold ends_text. rewrite !strlen_app, !len_hex8, len_pad, !len_hexpad by (cbn; lia).
  pose proof (len_decs _ (i32_range n)). change (strlen ": ") with 2. change (strlen ":") with 1. change (strlen " ") with 1. lia.
Qed.
Lemma len_tcp s u n : is_u32 u → sock_wf s → strlen (dump_tcp_sock hz jiffies pK s u n) ≤ 238.
Proof using hz_range pK_field.
  intros Hu Hs. unfold dump_tcp_sock. rewrite !strlen_app.
  pose proof (len_ends n (inet_rcv_saddr s) _ (inet_daddr s) _ (htons_range (inet_sport s)) (htons_range (inet_dport s))).
  pose proof (len_state s u Hu Hs). pose proof (len_window s Hs). destruct (pK_field (tp s)).
  pose proof (dec_len_u32 _ (sw_retrans s Hs)). pose proof (dec_len_u32 _ (sw_segs s Hs)).
  change (strlen "totrt ") with 6. change (strlen nl) with 1. change (strlen " ") with 1. lia.
Qed.
(** *** The file *)
Definition ctx_ok (c : iter_ctx) : Prop :=
  is_u32 (uid c) ∧
  match sk c with
  | Some (_, Tcp s) => sock_wf s
  | Some (_, Timewait s) => 0 ≤ tw_substate s < 256 ∧ - 2 ^ 31 ≤ tw_refcnt s < 2 ^ 31
  | Some (_, Request s) => 0 ≤ ir_num s < 2 ^ 16
  | _ => True
  end.
Lemma line_tcp s u n : is_u32 u → sock_wf s → is_line (dump_tcp_sock hz jiffies pK s u n).
Proof using hz_range pK_field.
  intros Hu Hs. pose proof (len_tcp s u n Hu Hs) as Hl. rewrite dump_split in *. unfold counts in *.
  assert (∀ a b c d e f, a +:+ (b +:+ (c +:+ ("totrt " +:+ (d +:+ (e +:+ (f +:+ nl)))))) =
    (a +:+ (b +:+ (c +:+ ("totrt " +:+ (d +:+ (e +:+ f)))))) +:+ nl) as Hsplit by (intros; by rewrite !str_app_assoc).
  rewrite Hsplit in *. eexists. split; [done|]. rewrite strlen_app in Hl. change (strlen nl) with 1 in Hl. split; [|lia].
  pose proof (field_front s n) as H1. pose proof (field_hex8 (inet_daddr s)) as H2. pose proof (field_back s u (proj1 Hu) Hs) as H3.
  pose proof (field_dec _ (proj1 (sw_retrans s Hs))) as H4. pose proof (field_dec _ (proj1 (sw_segs s Hs))) as H5.
  assert (∀ x, is_field x → str_forall not_newline x = true) as Hw
    by (intros x; apply str_forall_weaken; unfold field_char; by intros c [_ ?]%andb_true_iff).
  by rewrite !str_forall_app, (Hw _ H1), (Hw _ H2), (Hw _ H3), (Hw _ H4), (Hw _ H5).
Qed.
(** The two short lines, without their newline. *)
Lemma short_tw s n :
  0 ≤ tw_substate s < 256 → - 2 ^ 31 ≤ tw_refcnt s < 2 ^ 31 →
  ∃ b, dump_tw_sock hz jiffies pK s n = b +:+ nl ∧ is_field b ∧ strlen b < 255.
Proof using hz_range pK_field.
  intros Hs Hr. unfold dump_tw_sock. eexists. split; [by rewrite !str_app_assoc|]. destruct (pK_field (tw s)). split.
  - unfold ends_text. fields; apply field_pad, field_dec; lia.
  - pose proof (len_ends n (tw_rcv_saddr s) _ (tw_daddr s) _ (htons_range (tw_sport s)) (htons_range (tw_dport s))).
    rewrite !strlen_app, !len_hex8, !len_pad, (len_hexpad 2 (tw_substate s)), (len_hexpad 2 3) by (cbn; lia).
    pose proof (len_hexpad16 8 (jiffies_delta_to_clock_t hz (i64 (tw_timer_expires s - jiffies))) ltac:(lia)).
    pose proof (len_decs _ Hr). change (strlen " ") with 1. change (strlen ":") with 1. change (strlen (dec 0)) with 1. lia.
Qed.
Lemma short_req s u n :
  0 ≤ ir_num s < 2 ^ 16 → ∃ b, dump_req_sock hz jiffies pK s u n = b +:+ nl ∧ is_field b ∧ strlen b < 255.
Proof using hz_range pK_field.
  intros Hs. unfold dump_req_sock. eexists. split; [by rewrite !str_app_assoc|]. destruct (pK_field (req s)). split.
  - unfold ends_text. fields.
  - pose proof (len_ends n (ir_loc_addr s) _ (ir_rmt_addr s) _ Hs (htons_range (ir_rmt_port s))).
    rewrite !strlen_app, !len_hex8, !len_pad, (len_hexpad 2 TCP_SYN_RECV), (len_hexpad 2 1) by done.
    pose proof (len_hexpad16 8 (jiffies_to_clock_t hz (Z.max 0 (i64 (rsk_timer_expires s - jiffies)))) ltac:(lia)).
    pose proof (len_decs _ (i32_range u)). change (strlen " ") with 1. change (strlen ":") with 1. change (strlen (dec 0)) with 1. lia.
Qed.
Lemma dump_lines c : ctx_ok c → Forall is_line (dump_tcp4 hz jiffies pK c).
Proof using hz_range pK_field.
  intros [Hu Hc]. unfold dump_tcp4. destruct (sk c) as [[f s]|]; [|constructor]. apply Forall_app. split.
  - destruct (u32 (seq_num c) =? 0); constructor; [|constructor]. eexists. split; [reflexivity|]. by split.
  - destruct (f =? AF_INET); [|constructor]. destruct s as [s|s|s|]; constructor; try constructor; [by apply line_tcp| |].
    + destruct (short_tw s (u32 (seq_num c)) (proj1 Hc) (proj2 Hc)) as (b & -> & Hb & Hl). by apply field_line.
    + destruct (short_req s (uid c) (u32 (seq_num c)) Hc) as (b & -> & Hb & Hl). by apply field_line.
Qed.

(** *** The counts of the peer *)
(** The established sockets of a session, and those of one peer. *)
Definition tcp_socks (cs : list iter_ctx) : list tcp_sock :=
  omap (λ c, match sk c with Some (f, Tcp s) => if f =? AF_INET then Some s else None | _ => None end) cs.
Definition of_peer (w : Z) (cs : list iter_ctx) : list tcp_sock := filter (λ s, inet_daddr s = w) (tcp_socks cs).
Definition add_counts (t : totals) (s : tcp_sock) : totals :=
  mkTotals (u64 (Retrans.total_retrans t + total_retrans s)) (u64 (packets_sent t + segs_out s)) true.
(** No line of another host's socket shows the peer's address. *)
Definition unmentioned (w : Z) (c : iter_ctx) : Prop :=
  match sk c with
  | Some (f, Tcp s) => inet_daddr s ≠ w → strstr (dump_tcp_sock hz jiffies pK s (uid c) (u32 (seq_num c))) (hex8 w) = None
  | _ => True
  end.
Lemma sum_app peer l1 l2 t : sum_lines peer (l1 ++ l2) t = (t' ← sum_lines peer l1 t; sum_lines peer l2 t').
Proof using.
  revert t. induction l1 as [|l l1 IH]; intros t; [done|]. cbn [app sum_lines]. destruct (parse_line peer l); [|done..]. apply IH.
Qed.
Lemma sum_nothing peer l t : parse_line peer l = Ret None → sum_lines peer [l] t = Ret t.
Proof using. intros E. cbn [sum_lines]. by rewrite E. Qed.
Lemma sum_ctx w c t :
  is_u32 w → ctx_ok c → unmentioned w c →
  sum_lines (hex8 w) (dump_tcp4 hz jiffies pK c) t = Ret (foldl add_counts t (of_peer w [c])).
Proof using hz_range pK_field.
  intros Hw [Hu Hc] Hq. unfold dump_tcp4, of_peer, tcp_socks, unmentioned in *. cbn [omap list_omap].
  destruct (sk c) as [[f s]|]; [|done]. rewrite sum_app.
  assert (sum_lines (hex8 w) (if u32 (seq_num c) =? 0 then [header] else []) t = Ret t) as ->.
  { destruct (u32 (seq_num c) =? 0); [|done]. by apply sum_nothing, parse_header. }
  cbn [mbind res_bind]. destruct (f =? AF_INET); [|by destruct s].
  destruct s as [s|s|s|]; [|rewrite sum_nothing; [done|]..|done].
  - rewrite filter_cons. destruct (decide (inet_daddr s = w)) as [<-|Hne].
    + cbn [sum_lines]. by rewrite parse_peer by (done || apply Hu).
    + apply sum_nothing. unfold parse_line. by rewrite Hq.
  - destruct (short_tw s (u32 (seq_num c)) (proj1 Hc) (proj2 Hc)) as (b & -> & Hb & _). by apply parse_field.
  - destruct (short_req s (uid c) (u32 (seq_num c)) Hc) as (b & -> & Hb & _). by apply parse_field.
Qed.
Lemma sum_session w cs t :
  is_u32 w → Forall ctx_ok cs → Forall (unmentioned w) cs →
  sum_lines (hex8 w) (tcp4 hz jiffies pK cs) t = Ret (foldl add_counts t (of_peer w cs)).
Proof using hz_range pK_field.
  intros Hw Hok. revert t. unfold tcp4. induction Hok as [|c cs Hc _ IH]; intros t; [done|]. intros [Hq Hqs]%Forall_cons.
  rewrite fmap_cons. cbn [concat]. rewrite sum_app, sum_ctx by done. cbn [mbind res_bind]. rewrite IH by done. f_equal.
  rewrite <- foldl_app. f_equal. unfold of_peer, tcp_socks. rewrite <- filter_app. f_equal. by rewrite <- (omap_app _ [c] cs).
Qed.
End Read.
Lemma add_counts_sum ss t :
  foldl add_counts t ss =
  match ss with
  | [] => t
  | _ => mkTotals (u64 (Retrans.total_retrans t + foldr (λ s x, total_retrans s + x) 0 ss))
                  (u64 (packets_sent t + foldr (λ s x, segs_out s + x) 0 ss)) true
  end.
Proof.
  assert (Hmod : ∀ a b, u64 (u64 a + b) = u64 (a + b)) by (intros; unfold u64; by rewrite Zplus_mod_idemp_l).
  revert t. induction ss as [|s ss IH]; intros t; [done|]. cbn [foldl]. rewrite IH. destruct ss as [|s' ss].
  - unfold add_counts. cbn [foldr]. by rewrite !Z.add_0_r.
  - unfold add_counts. cbn [Retrans.total_retrans packets_sent]. rewrite !Hmod.
    generalize (s' :: ss). intros l. cbn [foldr]. by rewrite !Z.add_assoc.
Qed.
(** A send queue that is the peer's address in hexadecimal makes the socket of
    another host count as the peer's. *)
Example stray_socket :
  let s := mkTcpSock 0x0A0B0C0D 0x012E030A 0x5114 0x2E8B 1 1200 false 0 1 0 500 400 0x022E030A 0 0 0 (Some 5) 2 0 200 40 20 4 3722 0 500 79 120034 in
  parse_line (hex8 0x022E030A) (dump_tcp_sock 1000 1000 (λ _, "00000000367a51de") s 0 11) = Ret (Some (79, Some 120034)).
Proof. vm_compute. done. Qed.

(** ** Theorems *)
(** C11: The counts the kernel prints are the counts the daemon reads.  For every
    session of the iterator over sockets of any kind and state (with the widths
    of the kernel's structures), whose lines show the peer's address only for
    sockets connected to it, the retransmission thread, reading the file through
    its 256-byte buffer, adds up exactly the retransmissions and segments of the
    established sockets to the peer, modulo 2^64: no line is split or misread. *)
Theorem kernel_counts_read_back hz jiffies pK cs w :
  100 ≤ hz ≤ 1000 → (∀ a, is_field (pK a) ∧ strlen (pK a) = 16) →
  is_u32 w → Forall ctx_ok cs → Forall (unmentioned hz jiffies pK w) cs →
  sum_lines (hex8 w) (read_file (text (tcp4 hz jiffies pK cs))) (mkTotals 0 0 false) =
  Ret (mkTotals (u64 (foldr (λ s x, total_retrans s + x) 0 (of_peer w cs)))
         (u64 (foldr (λ s x, segs_out s + x) 0 (of_peer w cs))) (negb (bool_decide (of_peer w cs = [])))).
Proof.
  intros Hz Hp Hw Hok Hq. rewrite read_file_text.
  - rewrite sum_session, add_counts_sum by done. by destruct (of_peer w cs).
  - unfold tcp4. clear Hq. induction Hok as [|c cs Hc _ IH]; [constructor|]. rewrite fmap_cons. cbn [concat].
    apply Forall_app. split; [by apply dump_lines|done].
Qed.
Definition other_sock : tcp_sock := mkTcpSock 0x0A0B0C0D 0x012E030A 0x5114 0x2E8B 0 0 true 1500 1 0 500 400 900 0 3 0 None 2 7 200 40 20 4 3722 0 0x7fffffff 11 5000.
Definition session_ex : list iter_ctx := [
  mkCtx (Some (2, Tcp sock_ex)) 0 1000; mkCtx (Some (2, Timewait (mkTimewait 0x022E030A 0x012E030A 1 2 6 1100 1 3))) 1 0;
  mkCtx (Some (10, OtherSock)) 2 0; mkCtx (Some (2, Tcp other_sock)) 3 0; mkCtx (Some (2, Tcp sock_ex)) 4 0; mkCtx None 5 0].
Lemma kernel_counts_read_back_witness :
  sum_lines (hex8 0x022E030A) (read_file (text (tcp4 1000 1000 (λ _, "00000000367a51de") session_ex))) (mkTotals 0 0 false) =
  Ret (mkTotals 158 240068 true).
Proof.
  rewrite (kernel_counts_read_back 1000 1000 (λ _, "00000000367a51de") session_ex 0x022E030A).
  - reflexivity.
  - lia.
  - intros _. split; reflexivity.
  - unfold is_u32. lia.
  - repeat (constructor; [repeat split; vm_compute; intuition congruence|]). constructor.
  - repeat (constructor; [vm_compute; intuition congruence|]). constructor.
Defined.
