(* ===== verification/HpnExchange.v ===== *)
(** * The exchange with an HPNSSH client

    [fDoHpnRead], [fDoHpnReadAll], [fDoHpnShutdown], [fDoHpnStart],
    [fDoHpnAssessment], [doProcessHpnClientReq] and the listener
    [doHandleHpnsshQfactorEnv] of user_dtn.c.  unp.h selects a build without binn;
    what the other build sends instead is the argument [net] of the definitions
    (BinnClient has the rest of it).  The telemetry thread publishes the extremes of a
    poll (Telemetry.publish); a client's thread waits for them and sends them.

    A request is served over a list of events: what the telemetry thread and the
    threads of other clients do, and when the thread of this client gets the mutex.

    [junk] stands for what the uninitialised reply structure held.  The second
    published message points at a time-stamp buffer that the telemetry thread
    goes on writing: it is read as it is when the message is taken. *)
From Stdlib Require Import ZArith Lia Ascii String.
From stdpp Require Import base gmap strings numbers option list.
From S2P Require Import Prelude CString Dbl Ring Transport DtnTables FlowCounters Timers Telemetry Retrans.
Open Scope Z_scope.

(** ** What the threads share *)
(** The publication (under [hpn_ret_mutex]), and the extremes the telemetry thread
    is working on, with the two time-stamp buffers, which are not protected. *)
Record Board := mkBoard { bd_sampler : Sampler; bd_ret : HpnRet }.
(** What the two buffers hold: those of the extremes of [s]. *)
Definition bufs_of (s : Sampler) (b : tsbuf) : string :=
  match b with BufMin => x_ms_ctime_buf (qinfo_min s) | BufMax => x_ms_ctime_buf (qinfo_max s) end.
(** What happens, in the order of the holders of the mutex.  [Look]: the thread of
    the client gets it (it comes for the first time, was signalled, or woke by
    itself) and looks at [hpnretcdone]; [cli] is what [str_cli] answers if it sends.
    [TimesOut]: five seconds have passed in the wait, with what [recv(MSG_PEEK)] and
    [errno] say then; outside a wait nothing times out. *)
Inductive hpn_event :=
| Sampled (s : Sampler)                 (* the telemetry thread resets or changes its extremes *)
| PollEnds                              (* and publishes them *)
| Rival                                 (* the thread of another client takes what is published *)
| Look (cli : PeerMsg → Z)
| TimesOut (y errno : Z).
Definition gone (y errno : Z) : bool := negb (errno =? 0) && (y =? 0).

(** The order of the words of a reply: [htonl], or, in a build with binn, the
    host's. *)
Section Build.
Context (net : Z → Z).
(** ** Taking the publication (under [hpn_ret_mutex]) *)
Definition reply_head (op : Z) (junk : PeerMsg) : PeerMsg :=
  junk <| msg_no := net HPNSSH_MSG |> <| value := net op |>.
Definition fill_reply (ts : string) (src m : PeerMsg) : PeerMsg :=
  m <| timestamp := ts |> <| hop_latency := net (hop_latency src) |>
    <| queue_occupancy := net (queue_occupancy src) |> <| switch_id := net (switch_id src) |>.
(** The replies for the first and, if there is one, the second message. *)
Definition hpn_take (bufs : tsbuf → string) (op : Z) (junk1 junk2 : PeerMsg) (h : HpnRet)
  : PeerMsg * option PeerMsg * HpnRet :=
  let m1 := fill_reply (timestamp (sHpnRetMsg h)) (sHpnRetMsg h) (reply_head op junk1) in
  let h' := h <| sHpnRetMsg := (sHpnRetMsg h) <| pts := None |> |> <| hpnretcdone := false |> in
  match pts (sHpnRetMsg2 h) with
  | Some b => (m1, Some (fill_reply (bufs b) (sHpnRetMsg2 h) (reply_head op junk2)),
               h' <| sHpnRetMsg2 := (sHpnRetMsg2 h) <| pts := None |> |>)
  | None => (m1, None, h')
  end.
(** What the other threads do to the board. *)
Definition share (ev : hpn_event) (b : Board) : Board :=
  match ev with
  | Sampled s => mkBoard s (bd_ret b)
  | PollEnds => mkBoard (bd_sampler b) (publish (bd_sampler b) (bd_ret b))
  | Rival =>
      if hpnretcdone (bd_ret b)
      then mkBoard (bd_sampler b) (hpn_take (bufs_of (bd_sampler b)) HPNSSH_READALL_FS zero_msg zero_msg (bd_ret b)).2
      else b
  | Look _ | TimesOut _ _ => b
  end.

(** ** One request *)
(** [fDoHpnRead], [waiting] or before its wait: of two published messages only the
    second is sent. *)
Fixpoint fDoHpnRead (waiting : bool) (evs : list hpn_event) (junk1 junk2 : PeerMsg) (b : Board)
  : res (list PeerMsg * Board) :=
  match evs with
  | [] => Blocked
  | Look _ :: evs' =>
      if hpnretcdone (bd_ret b) then
        let '(m1, m2, h') := hpn_take (bufs_of (bd_sampler b)) HPNSSH_READ_FS junk1 junk2 (bd_ret b) in
        Ret ([default m1 m2], mkBoard (bd_sampler b) h')
      else fDoHpnRead true evs' junk1 junk2 b
  | TimesOut y errno :: evs' => if waiting && gone y errno then Ret ([], b) else fDoHpnRead false evs' junk1 junk2 b
  | ev :: evs' => fDoHpnRead waiting evs' junk1 junk2 (share ev b)
  end.

Definition readall_text : string := "Hello there!!! Got your ReadAll message..., Here's some data" +:+ nl.
(** [fDoHpnReadAll] behind the wait: what is sent, and whether it goes on; [seq] is
    [sMsgSeqNo], which it shares with the congestion messages. *)
Definition readall_turn (cli : PeerMsg → Z) (junk1 junk2 : PeerMsg) (b : Board) (seq : Z)
  : list PeerMsg * bool * Board * Z :=
  let '(m1, m2, h') := hpn_take (bufs_of (bd_sampler b)) HPNSSH_READALL_FS
                         (junk1 <| msg := readall_text |>) (junk2 <| msg := readall_text |>) (bd_ret b) in
  let b := mkBoard (bd_sampler b) h' in
  let seq1 := u32 (seq + 1) in
  let m1 := m1 <| seq_no := net seq1 |> in
  match m2 with
  | Some m2 =>
      let seq2 := u32 (seq1 + 1) in
      let m2 := m2 <| seq_no := net seq2 |> in
      if cli m1 =? 0 then ([m1; m2], cli m2 =? 0, b, seq2) else ([m1], false, b, seq2)
  | None => ([m1], cli m1 =? 0, b, seq1)
  end.
Fixpoint fDoHpnReadAll (waiting : bool) (evs : list hpn_event) (junk1 junk2 : PeerMsg) (b : Board) (seq : Z)
  : res (list PeerMsg * Board * Z) :=
  match evs with
  | [] => Blocked
  | Look cli :: evs' =>
      if hpnretcdone (bd_ret b) then
        let '(sent, again, b, seq) := readall_turn cli junk1 junk2 b seq in
        if again : bool then
          '(sent', b, seq) ← fDoHpnReadAll false evs' junk1 junk2 b seq; Ret (sent ++ sent', b, seq)
        else Ret (sent, b, seq)
      else fDoHpnReadAll true evs' junk1 junk2 b seq
  | TimesOut y errno :: evs' =>
      if waiting && gone y errno then Ret ([], b, seq) else fDoHpnReadAll false evs' junk1 junk2 b seq
  | ev :: evs' => fDoHpnReadAll waiting evs' junk1 junk2 (share ev b) seq
  end.
End Build.
(** [fDoHpnShutdown]: half-close, then wait for the other end's close; true when
    that wait was reached. *)
Definition fDoHpnShutdown (shutdown_rc : Z) (peek : nat → Z) : bool :=
  if shutdown_rc =? 0 then read_sock peek else false.
Definition fDoHpnStart : PeerMsg :=
  zero_msg <| msg := "Hello there!!! Got your start message..." +:+ nl |>
    <| msg_no := htonl HPNSSH_MSG |> <| value := htonl 199 |>.

(** ** Dispatch *)
Inductive hpn_request := HpnRead | HpnReadAll | HpnShutdown | HpnStart | HpnInvalid.
Definition fDoHpnAssessment (val : Z) : hpn_request :=
  if val =? HPNSSH_READ then HpnRead
  else if val =? HPNSSH_READALL then HpnReadAll
  else if val =? HPNSSH_SHUTDOWN then HpnShutdown
  else if val =? HPNSSH_START then HpnStart
  else HpnInvalid.
(** What [Readn] brings: the close of the connection, or a message (any other
    answer leaves [from_cli] as it is, and the code goes on with it). *)
Inductive hpn_input := HpnClosed | HpnMsg (m : PeerMsg).
Definition hpn_request_of (m : PeerMsg) : option hpn_request :=
  if ntohl (msg_no m) =? HPNSSH_MSG then Some (fDoHpnAssessment (ntohl (value m))) else None.
(** The requests a connection serves, in order, until it is closed. *)
Fixpoint doProcessHpnClientReq (ins : list hpn_input) : res (list hpn_request) :=
  match ins with
  | [] => Blocked
  | HpnClosed :: _ => Ret []
  | HpnMsg m :: ins' =>
      rs ← doProcessHpnClientReq ins';
      Ret (match hpn_request_of m with Some r => r :: rs | None => rs end)
  end.


(** ** Properties *)
(** The readings of a published extreme, as the client decodes them. *)
Definition reads (m : PeerMsg) (x : extreme) (ts : string) : Prop :=
  timestamp m = ts ∧ ntohl (queue_occupancy m) = x_value x ∧ ntohl (hop_latency m) = x_hop_latency x ∧
  ntohl (switch_id m) = x_hop_switch_id x.
Definition extreme_ok (x : extreme) : Prop :=
  is_u32 (x_value x) ∧ is_u32 (x_hop_latency x) ∧ is_u32 (x_hop_switch_id x).
(** A poll that saw both extremes. *)
Definition both_extremes (s : Sampler) : Prop :=
  perf_buffer_poll_start s = false ∧ x_value (qinfo_min s) ≠ QINFO_START_MIN_VALUE ∧ x_value (qinfo_max s) ≠ 0.

Lemma fill_reply_reads ts src m x :
  extreme_ok x → hop_latency src = x_hop_latency x → queue_occupancy src = x_value x →
  switch_id src = x_hop_switch_id x → reads (fill_reply htonl ts src m) x ts.
Proof.
  intros (H1 & H2 & H3) E1 E2 E3. unfold reads, fill_reply. cbn. rewrite E1, E2, E3, !ntohl_htonl by done. done.
Qed.

(** A poll that saw a minimum and a maximum reaches a "read all" client as
    two messages, the earlier extreme first, with the queue occupancy, latency
    and switch of each; the first carries its own time stamp, the second
    whatever the buffer of its extreme holds when the client's thread looks: the
    extremes the telemetry thread is working on by then, [s'].  The publication is
    consumed. *)
Theorem readall_sends_both_extremes s s' h cli junk1 junk2 seq :
  both_extremes s → extreme_ok (qinfo_min s) → extreme_ok (qinfo_max s) → (∀ m, cli m = 0) →
  let early := if x_clk (qinfo_min s) <=? x_clk (qinfo_max s) then qinfo_min s else qinfo_max s in
  let late := if x_clk (qinfo_min s) <=? x_clk (qinfo_max s) then qinfo_max s else qinfo_min s in
  let late_buf := if x_clk (qinfo_min s) <=? x_clk (qinfo_max s) then BufMax else BufMin in
  ∃ m1 m2 b' seq',
    readall_turn htonl cli junk1 junk2 (share htonl (Sampled s') (share htonl PollEnds (mkBoard s h))) seq = ([m1; m2], true, b', seq') ∧
    reads m1 early (x_ms_ctime_buf early) ∧ reads m2 late (bufs_of s' late_buf) ∧
    hpnretcdone (bd_ret b') = false ∧ pts (sHpnRetMsg2 (bd_ret b')) = None.
Proof.
  intros (Hs & Hmin & Hmax) Hx Hy Hcli. cbv zeta. unfold readall_turn, share. cbn [bd_sampler bd_ret].
  unfold publish. rewrite Hs. apply Z.eqb_neq in Hmin, Hmax. rewrite Hmin, Hmax. cbn [negb andb].
  destruct (x_clk (qinfo_min s) <=? x_clk (qinfo_max s)); unfold hpn_take; cbn -[htonl bufs_of];
    rewrite !Hcli; (eexists _, _, _, _; split; [reflexivity|]); cbn -[htonl ntohl bufs_of];
    (split; [|split; [|done]]); unfold reads; cbn -[htonl ntohl bufs_of]; rewrite !ntohl_htonl; by destruct Hx as (?&?&?), Hy as (?&?&?).
Qed.

Definition demo_sampler : Sampler :=
  sampler_init <| perf_buffer_poll_start := false |>
    <| qinfo_min := mkExt 5 100 1 10 "t10" |> <| qinfo_max := mkExt 900 4000 2 11 "t11" |>.
Lemma readall_sends_both_extremes_witness :
  ∃ m1 m2 b' seq',
    readall_turn htonl (λ _, 0) zero_msg zero_msg (share htonl PollEnds (mkBoard demo_sampler hpnret_init)) 7
      = ([m1; m2], true, b', seq') ∧ reads m1 (qinfo_min demo_sampler) "t10" ∧ reads m2 (qinfo_max demo_sampler) "t11".
Proof.
  destruct (readall_sends_both_extremes demo_sampler demo_sampler hpnret_init (λ _, 0) zero_msg zero_msg 7)
    as (m1 & m2 & h' & seq' & E & H1 & H2 & _);
    [split_and!; [done|vm_compute; congruence|vm_compute; congruence]
    |unfold extreme_ok, is_u32; cbn; lia|unfold extreme_ok, is_u32; cbn; lia|done..|].
  exists m1, m2, h', seq'. done.
Defined.

(** "Read" answers a poll with two extremes with the later one alone, and its
    time stamp is the buffer's content at that moment: after the next poll has
    rewritten the buffer, the message carries the old values under a new time. *)
Theorem read_answers_later_extreme s s' h cli evs junk1 junk2 :
  both_extremes s → x_clk (qinfo_min s) ≤ x_clk (qinfo_max s) → extreme_ok (qinfo_max s) →
  ∃ m b', fDoHpnRead htonl false (PollEnds :: Sampled s' :: Look cli :: evs) junk1 junk2 (mkBoard s h) = Ret ([m], b') ∧
    reads m (qinfo_max s) (bufs_of s' BufMax) ∧ hpnretcdone (bd_ret b') = false.
Proof.
  intros (Hs & Hmin & Hmax) Hc Hx. cbn [fDoHpnRead share bd_sampler bd_ret]. unfold publish. rewrite Hs.
  apply Z.eqb_neq in Hmin, Hmax. rewrite Hmin, Hmax. cbn [negb andb].
  destruct (Z.leb_spec (x_clk (qinfo_min s)) (x_clk (qinfo_max s))); [|lia]. unfold hpn_take. cbn -[htonl bufs_of].
  eexists _, _. split; [reflexivity|]. cbn -[htonl ntohl bufs_of]. split; [|done].
  unfold reads; cbn -[htonl ntohl bufs_of]; rewrite !ntohl_htonl; by destruct Hx as (?&?&?).
Qed.
Lemma read_answers_later_extreme_witness :
  ∃ m b', fDoHpnRead htonl false [PollEnds; Sampled (demo_sampler <| qinfo_max := mkExt 3 7 2 12 "t99" |>); Look (λ _, 0)]
            zero_msg zero_msg (mkBoard demo_sampler hpnret_init) = Ret ([m], b') ∧ reads m (qinfo_max demo_sampler) "t99".
Proof.
  destruct (read_answers_later_extreme demo_sampler (demo_sampler <| qinfo_max := mkExt 3 7 2 12 "t99" |>) hpnret_init (λ _, 0) []
              zero_msg zero_msg) as (m & h' & E & H1 & _);
    [split_and!; [done|vm_compute; congruence|vm_compute; congruence]|vm_compute; congruence
    |unfold extreme_ok, is_u32; cbn; lia|].
  exists m, h'. done.
Defined.

(** *** A connection, whatever happens *)
(** The extremes a poll publishes, in their order. *)
Definition published (s : Sampler) : list extreme :=
  let mn := qinfo_min s in let mx := qinfo_max s in
  if perf_buffer_poll_start s then [] else
  if negb (x_value mn =? QINFO_START_MIN_VALUE) && negb (x_value mx =? 0) then
    if x_clk mn <=? x_clk mx then [mn; mx] else [mx; mn]
  else if negb (x_value mn =? QINFO_START_MIN_VALUE) then [mn] else [mx].
(** The polls that end in the course of the events, the telemetry thread working
    on [s] at first. *)
Fixpoint polls_of (s : Sampler) (evs : list hpn_event) : list Sampler :=
  match evs with
  | [] => []
  | Sampled s' :: evs' => polls_of s' evs'
  | PollEnds :: evs' => s :: polls_of s evs'
  | _ :: evs' => polls_of s evs'
  end.
(** The client is there and takes what it is sent. *)
Definition steady (ev : hpn_event) : Prop :=
  match ev with Look cli => ∀ m, cli m = 0 | TimesOut y errno => gone y errno = false | _ => True end.
(** After each poll the client's thread looks before the telemetry thread or the
    thread of another client goes on; [owed] when a poll has ended. *)
Fixpoint prompt (owed : bool) (evs : list hpn_event) : bool :=
  match evs with
  | [] => negb owed
  | (Sampled _ | Rival) :: evs' => negb owed && prompt false evs'
  | PollEnds :: evs' => negb owed && prompt true evs'
  | Look _ :: evs' => prompt false evs'
  | TimesOut _ _ :: evs' => prompt owed evs'
  end.
(** At last the client is gone, and the next time-out shows it. *)
Definition leaves (errno : Z) : list hpn_event := [Look (λ _, 0); Look (λ _, 0); TimesOut 0 errno].
(** Nothing published waits to be taken. *)
Definition idle_ret (h : HpnRet) : Prop := hpnretcdone h = false ∧ pts (sHpnRetMsg2 h) = None.

Section Connection.
Context (net : Z → Z) (junk1 junk2 : PeerMsg).
(** A reply carries an extreme. *)
Record replies (m : PeerMsg) (x : extreme) : Prop := {
  re_type : msg_no m = net HPNSSH_MSG;
  re_op : value m = net HPNSSH_READALL_FS;
  re_latency : hop_latency m = net (x_hop_latency x);
  re_occupancy : queue_occupancy m = net (x_value x);
  re_switch : switch_id m = net (x_hop_switch_id x);
  re_time : timestamp m = x_ms_ctime_buf x
}.
(** What was published and is looked at at once. *)
Lemma turn_replies cli s h seq :
  (∀ m, cli m = 0) → idle_ret h → perf_buffer_poll_start s = false →
  hpnretcdone (publish s h) = true ∧
  ∃ ms h' seq', readall_turn net cli junk1 junk2 (mkBoard s (publish s h)) seq = (ms, true, mkBoard s h', seq') ∧
    idle_ret h' ∧ Forall2 replies ms (published s).
Proof.
  intros Hcli [_ Hp] Hs. unfold readall_turn, publish, published. cbn [bd_sampler bd_ret]. rewrite Hs.
  destruct (x_value (qinfo_min s) =? QINFO_START_MIN_VALUE), (x_value (qinfo_max s) =? 0),
    (x_clk (qinfo_min s) <=? x_clk (qinfo_max s)); cbn [negb andb]; unfold hpn_take; cbn -[fill_reply reply_head];
    rewrite ?Hp; cbn -[fill_reply reply_head]; rewrite !Hcli; (split; [done|]); (eexists _, _, _; split; [reflexivity|]);
    (split; [done|]); repeat constructor.
Qed.
Lemma share_idle ev s h : idle_ret h → ev ≠ PollEnds → ∃ s', share net ev (mkBoard s h) = mkBoard s' h.
Proof. intros [Hd _] Hev. destruct ev; cbn; rewrite ?Hd; by eauto. Qed.
Lemma publish_start s h : perf_buffer_poll_start s = true → publish s h = h ∧ published s = [].
Proof. intros Hs. unfold publish, published. by rewrite Hs. Qed.
Lemma leave_idle w e s h seq :
  gone 0 e = true → idle_ret h → fDoHpnReadAll net w (leaves e) junk1 junk2 (mkBoard s h) seq = Ret ([], mkBoard s h, seq).
Proof. intros He [Hd _]. cbn [leaves fDoHpnReadAll bd_ret]. by rewrite Hd, He. Qed.

(** A client that is served promptly is sent all that is published, in order. *)
Lemma served evs e w s h seq :
  gone 0 e = true → Forall steady evs → prompt false evs = true → idle_ret h →
  ∃ sent b' seq', fDoHpnReadAll net w (evs ++ leaves e) junk1 junk2 (mkBoard s h) seq = Ret (sent, b', seq') ∧
    Forall2 replies sent (mjoin (published <$> polls_of s evs)).
Proof.
  intros He Hev Hpr Hh.
  assert (∀ owed w s h0 seq, idle_ret h0 → prompt owed evs = true →
    ∃ sent b' seq', fDoHpnReadAll net w (evs ++ leaves e) junk1 junk2 (mkBoard s (if owed then publish s h0 else h0)) seq
                      = Ret (sent, b', seq') ∧
      Forall2 replies sent ((if owed : bool then published s else []) ++ mjoin (published <$> polls_of s evs))) as Hgen.
  2: { destruct (Hgen false w s h seq Hh Hpr) as (sent & b' & seq' & E & H). eauto. }
  clear Hpr Hh w s h seq. induction Hev as [|ev evs Hst _ IH]; intros owed w s h seq Hh Hpr.
  { destruct owed; [done|]. eexists _, _, _. split; [by apply leave_idle|constructor]. }
  destruct ev as [s'| | |cli|y errno]; cbn [app fDoHpnReadAll polls_of prompt] in *.
  - destruct owed; [done|]. apply (IH false w s' h seq Hh Hpr).
  - destruct owed; [done|]. apply (IH true w s h seq Hh Hpr).
  - destruct owed; [done|]. cbn [share bd_ret]. rewrite (proj1 Hh). apply (IH false w s h seq Hh Hpr).
  - cbn [bd_ret]. cbn [steady] in Hst.
    assert (∀ w', ∃ sent b' seq', fDoHpnReadAll net w' (evs ++ leaves e) junk1 junk2 (mkBoard s h) seq = Ret (sent, b', seq') ∧
      Forall2 replies sent (mjoin (published <$> polls_of s evs))) as Hno by (intros w'; apply (IH false w' s h seq Hh Hpr)).
    destruct owed; [|rewrite (proj1 Hh); apply Hno]. destruct (perf_buffer_poll_start s) eqn:Hs.
    { destruct (publish_start s h Hs) as [-> ->]. rewrite (proj1 Hh). apply Hno. }
    destruct (turn_replies cli s h seq Hst Hh Hs) as (-> & ms & h' & seq1 & -> & Hh' & Hms).
    destruct (IH false false s h' seq1 Hh' Hpr) as (sent & b' & seq' & -> & Hsent).
    eexists _, _, _. split; [reflexivity|]. by apply Forall2_app.
  - cbn [steady] in Hst. rewrite Hst, andb_false_r. apply (IH owed false s h seq Hh Hpr).
Qed.

(** *** Readings without their time *)
Definition is_reply (m : PeerMsg) : Prop := msg_no m = net HPNSSH_MSG ∧ value m = net HPNSSH_READALL_FS.
Definition numbers (m : PeerMsg) : Z * Z * Z := (switch_id m, queue_occupancy m, hop_latency m).
Definition readings (x : extreme) : Z * Z * Z := (net (x_hop_switch_id x), net (x_value x), net (x_hop_latency x)).
(** What the next look would find. *)
Definition awaiting (h : HpnRet) : list (Z * Z * Z) :=
  let triple m := (net (switch_id m), net (queue_occupancy m), net (hop_latency m)) in
  if hpnretcdone h then triple (sHpnRetMsg h) :: (if pts (sHpnRetMsg2 h) is Some _ then [triple (sHpnRetMsg2 h)] else []) else [].
Definition ret_ok (h : HpnRet) : Prop := hpnretcdone h = false → pts (sHpnRetMsg2 h) = None.
Lemma publish_awaiting s h :
  ret_ok h → ret_ok (publish s h) ∧ awaiting (publish s h) ⊆+ awaiting h ++ (readings <$> published s).
Proof.
  intros Hok. unfold ret_ok, publish, published, awaiting in *. destruct (perf_buffer_poll_start s); [by rewrite app_nil_r|].
  destruct (x_value (qinfo_min s) =? QINFO_START_MIN_VALUE), (x_value (qinfo_max s) =? 0),
    (x_clk (qinfo_min s) <=? x_clk (qinfo_max s)), (hpnretcdone h); cbn; (split; [done|]); rewrite ?Hok by done; cbn;
    try destruct (pts (sHpnRetMsg2 h)); cbn; unfold readings; try solve_submseteq.
Qed.
Lemma take_awaiting bufs op j1 j2 h :
  hpnretcdone h = true →
  let '(m1, m2, h') := hpn_take net bufs op j1 j2 h in
  idle_ret h' ∧ numbers m1 :: (numbers <$> option_list m2) = awaiting h.
Proof. intros Hd. unfold hpn_take, awaiting, numbers. rewrite Hd. destruct (pts (sHpnRetMsg2 h)) eqn:Hp; by repeat split. Qed.
Lemma idle_ok h : idle_ret h → ret_ok h ∧ awaiting h = [].
Proof. intros [Hd Hp]. split; [by intros _|]. unfold awaiting. by rewrite Hd. Qed.
Lemma turn_awaiting cli b seq :
  hpnretcdone (bd_ret b) = true →
  let '(sent, again, b', _) := readall_turn net cli junk1 junk2 b seq in
  bd_sampler b' = bd_sampler b ∧ idle_ret (bd_ret b') ∧ Forall is_reply sent ∧ numbers <$> sent ⊆+ awaiting (bd_ret b).
Proof.
  intros Hd. unfold readall_turn.
  pose proof (take_awaiting (bufs_of (bd_sampler b)) HPNSSH_READALL_FS (junk1 <| msg := readall_text |>) (junk2 <| msg := readall_text |>) _ Hd) as H.
  assert (let '(m1, m2, _) := hpn_take net (bufs_of (bd_sampler b)) HPNSSH_READALL_FS (junk1 <| msg := readall_text |>)
            (junk2 <| msg := readall_text |>) (bd_ret b) in is_reply m1 ∧ Forall is_reply (option_list m2)) as Hr
    by (unfold hpn_take; destruct (pts _); repeat constructor).
  destruct (hpn_take _ _ _ _ _ _) as [[m1 m2] h']. destruct H as [Hi <-]. destruct Hr as [Hr1 Hr2].
  destruct m2 as [m2|]; [destruct (cli _ =? 0)|]; (split; [done|]); (split; [done|]); cbn [option_list] in Hr2;
    (split; [repeat first [apply Forall_nil_2 | apply Forall_cons_2; [first [exact Hr1 | exact (proj1 (Forall_cons_1 _ _ _ Hr2))]|]]|]);
    cbn; unfold numbers; cbn; try done.
  apply submseteq_skip, submseteq_nil_l.
Qed.
(** Whatever happens, nothing is sent more often than it was published. *)
Lemma sent_was_published evs e w s h seq :
  gone 0 e = true → ret_ok h →
  ∃ sent b' seq', fDoHpnReadAll net w (evs ++ leaves e) junk1 junk2 (mkBoard s h) seq = Ret (sent, b', seq') ∧
    Forall is_reply sent ∧ numbers <$> sent ⊆+ awaiting h ++ (readings <$> mjoin (published <$> polls_of s evs)).
Proof.
  intros He. revert w s h seq.
  assert (∀ evs' polls, (∀ w s h seq, idle_ret h → ∃ sent b' seq',
      fDoHpnReadAll net w evs' junk1 junk2 (mkBoard s h) seq = Ret (sent, b', seq') ∧ Forall is_reply sent ∧
      numbers <$> sent ⊆+ (readings <$> mjoin (published <$> polls s))) →
    ∀ cli w s h seq, ret_ok h → ∃ sent b' seq',
      fDoHpnReadAll net w (Look cli :: evs') junk1 junk2 (mkBoard s h) seq = Ret (sent, b', seq') ∧ Forall is_reply sent ∧
      numbers <$> sent ⊆+ awaiting h ++ (readings <$> mjoin (published <$> polls s))) as Hlook.
  { intros evs' polls IH cli w s h seq Hh. cbn [fDoHpnReadAll bd_ret]. destruct (hpnretcdone h) eqn:Hd.
    2: { unfold awaiting. rewrite Hd. apply IH. split; [done|by apply Hh]. }
    pose proof (turn_awaiting cli (mkBoard s h) seq Hd) as H. destruct (readall_turn _ _ _ _ _ _) as [[[sent again] [s1 h1]] seq1].
    cbn [bd_sampler bd_ret] in H. destruct H as (-> & Hi & Hf & Hs).
    destruct again; [|eexists _, _, _; split; [reflexivity|]; split; [done|]; by apply submseteq_inserts_r].
    destruct (IH false s h1 seq1 Hi) as (sent' & b' & seq' & -> & Hf' & Hs'). eexists _, _, _. split; [reflexivity|].
    split; [by apply Forall_app|]. rewrite fmap_app. by apply submseteq_app. }
  induction evs as [|ev evs IH]; intros w s h seq Hh; cbn [app].
  - apply (Hlook [Look (λ _, 0); TimesOut 0 e] (λ _, [])); [|done]. clear w s h seq Hh. intros w s h seq [Hd _].
    cbn [fDoHpnReadAll bd_ret]. rewrite Hd, He. eexists _, _, _. split; [reflexivity|]. split; [done|]. apply submseteq_nil_l.
  - destruct ev as [s'| | |cli|y errno]; cbn [polls_of].
    + by apply IH.
    + cbn [fDoHpnReadAll share bd_sampler bd_ret]. destruct (publish_awaiting s h Hh) as [Hok Ha].
      destruct (IH w s _ seq Hok) as (sent & b' & seq' & -> & Hf & Hs). eexists _, _, _. split; [reflexivity|]. split; [done|].
      etransitivity; [exact Hs|]. rewrite fmap_cons. cbn [mjoin list_join]. rewrite fmap_app, app_assoc. by apply submseteq_app.
    + cbn [fDoHpnReadAll share bd_sampler bd_ret]. destruct (hpnretcdone h) eqn:Hd; [|by apply IH].
      pose proof (take_awaiting (bufs_of s) HPNSSH_READALL_FS zero_msg zero_msg h Hd) as Ht.
      destruct (hpn_take _ _ _ _ _ _) as [[m1 m2] h']. destruct Ht as [[Hok Ha]%idle_ok _]. cbn [snd].
      destruct (IH w s h' seq Hok) as (sent & b' & seq' & -> & Hf & Hs). eexists _, _, _. split; [reflexivity|]. split; [done|].
      rewrite Ha in Hs. by apply submseteq_inserts_l.
    + apply (Hlook _ (λ s, polls_of s evs)); [|done]. intros w' s' h' seq1 Hi. destruct (idle_ok _ Hi) as [Hok Ha].
      specialize (IH w' s' h' seq1 Hok). by rewrite Ha in IH.
    + cbn [fDoHpnReadAll]. destruct (w && gone y errno); [|by apply IH].
      eexists _, _, _. split; [reflexivity|]. split; [done|]. apply submseteq_nil_l.
Qed.
End Connection.



