(* ===== verification/HpnClient.v ===== *)
(** * The test client of the HPNSSH service

    src/userspace/myclient.c: the state machine that connects to the daemon,
    sends START, then READALL, shows what comes, and leaves on SIGINT.  What the
    kernel answers is a script of calls; the log is the result.  The last
    section composes it with the service (HpnExchange): a whole session. *)
From Stdlib Require Import ZArith Lia Ascii String.
From stdpp Require Import base strings numbers option list.
From S2P Require Import Prelude CString Ring Transport FlowCounters Timers Telemetry HpnExchange.
Open Scope Z_scope.

(** ** The client *)
Record Client := mkClient {
  hpnMsg2 : PeerMsg;
  hpnMsgSeqNo : Z;
  vShutdown : bool;
  vDebugLevel : Z;
  current_phase : workflow_phases
}.
#[export] Instance eta_Client : Settable Client := fun c =>
  mkClient (hpnMsg2 c) (hpnMsgSeqNo c) (vShutdown c) (vDebugLevel c) (current_phase c).
Definition client_init : Client := mkClient (zero_msg <| value := HPNSSH_START |>) 0 false 1 STARTING.

Inductive signal := SIGINT | SIGUSR1.
Definition handler (s : signal) (c : Client) : Client :=
  match s with
  | SIGINT => c <| vShutdown := true |>
  | SIGUSR1 => c <| vDebugLevel := if vDebugLevel c <? 3 then vDebugLevel c + 1 else 0 |>
  end.

(** [readn]: what each [read] brings, with [vShutdown] at that moment. *)
Fixpoint readn (s : list (rd * bool)) (nleft : nat) (acc : list Z) : Z * list Z * list (rd * bool) :=
  match nleft with
  | O => (Z.of_nat (length acc), acc, s)
  | _ =>
      match s with
      | [] => (Z.of_nat (length acc), acc, [])
      | (RdErr e, stop) :: s' => if (e =? Transport.EINTR) && negb stop then readn s' nleft acc else (-1, acc, s')
      | (RdData [], _) :: s' => (Z.of_nat (length acc), acc, s')
      | (RdData bs, stop) :: s' =>
          if (length bs <=? nleft)%nat then readn s' (nleft - length bs) (acc ++ bs)
          else (Z.of_nat (length (acc ++ take nleft bs)), acc ++ take nleft bs,
                (RdData (drop nleft bs), stop) :: s')
      end
  end.

(** What the kernel answers, call by call: the value of [Connect]; whether a
    write ends the process with SIGPIPE (the answer of [str_cli] is not used);
    the signals handled until [Readn] returned, its value, and what the structure
    [from_cli] holds then. *)
Inductive call :=
| CConnect (rc : Z)
| CWrite (sigpipe : bool)
| CReadn (sigs : list signal) (n : Z) (from_cli : PeerMsg).
(** What the client does; a report shows time stamp, phase, switch, occupancy
    and latency of a message. *)
Inductive deed :=
| Sending (m : PeerMsg)
| Report (time : string) (ph : workflow_phases) (switch qocc latency : Z)
| InvalidValue (v : Z)
| InvalidMessage (no : Z)
| Closing.
Inductive outcome := Exit (code : Z) | Killed.

(** ** Messages from the server *)
Definition report (c : Client) (m : PeerMsg) : deed :=
  Report (timestamp m) (current_phase c) (ntohl (switch_id m)) (ntohl (queue_occupancy m)) (ntohl (hop_latency m)).
Definition fDoHpnReadFS (c : Client) (m : PeerMsg) : list deed := if 0 <? vDebugLevel c then [report c m] else [].
Definition fDoHpnReadAllFS (c : Client) (m : PeerMsg) : list deed := if 0 <? vDebugLevel c then [report c m] else [].
Definition fDoHpnTimeoutFS (c : Client) (m : PeerMsg) : list deed := if 1 <? vDebugLevel c then [report c m] else [].
Definition fDoHpnFromServer (val : Z) (c : Client) (m : PeerMsg) : list deed :=
  if val =? 133 then fDoHpnReadFS c m
  else if val =? 144 then fDoHpnReadAllFS c m
  else if val =? 199 then []
  else if val =? 166 then fDoHpnTimeoutFS c m
  else [InvalidValue val].
Definition from_server (c : Client) (m : PeerMsg) : list deed :=
  if ntohl (msg_no m) =? HPNSSH_MSG then fDoHpnFromServer (ntohl (value m)) c m
  else [InvalidMessage (ntohl (msg_no m))].
(** One message; the value returned. *)
Definition process_request_fs (ks : list call) (c : Client) : res (Z * list deed * list call * Client) :=
  match ks with
  | CReadn sigs n m :: ks' =>
      let c := foldl (λ c s, handler s c) c sigs in
      if n =? 0 then Ret (0, [], ks', c)
      else if vShutdown c then Ret (0, [], ks', c)
      else Ret (ntohl (value m), from_server c m, ks', c)
  | _ => Blocked
  end.
(** Messages until the connection is closed or SIGINT has come. *)
Fixpoint process_request_fs2 (ks : list call) (c : Client) : res (list deed * list call * Client) :=
  match ks with
  | CReadn sigs n m :: ks' =>
      let c := foldl (λ c s, handler s c) c sigs in
      if n =? 0 then Ret ([], ks', c)
      else if vShutdown c then Ret ([], ks', c)
      else '(ds, ks', c') ← process_request_fs2 ks' c; Ret (from_server c m ++ ds, ks', c')
  | _ => Blocked
  end.

(** ** The state machine of [main] *)
(** [str_cli]: false when the write ended the process. *)
Definition str_cli (ks : list call) : res (bool * list call) :=
  match ks with CWrite p :: ks' => Ret (negb p, ks') | _ => Blocked end.
Definition next_request (v : Z) (c : Client) : Client :=
  if vShutdown c then c <| hpnMsg2 := (hpnMsg2 c) <| value := HPNSSH_SHUTDOWN |> |> <| vShutdown := false |>
  else c <| hpnMsg2 := (hpnMsg2 c) <| value := v |> |>.
Definition prepare (c : Client) : Client :=
  let seqno := u32 (hpnMsgSeqNo c + 1) in
  c <| hpnMsgSeqNo := seqno |>
    <| hpnMsg2 := (hpnMsg2 c) <| msg_no := htonl HPNSSH_MSG |> <| seq_no := htonl seqno |>
                              <| msg := "This is a START message" |> |>.
Definition step := pass_end Client call outcome.
(** One pass from [cli_again]. *)
Definition cli_again (ks : list call) (c0 : Client) : res (list deed * step) :=
  let c := prepare c0 in
  let v := value (hpnMsg2 c) in
  if v =? HPNSSH_START then
    let c := c <| hpnMsg2 := (hpnMsg2 c) <| value := htonl v |> |> in
    match ks with
    | CConnect rc :: ks =>
        if negb (rc =? 0) then Ret ([], Again c ks)
        else
          '(alive, ks) ← str_cli ks;
          if alive : bool then
            '(_, ds, ks, c') ← process_request_fs ks c;
            Ret (Sending (hpnMsg2 c) :: ds,
                 Again (c' <| hpnMsg2 := (hpnMsg2 c') <| value := HPNSSH_READALL |> |> <| current_phase := LEARNING |>) ks)
          else Ret ([], Done Killed)
    | _ => Blocked
    end
  else if v =? HPNSSH_SHUTDOWN then Ret ([Closing], Done (Exit 0))
  else if v =? HPNSSH_READ then
    let c := c <| hpnMsg2 := (hpnMsg2 c) <| value := htonl v |> |> in
    '(alive, ks) ← str_cli ks;
    if alive : bool then
      '(_, ds, ks, c') ← process_request_fs ks c;
      Ret (Sending (hpnMsg2 c) :: ds, Again (next_request HPNSSH_READ c') ks)
    else Ret ([], Done Killed)
  else if v =? HPNSSH_READALL then
    let c := c <| hpnMsg2 := (hpnMsg2 c) <| value := htonl v |> <| msg := "This is a READALL message" |> |> in
    '(alive, ks) ← str_cli ks;
    if alive : bool then
      '(ds, ks, c') ← process_request_fs2 ks c;
      Ret (Sending (hpnMsg2 c) :: ds, Again (next_request HPNSSH_READALL c') ks)
    else Ret ([], Done Killed)
  else Ret ([], Done (Exit 1)).
(** The loop, over all answers of the kernel. *)
Definition run : list call → Client → res (list deed * outcome) := run_passes cli_again.
(** The server of the command line; [sprintf] takes the address as its format, so
    that a percent sign in it is outside the model. *)
Definition server (argv : list string) : res (string * Z) :=
  match argv with
  | [_; a; b] =>
      if (a =? "-d")%string then
        if (32 <=? strlen b) || negb (str_forall (λ ch, negb (Ascii.eqb ch "%")) b) then Ub else Ret (b, 5525)
      else if (a =? "-p")%string then Ret ("127.0.0.1", atoi b)
      else Ret ("127.0.0.1", 5525)
  | _ => Ret ("127.0.0.1", 5525)
  end.
(** [main], once its log is open: the address and the port it connects to. *)
Definition main (argv : list string) (ks : list call) : res (string * Z * list deed * outcome) :=
  '(addr, port) ← server argv; '(ds, o) ← run ks client_init; Ret (addr, port mod 2 ^ 16, ds, o).

(** ** Properties *)
(** Without a SIGINT the client reads as the daemon does. *)
Lemma readn_as_daemon s n acc :
  Forall (λ x, x.2 = false) s →
  let '(r, bs, s') := readn s n acc in Transport.readn s.*1 n acc = (r, bs, s'.*1).
Proof.
  intros Hs. revert n acc. induction Hs as [|[[e|bs] stop] s Hx _ IH]; intros [|n] acc; try done; cbn in Hx; subst stop.
  - cbn [readn Transport.readn fmap list_fmap fst]. rewrite andb_true_r. destruct (e =? Transport.EINTR); [apply IH|done].
  - destruct bs as [|b bs]; [done|]. cbn [readn Transport.readn fmap list_fmap fst].
    destruct (length (b :: bs) <=? S n)%nat; [apply IH|done].
Qed.

(** A pass that goes on leaves fewer answers of the kernel. *)
Lemma messages_use ks c ds ks' c' : process_request_fs2 ks c = Ret (ds, ks', c') → (length ks' < length ks)%nat.
Proof.
  revert c ds ks' c'. induction ks as [|[rc|p|sigs n m] ks IH]; intros c ds ks' c' E; cbn [process_request_fs2] in E; try done.
  destruct (n =? 0); [simplify_eq; cbn; lia|]. destruct (vShutdown _); [simplify_eq; cbn; lia|].
  inv_bind E as [[ds1 ks1] c1] E1. simplify_eq. apply IH in E1. cbn. lia.
Qed.
Lemma message_uses ks c v ds ks' c' : process_request_fs ks c = Ret (v, ds, ks', c') → (length ks' < length ks)%nat.
Proof.
  destruct ks as [|[rc|p|sigs n m] ks]; cbn [process_request_fs]; [done..|].
  destruct (n =? 0); [|destruct (vShutdown _)]; intros E; simplify_eq; cbn; lia.
Qed.
Lemma str_cli_uses ks a ks' : str_cli ks = Ret (a, ks') → (length ks' < length ks)%nat.
Proof. destruct ks as [|[rc|p|sigs n m] ks]; cbn; intros E; simplify_eq; cbn; lia. Qed.
Lemma pass_uses ks c ds c' ks' : cli_again ks c = Ret (ds, Again c' ks') → (length ks' < length ks)%nat.
Proof.
  unfold cli_again. intros E. repeat case_match; try done.
  all: try (simplify_eq; cbn; lia).
  all: inv_bind E as [alive ks1] E1; apply str_cli_uses in E1; destruct alive; [|done].
  1, 2: inv_bind E as [[[v ds1] ks2] c1] E2; apply message_uses in E2; simplify_eq; cbn; lia.
  inv_bind E as [[ds1 ks2] c1] E2. apply messages_use in E2. simplify_eq; cbn; lia.
Qed.
Lemma run_pass ks c ds c' ks' :
  cli_again ks c = Ret (ds, Again c' ks') → run ks c = ('(ds', o) ← run ks' c'; Ret (ds ++ ds', o)).
Proof. apply run_again, pass_uses. Qed.
Lemma run_exit ks c ds o : cli_again ks c = Ret (ds, Done o) → run ks c = Ret (ds, o).
Proof. apply run_done. Qed.

(** *** A session with the daemon *)
Definition shown (x : extreme) : deed :=
  Report (x_ms_ctime_buf x) LEARNING (x_hop_switch_id x) (x_value x) (x_hop_latency x).
Definition received (m : PeerMsg) : call := CReadn [] 184 m.
Definition listening (c : Client) : Prop := 0 < vDebugLevel c ∧ current_phase c = LEARNING ∧ vShutdown c = false.
(** What the client shows of a reply. *)
Definition report_of (m : PeerMsg) : deed :=
  Report (timestamp m) LEARNING (ntohl (switch_id m)) (ntohl (queue_occupancy m)) (ntohl (hop_latency m)).
Lemma reply_reported c m :
  listening c → msg_no m = htonl HPNSSH_MSG → value m = htonl HPNSSH_READALL_FS → from_server c m = [report_of m].
Proof.
  intros (Hd & Hp & _) Hm Hv. unfold from_server, fDoHpnFromServer, fDoHpnReadAllFS, report.
  apply Z.ltb_lt in Hd. rewrite Hm, Hv, !ntohl_htonl by done. cbn -[ntohl]. by rewrite Hd, Hp.
Qed.
Lemma replies_reported c ms :
  listening c → Forall (λ m, msg_no m = htonl HPNSSH_MSG ∧ value m = htonl HPNSSH_READALL_FS) ms →
  concat (from_server c <$> ms) = report_of <$> ms.
Proof.
  intros Hc. induction 1 as [|m ms [Hm Hv] _ IH]; [done|]. cbn [fmap list_fmap concat]. rewrite (reply_reported c m) by done.
  cbn [app]. by f_equal.
Qed.
Lemma carried_shown m x : replies htonl m x → extreme_ok x → report_of m = shown x.
Proof.
  intros [H1 H2 H3 H4 H5 H6] (? & ? & ?). unfold report_of, shown. by rewrite H3, H4, H5, H6, !ntohl_htonl.
Qed.

(** The client's loop takes what the service sends until SIGINT. *)
Lemma reading ms lm c :
  listening c →
  process_request_fs2 ((received <$> ms) ++ [CReadn [SIGINT] (-1) lm]) c =
    Ret (concat (from_server c <$> ms), [], c <| vShutdown := true |>).
Proof.
  intros Hc. induction ms as [|m ms IH]; [done|]. cbn [fmap list_fmap app process_request_fs2 received foldl].
  destruct Hc as (H1 & H2 & Hs). cbn [Z.eqb]. rewrite Hs. rewrite IH by done. done.
Qed.

(** What the client sends, and its states between the passes. *)
Definition start_msg : PeerMsg :=
  zero_msg <| msg_no := htonl HPNSSH_MSG |> <| seq_no := htonl 1 |> <| value := htonl HPNSSH_START |> <| msg := "This is a START message" |>.
Definition readall_msg : PeerMsg :=
  start_msg <| seq_no := htonl 2 |> <| value := htonl HPNSSH_READALL |> <| msg := "This is a READALL message" |>.
Definition started : Client := mkClient (start_msg <| value := HPNSSH_READALL |>) 1 false 1 LEARNING.
Definition reader : Client := mkClient readall_msg 2 false 1 LEARNING.
Lemma start_pass ks :
  cli_again (CConnect 0 :: CWrite false :: received fDoHpnStart :: ks) client_init = Ret ([Sending start_msg], Again started ks).
Proof. vm_compute. reflexivity. Qed.
Lemma read_pass ks ds c ks' :
  process_request_fs2 ks reader = Ret (ds, ks', c) →
  cli_again (CWrite false :: ks) started = Ret (Sending readall_msg :: ds, Again (next_request HPNSSH_READALL c) ks').
Proof.
  intros E. transitivity ('(ds, ks, c') ← process_request_fs2 ks reader;
    Ret (Sending readall_msg :: ds, Again (next_request HPNSSH_READALL c') ks) : res (list deed * step)); [reflexivity|by rewrite E].
Qed.
Lemma end_pass c : vShutdown c = true → cli_again [] (next_request HPNSSH_READALL c) = Ret ([Closing], Done (Exit 0)).
Proof. intros H. unfold next_request. rewrite H. reflexivity. Qed.

Lemma run_session ks ds c :
  process_request_fs2 ks reader = Ret (ds, [], c) → vShutdown c = true →
  run (CConnect 0 :: CWrite false :: received fDoHpnStart :: CWrite false :: ks) client_init
    = Ret (Sending start_msg :: Sending readall_msg :: ds ++ [Closing], Exit 0).
Proof.
  intros E Hc. rewrite (run_pass _ _ _ _ _ (start_pass _)), (run_pass _ _ _ _ _ (read_pass _ _ _ _ E)).
  rewrite (run_exit _ _ _ _ (end_pass c Hc)). done.
Qed.
Lemma main_run argv ks addr port ds o :
  server argv = Ret (addr, port) → run ks client_init = Ret (ds, o) → main argv ks = Ret (addr, port mod 2 ^ 16, ds, o).
Proof. intros E1 E2. unfold main. rewrite E1. cbn [mbind res_bind]. by rewrite E2. Qed.
Lemma requests : doProcessHpnClientReq [HpnMsg start_msg; HpnMsg readall_msg; HpnClosed] = Ret [HpnStart; HpnReadAll].
Proof. vm_compute. reflexivity. Qed.

(** The session seen from the client: what it is sent, then SIGINT. *)
Definition session (sent : list PeerMsg) (lm : PeerMsg) : list call :=
  CConnect 0 :: CWrite false :: received fDoHpnStart :: CWrite false :: (received <$> sent) ++ [CReadn [SIGINT] (-1) lm].
Definition log_of (ds : list deed) : list deed := Sending start_msg :: Sending readall_msg :: ds ++ [Closing].
Lemma session_logged sent lm :
  Forall (λ m, msg_no m = htonl HPNSSH_MSG ∧ value m = htonl HPNSSH_READALL_FS) sent →
  main ["client"] (session sent lm) = Ret ("127.0.0.1", 5525, log_of (report_of <$> sent), Exit 0).
Proof.
  intros Hs. rewrite <- (replies_reported reader sent) by done. apply (main_run _ _ _ 5525); [done|].
  by apply (run_session _ _ _ (reading sent lm reader ltac:(done))).
Qed.

(** C16: A whole session.  The client's requests are taken by the service as START
    and READALL.  The thread that serves it waits for [hpnretcdone], is signalled,
    wakes by itself or times out, and takes what is published; as long as it gets
    the mutex after each poll before the telemetry thread touches its extremes
    again, and before the thread of another client, the client's log shows exactly
    the extremes the polls have published, poll by poll and the earlier first, with
    their switch, occupancy, latency and time, until the client is gone; and SIGINT
    closes the connection and ends the client with 0. *)
Theorem hpn_session_shows_polls evs e s h seq j1 j2 lm :
  gone 0 e = true → Forall steady evs → prompt false evs = true → idle_ret h →
  Forall extreme_ok (mjoin (published <$> polls_of s evs)) →
  ∃ sent b' seq',
    doProcessHpnClientReq [HpnMsg start_msg; HpnMsg readall_msg; HpnClosed] = Ret [HpnStart; HpnReadAll] ∧
    fDoHpnReadAll htonl false (evs ++ leaves e) j1 j2 (mkBoard s h) seq = Ret (sent, b', seq') ∧
    main ["client"] (session sent lm) =
      Ret ("127.0.0.1", 5525, log_of (shown <$> mjoin (published <$> polls_of s evs)), Exit 0).
Proof.
  intros He Hev Hpr Hh Hok. destruct (served htonl j1 j2 evs e false s h seq He Hev Hpr Hh) as (sent & b' & seq' & E & Hsent).
  exists sent, b', seq'. split; [exact requests|]. split; [exact E|].
  rewrite session_logged by (eapply Forall2_Forall_l; [exact Hsent|]; by apply Forall_true; intros x m []).
  do 3 f_equal. f_equal. revert Hok. generalize dependent (mjoin (published <$> polls_of s evs)). clear E.
  induction 1 as [|m x ms xs Hm _ IH]; intros Hok; [done|]. apply Forall_cons_1 in Hok as [Hx Hok].
  cbn [fmap list_fmap]. by rewrite (carried_shown m x), IH.
Qed.
Definition poll_both : Sampler := demo_sampler.
Definition poll_one : Sampler := poll_both <| qinfo_max := mkExt 0 0 0 0 "" |>.
(** The thread comes and waits; a poll with two extremes; a time-out; one with one. *)
Definition two_polls : list hpn_event :=
  [Look (λ _, 0); Sampled poll_both; PollEnds; Look (λ _, 0); Look (λ _, 0); TimesOut (-1) 11; Sampled poll_one; PollEnds; Look (λ _, 0)].
Lemma hpn_session_shows_polls_witness :
  ∃ sent b' seq',
    fDoHpnReadAll htonl false (two_polls ++ leaves 11) zero_msg zero_msg (mkBoard sampler_init hpnret_init) 7 = Ret (sent, b', seq') ∧
    main ["client"] (session sent zero_msg)
      = Ret ("127.0.0.1", 5525, [Sending start_msg; Sending readall_msg; Report "t10" LEARNING 1 5 100;
                                 Report "t11" LEARNING 2 900 4000; Report "t10" LEARNING 1 5 100; Closing], Exit 0).
Proof.
  destruct (hpn_session_shows_polls two_polls 11 sampler_init hpnret_init 7 zero_msg zero_msg zero_msg)
    as (sent & h' & seq' & _ & E1 & E2);
    [done|repeat constructor|done|done|repeat constructor; unfold is_u32; cbn; lia|].
  exists sent, h', seq'. split; [exact E1|exact E2].
Defined.

(** A reading without its time. *)
Definition reading_of (x : extreme) : Z * Z * Z := (x_hop_switch_id x, x_value x, x_hop_latency x).
Definition reading_shown (d : deed) : option (Z * Z * Z) :=
  match d with Report _ _ sw q l => Some (sw, q, l) | _ => None end.
(** C17: Whatever happens (polls that follow each other before the client's thread
    gets the mutex, buffers rewritten meanwhile, other clients, a client that stops
    taking messages, a connection cut after any number of them), the service ends
    once the client is gone, and the client's log shows only readings that were
    published, none of them more often than it was; what it can miss are
    publications that were overtaken by the next poll or taken by another client. *)
Theorem client_log_was_published evs e s h seq j1 j2 lm n :
  gone 0 e = true → idle_ret h → Forall extreme_ok (mjoin (published <$> polls_of s evs)) →
  ∃ sent b' seq' ds,
    fDoHpnReadAll htonl false (evs ++ leaves e) j1 j2 (mkBoard s h) seq = Ret (sent, b', seq') ∧
    main ["client"] (session (take n sent) lm) = Ret ("127.0.0.1", 5525, log_of ds, Exit 0) ∧
    reading_shown <$> ds ⊆+ (λ x, Some (reading_of x)) <$> mjoin (published <$> polls_of s evs).
Proof.
  intros He Hh Hok. destruct (idle_ok htonl h Hh) as [Hret Ha].
  destruct (sent_was_published htonl j1 j2 evs e false s h seq He Hret) as (sent & b' & seq' & E & Hr & Hs).
  rewrite Ha in Hs. exists sent, b', seq', (report_of <$> take n sent). split; [exact E|].
  split; [apply session_logged; by apply Forall_take|].
  set (rd := λ t : Z * Z * Z, Some (ntohl t.1.1, ntohl t.1.2, ntohl t.2)).
  assert (reading_shown <$> (report_of <$> take n sent) = rd <$> take n (numbers <$> sent)) as ->
    by (rewrite <- fmap_take, <- !list_fmap_compose; done).
  assert ((λ x, Some (reading_of x)) <$> mjoin (published <$> polls_of s evs) =
          rd <$> (readings htonl <$> mjoin (published <$> polls_of s evs))) as ->.
  { rewrite <- list_fmap_compose. apply list_fmap_ext. intros i x Hx. pose proof (Forall_lookup_1 _ _ _ _ Hok Hx) as (? & ? & ?).
    unfold rd, readings, reading_of. cbn -[ntohl htonl]. by rewrite !ntohl_htonl. }
  apply fmap_submseteq. etransitivity; [|exact Hs]. apply sublist_submseteq, sublist_take.
Qed.
(** Two polls before the client's thread gets the mutex, the second with one
    extreme: the first reading is lost, and the second message of the first poll is
    sent behind the reading of the later one. *)
Lemma client_log_was_published_witness :
  ∃ sent b' seq' ds,
    fDoHpnReadAll htonl false ([Sampled poll_both; PollEnds; Sampled poll_one; PollEnds; Look (λ _, 0)] ++ leaves 11)
      zero_msg zero_msg (mkBoard sampler_init hpnret_init) 7 = Ret (sent, b', seq') ∧
    main ["client"] (session (take 5 sent) zero_msg) = Ret ("127.0.0.1", 5525, log_of ds, Exit 0) ∧
    reading_shown <$> ds ⊆+
      (λ x, Some (reading_of x)) <$> mjoin (published <$> polls_of sampler_init [Sampled poll_both; PollEnds; Sampled poll_one; PollEnds; Look (λ _, 0)]) ∧
    length sent = 2%nat.
Proof.
  destruct (client_log_was_published [Sampled poll_both; PollEnds; Sampled poll_one; PollEnds; Look (λ _, 0)] 11 sampler_init hpnret_init
    7 zero_msg zero_msg zero_msg 5) as (sent & b' & seq' & ds & E & Em & H);
    [done|done|repeat constructor; unfold is_u32; cbn; lia|].
  exists sent, b', seq', ds. split; [exact E|]. split; [exact Em|]. split; [exact H|].
  vm_compute in E. by simplify_eq.
Defined.

(** When the first connection fails (as the value of [Connect] tells), the jump
    back, meant to try again, meets the request already in network order: the
    client sends nothing and ends with 1, whatever follows. *)
Theorem failed_connect_ends_client argv addr port rc ks :
  rc ≠ 0 → server argv = Ret (addr, port) →
  main argv (CConnect rc :: ks) = Ret (addr, port mod 2 ^ 16, [], Exit 1).
Proof.
  intros Hrc Es. unfold main. rewrite Es. cbn [mbind res_bind]. apply Z.eqb_neq in Hrc.
  rewrite (run_pass _ _ [] (prepare client_init <| hpnMsg2 := start_msg |>) ks);
    [|transitivity (if negb (rc =? 0) then Ret ([], Again (prepare client_init <| hpnMsg2 := start_msg |>) ks)
        else cli_again (CConnect rc :: ks) client_init : res (list deed * step));
      [unfold cli_again; cbn -[htonl]; by rewrite Hrc|by rewrite Hrc]].
  rewrite (run_exit _ _ [] (Exit 1)); reflexivity.
Qed.
Lemma failed_connect_ends_client_witness :
  main ["client"; "-p"; "5530"] [CConnect (-1); CConnect 0; CWrite false] = Ret ("127.0.0.1", 5530, [], Exit 1).
Proof. apply (failed_connect_ends_client ["client"; "-p"; "5530"] "127.0.0.1" 5530 (-1)); [done|reflexivity]. Defined.
