(* ===== verification/BinnClient.v ===== *)
(** * The exchange with binn objects

    src/userspace/mybinncli.c, the test client for a daemon built with
    HPNSSH_QFACTOR_BINN, and what that build changes in the daemon: requests and
    replies are binn objects in host order instead of [struct PeerMsg].

    binn is a library outside the repository: a class states what the code uses
    of it.  An object is the list of the fields set, in order; its bytes are those
    that [binn_ptr] and [binn_size] delimit; the readers take a buffer.  An
    instance (a layout that stores a number in as few bytes as it needs) shows
    that the class is not empty and serves the examples. *)
From Stdlib Require Import ZArith Lia Ascii String.
From stdpp Require Import base strings numbers option list.
From S2P Require Import Prelude CString Ring Transport FlowCounters Timers Telemetry HpnExchange HpnClient.
Open Scope Z_scope.

(** ** binn *)
Inductive bval := BUint32 (v : Z) | BStr (s : string).
Definition fields : Type := list (string * bval).
Class Binn := {
  binn_ptr : fields → list Z;
  binn_object_uint32 : string → list Z → Z;
  binn_object_str : string → list Z → option string
}.
Definition field_ok (f : string * bval) : Prop :=
  strlen f.1 < 256 ∧ match f.2 with BUint32 v => is_u32 v | BStr s => strlen s < 128 end.
(** What was set under a key is read under it. *)
Class BinnLaws `{Binn} : Prop := {
  binn_uint32_set fs k v :
    NoDup fs.*1 → Forall field_ok fs → (k, BUint32 v) ∈ fs → binn_object_uint32 k (binn_ptr fs) = v;
  binn_str_set fs k s :
    NoDup fs.*1 → Forall field_ok fs → (k, BStr s) ∈ fs → binn_object_str k (binn_ptr fs) = Some s
}.

Definition BUFFER_SIZE_FROM_SERVER : nat := 106.
Definition BUFFER_SIZE_FROM_CLIENT : nat := 19.
Record ServerBinnMsg := mkServerBinnMsg {
  sb_msg_type : Z; sb_op : Z; sb_hop_latency : Z; sb_queue_occupancy : Z; sb_switch_id : Z; sb_timestamp : option string
}.
Record ClientBinnMsg := mkClientBinnMsg { cb_msg_type : Z; cb_op : Z }.

(** ** The daemon's side *)
Definition fMake_Binn_Server_Object (m : PeerMsg) : fields :=
  [("msg_type", BUint32 (msg_no m)); ("op", BUint32 (value m)); ("hop_latency", BUint32 (hop_latency m));
   ("queue_occupancy", BUint32 (queue_occupancy m)); ("switch_id", BUint32 (switch_id m));
   ("timestamp", BStr (timestamp m))].
(** The replies of the build: those of HpnExchange, in host order. *)
Definition host_order (x : Z) : Z := x.

Section Exchange.
Context `{Binn}.
(** [str_cli] of the daemon: the bytes it hands to [Writen]. *)
Definition server_bytes (m : PeerMsg) : list Z := binn_ptr (fMake_Binn_Server_Object m).
Definition fRead_Binn_Client_Object (obj : list Z) : ClientBinnMsg :=
  mkClientBinnMsg (binn_object_uint32 "msg_type" obj) (binn_object_uint32 "op" obj).
(** [doProcessHpnClientReq]: what each [Readn] leaves in [from_cli], until the
    connection is closed. *)
Inductive binn_input := BinnClosed | BinnBuf (from_cli : list Z).
Definition binn_request_of (obj : list Z) : option hpn_request :=
  let sMsg := fRead_Binn_Client_Object obj in
  if cb_msg_type sMsg =? HPNSSH_MSG then Some (fDoHpnAssessment (cb_op sMsg)) else None.
Fixpoint doProcessHpnClientReq (ins : list binn_input) : res (list hpn_request) :=
  match ins with
  | [] => Blocked
  | BinnClosed :: _ => Ret []
  | BinnBuf buf :: ins' =>
      rs ← doProcessHpnClientReq ins';
      Ret (match binn_request_of buf with Some r => r :: rs | None => rs end)
  end.

(** ** The client *)
Inductive work_phases := STARTING | RUNNING | SHUTDOWN.
Record BinnClient := mkBinnClient { cliHpnBinnMsg : ClientBinnMsg; vShutdown : bool; vDebugLevel : Z; current_phase : work_phases }.
Definition set_op (v : Z) (c : BinnClient) : BinnClient :=
  mkBinnClient (mkClientBinnMsg (cb_msg_type (cliHpnBinnMsg c)) v) (vShutdown c) (vDebugLevel c) (current_phase c).
Definition client_init : BinnClient := mkBinnClient (mkClientBinnMsg 0 HPNSSH_START) false 1 STARTING.
Definition handler (s : signal) (c : BinnClient) : BinnClient :=
  match s with
  | SIGINT => mkBinnClient (cliHpnBinnMsg c) true (vDebugLevel c) (current_phase c)
  | SIGUSR1 => mkBinnClient (cliHpnBinnMsg c) (vShutdown c) (if vDebugLevel c <? 3 then vDebugLevel c + 1 else 0) (current_phase c)
  end.
Definition handle_all (sigs : list signal) (c : BinnClient) : BinnClient := foldl (λ c s, handler s c) c sigs.
Definition fMake_Binn_Client_Object (m : ClientBinnMsg) : fields :=
  [("msg_type", BUint32 (cb_msg_type m)); ("op", BUint32 (cb_op m))].
Definition client_bytes (m : ClientBinnMsg) : list Z := binn_ptr (fMake_Binn_Client_Object m).
Definition fRead_Binn_Server_Object (obj : list Z) : ServerBinnMsg :=
  mkServerBinnMsg (binn_object_uint32 "msg_type" obj) (binn_object_uint32 "op" obj) (binn_object_uint32 "hop_latency" obj)
    (binn_object_uint32 "queue_occupancy" obj) (binn_object_uint32 "switch_id" obj) (binn_object_str "timestamp" obj).

(** What the kernel answers, call by call: [socket]; [inet_pton]; the signals
    handled until [Connect] returned and its value (1 for a failure); whether a
    write ends the process with SIGPIPE; the signals handled until [Readn]
    returned, its value, and the buffer [from_cli] then. *)
Inductive call :=
| CSocket (ok : bool)
| CPton (n : Z)
| CConnect (sigs : list signal) (rc : Z)
| CWrite (sigpipe : bool)
| CReadn (sigs : list signal) (n : Z) (from_cli : list Z).
Inductive deed :=
| Sending (bytes : list Z)
| Report (time : string) (ph : work_phases) (switch qocc latency : Z)
| InvalidValue (v : Z)
| InvalidMessage (no : Z)
| Closing.

(** The report takes the address of the time stamp from the object; there is none
    when the object has no such string. *)
Definition report (c : BinnClient) (m : ServerBinnMsg) : res (list deed) :=
  if 0 <? vDebugLevel c then
    match sb_timestamp m with
    | Some ts => Ret [Report ts (current_phase c) (sb_switch_id m) (sb_queue_occupancy m) (sb_hop_latency m)]
    | None => Ub
    end
  else Ret [].
Definition fDoHpnReadFS := report.
Definition fDoHpnReadAllFS := report.
Definition fDoHpnFromServer (val : Z) (c : BinnClient) (m : ServerBinnMsg) : res (list deed) :=
  if val =? HPNSSH_READ_FS then fDoHpnReadFS c m
  else if val =? HPNSSH_READALL_FS then fDoHpnReadAllFS c m
  else Ret [InvalidValue val].
Definition from_server (c : BinnClient) (obj : list Z) : res (list deed) :=
  let m := fRead_Binn_Server_Object obj in
  if sb_msg_type m =? HPNSSH_MSG then fDoHpnFromServer (sb_op m) c m else Ret [InvalidMessage (sb_msg_type m)].
Fixpoint process_request (readonce : bool) (ks : list call) (c : BinnClient) : res (list deed * list call * BinnClient) :=
  match ks with
  | CReadn sigs n buf :: ks' =>
      let c := handle_all sigs c in
      if n =? 0 then Ret ([], ks', c)
      else if vShutdown c then Ret ([], ks', c)
      else
        ds ← from_server c buf;
        if readonce then Ret (ds, ks', c)
        else '(ds', ks', c') ← process_request readonce ks' c; Ret (ds ++ ds', ks', c')
  | _ => Blocked
  end.

(** *** The state machine of [main] *)
(** [str_cli]: false when the write ended the process; its answer is not used. *)
Definition str_cli (ks : list call) : res (bool * list call) :=
  match ks with CWrite p :: ks' => Ret (negb p, ks') | _ => Blocked end.
Definition step := pass_end BinnClient call outcome.
(** SHUTDOWN follows a SIGINT; otherwise the request is made again. *)
Definition next_request (v : Z) (c : BinnClient) : BinnClient :=
  if vShutdown c then mkBinnClient (mkClientBinnMsg (cb_msg_type (cliHpnBinnMsg c)) HPNSSH_SHUTDOWN) false (vDebugLevel c) (current_phase c)
  else set_op v c.
(** A request and what it brings. *)
Definition request (v : Z) (readonce : bool) (ks : list call) (c : BinnClient) : res (list deed * step) :=
  '(alive, ks) ← str_cli ks;
  if alive : bool then
    '(ds, ks, c') ← process_request readonce ks c;
    Ret (Sending (client_bytes (cliHpnBinnMsg c)) :: ds, Again (next_request v c') ks)
  else Ret ([], Done Killed).
Definition connect_step (ks : list call) (c : BinnClient) : res (list deed * step) :=
  match ks with
  | CSocket false :: _ => Ret ([], Done (Exit 2))
  | CSocket true :: CPton n :: ks =>
      if n =? 0 then Ret ([], Done (Exit 1))
      else
        match ks with
        | CConnect sigs rc :: ks =>
            let c := handle_all sigs c in
            if negb (rc =? 0) then Ret ([], Again c ks)
            else Ret ([], Again (mkBinnClient (mkClientBinnMsg (cb_msg_type (cliHpnBinnMsg c)) HPNSSH_READALL)
                                   (vShutdown c) (vDebugLevel c) RUNNING) ks)
        | _ => Blocked
        end
  | _ => Blocked
  end.
Definition cli_again (ks : list call) (c0 : BinnClient) : res (list deed * step) :=
  let v := cb_op (cliHpnBinnMsg c0) in
  let c := mkBinnClient (mkClientBinnMsg HPNSSH_MSG v) (vShutdown c0) (vDebugLevel c0) (current_phase c0) in
  if v =? HPNSSH_START then connect_step ks c
  else if v =? HPNSSH_SHUTDOWN then Ret ([Closing], Done (Exit 0))
  else if v =? HPNSSH_READ then request HPNSSH_READ true ks c
  else if v =? HPNSSH_READALL then request HPNSSH_READALL false ks c
  else Ret ([], Done (Exit 1)).
Definition run : list call → BinnClient → res (list deed * outcome) := run_passes cli_again.
(** [main]: the address and the port are those of [HpnClient.server]. *)
Definition main (argv : list string) (ks : list call) : res (string * Z * list deed * outcome) :=
  '(addr, port) ← server argv; '(ds, o) ← run ks client_init; Ret (addr, port mod 2 ^ 16, ds, o).

(** *** The stream *)
(** What [Readn(sockfd, from_cli, sizeof(from_cli))] brings from a socket, [k]
    times; bytes beyond those read keep what they held.  No signal comes meanwhile:
    the client's [readn] is then the daemon's ([HpnClient.readn_as_daemon]). *)
Fixpoint frames (k : nat) (old : list Z) (s : sock) : list call :=
  match k with
  | O => []
  | S k' =>
      let '(n, buf, s') := Readn s BUFFER_SIZE_FROM_SERVER in
      let from_cli := buf ++ drop (length buf) old in
      CReadn [] n from_cli :: frames k' from_cli s'
  end.
End Exchange.

(** ** A layout for the examples *)
(** A number takes one, two or four bytes, whichever it needs. *)
Definition bytes_of (s : string) : list Z := code <$> String.list_ascii_of_string s.
Definition string_of (bs : list Z) : string := String.string_of_list_ascii ((λ b, ascii_of_N (Z.to_N b)) <$> bs).
Definition number_bytes (v : Z) : list Z :=
  if v <? 2 ^ 8 then [32; v]
  else if v <? 2 ^ 16 then [64; v / 2 ^ 8; v mod 2 ^ 8]
  else [96; v / 2 ^ 24; v / 2 ^ 16 mod 2 ^ 8; v / 2 ^ 8 mod 2 ^ 8; v mod 2 ^ 8].
Definition key_bytes (s : string) : list Z := strlen s :: bytes_of s.
Definition entry (f : string * bval) : list Z :=
  key_bytes f.1 ++ match f.2 with BUint32 v => number_bytes v | BStr s => 160 :: key_bytes s ++ [0] end.
Definition object_bytes (fs : fields) : list Z :=
  let body := concat (entry <$> fs) in
  let size := 3 + Z.of_nat (length body) in
  if size <? 2 ^ 7 then 226 :: size :: Z.of_nat (length fs) :: body
  else let size := 3 + size in
       [226; 2 ^ 7 + size / 2 ^ 24; size / 2 ^ 16 mod 2 ^ 8; size / 2 ^ 8 mod 2 ^ 8; size mod 2 ^ 8; Z.of_nat (length fs)] ++ body.
(** Readers: a counted string, a value, an object. *)
Definition take_key (bs : list Z) : option (string * list Z) :=
  match bs with
  | n :: bs' => Some (string_of (take (Z.to_nat n) bs'), drop (Z.to_nat n) bs')
  | [] => None
  end.
Definition take_val (bs : list Z) : option (bval * list Z) :=
  match bs with
  | 32 :: v :: r => Some (BUint32 v, r)
  | 64 :: a :: b :: r => Some (BUint32 (a * 2 ^ 8 + b), r)
  | 96 :: a :: b :: c :: d :: r => Some (BUint32 (((a * 2 ^ 8 + b) * 2 ^ 8 + c) * 2 ^ 8 + d), r)
  | 160 :: r => match take_key r with Some (s, r) => Some (BStr s, drop 1 r) | None => None end
  | _ => None
  end.
Fixpoint find_key (n : nat) (k : string) (bs : list Z) : option bval :=
  match n with
  | O => None
  | S n' =>
      '(k', bs) ← take_key bs; '(v, bs) ← take_val bs;
      if decide (k' = k) then Some v else find_key n' k bs
  end.
Definition find_in_object (k : string) (bs : list Z) : option bval :=
  match bs with
  | 226 :: size :: r =>
      match (if size <? 2 ^ 7 then r else drop 3 r) with n :: body => find_key (Z.to_nat n) k body | [] => None end
  | _ => None
  end.
#[export] Instance compact : Binn := {|
  binn_ptr := object_bytes;
  binn_object_uint32 k bs := match find_in_object k bs with Some (BUint32 v) => v | _ => 0 end;
  binn_object_str k bs := match find_in_object k bs with Some (BStr s) => Some s | _ => None end
|}.

Lemma string_of_bytes s : string_of (bytes_of s) = s.
Proof.
  unfold string_of, bytes_of. induction s as [|c s IH]; [done|]. cbn. rewrite IH. f_equal.
  unfold code. by rewrite N2Z.id, ascii_N_embedding.
Qed.
Lemma length_bytes_of s : Z.to_nat (strlen s) = length (bytes_of s).
Proof. unfold strlen, bytes_of. rewrite length_fmap, Nat2Z.id. induction s as [|c s IH]; [done|]. cbn. by rewrite <- IH. Qed.
Lemma take_key_bytes s r : take_key (key_bytes s ++ r) = Some (s, r).
Proof.
  unfold key_bytes. cbn [app take_key]. rewrite length_bytes_of, take_app_length, drop_app_length. by rewrite string_of_bytes.
Qed.
Lemma take_number v r : is_u32 v → take_val (number_bytes v ++ r) = Some (BUint32 v, r).
Proof.
  intros [H0 H1]. unfold number_bytes. destruct (Z.ltb_spec v (2 ^ 8)); [done|]. destruct (Z.ltb_spec v (2 ^ 16)).
  - cbn [app take_val]. do 3 f_equal. pose proof (Z.div_mod v (2 ^ 8)). lia.
  - cbn [app take_val]. do 3 f_equal.
    replace (v / 2 ^ 24) with (v / 2 ^ 8 / 2 ^ 8 / 2 ^ 8) by (rewrite !Z.div_div by lia; done).
    replace (v / 2 ^ 16) with (v / 2 ^ 8 / 2 ^ 8) by (rewrite Z.div_div by lia; done).
    pose proof (Z.div_mod (v / 2 ^ 8 / 2 ^ 8) (2 ^ 8)). pose proof (Z.div_mod (v / 2 ^ 8) (2 ^ 8)). pose proof (Z.div_mod v (2 ^ 8)). lia.
Qed.
Lemma take_entry k v r :
  field_ok (k, v) → ∃ r', take_key (entry (k, v) ++ r) = Some (k, r') ∧ take_val r' = Some (v, r).
Proof.
  intros [_ Hv]. cbn [snd] in Hv. unfold entry. cbn [fst snd]. rewrite <- app_assoc, take_key_bytes.
  eexists. split; [reflexivity|]. destruct v as [v|s]; [by apply take_number|]. cbn [app take_val].
  rewrite <- app_assoc, take_key_bytes. done.
Qed.
Lemma find_key_set fs k v r :
  NoDup fs.*1 → Forall field_ok fs → (k, v) ∈ fs → find_key (length fs) k (concat (entry <$> fs) ++ r) = Some v.
Proof.
  intros Hnd Hok Hin. induction fs as [|[k' v'] fs IH]; [by apply not_elem_of_nil in Hin|].
  apply Forall_cons_1 in Hok as [Hf Hok]. apply NoDup_cons in Hnd as [Hk Hnd]. cbn [length find_key fmap list_fmap concat].
  rewrite <- app_assoc. destruct (take_entry k' v' (concat (entry <$> fs) ++ r) Hf) as (r' & -> & E).
  cbn [mbind option_bind]. rewrite E. apply elem_of_cons in Hin as [Hin|Hin]; cbn [mbind option_bind].
  - simplify_eq. by rewrite decide_True.
  - rewrite decide_False; [by apply IH|]. intros ->. apply Hk. cbn. by apply (list_elem_of_fmap_2 fst _ (k, v)).
Qed.
Lemma find_in_object_set fs k v :
  NoDup fs.*1 → Forall field_ok fs → (k, v) ∈ fs → find_in_object k (object_bytes fs) = Some v.
Proof.
  intros Hnd Hok Hin. unfold object_bytes. cbv zeta. set (size := 3 + Z.of_nat _).
  assert (0 ≤ size) as Hs by lia. pose proof (find_key_set fs k v [] Hnd Hok Hin) as E. rewrite app_nil_r in E.
  destruct (Z.ltb_spec size (2 ^ 7)) as [H|H]; cbn [find_in_object app].
  - rewrite (proj2 (Z.ltb_lt size (2 ^ 7)) H). by rewrite Nat2Z.id.
  - rewrite (proj2 (Z.ltb_ge (2 ^ 7 + (3 + size) / 2 ^ 24) (2 ^ 7))) by (pose proof (Z.div_pos (3 + size) (2 ^ 24)); lia).
    cbn [drop]. by rewrite Nat2Z.id.
Qed.
#[export] Instance compact_laws : BinnLaws.
Proof.
  constructor; intros fs k v Hnd Hok Hin; cbn [binn_object_uint32 binn_object_str binn_ptr compact];
    by rewrite (find_in_object_set _ _ _ Hnd Hok Hin).
Qed.

(** ** Properties *)
Ltac solve_fields := repeat (apply Forall_cons_2; [by split|]); apply Forall_nil_2.
Section Laws.
Context `{BinnLaws}.
(** *** Objects read back *)
Definition readings_ok (m : PeerMsg) : Prop :=
  is_u32 (msg_no m) ∧ is_u32 (value m) ∧ is_u32 (hop_latency m) ∧ is_u32 (queue_occupancy m) ∧ is_u32 (switch_id m) ∧
  strlen (timestamp m) < 128.
Lemma server_object_reads m :
  readings_ok m →
  fRead_Binn_Server_Object (server_bytes m) =
    mkServerBinnMsg (msg_no m) (value m) (hop_latency m) (queue_occupancy m) (switch_id m) (Some (timestamp m)).
Proof.
  intros (H1 & H2 & H3 & H4 & H5 & H6). unfold fRead_Binn_Server_Object, server_bytes.
  assert (NoDup (fMake_Binn_Server_Object m).*1) as Hnd by (apply (bool_decide_eq_true_1 _); vm_compute; reflexivity).
  assert (Forall field_ok (fMake_Binn_Server_Object m)) as Hok by solve_fields.
  f_equal; (apply binn_uint32_set || apply binn_str_set); try done; apply list_elem_of_In; cbn; tauto.
Qed.
Lemma client_object_reads m :
  is_u32 (cb_msg_type m) → is_u32 (cb_op m) → fRead_Binn_Client_Object (client_bytes m) = m.
Proof.
  intros H1 H2. unfold fRead_Binn_Client_Object, client_bytes. destruct m as [t o]. cbn [cb_msg_type cb_op] in *.
  assert (NoDup (fMake_Binn_Client_Object (mkClientBinnMsg t o)).*1) as Hnd
    by (apply (bool_decide_eq_true_1 _); vm_compute; reflexivity).
  assert (Forall field_ok (fMake_Binn_Client_Object (mkClientBinnMsg t o))) as Hok by solve_fields.
  f_equal; apply binn_uint32_set; try done; apply list_elem_of_In; cbn; tauto.
Qed.

(** *** The stream of objects *)
(** However the network cuts the stream, objects of the size of the buffer are
    read one by one. *)
Lemma frames_exact bs rest old s :
  length old = BUFFER_SIZE_FROM_SERVER → Forall (λ b, length b = BUFFER_SIZE_FROM_SERVER) bs → stream s = concat bs ++ rest →
  frames (length bs) old s = (λ b, CReadn [] 106 b) <$> bs.
Proof.
  intros Ho Hbs. revert old s Ho. induction Hbs as [|b bs Hb _ IH]; intros old s Ho Hs; [done|].
  cbn [length frames fmap list_fmap]. unfold Readn. cbn [concat] in Hs. rewrite <- app_assoc in Hs.
  destruct (readn_exact s BUFFER_SIZE_FROM_SERVER []) as (s' & -> & Hs'); [rewrite Hs, length_app, Hb; lia|].
  rewrite Hs in Hs' |- *. rewrite <- Hb in Hs' |- *. rewrite take_app_length. rewrite drop_app_length in Hs'.
  cbn [app]. rewrite (drop_ge old) by lia. rewrite app_nil_r, (IH b s') by done. f_equal. change 106 with (Z.of_nat BUFFER_SIZE_FROM_SERVER). by rewrite <- Hb.
Qed.

(** *** A session *)
(** What the client shows of an extreme. *)
Definition shown_binn (x : extreme) : deed :=
  Report (x_ms_ctime_buf x) RUNNING (x_hop_switch_id x) (x_value x) (x_hop_latency x).
Definition publishable (x : extreme) : Prop := extreme_ok x ∧ strlen (x_ms_ctime_buf x) < 128.
Definition reading_client : BinnClient := mkBinnClient (mkClientBinnMsg HPNSSH_MSG HPNSSH_READALL) false 1 RUNNING.
Lemma reply_shown m x : replies host_order m x → publishable x → from_server reading_client (server_bytes m) = Ret [shown_binn x].
Proof.
  intros [H1 H2 H3 H4 H5 H6] ((? & ? & ?) & ?). unfold from_server. rewrite server_object_reads.
  - unfold shown_binn. cbn [sb_msg_type sb_op]. rewrite H1, H2, H3, H4, H5, H6. done.
  - unfold readings_ok. rewrite H1, H2, H3, H4, H5, H6. split_and!; (done || unfold is_u32; lia).
Qed.
Lemma replies_shown ms xs last :
  Forall2 (replies host_order) ms xs → Forall publishable xs →
  process_request false (((λ b, CReadn [] 106 b) <$> (server_bytes <$> ms)) ++ [CReadn [SIGINT] (-1) last])
    reading_client = Ret (shown_binn <$> xs, [], handle_all [SIGINT] reading_client).
Proof.
  intros Hms. induction Hms as [|m x ms xs Hm _ IH]; intros Hok; [done|]. apply Forall_cons_1 in Hok as [Hx Hok].
  cbn [fmap list_fmap app process_request]. cbn [handle_all foldl Z.eqb vShutdown reading_client].
  specialize (IH Hok). unfold handle_all in IH. rewrite (reply_shown m x) by done. cbn [mbind res_bind]. by rewrite IH.
Qed.

(** *** Passes *)
Lemma pr_uses once ks c ds ks' c' : process_request once ks c = Ret (ds, ks', c') → (length ks' < length ks)%nat.
Proof.
  revert c ds ks' c'. induction ks as [|[|n|sigs rc|p|sigs n buf] ks IH]; intros c ds ks' c' E; cbn [process_request] in E; try done.
  destruct (n =? 0); [simplify_eq; cbn; lia|]. destruct (vShutdown _); [simplify_eq; cbn; lia|].
  inv_bind E as ds1 E1. destruct once; [simplify_eq; cbn; lia|].
  inv_bind E as [[ds2 ks2] c2] E2. simplify_eq. apply IH in E2. cbn. lia.
Qed.
Lemma request_uses v once ks c ds c' ks' : request v once ks c = Ret (ds, Again c' ks') → (length ks' < length ks)%nat.
Proof.
  unfold request, str_cli. intros E. destruct ks as [|[|n|sigs rc|p|sigs n buf] ks]; try done. cbn [mbind res_bind] in E.
  destruct p; cbn [negb] in E; [done|]. inv_bind E as [[ds1 ks1] c1] E1. simplify_eq. apply pr_uses in E1. cbn. lia.
Qed.
Lemma binn_pass_uses ks c ds c' ks' : cli_again ks c = Ret (ds, Again c' ks') → (length ks' < length ks)%nat.
Proof.
  unfold cli_again, connect_step. intros E. repeat case_match; try done; try (by eapply request_uses); simplify_eq; cbn; lia.
Qed.
Lemma binn_run_pass ks c ds c' ks' :
  cli_again ks c = Ret (ds, Again c' ks') → run ks c = ('(ds', o) ← run ks' c'; Ret (ds ++ ds', o)).
Proof. apply run_again, binn_pass_uses. Qed.
Lemma binn_run_exit ks c ds o : cli_again ks c = Ret (ds, Done o) → run ks c = Ret (ds, o).
Proof. apply run_done. Qed.
(** The type of the message is set in each pass. *)
Definition typed (c : BinnClient) : BinnClient :=
  mkBinnClient (mkClientBinnMsg HPNSSH_MSG (cb_op (cliHpnBinnMsg c))) (vShutdown c) (vDebugLevel c) (current_phase c).
Lemma run_typed ks c : run ks (typed c) = run ks c.
Proof. done. Qed.
Lemma handle_all_typed sigs c : handle_all sigs (typed c) = typed (handle_all sigs c).
Proof. revert c. induction sigs as [|[] sigs IH]; intros c; [done|apply (IH (handler SIGINT c))|apply (IH (handler SIGUSR1 c))]. Qed.
Lemma handle_all_op sigs c : cb_op (cliHpnBinnMsg (handle_all sigs c)) = cb_op (cliHpnBinnMsg c).
Proof. revert c. induction sigs as [|[] sigs IH]; intros c; [done|apply (IH (handler SIGINT c))|apply (IH (handler SIGUSR1 c))]. Qed.
Lemma run_unbind (r : res (list deed * outcome)) : ('(ds, o) ← r; Ret ([] ++ ds, o)) = r.
Proof. by destruct r as [[]| |]. Qed.

Definition refused (f : list signal * Z) : list call := [CSocket true; CPton 1; CConnect f.1 f.2].
(** Connections that are refused are tried again, as often as they are refused and
    whatever signals come: nothing is sent or shown meanwhile, and of the signals
    only the flag and the debug level are kept, so that a SIGINT, too, waits for
    the connection. *)
Theorem refused_client_keeps_trying fs ks c :
  Forall (λ f, f.2 ≠ 0) fs → cb_op (cliHpnBinnMsg c) = HPNSSH_START →
  run (concat (refused <$> fs) ++ ks) c = run ks (handle_all (mjoin fs.*1) c).
Proof.
  intros Hfs. revert c. induction Hfs as [|[sigs rc] fs Hrc _ IH]; intros c Hc; [done|].
  rewrite (binn_run_pass _ _ [] (handle_all sigs (typed c)) (concat (refused <$> fs) ++ ks)).
  - rewrite run_unbind, handle_all_typed, run_typed, IH by (by rewrite handle_all_op).
    unfold handle_all. cbn [fmap list_fmap mjoin list_join fst]. by rewrite foldl_app.
  - unfold cli_again. rewrite Hc. cbn [fmap list_fmap concat app refused fst snd connect_step Z.eqb]. cbn in Hrc.
    apply Z.eqb_neq in Hrc. unfold typed. rewrite Hrc, Hc. done.
Qed.

Lemma session_run ks ds c last :
  process_request false (ks ++ [CReadn [SIGINT] (-1) last]) reading_client = Ret (ds, [], c) → vShutdown c = true →
  run (CSocket true :: CPton 1 :: CConnect [] 0 :: CWrite false :: ks ++ [CReadn [SIGINT] (-1) last]) client_init =
    Ret (Sending (client_bytes (mkClientBinnMsg HPNSSH_MSG HPNSSH_READALL)) :: ds ++ [Closing], Exit 0).
Proof.
  intros E Hc.
  rewrite (binn_run_pass _ _ [] reading_client (CWrite false :: ks ++ [CReadn [SIGINT] (-1) last])) by done.
  rewrite (binn_run_pass _ _ (Sending (client_bytes (mkClientBinnMsg HPNSSH_MSG HPNSSH_READALL)) :: ds) (next_request HPNSSH_READALL c) []).
  - rewrite (binn_run_exit _ _ [Closing] (Exit 0)) by (unfold next_request; rewrite Hc; done). done.
  - transitivity ('(ds, ks, c') ← process_request false (ks ++ [CReadn [SIGINT] (-1) last]) reading_client;
      Ret (Sending (client_bytes (mkClientBinnMsg HPNSSH_MSG HPNSSH_READALL)) :: ds, Again (next_request HPNSSH_READALL c') ks) : res (list deed * step)).
    + reflexivity.
    + by rewrite E.
Qed.

(** C27: A session with binn objects.  The daemon's read of 19 bytes takes the
    client's object as a READALL.  The thread that serves it waits for
    [hpnretcdone] and takes what is published; as long as it gets the mutex after
    each poll before the telemetry thread touches its extremes again, and before
    the thread of another client, then, however the network cuts the stream of its
    replies, the client's log shows exactly the extremes that were published, poll
    by poll, until SIGINT closes the connection and ends the client with 0;
    provided that the library lays out the request in 19 bytes and every reply in
    106, which are the sizes of the buffers. *)
Theorem binn_session_shows_replies evs e s h seq j1 j2 :
  gone 0 e = true → Forall steady evs → prompt false evs = true → idle_ret h →
  Forall publishable (mjoin (published <$> polls_of s evs)) →
  let req := client_bytes (mkClientBinnMsg HPNSSH_MSG HPNSSH_READALL) in
  ∃ sent b' seq', fDoHpnReadAll host_order false (evs ++ leaves e) j1 j2 (mkBoard s h) seq = Ret (sent, b', seq') ∧
    ∀ s1 s2 old last,
      length req = BUFFER_SIZE_FROM_CLIENT → Forall (λ b, length b = BUFFER_SIZE_FROM_SERVER) (server_bytes <$> sent) →
      length old = BUFFER_SIZE_FROM_SERVER → stream s1 = req → stream s2 = concat (server_bytes <$> sent) →
      (∃ n buf s1', Readn s1 BUFFER_SIZE_FROM_CLIENT = (n, buf, s1') ∧
         doProcessHpnClientReq [BinnBuf buf; BinnClosed] = Ret [HpnReadAll]) ∧
      main ["mybinncli"] (CSocket true :: CPton 1 :: CConnect [] 0 :: CWrite false ::
                          frames (length sent) old s2 ++ [CReadn [SIGINT] (-1) last]) =
        Ret ("127.0.0.1", 5525, Sending req :: (shown_binn <$> mjoin (published <$> polls_of s evs)) ++ [Closing], Exit 0).
Proof.
  intros He Hev Hpr Hh Hpub req. destruct (served host_order j1 j2 evs e false s h seq He Hev Hpr Hh) as (sent & b' & seq' & E & Hsent).
  exists sent, b', seq'. split; [exact E|]. intros s1 s2 old last Hreq Hlen Hold Hs1 Hs2. split.
  - destruct (readn_exact s1 BUFFER_SIZE_FROM_CLIENT []) as (s1' & E1 & _); [rewrite Hs1; lia|].
    eexists _, _, s1'. split; [exact E1|]. rewrite Hs1, <- Hreq, firstn_all. cbn [app doProcessHpnClientReq mbind res_bind].
    unfold binn_request_of, req. rewrite client_object_reads by done. done.
  - assert (length sent = length (server_bytes <$> sent)) as -> by (by rewrite length_fmap).
    rewrite (frames_exact _ []) by (done || by rewrite app_nil_r).
    unfold main. cbn [server mbind res_bind].
    by rewrite (session_run _ (shown_binn <$> mjoin (published <$> polls_of s evs)) (handle_all [SIGINT] reading_client))
      by (done || by apply replies_shown).
Qed.
End Laws.

Definition demo_reply (lat : Z) : PeerMsg :=
  zero_msg <| msg_no := HPNSSH_MSG |> <| value := HPNSSH_READALL_FS |> <| hop_latency := lat |> <| queue_occupancy := 90 |>
    <| switch_id := 7 |> <| timestamp := "Mon May  1 12:00:00.250 2023:" |>.
Definition demo_poll : Sampler :=
  sampler_init <| perf_buffer_poll_start := false |> <| qinfo_min := mkExt 5 4000 1 10 "Mon May  1 12:00:00.150 2023:" |>
               <| qinfo_max := mkExt 90 5000 2 11 "Mon May  1 12:00:00.250 2023:" |>.
Definition one_poll : list hpn_event := [Look (λ _, 0); Sampled demo_poll; PollEnds; Look (λ _, 0)].
(** One poll with two extremes, which the daemon's thread waits for; the stream
    comes in two pieces, with an interruption. *)
Lemma binn_session_shows_replies_witness :
  ∃ sent h' seq', fDoHpnReadAll host_order false (one_poll ++ leaves 11) zero_msg zero_msg (mkBoard sampler_init hpnret_init) 7
                    = Ret (sent, h', seq') ∧
    main ["mybinncli"] (CSocket true :: CPton 1 :: CConnect [] 0 :: CWrite false ::
      frames 2 (repeat 0 106) [RdData (take 50 (concat (server_bytes <$> sent))); RdErr Transport.EINTR;
                               RdData (drop 50 (concat (server_bytes <$> sent)))] ++ [CReadn [SIGINT] (-1) []]) =
    Ret ("127.0.0.1", 5525,
         [Sending (client_bytes (mkClientBinnMsg HPNSSH_MSG HPNSSH_READALL)); shown_binn (qinfo_min demo_poll);
          shown_binn (qinfo_max demo_poll); Closing], Exit 0).
Proof.
  destruct (binn_session_shows_replies one_poll 11 sampler_init hpnret_init 7 zero_msg zero_msg) as (sent & h' & seq' & E & H).
  - reflexivity.
  - repeat constructor.
  - reflexivity.
  - split; reflexivity.
  - repeat (apply Forall_cons_2; [split; [cbv; split_and!; (reflexivity || discriminate)|vm_compute; reflexivity]|]). apply Forall_nil_2.
  - exists sent, h', seq'. split; [exact E|]. assert (E' := E). vm_compute in E'. injection E' as Es _ _.
    assert (length sent = 2%nat) as Hl by (rewrite <- Es; reflexivity).
    destruct (H [RdData (client_bytes (mkClientBinnMsg HPNSSH_MSG HPNSSH_READALL))]
      [RdData (take 50 (concat (server_bytes <$> sent))); RdErr Transport.EINTR; RdData (drop 50 (concat (server_bytes <$> sent)))]
      (repeat 0 106) []) as [_ E2].
    + vm_compute. reflexivity.
    + rewrite <- Es. repeat (apply Forall_cons_2; [vm_compute; reflexivity|]). apply Forall_nil_2.
    + reflexivity.
    + vm_compute. reflexivity.
    + rewrite <- Es. vm_compute. reflexivity.
    + rewrite Hl in E2. exact E2.
Defined.

Lemma refused_client_keeps_trying_witness :
  run (refused ([], 1) ++ refused ([SIGINT], 1) ++ [CSocket true; CPton 1; CConnect [] 0; CWrite false; CReadn [] 106 []]) client_init =
    Ret ([Sending (client_bytes (mkClientBinnMsg HPNSSH_MSG HPNSSH_READALL)); Closing], Exit 0).
Proof.
  transitivity (run [CSocket true; CPton 1; CConnect [] 0; CWrite false; CReadn [] 106 []] (handle_all [SIGINT] client_init)).
  - apply (refused_client_keeps_trying [([], 1); ([SIGINT], 1)]).
    + apply Forall_cons_2; [discriminate|]. apply Forall_cons_2; [discriminate|]. apply Forall_nil_2.
    + reflexivity.
  - reflexivity.
Defined.

Definition replies_of (ms : list PeerMsg) : list Z := concat (server_bytes <$> ms).
(** A layout that keeps small numbers small makes a reply longer than the buffer
    when a latency needs four bytes.  The client reads 106 bytes of it, and takes
    its next message from what is left: a reading that was published is not shown. *)
Example longer_reply_breaks_the_framing :
  length (replies_of [demo_reply 70000]) = 108%nat ∧
  ∃ d, main ["mybinncli"] (CSocket true :: CPton 1 :: CConnect [] 0 :: CWrite false ::
     frames 2 (repeat 0 106) [RdData (replies_of [demo_reply 70000; demo_reply 5000])] ++ [CReadn [SIGINT] (-1) []]) =
    Ret ("127.0.0.1", 5525,
         [Sending (client_bytes (mkClientBinnMsg HPNSSH_MSG HPNSSH_READALL)); d;
          InvalidMessage 0; Closing], Exit 0).
Proof. split; [|eexists]; vm_compute; reflexivity. Qed.
