(* ===== verification/Rtt.v ===== *)
(** * The round-trip thread and the channels of the interface

    [fDoRunFindHighestRtt] of user_dtn.c: each round pings the next DTN of the
    table in turn ([fFindRttUsingPing]), reads the highest round trip the kernel
    saw from bpftrace, and compares the two; [fDoManageRtt] returns at once, so
    a difference is only logged.  [fDoSetChannels], which nothing calls, computes
    the channel settings that [Bitrate.restore_channels] would undo.

    The outputs of the two tools, as lines, are inputs; [None] is a [popen] that
    fails. *)
From Stdlib Require Import ZArith Lia Ascii String.
From stdpp Require Import base list strings numbers option.
From S2P Require Import Prelude CString Dbl DtnTables.
Open Scope Z_scope.

(** ** The next DTN in turn *)
Definition advance (v : Z) : Z := if v + 1 =? MAX_NUM_IP_ATTACHED then 0 else v + 1.
(** The search from [vLastIpPinged], with [count] entries left to try: the entry
    found, if any, and where the next search starts. *)
Fixpoint next_ip (count : nat) (ips : list Z) (vLastIpPinged : Z) : res (option Z * Z) :=
  a ← of_opt (zget ips vLastIpPinged);
  match count with
  | O => Ret (None, vLastIpPinged)
  | S count' =>
      if a =? 0 then next_ip count' ips (advance vLastIpPinged)
      else Ret (Some vLastIpPinged, advance vLastIpPinged)
  end.

(** ** [fFindRttUsingPing] *)
(** One line: the text between the first two slashes after the equal sign of the
    summary, copied to [value[32]]. *)
Definition ping_line (buffer : string) : res (option double) :=
  match strstr buffer "avg" with
  | None => Ret None
  | Some f =>
      match strchr f "=" with
      | None => Ret None
      | Some f =>
          match strchr f "/" with
          | None => Ret None
          | Some f =>
              let f := drop_str 1 f in
              match strchr f "/" with
              | None => Ret None
              | Some _ =>
                  let value := (span (λ c, negb (Ascii.eqb c "/")) f).1 in
                  if 32 <=? strlen value then Ub else Ret (Some (sscanf_lf value))
              end
          end
      end
  end.
Fixpoint ping_lines (ls : list string) : res double :=
  match ls with
  | [] => Ret dzero
  | l :: ls' => r ← ping_line l; match r with Some v => Ret v | None => ping_lines ls' end
  end.
Definition fFindRttUsingPing (aDest_Ip2 : string) (out : option (list string)) : res double :=
  if String.eqb aDest_Ip2 "" then Ret dzero else
  match out with None => Ret dzero | Some ls => ping_lines ls end.

(** ** The kernel's round trips *)
(** [sscanf(buffer,"%lu",&rtt)] into a [long]; a line without a number leaves it. *)
Definition i64 (x : Z) : Z := (x + 2 ^ 63) mod 2 ^ 64 - 2 ^ 63.
Fixpoint starts_number (s : string) : bool :=
  match s with
  | EmptyString => false
  | String c s' => if isspace c then starts_number s' else isdigit c
  end.
Fixpoint highest (ls : list string) (rtt highest_rtt : Z) : Z :=
  match ls with
  | [] => highest_rtt
  | l :: ls' =>
      let rtt := if starts_number l then i64 (strtoul l) else rtt in
      highest ls' rtt (if highest_rtt <? rtt then rtt else highest_rtt)
  end.
(** The two differ by the factor, one is above the threshold, and there was a ping. *)
Definition rtt_differs (threshold : double) (factor : Z) (ping bpf : double) : bool :=
  dtruth ping && (dltb threshold ping || dltb threshold bpf) &&
  (dleb (dmul (dofZ factor) ping) bpf || dleb (dmul (dofZ factor) bpf) ping).

(** ** One round of [fDoRunFindHighestRtt] *)
Record renv := mkRenv {
  re_active : bool;                         (* [previous_average_tx_Gbits_per_sec] *)
  re_src : bool;                            (* [vIamASrcDtn] *)
  re_kafka : bool;
  re_dest : string;                         (* [aDest_Ip2] *)
  re_table : list sDest_Dtn_IPs_t;
  re_ping : string → option (list string);  (* output of "ping -c 3" *)
  re_bpf : option (list string);
  re_threshold : double;
  re_factor : Z
}.
Record RttState := mkRtt {
  vLastIpPinged : Z;
  highest_rtt_from_ping : double;
  highest_rtt_from_bpftrace : double
}.
#[export] Instance eta_Rtt : Settable RttState := fun r =>
  mkRtt (vLastIpPinged r) (highest_rtt_from_ping r) (highest_rtt_from_bpftrace r).
Definition rtt_init : RttState := mkRtt 0 dzero dzero.
(** The ping of a round, and the entry pinged. *)
Definition ping_step (e : renv) (r : RttState) : res (RttState * option Z) :=
  if negb (re_active e) then Ret (r, None)
  else if re_src e && negb (re_kafka e) then
    '(found, v) ← next_ip 10 (ed_dest_ip_addr <$> re_table e) (vLastIpPinged r);
    match found with
    | Some i =>
        d ← of_opt (zget (re_table e) i);
        p ← fFindRttUsingPing (ed_aDest_Ip2 d) (re_ping e (ed_aDest_Ip2 d));
        Ret (r <| highest_rtt_from_ping := p |> <| vLastIpPinged := v |>, Some i)
    | None => Ret (r <| highest_rtt_from_ping := dzero |> <| vLastIpPinged := v |>, None)
    end
  else if re_kafka e && negb (String.eqb (re_dest e) "") then
    p ← fFindRttUsingPing (re_dest e) (re_ping e (re_dest e));
    Ret (r <| highest_rtt_from_ping := p |>, None)
  else Ret (r, None).
(** How a round ends: the thread goes on (and whether it warned), or returns
    because bpftrace gave nothing. *)
Inductive rtt_end := RttNext (warned : bool) | RttReturn (rc : Z).
Definition rtt_round (e : renv) (r : RttState) : res (RttState * option Z * rtt_end) :=
  '(r, pinged) ← ping_step e r;
  if negb (re_src e) && negb (re_kafka e) then Ret (r, pinged, RttNext false) else
  match re_bpf e with
  | None => Ret (r, pinged, RttReturn (-1))
  | Some [] => Ret (r, pinged, RttReturn (-2))
  | Some (_ :: ls) =>
      let h := highest ls 0 0 in
      if h =? 0 then Ret (r, pinged, RttNext false)
      else
        let r := r <| highest_rtt_from_bpftrace := ddiv (dofZ h) d1000 |> in
        Ret (r, pinged, RttNext (rtt_differs (re_threshold e) (re_factor e)
                                   (highest_rtt_from_ping r) (highest_rtt_from_bpftrace r)))
  end.

(** ** [fDoSetChannels] *)
Record cenv := mkCenv {
  ce_device : string;
  ce_max : Z;               (* [netDevice_combined_channel_cfg_max_val] *)
  ce_only_combined : bool;
  ce_nproc : Z;
  ce_tuning : bool
}.
(** The command for [combined] combined channels. *)
Definition channels_cmd (e : cenv) (combined : Z) : string :=
  "ethtool -L " +:+ ce_device e +:+ " rx 0 tx " +:+ decs (ce_max e - combined) +:+ "  combined " +:+ decs combined.
(** The static [count] and [vDidSetChannel]; the commands run. *)
Definition fDoSetChannels (e : cenv) (count : Z) (did_set : bool) : Z * bool * list string :=
  let count' := u32 (count + 1) in
  let apply combined :=
    if negb (ce_max e =? 0) && negb (ce_only_combined e) && ce_tuning e
    then (count', true, [channels_cmd e combined]) else (count', did_set, []) in
  if count mod 5 =? 0 then
    if ce_max e <=? ce_nproc e then apply (Z.quot (ce_max e) 8)
    else if negb (ce_nproc e =? 0) then apply (Z.quot (ce_nproc e) 8)
    else (count', did_set, [])
  else (count', did_set, []).

(** ** Turns *)
Definition in_turn (v : Z) : Prop := 0 ≤ v < 10.
(** How many entries the search looks at before it reaches [j]. *)
Definition dist (v j : Z) : Z := (j - v) mod 10.

Lemma advance_in_turn v : in_turn v → in_turn (advance v).
Proof. unfold in_turn, advance, MAX_NUM_IP_ATTACHED. zbool; lia. Qed.
Lemma dist_advance v j : in_turn v → in_turn j → v ≠ j → dist (advance v) j = dist v j - 1.
Proof. unfold in_turn, advance, dist, MAX_NUM_IP_ATTACHED. intros. zbool; zdivmod. Qed.
Lemma dist_zero v j : in_turn v → in_turn j → dist v j = 0 → v = j.
Proof. unfold in_turn, dist. intros. zdivmod. Qed.
Lemma dist_range v j : 0 ≤ dist v j < 10.
Proof. unfold dist. apply Z.mod_pos_bound. lia. Qed.

(** The search returns, and takes turns: it does not pass over an entry in use. *)
Lemma next_ip_total count ips v :
  length ips = 10%nat → in_turn v →
  ∃ o v', next_ip count ips v = Ret (o, v') ∧ in_turn v' ∧ from_option in_turn True o.
Proof.
  intros Hl. revert v. induction count as [|count IH]; intros v Hv;
    destruct (zget_Some ips v) as [a Ha]; try (unfold in_turn in Hv; lia);
    cbn [next_ip]; rewrite Ha; cbn [of_opt mbind res_bind].
  - by exists None, v.
  - destruct (a =? 0); [by apply IH, advance_in_turn|].
    exists (Some v), (advance v). split_and!; [done|by apply advance_in_turn|done].
Qed.
Lemma next_ip_turn count ips v j b :
  length ips = 10%nat → in_turn v → zget ips j = Some b → b ≠ 0 → dist v j < Z.of_nat count →
  ∃ i, next_ip count ips v = Ret (Some i, advance i) ∧ in_turn i ∧
    (i = j ∨ dist (advance i) j < dist v j).
Proof.
  intros Hl. revert v. induction count as [|count IH]; intros v Hv Hj Hb Hd.
  { pose proof (dist_range v j). lia. }
  assert (in_turn j) as Hj' by (apply zget_lt in Hj; unfold in_turn; lia).
  destruct (zget_Some ips v) as [a Ha]; [unfold in_turn in Hv; lia|].
  cbn [next_ip]. rewrite Ha. cbn [of_opt mbind res_bind]. destruct (Z.eqb_spec a 0) as [->|Hne].
  - assert (v ≠ j) as Hvj by (intros ->; congruence).
    destruct (IH (advance v)) as (i & E & Hi & Hc); [by apply advance_in_turn|done|done|rewrite dist_advance by done; lia|].
    exists i. split_and!; [done|done|]. rewrite (dist_advance v) in Hc by done. destruct Hc; [by left|right; lia].
  - exists v. split_and!; [done|done|]. destruct (decide (v = j)); [by left|right]. rewrite dist_advance by done. lia.
Qed.

(** The entries pinged in [n] consecutive rounds of an unchanged table. *)
Fixpoint pings (n : nat) (e : renv) (r : RttState) : res (list Z) :=
  match n with
  | O => Ret []
  | S n' => '(r, p) ← ping_step e r; l ← pings n' e r; Ret (option_list p ++ l)
  end.

Section Turns.
Context (e : renv) (Hl : length (re_table e) = 10%nat).
Context (Hact : re_active e = true) (Hsrc : re_src e = true) (Hkaf : re_kafka e = false).
Context (Hping : ∀ name, ∃ p, fFindRttUsingPing name (re_ping e name) = Ret p).

Lemma ping_step_turn r o v :
  next_ip 10 (ed_dest_ip_addr <$> re_table e) (vLastIpPinged r) = Ret (o, v) → from_option in_turn True o →
  ∃ r', ping_step e r = Ret (r', o) ∧ vLastIpPinged r' = v.
Proof using Hl Hact Hsrc Hkaf Hping.
  intros E Ho. unfold ping_step. rewrite Hact, Hsrc, Hkaf. cbn [negb andb]. rewrite E. cbn [mbind res_bind].
  destruct o as [i|]; [|by eexists]. cbn in Ho.
  destruct (zget_Some (re_table e) i) as [d Hd]; [unfold in_turn in Ho; lia|]. rewrite Hd. cbn [of_opt mbind res_bind].
  destruct (Hping (ed_aDest_Ip2 d)) as [p Hp]. rewrite Hp. cbn [mbind res_bind]. by eexists.
Qed.
Lemma pings_turns n r :
  in_turn (vLastIpPinged r) →
  ∃ l, pings n e r = Ret l ∧
    ∀ j d, zget (re_table e) j = Some d → ed_dest_ip_addr d ≠ 0 → dist (vLastIpPinged r) j < Z.of_nat n → (n ≤ 10)%nat → j ∈ l.
Proof using Hl Hact Hsrc Hkaf Hping.
  set (ips := ed_dest_ip_addr <$> re_table e). assert (length ips = 10%nat) as Hli by (subst ips; by rewrite length_fmap).
  revert r. induction n as [|n IH]; intros r Hv.
  { exists []. split; [done|]. intros j d _ _ Hd. pose proof (dist_range (vLastIpPinged r) j). lia. }
  destruct (next_ip_total 10 ips (vLastIpPinged r) Hli Hv) as (o & v & E & Hv' & Ho).
  destruct (ping_step_turn r o v E Ho) as (r' & Er & Ev). cbn [pings]. rewrite Er. cbn [mbind res_bind].
  destruct (IH r') as (l & El & Hin); [by rewrite Ev|]. rewrite El. cbn [mbind res_bind].
  eexists. split; [reflexivity|]. intros j d Hj Hne Hd Hn. apply elem_of_app.
  assert (zget ips j = Some (ed_dest_ip_addr d)) as Hj'.
  { unfold zget in *. destruct (j <? 0); [done|]. subst ips. by rewrite list_lookup_fmap, Hj. }
  destruct (next_ip_turn 10 ips (vLastIpPinged r) j _ Hli Hv Hj' Hne) as (i & E' & _ & Hc);
    [pose proof (dist_range (vLastIpPinged r) j); lia|].
  rewrite E in E'. injection E' as -> ->. destruct Hc as [->|Hc].
  - left. cbn. by apply list_elem_of_singleton.
  - right. apply (Hin j d Hj Hne); [rewrite Ev|]; lia.
Qed.
End Turns.

(** ** Properties *)

(** C39: On an active link every DTN of the table is pinged at least once in ten
    consecutive rounds, wherever the turn stands and whichever slots are in use:
    none starves. *)
Theorem every_peer_is_pinged e r :
  length (re_table e) = 10%nat → re_active e = true → re_src e = true → re_kafka e = false →
  (∀ name, ∃ p, fFindRttUsingPing name (re_ping e name) = Ret p) → in_turn (vLastIpPinged r) →
  ∃ l, pings 10 e r = Ret l ∧
    ∀ j d, zget (re_table e) j = Some d → ed_dest_ip_addr d ≠ 0 → j ∈ l.
Proof.
  intros Hl Ha Hs Hk Hp Hv. destruct (pings_turns e Hl Ha Hs Hk Hp 10 r Hv) as (l & E & Hin).
  exists l. split; [done|]. intros j d Hj Hne. apply (Hin j d Hj Hne); [|lia]. apply dist_range.
Qed.

Definition ping_text : list string := ["3 packets transmitted"; "rtt min/avg/max/mdev = 0.314/0.341/0.366/0.021 ms"].
Definition demo_renv : renv :=
  mkRenv true true false "" (<[4%nat := dest_zero <| ed_dest_ip_addr := 33554442 |> <| ed_aDest_Ip2 := "10.0.0.2" |>]>
                               (replicate 10 dest_zero))
    (λ _, Some ping_text) None d2 4.
Example ping_ex : fFindRttUsingPing "10.0.0.2" (Some ping_text) = Ret (dconst 341 1000).
Proof. vm_compute. reflexivity. Qed.
Lemma every_peer_is_pinged_witness : ∃ l, pings 10 demo_renv rtt_init = Ret l ∧ 4 ∈ l.
Proof.
  destruct (every_peer_is_pinged demo_renv rtt_init) as (l & E & H); [reflexivity..| |split; [done|reflexivity]|].
  - intros name. cbn [re_ping demo_renv]. unfold fFindRttUsingPing. destruct (String.eqb name ""); eexists; vm_compute; reflexivity.
  - exists l. split; [exact E|]. eapply H; [vm_compute; reflexivity|vm_compute; discriminate].
Defined.
