(* ===== verification/AppBandwidth.v ===== *)
(** * The bandwidth of each application

    At the start of each second [fDoRunGetThresholds] of user_dtn.c takes the
    next destination DTN in turn; [fGetAppBandWidth] lists the processes with a
    connection to it (lsof) and [fCheckAppBandwidth] measures what each sends
    (bpftrace).  The entry of the DTN in [aDest_Dtn_IPs] keeps the bandwidth
    (read by [fDoQinfoAssessment2], which makes nothing of it) and the time, which
    the house-keeping sweep uses.

    The outputs of the tools, cut as [fgets] cuts them, are inputs; [None] is a
    [popen] that fails. *)
From Stdlib Require Import ZArith Lia Ascii String.
From stdpp Require Import base gmap strings numbers option list.
From S2P Require Import Prelude CString Dbl DtnTables Rtt.
Open Scope Z_scope.

(** The second line of bpftrace: bytes; [sscanf] of "%lu" into 0; the entry of
    the destination gets the rate. *)
Definition app_gbits (l : string) : double := ddiv (dofZ (u64 (8 * strtoul l) / 1000)) d1e6.
Definition fCheckAppBandwidth (out : option (list string)) (e : sDest_Dtn_IPs_t) : sDest_Dtn_IPs_t :=
  match out with
  | Some (_ :: l :: _) => e <| vThis_app_tx_Gbits_per_sec := app_gbits l |>
  | _ => e
  end.
(** A line of lsof, the time it is read, and what bpftrace would say of its process. *)
Record lsof_line := mkLsof { ls_text : string; ls_clk : Z; ls_bpf : option (list string) }.
(** The loop of [fGetAppBandWidth]: the process name is the text before the first
    blank; one equal to [previous_value] is not measured again. *)
Fixpoint app_loop (previous_value : string) (ls : list lsof_line) (e : sDest_Dtn_IPs_t) : sDest_Dtn_IPs_t :=
  match ls with
  | [] => e
  | l :: ls' =>
      let e := e <| ed_last_time_ip := ls_clk l |> in
      match strchr (ls_text l) " " with
      | Some q =>
          let value := take_str (String.length (ls_text l) - String.length q) (ls_text l) in
          if String.eqb previous_value value then app_loop value ls' e
          else app_loop previous_value ls' (fCheckAppBandwidth (ls_bpf l) e)
      | None => app_loop previous_value ls' e
      end
  end.
Definition fGetAppBandWidth (out : option (list lsof_line)) (e : sDest_Dtn_IPs_t) : sDest_Dtn_IPs_t :=
  if String.eqb (ed_aDest_Ip2 e) "" then e
  else match out with None => e | Some ls => app_loop " " ls e end.
(** The turn of a second: with traffic, as a source, the next DTN of the table. *)
Definition app_turn (active : bool) (lsof : string → option (list lsof_line)) (vLastIpFound : Z) (t : Tables)
    : res (Tables * Z * option Z) :=
  if active && vIamASrcDtn t then
    '(found, v) ← next_ip 10 (ed_dest_ip_addr <$> aDest_Dtn_IPs t) vLastIpFound;
    match found with
    | Some i =>
        e ← of_opt (zget (aDest_Dtn_IPs t) i);
        es ← of_opt (zset (aDest_Dtn_IPs t) i (fGetAppBandWidth (lsof (ed_aDest_Ip2 e)) e));
        Ret (t <| aDest_Dtn_IPs := es |>, v, Some i)
    | None => Ret (t, v, None)
    end
  else Ret (t, vLastIpFound, None).
Definition app_ex : list lsof_line := [
  mkLsof "iperf3 4711 root" 100 (Some ["Attaching"; "1250000000"]);
  mkLsof "iperf3 4711 root" 101 (Some ["Attaching"; "125000000"]);
  mkLsof "nospace" 102 None].
Example app_ex_rate :
  let e := fGetAppBandWidth (Some app_ex) (dest_zero <| ed_aDest_Ip2 := "10.0.0.2" |>) in
  fmt2 (vThis_app_tx_Gbits_per_sec e) = "1.00" ∧ ed_last_time_ip e = 102.
Proof. vm_compute. done. Qed.

(** ** Lemmas *)
(** Measuring every line. *)
Definition measure_line (e : sDest_Dtn_IPs_t) (l : lsof_line) : sDest_Dtn_IPs_t :=
  let e := e <| ed_last_time_ip := ls_clk l |> in
  match strchr (ls_text l) " " with Some _ => fCheckAppBandwidth (ls_bpf l) e | None => e end.
Lemma strchr_before s c q :
  strchr s c = Some q → str_forall (λ d, negb (Ascii.eqb d c)) (take_str (String.length s - String.length q) s) = true.
Proof.
  revert q. induction s as [|d s IH]; intros q; cbn [strchr]; [done|]. destruct (Ascii.eqb d c) eqn:E.
  - intros [= <-]. by rewrite Nat.sub_diag.
  - intros H. assert (String.length q ≤ String.length s)%nat as Hle.
    { clear -H. revert H. induction s as [|x s IHs]; cbn [strchr]; [done|]. case_match.
      - intros [= <-]. done.
      - intros H'. apply IHs in H'. cbn. lia. }
    cbn [String.length]. rewrite Nat.sub_succ_l by done. cbn [take_str str_forall]. by rewrite E, IH.
Qed.
Lemma app_loop_measures ls e : app_loop " " ls e = foldl measure_line e ls.
Proof.
  revert e. induction ls as [|l ls IH]; intros e; [done|]. cbn [app_loop foldl]. unfold measure_line at 2.
  destruct (strchr (ls_text l) " ") as [q|] eqn:E; [|apply IH].
  apply strchr_before in E. destruct (String.eqb_spec " " (take_str (String.length (ls_text l) - String.length q) (ls_text l))) as [Eq|_]; [|apply IH].
  by rewrite <- Eq in E.
Qed.
Lemma measure_line_keeps e l :
  ed_dest_ip_addr (measure_line e l) = ed_dest_ip_addr e ∧ ed_last_time_ip (measure_line e l) = ls_clk l ∧
  ed_aDest_Ip2 (measure_line e l) = ed_aDest_Ip2 e.
Proof. unfold measure_line, fCheckAppBandwidth. by repeat case_match. Qed.
Lemma measure_all_keeps ls e :
  ed_dest_ip_addr (foldl measure_line e ls) = ed_dest_ip_addr e ∧
  ed_last_time_ip (foldl measure_line e ls) = default (ed_last_time_ip e) (ls_clk <$> list.last ls).
Proof.
  revert e. induction ls as [|l ls IH] using rev_ind; intros e; [done|]. rewrite foldl_app, last_snoc. cbn [foldl].
  destruct (measure_line_keeps (foldl measure_line e ls) l) as (H1 & H2 & _). destruct (IH e) as [H3 _].
  by rewrite H1, H2, H3.
Qed.
(** The bandwidth a line gives, if it gives one. *)
Definition measured (l : lsof_line) : option string :=
  match strchr (ls_text l) " ", ls_bpf l with
  | Some _, Some (_ :: b :: _) => Some b
  | _, _ => None
  end.
Lemma measure_line_rate e l :
  vThis_app_tx_Gbits_per_sec (measure_line e l) =
  match measured l with Some b => app_gbits b | None => vThis_app_tx_Gbits_per_sec e end.
Proof. unfold measure_line, measured, fCheckAppBandwidth. by repeat case_match; simplify_eq. Qed.
Lemma unmeasured_rate ls e :
  Forall (λ l, measured l = None) ls →
  vThis_app_tx_Gbits_per_sec (foldl measure_line e ls) = vThis_app_tx_Gbits_per_sec e.
Proof.
  intros Hls. revert e. induction Hls as [|l ls Hl _ IH]; intros e; [done|]. cbn [foldl].
  by rewrite IH, measure_line_rate, Hl.
Qed.
(** The turn finds a DTN that is in the table. *)
Lemma next_ip_found count ips v i v' :
  next_ip count ips v = Ret (Some i, v') → ∃ a, zget ips i = Some a ∧ a ≠ 0.
Proof.
  revert v. induction count as [|n IH]; intros v; cbn [next_ip]; intros E; inv_bind E as a Ea; [done|].
  apply of_opt_Ret in Ea. destruct (Z.eqb_spec a 0); [by eapply IH|]. simplify_eq. eauto.
Qed.
Lemma app_turn_found lsof v t t' v' i :
  app_turn true lsof v t = Ret (t', v', Some i) →
  ∃ k e, i = Z.of_nat k ∧ aDest_Dtn_IPs t !! k = Some e ∧ ed_dest_ip_addr e ≠ 0 ∧ vIamASrcDtn t = true ∧
    t' = t <| aDest_Dtn_IPs := <[k := fGetAppBandWidth (lsof (ed_aDest_Ip2 e)) e]> (aDest_Dtn_IPs t) |>.
Proof.
  unfold app_turn. destruct (vIamASrcDtn t); [|done]. cbn [andb]. intros E. inv_bind E as [found w] Ef.
  destruct found as [j|]; [|done]. inv_bind E as e Ee. inv_bind E as es Es. simplify_eq.
  apply of_opt_Ret in Ee, Es. apply zset_inv in Es as [Hi ->]. exists (Z.to_nat i), e.
  unfold zget in Ee. destruct (Z.ltb_spec i 0); [done|]. split_and!; [lia|done| |done|done].
  apply next_ip_found in Ef as (a & Ha & Hne). unfold zget in Ha. destruct (Z.ltb_spec i 0); [done|].
  rewrite list_lookup_fmap, Ee in Ha. cbn in Ha. congruence.
Qed.
Lemma get_app_keeps out e :
  ed_dest_ip_addr (fGetAppBandWidth out e) = ed_dest_ip_addr e ∧
  (ed_aDest_Ip2 e ≠ "" → ∀ ls l, out = Some (ls ++ [l]) → ed_last_time_ip (fGetAppBandWidth out e) = ls_clk l).
Proof.
  unfold fGetAppBandWidth. destruct (String.eqb_spec (ed_aDest_Ip2 e) "") as [E|E]; [by split|].
  destruct out as [ls|]; [|done]. rewrite app_loop_measures. destruct (measure_all_keeps ls e) as [H1 H2]. split; [done|].
  intros _ ls' l [= ->]. by rewrite H2, last_snoc.
Qed.

(** ** Theorems *)
(** Remembering the previous name is without effect: [previous_value] starts
    as one blank, which no name is, and is written only when it is already equal.
    The loop measures every line, as the loop without the memory does. *)
Theorem name_memory_never_skips ls e : app_loop " " ls e = foldl measure_line e ls.
Proof. apply app_loop_measures. Qed.

(** The bandwidth kept for a DTN is that of the last connection measured, whatever the connections before it sent: it
    is not their sum. *)
Theorem app_bandwidth_is_last_measured e ls1 l ls2 b :
  ed_aDest_Ip2 e ≠ "" → measured l = Some b → Forall (λ l, measured l = None) ls2 →
  vThis_app_tx_Gbits_per_sec (fGetAppBandWidth (Some (ls1 ++ l :: ls2)) e) = app_gbits b.
Proof.
  intros He Hl Hls2. unfold fGetAppBandWidth. destruct (String.eqb_spec (ed_aDest_Ip2 e) ""); [done|].
  rewrite app_loop_measures, foldl_app. cbn [foldl]. by rewrite unmeasured_rate, measure_line_rate, Hl.
Qed.
Lemma app_bandwidth_is_last_measured_witness :
  vThis_app_tx_Gbits_per_sec (fGetAppBandWidth (Some app_ex) (dest_zero <| ed_aDest_Ip2 := "10.0.0.2" |>)) = app_gbits "125000000".
Proof.
  apply (app_bandwidth_is_last_measured _ [mkLsof "iperf3 4711 root" 100 (Some ["Attaching"; "1250000000"])]
    (mkLsof "iperf3 4711 root" 101 (Some ["Attaching"; "125000000"]))); [discriminate|vm_compute; reflexivity|].
  repeat constructor.
Defined.

(** C26: A DTN with connections is not swept away.  When its turn finds
    connections the entry gets the time of the last line; the invariant of the
    tables holds, and a house-keeping sweep within [vHouseTime] seconds of that
    time keeps the DTN. *)
Theorem connected_peer_survives_sweep lsof v t t' v' i k e ls l now_src now_dst t0 t1 :
  tables_wf t → app_turn true lsof v t = Ret (t', v', Some i) →
  i = Z.of_nat k → aDest_Dtn_IPs t !! k = Some e → ed_aDest_Ip2 e ≠ "" → lsof (ed_aDest_Ip2 e) = Some (ls ++ [l]) →
  (∀ j, t0 ≤ now_dst j ≤ t1) → t1 - ls_clk l < vHouseTime →
  tables_wf t' ∧ dst_abs t' = <[ed_dest_ip_addr e := ls_clk l]> (dst_abs t) ∧
  dst_abs (tHouseKeeping_TimerID_Handler now_src now_dst t') !! ed_dest_ip_addr e = Some (ls_clk l).
Proof.
  intros [Ws Wd Fs Fd] Ht Hi He Hip Hls Hnow Hlate.
  apply app_turn_found in Ht as (k' & e' & Hk' & He' & Hne & Hsrc & ->).
  assert (k' = k) as -> by lia. rewrite He in He'. injection He' as <-.
  destruct (get_app_keeps (lsof (ed_aDest_Ip2 e)) e) as [Hka Hkt]. specialize (Hkt Hip ls l Hls).
  set (e2 := fGetAppBandWidth (lsof (ed_aDest_Ip2 e)) e) in *.
  destruct (table_put _ _ k e e2 Wd He) as [Wd' Habs].
  - cbn. by rewrite Hka.
  - intros j x Hj Hx. cbn in Hx. rewrite Hka in Hx. eapply (distinct_lookup (aDest_Dtn_IPs t)); eauto; [apply Wd|]. cbn. congruence.
  - right. cbn. by rewrite Hka.
  - rewrite decide_False in Wd' by done. cbn in Habs. rewrite Hka, Hkt in Habs.
    assert (tables_wf (t <| aDest_Dtn_IPs := <[k:=e2]> (aDest_Dtn_IPs t) |>)) as Hwf by by split.
    split; [done|]. split; [done|].
    assert (dst_abs (t <| aDest_Dtn_IPs := <[k:=e2]> (aDest_Dtn_IPs t) |>) !! ed_dest_ip_addr e = Some (ls_clk l)) as Hl.
    { change (table_abs (<[k:=e2]> (aDest_Dtn_IPs t)) !! ed_dest_ip_addr e = Some (ls_clk l)). rewrite Habs. apply lookup_insert_eq. }
    destruct (house_keeping_parts now_src now_dst _ Hwf) as [_ [(_ & E1 & _)|(_ & E1 & _)]]; unfold dst_abs; rewrite E1; [|done].
    by apply (house_loop_abs now_dst _ _ t0 t1 _ _ Wd' Hnow Hl).
Qed.
Lemma connected_peer_survives_sweep_witness :
  ∃ t', app_turn true (λ _, Some [mkLsof "iperf3 1 root" 117 None]) 0 demo_tables = Ret (t', 1, Some 0) ∧
    dst_abs (tHouseKeeping_TimerID_Handler (λ _, 118) (λ _, 118) t') !! 33554442 = Some 117.
Proof.
  eexists. split; [vm_compute; reflexivity|].
  eapply (connected_peer_survives_sweep (λ _, Some [mkLsof "iperf3 1 root" 117 None]) 0 demo_tables _ 1 0 0%nat
    (mkDest 33554442 "10.0.0.2" "0200000A" 100 true dzero cntrs_zero) [] (mkLsof "iperf3 1 root" 117 None) _ (λ _, 118) 118 118);
    [exact demo_tables_wf|vm_compute; reflexivity|reflexivity|vm_compute; reflexivity|discriminate|reflexivity|intros; lia|vm_compute; reflexivity].
Defined.
