(* ===== verification/Monitors.v ===== *)
(** * What is only watched

    The checks of user_dtn.c that read the output of a tool and report it:
    [fDoCpuMonitoring] (mpstat), [fDoCheckSoftirqd] (top), [fGetMtuInfoOfDevices]
    (ip route, and the MTU files of two interfaces); and the thread
    [fDoRunHelperDtn], which keeps help_dtn.sh running.

    An output is the list of what [fgets] returns; [None] is a [popen] that
    fails.  What is reported is the list of log entries. *)
From Stdlib Require Import ZArith Lia Ascii String.
From stdpp Require Import base strings numbers option list.
From S2P Require Import Prelude CString.
Open Scope Z_scope.

Definition contains (s pat : string) : bool := match strstr s pat with Some _ => true | None => false end.
Definition newline_first (s : string) : bool := match s with String c _ => code c =? 10 | EmptyString => false end.

(** ** Busy CPUs *)
Inductive cpu_log := CpuTitle | CpuLine (l : string) | CpuBlank (l : string).
(** The loop; [rid] counts the lines read ([ridtwolines]).  Result: the entries
    and [found]. *)
Fixpoint cpu_loop (rid count : Z) (header_buffer : string) (ls : list string) : list cpu_log * bool :=
  match ls with
  | [] => ([], false)
  | buffer :: ls' =>
      let rid := rid + 1 in
      if rid <? 3 then cpu_loop rid count header_buffer ls'
      else if contains buffer "Average" then ([], true)
      else if count =? 0 then cpu_loop rid 1 buffer ls'
      else if count =? 1 then
        let '(out, found) := cpu_loop rid 2 header_buffer ls' in
        ((if newline_first buffer then [] else [CpuTitle; CpuLine header_buffer; CpuLine buffer]) ++ out, found)
      else
        let '(out, found) := cpu_loop rid count header_buffer ls' in
        ((if newline_first buffer then CpuBlank buffer else CpuLine buffer) :: out, found)
  end.
(** The entries, the return value, and the new [nompstat], which switches the
    function off. *)
Definition fDoCpuMonitoring (pipe : option (list string)) (nompstat : bool) : list cpu_log * bool * bool :=
  if nompstat then ([], false, nompstat)
  else match pipe with
       | None => ([], false, nompstat)
       | Some ls => let '(out, found) := cpu_loop 0 0 EmptyString ls in (out, found, negb found)
       end.

(** ** Soft interrupts *)
Definition fDoCheckSoftirqd (pipe : option (list string)) : list string :=
  match pipe with None => [] | Some ls => List.filter (λ l, contains l "ksoftirqd") ls end.

(** ** MTU of the route to the peer *)
(** "... dev NAME ...": the name behind the first "dev", if a blank ends it. *)
Definition route_device (buffer : string) : option string :=
  match strstr buffer "dev" with
  | Some f =>
      match strchr f " " with
      | Some f =>
          let f := drop_str 1 f in
          match strchr f " " with
          | Some q => Some (take_str (String.length f - String.length q) f)
          | None => None
          end
      | None => None
      end
  | None => None
  end.
Fixpoint first_device (ls : list string) : option string :=
  match ls with
  | [] => None
  | l :: ls' => match route_device l with Some d => Some d | None => first_device ls' end
  end.
Record mtu_log := mkMtu { log_inter : string; mtu_inter : string; mtu_net : string; mtus_differ : bool }.
(** [mtu d] is the output of "cat /sys/class/net/d/mtu". *)
Definition fGetMtuInfoOfDevices (netDevice : string) (route : option (list string))
    (mtu : string → option (list string)) : option mtu_log :=
  match route with
  | None => None
  | Some ls =>
      match first_device ls with
      | None => None
      | Some d =>
          match mtu d, mtu netDevice with
          | Some (b :: _), Some (b2 :: _) => Some (mkMtu d b b2 (negb (String.eqb b b2)))
          | _, _ => None
          end
      end
  end.
Example mtu_ex : fGetMtuInfoOfDevices "eth0" (Some ["10.35.1.0/24 dev vlan3501 proto kernel scope link"])
  (λ d, Some [if String.eqb d "eth0" then "9200" else "9000"]) = Some (mkMtu "vlan3501" "9000" "9200" true).
Proof. vm_compute. done. Qed.

(** ** The helper process *)
Inductive helper_act := KillRunaway | ForkHelper | RemoveFile | WaitChild.
#[export] Instance helper_act_eq_dec : EqDecision helper_act.
Proof. solve_decision. Defined.
(** The checks every five seconds, over what each finds. *)
Fixpoint watch (alive : list bool) : list helper_act :=
  match alive with
  | [] => []
  | a :: alive' => RemoveFile :: (if a then [] else [WaitChild; ForkHelper]) ++ watch alive'
  end.
(** [runaway]: a helper of an earlier run is found. *)
Definition fDoRunHelperDtn (runaway : bool) (alive : list bool) : list helper_act :=
  (if runaway then [KillRunaway] else []) ++ [RemoveFile; ForkHelper] ++ watch alive.

(** ** Lemmas *)
Definition busy (l : string) : Prop := contains l "Average" = false ∧ newline_first l = false.
Lemma cpu_busy_tail rid h cs avg rest :
  2 ≤ rid → Forall busy cs → contains avg "Average" = true →
  cpu_loop rid 2 h (cs ++ avg :: rest) = (CpuLine <$> cs, true).
Proof.
  intros Hr Hcs Ha. revert rid Hr. induction Hcs as [|c cs [Hc Hn] _ IH]; intros rid Hr; cbn [app cpu_loop].
  - by rewrite (proj2 (Z.ltb_ge _ _)), Ha by lia.
  - rewrite (proj2 (Z.ltb_ge _ _)), Hc by lia. change (2 =? 0) with false. change (2 =? 1) with false. cbv iota.
    rewrite IH by lia. by rewrite Hn.
Qed.
(** The CPUs between mpstat's header and its averages are reported once each
    under a title and the header, or, when there is none, nothing is. *)
Lemma cpu_report l1 l2 h c cs avg rest :
  contains h "Average" = false → busy c → Forall busy cs → contains avg "Average" = true →
  fDoCpuMonitoring (Some (l1 :: l2 :: h :: c :: cs ++ avg :: rest)) false
  = (CpuTitle :: CpuLine h :: CpuLine c :: (CpuLine <$> cs), true, false).
Proof.
  intros Hh [Hc Hn] Hcs Ha. unfold fDoCpuMonitoring. cbn -[contains cpu_loop].
  cbn [cpu_loop]. cbn -[contains cpu_loop]. rewrite Hh. cbn -[contains cpu_loop].
  cbn [cpu_loop]. cbn -[contains cpu_loop]. rewrite Hc. cbn -[contains cpu_loop].
  rewrite cpu_busy_tail by (done || lia). by rewrite Hn.
Qed.
(** One output without averages switches the monitoring off for good. *)
Lemma no_average_switches_off ls later :
  Forall (λ l, contains l "Average" = false) ls →
  (fDoCpuMonitoring (Some ls) false).2 = true ∧
  fDoCpuMonitoring later (fDoCpuMonitoring (Some ls) false).2 = ([], false, true).
Proof.
  intros Hls. assert (∀ rid count h, (cpu_loop rid count h ls).2 = false) as H.
  { induction Hls as [|l ls Hl _ IH]; intros rid count h; [done|]. cbn [cpu_loop]. rewrite Hl.
    destruct (_ <? _); [done|]. destruct (count =? 0); [done|]. destruct (count =? 1).
    - specialize (IH (rid + 1) 2 h). by destruct (cpu_loop _ _ _ ls).
    - specialize (IH (rid + 1) count h). by destruct (cpu_loop _ _ _ ls). }
  unfold fDoCpuMonitoring. specialize (H 0 0 EmptyString). destruct (cpu_loop 0 0 EmptyString ls) as [out found].
  cbn in *. by subst.
Qed.
(** As many helpers are started as checks found none, and one. *)
Lemma helper_forks runaway alive :
  count_occ helper_act_eq_dec (fDoRunHelperDtn runaway alive) ForkHelper
  = S (count_occ Bool.bool_dec alive false).
Proof.
  assert (count_occ helper_act_eq_dec (watch alive) ForkHelper = count_occ Bool.bool_dec alive false) as H.
  { induction alive as [|[] alive IH]; cbn; [done|exact IH|]. by f_equal. }
  unfold fDoRunHelperDtn. destruct runaway; cbn; by rewrite <- H.
Qed.
