(* ===== verification/HttpApi.v ===== *)
(** * The HTTP requests of the operator

    [check_req] and [on_http_request] of user_dtn.c: a request is recognised by
    a substring ("GET /-ct#q_occ#" and so on), its number read from a fixed
    offset, a setting changed, a command run, a text answered.  The HTTP server
    itself (facil.io) is not under the verification: [pReqData] is an input. *)
From Stdlib Require Import ZArith Lia Ascii String.
From stdpp Require Import base list strings numbers option.
From S2P Require Import Prelude CString Dbl Ring DtnTables FlowCounters Timers Telemetry.
Open Scope Z_scope.

(** ** The settings *)
Record Api := mkApi {
  vDebugLevel : Z;
  thr : Thresholds;
  vUseRetransmissionRate_int : Z;   (* the int; [thr] has its truth value *)
  gTuningMode : bool;
  current_phase : workflow_phases;
  vRetransmissionRateThreshold : double;
  vMaxPacingRate : double;
  rtt_threshold : double;
  rtt_factor : Z;
  aDest_Ip2 : string;
  aDest_Ip2_Binary : string;
  aKafka_Dest_Ip2_Binary : string
}.
#[export] Instance eta_Api : Settable Api := fun a =>
  mkApi (vDebugLevel a) (thr a) (vUseRetransmissionRate_int a) (gTuningMode a) (current_phase a) (vRetransmissionRateThreshold a)
    (vMaxPacingRate a) (rtt_threshold a) (rtt_factor a) (aDest_Ip2 a) (aDest_Ip2_Binary a)
    (aKafka_Dest_Ip2_Binary a).
Definition api_init : Api :=
  mkApi 1 thresholds_init 0 false STARTING d0_002 d0_90 d2 4 "" "" "".
(** What [check_req] reads besides. *)
Record aenv := mkAenv { ae_kafka : bool; ae_device : string; ae_flows : Flows }.

(** ** Libc on the number buffer *)
(** [inet_aton] on a text of digits and dots: one to four parts, a leading zero
    means octal; the word in network order. *)
Fixpoint octal (acc : Z) (s : string) : option Z :=
  match s with
  | EmptyString => Some acc
  | String c s' => if digit_val c <? 8 then octal (acc * 8 + digit_val c) s' else None
  end.
Definition aton_part (d : string) : option Z :=
  match d with
  | EmptyString => None
  | String c d' => v ← (if Ascii.eqb c "0" then octal 0 d' else Some (num d));
                   if v <? 2 ^ 32 then Some v else None
  end.
Fixpoint aton_parts (fuel : nat) (s : string) : option (list Z) :=
  match fuel with
  | O => None
  | S f =>
      let '(d, r) := span isdigit s in
      v ← aton_part d;
      match r with
      | EmptyString => Some [v]
      | String c r' => if Ascii.eqb c "." then vs ← aton_parts f r'; Some (v :: vs) else None
      end
  end.
Definition inet_aton (s : string) : option Z :=
  ps ← aton_parts 4 s;
  let ok a m := (a <=? m)%Z in
  match ps with
  | [a] => Some (htonl a)
  | [a; b] => if ok a 255 && ok b 0xffffff then Some (htonl (a * 2 ^ 24 + b)) else None
  | [a; b; c] => if ok a 255 && ok b 255 && ok c 0xffff then Some (htonl (a * 2 ^ 24 + b * 2 ^ 16 + c)) else None
  | [a; b; c; d] => if ok a 255 && ok b 255 && ok c 255 && ok d 255
                    then Some (htonl (a * 2 ^ 24 + b * 2 ^ 16 + c * 2 ^ 8 + d)) else None
  | _ => None
  end.

(** ** Reading the number *)
Definition has (req pat : string) : bool := match strstr req pat with Some _ => true | None => false end.
(** [aNumber[16]], zeroed: 16 characters leave it unterminated, more overrun it. *)
Definition number_buffer (s : string) : res string := if 16 <=? strlen s then Ub else Ret s.
(** The digits at offset [strlen(pat)] of the request. *)
Definition number_at (req pat : string) : res string :=
  number_buffer (span isdigit (drop_str (String.length pat) req)).1.
(** Digits and dots, up to and including a second dot. *)
Fixpoint dotted (dots : Z) (s : string) : string * Z :=
  match s with
  | EmptyString => (EmptyString, dots)
  | String c s' =>
      if (isdigit c || Ascii.eqb c ".") && (dots <=? 1) then
        let '(r, n) := dotted (if Ascii.eqb c "." then dots + 1 else dots) s' in (String c r, n)
      else (EmptyString, dots)
  end.
Definition dotted_at (req pat : string) : res (string * Z) :=
  let '(s, n) := dotted 0 (drop_str (String.length pat) req) in
  s ← number_buffer s; Ret (s, n).
(** The address text of "-kaf#ip4#": at most 16 characters are copied. *)
Definition address_at (req pat : string) : res string :=
  number_buffer (take_str 16 (span (λ c, isdigit c || Ascii.eqb c ".") (drop_str (String.length pat) req)).1).

(** ** The requests *)
Definition answer : Type := Api * string * list string.

Definition req_debug (req : string) (a : Api) : res answer :=
  n ← number_at req "GET /-d#";
  let v := atoi n in
  let v := if 10 <? v then 10 else v in
  Ret (a <| vDebugLevel := v |>,
       "Changed debug level of Tuning Module from " +:+ decs (vDebugLevel a) +:+ " to " +:+ decs v +:+ "!" +:+ nl, []).
(** Only a positive number is turned into 1; a negative one (an [atoi] that
    wrapped) is stored as it is, and counts as true. *)
Definition req_retrans_use (req : string) (a : Api) : res answer :=
  n ← number_at req "GET /-d#";
  let v := if 0 <? atoi n then 1 else atoi n in
  Ret (a <| vUseRetransmissionRate_int := v |>
         <| thr := (thr a) <| vUseRetransmissionRate := negb (v =? 0) |> |>,
       (if 0 <? atoi n then "Changed to now use RetransmissionRate in determining pacing adjustment from "
        else "Changed to not use RetransmissionRate in determining pacing adjustment from ")
         +:+ decs (vUseRetransmissionRate_int a) +:+ " to " +:+ decs v +:+ "!" +:+ nl, []).
Definition req_learning (on : bool) (a : Api) : answer :=
  if on then (a <| gTuningMode := false |> <| current_phase := LEARNING |>,
              "Tuning Module has turned on learning mode!!!" +:+ nl, [])
  else (a <| gTuningMode := true |> <| current_phase := TUNING |>,
        "Tuning Module has turned on tuning mode!!!" +:+ nl, []).
(** The four unsigned thresholds: the pattern, what is announced, the field. *)
Inductive u32_setting := FlowSink | QOcc | HopLate | FlowLate.
Definition setting_pat (s : u32_setting) : string :=
  match s with
  | FlowSink => "GET /-ct#flow_sink#" | QOcc => "GET /-ct#q_occ#"
  | HopLate => "GET /-ct#hop_late#" | FlowLate => "GET /-ct#flow_late#"
  end.
Definition setting_name (s : u32_setting) : string :=
  match s with
  | FlowSink => "flow sink time" | QOcc => "queue occupancy" | HopLate => "hop latency" | FlowLate => "flow latency"
  end.
Definition setting_get (s : u32_setting) (t : Thresholds) : Z :=
  match s with
  | FlowSink => vFLOW_SINK_TIME_DELTA t | QOcc => vQUEUE_OCCUPANCY_DELTA t
  | HopLate => vHOP_LATENCY_DELTA t | FlowLate => vFLOW_LATENCY_DELTA t
  end.
Definition setting_put (s : u32_setting) (v : Z) (t : Thresholds) : Thresholds :=
  match s with
  | FlowSink => t <| vFLOW_SINK_TIME_DELTA := v |> | QOcc => t <| vQUEUE_OCCUPANCY_DELTA := v |>
  | HopLate => t <| vHOP_LATENCY_DELTA := v |> | FlowLate => t <| vFLOW_LATENCY_DELTA := v |>
  end.
Definition req_setting (s : u32_setting) (req : string) (a : Api) : res answer :=
  n ← number_at req (setting_pat s);
  let v := u32 (strtoul n) in
  Ret (a <| thr := setting_put s v (thr a) |>,
       "Changed " +:+ setting_name s +:+ " delta from " +:+ dec (setting_get s (thr a)) +:+ " to " +:+ dec v +:+ "!" +:+ nl, []).
Definition req_retrans_rate (req : string) (a : Api) : res answer :=
  '(n, dots) ← dotted_at req "GET /-ct#retrans_rate#";
  if 1 <? dots then
    Ret (a, "***ERROR: Number is invalid for retransmission rate: *" +:+ n +:+ "***" +:+ nl, [])
  else
    let v := sscanf_lf n in
    Ret (a <| vRetransmissionRateThreshold := v |>,
         "Changed  maximum retransmission rate allowed from " +:+ fmt 5 (vRetransmissionRateThreshold a)
           +:+ " to " +:+ fmt 5 v +:+ "!" +:+ nl, []).
Definition req_pacing_rate (req : string) (a : Api) : res answer :=
  '(n, dots) ← dotted_at req "GET /-ct#pacing_rate#";
  if 1 <? dots then
    Ret (a, "***ERROR: Number is invalid for pacing rate: *" +:+ n +:+ "***" +:+ nl, [])
  else
    let v := sscanf_lf n in
    Ret (a <| vMaxPacingRate := ddiv v d100 |>,
         "Changed  maximum pacing rate from " +:+ fmt2 (dmul (vMaxPacingRate a) d100) +:+ " to " +:+ fmt2 v +:+ "%!" +:+ nl, []).
Definition req_rtt_threshold (req : string) (a : Api) : res answer :=
  n ← number_at req "GET /-rtt#thresh#";
  let v := i32 (strtoul n) in
  Ret (a <| rtt_threshold := dofZ v |>,
       "Changed rtt threshold from " +:+ fmt2 (rtt_threshold a) +:+ "ms to " +:+ fmt2 (dofZ v) +:+ "ms!" +:+ nl, []).
Definition req_rtt_factor (req : string) (a : Api) : res answer :=
  n ← number_at req "GET /-rtt#factor#";
  let v := i32 (strtoul n) in
  Ret (a <| rtt_factor := v |>,
       "Changed rtt factor from " +:+ decs (rtt_factor a) +:+ " to " +:+ decs v +:+ "!" +:+ nl, []).
Definition req_kafka_ip (e : aenv) (req : string) (a : Api) : res answer :=
  n ← address_at req "GET /-kaf#ip4#";
  if negb (ae_kafka e) then
    Ret (a, "ERROR***:the flag *use_apache_kafka* must be set in your user_config.txt file in order to use this feature.  Please Check, restart the Tuning Module and resubmit this request...!" +:+ nl, [])
  else match inet_aton n with
  | None => Ret (a, "ERROR***:IP address " +:+ n +:+ " is invalid. Please Check and resubmit...!" +:+ nl, [])
  | Some w =>
      Ret (a <| aKafka_Dest_Ip2_Binary := hex8 w |> <| aDest_Ip2_Binary := hex8 w |> <| aDest_Ip2 := n |>,
           "Using IP address " +:+ n +:+ " with Kafka!" +:+ nl, [])
  end.
Definition req_ring (dir : string) (e : aenv) (req pat : string) (a : Api) : res answer :=
  n ← number_at req pat;
  Ret (a, "Changed " +:+ dir +:+ " ring buffer size of " +:+ ae_device e +:+ " to " +:+ n +:+ "!" +:+ nl,
       ["ethtool -G " +:+ ae_device e +:+ " " +:+ dir +:+ " " +:+ n]).
Definition req_sock (what param : string) (req pat : string) (a : Api) : res answer :=
  n ← number_at req pat;
  Ret (a, "Changed the maximum OS " +:+ what +:+ " buffer size for all types of connections to " +:+ n +:+ "!" +:+ nl,
       ["sysctl -w net.core." +:+ param +:+ "=" +:+ n]).

(** [check_req]: the tests in the code's order. *)
Definition check_req (e : aenv) (pReqData : string) (a : Api) : res answer :=
  if has pReqData "GET /-t" then
    Ret (a, "Recommended Tuning applied!!!" +:+ nl, ["sh ./user_menu.sh apply_all_recommended_settings"])
  else if has pReqData "GET /-pc" then r ← tuning_activities_report (ae_flows e); Ret (a, r, [])
  else if has pReqData "GET /-d#" then req_debug pReqData a
  else if has pReqData "GET /-r#" then req_retrans_use pReqData a
  else if has pReqData "GET /-l#on" then Ret (req_learning true a)
  else if has pReqData "GET /-l#off" then Ret (req_learning false a)
  else if has pReqData (setting_pat FlowSink) then req_setting FlowSink pReqData a
  else if has pReqData (setting_pat QOcc) then req_setting QOcc pReqData a
  else if has pReqData "GET /-ct#retrans_rate#" then req_retrans_rate pReqData a
  else if has pReqData "GET /-ct#pacing_rate#" then req_pacing_rate pReqData a
  else if has pReqData (setting_pat HopLate) then req_setting HopLate pReqData a
  else if has pReqData (setting_pat FlowLate) then req_setting FlowLate pReqData a
  else if has pReqData "GET /-rtt#thresh#" then req_rtt_threshold pReqData a
  else if has pReqData "GET /-rtt#factor#" then req_rtt_factor pReqData a
  else if has pReqData "GET /-kaf#ip4#" then req_kafka_ip e pReqData a
  else if has pReqData "GET /-b#rx#" then req_ring "rx" e pReqData "GET /-b#rx#" a
  else if has pReqData "GET /-b#tx#" then req_ring "tx" e pReqData "GET /-b#tx#" a
  else if has pReqData "GET /-b#sock_rx_buff#" then req_sock "receive" "rmem_max" pReqData "GET /-b#sock_rx_buff#" a
  else if has pReqData "GET /-b#sock_tx_buff#" then req_sock "send" "wmem_max" pReqData "GET /-b#sock_tx_buff#" a
  else Ret (a, "Received something else!!!" +:+ nl, []).

Example api_ex : ∃ a, check_req (mkAenv true "eth0" flows_init) "GET /-kaf#ip4#10.3.46.2 HTTP/1.1" api_init
  = Ret (a, "Using IP address 10.3.46.2 with Kafka!" +:+ nl, []) ∧ aDest_Ip2_Binary a = "022E030A".
Proof. eexists. split; vm_compute; reflexivity. Qed.
Example api_ex2 : ∃ a, check_req (mkAenv true "eth0" flows_init) "GET /-ct#pacing_rate#75.5 HTTP/1.1" api_init
  = Ret (a, "Changed  maximum pacing rate from 90.00 to 75.50%!" +:+ nl, []).
Proof. eexists. vm_compute; reflexivity. Qed.

(** ** Recognising a request *)
Lemma strstr_None_longer s pat pat' : strstr s pat = None → strstr s (pat +:+ pat') = None.
Proof.
  assert (∀ s pat, String.prefix (pat +:+ pat') s = true → String.prefix pat s = true) as Hpre.
  { clear. intros s pat. revert s. induction pat as [|c pat IH]; intros s; [by destruct s|].
    rewrite str_app_cons. destruct s as [|d s]; [done|]. cbn. destruct (ascii_dec c d); [apply IH|done]. }
  induction s as [|c s IH]; cbn [strstr].
  - destruct (String.prefix pat "") eqn:E; [done|]. intros _.
    destruct (String.prefix (pat +:+ pat') "") eqn:E'; [apply Hpre in E'; congruence|done].
  - destruct (String.prefix pat (String c s)) eqn:E; [done|]. intros H.
    destruct (String.prefix (pat +:+ pat') (String c s)) eqn:E'; [apply Hpre in E'; congruence|by apply IH].
Qed.

(** A request line: a pattern, an argument without a G, then text with no
    further request in it. *)
Definition plain (arg rest : string) : Prop :=
  str_forall (λ d, negb (Ascii.eqb d "G")) arg = true ∧ strstr rest "GET /-" = None.
(** Such a request has a pattern only at its beginning. *)
Lemma has_plain tail pat arg rest :
  plain arg rest → str_forall (λ d, negb (Ascii.eqb d "G")) tail = true →
  has ("G" +:+ (tail +:+ (arg +:+ rest))) ("GET /-" +:+ pat) =
  String.prefix ("GET /-" +:+ pat) ("G" +:+ (tail +:+ (arg +:+ rest))).
Proof.
  intros [Ha Hr] Ht. unfold has. rewrite (str_app_cons "G" ""), str_app_nil_l. cbn [strstr].
  destruct (String.prefix _ _); [done|].
  change ("GET /-" +:+ pat) with (String "G" ("ET /-" +:+ pat)).
  rewrite (strstr_skip tail), (strstr_skip arg) by done.
  change (String "G" ("ET /-" +:+ pat)) with ("GET /-" +:+ pat).
  by rewrite strstr_None_longer.
Qed.
Lemma plain_digits v rest : 0 ≤ v → strstr rest "GET /-" = None → plain (dec v) rest.
Proof.
  intros Hv Hr. split; [|done]. pose proof (dec_digits v Hv) as Hd. revert Hd.
  generalize (dec v). intros s. induction s as [|c s IH]; [done|]. cbn. intros [Hc Hs]%andb_true_iff.
  rewrite IH by done. rewrite andb_true_r. apply negb_true_iff, Ascii.eqb_neq. intros ->. discriminate Hc.
Qed.
Lemma number_at_dec pat v rest :
  0 ≤ v < 10 ^ 15 → (∀ c t, rest = String c t → isdigit c = false) →
  strlen (dec v) < 16 → number_at (pat +:+ (dec v +:+ rest)) pat = Ret (dec v).
Proof.
  intros Hv Hr Hl. unfold number_at. rewrite drop_str_app, span_stop by (auto; apply dec_digits; lia).
  cbn [fst]. unfold number_buffer. by destruct (Z.leb_spec 16 (strlen (dec v))); [lia|].
Qed.

(** Decide the tests of [check_req] on a plain request: [tail] is its pattern
    after the G. *)
Ltac decide_has Hplain tail :=
  repeat match goal with
  | |- context [if has ?r ?p then _ else _] =>
      let q := eval vm_compute in (drop_str 6 p) in
      first [ replace (has r p) with false by (symmetry; exact (has_plain tail q _ _ Hplain eq_refl))
            | replace (has r p) with true by (unfold has; by rewrite strstr_prefix) ];
      cbv iota
  end.

Lemma u32_request_number pat v rest :
  is_u32 v → (∀ c t, rest = String c t → isdigit c = false) →
  number_at (pat +:+ (dec v +:+ rest)) pat = Ret (dec v) ∧ u32 (strtoul (dec v)) = v.
Proof.
  intros Hv Hr. pose proof (dec_len_u32 v Hv). unfold is_u32 in Hv.
  split; [apply number_at_dec; done || lia|]. rewrite strtoul_dec by lia. by apply u32_small.
Qed.

(** ** Properties *)

(** C32: A request to set one of the four unsigned thresholds (flow sink, queue
    occupancy, hop latency, flow latency) to any 32-bit value stores exactly that
    value, changes nothing else and runs nothing: the number printed by a client
    is read back. *)
Theorem setting_request_applies e s v rest a :
  is_u32 v → (∀ c t, rest = String c t → isdigit c = false) → strstr rest "GET /-" = None →
  ∃ text, check_req e (setting_pat s +:+ (dec v +:+ rest)) a = Ret (a <| thr := setting_put s v (thr a) |>, text, []) ∧
    setting_get s (setting_put s v (thr a)) = v.
Proof.
  intros Hv Hr Hrest. assert (plain (dec v) rest) as Hp by (apply plain_digits; [unfold is_u32 in Hv; lia|done]).
  destruct (u32_request_number (setting_pat s) v rest Hv Hr) as [Hn Hs].
  unfold check_req. destruct s.
  - decide_has Hp "ET /-ct#flow_sink#". unfold req_setting. rewrite Hn. cbn [mbind res_bind]. rewrite Hs. eexists. split; reflexivity.
  - decide_has Hp "ET /-ct#q_occ#". unfold req_setting. rewrite Hn. cbn [mbind res_bind]. rewrite Hs. eexists. split; reflexivity.
  - decide_has Hp "ET /-ct#hop_late#". unfold req_setting. rewrite Hn. cbn [mbind res_bind]. rewrite Hs. eexists. split; reflexivity.
  - decide_has Hp "ET /-ct#flow_late#". unfold req_setting. rewrite Hn. cbn [mbind res_bind]. rewrite Hs. eexists. split; reflexivity.
Qed.

Definition demo_aenv : aenv := mkAenv false "eth0" flows_init.
Lemma setting_request_applies_witness :
  ∃ text, check_req demo_aenv "GET /-ct#q_occ#6400 HTTP/1.1" api_init
    = Ret (api_init <| thr := thresholds_init <| vQUEUE_OCCUPANCY_DELTA := 6400 |> |>, text, []).
Proof.
  destruct (setting_request_applies demo_aenv QOcc 6400 " HTTP/1.1" api_init) as (text & E & _).
  - unfold is_u32. lia.
  - intros c t [= <- _]. reflexivity.
  - reflexivity.
  - exists text. exact E.
Defined.

(** Whatever the request, a number it carries is copied to [aNumber[16]]
    without a check: sixteen digits or more at the offset leave the array. *)
Theorem long_number_overruns e s d rest a :
  str_forall isdigit d = true → 16 ≤ strlen d → (∀ c t, rest = String c t → isdigit c = false) →
  strstr rest "GET /-" = None →
  check_req e (setting_pat s +:+ (d +:+ rest)) a = Ub.
Proof.
  intros Hd Hl Hr Hrest.
  assert (plain d rest) as Hp.
  { split; [|done]. clear -Hd. induction d as [|c d IH]; [done|]. cbn in *. apply andb_true_iff in Hd as [Hc Hd].
    rewrite IH by done. rewrite andb_true_r. apply negb_true_iff, Ascii.eqb_neq. intros ->. discriminate Hc. }
  assert (∀ pat, number_at (pat +:+ (d +:+ rest)) pat = Ub) as Hn.
  { intros pat. unfold number_at. rewrite drop_str_app, span_stop by auto. cbn [fst]. unfold number_buffer.
    by destruct (Z.leb_spec 16 (strlen d)); [|lia]. }
  unfold check_req. destruct s.
  - decide_has Hp "ET /-ct#flow_sink#". unfold req_setting. by rewrite Hn.
  - decide_has Hp "ET /-ct#q_occ#". unfold req_setting. by rewrite Hn.
  - decide_has Hp "ET /-ct#hop_late#". unfold req_setting. by rewrite Hn.
  - decide_has Hp "ET /-ct#flow_late#". unfold req_setting. by rewrite Hn.
Qed.

Lemma long_number_overruns_witness :
  check_req demo_aenv "GET /-ct#hop_late#1234567890123456 HTTP/1.1" api_init = Ub.
Proof.
  apply (long_number_overruns demo_aenv HopLate "1234567890123456" " HTTP/1.1" api_init); try reflexivity.
  intros c t [= <- _]. reflexivity.
Defined.

(** The phase shown in the log, the log level and the retransmission flag. *)
Record api_wf (a : Api) : Prop := {
  aw_debug : vDebugLevel a ≤ 10;
  aw_phase : current_phase a = if gTuningMode a then TUNING else LEARNING;
  aw_retrans : vUseRetransmissionRate (thr a) = negb (vUseRetransmissionRate_int a =? 0)
}.

(** The requests that change none of these three. *)
Definition same_mode (a a' : Api) : Prop :=
  vDebugLevel a' = vDebugLevel a ∧ current_phase a' = current_phase a ∧ gTuningMode a' = gTuningMode a ∧
  vUseRetransmissionRate (thr a') = vUseRetransmissionRate (thr a) ∧
  vUseRetransmissionRate_int a' = vUseRetransmissionRate_int a.
Lemma same_mode_wf a a' : api_wf a → same_mode a a' → api_wf a'.
Proof. intros [H1 H2 H3] (E1 & E2 & E3 & E4 & E5). split; by rewrite ?E1, ?E2, ?E3, ?E4, ?E5. Qed.

Ltac ret_state E := injection E as E _ _; rewrite <- E.

Section Requests.
Context (req : string) (a a' : Api) (text : string) (cmds : list string).
Lemma req_setting_mode s : req_setting s req a = Ret (a', text, cmds) → same_mode a a'.
Proof. unfold req_setting. intros E. inv_bind E as n Hn. ret_state E. by destruct s. Qed.
Lemma req_dotted_mode :
  req_retrans_rate req a = Ret (a', text, cmds) ∨ req_pacing_rate req a = Ret (a', text, cmds) → same_mode a a'.
Proof.
  unfold req_retrans_rate, req_pacing_rate.
  intros [E|E]; inv_bind E as r Hr; destruct r as [n dots]; destruct (1 <? dots); by ret_state E.
Qed.
Lemma req_rtt_mode :
  req_rtt_threshold req a = Ret (a', text, cmds) ∨ req_rtt_factor req a = Ret (a', text, cmds) → same_mode a a'.
Proof. unfold req_rtt_threshold, req_rtt_factor. intros [E|E]; inv_bind E as n Hn; by ret_state E. Qed.
Lemma req_kafka_mode e : req_kafka_ip e req a = Ret (a', text, cmds) → same_mode a a'.
Proof.
  unfold req_kafka_ip. intros E. inv_bind E as n Hn. destruct (ae_kafka e); cbn [negb] in E; [|by ret_state E].
  destruct (inet_aton n); by ret_state E.
Qed.
Lemma req_run_mode d e p w q :
  req_ring d e req p a = Ret (a', text, cmds) ∨ req_sock w q req p a = Ret (a', text, cmds) → same_mode a a'.
Proof. unfold req_ring, req_sock. intros [E|E]; inv_bind E as n Hn; by ret_state E. Qed.
Lemma req_debug_wf : api_wf a → req_debug req a = Ret (a', text, cmds) → api_wf a'.
Proof.
  intros [H1 H2 H3]. unfold req_debug. intros E. inv_bind E as n Hn. ret_state E. split; [|done..]. cbn.
  destruct (Z.ltb_spec 10 (atoi n)); lia.
Qed.
Lemma req_retrans_use_wf : api_wf a → req_retrans_use req a = Ret (a', text, cmds) → api_wf a'.
Proof. intros [H1 H2 H3]. unfold req_retrans_use. intros E. inv_bind E as n Hn. ret_state E. by split. Qed.
End Requests.

(** C33: No request breaks the settings: the debug level stays at most 10, the
    phase and the tuning mode change together, and the flag used by the telemetry
    is the truth value of the stored integer. *)
Theorem check_req_keeps_settings_wf e req a a' text cmds :
  api_wf a → check_req e req a = Ret (a', text, cmds) → api_wf a'.
Proof.
  intros Hwf. unfold check_req.
  repeat match goal with |- context [if has ?r ?p then _ else _] => destruct (has r p) end; intros E;
    try lazymatch type of E with
      | req_debug _ _ = _ => exact (req_debug_wf _ _ _ _ _ Hwf E)
      | req_retrans_use _ _ = _ => exact (req_retrans_use_wf _ _ _ _ _ Hwf E)
      | req_setting _ _ _ = _ => exact (same_mode_wf _ _ Hwf (req_setting_mode _ _ _ _ _ _ E))
      | req_retrans_rate _ _ = _ => exact (same_mode_wf _ _ Hwf (req_dotted_mode _ _ _ _ _ (or_introl E)))
      | req_pacing_rate _ _ = _ => exact (same_mode_wf _ _ Hwf (req_dotted_mode _ _ _ _ _ (or_intror E)))
      | req_rtt_threshold _ _ = _ => exact (same_mode_wf _ _ Hwf (req_rtt_mode _ _ _ _ _ (or_introl E)))
      | req_rtt_factor _ _ = _ => exact (same_mode_wf _ _ Hwf (req_rtt_mode _ _ _ _ _ (or_intror E)))
      | req_kafka_ip _ _ _ = _ => exact (same_mode_wf _ _ Hwf (req_kafka_mode _ _ _ _ _ _ E))
      | req_ring ?d ?e _ ?p _ = _ => exact (same_mode_wf _ _ Hwf (req_run_mode _ _ _ _ _ d e p "" "" (or_introl E)))
      | req_sock ?w ?q _ ?p _ = _ => exact (same_mode_wf _ _ Hwf (req_run_mode _ _ _ _ _ "" e p w q (or_intror E)))
      end.
  2: inv_bind E as r Hr.
  3,4: destruct Hwf as [H1 H2 H3]; unfold req_learning in E.
  all: ret_state E; done.
Qed.
Lemma check_req_keeps_settings_wf_witness :
  ∃ a' text cmds, check_req demo_aenv "GET /-d#99" (api_init <| current_phase := LEARNING |>) = Ret (a', text, cmds) ∧ api_wf a'.
Proof.
  eexists _, _, _. split; [vm_compute; reflexivity|].
  apply (check_req_keeps_settings_wf demo_aenv "GET /-d#99" (api_init <| current_phase := LEARNING |>) _
           ("Changed debug level of Tuning Module from 1 to 10!" +:+ nl) []); [|vm_compute; reflexivity].
  split; [vm_compute; discriminate|reflexivity|reflexivity].
Defined.
