(* ===== verification/UserConfig.v ===== *)
(** * The operator's configuration

    [fDoGetUserCfgValues] and [fCheck_log_limit] of user_assess.c: the file
    user_config.txt has a key, blanks and a value on each line; the values are
    kept in the table [userValues] and then become the globals of the program.
    The text of the files is an argument. *)
From Stdlib Require Import ZArith Lia Ascii String.
From stdpp Require Import base list strings numbers option gmap.
From S2P Require Import Prelude CString Lines.
Open Scope Z_scope.

(** ** The table *)
Record sUserValues_t := mkUserValue {
  aUserValues : string;
  default_val : string;
  cfg_value : string
}.
#[export] Instance sUserValues_t_eta : Settable sUserValues_t := λ v,
  mkUserValue (aUserValues v) (default_val v) (cfg_value v).

Definition userValues : list sUserValues_t := [
  mkUserValue "evaluation_timer" "500000" "-1";
  mkUserValue "learning_mode_only" "y" "-1";
  mkUserValue "API_listen_port" "5523" "-1";
  mkUserValue "apply_default_system_tuning" "n" "-1";
  mkUserValue "apply_bios_tuning" "n" "-1";
  mkUserValue "apply_nic_tuning" "n" "-1";
  mkUserValue "make_default_system_tuning_perm" "n" "-1";
  mkUserValue "maxnum_tuning_logs" "10" "-1";
  mkUserValue "source_dtn_port" "5524" "-1";
  mkUserValue "nic_to_use" "na" "-1";
  mkUserValue "nic_attach_type" "xdpoffload" "-1";
  mkUserValue "source_hpnssh_qfactor_port" "5525" "-1";
  mkUserValue "use_apache_kafka" "n" "-1";
  mkUserValue "apache_kafka_topic" "none" "-1"].

(** ** Reading the file *)
Definition not_blank (c : ascii) : bool := negb (isblank c).
Definition not_space (c : ascii) : bool := negb (isspace c).
(** The keys whose value may hold any character but white space. *)
Definition wide_key (k : string) : bool := String.eqb k "nic_to_use" || String.eqb k "apache_kafka_topic".

(** The value behind a key: blanks, one character whatever it is, letters and
    digits, and for a wide key everything up to white space; [setting] has 256 bytes. *)
Definition value_at (key m : string) : res string :=
  '(_, m) ← scan_while isblank m;
  match m with
  | EmptyString => Ub
  | String c m =>
      '(a, m) ← scan_while isalnum m;
      '(w, _) ← (if wide_key key then scan_while not_space m else Ret (EmptyString, m));
      let v := String c (a +:+ w) in
      _ ← fits 256 v; Ret (cstr v)
  end.
(** The [for] loop over the table: the first entry of that name gets the value
    ([strncpy] of [CFG_VALUE_SIZE-1] characters); the loop ends there. *)
Fixpoint store_value (key m : string) (t : list sUserValues_t) : res (list sUserValues_t) :=
  match t with
  | [] => Ret []
  | v :: t' =>
      if String.eqb (aUserValues v) key then
        s ← value_at key m; Ret (v <| cfg_value := take_str 31 s |> :: t')
      else t'' ← store_value key m t'; Ret (v :: t'')
  end.
Definition config_line (m : string) (t : list sUserValues_t) : res (list sUserValues_t * bool) :=
  '(key, m) ← scan_while not_blank m;
  _ ← fits 256 key;
  t ← store_value (cstr key) m t; Ret (t, false).
Definition read_config (ls : list string) : res (list sUserValues_t) :=
  each_line config_line EmptyString ls userValues.

(** ** The globals *)
Record Cfg := mkCfg {
  gInterval : Z;
  vUseEvalutaionTimerDefaultValue : bool;
  gTuningMode : Z;
  gApplyDefSysTuning : ascii;
  gApplyBiosTuning : ascii;
  gApplyNicTuning : ascii;
  gMakeTuningPermanent : ascii;
  gAPI_listen_port : Z;
  gMaxnum_tuning_logs : Z;
  gSource_Dtn_Port : Z;
  gNic_to_use : option string;
  gNic_attach_type : option string;
  gSource_HpnsshQfactor_Port : Z;
  gUseApacheKafka : Z;
  gKafkaTopic : option string
}.
#[export] Instance Cfg_eta : Settable Cfg := λ g,
  mkCfg (gInterval g) (vUseEvalutaionTimerDefaultValue g) (gTuningMode g) (gApplyDefSysTuning g)
    (gApplyBiosTuning g) (gApplyNicTuning g) (gMakeTuningPermanent g) (gAPI_listen_port g)
    (gMaxnum_tuning_logs g) (gSource_Dtn_Port g) (gNic_to_use g) (gNic_attach_type g)
    (gSource_HpnsshQfactor_Port g) (gUseApacheKafka g) (gKafkaTopic g).
Definition cfg_init : Cfg :=
  mkCfg 500000 false 0 "n" "n" "n" "n" 5523 10 5524 None None 5525 0 None.

(** [cfg_value[0] == c] *)
Definition starts (c : ascii) (s : string) : bool :=
  match s with EmptyString => Ascii.eqb c NUL | String d _ => Ascii.eqb d c end.
Definition set_interval (v : sUserValues_t) (g : Cfg) : Cfg :=
  let cfg_val := atoi (cfg_value v) in
  if cfg_val =? 0 then g <| gInterval := atoi (default_val v) |>
  else if 999 <? cfg_val then g <| gInterval := cfg_val |>
  else g <| vUseEvalutaionTimerDefaultValue := true |>.
(** The chain of comparisons for one entry of the table. *)
Definition apply_value (g : Cfg) (v : sUserValues_t) : Cfg :=
  let named k := String.eqb (aUserValues v) k in
  let cfg_val := atoi (cfg_value v) in
  let or_default x := if x =? -1 then atoi (default_val v) else x in
  if named "evaluation_timer" then set_interval v g
  else if named "learning_mode_only" then
    if starts "n" (cfg_value v) then g <| gTuningMode := 1 |> else g
  else if named "apply_default_system_tuning" then
    if starts "y" (cfg_value v) then g <| gApplyDefSysTuning := "y"%char |> else g
  else if named "apply_bios_tuning" then
    if starts "y" (cfg_value v) then g <| gApplyBiosTuning := "y"%char |> else g
  else if named "apply_nic_tuning" then
    if starts "y" (cfg_value v) then g <| gApplyNicTuning := "y"%char |> else g
  else if named "make_default_system_tuning_perm" then
    if starts "y" (cfg_value v) then g <| gMakeTuningPermanent := "y"%char |> else g
  else if named "API_listen_port" then
    g <| gAPI_listen_port := if cfg_val =? 0 then atoi (default_val v) else cfg_val |>
  else if named "maxnum_tuning_logs" then g <| gMaxnum_tuning_logs := or_default cfg_val |>
  else if named "source_dtn_port" then g <| gSource_Dtn_Port := or_default cfg_val |>
  else if named "nic_to_use" then
    if String.eqb (cfg_value v) "-1" then g else g <| gNic_to_use := Some (cfg_value v) |>
  else if named "nic_attach_type" then
    g <| gNic_attach_type := Some (if String.eqb (cfg_value v) "-1" then default_val v else cfg_value v) |>
  else if named "source_hpnssh_qfactor_port" then g <| gSource_HpnsshQfactor_Port := or_default cfg_val |>
  else if named "use_apache_kafka" then
    if starts "y" (cfg_value v) then g <| gUseApacheKafka := 1 |> else g
  else if named "apache_kafka_topic" then
    g <| gKafkaTopic := Some (if String.eqb (cfg_value v) "-1" then default_val v else cfg_value v) |>
  else g.
(** [None]: the file cannot be opened. *)
Definition fDoGetUserCfgValues (file : option (list string)) (g : Cfg) : res Cfg :=
  match file with
  | None => Ret g
  | Some ls => t ← read_config ls; Ret (foldl apply_value g t)
  end.

(** [fCheck_log_limit]: the commands it runs; [atoi] needs the NUL of [setting[256]]. *)
Definition fCheck_log_limit (file : option (list string)) (g : Cfg) : res (list string) :=
  match file with
  | Some (l :: _) =>
      '(d, _) ← scan_while isdigit (getline_buf EmptyString l);
      _ ← fits_nul 256 d;
      Ret (if gMaxnum_tuning_logs g <=? atoi d then ["echo 0 > /tmp/tuningLog.count"] else [])
  | _ => Ret []
  end.

(** A file in the style of the one in the repository. *)
Definition sample_file : list string := [
  "evaluation_timer" +:+ tab +:+ tab +:+ "250000" +:+ nl;
  "learning_mode_only" +:+ tab +:+ tab +:+ "n" +:+ nl;
  "make_default_system_tuning_perm y" +:+ nl; nl;
  "nic_to_use" +:+ tab +:+ "enp1s0-f0" +:+ nl;
  "nic_attach_type" +:+ tab +:+ "xdpoffload" +:+ nl].
Definition sample_cfg : Cfg :=
  mkCfg 250000 false 1 "n" "n" "n" "y" (-1) 10 5524 (Some "enp1s0-f0") (Some "xdpoffload") 5525 0 (Some "none").
Example sample_ex : fDoGetUserCfgValues (Some sample_file) cfg_init = Ret sample_cfg.
Proof. vm_compute. done. Qed.
Example empty_first : read_config [nl] = Ub. Proof. vm_compute. done. Qed.
Example log_ex : fCheck_log_limit (Some ["10" +:+ nl]) cfg_init = Ret ["echo 0 > /tmp/tuningLog.count"].
Proof. vm_compute. done. Qed.

(** ** What a well-formed file says

    A file is a list of settings and other lines (comments); as a specification
    it is the finite map from key to the value given last. *)
Inductive cfg_line :=
| Setting (k sep v : string)
| Other (word rest : string).
Definition line_text (l : cfg_line) : string :=
  match l with
  | Setting k sep v => k +:+ (sep +:+ (v +:+ nl))
  | Other w r => w +:+ r
  end.
Definition keys : list string := aUserValues <$> userValues.
Definition value_ok (k v : string) : bool :=
  match v with
  | EmptyString => false
  | String c v' =>
      not_blank c && not_nul c && (strlen v <=? 31) &&
      (if wide_key k then str_forall (λ c, not_space c && not_nul c) v' else str_forall isalnum v')
  end.
Definition line_ok (l : cfg_line) : bool :=
  match l with
  | Setting k sep v => bool_decide (k ∈ keys) && (0 <? strlen sep) && str_forall isblank sep && value_ok k v
  | Other w r =>
      bool_decide (w ∉ keys) && str_forall (λ c, not_blank c && not_nul c) w && (strlen w <=? 256) &&
      match r with String c _ => isblank c | EmptyString => false end
  end.
Definition given (m : gmap string string) (l : cfg_line) : gmap string string :=
  match l with Setting k _ v => <[k := v]> m | Other _ _ => m end.
Definition settings (ls : list cfg_line) : gmap string string := foldl given ∅ ls.
Definition with_setting (m : gmap string string) (v : sUserValues_t) : sUserValues_t :=
  match m !! aUserValues v with Some s => v <| cfg_value := s |> | None => v end.

(** The globals a file with these settings gives. *)
Definition cfg_of (m : gmap string string) : Cfg :=
  let interval := atoi <$> m !! "evaluation_timer" in
  let yes k := match m !! k with Some s => if starts "y" s then "y"%char else "n"%char | None => "n"%char end in
  let number k d := match m !! k with Some s => if atoi s =? -1 then d else atoi s | None => d end in
  let text k d := match m !! k with Some s => if String.eqb s "-1" then d else Some s | None => d end in
  mkCfg
    (match interval with Some i => if 999 <? i then i else 500000 | None => 500000 end)
    (match interval with Some i => negb (i =? 0) && (i <=? 999) | None => true end)
    (match m !! "learning_mode_only" with Some s => if starts "n" s then 1 else 0 | None => 0 end)
    (yes "apply_default_system_tuning") (yes "apply_bios_tuning") (yes "apply_nic_tuning")
    (yes "make_default_system_tuning_perm")
    (match m !! "API_listen_port" with Some s => if atoi s =? 0 then 5523 else atoi s | None => -1 end)
    (number "maxnum_tuning_logs" 10) (number "source_dtn_port" 5524)
    (text "nic_to_use" None) (text "nic_attach_type" (Some "xdpoffload"))
    (number "source_hpnssh_qfactor_port" 5525)
    (match m !! "use_apache_kafka" with Some s => if starts "y" s then 1 else 0 | None => 0 end)
    (text "apache_kafka_topic" (Some "none")).

(** ** Lemmas *)
Lemma with_setting_name m v : aUserValues (with_setting m v) = aUserValues v.
Proof. unfold with_setting. by case_match. Qed.
Lemma isalnum_not_space c : isalnum c = true → not_space c = true.
Proof.
  unfold isalnum, isalpha, isdigit, not_space, isspace. intros H. apply negb_true_iff. revert H.
  zbool; cbn; intros; done || lia.
Qed.
Lemma isblank_nul c : isblank c = true → not_nul c = true.
Proof. intros H. apply negb_true_iff, Ascii.eqb_neq. intros ->. discriminate H. Qed.

(** The text of a value is read back. *)
Lemma value_at_text k sep v t :
  0 < strlen sep → str_forall isblank sep = true → value_ok k v = true →
  value_at k (sep +:+ ((v +:+ nl) +:+ t)) = Ret v.
Proof.
  intros _ Hsep Hv. destruct v as [|c v]; [done|]. cbn [value_ok] in Hv.
  apply andb_true_iff in Hv as [[[Hc Hn]%andb_true_iff Hlen%Z.leb_le]%andb_true_iff Hv].
  rewrite strlen_cons in Hlen. unfold value_at. rewrite !str_app_cons.
  rewrite scan_stop by (done || by apply negb_true_iff). cbn [mbind res_bind].
  pose proof (span_app isalnum v) as Ha. pose proof (span_forall isalnum v) as Ha'.
  destruct (wide_key k).
  - assert (Hw : str_forall not_space v = true) by (eapply str_forall_weaken; [|exact Hv]; cbn; by intros ? [? _]%andb_true_iff).
    assert (Hz : str_forall not_nul v = true) by (eapply str_forall_weaken; [|exact Hv]; cbn; by intros ? [_ ?]%andb_true_iff).
    replace (scan_while isalnum ((v +:+ nl) +:+ t)) with (Ret ((span isalnum v).1, (span isalnum v).2 +:+ (nl +:+ t))) by
      (rewrite <- str_app_assoc; symmetry; apply scan_more; [discriminate|by intros ?? [= <- ?]]).
    cbn [mbind res_bind]. rewrite <- Ha, str_forall_app in Hw. apply andb_true_iff in Hw as [_ Hw].
    unfold nl at 1. rewrite str_app_cons, str_app_nil_l. rewrite scan_stop by done. cbn [mbind res_bind].
    rewrite Ha. rewrite fits_ok by (rewrite strlen_cons; lia). cbn [mbind res_bind]. rewrite cstr_id; [done|].
    cbn [str_forall]. by rewrite Hn.
  - unfold nl. rewrite <- str_app_assoc, str_app_cons, str_app_nil_l. rewrite scan_stop by done.
    cbn [mbind res_bind]. rewrite str_app_nil. rewrite fits_ok by (rewrite strlen_cons; lia).
    cbn [mbind res_bind]. rewrite cstr_id; [done|]. cbn [str_forall]. rewrite Hn.
    eapply str_forall_weaken; [|exact Hv]. apply isalnum_not_nul.
Qed.

Lemma store_value_missing k mem t : k ∉ (aUserValues <$> t) → store_value k mem t = Ret t.
Proof.
  induction t as [|v t IH]; [done|]. rewrite fmap_cons, not_elem_of_cons. intros [Hk Ht].
  cbn [store_value]. rewrite (proj2 (String.eqb_neq _ _)) by congruence. rewrite IH by done. done.
Qed.
Lemma store_value_given k v mem m t :
  NoDup (aUserValues <$> t) → k ∈ (aUserValues <$> t) → value_at k mem = Ret v → strlen v ≤ 31 →
  store_value k mem (with_setting m <$> t) = Ret (with_setting (<[k := v]> m) <$> t).
Proof.
  intros Hnd Hk Hv Hlen. induction t as [|u t IH]; [by apply not_elem_of_nil in Hk|].
  rewrite fmap_cons in *. apply NoDup_cons in Hnd as [Hu Hnd]. cbn [store_value].
  rewrite with_setting_name. destruct (String.eqb_spec (aUserValues u) k) as [<-|Hne].
  - rewrite Hv. cbn [mbind res_bind]. rewrite take_str_all by lia. rewrite fmap_cons. f_equal. f_equal.
    + unfold with_setting. rewrite lookup_insert_eq. by case_match.
    + apply list_fmap_ext. intros i x Hx. unfold with_setting. rewrite lookup_insert_ne; [done|].
      intros E. apply Hu. rewrite E. apply list_elem_of_fmap_2. by eapply list_elem_of_lookup_2.
  - apply elem_of_cons in Hk. destruct Hk as [Hk|Hk]; [congruence|]. rewrite (IH Hnd Hk).
    cbn [mbind res_bind]. rewrite fmap_cons. f_equal. f_equal. unfold with_setting. by rewrite lookup_insert_ne by congruence.
Qed.
Lemma keys_NoDup : NoDup keys.
Proof. by apply (bool_decide_unpack _). Qed.
(** A key holds no blank and no NUL. *)
Lemma key_plain k : k ∈ keys → str_forall (λ c, not_blank c && not_nul c) k = true ∧ strlen k ≤ 256.
Proof.
  intros Hk. assert (Forall (λ k, str_forall (λ c, not_blank c && not_nul c) k = true ∧ strlen k ≤ 256) keys) as H.
  { repeat constructor; done. }
  rewrite Forall_forall in H. by apply H.
Qed.
(** The first word of a line. *)
Lemma line_word w c t :
  str_forall (λ c, not_blank c && not_nul c) w = true → isblank c = true →
  scan_while not_blank (w +:+ String c t) = Ret (w, String c t) ∧ cstr w = w.
Proof.
  intros Hw Hc. split.
  - apply scan_stop; [|by apply negb_false_iff]. eapply str_forall_weaken; [|exact Hw]. cbn. by intros ? [? _]%andb_true_iff.
  - apply cstr_id. eapply str_forall_weaken; [|exact Hw]. cbn. by intros ? [_ ?]%andb_true_iff.
Qed.
(** What the scanning loops find on a line. *)
Lemma line_parts b l :
  line_ok l = true →
  ∃ key m, scan_while not_blank (getline_buf b (line_text l)) = Ret (key, m) ∧ fits 256 key = Ret tt ∧ cstr key = key ∧
    match l with
    | Setting k _ v => key = k ∧ k ∈ keys ∧ value_at k m = Ret v ∧ strlen v ≤ 31
    | Other w _ => key = w ∧ w ∉ keys
    end.
Proof.
  intros Hl. destruct l as [k sep v|w r]; cbn [line_ok line_text] in *; rewrite getline_buf_app;
    match goal with |- context [String NUL ?x] => generalize (String NUL x) as z; intros z end.
  - apply andb_true_iff in Hl as [[[Hk%bool_decide_eq_true Hs%Z.ltb_lt]%andb_true_iff Hb]%andb_true_iff Hv].
    destruct (key_plain k Hk) as [Hp Hlen]. pose proof (value_at_text k sep v z Hs Hb Hv) as Hat.
    rewrite <- str_app_assoc. destruct sep as [|c sep]; [done|].
    assert (Hc : isblank c = true) by (cbn in Hb; by apply andb_true_iff in Hb as [? _]).
    destruct (line_word k c (sep +:+ ((v +:+ nl) +:+ z)) Hp Hc) as [Hscan Hcs].
    do 2 eexists. rewrite !str_app_cons. split; [exact Hscan|]. split; [by apply fits_ok|]. split; [done|].
    split; [done|]. split; [done|]. split; [by rewrite str_app_cons in Hat|].
    destruct v; [done|]. cbn [value_ok] in Hv. by apply andb_true_iff in Hv as [[_ ?%Z.leb_le]%andb_true_iff _].
  - apply andb_true_iff in Hl as [[[Hk%bool_decide_eq_true Hw]%andb_true_iff Hlen%Z.leb_le]%andb_true_iff Hr].
    destruct r as [|c r]; [done|]. destruct (line_word w c (r +:+ z) Hw Hr) as [Hscan Hcs].
    do 2 eexists. rewrite str_app_cons. split; [exact Hscan|]. split; [by apply fits_ok|]. done.
Qed.
Lemma config_line_text b l m :
  line_ok l = true →
  config_line (getline_buf b (line_text l)) (with_setting m <$> userValues) =
  Ret (with_setting (given m l) <$> userValues, false).
Proof.
  intros Hl. destruct (line_parts b l Hl) as (key & mem & Hs & Hf & Hc & Hp). unfold config_line.
  rewrite Hs. cbn [mbind res_bind]. rewrite Hf. cbn [mbind res_bind]. rewrite Hc. destruct l as [k sep v|w r]; cbn [given].
  - destruct Hp as (-> & Hk & Hat & Hlen). by rewrite (store_value_given k v) by (done || apply keys_NoDup).
  - destruct Hp as (-> & Hk). rewrite store_value_missing; [done|]. intros Hin. apply Hk. revert Hin. unfold keys.
    rewrite <- list_fmap_compose. erewrite list_fmap_ext; [done|]. intros. apply with_setting_name.
Qed.
Lemma with_setting_empty : with_setting ∅ <$> userValues = userValues.
Proof. done. Qed.
Lemma read_config_lines ls m b :
  Forall (λ l, line_ok l = true) ls →
  each_line config_line b (line_text <$> ls) (with_setting m <$> userValues) =
  Ret (with_setting (foldl given m ls) <$> userValues).
Proof.
  intros Hls. revert m b. induction Hls as [|l ls Hl _ IH]; intros m b; [done|].
  rewrite fmap_cons. cbn [each_line foldl]. rewrite config_line_text by done. cbn [mbind res_bind]. apply IH.
Qed.
(** Every value leaves the other fields alone, so the table can be read field by field. *)
Lemma if_cfg (b : bool) (x y : Cfg) :
  (if b then x else y) =
  mkCfg (if b then gInterval x else gInterval y)
    (if b then vUseEvalutaionTimerDefaultValue x else vUseEvalutaionTimerDefaultValue y)
    (if b then gTuningMode x else gTuningMode y) (if b then gApplyDefSysTuning x else gApplyDefSysTuning y)
    (if b then gApplyBiosTuning x else gApplyBiosTuning y) (if b then gApplyNicTuning x else gApplyNicTuning y)
    (if b then gMakeTuningPermanent x else gMakeTuningPermanent y)
    (if b then gAPI_listen_port x else gAPI_listen_port y)
    (if b then gMaxnum_tuning_logs x else gMaxnum_tuning_logs y)
    (if b then gSource_Dtn_Port x else gSource_Dtn_Port y) (if b then gNic_to_use x else gNic_to_use y)
    (if b then gNic_attach_type x else gNic_attach_type y)
    (if b then gSource_HpnsshQfactor_Port x else gSource_HpnsshQfactor_Port y)
    (if b then gUseApacheKafka x else gUseApacheKafka y) (if b then gKafkaTopic x else gKafkaTopic y).
Proof. by destruct b, x, y. Qed.
Lemma if_same {A} (b : bool) (x : A) : (if b then x else x) = x.
Proof. by destruct b. Qed.

Section Apply.
#[local] Opaque atoi.
Lemma with_setting_mk m n d c :
  with_setting m (mkUserValue n d c) = mkUserValue n d (default c (m !! n)).
Proof. unfold with_setting. cbn. by destruct (m !! n). Qed.
Lemma apply_table m : foldl apply_value cfg_init (with_setting m <$> userValues) = cfg_of m.
Proof.
  unfold userValues. rewrite !fmap_cons, fmap_nil, !with_setting_mk. unfold cfg_init.
  cbn [foldl].
  repeat (match goal with
  | |- context [apply_value (mkCfg ?a1 ?a2 ?a3 ?a4 ?a5 ?a6 ?a7 ?a8 ?a9 ?a10 ?a11 ?a12 ?a13 ?a14 ?a15) ?v] =>
      let e := eval cbn in (apply_value (mkCfg a1 a2 a3 a4 a5 a6 a7 a8 a9 a10 a11 a12 a13 a14 a15) v) in
      let e := eval cbv [set_interval set_field] in e in let e := eval cbn in e in
      change (apply_value (mkCfg a1 a2 a3 a4 a5 a6 a7 a8 a9 a10 a11 a12 a13 a14 a15) v) with e
  end; rewrite ?if_cfg; cbn [gInterval vUseEvalutaionTimerDefaultValue gTuningMode gApplyDefSysTuning
    gApplyBiosTuning gApplyNicTuning gMakeTuningPermanent gAPI_listen_port gMaxnum_tuning_logs gSource_Dtn_Port
    gNic_to_use gNic_attach_type gSource_HpnsshQfactor_Port gUseApacheKafka gKafkaTopic]; rewrite ?if_same).
  unfold cfg_of. f_equal.
  all: repeat match goal with |- context [?m !! ?k] => destruct (m !! k) end.
  all: cbn. all: try done. all: try (case_match; done).
  - by destruct (Z.eqb_spec (atoi s) 0) as [->|].
  - zbool; done || lia.
Qed.
End Apply.

Lemma config_given ls :
  Forall (λ l, line_ok l = true) ls →
  fDoGetUserCfgValues (Some (line_text <$> ls)) cfg_init = Ret (cfg_of (settings ls)).
Proof.
  intros Hls. unfold fDoGetUserCfgValues, read_config. rewrite <- with_setting_empty.
  rewrite read_config_lines by done. cbn [mbind res_bind]. by rewrite apply_table.
Qed.

(** *** The table and the globals stay well formed, whatever the file holds *)
Definition entry_wf (v : sUserValues_t) : Prop := strlen (cfg_value v) ≤ 31.
Lemma take_str_len n s : strlen (take_str n s) ≤ Z.of_nat n.
Proof.
  revert s. induction n as [|n IH]; intros [|c s]; cbn [take_str]; rewrite ?strlen_cons;
    change (strlen "") with 0; [lia..|]. specialize (IH s). lia.
Qed.
Lemma store_value_wf key m t t' :
  Forall entry_wf t → store_value key m t = Ret t' →
  Forall entry_wf t' ∧ (λ v, (aUserValues v, default_val v)) <$> t' = (λ v, (aUserValues v, default_val v)) <$> t.
Proof.
  intros Ht. revert t'. induction Ht as [|v t Hv Ht IH]; intros t'; cbn [store_value]; [by intros [= <-]|].
  case_match; intros E; inv_bind E as s Es; simplify_eq.
  - split; [|done]. constructor; [apply (take_str_len 31)|done].
  - destruct (IH _ Es) as [? E']. split; [by constructor|]. by rewrite !fmap_cons, E'.
Qed.
Definition table_wf (t : list sUserValues_t) : Prop :=
  Forall entry_wf t ∧
  (λ v, (aUserValues v, default_val v)) <$> t = (λ v, (aUserValues v, default_val v)) <$> userValues.
Lemma read_config_wf ls t : read_config ls = Ret t → table_wf t.
Proof.
  apply (each_line_inv config_line table_wf); [|split; [unfold entry_wf; by repeat constructor|done]].
  intros m a a' stop [Ha Hn] E. unfold config_line in E. inv_bind E as [k r] Ek. inv_bind E as u Eu.
  inv_bind E as t1 Et. simplify_eq.
  apply store_value_wf in Et as [? Hn']; [|done]. split; [done|congruence].
Qed.
Definition is_flag (c : ascii) : Prop := c = "y"%char ∨ c = "n"%char.
Definition is_int (x : Z) : Prop := -2 ^ 31 ≤ x < 2 ^ 31.
Definition is_short (s : option string) : Prop := ∀ t, s = Some t → strlen t ≤ 31.
Record cfg_wf (g : Cfg) : Prop := {
  wf_interval : 1000 ≤ gInterval g < 2 ^ 31;
  wf_tuning : gTuningMode g = 0 ∨ gTuningMode g = 1;
  wf_kafka : gUseApacheKafka g = 0 ∨ gUseApacheKafka g = 1;
  wf_flags : is_flag (gApplyDefSysTuning g) ∧ is_flag (gApplyBiosTuning g) ∧ is_flag (gApplyNicTuning g) ∧
             is_flag (gMakeTuningPermanent g);
  wf_ports : is_int (gAPI_listen_port g) ∧ is_int (gSource_Dtn_Port g) ∧ is_int (gSource_HpnsshQfactor_Port g) ∧
             is_int (gMaxnum_tuning_logs g);
  wf_names : is_short (gNic_to_use g) ∧ is_short (gNic_attach_type g) ∧ is_short (gKafkaTopic g)
}.
Lemma atoi_int s : is_int (atoi s).
Proof. unfold is_int, atoi. repeat case_match; apply i32_range. Qed.
Lemma Some_short s : strlen s ≤ 31 → is_short (Some s).
Proof. by intros ?? [= <-]. Qed.
Lemma apply_value_wf g v :
  strlen (cfg_value v) ≤ 31 → strlen (default_val v) ≤ 31 →
  (aUserValues v = "evaluation_timer" → default_val v = "500000") →
  cfg_wf g → cfg_wf (apply_value g v).
Proof.
  intros Hv Hd He [H1 H2 H3 (?&?&?&?) (?&?&?&?) (?&?&?)]. pose proof (atoi_int (cfg_value v)) as Hi.
  pose proof (atoi_int (default_val v)). unfold apply_value, set_interval.
  assert (Hs : ∀ b : bool, is_short (Some (if b then default_val v else cfg_value v))) by
    (intros b; apply Some_short; by destruct b).
  assert (Ho : ∀ x, is_int x → is_int (if x =? -1 then atoi (default_val v) else x)) by (intros x ?; by case_match).
  destruct (String.eqb_spec (aUserValues v) "evaluation_timer") as [E|_].
  - rewrite (He E). destruct (Z.eqb_spec (atoi (cfg_value v)) 0); [by constructor|].
    destruct (Z.ltb_spec 999 (atoi (cfg_value v))); constructor; try done. unfold is_int in Hi. cbn. lia.
  - repeat case_match; constructor; try done; cbn; unfold is_flag; auto 10 using Some_short.
Qed.
Lemma apply_table_wf t g :
  Forall entry_wf t →
  Forall (λ p : string * string, strlen p.2 ≤ 31 ∧ (p.1 = "evaluation_timer" → p.2 = "500000"))
    ((λ v, (aUserValues v, default_val v)) <$> t) →
  cfg_wf g → cfg_wf (foldl apply_value g t).
Proof.
  intros Ht. revert g. induction Ht as [|v t Hv Ht IH]; intros g Hd Hg; [done|]. cbn [foldl].
  rewrite fmap_cons in Hd. apply Forall_cons in Hd as [[Hd1 Hd2] Hd]. cbn in *.
  apply IH; [done|]. by apply apply_value_wf.
Qed.

Lemma config_given_wf file g : fDoGetUserCfgValues file cfg_init = Ret g → cfg_wf g.
Proof.
  assert (cfg_wf cfg_init) as H0.
  { constructor; cbn; unfold is_flag, is_int; repeat split; try intros ? [=]; auto; lia. }
  destruct file as [ls|]; cbn [fDoGetUserCfgValues]; [|by intros [= <-]].
  intros E. inv_bind E as t Et. simplify_eq. apply read_config_wf in Et as [Hw Hn].
  apply apply_table_wf; [done| |done]. rewrite Hn. repeat constructor; done.
Qed.

(** ** Theorems *)
(** C35: Whatever user_config.txt holds (or when it cannot be opened), if the
    program reads it to the end its settings are well typed: the evaluation
    timer is at least 1000 microseconds, every flag is y or n, the modes are 0
    or 1, the numbers are ints and the names fit their 32-byte fields. *)
Theorem config_always_wf file g : fDoGetUserCfgValues file cfg_init = Ret g → cfg_wf g.
Proof. apply config_given_wf. Qed.
Lemma config_always_wf_witness :
  fDoGetUserCfgValues (Some sample_file) cfg_init = Ret sample_cfg ∧
  cfg_wf sample_cfg.
Proof. split; [|apply (config_always_wf (Some sample_file))]; vm_compute; reflexivity. Defined.

(** C18: A file of settings and comment lines is read as the finite map from key
    to the value given last, for every value the syntax allows, and the globals
    become what that map says. *)
Theorem config_sets_globals ls :
  Forall (λ l, line_ok l = true) ls →
  fDoGetUserCfgValues (Some (line_text <$> ls)) cfg_init = Ret (cfg_of (settings ls)).
Proof. apply config_given. Qed.
Lemma config_sets_globals_witness :
  fDoGetUserCfgValues (Some (line_text <$> [Other "#" " my site"; Setting "nic_to_use" " " "eth-0"; Setting "evaluation_timer" " " "2000"])) cfg_init
  = Ret (cfg_of (settings [Other "#" " my site"; Setting "nic_to_use" " " "eth-0"; Setting "evaluation_timer" " " "2000"])).
Proof. apply config_sets_globals. repeat constructor; vm_compute; reflexivity. Defined.

(** A file that does not name API_listen_port sets the port of the HTTP
    interface to -1, not to its default 5523, and without evaluation_timer the
    timer counts as set too low; the two other ports fall back to their defaults. *)
Theorem unset_api_port_is_minus_one ls :
  Forall (λ l, line_ok l = true) ls → settings ls !! "API_listen_port" = None →
  settings ls !! "source_dtn_port" = None → settings ls !! "evaluation_timer" = None →
  ∃ g, fDoGetUserCfgValues (Some (line_text <$> ls)) cfg_init = Ret g ∧
    gAPI_listen_port g = -1 ∧ gSource_Dtn_Port g = 5524 ∧
    gInterval g = 500000 ∧ vUseEvalutaionTimerDefaultValue g = true.
Proof.
  intros Hls H1 H2 H3. eexists. split; [by apply config_given|]. unfold cfg_of. cbn. by rewrite H1, H2, H3.
Qed.
Lemma unset_api_port_is_minus_one_witness :
  ∃ g, fDoGetUserCfgValues (Some (line_text <$> [Setting "nic_to_use" " " "eth0"])) cfg_init = Ret g ∧
    gAPI_listen_port g = -1 ∧ gSource_Dtn_Port g = 5524 ∧ gInterval g = 500000 ∧ vUseEvalutaionTimerDefaultValue g = true.
Proof. apply unset_api_port_is_minus_one; [repeat constructor|..]; vm_compute; reflexivity. Defined.

(** The limit of log files: a count of [n] starts over exactly from the limit on. *)
Lemma log_limit_exact n g :
  0 ≤ n < 2 ^ 31 →
  fCheck_log_limit (Some [dec n +:+ nl]) g =
  Ret (if gMaxnum_tuning_logs g <=? n then ["echo 0 > /tmp/tuningLog.count"] else []).
Proof.
  intros Hn. cbn [fCheck_log_limit]. rewrite getline_buf_app. unfold nl. rewrite str_app_cons.
  rewrite scan_stop by (done || apply dec_digits; lia). cbn [mbind res_bind]. pose proof (dec_len n).
  rewrite fits_nul_ok by lia. cbn [mbind res_bind].
  by rewrite atoi_digits by (try apply dec_digits; rewrite ?num_dec; lia); rewrite num_dec by lia.
Qed.
