(* ===== verification/TunCli.v ===== *)
(** * The operator's command line

    src/cli/tuncli.c: a command such as "tuncli -ct q_occ 6400" becomes the path
    of an HTTP request to the daemon, whose port is looked up in
    user_config.txt.  facil.io, which carries the request, is a parameter.  The
    file ends with the commands seen from the operator's side: an abstract
    effect for each, and the proof that client, server and configuration
    together implement it. *)
From Stdlib Require Import ZArith Lia Ascii String.
From stdpp Require Import base gmap strings numbers option list.
From S2P Require Import Prelude CString Lines Dbl UserConfig Ring DtnTables FlowCounters Timers Telemetry HttpApi.
Open Scope Z_scope.

(** ** The client *)
Definition one_of (s : string) (l : list string) : bool := existsb (String.eqb s) l.
Definition digit_first (s : string) : bool := match s with String c _ => isdigit c | EmptyString => false end.
(** [aSecondPart[128]]; [None]: the usage text is printed. *)
Definition second_part (argv : list string) : res (option string) :=
  match argv with
  | [_; a1] => Ret (if one_of a1 ["-t"; "-pc"] then Some a1 else None)
  | [_; a1; a2; a3] =>
      if one_of a1 ["-b"; "-ct"; "-rtt"; "-kaf"] then
        let s := a1 +:+ "#" +:+ a2 +:+ "#" +:+ a3 in
        _ ← fits_nul 128 s; Ret (Some s)
      else Ret None
  | [_; a1; a2] =>
      if (one_of a1 ["-d"; "-r"] && digit_first a2) || (String.eqb a1 "-l" && one_of a2 ["on"; "off"]) then
        let s := a1 +:+ "#" +:+ a2 in
        _ ← fits_nul 128 s; Ret (Some s)
      else Ret None
  | _ => Ret None
  end.
(** [aListenPort[32]]: the value of the first line with that key. *)
Definition port_line (m : string) (port : option string) : res (option string * bool) :=
  '(key, m) ← scan_while not_blank m;
  _ ← fits 256 key;
  if String.eqb "API_listen_port" (cstr key) then
    v ← value_at "API_listen_port" m; _ ← fits_nul 32 v; Ret (Some v, true)
  else Ret (port, false).
Inductive cli :=
| Usage                                      (* exit(-1) *)
| NoConfig                                   (* return -1 *)
| Connect (url : string).
Definition main (argv : list string) (file : option (list string)) : res cli :=
  second ← second_part argv;
  match second with
  | None => Ret Usage
  | Some second =>
      match file with
      | None => Ret NoConfig
      | Some ls =>
          port ← each_line port_line EmptyString ls None;
          let url := "http://127.0.0.1" +:+ ":" +:+ default "5523" port +:+ "/" +:+ second in
          _ ← fits_nul 512 url; Ret (Connect url)
      end
  end.
Example cli_ex : main ["tuncli"; "-ct"; "q_occ"; "6400"] (Some ["API_listen_port" +:+ tab +:+ "8080" +:+ nl]) =
  Ret (Connect "http://127.0.0.1:8080/-ct#q_occ#6400").
Proof. vm_compute. done. Qed.
Example usage_ex : main ["tuncli"; "-d"; "high"] (Some []) = Ret Usage. Proof. vm_compute. done. Qed.

(** ** The commands of the usage text *)
Inductive command :=
| ApplyTuning
| Learning (on : bool)
| Counters
| RingSize (dir : bool) (n : Z)              (* true: rx *)
| SockSize (dir : bool) (n : Z)
| DebugLevel (n : Z)
| UseRetrans (n : Z)
| Threshold (s : u32_setting) (n : Z)
| RetransRate (x : string)
| PacingRate (x : string)
| RttThreshold (n : Z)
| RttFactor (n : Z)
| KafkaIp (y : Z).
Definition dir_name (rx : bool) : string := if rx then "rx" else "tx".
Definition setting_word (s : u32_setting) : string :=
  match s with FlowSink => "flow_sink" | QOcc => "q_occ" | HopLate => "hop_late" | FlowLate => "flow_late" end.
(** What the operator types. *)
Definition words (c : command) : list string :=
  "tuncli" ::
  match c with
  | ApplyTuning => ["-t"]
  | Learning on => ["-l"; if on then "on" else "off"]
  | Counters => ["-pc"]
  | RingSize rx n => ["-b"; dir_name rx; dec n]
  | SockSize rx n => ["-b"; "sock_" +:+ dir_name rx +:+ "_buff"; dec n]
  | DebugLevel n => ["-d"; dec n]
  | UseRetrans n => ["-r"; dec n]
  | Threshold s n => ["-ct"; setting_word s; dec n]
  | RetransRate x => ["-ct"; "retrans_rate"; x]
  | PacingRate x => ["-ct"; "pacing_rate"; x]
  | RttThreshold n => ["-rtt"; "thresh"; dec n]
  | RttFactor n => ["-rtt"; "factor"; dec n]
  | KafkaIp y => ["-kaf"; "ip4"; ip_string y]
  end.
(** A decimal number of at most fifteen characters, with at most one point. *)
Definition decimal_ok (x : string) : Prop :=
  str_forall (λ c, isdigit c || Ascii.eqb c ".") x = true ∧ strlen x < 16 ∧ (dotted 0 x).2 ≤ 1.
Definition command_ok (e : aenv) (c : command) : Prop :=
  match c with
  | ApplyTuning | Learning _ => True
  | Counters => ∃ r, tuning_activities_report (ae_flows e) = Ret r
  | Threshold _ n => is_u32 n
  | RingSize _ n | SockSize _ n | DebugLevel n | UseRetrans n | RttThreshold n | RttFactor n => 0 ≤ n < 2 ^ 31
  | RetransRate x | PacingRate x => decimal_ok x
  | KafkaIp y => is_u32 y
  end.
(** What the daemon should do: its new settings and the commands it runs. *)
Definition effect (e : aenv) (c : command) (a : Api) : Api * list string :=
  match c with
  | ApplyTuning => (a, ["sh ./user_menu.sh apply_all_recommended_settings"])
  | Learning on => (a <| HttpApi.gTuningMode := negb on |> <| current_phase := if on then LEARNING else TUNING |>, [])
  | Counters => (a, [])
  | RingSize rx n => (a, ["ethtool -G " +:+ ae_device e +:+ " " +:+ dir_name rx +:+ " " +:+ dec n])
  | SockSize rx n => (a, ["sysctl -w net.core." +:+ (if rx then "rmem_max" else "wmem_max") +:+ "=" +:+ dec n])
  | DebugLevel n => (a <| vDebugLevel := Z.min 10 n |>, [])
  | UseRetrans n => (a <| vUseRetransmissionRate_int := Z.min 1 n |>
                       <| thr := (thr a) <| vUseRetransmissionRate := 0 <? n |> |>, [])
  | Threshold s n => (a <| thr := setting_put s n (thr a) |>, [])
  | RetransRate x => (a <| vRetransmissionRateThreshold := sscanf_lf x |>, [])
  | PacingRate x => (a <| vMaxPacingRate := ddiv (sscanf_lf x) d100 |>, [])
  | RttThreshold n => (a <| rtt_threshold := dofZ n |>, [])
  | RttFactor n => (a <| rtt_factor := n |>, [])
  | KafkaIp y =>
      if ae_kafka e then
        (a <| aKafka_Dest_Ip2_Binary := hex8 y |> <| aDest_Ip2_Binary := hex8 y |> <| aDest_Ip2 := ip_string y |>, [])
      else (a, [])
  end.

(** ** Lemmas *)
(** The second part of the URL: the letters of the command and its number. *)
Definition head (c : command) : string :=
  match c with
  | ApplyTuning => "-t" | Learning on => if on then "-l#on" else "-l#off" | Counters => "-pc"
  | RingSize rx _ => if rx then "-b#rx#" else "-b#tx#"
  | SockSize rx _ => if rx then "-b#sock_rx_buff#" else "-b#sock_tx_buff#"
  | DebugLevel _ => "-d#" | UseRetrans _ => "-r#"
  | Threshold s _ => match s with FlowSink => "-ct#flow_sink#" | QOcc => "-ct#q_occ#" | HopLate => "-ct#hop_late#" | FlowLate => "-ct#flow_late#" end
  | RetransRate _ => "-ct#retrans_rate#" | PacingRate _ => "-ct#pacing_rate#"
  | RttThreshold _ => "-rtt#thresh#" | RttFactor _ => "-rtt#factor#" | KafkaIp _ => "-kaf#ip4#"
  end.
Definition arg (c : command) : string :=
  match c with
  | ApplyTuning | Learning _ | Counters => ""
  | RingSize _ n | SockSize _ n | DebugLevel n | UseRetrans n | Threshold _ n | RttThreshold n | RttFactor n => dec n
  | RetransRate x | PacingRate x => x
  | KafkaIp y => ip_string y
  end.
Lemma dec_first n : 0 ≤ n → digit_first (dec n) = true.
Proof.
  intros Hn. pose proof (dec_digits n Hn) as Hd. pose proof (dec_nonempty n). destruct (dec n) as [|c r]; [done|].
  by apply andb_true_iff in Hd as [? _].
Qed.
Lemma ip_string_len y : strlen (ip_string y) ≤ 15.
Proof.
  unfold ip_string. rewrite !strlen_app. change (strlen ".") with 1.
  assert (∀ k, strlen (dec (uip_byte k y)) ≤ 3) as H.
  { intros k. pose proof (byte_of_range k y). pose proof (dec_go_len_bound 2 20 (uip_byte k y) "") as Hd.
    change (strlen "") with 0 in Hd. change (10 ^ Z.of_nat 3) with 1000 in Hd. unfold uip_byte, dec in *. lia. }
  pose proof (H 0). pose proof (H 1). pose proof (H 2). pose proof (H 3). lia.
Qed.
Lemma arg_len e c : command_ok e c → strlen (arg c) ≤ 20.
Proof.
  destruct c; cbn [command_ok arg]; intros Hc; try (change (strlen "") with 0; lia); try apply dec_len;
    try (destruct Hc as (_ & ? & _); lia). pose proof (ip_string_len y). lia.
Qed.
Lemma second_of e c : command_ok e c → second_part (words c) = Ret (Some (head c +:+ arg c)).
Proof.
  intros Hc. pose proof (arg_len e c Hc) as Hl.
  destruct c as [|[]| |[] n|[] n|n|n|s n|x|x|n|n|y]; cbn [command_ok arg words] in *; try reflexivity;
    unfold second_part, words; cbv zeta; cbn [one_of existsb String.eqb Ascii.eqb Bool.eqb orb andb]; rewrite ?dec_first by lia;
    cbn [one_of existsb String.eqb Ascii.eqb Bool.eqb orb andb].
  all: first [ destruct s | idtac ].
  all: match goal with |- context [fits_nul 128 ?t] =>
         match goal with |- _ = Ret (Some ?u) => change t with u end end.
  all: rewrite fits_nul_ok; [reflexivity|].
  all: rewrite strlen_app; unfold strlen in *; cbn [String.length head]; lia.
Qed.

(** *** Reading the arguments back *)
Definition digit_or_dot (c : ascii) : bool := isdigit c || Ascii.eqb c ".".
Lemma digits_or_dots s : str_forall isdigit s = true → str_forall digit_or_dot s = true.
Proof. apply str_forall_weaken. intros c Hc. unfold digit_or_dot. by rewrite Hc. Qed.
Lemma ip_string_plain y : str_forall digit_or_dot (ip_string y) = true.
Proof.
  unfold ip_string. rewrite !str_forall_app.
  assert (∀ k, str_forall digit_or_dot (dec (uip_byte k y)) = true) as H
    by (intros k; unfold uip_byte; pose proof (byte_of_range k y); apply digits_or_dots, dec_digits; lia).
  by rewrite !H.
Qed.
Lemma arg_digits e c : command_ok e c → str_forall digit_or_dot (arg c) = true.
Proof.
  intros Hc. destruct c; cbn [arg command_ok] in *; try done; try (apply digits_or_dots, dec_digits; unfold is_u32 in *; lia);
    [by destruct Hc..|apply ip_string_plain].
Qed.
Lemma arg_plain e c rest : command_ok e c → strstr rest "GET /-" = None → plain (arg c) rest.
Proof.
  intros Hc Hr. split; [|done]. apply (str_forall_weaken digit_or_dot); [|by apply (arg_digits e)].
  intros d Hd. apply negb_true_iff, Ascii.eqb_neq. by intros ->.
Qed.
Lemma number_small pat n rest :
  0 ≤ n < 2 ^ 31 → (∀ c t, rest = String c t → isdigit c = false) →
  number_at (pat +:+ (dec n +:+ rest)) pat = Ret (dec n).
Proof. intros Hn Hr. apply u32_request_number; [unfold is_u32; lia|done]. Qed.
Lemma dotted_stop x rest k :
  str_forall digit_or_dot x = true → 0 ≤ k → (dotted k x).2 ≤ 1 →
  (∀ c t, rest = String c t → digit_or_dot c = false) →
  dotted k (x +:+ rest) = (x, (dotted k x).2).
Proof.
  intros Hx Hk Hd Hr. revert k Hk Hd. induction x as [|c x IH]; intros k Hk Hd.
  - rewrite str_app_nil_l. destruct rest as [|d t]; [done|]. specialize (Hr d t eq_refl). unfold digit_or_dot in Hr.
    cbn [dotted]. by rewrite Hr.
  - rewrite str_app_cons. cbn [str_forall] in Hx. apply andb_true_iff in Hx as [Hc Hx]. unfold digit_or_dot in Hc.
    cbn [dotted] in *. rewrite Hc in *. cbn [andb] in *. destruct (Z.leb_spec k 1); cbn [snd] in *; [|lia].
    assert (0 ≤ (if Ascii.eqb c "." then k + 1 else k)) as Hk' by (destruct (Ascii.eqb c "."); lia).
    revert Hk' Hd. generalize (if Ascii.eqb c "." then k + 1 else k). intros k' Hk' Hd.
    destruct (dotted k' x) as [r m] eqn:E. cbn [snd] in *. rewrite IH; [by rewrite E|done..|by rewrite E].
Qed.
Lemma dotted_read pat x rest :
  decimal_ok x → (∀ c t, rest = String c t → digit_or_dot c = false) →
  dotted_at (pat +:+ (x +:+ rest)) pat = Ret (x, (dotted 0 x).2).
Proof.
  intros (Hx & Hl & Hd) Hr. unfold dotted_at. rewrite drop_str_app, dotted_stop by (done || lia).
  unfold number_buffer. by rewrite (proj2 (Z.leb_gt _ _) Hl).
Qed.
(** A byte of an address, as [inet_aton] reads it. *)
Lemma aton_part_dec n : 0 ≤ n < 256 → aton_part (dec n) = Some n.
Proof.
  intros Hn. assert (forallb (λ k, match aton_part (dec k) with Some m => m =? k | None => false end) (seqZ 0 256) = true) as H
    by (vm_compute; reflexivity).
  rewrite forallb_forall in H. specialize (H n). destruct (aton_part (dec n)) as [m|].
  - f_equal. apply Z.eqb_eq, H, list_elem_of_In, elem_of_seqZ. lia.
  - discriminate H. apply list_elem_of_In, elem_of_seqZ. lia.
Qed.
Lemma aton_parts_step f n t :
  0 ≤ n < 256 → aton_parts (S f) (dec n +:+ ("." +:+ t)) = (vs ← aton_parts f t; Some (n :: vs)).
Proof.
  intros Hn. cbn [aton_parts]. rewrite span_stop by (first [apply dec_digits; lia | by intros ?? [= <- _]]).
  rewrite aton_part_dec by done. done.
Qed.
Lemma inet_aton_ip_string y : is_u32 y → inet_aton (ip_string y) = Some y.
Proof.
  intros Hy. unfold inet_aton, ip_string, uip_byte. do 3 rewrite aton_parts_step by apply byte_of_range.
  cbn [aton_parts]. rewrite <- (str_app_nil (dec (byte_of 3 y))), span_stop by (done || (apply dec_digits; pose proof (byte_of_range 3 y); lia)).
  rewrite aton_part_dec by apply byte_of_range. cbn [mbind option_bind].
  pose proof (byte_of_range 0 y). pose proof (byte_of_range 1 y). pose proof (byte_of_range 2 y). pose proof (byte_of_range 3 y).
  rewrite !(proj2 (Z.leb_le _ _)) by lia. cbn [andb]. f_equal. etrans; [|by apply htonl_htonl].
  f_equal. unfold htonl, le32. lia.
Qed.

(** *** What the daemon does with a request *)
Section Answer.
Context (e : aenv) (rest : string).
Hypothesis rest_space : ∀ c t, rest = String c t → digit_or_dot c = false.
Hypothesis rest_plain : strstr rest "GET /-" = None.
Lemma rest_nondigit c t : rest = String c t → isdigit c = false.
Proof using rest_space. intros E. specialize (rest_space c t E). unfold digit_or_dot in rest_space. by apply orb_false_iff in rest_space as [? _]. Qed.
(** The text of a request: the pattern of its command, the argument, the rest. *)
Definition request (c : command) : string := ("GET /" +:+ head c) +:+ (arg c +:+ rest).
Definition implemented (c : command) (a : Api) : Prop :=
  ∃ text, check_req e (request c) a = Ret ((effect e c a).1, text, (effect e c a).2).
Lemma answer_words c a :
  match c with ApplyTuning | Learning _ | Counters => True | _ => False end → command_ok e c → implemented c a.
Proof using rest_plain.
  intros Hk Hc. pose proof (arg_plain e c rest Hc rest_plain) as Hp. unfold implemented, request, check_req.
  destruct c as [|[]| | | | | | | | | | |]; try done; cbn [arg command_ok] in *.
  - change ("GET /" +:+ head ApplyTuning) with "GET /-t". decide_has Hp "ET /-t". by eexists.
  - change ("GET /" +:+ head (Learning true)) with "GET /-l#on". decide_has Hp "ET /-l#on". by eexists.
  - change ("GET /" +:+ head (Learning false)) with "GET /-l#off". decide_has Hp "ET /-l#off". by eexists.
  - change ("GET /" +:+ head Counters) with "GET /-pc". decide_has Hp "ET /-pc". destruct Hc as [r ->]. by eexists.
Qed.
Lemma answer_threshold s n a : command_ok e (Threshold s n) → implemented (Threshold s n) a.
Proof using rest_plain rest_space.
  intros Hc. pose proof (arg_plain e (Threshold s n) rest Hc rest_plain) as Hp. cbn [arg command_ok] in *.
  destruct (u32_request_number (setting_pat s) n rest Hc rest_nondigit) as [Hn Hs].
  unfold implemented, request, check_req. destruct s; cbn [arg].
  - change ("GET /" +:+ head (Threshold FlowSink n)) with (setting_pat FlowSink). decide_has Hp "ET /-ct#flow_sink#".
    unfold req_setting. rewrite Hn. cbn [mbind res_bind]. rewrite Hs. by eexists.
  - change ("GET /" +:+ head (Threshold QOcc n)) with (setting_pat QOcc). decide_has Hp "ET /-ct#q_occ#".
    unfold req_setting. rewrite Hn. cbn [mbind res_bind]. rewrite Hs. by eexists.
  - change ("GET /" +:+ head (Threshold HopLate n)) with (setting_pat HopLate). decide_has Hp "ET /-ct#hop_late#".
    unfold req_setting. rewrite Hn. cbn [mbind res_bind]. rewrite Hs. by eexists.
  - change ("GET /" +:+ head (Threshold FlowLate n)) with (setting_pat FlowLate). decide_has Hp "ET /-ct#flow_late#".
    unfold req_setting. rewrite Hn. cbn [mbind res_bind]. rewrite Hs. by eexists.
Qed.
Lemma answer_levels c n a :
  c = DebugLevel n ∨ c = UseRetrans n ∨ c = RttThreshold n ∨ c = RttFactor n → command_ok e c → implemented c a.
Proof using rest_plain rest_space.
  intros Hk Hc. pose proof (arg_plain e c rest Hc rest_plain) as Hp. unfold implemented, request, check_req.
  assert (0 ≤ n < 2 ^ 31) as Hn by (destruct_or!; subst; exact Hc).
  pose proof (λ p, number_small p n rest Hn rest_nondigit) as Hat.
  destruct_or! Hk; subst; cbn [arg command_ok] in *.
  - change ("GET /" +:+ head (DebugLevel n)) with "GET /-d#". decide_has Hp "ET /-d#". unfold req_debug. rewrite Hat. cbn [mbind res_bind].
    rewrite atoi_dec by done. eexists. cbn [effect fst snd]. do 3 f_equal. destruct (Z.ltb_spec 10 n); [rewrite Z.min_l by lia|rewrite Z.min_r by lia]; done.
  - change ("GET /" +:+ head (UseRetrans n)) with "GET /-r#". decide_has Hp "ET /-r#". unfold req_retrans_use.
    change (number_at ?r "GET /-d#") with (number_at r "GET /-r#"). rewrite Hat. cbn [mbind res_bind].
    rewrite atoi_dec by done. cbn [effect fst snd]. destruct (Z.ltb_spec 0 n).
    + rewrite Z.min_l by lia. by eexists.
    + assert (n = 0) as -> by lia. by eexists.
  - change ("GET /" +:+ head (RttThreshold n)) with "GET /-rtt#thresh#". decide_has Hp "ET /-rtt#thresh#". unfold req_rtt_threshold.
    rewrite Hat. cbn [mbind res_bind]. rewrite strtoul_dec, i32_small by lia. by eexists.
  - change ("GET /" +:+ head (RttFactor n)) with "GET /-rtt#factor#". decide_has Hp "ET /-rtt#factor#". unfold req_rtt_factor.
    rewrite Hat. cbn [mbind res_bind]. rewrite strtoul_dec, i32_small by lia. by eexists.
Qed.
Lemma answer_sizes rx n c a : c = RingSize rx n ∨ c = SockSize rx n → command_ok e c → implemented c a.
Proof using rest_plain rest_space.
  intros Hk Hc. pose proof (arg_plain e c rest Hc rest_plain) as Hp. unfold implemented, request, check_req.
  assert (0 ≤ n < 2 ^ 31) as Hn by (destruct_or!; subst; exact Hc).
  pose proof (λ p, number_small p n rest Hn rest_nondigit) as Hat.
  destruct_or! Hk; subst; destruct rx; cbn [arg command_ok] in *.
  - change ("GET /" +:+ head (RingSize true n)) with "GET /-b#rx#". decide_has Hp "ET /-b#rx#". unfold req_ring. rewrite Hat. by eexists.
  - change ("GET /" +:+ head (RingSize false n)) with "GET /-b#tx#". decide_has Hp "ET /-b#tx#". unfold req_ring. rewrite Hat. by eexists.
  - change ("GET /" +:+ head (SockSize true n)) with "GET /-b#sock_rx_buff#". decide_has Hp "ET /-b#sock_rx_buff#".
    unfold req_sock. rewrite Hat. by eexists.
  - change ("GET /" +:+ head (SockSize false n)) with "GET /-b#sock_tx_buff#". decide_has Hp "ET /-b#sock_tx_buff#".
    unfold req_sock. rewrite Hat. by eexists.
Qed.
Lemma answer_rates x c a : c = RetransRate x ∨ c = PacingRate x → command_ok e c → implemented c a.
Proof using rest_plain rest_space.
  intros Hk Hc. pose proof (arg_plain e c rest Hc rest_plain) as Hp. unfold implemented, request, check_req.
  assert (decimal_ok x) as Hx by (destruct_or!; subst; exact Hc).
  pose proof (λ p, dotted_read p x rest Hx rest_space) as Hat. destruct Hx as (_ & _ & Hd%Z.ltb_ge).
  destruct_or! Hk; subst; cbn [arg command_ok] in *.
  - change ("GET /" +:+ head (RetransRate x)) with "GET /-ct#retrans_rate#". decide_has Hp "ET /-ct#retrans_rate#".
    unfold req_retrans_rate. rewrite Hat. cbn [mbind res_bind]. rewrite Hd. by eexists.
  - change ("GET /" +:+ head (PacingRate x)) with "GET /-ct#pacing_rate#". decide_has Hp "ET /-ct#pacing_rate#".
    unfold req_pacing_rate. rewrite Hat. cbn [mbind res_bind]. rewrite Hd. by eexists.
Qed.
Lemma answer_kafka y a : command_ok e (KafkaIp y) → implemented (KafkaIp y) a.
Proof using rest_plain rest_space.
  intros Hc. pose proof (arg_plain e _ rest Hc rest_plain) as Hp. unfold implemented, request, check_req. cbn [arg command_ok] in *.
  change ("GET /" +:+ head (KafkaIp y)) with "GET /-kaf#ip4#". decide_has Hp "ET /-kaf#ip4#". unfold req_kafka_ip, address_at.
  rewrite drop_str_app, span_stop by (apply ip_string_plain || apply rest_space). cbn [fst].
  pose proof (ip_string_len y). rewrite take_str_all by lia. unfold number_buffer. rewrite (proj2 (Z.leb_gt _ _)) by lia.
  cbn [mbind res_bind effect]. rewrite inet_aton_ip_string by done. destruct (ae_kafka e); by eexists.
Qed.
Lemma answered c a : command_ok e c → implemented c a.
Proof using rest_plain rest_space.
  destruct c; eauto using answer_words, answer_threshold, answer_levels, answer_sizes, answer_rates, answer_kafka.
  all: first [by apply answer_words | by eapply answer_levels; eauto | by eapply answer_sizes; eauto | by eapply answer_rates; eauto].
Qed.
End Answer.

(** *** The port *)
Definition first_port (ls : list cfg_line) : option string :=
  match find (λ l, match l with Setting k _ _ => String.eqb "API_listen_port" k | Other _ _ => false end) ls with
  | Some (Setting _ _ v) => Some v
  | _ => None
  end.
Lemma port_line_text b l :
  line_ok l = true →
  port_line (getline_buf b (line_text l)) None =
  Ret (match l with
       | Setting k _ v => if String.eqb "API_listen_port" k then (Some v, true) else (None, false)
       | Other _ _ => (None, false)
       end).
Proof.
  intros Hl. destruct (line_parts b l Hl) as (key & mem & Hs & Hf & Hc & Hp). unfold port_line.
  rewrite Hs. cbn [mbind res_bind]. rewrite Hf. cbn [mbind res_bind]. rewrite Hc.
  destruct l as [k sep v|w r].
  - destruct Hp as (-> & Hk & Hat & Hlen). destruct (String.eqb_spec "API_listen_port" k) as [<-|]; [|done].
    rewrite Hat. cbn [mbind res_bind]. by rewrite fits_nul_ok by lia.
  - destruct Hp as (-> & Hk). destruct (String.eqb_spec "API_listen_port" w) as [<-|]; [|done].
    destruct Hk. by apply (bool_decide_unpack _).
Qed.
Lemma port_read b ls :
  Forall (λ l, line_ok l = true) ls → each_line port_line b (line_text <$> ls) None = Ret (first_port ls).
Proof.
  intros Hls. revert b. induction Hls as [|l ls Hl _ IH]; intros b; [done|].
  rewrite fmap_cons. cbn [each_line]. rewrite port_line_text by done. unfold first_port. cbn [find mbind res_bind].
  destruct l as [k sep v|w r]; [|apply IH]. destruct (String.eqb "API_listen_port" k); [done|apply IH].
Qed.
Definition api_url (port second : string) : string := "http://127.0.0.1" +:+ ":" +:+ port +:+ "/" +:+ second.
Lemma head_len c : strlen (head c) ≤ 20.
Proof. by destruct c as [|[]| |[] ?|[] ?| | |[] ?| | | | |]. Qed.
Lemma first_port_len ls p : Forall (λ l, line_ok l = true) ls → first_port ls = Some p → strlen p ≤ 31.
Proof.
  intros Hls. unfold first_port. destruct (find _ ls) as [[k sep v|]|] eqn:E; [|done..]. intros [= <-].
  apply find_some in E as [Hin _]. rewrite Forall_forall in Hls. specialize (Hls _ (proj2 (list_elem_of_In _ _) Hin)).
  destruct (line_parts "" _ Hls) as (key & m & _ & _ & _ & Hp). by destruct Hp as (_ & _ & _ & ?).
Qed.
(** The URL of a command, for every configuration file. *)
Lemma main_connects e c ls :
  command_ok e c → Forall (λ l, line_ok l = true) ls →
  main (words c) (Some (line_text <$> ls)) = Ret (Connect (api_url (default "5523" (first_port ls)) (head c +:+ arg c))).
Proof.
  intros Hc Hls. unfold main. rewrite (second_of e c Hc). cbn [mbind res_bind]. rewrite port_read by done. cbn [mbind res_bind].
  fold (api_url (default "5523" (first_port ls)) (head c +:+ arg c)). rewrite fits_nul_ok; [done|].
  unfold api_url. rewrite !strlen_app. pose proof (head_len c). pose proof (arg_len e c Hc).
  assert (strlen (default "5523" (first_port ls)) ≤ 31).
  { destruct (first_port ls) as [p|] eqn:E; [by eapply first_port_len|done]. }
  change (strlen "http://127.0.0.1") with 16. change (strlen ":") with 1. change (strlen "/") with 1. lia.
Qed.

Lemma given_keeps k ls (m : gmap string string) : is_Some (m !! k) → is_Some (foldl given m ls !! k).
Proof.
  revert m. induction ls as [|l ls IH]; intros m Hm; [done|]. apply IH. destruct l as [k' s v|]; cbn [given]; [|done].
  destruct (decide (k' = k)) as [->|]; [rewrite lookup_insert_eq; eauto|by rewrite lookup_insert_ne].
Qed.
Lemma given_setting k s v ls : Setting k s v ∈ ls → is_Some (settings ls !! k).
Proof.
  unfold settings. generalize (∅ : gmap string string). induction ls as [|l ls IH]; intros m; [by intros ?%not_elem_of_nil|].
  intros [<-|Hin]%elem_of_cons; cbn [foldl]; [|by apply IH]. apply given_keeps. cbn [given]. rewrite lookup_insert_eq. eauto.
Qed.

(** *** The carrier *)
(** The documented behaviour of facil.io the two programs rely on: the client
    connects to the port of the URL and asks for its path, the part behind # or ?
    included; the server sees that request line and some headers, which hold no
    request of their own. *)
Definition path_char (c : ascii) : bool := isalnum c || one_of (String c "") ["-"; "_"; "#"; "."].
Definition carries (facil : string → option (string * string)) : Prop :=
  ∀ port second, str_forall isdigit port = true → 0 < strlen port → str_forall path_char second = true →
    ∃ headers, facil (api_url port second) = Some (port, "GET /" +:+ second +:+ " HTTP/1.1" +:+ headers) ∧
      strstr (" HTTP/1.1" +:+ headers) "GET /-" = None.
(** A carrier that adds no header. *)
Definition bare_facil (url : string) : option (string * string) :=
  let '(port, path) := span isdigit (drop_str 17 url) in Some (port, "GET " +:+ path +:+ " HTTP/1.1").
Lemma bare_facil_carries : carries bare_facil.
Proof.
  intros port second Hp _ _. exists "". split; [|done]. unfold bare_facil, api_url.
  change (drop_str 17 _) with (port +:+ ("/" +:+ second)).
  by rewrite span_stop by (done || by intros ?? [= <- _]).
Qed.
Lemma second_path e c : command_ok e c → str_forall path_char (head c +:+ arg c) = true.
Proof.
  intros Hc. rewrite str_forall_app. apply andb_true_iff. split; [by destruct c as [|[]| |[] ?|[] ?| | |[] ?| | | | |]|].
  apply (str_forall_weaken digit_or_dot); [|by apply (arg_digits e)].
  intros d. unfold digit_or_dot, path_char, isalnum. intros [->|E%Ascii.eqb_eq]%orb_true_iff; [done|by subst].
Qed.
(** A request that arrives is answered with the effect of its command. *)
Lemma carried_answered facil e c port a :
  carries facil → command_ok e c → str_forall isdigit port = true → 0 < strlen port →
  ∃ req text, facil (api_url port (head c +:+ arg c)) = Some (port, req) ∧
    check_req e req a = Ret ((effect e c a).1, text, (effect e c a).2).
Proof.
  intros Hf Hc Hp Hl. destruct (Hf port (head c +:+ arg c) Hp Hl (second_path e c Hc)) as (h & E & Hh).
  destruct (answered e (" HTTP/1.1" +:+ h)) with (c := c) (a := a) as (text & Ht); [by intros ?? [= <- _]|done|done|].
  do 2 eexists. split; [exact E|]. rewrite <- Ht. f_equal. unfold request. by rewrite !str_app_assoc.
Qed.

(** ** Theorems *)
(** C12: The operator's commands take effect.  Every command of the usage text,
    typed with arguments of its syntax, is accepted by the client, reaches the
    port the daemon listens on when both read the same user_config.txt (which
    names the port once), and makes the daemon's settings and the commands it
    runs exactly what the command asks for. *)
Theorem operator_command_takes_effect facil e c ls p a :
  carries facil → command_ok e c → Forall (λ l, line_ok l = true) ls →
  first_port ls = Some (dec p) → settings ls !! "API_listen_port" = Some (dec p) → 0 < p < 2 ^ 16 →
  ∃ g url req text,
    fDoGetUserCfgValues (Some (line_text <$> ls)) cfg_init = Ret g ∧
    main (words c) (Some (line_text <$> ls)) = Ret (Connect url) ∧
    facil url = Some (decs (gAPI_listen_port g), req) ∧
    check_req e req a = Ret ((effect e c a).1, text, (effect e c a).2).
Proof.
  intros Hf Hc Hls H1 H2 Hp.
  destruct (carried_answered facil e c (dec p) a Hf Hc) as (req & text & E & Ht); [apply dec_digits; lia|apply dec_nonempty|].
  exists (cfg_of (settings ls)). do 3 eexists. split; [by apply config_given|]. split; [by apply (main_connects e)|].
  rewrite H1. cbn [default from_option id]. split; [|exact Ht]. rewrite E. unfold cfg_of. cbn [gAPI_listen_port]. rewrite H2.
  rewrite atoi_dec by lia. rewrite (proj2 (Z.eqb_neq p 0)) by lia. by rewrite decs_nonneg by lia.
Qed.
Lemma operator_command_takes_effect_witness :
  ∃ g url req text,
    fDoGetUserCfgValues (Some (line_text <$> [Setting "API_listen_port" " " "5523"])) cfg_init = Ret g ∧
    main ["tuncli"; "-ct"; "q_occ"; "6400"] (Some (line_text <$> [Setting "API_listen_port" " " "5523"])) = Ret (Connect url) ∧
    bare_facil url = Some (decs (gAPI_listen_port g), req) ∧
    check_req demo_aenv req api_init = Ret (api_init <| thr := thresholds_init <| vQUEUE_OCCUPANCY_DELTA := 6400 |> |>, text, []).
Proof.
  apply (operator_command_takes_effect bare_facil demo_aenv (Threshold QOcc 6400) [Setting "API_listen_port" " " "5523"] 5523 api_init).
  - exact bare_facil_carries.
  - cbn. unfold is_u32. lia.
  - repeat constructor; vm_compute; reflexivity.
  - vm_compute. reflexivity.
  - vm_compute. reflexivity.
  - lia.
Defined.

(** With a configuration that does not name API_listen_port the two programs
    never meet: the client falls back to port 5523, the daemon to -1. *)
Theorem unset_port_disconnects e c ls :
  command_ok e c → Forall (λ l, line_ok l = true) ls → settings ls !! "API_listen_port" = None →
  ∃ g, fDoGetUserCfgValues (Some (line_text <$> ls)) cfg_init = Ret g ∧ gAPI_listen_port g = -1 ∧
    main (words c) (Some (line_text <$> ls)) = Ret (Connect (api_url "5523" (head c +:+ arg c))).
Proof.
  intros Hc Hls Hs. exists (cfg_of (settings ls)). split; [by apply config_given|]. unfold cfg_of. cbn [gAPI_listen_port].
  rewrite Hs. split; [done|]. rewrite (main_connects e) by done. unfold first_port.
  destruct (find _ ls) as [[k sep v|]|] eqn:E; [|done..]. exfalso.
  apply find_some in E as [Hin E]. apply String.eqb_eq in E as <-.
  apply list_elem_of_In, given_setting in Hin as [x Hx]. congruence.
Qed.
Lemma unset_port_disconnects_witness :
  ∃ g, fDoGetUserCfgValues (Some (line_text <$> [Setting "nic_to_use" " " "eth0"])) cfg_init = Ret g ∧ gAPI_listen_port g = -1 ∧
    main ["tuncli"; "-t"] (Some (line_text <$> [Setting "nic_to_use" " " "eth0"])) = Ret (Connect (api_url "5523" "-t")).
Proof.
  apply (unset_port_disconnects demo_aenv ApplyTuning [Setting "nic_to_use" " " "eth0"]);
    [exact I|repeat constructor; vm_compute; reflexivity|vm_compute; reflexivity].
Defined.
