(* ===== verification/Tuner.v ===== *)
(** * Recommended commands: run now, or kept for the operator's menu

    Every check of user_assess.c that finds a value to improve builds a shell
    command and, by one of the flags gApplyDefSysTuning, gApplyBiosTuning and
    gApplyNicTuning, either hands it to [system] or copies it into an array of
    100 rows (aApplyKernelDefTun2DArray, aApplyNicDefTun2DArray,
    aApplyBiosDefTun2DArray), from which [user_assess] writes the file the menu
    reads.  The arrays are zero and a row is written once, so a row is the text
    copied to it. *)
From Stdlib Require Import ZArith Lia Ascii String.
From stdpp Require Import base list strings numbers option.
From S2P Require Import Prelude CString.
Open Scope Z_scope.

Definition NUM_SYSTEM_SETTINGS := 100.
Definition MAX_SIZE_SYSTEM_SETTING_STRING := 768.

Record Tuner (C : Type) := mkTuner { executed : list C; kept : list C }.
Arguments mkTuner {C} _ _.
Arguments executed {C} _.
Arguments kept {C} _.
#[export] Instance Tuner_eta {C} : Settable (Tuner C) := λ t, mkTuner (executed t) (kept t).
Definition tuner0 {C} : Tuner C := mkTuner [] [].

Section Tuner.
Context {C : Type}.
Implicit Types (c : C) (t : Tuner C).
(** [system(cmd)] *)
Definition exec c t : Tuner C := t <| executed := executed t ++ [c] |>.
(** [memcpy(a2DArray[count], cmd, strlen(cmd)); count++;] *)
Definition keep c t : res (Tuner C) :=
  if Z.of_nat (length (kept t)) <? NUM_SYSTEM_SETTINGS then Ret (t <| kept := kept t ++ [c] |>) else Ub.
Definition apply_or_keep (flag : ascii) c t : res (Tuner C) :=
  if Ascii.eqb flag "y" then Ret (exec c t) else keep c t.
(** The file for the menu: the number of its lines and two more, then the commands. *)
Definition menu_file (render : C → string) t : list string :=
  (decs (Z.of_nat (length (kept t)) + 2) +:+ nl) :: ((λ c, render c +:+ nl) <$> kept t).

Lemma keep_Ret c t t' : keep c t = Ret t' → t' = mkTuner (executed t) (kept t ++ [c]) ∧ (length (kept t) < 100)%nat.
Proof. unfold keep, NUM_SYSTEM_SETTINGS. destruct (Z.ltb_spec (Z.of_nat (length (kept t))) 100); intros [=]. subst. split; [done|lia]. Qed.
Lemma keep_room c t : (length (kept t) < 100)%nat → keep c t = Ret (mkTuner (executed t) (kept t ++ [c])).
Proof. intros. unfold keep, NUM_SYSTEM_SETTINGS. by rewrite (proj2 (Z.ltb_lt _ _)) by lia. Qed.
End Tuner.
