(* ===== verification/SysTuning.v ===== *)
(** * The kernel settings

    [fDoSystemTuning] of user_assess.c: the shell script gdv.sh writes the
    current values of a few sysctl settings to a file, one "name = value" a
    line; each is compared with the table for the speed of the interface, and
    a "sysctl -w" command is run or kept for those that are too low.  The text
    of the file and of modprobe's answer are arguments. *)
From Stdlib Require Import ZArith Lia Ascii String.
From stdpp Require Import base strings numbers option list.
From S2P Require Import Prelude CString Lines Tuner.
Open Scope Z_scope.

(** ** The tables *)
Record host_tuning_vals_t := mkHostTuning {
  setting : string; minimum : Z; xDefault : Z; maximum : Z
}.
Definition aStringval : list string := ["bbr"; "fq"; "htcp"; "reno"; "cubic"; "getvalue"].
Definition aTuningNumsToUse10GandUnder : list host_tuning_vals_t := [
  mkHostTuning "net.core.rmem_max" 1147483647 (-1) 0;
  mkHostTuning "net.core.wmem_max" 1147483647 (-1) 0;
  mkHostTuning "net.ipv4.tcp_mtu_probing" 1 (-1) 0;
  mkHostTuning "net.ipv4.tcp_available_congestion_control" 5 (-1) 0;
  mkHostTuning "net.ipv4.tcp_congestion_control" 2 (-1) 0;
  mkHostTuning "net.core.default_qdisc" 1 (-1) 0;
  mkHostTuning "net.ipv4.tcp_rmem" 4096 87380 1147483647;
  mkHostTuning "net.ipv4.tcp_wmem" 4096 65536 1147483647;
  mkHostTuning "MTU" 0 84 0].
Definition aTuningNumsToUse_Over10GtoUnder100G : list host_tuning_vals_t := [
  mkHostTuning "net.core.rmem_max" 1147483647 (-1) 0;
  mkHostTuning "net.core.wmem_max" 1147483647 (-1) 0;
  mkHostTuning "net.ipv4.tcp_mtu_probing" 1 (-1) 0;
  mkHostTuning "net.ipv4.tcp_available_congestion_control" 5 (-1) 0;
  mkHostTuning "net.ipv4.tcp_congestion_control" 2 (-1) 0;
  mkHostTuning "net.core.default_qdisc" 1 (-1) 0;
  mkHostTuning "net.ipv4.tcp_rmem" 4096 87380 1147483647;
  mkHostTuning "net.ipv4.tcp_wmem" 4096 65536 1147483647;
  mkHostTuning "MTU" 0 84 0].
Definition aTuningNumsToUse100Gb : list host_tuning_vals_t := [
  mkHostTuning "net.core.rmem_max" 1147483647 (-1) 0;
  mkHostTuning "net.core.wmem_max" 1147483647 (-1) 0;
  mkHostTuning "net.ipv4.tcp_mtu_probing" 1 (-1) 0;
  mkHostTuning "net.ipv4.tcp_available_congestion_control" 5 (-1) 0;
  mkHostTuning "net.ipv4.tcp_congestion_control" 2 (-1) 0;
  mkHostTuning "net.core.default_qdisc" 1 (-1) 0;
  mkHostTuning "net.ipv4.tcp_rmem" 4096 87380 1147483647;
  mkHostTuning "net.ipv4.tcp_wmem" 4096 65536 1147483647;
  mkHostTuning "net.core.netdev_max_backlog" 250000 (-1) 0;
  mkHostTuning "net.ipv4.tcp_no_metrics_save" 1 (-1) 0;
  mkHostTuning "MTU" 0 84 0].
(** The table and the script for a speed in Mb/s. *)
Definition aTuningNumsToUse (netDeviceSpeed : Z) : list host_tuning_vals_t * string :=
  if netDeviceSpeed <=? 10000 then (aTuningNumsToUse10GandUnder, "sh ./gdv.sh")
  else if netDeviceSpeed <? 100000 then (aTuningNumsToUse_Over10GtoUnder100G, "sh ./gdv.sh")
  else (aTuningNumsToUse100Gb, "sh ./gdv_100.sh").

(** ** Commands *)
Inductive kval :=
| One (v : string)
| Three (vmin vdef vmax : string).
Inductive kcmd :=
| GetConfig (script : string)
| Sysctl (n : string) (v : kval)
| Persist (n : string) (v : kval)
| StartMark
| EndMark
| Modprobe
| RmModprobe
| RmConfig.
Definition kval_text (v : kval) : string :=
  match v with
  | One v => v
  | Three a b c => dq +:+ a +:+ " " +:+ b +:+ " " +:+ c +:+ dq
  end.
Definition sysctl_text (n : string) (v : kval) : string := "sysctl -w " +:+ n +:+ "=" +:+ kval_text v.
Definition kcmd_text (c : kcmd) : string :=
  match c with
  | GetConfig s => s
  | Sysctl n v => sysctl_text n v
  | Persist n v => sysctl_text n v +:+ " >> /etc/sysctl.conf"
  | StartMark => "echo " +:+ dq +:+ "#Start of tuningMod modifications" +:+ dq +:+ " >> /etc/sysctl.conf"
  | EndMark => "echo " +:+ dq +:+ "#End of tuningMod modifications" +:+ dq +:+ " >> /etc/sysctl.conf"
  | Modprobe => "modprobe tcp_htcp > /tmp/modprobe_result 2>&1"
  | RmModprobe => "rm -f /tmp/modprobe_result"
  | RmConfig => "rm -f /tmp/current_config.orig"
  end.

(** ** State and environment *)
Record KState := mkKState {
  tuner : Tuner kcmd;                        (* system(), aApplyKernelDefTun2DArray *)
  vModifySysctlFile : bool;
  my_tune_max : Z;
  congestion_control_recommended_avail : bool
}.
#[export] Instance KState_eta : Settable KState := λ s,
  mkKState (tuner s) (vModifySysctlFile s) (my_tune_max s) (congestion_control_recommended_avail s).
Record kenv := mkKenv {
  ke_table : list host_tuning_vals_t;
  ke_apply : ascii;                          (* gApplyDefSysTuning *)
  ke_permanent : ascii;                      (* gMakeTuningPermanent *)
  ke_modprobe : option (option string)       (* /tmp/modprobe_result: not opened, or its first line *)
}.
Definition run (c : kcmd) (s : KState) : KState := s <| tuner := exec c (tuner s) |>.
Definition persist (e : kenv) (n : string) (v : kval) (s : KState) : KState :=
  if Ascii.eqb (ke_permanent e) "y" then
    let s := if vModifySysctlFile s then s else (run StartMark s) <| vModifySysctlFile := true |> in
    run (Persist n v) s
  else s.
Definition apply_kernel (e : kenv) (n : string) (v : kval) (s : KState) : res KState :=
  if Ascii.eqb (ke_apply e) "y" then Ret (persist e n v (run (Sysctl n v) s))
  else t ← keep (Sysctl n v) (tuner s); Ret (s <| tuner := t |>).

(** ** One setting *)
(** "min default max": three digit runs; looking for the next digit the code
    runs off [value[256]] when there is none. *)
Definition parse_three (v : string) : res (string * string * string) :=
  let '(a, r) := span isdigit v in
  '(_, r) ← scan_while nondigit r;
  let '(b, r) := span isdigit r in
  '(_, r) ← scan_while nondigit r;
  let '(c, _) := span isdigit r in
  Ret (a, b, c).
Definition three_of (h : host_tuning_vals_t) : kval :=
  Three (decs (i32 (minimum h))) (decs (xDefault h)) (decs (i32 (maximum h))).
Definition note_wmem (h : host_tuning_vals_t) (n : string) (s : KState) : KState :=
  if String.eqb "net.ipv4.tcp_wmem" n then s <| my_tune_max := atoi (decs (i32 (maximum h))) |> else s.
Definition tune_number (e : kenv) (h : host_tuning_vals_t) (n v : string) (s : KState) : res KState :=
  let intvalue := u32 (atoi v) in
  if intvalue <=? minimum h then
    if xDefault h =? -1 then
      if intvalue =? minimum h then Ret s else apply_kernel e n (One (decs (i32 (minimum h)))) s
    else
      '(_, _, vmax) ← parse_three v;
      let s := note_wmem h n s in
      if u32 (atoi vmax) <? maximum h then apply_kernel e n (three_of h) s else Ret s
  else
    if xDefault h =? -1 then Ret s
    else _ ← parse_three v; Ret (note_wmem h n s).
Definition tune_word (e : kenv) (h : host_tuning_vals_t) (n v : string) (s : KState) : res KState :=
  w ← of_opt (zget aStringval (minimum h));
  if String.eqb v w then Ret s
  else if String.eqb n "net.ipv4.tcp_available_congestion_control" then
    Ret (match strstr v "htcp" with
         | Some _ => s <| congestion_control_recommended_avail := true |>
         | None => s
         end)
  else if String.eqb n "net.ipv4.tcp_congestion_control" && negb (congestion_control_recommended_avail s) then
    let s := run Modprobe s in
    match ke_modprobe e with
    | None => Ret s
    | Some (Some _) => Ret (run RmModprobe s)
    | Some None => apply_kernel e n (One w) (run RmModprobe s)
    end
  else apply_kernel e n (One w) s.
Definition tune_value (e : kenv) (h : host_tuning_vals_t) (n v : string) (s : KState) : res KState :=
  match v with
  | String c _ => if isdigit c then tune_number e h n v s else tune_word e h n v s
  | EmptyString => tune_word e h n v s
  end.

(** ** The file *)
Definition not_sp (c : ascii) : bool := negb (Ascii.eqb c " ").
Definition not_nl (c : ascii) : bool := negb (code c =? 10).
Definition find_setting (n : string) (tbl : list host_tuning_vals_t) : option host_tuning_vals_t :=
  find (λ h, String.eqb (setting h) n) tbl.
(** A line: the name before the first space; for a known name the value between
    the second space and the newline.  [strchr] finding nothing is used all the
    same; [setting] and [value] have 256 bytes. *)
Section Line.
Context (value : host_tuning_vals_t → string → string → KState → res KState) (tbl : list host_tuning_vals_t).
Definition setting_line (m : string) (s : KState) : res (KState * bool) :=
  '(n, q) ← scan_while not_sp (cstr m);
  _ ← fits_nul 256 n;
  match find_setting n tbl with
  | None => Ret (s, false)
  | Some h =>
      '(_, q) ← scan_while not_sp (drop_str 1 q);
      '(v, _) ← scan_while not_nl (drop_str 1 q);
      _ ← fits_nul 256 v;
      s ← value h n v s; Ret (s, false)
  end.
End Line.
(** The program of the kernel settings with the treatment of one value left open:
    dtn_tune.c is the same function with another [tune_number].
    [None]: the file cannot be opened and the program exits. *)
Definition system_tuning (value : kenv → host_tuning_vals_t → string → string → KState → res KState)
    (netDeviceSpeed : Z) (apply permanent : ascii) (modprobe : option (option string))
    (file : option (list string)) (s : KState) : res (option KState) :=
  let '(tbl, script) := aTuningNumsToUse netDeviceSpeed in
  let s := run (GetConfig script) (s <| congestion_control_recommended_avail := false |>) in
  match file with
  | None => Ret None
  | Some ls =>
      s ← each_line (setting_line (value (mkKenv tbl apply permanent modprobe)) tbl) EmptyString ls s;
      let s := run RmConfig s in
      Ret (Some (if vModifySysctlFile s then run EndMark s <| vModifySysctlFile := false |> else s))
  end.
Definition fDoSystemTuning := system_tuning tune_value.

(** ** What a run did *)
Definition is_sysctl (c : kcmd) : bool := match c with Sysctl _ _ => true | _ => false end.
Definition is_conf (c : kcmd) : bool := match c with Persist _ _ | StartMark | EndMark => true | _ => false end.
Definition sysctls (s : KState) : list kcmd := List.filter is_sysctl (executed (tuner s)).
Definition conf_lines (s : KState) : list kcmd := List.filter is_conf (executed (tuner s)).
Definition to_conf (c : kcmd) : kcmd := match c with Sysctl n v => Persist n v | _ => c end.
Definition others (s : KState) : list kcmd := List.filter (λ c, negb (is_sysctl c)) (executed (tuner s)).

(** *** The menu's commands against the commands run *)
Definition same_but_menu (menu appl : KState) : Prop :=
  sysctls menu = [] ∧ sysctls appl = kept (tuner menu) ∧ others menu = others appl ∧ kept (tuner appl) = [] ∧
  vModifySysctlFile menu = vModifySysctlFile appl ∧ my_tune_max menu = my_tune_max appl ∧
  congestion_control_recommended_avail menu = congestion_control_recommended_avail appl.
Definition with_apply (f : ascii) (e : kenv) : kenv := mkKenv (ke_table e) f (ke_permanent e) (ke_modprobe e).

Lemma same_run c s1 s2 : is_sysctl c = false → same_but_menu s1 s2 → same_but_menu (run c s1) (run c s2).
Proof.
  intros Hc (H1 & H2 & H3 & ?). unfold same_but_menu, sysctls, others, run in *. cbn in *.
  rewrite !List.filter_app, H1, H2, H3. destruct c; try discriminate Hc; cbn; by rewrite ?app_nil_r.
Qed.
Lemma same_apply e n v s1 s2 s1' :
  Ascii.eqb (ke_permanent e) "y" = false → same_but_menu s1 s2 →
  apply_kernel (with_apply "n" e) n v s1 = Ret s1' →
  ∃ s2', apply_kernel (with_apply "y" e) n v s2 = Ret s2' ∧ same_but_menu s1' s2'.
Proof.
  intros Hp (H1 & H2 & H3 & H4 & H5). unfold apply_kernel, persist. cbn. rewrite Hp. intros E.
  inv_bind E as t Et. simplify_eq. apply keep_Ret in Et as [-> _]. eexists. split; [done|].
  unfold same_but_menu, sysctls, others, run in *. cbn in *. rewrite !List.filter_app, H2, <- H3. cbn.
  by rewrite app_nil_r.
Qed.
Lemma same_flag_note h n s1 s2 : same_but_menu s1 s2 → same_but_menu (note_wmem h n s1) (note_wmem h n s2).
Proof.
  intros (?&?&?&?&?&?&?). unfold note_wmem. case_match; repeat split; done.
Qed.
Ltac menu_step := first
  [ eexists; split; [reflexivity|by repeat apply same_flag_note || apply same_run]
  | eapply same_apply; eauto using same_flag_note, same_run ].
Lemma same_value e h n v s1 s2 s1' :
  Ascii.eqb (ke_permanent e) "y" = false → same_but_menu s1 s2 →
  tune_value (with_apply "n" e) h n v s1 = Ret s1' →
  ∃ s2', tune_value (with_apply "y" e) h n v s2 = Ret s2' ∧ same_but_menu s1' s2'.
Proof.
  intros Hp HR. assert (Hav : congestion_control_recommended_avail s1 = congestion_control_recommended_avail s2) by apply HR.
  assert (Hn : tune_number (with_apply "n" e) h n v s1 = Ret s1' →
    ∃ s2', tune_number (with_apply "y" e) h n v s2 = Ret s2' ∧ same_but_menu s1' s2').
  { unfold tune_number. repeat case_match; try (intros [= <-]; menu_step); try (intros E; menu_step).
    - intros E. inv_bind E as p Ep. rewrite Ep. cbn [mbind res_bind]. repeat case_match; simplify_eq; menu_step.
    - intros E. inv_bind E as p Ep. rewrite Ep. cbn [mbind res_bind]. simplify_eq; menu_step. }
  assert (Hw : tune_word (with_apply "n" e) h n v s1 = Ret s1' →
    ∃ s2', tune_word (with_apply "y" e) h n v s2 = Ret s2' ∧ same_but_menu s1' s2').
  { unfold tune_word. intros E. inv_bind E as w Ew. rewrite Ew. cbn [mbind res_bind]. rewrite <- Hav. cbn [ke_modprobe with_apply] in *.
    repeat case_match; simplify_eq; try menu_step.
    eexists; split; [done|]. destruct HR as (?&?&?&?&?&?&?). repeat split; done. }
  unfold tune_value. repeat case_match; auto.
Qed.
(** What a treatment of values keeps for the menu is what it would run. *)
Definition offers (value : kenv → host_tuning_vals_t → string → string → KState → res KState) : Prop :=
  ∀ e h n v s1 s2 s1',
    Ascii.eqb (ke_permanent e) "y" = false → same_but_menu s1 s2 → value (with_apply "n" e) h n v s1 = Ret s1' →
    ∃ s2', value (with_apply "y" e) h n v s2 = Ret s2' ∧ same_but_menu s1' s2'.
Lemma same_line value e tbl m s1 s1' s2 stop :
  offers value → Ascii.eqb (ke_permanent e) "y" = false → same_but_menu s1 s2 →
  setting_line (value (with_apply "n" e)) tbl m s1 = Ret (s1', stop) →
  ∃ s2', setting_line (value (with_apply "y" e)) tbl m s2 = Ret (s2', stop) ∧ same_but_menu s1' s2'.
Proof.
  intros Hof Hp HR. unfold setting_line. intros E. inv_bind E as [n q] En. inv_bind E as u Eu. rewrite En. cbn [mbind res_bind].
  rewrite Eu. cbn [mbind res_bind]. case_match; [|simplify_eq; eauto].
  inv_bind E as [x q'] E1. inv_bind E as [v z] E2. inv_bind E as u' E3. inv_bind E as s' E4. simplify_eq.
  rewrite E1. cbn [mbind res_bind]. rewrite E2. cbn [mbind res_bind]. rewrite E3. cbn [mbind res_bind].
  destruct (Hof e h n v s1 s2 s1' Hp HR E4) as (s2' & E5 & HR'). rewrite E5. cbn. eauto.
Qed.

(** *** The block in /etc/sysctl.conf *)
Definition conf_inv (s : KState) : Prop :=
  kept (tuner s) = [] ∧
  if vModifySysctlFile s then conf_lines s = StartMark :: (to_conf <$> sysctls s)
  else conf_lines s = [] ∧ sysctls s = [].
Lemma conf_run c s : is_sysctl c = false → is_conf c = false → conf_inv s → conf_inv (run c s).
Proof.
  intros Hs Hc [Hk H]. split; [done|]. unfold conf_lines, sysctls, run in *. cbn in *.
  rewrite !List.filter_app. cbn. by rewrite Hs, Hc, !app_nil_r.
Qed.
Lemma conf_apply e n v s s' :
  ke_apply e = "y"%char → ke_permanent e = "y"%char → conf_inv s → apply_kernel e n v s = Ret s' → conf_inv s'.
Proof.
  intros Ha Hp [Hk H] E. unfold apply_kernel, persist in E. rewrite Ha, Hp in E. cbn [Ascii.eqb Bool.eqb] in E.
  simplify_eq. unfold conf_inv, conf_lines, sysctls, run in *. cbn in *.
  destruct (vModifySysctlFile s) eqn:Em; cbn; (split; [done|]).
  - rewrite Em. rewrite !List.filter_app. cbn. rewrite !app_nil_r, H, fmap_app. done.
  - destruct H as [H1 H2]. rewrite !List.filter_app. cbn. by rewrite H1, H2.
Qed.
Lemma conf_note h n s : conf_inv s → conf_inv (note_wmem h n s).
Proof. unfold note_wmem. by case_match. Qed.
Lemma conf_value e h n v s s' :
  ke_apply e = "y"%char → ke_permanent e = "y"%char → conf_inv s → tune_value e h n v s = Ret s' → conf_inv s'.
Proof.
  intros Ha Hp HI. pose proof (λ n v s s', conf_apply e n v s s' Ha Hp) as Hap.
  assert (Hn : tune_number e h n v s = Ret s' → conf_inv s').
  { unfold tune_number. repeat case_match; try (intros [= <-]; done); eauto.
    all: intros E; inv_bind E as p Ep; repeat case_match; simplify_eq; eauto using conf_note. }
  assert (Hw : tune_word e h n v s = Ret s' → conf_inv s').
  { unfold tune_word. intros E. inv_bind E as w Ew.
    repeat case_match; simplify_eq;
      first [exact HI | by repeat apply conf_run | eapply Hap; [|exact E]; by repeat apply conf_run]. }
  unfold tune_value. repeat case_match; auto.
Qed.
Lemma setting_line_inv (P : KState → Prop) value tbl m s s' stop :
  (∀ h n v s s', P s → value h n v s = Ret s' → P s') →
  P s → setting_line value tbl m s = Ret (s', stop) → P s'.
Proof.
  intros HP Hs E. unfold setting_line in E. inv_bind E as [n q] En. inv_bind E as u Eu. case_match; [|by simplify_eq].
  inv_bind E as [x q'] E1. inv_bind E as [v z] E2. inv_bind E as u' E3. inv_bind E as s1 E4. simplify_eq. eauto.
Qed.

(** ** What a host needs

    A host as the script prints it: names and values in order.  Numbers and
    triples of numbers are printed in decimal; a word does not start with a digit. *)
Definition three_text (a b c : Z) : string := dec a +:+ tab +:+ dec b +:+ tab +:+ dec c.
Definition is_nat31 (x : Z) : Prop := 0 ≤ x < 2 ^ 31.
Definition word_ok (w : string) : bool :=
  match w with
  | EmptyString => false
  | String c _ => nondigit c && str_forall (λ c, not_nl c && not_nul c) w && (strlen w <? 256)
  end.
Inductive value_shape (h : host_tuning_vals_t) : string → Prop :=
| shape_number x : is_nat31 x → xDefault h = -1 → value_shape h (dec x)
| shape_three a b c : is_nat31 a → is_nat31 b → is_nat31 c → xDefault h ≠ -1 → value_shape h (three_text a b c)
| shape_word w u : word_ok w = true → zget aStringval (minimum h) = Some u → xDefault h = -1 → value_shape h w.
Definition show_host (l : list (string * string)) : list string := (λ p, p.1 +:+ (" = " +:+ (p.2 +:+ nl))) <$> l.
(** The value the kernel shows after a command. *)
Definition stored (k : kval) : string :=
  match k with One w => w | Three a b c => a +:+ tab +:+ b +:+ tab +:+ c end.
Definition set_host (l : list (string * string)) (c : kcmd) : list (string * string) :=
  match c with
  | Sysctl n k => (λ p, if String.eqb p.1 n then (n, stored k) else p) <$> l
  | _ => l
  end.

Section Spec.
Context (md : option (option string)).
(** The command a value asks for. *)
Definition word_needs (avail : bool) (h : host_tuning_vals_t) (n v : string) : option kval :=
  match zget aStringval (minimum h) with
  | Some w =>
      if String.eqb v w || String.eqb n "net.ipv4.tcp_available_congestion_control" then None
      else if String.eqb n "net.ipv4.tcp_congestion_control" && negb avail then
        match md with Some None => Some (One w) | _ => None end
      else Some (One w)
  | None => None
  end.
Definition needs (avail : bool) (h : host_tuning_vals_t) (n v : string) : option kval :=
  if match v with String c _ => isdigit c | EmptyString => false end then
    if xDefault h =? -1 then if atoi v <? minimum h then Some (One (dec (minimum h))) else None
    else
      match parse_three v with
      | Ret (_, _, c) => if (atoi v <=? minimum h) && (atoi c <? maximum h) then Some (three_of h) else None
      | _ => None
      end
  else word_needs avail h n v.
End Spec.
Definition shows_htcp (n v : string) : bool :=
  negb (match v with String c _ => isdigit c | EmptyString => false end) && negb (String.eqb v "getvalue") &&
  String.eqb n "net.ipv4.tcp_available_congestion_control" &&
  match strstr v "htcp" with Some _ => true | None => false end.
(** The commands a host asks for, in order; [nd] says what one value asks for. *)
Fixpoint todo (nd : bool → host_tuning_vals_t → string → string → option kval)
    (tbl : list host_tuning_vals_t) (avail : bool) (l : list (string * string)) : list kcmd :=
  match l with
  | [] => []
  | (n, v) :: l' =>
      match find_setting n tbl with
      | None => todo nd tbl avail l'
      | Some h => (Sysctl n <$> option_list (nd avail h n v)) ++ todo nd tbl (avail || shows_htcp n v) l'
      end
  end.

(** A command improves on the value it replaces. *)
Definition raises (v : string) (k : kval) : Prop :=
  match k with
  | One w => ∀ x, is_nat31 x → v = dec x → ∃ y, w = dec y ∧ is_nat31 y ∧ x < y
  | Three _ _ c => ∃ a b m y, v = three_text a b m ∧ c = dec y ∧ is_nat31 m ∧ is_nat31 y ∧ m < y
  end.
Definition entry_ok (h : host_tuning_vals_t) : Prop :=
  is_nat31 (minimum h) ∧ is_nat31 (maximum h) ∧ (xDefault h = -1 ∨ is_nat31 (xDefault h)) ∧
  (setting h = "net.ipv4.tcp_available_congestion_control" → minimum h = 5).
Definition host_ok (tbl : list host_tuning_vals_t) (l : list (string * string)) : Prop :=
  NoDup l.*1 ∧
  Forall (λ p, (str_forall (λ c, not_sp c && not_nul c) p.1 = true ∧ strlen p.1 < 256) ∧
    (str_forall (λ c, not_nl c && not_nul c) p.2 = true ∧ strlen p.2 < 256) ∧
    ∀ h, find_setting p.1 tbl = Some h → value_shape h p.2) l.

Definition entry_okb (h : host_tuning_vals_t) : bool :=
  let nat31 x := (0 <=? x) && (x <? 2 ^ 31) in
  nat31 (minimum h) && nat31 (maximum h) && ((xDefault h =? -1) || nat31 (xDefault h)) &&
  (negb (String.eqb (setting h) "net.ipv4.tcp_available_congestion_control") || (minimum h =? 5)).
Lemma entry_okb_ok h : entry_okb h = true → entry_ok h.
Proof.
  unfold entry_okb, entry_ok, is_nat31.
  destruct (String.eqb_spec (setting h) "net.ipv4.tcp_available_congestion_control"); zbool; cbn; intros; try done;
    split_and!; first [lia | intros; lia | intros; congruence].
Qed.
Lemma tables_ok spd : Forall entry_ok (aTuningNumsToUse spd).1.
Proof.
  unfold aTuningNumsToUse. repeat case_match; repeat (constructor; [by apply entry_okb_ok|]); constructor.
Qed.
Lemma find_setting_Some n tbl h : find_setting n tbl = Some h → h ∈ tbl ∧ setting h = n.
Proof. intros [Hin E]%find_some. apply String.eqb_eq in E. split; [by apply list_elem_of_In|done]. Qed.

Lemma entry_found tbl n h : Forall entry_ok tbl → find_setting n tbl = Some h → entry_ok h ∧ setting h = n.
Proof.
  intros Ht [Hin E]%find_setting_Some. split; [|done]. revert h Hin E. induction Ht as [|h0 tbl H0 _ IH]; intros h Hin E.
  - by apply not_elem_of_nil in Hin.
  - apply elem_of_cons in Hin as [->|Hin]; eauto.
Qed.

(** *** Values *)
Lemma dec_head n t : 0 ≤ n → ∃ c r, dec n +:+ t = String c r ∧ isdigit c = true.
Proof.
  intros Hn. pose proof (dec_digits n Hn) as Hd. pose proof (dec_nonempty n).
  destruct (dec n) as [|c r]; [done|]. rewrite str_app_cons. cbn in Hd. apply andb_true_iff in Hd as [? _]. eauto.
Qed.

Lemma tab_nondigit c t' s : tab +:+ s = String c t' → isdigit c = false.
Proof. unfold tab. rewrite str_app_cons. by intros [= <- _]. Qed.
Lemma parse_three_text a b c :
  is_nat31 a → is_nat31 b → is_nat31 c → parse_three (three_text a b c) = Ret (dec a, dec b, dec c).
Proof.
  intros Ha Hb Hc. unfold parse_three, three_text, is_nat31 in *.
  rewrite span_stop by first [apply dec_digits; lia | by intros; eapply tab_nondigit].
  pose proof (dec_head b (tab +:+ dec c) ltac:(lia)) as (x & r & E & Hx).
  pose proof (dec_head c "" ltac:(lia)) as (y & r' & E' & Hy). rewrite str_app_nil in E'.
  rewrite E. rewrite scan_stop by (done || by apply negb_false_iff). cbn [mbind res_bind]. rewrite <- E.
  rewrite span_stop by first [apply dec_digits; lia | by intros; eapply tab_nondigit].
  pose proof (dec_digits c ltac:(lia)) as Hd. rewrite E' in *. rewrite scan_stop by (done || by apply negb_false_iff).
  cbn [mbind res_bind]. rewrite <- (str_app_nil (String y r')) at 1. by rewrite span_stop.
Qed.
Lemma setting_line_text value tbl b n v s :
  str_forall (λ c, not_sp c && not_nul c) n = true → strlen n < 256 →
  str_forall (λ c, not_nl c && not_nul c) v = true → strlen v < 256 →
  setting_line value tbl (getline_buf b (n +:+ (" = " +:+ (v +:+ nl)))) s =
  match find_setting n tbl with
  | None => Ret (s, false)
  | Some h => s ← value h n v s; Ret (s, false)
  end.
Proof.
  intros Hn Hln Hv Hlv. unfold setting_line.
  assert (Hn1 : str_forall not_sp n = true) by (eapply str_forall_weaken; [|exact Hn]; cbn; by intros ? [? _]%andb_true_iff).
  assert (Hn2 : str_forall not_nul n = true) by (eapply str_forall_weaken; [|exact Hn]; cbn; by intros ? [_ ?]%andb_true_iff).
  assert (Hv1 : str_forall not_nl v = true) by (eapply str_forall_weaken; [|exact Hv]; cbn; by intros ? [? _]%andb_true_iff).
  assert (Hv2 : str_forall not_nul v = true) by (eapply str_forall_weaken; [|exact Hv]; cbn; by intros ? [_ ?]%andb_true_iff).
  rewrite cstr_getline by (rewrite !str_forall_app, Hn2, Hv2; done).
  rewrite (str_app_cons " " "= "). rewrite scan_stop by done. cbn [mbind res_bind].
  rewrite fits_nul_ok by done. cbn [mbind res_bind]. case_match; [|done].
  change (drop_str 1 (String " " ("= " +:+ (v +:+ nl)))) with ("=" +:+ String " " (v +:+ nl)).
  rewrite scan_stop by done. cbn [mbind res_bind drop_str]. unfold nl. rewrite scan_stop by done.
  cbn [mbind res_bind]. by rewrite fits_nul_ok by done.
Qed.

(** What a command in apply mode adds. *)
Definition adds (s s' : KState) (cs : list kcmd) (avail : bool) : Prop :=
  sysctls s' = sysctls s ++ cs ∧ kept (tuner s') = kept (tuner s) ∧ congestion_control_recommended_avail s' = avail.
Lemma adds_nil s avail : congestion_control_recommended_avail s = avail → adds s s [] avail.
Proof. unfold adds. by rewrite app_nil_r. Qed.
Lemma adds_run c s s' cs avail : is_sysctl c = false → adds (run c s) s' cs avail → adds s s' cs avail.
Proof.
  intros Hc (H1 & H2 & H3). split; [|done]. rewrite H1. unfold sysctls, run. cbn.
  rewrite List.filter_app. cbn. by rewrite Hc, app_nil_r.
Qed.
Lemma adds_note h n s s' cs avail : adds (note_wmem h n s) s' cs avail → adds s s' cs avail.
Proof. unfold note_wmem. by case_match. Qed.
Lemma note_adds h n s : adds s (note_wmem h n s) [] (congestion_control_recommended_avail s).
Proof. apply (adds_note h n). apply (adds_nil (note_wmem h n s)). unfold note_wmem. by case_match. Qed.
Lemma note_avail h n s : congestion_control_recommended_avail (note_wmem h n s) = congestion_control_recommended_avail s.
Proof. unfold note_wmem. by case_match. Qed.
Lemma apply_adds e n k s :
  ke_apply e = "y"%char →
  ∃ s', apply_kernel e n k s = Ret s' ∧ adds s s' [Sysctl n k] (congestion_control_recommended_avail s).
Proof.
  intros He. unfold apply_kernel, persist. rewrite He. cbn [Ascii.eqb Bool.eqb]. eexists. split; [done|].
  unfold adds, sysctls, run. destruct (Ascii.eqb (ke_permanent e) "y"), (vModifySysctlFile s) eqn:E; cbn; rewrite ?E; cbn;
    rewrite !List.filter_app; cbn; by rewrite ?app_nil_r.
Qed.

Lemma shape_digit h v :
  value_shape h v →
  match v with String c _ => isdigit c | EmptyString => false end = true ∧
    ((∃ x, v = dec x ∧ is_nat31 x ∧ xDefault h = -1) ∨
     (∃ a b c, v = three_text a b c ∧ is_nat31 a ∧ is_nat31 b ∧ is_nat31 c ∧ xDefault h ≠ -1)) ∨
  match v with String c _ => isdigit c | EmptyString => false end = false ∧
    word_ok v = true ∧ xDefault h = -1 ∧ ∃ w, zget aStringval (minimum h) = Some w.
Proof.
  intros [x Hx Hd|a b c Ha Hb Hc Hd|w u Hw Hu Hd].
  - left. destruct (dec_head x "" (proj1 Hx)) as (d & r & E & Hdg). rewrite str_app_nil in E.
    split; [by rewrite E|]. left. eauto.
  - left. destruct (dec_head a (tab +:+ dec b +:+ tab +:+ dec c) (proj1 Ha)) as (d & r & E & Hdg).
    split; [unfold three_text; by rewrite E|]. right. by exists a, b, c.
  - right. split; [|eauto]. destruct w as [|d w]; [done|]. cbn in Hw.
    apply andb_true_iff in Hw as [[Hw _]%andb_true_iff _]. by apply negb_true_iff.
Qed.
Lemma tune_value_digit e h n v s :
  match v with String c _ => isdigit c | EmptyString => false end = true → tune_value e h n v s = tune_number e h n v s.
Proof. destruct v; [done|]. cbn. by intros ->. Qed.
Lemma tune_value_word e h n v s :
  match v with String c _ => isdigit c | EmptyString => false end = false → tune_value e h n v s = tune_word e h n v s.
Proof. destruct v; [done|]. cbn. by intros ->. Qed.
Lemma three_atoi a b c : is_nat31 a → atoi (three_text a b c) = a.
Proof. intros. apply atoi_dec_app; [done|]. intros. by eapply tab_nondigit. Qed.
Lemma dec_atoi x : is_nat31 x → atoi (dec x) = x.
Proof. apply atoi_dec. Qed.
Lemma nat31_dec x : is_nat31 x → decs (i32 x) = dec x.
Proof. unfold is_nat31. intros. rewrite i32_small by lia. apply decs_nonneg. lia. Qed.
Lemma nat31_u32 x : is_nat31 x → u32 x = x.
Proof. unfold is_nat31. intros. apply u32_small. unfold is_u32. lia. Qed.

Lemma tune_number_needs e h n v s :
  ke_apply e = "y"%char → entry_ok h →
  ((∃ x, v = dec x ∧ is_nat31 x ∧ xDefault h = -1) ∨
   (∃ a b c, v = three_text a b c ∧ is_nat31 a ∧ is_nat31 b ∧ is_nat31 c ∧ xDefault h ≠ -1)) →
  match v with String c _ => isdigit c | EmptyString => false end = true →
  ∃ s', tune_number e h n v s = Ret s' ∧
    adds s s' (Sysctl n <$> option_list (needs (ke_modprobe e) (congestion_control_recommended_avail s) h n v))
      (congestion_control_recommended_avail s).
Proof.
  intros He (Hm & HM & Hd & _) Hv Hdg. unfold tune_number, needs. rewrite Hdg.
  destruct Hv as [(x & -> & Hx & E)|(a & b & c & -> & Ha & Hb & Hc & E)].
  - rewrite E, dec_atoi, nat31_u32 by done. cbn [Z.eqb Pos.eqb]. change (-1 =? -1) with true. cbn match.
    destruct (Z.leb_spec x (minimum h)), (Z.eqb_spec x (minimum h)), (Z.ltb_spec x (minimum h)); try lia;
      cbn [option_list fmap list_fmap]; eauto using adds_nil. rewrite nat31_dec by done. by apply apply_adds.
  - rewrite (proj2 (Z.eqb_neq _ _) E), three_atoi, nat31_u32, parse_three_text by done. cbn [mbind res_bind].
    rewrite dec_atoi, nat31_u32 by done.
    destruct (Z.leb_spec a (minimum h)), (Z.ltb_spec c (maximum h)); cbn [andb option_list fmap list_fmap];
      try (eexists; split; [done|apply note_adds]).
    destruct (apply_adds e n (three_of h) (note_wmem h n s) He) as (s' & E' & Hs').
    exists s'. split; [done|]. apply adds_note in Hs'. by rewrite note_avail in Hs'.
Qed.
Lemma tune_word_needs e h n v s :
  ke_apply e = "y"%char → entry_ok h → setting h = n → (∃ w, zget aStringval (minimum h) = Some w) →
  match v with String c _ => isdigit c | EmptyString => false end = false →
  ∃ s', tune_word e h n v s = Ret s' ∧
    adds s s' (Sysctl n <$> option_list (needs (ke_modprobe e) (congestion_control_recommended_avail s) h n v))
      (congestion_control_recommended_avail s || shows_htcp n v).
Proof.
  intros He (_ & _ & _ & Hav) Hn [w Hw] Hdg. unfold tune_word, needs, word_needs, shows_htcp. rewrite Hdg, Hw.
  cbn [of_opt mbind res_bind negb andb].
  destruct (String.eqb_spec n "net.ipv4.tcp_available_congestion_control") as [E|E].
  - rewrite Hav in Hw by congruence. vm_compute in Hw. simplify_eq. rewrite orb_true_r, andb_true_r. cbn [option_list fmap list_fmap].
    destruct (String.eqb v "getvalue"); cbn [negb andb].
    { rewrite orb_false_r. eauto using adds_nil. }
    destruct (strstr v "htcp"); rewrite ?orb_true_r, ?orb_false_r; eexists; (split; [done|]); [|by apply adds_nil].
    unfold adds, sysctls. cbn. by rewrite app_nil_r.
  - rewrite !andb_false_r, !orb_false_r. destruct (String.eqb v w); cbn [orb option_list fmap list_fmap]; [eauto using adds_nil|].
    destruct (String.eqb n "net.ipv4.tcp_congestion_control" && negb (congestion_control_recommended_avail s)); [|by apply apply_adds].
    destruct (ke_modprobe e) as [[l|]|]; cbn [option_list fmap list_fmap].
    + eexists. split; [done|]. apply (adds_run Modprobe), (adds_run RmModprobe); [done..|]. by apply adds_nil.
    + destruct (apply_adds e n (One w) (run RmModprobe (run Modprobe s)) He) as (s' & E' & Hs').
      exists s'. split; [done|]. by apply (adds_run Modprobe), (adds_run RmModprobe).
    + eexists. split; [done|]. apply (adds_run Modprobe); [done|]. by apply adds_nil.
Qed.
Lemma tune_value_needs e h n v s :
  ke_apply e = "y"%char → entry_ok h → setting h = n → value_shape h v →
  ∃ s', tune_value e h n v s = Ret s' ∧
    adds s s' (Sysctl n <$> option_list (needs (ke_modprobe e) (congestion_control_recommended_avail s) h n v))
      (congestion_control_recommended_avail s || shows_htcp n v).
Proof.
  intros He Hh Hn Hv. destruct (shape_digit h v Hv) as [[Hd Hx]|(Hd & _ & _ & Hw)].
  - rewrite tune_value_digit by done. destruct (tune_number_needs e h n v s He Hh Hx Hd) as (s' & E & Hs').
    exists s'. split; [done|]. unfold shows_htcp. by rewrite Hd, orb_false_r.
  - rewrite tune_value_word by done. by apply tune_word_needs.
Qed.

(** *** A host after its commands *)
Lemma digits_plain s : str_forall isdigit s = true → str_forall (λ c, not_nl c && not_nul c) s = true.
Proof.
  apply str_forall_weaken. intros c Hc. rewrite (isdigit_not_nul c Hc), andb_true_r.
  apply negb_true_iff. revert Hc. unfold isdigit. zbool; cbn; lia || done.
Qed.
Lemma shape_plain h v : value_shape h v → str_forall (λ c, not_nl c && not_nul c) v = true ∧ strlen v < 256.
Proof.
  intros [x Hx _|a b c Ha Hb Hc _|w u Hw _ _].
  - pose proof (dec_len x). split; [|lia]. apply digits_plain, dec_digits. apply Hx.
  - unfold three_text. rewrite !str_forall_app, !strlen_app. pose proof (dec_len a). pose proof (dec_len b).
    pose proof (dec_len c). change (strlen tab) with 1. split; [|lia].
    by rewrite (digits_plain (dec a)), (digits_plain (dec b)), (digits_plain (dec c)) by
      (apply dec_digits; (apply Ha || apply Hb || apply Hc)).
  - destruct w as [|d w]; [done|]. unfold word_ok in Hw.
    apply andb_true_iff in Hw as [[_ ?]%andb_true_iff ?%Z.ltb_lt]. done.
Qed.
Lemma aStringval_words n w : zget aStringval n = Some w → word_ok w = true ∧ ∃ m, 0 ≤ m < 6 ∧ zget aStringval m = Some w.
Proof.
  intros E. pose proof (zget_lt _ _ _ E) as Hn. split; [|by exists n].
  assert (n = 0 ∨ n = 1 ∨ n = 2 ∨ n = 3 ∨ n = 4 ∨ n = 5) as Hc by (cbn in Hn; lia).
  destruct Hc as [->|[->|[->|[->|[->| ->]]]]]; vm_compute in E; by simplify_eq.
Qed.
Lemma word_nondigit w : word_ok w = true → match w with String c _ => isdigit c | EmptyString => false end = false.
Proof. destruct w as [|c w]; [done|]. unfold word_ok. intros [[?%negb_true_iff _]%andb_true_iff _]%andb_true_iff. done. Qed.
Lemma dec_is_digit x : is_nat31 x → match dec x with String c _ => isdigit c | EmptyString => false end = true.
Proof. intros Hx. destruct (dec_head x "" (proj1 Hx)) as (c & r & E & ?). rewrite str_app_nil in E. by rewrite E. Qed.
Lemma three_is_digit a b c : is_nat31 a → match three_text a b c with String c _ => isdigit c | EmptyString => false end = true.
Proof. intros Ha. unfold three_text. by destruct (dec_head a (tab +:+ dec b +:+ tab +:+ dec c) (proj1 Ha)) as (d & r & -> & ?). Qed.

(** A command settles its setting. *)
Lemma needs_settled md avail h n v k :
  entry_ok h → value_shape h v → needs md avail h n v = Some k →
  value_shape h (stored k) ∧ needs md avail h n (stored k) = None ∧ shows_htcp n (stored k) = shows_htcp n v.
Proof.
  intros (Hm & HM & Hd & _) Hv. unfold needs, shows_htcp.
  destruct (shape_digit h v Hv) as [[-> Hx]|(-> & Hw & Hd' & u & Hu)]; cbn [negb andb].
  - destruct Hx as [(x & -> & Hx & E)|(a & b & c & -> & Ha & Hb & Hc & E)].
    + rewrite E. change (-1 =? -1) with true. cbn match. case_match; [|done]. intros [= <-]. cbn [stored].
      rewrite dec_is_digit, dec_atoi, Z.ltb_irrefl by done. split; [by constructor|done].
    + rewrite (proj2 (Z.eqb_neq _ _) E), parse_three_text by done. case_match; [|done]. intros [= <-].
      assert (is_nat31 (xDefault h)) as Hx by (destruct Hd; done).
      assert (stored (three_of h) = three_text (minimum h) (xDefault h) (maximum h)) as ->.
      { unfold stored, three_of, three_text. rewrite !nat31_dec by done. by rewrite decs_nonneg by apply Hx. }
      rewrite three_is_digit, parse_three_text, three_atoi, dec_atoi, Z.ltb_irrefl, andb_false_r by done.
      split; [by constructor|done].
  - intros E. unfold word_needs in *. rewrite Hu in *. destruct (aStringval_words _ _ Hu) as [Hok _].
    assert (k = One u ∧ String.eqb n "net.ipv4.tcp_available_congestion_control" = false) as [-> En].
    { revert E. destruct (String.eqb n "net.ipv4.tcp_available_congestion_control"); [by rewrite orb_true_r|].
      rewrite orb_false_r. repeat case_match; intros [=]; done. }
    cbn [stored]. rewrite word_nondigit by done. cbn [negb andb]. rewrite String.eqb_refl, En, !andb_false_r. cbn [orb].
    split; [by eapply shape_word|done].
Qed.
Lemma needs_raises md avail h n v k :
  entry_ok h → value_shape h v → needs md avail h n v = Some k → raises v k.
Proof.
  intros (Hm & HM & Hd & _) Hv. unfold needs.
  destruct (shape_digit h v Hv) as [[-> Hx]|(Hdg & Hw & Hd' & u & Hu)].
  - destruct Hx as [(x & -> & Hx & E)|(a & b & c & -> & Ha & Hb & Hc & E)].
    + rewrite E. change (-1 =? -1) with true. cbn match. rewrite dec_atoi by done.
      destruct (Z.ltb_spec x (minimum h)); [|done]. intros [= <-] x' Hx' Exx.
      unfold is_nat31 in *. apply dec_inj in Exx; [|lia..]. subst x'. by exists (minimum h).
    + rewrite (proj2 (Z.eqb_neq _ _) E), parse_three_text, (dec_atoi c) by done.
      destruct (Z.ltb_spec c (maximum h)); [|by rewrite andb_false_r]. case_match; [|done]. intros [= <-].
      exists a, b, c, (maximum h). rewrite nat31_dec by done. done.
  - assert (∀ x, is_nat31 x → v ≠ dec x) as Hne by (intros x Hx E; rewrite E, dec_is_digit in Hdg; done).
    rewrite Hdg. clear Hdg. intros E. assert (∃ w, k = One w) as [w ->].
    { unfold word_needs in E. repeat case_match; simplify_eq; eauto. }
    intros x Hx Ex. by destruct (Hne x Hx).
Qed.
(** ** The interface of a treatment of values

    [nd] is what one value asks for, [value] the code that does it. *)
Class Prescribes (value : kenv → host_tuning_vals_t → string → string → KState → res KState)
    (nd : option (option string) → bool → host_tuning_vals_t → string → string → option kval) : Prop := {
  pr_does e h n v s :
    ke_apply e = "y"%char → entry_ok h → setting h = n → value_shape h v →
    ∃ s', value e h n v s = Ret s' ∧
      adds s s' (Sysctl n <$> option_list (nd (ke_modprobe e) (congestion_control_recommended_avail s) h n v))
        (congestion_control_recommended_avail s || shows_htcp n v);
  pr_settles md avail h n v k :
    entry_ok h → value_shape h v → nd md avail h n v = Some k →
    value_shape h (stored k) ∧ nd md avail h n (stored k) = None ∧ shows_htcp n (stored k) = shows_htcp n v;
  pr_raises md avail h n v k : entry_ok h → value_shape h v → nd md avail h n v = Some k → raises v k
}.
#[export] Instance tune_value_prescribes : Prescribes tune_value needs.
Proof. split; [apply tune_value_needs|apply needs_settled|apply needs_raises]. Qed.

Lemma set_host_app l1 l2 cs : foldl set_host (l1 ++ l2) cs = foldl set_host l1 cs ++ foldl set_host l2 cs.
Proof.
  revert l1 l2. induction cs as [|c cs IH]; intros l1 l2; [done|]. cbn [foldl].
  replace (set_host (l1 ++ l2) c) with (set_host l1 c ++ set_host l2 c); [apply IH|].
  destruct c; try done. cbn. by rewrite fmap_app.
Qed.
Lemma set_host_id l cs :
  (∀ n k, Sysctl n k ∈ cs → n ∉ l.*1) → foldl set_host l cs = l.
Proof.
  induction cs as [|c cs IH]; intros H; [done|]. cbn [foldl].
  replace (set_host l c) with l; [apply IH; intros n k Hin; apply (H n k); by apply elem_of_cons; right|].
  destruct c as [| n k | | | | | |]; try done. cbn. specialize (H n k ltac:(apply elem_of_cons; by left)).
  symmetry. rewrite <- (list_fmap_id l) at 2. apply list_fmap_ext. intros i p Hp.
  destruct (String.eqb_spec p.1 n) as [E|]; [|done]. destruct H. rewrite <- E. apply list_elem_of_fmap_2.
  by eapply list_elem_of_lookup_2.
Qed.
Definition kstate0 : KState := mkKState tuner0 false 0 false.

Section Prescribed.
Context {value : kenv → host_tuning_vals_t → string → string → KState → res KState}
  {nd : option (option string) → bool → host_tuning_vals_t → string → string → option kval} `{!Prescribes value nd}.
Lemma todo_names md tbl avail l n k : Sysctl n k ∈ todo (nd md) tbl avail l → n ∈ l.*1.
Proof.
  revert avail. induction l as [|[m v] l IH]; intros avail; [by intros ?%not_elem_of_nil|].
  cbn [todo]. rewrite fmap_cons. intros H. apply elem_of_cons. case_match; [|right; by eapply IH].
  apply elem_of_app in H as [H|H]; [left|right; by eapply IH].
  apply list_elem_of_fmap in H as (? & ? & ?). by simplify_eq.
Qed.
Lemma todo_plain md tbl avail l c : c ∈ todo (nd md) tbl avail l → ∃ n k, c = Sysctl n k.
Proof.
  revert avail. induction l as [|[m v] l IH]; intros avail; [by intros ?%not_elem_of_nil|].
  cbn [todo]. case_match; [|apply IH]. intros [Hin|Hin]%elem_of_app; [|by eapply IH].
  apply list_elem_of_fmap in Hin as (? & ? & ?). eauto.
Qed.
Definition next_value md tbl avail n v : string :=
  match find_setting n tbl with
  | Some h => match nd md avail h n v with Some k => stored k | None => v end
  | None => v
  end.
Definition next_avail tbl (avail : bool) n v : bool :=
  match find_setting n tbl with Some _ => avail || shows_htcp n v | None => avail end.
(** The commands for the first setting change it alone, the others leave it. *)
Lemma settled_cons md tbl avail n v l :
  n ∉ l.*1 →
  foldl set_host ((n, v) :: l) (todo (nd md) tbl avail ((n, v) :: l)) =
  (n, next_value md tbl avail n v) :: foldl set_host l (todo (nd md) tbl (next_avail tbl avail n v) l).
Proof.
  intros Hn. cbn [todo]. unfold next_value, next_avail.
  assert (Hrest : ∀ a v', foldl set_host [(n, v')] (todo (nd md) tbl a l) = [(n, v')]).
  { intros a v'. apply set_host_id. intros m k Hin%todo_names. cbn. intros E%list_elem_of_singleton. by subst. }
  destruct (find_setting n tbl) as [h|]; [|by rewrite (set_host_app [(n, v)] l), Hrest].
  rewrite foldl_app, (set_host_app [(n, v)] l), set_host_app.
  rewrite (set_host_id l) by (intros m k (k' & E & _)%list_elem_of_fmap; by simplify_eq).
  replace (foldl set_host [(n, v)] _) with [(n, match nd md avail h n v with Some k => stored k | None => v end)];
    [by rewrite Hrest|]. destruct (nd md avail h n v); [|done]. cbn. by rewrite String.eqb_refl.
Qed.
Lemma next_value_settled md tbl avail n v :
  Forall entry_ok tbl → (∀ h, find_setting n tbl = Some h → value_shape h v) →
  (∀ h, find_setting n tbl = Some h → value_shape h (next_value md tbl avail n v)) ∧
  ∀ l, todo (nd md) tbl avail ((n, next_value md tbl avail n v) :: l) = todo (nd md) tbl (next_avail tbl avail n v) l.
Proof.
  intros Ht Hs. unfold next_value, next_avail. cbn [todo]. destruct (find_setting n tbl) as [h|] eqn:Eh; [|done].
  destruct (entry_found _ _ _ Ht Eh) as [He _].
  specialize (Hs h eq_refl). destruct (nd md avail h n v) as [k|] eqn:Ek.
  - destruct (pr_settles _ _ _ _ _ _ He Hs Ek) as (H1 & H2 & H3). split; [by intros ? [= <-]|].
    intros l. by rewrite H2, H3.
  - split; [by intros ? [= <-]|]. intros l'. by rewrite Ek.
Qed.
Lemma todo_settled md tbl avail l :
  Forall entry_ok tbl → host_ok tbl l →
  host_ok tbl (foldl set_host l (todo (nd md) tbl avail l)) ∧
  (foldl set_host l (todo (nd md) tbl avail l)).*1 = l.*1 ∧
  todo (nd md) tbl avail (foldl set_host l (todo (nd md) tbl avail l)) = [].
Proof.
  intros Ht. revert avail. induction l as [|[n v] l IH]; intros avail [Hnd Hf]; [by repeat split|].
  rewrite fmap_cons in Hnd. apply NoDup_cons in Hnd as [Hn Hnd]. apply Forall_cons in Hf as [(Hp & Hv & Hs) Hf].
  rewrite settled_cons by done. destruct (IH (next_avail tbl avail n v) (conj Hnd Hf)) as ([_ IHf] & IH1 & IH2).
  destruct (next_value_settled md tbl avail n v Ht Hs) as [Hv' Htodo].
  rewrite Htodo, IH2, !fmap_cons, IH1. split_and!; [|done..]. split; [rewrite fmap_cons, IH1; by constructor|].
  constructor; [|done]. split; [done|]. split; [|done]. cbn in *. unfold next_value in *.
  destruct (find_setting n tbl) as [h|]; [|done]. by apply (shape_plain h), Hv'.
Qed.
Lemma run_todo e b l s :
  ke_apply e = "y"%char → Forall entry_ok (ke_table e) → host_ok (ke_table e) l →
  ∃ s', each_line (setting_line (value e) (ke_table e)) b (show_host l) s = Ret s' ∧
    sysctls s' = sysctls s ++ todo (nd (ke_modprobe e)) (ke_table e) (congestion_control_recommended_avail s) l ∧
    kept (tuner s') = kept (tuner s).
Proof.
  intros He Ht [_ Hf]. revert b s. induction Hf as [|[n v] l ([Hp Hl] & [Hv Hlv] & Hs) _ IH]; intros b s.
  { exists s. cbn. by rewrite app_nil_r. }
  unfold show_host in *. rewrite fmap_cons. cbn [each_line fst snd] in *. rewrite setting_line_text by done. cbn [todo].
  destruct (find_setting n (ke_table e)) as [h|] eqn:Eh; [|cbn [mbind res_bind]; apply IH].
  destruct (entry_found _ _ _ Ht Eh) as [Hok Hset].
  destruct (pr_does e h n v s He Hok Hset (Hs h eq_refl)) as (s1 & -> & H1 & H2 & H3).
  cbn [mbind res_bind].
  destruct (IH (getline_buf b (n +:+ (" = " +:+ (v +:+ nl)))) s1) as (s' & -> & H4 & H5).
  exists s'. split; [done|]. by rewrite H4, H1, H3, <- app_assoc, H5.
Qed.

(** A whole run in apply mode. *)
Lemma tuning_todo spd perm md l :
  host_ok (aTuningNumsToUse spd).1 l →
  ∃ s, system_tuning value spd "y" perm md (Some (show_host l)) kstate0 = Ret (Some s) ∧
    sysctls s = todo (nd md) (aTuningNumsToUse spd).1 false l ∧ kept (tuner s) = [].
Proof.
  intros Hl. pose proof (tables_ok spd) as Ht. unfold system_tuning.
  destruct (aTuningNumsToUse spd) as [tbl script]. cbn [fst] in *.
  destruct (run_todo (mkKenv tbl "y" perm md) EmptyString l
    (run (GetConfig script) (kstate0 <| congestion_control_recommended_avail := false |>)) eq_refl Ht Hl)
    as (s & E & Hs & Hk). cbn [ke_table] in E. rewrite E. cbn [mbind res_bind]. eexists. split; [done|].
  change (sysctls s = todo (nd md) tbl false l) in Hs. change (kept (tuner s) = []) in Hk.
  assert (sysctls (run RmConfig s) = todo (nd md) tbl false l) as Hr.
  { rewrite <- Hs. unfold sysctls, run. cbn. by rewrite List.filter_app, app_nil_r. }
  case_match; [|done]. split; [|done]. rewrite <- Hr. unfold sysctls, run. cbn. by rewrite !List.filter_app, !app_nil_r.
Qed.
Lemma todo_raises md tbl avail l n k :
  Forall entry_ok tbl → host_ok tbl l → Sysctl n k ∈ todo (nd md) tbl avail l → ∃ v, (n, v) ∈ l ∧ raises v k.
Proof.
  intros Ht [_ Hf]. revert avail. induction Hf as [|[m v] l (_ & _ & Hs) _ IH]; intros avail; [by intros ?%not_elem_of_nil|].
  cbn [todo fst snd] in *. intros Hin.
  assert (∀ a, Sysctl n k ∈ todo (nd md) tbl a l → ∃ v0, (n, v0) ∈ (m, v) :: l ∧ raises v0 k) as Hlater.
  { intros a Hin'. destruct (IH a Hin') as (v0 & ? & ?). exists v0. split; [|done]. apply elem_of_cons. by right. }
  destruct (find_setting m tbl) as [h|] eqn:Eh; [|by eapply Hlater].
  apply elem_of_app in Hin as [Hin|Hin]; [|by eapply Hlater].
  apply list_elem_of_fmap in Hin as (k' & E & Hk). simplify_eq. exists v. split; [apply elem_of_cons; by left|].
  destruct (entry_found _ _ _ Ht Eh) as [Hok _]. apply (pr_raises md avail h m); [done|by apply Hs|].
  destruct (nd md avail h m v); cbn in Hk; [apply list_elem_of_singleton in Hk; by rewrite Hk|by apply not_elem_of_nil in Hk].
Qed.

End Prescribed.

(** Whatever the settings file and modprobe say, the commands kept when
    gApplyDefSysTuning is not set are those the run with the flag makes. *)
Lemma tuning_same value spd md file r :
  offers value → system_tuning value spd "n" "n" md file kstate0 = Ret r →
  match r with
  | None => system_tuning value spd "y" "n" md file kstate0 = Ret None
  | Some s => ∃ s', system_tuning value spd "y" "n" md file kstate0 = Ret (Some s') ∧ same_but_menu s s'
  end.
Proof.
  intros Hof. unfold system_tuning. destruct (aTuningNumsToUse spd) as [tbl script]. destruct file as [ls|]; [|by intros [= <-]].
  intros E. inv_bind E as s1 E1.
  eapply (each_line_sim _ (setting_line (value (with_apply "y" (mkKenv tbl "n" "n" md))) tbl) same_but_menu) in E1 as (s2 & E2 & HR).
  - cbn in E2. rewrite E2. cbn [mbind res_bind]. simplify_eq. eexists. split; [done|].
    apply (same_run RmConfig) in HR; [|done].
    assert (vModifySysctlFile (run RmConfig s1) = vModifySysctlFile (run RmConfig s2)) as Ev by apply HR.
    rewrite <- Ev. change (vModifySysctlFile (run RmConfig s1)) with (vModifySysctlFile s1). case_match; [|done].
    apply (same_run EndMark) in HR; [|done]. destruct HR as (?&?&?&?&?&?&?). by repeat split.
  - intros. by eapply (same_line _ (mkKenv tbl "n" "n" md)).
  - by repeat split.
Qed.
(** Without the flag nothing is changed but the module modprobe may load. *)
Definition harmless (c : kcmd) : bool := match c with Sysctl _ _ | Persist _ _ | StartMark | EndMark => false | _ => true end.
Definition unchanged (s : KState) : Prop := Forall (λ c, harmless c = true) (executed (tuner s)) ∧ vModifySysctlFile s = false.
Lemma unchanged_run c s : harmless c = true → unchanged s → unchanged (run c s).
Proof. intros Hc [H1 H2]. split; [|done]. cbn. apply Forall_app. split; [done|]. by constructor. Qed.
Lemma unchanged_value e h n v s s' :
  ke_apply e = "n"%char → unchanged s → tune_value e h n v s = Ret s' → unchanged s'.
Proof.
  intros Ha HI. assert (Hap : ∀ n k s s', unchanged s → apply_kernel e n k s = Ret s' → unchanged s').
  { intros n0 k s0 s1 HI0 E. unfold apply_kernel in E. rewrite Ha in E. cbn [Ascii.eqb Bool.eqb] in E. inv_bind E as t Et.
    apply keep_Ret in Et as [-> _]. simplify_eq. exact HI0. }
  assert (Hno : ∀ s, unchanged s → unchanged (note_wmem h n s)) by (intros s0 ?; unfold note_wmem; by case_match).
  unfold tune_value. intros E. assert (tune_number e h n v s = Ret s' ∨ tune_word e h n v s = Ret s') as [E'|E'] by (repeat case_match; auto).
  - unfold tune_number in E'. repeat case_match; simplify_eq; eauto.
    all: inv_bind E' as p Ep; repeat case_match; simplify_eq; eauto.
  - unfold tune_word in E'. inv_bind E' as w Ew. repeat case_match; simplify_eq;
      first [exact HI | by repeat apply unchanged_run | eapply Hap; [|exact E']; by repeat apply unchanged_run].
Qed.
Lemma tuning_unchanged value spd perm md file s :
  (∀ e h n v s s', ke_apply e = "n"%char → unchanged s → value e h n v s = Ret s' → unchanged s') →
  system_tuning value spd "n" perm md file kstate0 = Ret (Some s) → unchanged s.
Proof.
  intros Hun. unfold system_tuning. destruct (aTuningNumsToUse spd) as [tbl script]. destruct file as [ls|]; [|done].
  intros E. inv_bind E as s1 E1. apply (each_line_inv _ unchanged) in E1.
  - destruct E1 as [E1 E2]. cbn in E. rewrite E2 in E. simplify_eq. by apply (unchanged_run RmConfig).
  - intros m a a' stop Ha. apply (setting_line_inv unchanged); [|done]. intros h n v s0 s0' HI.
    by apply (Hun (mkKenv tbl "n" perm md) h n v s0).
  - apply (unchanged_run (GetConfig script)); [done|]. by split; [constructor|].
Qed.

Definition host_ex : list string := [
  "net.core.rmem_max = 212992" +:+ nl; "net.ipv4.tcp_available_congestion_control = reno cubic" +:+ nl;
  "net.ipv4.tcp_congestion_control = cubic" +:+ nl; "net.ipv4.tcp_wmem = 4096 16384 4194304" +:+ nl].

(** ** Theorems *)
(** C19: One pass settles the host.  On any host with well-formed settings the
    program runs to its end, and when the kernel has taken the values it was
    given, a second pass (same speed, same answer of modprobe) has nothing left
    to change or to offer. *)
Theorem tuning_settles_in_one_pass spd perm md l :
  host_ok (aTuningNumsToUse spd).1 l →
  ∃ s, fDoSystemTuning spd "y" perm md (Some (show_host l)) kstate0 = Ret (Some s) ∧
  ∃ s', fDoSystemTuning spd "y" perm md (Some (show_host (foldl set_host l (sysctls s)))) kstate0 = Ret (Some s') ∧
    sysctls s' = [] ∧ kept (tuner s') = [].
Proof.
  intros Hl. destruct (tuning_todo spd perm md l Hl) as (s & E & Hs & _). exists s. split; [done|].
  destruct (todo_settled md _ false l (tables_ok spd) Hl) as (Hl' & _ & Hno). rewrite Hs.
  destruct (tuning_todo spd perm md _ Hl') as (s' & E' & Hs' & Hk). exists s'. by rewrite Hs', Hno.
Qed.

(** Every sysctl command the program runs names a setting of the host and
    raises it: a single number to a greater one, a triple to one with a greater
    maximum.  No setting is ever lowered. *)
Theorem tuning_never_lowers spd perm md l :
  host_ok (aTuningNumsToUse spd).1 l →
  ∃ s, fDoSystemTuning spd "y" perm md (Some (show_host l)) kstate0 = Ret (Some s) ∧
  ∀ n k, Sysctl n k ∈ sysctls s → ∃ v, (n, v) ∈ l ∧ raises v k.
Proof.
  intros Hl. destruct (tuning_todo spd perm md l Hl) as (s & E & Hs & _). exists s. split; [done|].
  intros n k. rewrite Hs. apply todo_raises; [apply tables_ok|done].
Qed.
Definition host_pairs : list (string * string) :=
  [("net.core.rmem_max", dec 212992); ("net.ipv4.tcp_congestion_control", "cubic");
   ("net.ipv4.tcp_wmem", three_text 4096 16384 4194304)].
Lemma host_pairs_ok : host_ok (aTuningNumsToUse 10000).1 host_pairs.
Proof.
  split; [by apply (bool_decide_unpack _)|].
  constructor; [|constructor; [|constructor; [|constructor]]]; (split; [done|split; [done|]]); intros h Hh; vm_compute in Hh; simplify_eq.
  - by constructor.
  - by eapply shape_word.
  - by constructor.
Qed.
Lemma tuning_settles_in_one_pass_witness :
  ∃ s, fDoSystemTuning 10000 "y" "n" None (Some (show_host host_pairs)) kstate0 = Ret (Some s) ∧
  ∃ s', fDoSystemTuning 10000 "y" "n" None (Some (show_host (foldl set_host host_pairs (sysctls s)))) kstate0 = Ret (Some s') ∧
    sysctls s' = [] ∧ kept (tuner s') = [].
Proof. apply (tuning_settles_in_one_pass 10000). exact host_pairs_ok. Defined.
Lemma tuning_never_lowers_witness :
  ∃ s, fDoSystemTuning 10000 "y" "n" None (Some (show_host host_pairs)) kstate0 = Ret (Some s) ∧
  ∀ n k, Sysctl n k ∈ sysctls s → ∃ v, (n, v) ∈ host_pairs ∧ raises v k.
Proof. apply (tuning_never_lowers 10000). exact host_pairs_ok. Defined.

(** With gMakeTuningPermanent the lines added to /etc/sysctl.conf are either
    none or one block: the start mark, the command lines run, in order, and the
    end mark. *)
Theorem sysctl_conf_block_delimited spd md file s :
  fDoSystemTuning spd "y" "y" md file kstate0 = Ret (Some s) →
  (sysctls s = [] ∧ conf_lines s = []) ∨ conf_lines s = StartMark :: (to_conf <$> sysctls s) ++ [EndMark].
Proof.
  unfold fDoSystemTuning, system_tuning. destruct (aTuningNumsToUse spd) as [tbl script]. destruct file as [ls|]; [|done].
  intros E. inv_bind E as s1 E1. apply (each_line_inv _ conf_inv) in E1.
  - apply (conf_run RmConfig) in E1 as [_ H]; [|done..]. case_match; simplify_eq; [right|left].
    + unfold conf_lines, sysctls, run in *. cbn in *. rewrite !List.filter_app in *. cbn in *. rewrite !app_nil_r in *. by rewrite H.
    + unfold conf_lines, sysctls, run in *. cbn in *. tauto.
  - intros m a a' stop Ha. apply (setting_line_inv conf_inv); [|done]. intros h n v s0 s0' HI Ev. by apply (conf_value (mkKenv tbl "y" "y" md) h n v s0).
  - done.
Qed.
Lemma sysctl_conf_block_delimited_witness :
  ∃ s, fDoSystemTuning 100000 "y" "y" (Some None) (Some host_ex) kstate0 = Ret (Some s) ∧
  ((sysctls s = [] ∧ conf_lines s = []) ∨ conf_lines s = StartMark :: (to_conf <$> sysctls s) ++ [EndMark]).
Proof. eexists. split; [|eapply (sysctl_conf_block_delimited 100000 (Some None) (Some host_ex))]; vm_compute; reflexivity. Defined.

(** When the minimum of tcp_rmem or tcp_wmem is above the recommended 4096,
    the maximum is not looked at: however small it is, nothing is run or kept. *)
Theorem larger_minimum_hides_small_maximum spd flag perm md n a b c s :
  n = "net.ipv4.tcp_rmem" ∨ n = "net.ipv4.tcp_wmem" → is_nat31 a → is_nat31 b → is_nat31 c → 4096 < a →
  ∃ s', setting_line (tune_value (mkKenv (aTuningNumsToUse spd).1 flag perm md)) (aTuningNumsToUse spd).1
      (getline_buf EmptyString (n +:+ (" = " +:+ (three_text a b c +:+ nl)))) s = Ret (s', false) ∧ tuner s' = tuner s.
Proof.
  intros Hn Ha Hb Hc Hlt.
  assert (∃ h, find_setting n (aTuningNumsToUse spd).1 = Some h ∧ minimum h = 4096 ∧ xDefault h <> -1) as (h & Hh & Hm & Hd).
  { unfold aTuningNumsToUse. repeat case_match; destruct Hn as [-> | ->]; eexists; (split; [vm_compute; reflexivity|done]). }
  rewrite setting_line_text.
  - rewrite Hh. assert (value_shape h (three_text a b c)) as Hs by by constructor.
    rewrite tune_value_digit by by apply three_is_digit. unfold tune_number.
    rewrite three_atoi, nat31_u32, Hm, (proj2 (Z.leb_gt _ _) Hlt), (proj2 (Z.eqb_neq _ _) Hd), parse_three_text by done.
    eexists. split; [done|]. unfold note_wmem. by case_match.
  - destruct Hn as [-> | ->]; done.
  - destruct Hn as [-> | ->]; done.
  - by apply (shape_plain h); constructor.
  - by apply (shape_plain h); constructor.
Qed.
Lemma larger_minimum_hides_small_maximum_witness :
  ∃ s', setting_line (tune_value (mkKenv (aTuningNumsToUse 40000).1 "y" "n" None)) (aTuningNumsToUse 40000).1
      (getline_buf EmptyString ("net.ipv4.tcp_wmem" +:+ (" = " +:+ (three_text 8192 16384 65536 +:+ nl)))) kstate0 = Ret (s', false) ∧
    tuner s' = tuner kstate0.
Proof. apply (larger_minimum_hides_small_maximum 40000); [right; reflexivity|unfold is_nat31; lia..|lia]. Defined.

Example host_run : fDoSystemTuning 100000 "y" "y" (Some None) (Some host_ex) kstate0 =
  Ret (Some (mkKState (mkTuner [GetConfig "sh ./gdv_100.sh"; Sysctl "net.core.rmem_max" (One "1147483647"); StartMark;
    Persist "net.core.rmem_max" (One "1147483647"); Modprobe; RmModprobe; Sysctl "net.ipv4.tcp_congestion_control" (One "htcp");
    Persist "net.ipv4.tcp_congestion_control" (One "htcp"); Sysctl "net.ipv4.tcp_wmem" (Three "4096" "65536" "1147483647");
    Persist "net.ipv4.tcp_wmem" (Three "4096" "65536" "1147483647"); RmConfig; EndMark] []) false 1147483647 false)).
Proof. vm_compute. done. Qed.
