(* ===== verification/NicTuning.v ===== *)
(** * The firmware and the interface

    The BIOS and NIC checks of user_assess.c: each runs a command that writes
    what it finds to a file under /tmp, reads that file, and runs or keeps a
    command when the value is not the recommended one.  What the commands write
    is an argument; the commands are texts, marked [Look] (only reports), [Tune]
    (changes the host) or [Clean] (removes the file). *)
From Stdlib Require Import ZArith Lia Ascii String.
From stdpp Require Import base strings numbers option list.
From S2P Require Import Prelude CString Lines Tuner.
Open Scope Z_scope.

Inductive ncmd :=
| Look (text : string)
| Tune (text : string)
| Clean (text : string).
Definition ncmd_text (c : ncmd) : string := match c with Look s => s | Tune s => s | Clean s => s end.
Definition rm_nic : ncmd := Clean "rm -f /tmp/NIC.cfgfile".
Definition rm_bios : ncmd := Clean "rm -f /tmp/BIOS.cfgfile".

(** A file under /tmp: its lines, and whether [fopen] succeeds. *)
Record cmd_out := mkOut { out_lines : list string; out_open : bool }.
Definition is_empty (o : cmd_out) : bool := match out_lines o with [] => true | _ => false end.
Definition opened (o : cmd_out) : option (list string) := if out_open o then Some (out_lines o) else None.
Definition str_has (s pat : string) : bool := match strstr s pat with Some _ => true | None => false end.
(** The text behind the first [pat] in the line of a buffer. *)
Definition behind (pat m : string) : option string :=
  match strstr (cstr m) pat with
  | Some r => Some (drop_str (String.length (cstr m) - String.length r + String.length pat) m)
  | None => None
  end.

(** ** BIOS *)
Definition cpu_cat := "cat /sys/devices/system/cpu/cpu*/cpufreq/scaling_governor > /tmp/BIOS.cfgfile 2>/dev/null".
Definition cpu_power := "sudo cpupower frequency-info | grep " +:+ dq +:+ "The governor" +:+ dq +:+ " > /tmp/BIOS.cfgfile".
(** The first loop: the word behind "The governor" and the lines after it. *)
Fixpoint find_governor (b : string) (ls : list string) : res (option (string * list string)) :=
  match ls with
  | [] => Ret None
  | l :: ls' =>
      let b := getline_buf b l in
      match behind "The governor" b with
      | Some g => w ← word_at g; _ ← fits 256 w; Ret (Some (w, ls'))
      | None => find_governor b ls'
      end
  end.
(** The second loop: the last line stays in [aBiosValue]. *)
Fixpoint last_line (v : string) (ls : list string) : res string :=
  match ls with
  | [] => Ret v
  | l :: ls' => _ ← fits_nul 256 (cstr l); last_line (chomp (cstr l)) ls'
  end.
Definition set_governor (flag : ascii) (other_way : bool) (v : string) (ls : list string) (t : Tuner ncmd) : res (Tuner ncmd) :=
  v ← last_line v ls;
  t ← (if String.eqb v "performance" then Ret t
       else apply_or_keep flag
         (Tune (if other_way then "sudo cpupower frequency-set -g performance"
                else "sh -c 'echo performance | tee /sys/devices/system/cpu/cpu*/cpufreq/scaling_governor'")) t);
  Ret (exec rm_bios t).
Definition fDoCpuPerformance (flag : ascii) (cat power : cmd_out) (t : Tuner ncmd) : res (Tuner ncmd) :=
  let t := exec (Look cpu_cat) t in
  if is_empty cat then
    let t := exec (Look cpu_power) t in
    match opened power with
    | None => Ub                            (* getline on a null FILE pointer *)
    | Some ls =>
        r ← find_governor EmptyString ls;
        match r with
        | Some (w, rest) => set_governor flag true w rest t
        | None => set_governor flag false EmptyString ls t
        end
    end
  else match opened cat with None => Ret t | Some ls => set_governor flag false EmptyString ls t end.

(** The word behind "Active:", [aBiosValue] of 256 bytes with its NUL. *)
Fixpoint find_active (b : string) (ls : list string) : res (option string) :=
  match ls with
  | [] => Ret None
  | l :: ls' =>
      let b := getline_buf b l in
      match behind "Active:" b with
      | Some y => w ← word_at y; _ ← fits_nul 256 w; Ret (Some w)
      | None => find_active b ls'
      end
  end.
Definition fDoIrqBalance (flag : ascii) (out : cmd_out) (t : Tuner ncmd) : res (Tuner ncmd) :=
  let t := exec (Look "systemctl status irqbalance > /tmp/BIOS.cfgfile 2>/dev/null") t in
  if is_empty out then Ret (exec rm_bios t)
  else match opened out with
       | None => Ret t
       | Some ls =>
           r ← find_active EmptyString ls;
           t ← match r with
               | Some w => if String.eqb w "inactive" then Ret t
                           else apply_or_keep flag (Tune "systemctl stop irqbalance") t
               | None => Ret t
               end;
           Ret (exec rm_bios t)
       end.
Definition fDoBiosTuning (flag : ascii) (cat power irq : cmd_out) (t : Tuner ncmd) : res (Tuner ncmd) :=
  t ← fDoCpuPerformance flag cat power t; fDoIrqBalance flag irq t.

(** ** What the interface and the machine are *)
(** The number on the first line, [None] when there is no line. *)
Definition first_number (ls : list string) : res (option Z) :=
  match ls with
  | [] => Ret None
  | l :: _ => s ← copy_chomp 256 (getline_buf EmptyString l); Ret (Some (atoi s))
  end.
(** The new [netDeviceSpeed]. *)
Definition fDoGetDeviceCap (netDevice : string) (out : option (list string)) (netDeviceSpeed : Z) : res (list ncmd * Z) :=
  let look := Look ("cat /sys/class/net/" +:+ netDevice +:+ "/speed > /tmp/NIC.cfgfile") in
  match out with
  | None => Ret ([look], netDeviceSpeed)
  | Some ls =>
      n ← first_number ls;
      Ret ([look; rm_nic], match n with Some v => if v =? 0 then netDeviceSpeed else v | None => netDeviceSpeed end)
  end.
Definition fDoGetNuma (netDevice : string) (out : option (list string)) : res (list ncmd * Z) :=
  let look := Look ("cat /sys/class/net/" +:+ netDevice +:+ "/device/numa_node > /tmp/NIC.cfgfile 2>/dev/null") in
  match out with
  | None => Ret ([look], -1)
  | Some ls =>
      n ← first_number ls;
      Ret ([look; rm_nic], match n with Some v => if v =? -1 then 0 else v | None => -1 end)
  end.
Definition fDoGetNproc (out : option (list string)) : list ncmd * Z :=
  let look := Look "nproc > /tmp/NIC.cfgfile 2>/dev/null" in
  match out with
  | None => ([look], 0)
  | Some ls => ([look; rm_nic], match ls with l :: _ => atoi (cstr l) | [] => 0 end)
  end.
Fixpoint node_line (pat : string) (ls : list string) : option string :=
  match ls with
  | [] => None
  | l :: ls' => if str_has (cstr l) pat then Some (cstr l) else node_line pat ls'
  end.
(** [strcpy(numaString, line)] into the 512 bytes of [numaNodeString]. *)
Definition fDoGetNumaNodeString (numaNode : Z) (out : option (list string)) (numaString : string) : res (list ncmd * string) :=
  let look := Look "numactl --hardware > /tmp/NIC.cfgfile 2>/dev/null" in
  match out with
  | None => Ret ([look], numaString)
  | Some ls =>
      match node_line ("node " +:+ decs numaNode +:+ " cpus") ls with
      | Some l => _ ← fits_nul 512 l; Ret ([look; rm_nic], l)
      | None => Ret ([look; rm_nic], numaString)
      end
  end.

(** ** The interface's settings *)
Section Nic.
Context (netDevice : string) (flag : ascii).   (* flag: gApplyNicTuning *)
Implicit Types (t : Tuner ncmd) (out : cmd_out).

(** A check that compares the number on the first line. *)
Definition number_check (look : string) (want : Z → option string) (out : option (list string)) t : res (Tuner ncmd) :=
  let t := exec (Look look) t in
  match out with
  | None => Ret t
  | Some ls =>
      n ← first_number ls;
      t ← match n with
          | Some v => if v =? 0 then Ret t
                      else match want v with Some c => apply_or_keep flag (Tune c) t | None => Ret t end
          | None => Ret t
          end;
      Ret (exec rm_nic t)
  end.
Definition rec_mtu := 9200.
Definition fDoMTU : option (list string) → Tuner ncmd → res (Tuner ncmd) :=
  number_check ("cat /sys/class/net/" +:+ netDevice +:+ "/mtu  > /tmp/NIC.cfgfile")
    (λ cfg_val, if cfg_val <? rec_mtu then Some ("sudo ip link set dev " +:+ netDevice +:+ " mtu " +:+ decs rec_mtu) else None).
Definition rec_txqueuelen_Greater10G := 20000.
Definition rec_txqueuelen := 1000.
Definition fDoTxQueueLen (netDeviceSpeed : Z) : option (list string) → Tuner ncmd → res (Tuner ncmd) :=
  number_check ("cat /sys/class/net/" +:+ netDevice +:+ "/tx_queue_len > /tmp/NIC.cfgfile")
    (λ cfg_val,
       let r := if netDeviceSpeed <=? 10000 then rec_txqueuelen else rec_txqueuelen_Greater10G in
       if cfg_val <? r then Some ("ifconfig " +:+ netDevice +:+ " txqueuelen " +:+ decs r) else None).
(** *** Ring buffers *)
Record RingBufs := mkRingBufs {
  sRXMAXValue : option string;               (* [None]: not written yet *)
  sRXCURRValue : option string;
  sTXMAXValue : option string;
  sTXCURRValue : option string;
  rxcount : Z;
  txcount : Z
}.
#[export] Instance RingBufs_eta : Settable RingBufs := λ r,
  mkRingBufs (sRXMAXValue r) (sRXCURRValue r) (sTXMAXValue r) (sTXCURRValue r) (rxcount r) (txcount r).
Definition ring_number (m : string) : res (option string) :=
  d ← digits_at m; _ ← fits_nul 256 d; Ret (Some d).
(** One line; the second "TX:" is the last thing needed. *)
Definition ring_line (m : string) (r : RingBufs) : res (RingBufs * bool) :=
  if str_has (cstr m) "RX:" then
    d ← ring_number m;
    Ret ((if rxcount r =? 0 then r <| sRXMAXValue := d |> else r <| sRXCURRValue := d |>) <| rxcount := rxcount r + 1 |>, false)
  else if str_has (cstr m) "TX:" then
    d ← ring_number m;
    if txcount r =? 0 then Ret (r <| sTXMAXValue := d |> <| txcount := 1 |>, false)
    else Ret (r <| sTXCURRValue := d |> <| txcount := txcount r + 1 |>, true)
  else Ret (r, false).
(** The size to set: only from 100 Gb/s on. *)
Definition ring_size (netDeviceSpeed cfg_cur_val cfg_max_val : Z) : option Z :=
  if cfg_cur_val <? cfg_max_val then
    if netDeviceSpeed <? 100000 then None
    else
      let m := if (8192 <? cfg_max_val) && (cfg_cur_val <? 8192) then 8192 else cfg_max_val in
      let m := if (8192 <? m) && (8192 <? cfg_cur_val) then cfg_cur_val else m in
      Some m
  else None.
Definition ring_cmd (dir : string) (n : Z) : ncmd := Tune ("ethtool -G " +:+ netDevice +:+ " " +:+ dir +:+ " " +:+ decs n).
Definition ring_apply (netDeviceSpeed : Z) (dir : string) (cur max : Z) t : res (Tuner ncmd) :=
  match ring_size netDeviceSpeed cur max with
  | Some n => apply_or_keep flag (ring_cmd dir n) t
  | None => Ret t
  end.
(** [netDevice_rx_ring_buff_cfg_max_val] and [netDevice_tx_ring_buff_cfg_max_val] are the new pair of maxima. *)
Definition fDoRingBufferSize (netDeviceSpeed : Z) out (maxima : Z * Z) t : res (Tuner ncmd * (Z * Z)) :=
  let t := exec (Look ("ethtool --show-ring " +:+ netDevice +:+ " > /tmp/NIC.cfgfile 2>/dev/null")) t in
  if is_empty out then Ret (exec rm_nic t, maxima)
  else match opened out with
       | None => Ret (t, maxima)
       | Some ls =>
           r ← each_line ring_line EmptyString ls (mkRingBufs None None None None 0 0);
           if txcount r <? 2 then Ret (exec rm_nic t, maxima)
           else
             rmax ← of_opt (sRXMAXValue r); rcur ← of_opt (sRXCURRValue r);
             tmax ← of_opt (sTXMAXValue r); tcur ← of_opt (sTXCURRValue r);
             t ← ring_apply netDeviceSpeed "rx" (atoi rcur) (atoi rmax) t;
             t ← ring_apply netDeviceSpeed "tx" (atoi tcur) (atoi tmax) t;
             Ret (exec rm_nic t, (atoi rmax, atoi tmax))
       end.

(** *** Offload, queueing discipline, flow control *)
Definition fDoLRO (show fixed again : cmd_out) t : res (Tuner ncmd) :=
  let cmd := "ethtool --show-features " +:+ netDevice +:+ " | grep large-receive-offload" in
  let t := exec (Look (cmd +:+ " > /tmp/NIC.cfgfile")) t in
  if is_empty show then Ub                     (* fclose of a null FILE pointer *)
  else
    let t := exec (Look (cmd +:+ " | grep fixed > /tmp/NIC.cfgfile")) t in
    let '(t, o) := if is_empty fixed then (exec (Look (cmd +:+ " > /tmp/NIC.cfgfile")) t, again) else (t, fixed) in
    match opened o with
    | None => Ret t
    | Some ls =>
        t ← match ls with
            | [] => Ret t
            | l :: _ =>
                let q := drop_str 21 (getline_buf EmptyString l) in
                _ ← fits_nul 256 (cstr q);
                w ← word_at q; _ ← fits_nul 256 w;
                if String.eqb "on" w || negb (is_empty fixed) then Ret t
                else apply_or_keep flag (Tune ("ethtool -K " +:+ netDevice +:+ " lro on")) t
            end;
        Ret (exec rm_nic t)
    end.
Definition isgraph (c : ascii) : bool := (33 <=? code c) && (code c <=? 126).
Fixpoint find_qdisc (b : string) (ls : list string) : res (option string) :=
  match ls with
  | [] => Ret None
  | l :: ls' =>
      let b := getline_buf b l in
      s ← copy_chomp 512 b;
      match strstr s "qdisc" with
      | Some y => Ret (Some (span isgraph (span isblank (drop_str 5 y)).2).1)
      | None => find_qdisc b ls'
      end
  end.
Definition fDoTcQdiscFq (root plain : cmd_out) t : res (Tuner ncmd) :=
  let t := exec (Look ("tc qdisc show dev " +:+ netDevice +:+ " root > /tmp/NIC.cfgfile 2>/dev/null")) t in
  let '(t, o) := if is_empty root
                 then (exec (Look ("tc qdisc show dev " +:+ netDevice +:+ "  > /tmp/NIC.cfgfile")) t, plain) else (t, root) in
  match opened o with
  | None => Ret t
  | Some ls =>
      q ← find_qdisc EmptyString ls;
      t ← match q with
          | Some q => if String.eqb "fq" q then Ret t
                      else apply_or_keep flag (Tune ("tc qdisc del dev " +:+ netDevice +:+ " root " +:+ q +:+
                             " 2>/dev/null; tc qdisc add dev " +:+ netDevice +:+ " root fq")) t
          | None => Ret t
          end;
      Ret (exec rm_nic t)
  end.
Definition flow_line (m : string) (p : option string * option string) : res (option string * option string * bool) :=
  match behind "RX:" m with
  | Some y => w ← word_at y; _ ← fits_nul 256 w; Ret ((Some w, p.2), false)
  | None =>
      match behind "TX:" m with
      | Some y => w ← word_at y; _ ← fits_nul 256 w; Ret ((p.1, Some w), false)
      | None => Ret (p, false)
      end
  end.
Definition flow_apply (dir cur : string) t : res (Tuner ncmd) :=
  if String.eqb "on" cur then Ret t
  else apply_or_keep flag (Tune ("ethtool -A " +:+ netDevice +:+ " " +:+ dir +:+ " on")) t.
Definition fDoFlowControl out t : res (Tuner ncmd) :=
  let t := exec (Look ("ethtool -a " +:+ netDevice +:+ " > /tmp/NIC.cfgfile 2>/dev/null")) t in
  if is_empty out then Ret (exec rm_nic t)
  else match opened out with
       | None => Ret t
       | Some ls =>
           p ← each_line flow_line EmptyString ls (None, None);
           rx ← of_opt p.1; t ← flow_apply "rx" rx t;
           tx ← of_opt p.2; t ← flow_apply "tx" tx t;
           Ret (exec rm_nic t)
       end.
Definition fDoIrqAffinity t : res (Tuner ncmd) :=
  apply_or_keep flag (Tune ("./set_irq_affinity.sh " +:+ netDevice)) t.

(** *** Channels *)
Record Channels := mkChannels {
  netDevice_rx_channel_cfg_max_val : Z;
  netDevice_tx_channel_cfg_max_val : Z;
  netDevice_combined_channel_cfg_max_val : Z;
  netDevice_rx_channel_cfg_curr_val : Z;
  netDevice_tx_channel_cfg_curr_val : Z;
  netDevice_combined_channel_cfg_curr_val : Z;
  netDevice_only_combined_channel_cfg : Z
}.
(** The arrays are zeroed first; digits are written without a NUL, over what is there. *)
Record ChanBufs := mkChanBufs {
  rx_max_s : string; rx_curr_s : string; tx_max_s : string; tx_curr_s : string;
  combined_max_s : string; combined_curr_s : string;
  rx_n : Z; tx_n : Z; combined_n : Z;
  chans : Channels
}.
#[export] Instance ChanBufs_eta : Settable ChanBufs := λ b,
  mkChanBufs (rx_max_s b) (rx_curr_s b) (tx_max_s b) (tx_curr_s b) (combined_max_s b) (combined_curr_s b)
    (rx_n b) (tx_n b) (combined_n b) (chans b).
Definition chan_number (m old : string) : res string :=
  d ← digits_at m; _ ← fits 256 d; Ret (d +:+ drop_str (String.length d) old).
Definition atoi256 (s : string) : res Z := _ ← fits_nul 256 s; Ret (atoi s).
(** The second "Combined:" line: what was read becomes the globals. *)
Definition set_channels (b : ChanBufs) : res Channels :=
  let c := chans b in
  cmax ← atoi256 (combined_max_s b); ccur ← atoi256 (combined_curr_s b);
  match tx_curr_s b with
  | EmptyString =>
      Ret (mkChannels (netDevice_rx_channel_cfg_max_val c) (netDevice_tx_channel_cfg_max_val c) cmax
             (netDevice_rx_channel_cfg_curr_val c) (netDevice_tx_channel_cfg_curr_val c) ccur 1)
  | _ =>
      rmax ← atoi256 (rx_max_s b); rcur ← atoi256 (rx_curr_s b);
      tmax ← atoi256 (tx_max_s b); tcur ← atoi256 (tx_curr_s b);
      Ret (mkChannels rmax tmax cmax rcur tcur ccur (netDevice_only_combined_channel_cfg c))
  end.
Definition channels_line (m : string) (b : ChanBufs) : res (ChanBufs * bool) :=
  let l := cstr m in
  let na := str_has l "n/a" in
  if str_has l "RX:" then
    if na then Ret (b, false)
    else if rx_n b =? 0 then d ← chan_number m (rx_max_s b); Ret (b <| rx_max_s := d |> <| rx_n := 1 |>, false)
    else d ← chan_number m (rx_curr_s b); Ret (b <| rx_curr_s := d |> <| rx_n := rx_n b + 1 |>, false)
  else if str_has l "TX:" then
    if na then Ret (b, false)
    else if tx_n b =? 0 then d ← chan_number m (tx_max_s b); Ret (b <| tx_max_s := d |> <| tx_n := 1 |>, false)
    else d ← chan_number m (tx_curr_s b); Ret (b <| tx_curr_s := d |> <| tx_n := tx_n b + 1 |>, false)
  else if str_has l "Combined:" then
    if na then Ret (b, false)
    else if combined_n b =? 0 then
      d ← chan_number m (combined_max_s b); Ret (b <| combined_max_s := d |> <| combined_n := 1 |>, false)
    else
      d ← chan_number m (combined_curr_s b);
      let b := b <| combined_curr_s := d |> <| combined_n := combined_n b + 1 |> in
      c ← set_channels b; Ret (b <| chans := c |>, true)
  else Ret (b, false).
Definition fDoShowChannels out (c : Channels) t : res (Tuner ncmd * Channels) :=
  let t := exec (Look ("ethtool -l " +:+ netDevice +:+ " > /tmp/NIC.cfgfile 2>/dev/null")) t in
  if is_empty out then Ret (exec rm_nic t, c)
  else match opened out with
       | None => Ret (t, c)
       | Some ls =>
           b ← each_line channels_line EmptyString ls (mkChanBufs "" "" "" "" "" "" 0 0 0 c);
           Ret (exec rm_nic t, chans b)
       end.

(** The checks that are compiled in. *)
Definition fDoNicTuning (netDeviceSpeed : Z) (ring : cmd_out) (mtu : option (list string)) (channels : cmd_out)
    (g : (Z * Z) * Channels) t : res (Tuner ncmd * ((Z * Z) * Channels)) :=
  '(t, maxima) ← fDoRingBufferSize netDeviceSpeed ring g.1 t;
  t ← fDoMTU mtu t;
  '(t, c) ← fDoShowChannels channels g.2 t;
  Ret (t, (maxima, c)).
End Nic.

Definition ring_text (rm tm rc tc : Z) : list string := [
  "Ring parameters for eth0:" +:+ nl; "Pre-set maximums:" +:+ nl; "RX:" +:+ tab +:+ dec rm +:+ nl; "RX Mini:" +:+ tab +:+ "n/a" +:+ nl;
  "TX:" +:+ tab +:+ dec tm +:+ nl; "Current hardware settings:" +:+ nl; "RX:" +:+ tab +:+ dec rc +:+ nl;
  "RX Mini:" +:+ tab +:+ "n/a" +:+ nl; "TX:" +:+ tab +:+ dec tc +:+ nl].
Example ring_ex : fDoRingBufferSize "eth0" "y" 100000 (mkOut (ring_text 16384 16384 1024 8192) true) (0, 0) tuner0 =
  Ret (mkTuner [Look "ethtool --show-ring eth0 > /tmp/NIC.cfgfile 2>/dev/null"; Tune "ethtool -G eth0 rx 8192";
    Tune "ethtool -G eth0 tx 16384"; rm_nic] [], (16384, 16384)).
Proof. vm_compute. done. Qed.
Example chan_ex : fDoShowChannels "eth0" (mkOut ["RX:" +:+ tab +:+ "n/a" +:+ nl; "TX: n/a" +:+ nl; "Combined: 63" +:+ nl; "RX: n/a" +:+ nl;
   "TX: n/a" +:+ nl; "Combined: 16" +:+ nl] true) (mkChannels 0 0 0 0 0 0 0) tuner0 =
  Ret (mkTuner [Look "ethtool -l eth0 > /tmp/NIC.cfgfile 2>/dev/null"; rm_nic] [], mkChannels 0 0 63 0 0 16 1).
Proof. vm_compute. done. Qed.
Example gov_ex : fDoCpuPerformance "n" (mkOut [] true) (mkOut ["  The governor " +:+ dq +:+ "powersave" +:+ dq +:+ " may decide" +:+ nl] true) tuner0 =
  Ret (mkTuner [Look cpu_cat; Look cpu_power; rm_bios] [Tune "sudo cpupower frequency-set -g performance"]).
Proof. vm_compute. done. Qed.

(** ** The menu's commands against the commands run *)
Definition is_tune (c : ncmd) : bool := match c with Tune _ => true | _ => false end.
Definition tunes (t : Tuner ncmd) : list ncmd := List.filter is_tune (executed t).
Definition looks (t : Tuner ncmd) : list ncmd := List.filter (λ c, negb (is_tune c)) (executed t).
(** [menu]: a run that only keeps; [appl]: the same run with the flag set. *)
Record mirror (menu appl : Tuner ncmd) : Prop := {
  mirror_none : tunes menu = [];
  mirror_same : tunes appl = kept menu;
  mirror_looks : looks menu = looks appl;
  mirror_kept : kept appl = []
}.
Lemma mirror_exec c t1 t2 : is_tune c = false → mirror t1 t2 → mirror (exec c t1) (exec c t2).
Proof.
  intros Hc [H1 H2 H3 H4]. split; unfold tunes, looks, exec in *; cbn; rewrite ?List.filter_app, ?H1, ?H2, ?H3; cbn;
    rewrite ?Hc, ?app_nil_r; done.
Qed.
Lemma mirror_apply s t1 t2 t1' :
  mirror t1 t2 → apply_or_keep "n" (Tune s) t1 = Ret t1' →
  ∃ t2', apply_or_keep "y" (Tune s) t2 = Ret t2' ∧ mirror t1' t2'.
Proof.
  intros [H1 H2 H3 H4] [-> _]%keep_Ret. eexists. split; [done|].
  split; unfold tunes, looks, exec in *; cbn; rewrite ?List.filter_app, ?H2, ?H3; cbn; rewrite ?app_nil_r; done.
Qed.
(** A computation that takes the flag and carries the commands along. *)
Definition mirrored {X} (f : ascii → Tuner ncmd → res (Tuner ncmd * X)) : Prop :=
  ∀ t1 t2 t1' x, mirror t1 t2 → f "n"%char t1 = Ret (t1', x) → ∃ t2', f "y"%char t2 = Ret (t2', x) ∧ mirror t1' t2'.
Definition mirrored1 (f : ascii → Tuner ncmd → res (Tuner ncmd)) : Prop :=
  ∀ t1 t2 t1', mirror t1 t2 → f "n"%char t1 = Ret t1' → ∃ t2', f "y"%char t2 = Ret t2' ∧ mirror t1' t2'.
Create HintDb mirror discriminated.
#[export] Hint Resolve mirror_exec : mirror.
(** Steps through both runs: what does not depend on the commands is the same. *)
Ltac mirror_go :=
  repeat match goal with
  | H : ?r = Ret _ |- context [?r] => rewrite H; cbn [mbind res_bind]
  | H : Ret _ = Ret _ |- _ => injection H as H; subst
  | H : Ub = Ret _ |- _ => discriminate H
  | H : apply_or_keep "n" (Tune ?s) ?t1 = Ret ?t1', HR : mirror ?t1 ?t2 |- context [apply_or_keep "y" (Tune ?s) ?t2] =>
      let t2' := fresh "t2'" in let E := fresh "E" in let HR' := fresh "HR" in
      destruct (mirror_apply s t1 t2 t1' HR H) as (t2' & E & HR'); clear H; rewrite E; cbn [mbind res_bind]
  | H : (_ ≫= _) = Ret _ |- _ => let x := fresh "x" in let Hx := fresh "Hx" in inv_bind H as x Hx
  | H : match ?x with _ => _ end = Ret _ |- _ => let E := fresh "E" in destruct x eqn:E; cbn [mbind res_bind] in *
  end;
  try (eexists; split; [reflexivity|auto with mirror]).

(** The first command of a check. *)
Ltac mirror_start HR c :=
  apply (mirror_exec c) in HR; [|done];
  match type of HR with mirror (exec _ ?t1) (exec _ ?t2) =>
    generalize dependent (exec c t1); generalize dependent (exec c t2) end;
  let u2 := fresh "u" in let u1 := fresh "u" in intros u2 u1 HR E.
Lemma number_check_mirrored look want out : mirrored1 (λ f t, number_check f look want out t).
Proof.
  intros t1 t2 t1' HR E. unfold number_check in *.
  mirror_start HR (Look look). mirror_go.
Qed.
Lemma ring_apply_mirrored dev spd dir cur max : mirrored1 (λ f t, ring_apply dev f spd dir cur max t).
Proof. intros t1 t2 t1' HR E. unfold ring_apply, ring_cmd in *. mirror_go. Qed.
Lemma ring_mirrored dev spd out m : mirrored (λ f t, fDoRingBufferSize dev f spd out m t).
Proof.
  intros t1 t2 t1' x HR E. unfold fDoRingBufferSize in *.
  mirror_start HR (Look ("ethtool --show-ring " +:+ dev +:+ " > /tmp/NIC.cfgfile 2>/dev/null")).
  destruct (is_empty out); [mirror_go|]. destruct (opened out) as [ls|]; [|mirror_go].
  inv_bind E as r Er. rewrite Er. cbn [mbind res_bind]. destruct (txcount r <? 2); [mirror_go|].
  inv_bind E as a Ea. inv_bind E as b Eb. inv_bind E as c Ec. inv_bind E as d Ed. rewrite Ea, Eb, Ec, Ed. cbn [mbind res_bind].
  inv_bind E as w1 E1. inv_bind E as w2 E2. simplify_eq.
  destruct (ring_apply_mirrored _ _ _ _ _ _ _ _ HR E1) as (v1 & -> & HR1). cbn [mbind res_bind].
  destruct (ring_apply_mirrored _ _ _ _ _ _ _ _ HR1 E2) as (v2 & -> & HR2). cbn [mbind res_bind].
  eauto with mirror.
Qed.
Lemma governor_mirrored ow v ls : mirrored1 (λ f t, set_governor f ow v ls t).
Proof. intros t1 t2 t1' HR E. unfold set_governor in *. mirror_go. Qed.
Lemma cpu_mirrored cat power : mirrored1 (λ f t, fDoCpuPerformance f cat power t).
Proof.
  intros t1 t2 t1' HR E. unfold fDoCpuPerformance in *. mirror_start HR (Look cpu_cat).
  destruct (is_empty cat).
  - mirror_start HR (Look cpu_power). destruct (opened power); [|done]. inv_bind E as r Er. rewrite Er. cbn [mbind res_bind].
    destruct r as [[w rest]|]; by eapply governor_mirrored.
  - destruct (opened cat); [by eapply governor_mirrored|mirror_go].
Qed.
Lemma irq_mirrored out : mirrored1 (λ f t, fDoIrqBalance f out t).
Proof.
  intros t1 t2 t1' HR E. unfold fDoIrqBalance in *.
  mirror_start HR (Look "systemctl status irqbalance > /tmp/BIOS.cfgfile 2>/dev/null"). mirror_go.
Qed.
Lemma bios_mirrored cat power irq : mirrored1 (λ f t, fDoBiosTuning f cat power irq t).
Proof.
  intros t1 t2 t1' HR E. unfold fDoBiosTuning in *. inv_bind E as t Et.
  destruct (cpu_mirrored _ _ _ _ _ HR Et) as (u & -> & HR'). cbn [mbind res_bind]. by eapply irq_mirrored.
Qed.
Lemma channels_mirrored dev out c : mirrored (λ f t, fDoShowChannels dev out c t).
Proof.
  intros t1 t2 t1' x HR E. unfold fDoShowChannels in *.
  mirror_start HR (Look ("ethtool -l " +:+ dev +:+ " > /tmp/NIC.cfgfile 2>/dev/null")). mirror_go.
Qed.
Lemma nic_mirrored dev spd ring mtu ch g : mirrored (λ f t, fDoNicTuning dev f spd ring mtu ch g t).
Proof.
  intros t1 t2 t1' x HR E. unfold fDoNicTuning in *. inv_bind E as [t m] Et.
  destruct (ring_mirrored _ _ _ _ _ _ _ _ HR Et) as (u & -> & HR1). cbn [mbind res_bind].
  inv_bind E as w Ew. unfold fDoMTU in *. destruct (number_check_mirrored _ _ _ _ _ _ HR1 Ew) as (u' & -> & HR2). cbn [mbind res_bind].
  inv_bind E as [w' c] Ew'. destruct (channels_mirrored _ _ _ _ _ _ _ HR2 Ew') as (u'' & -> & HR3). cbn [mbind res_bind]. simplify_eq. eauto.
Qed.
(** The checks that are not compiled in behave alike. *)
Lemma qdisc_mirrored dev root plain : mirrored1 (λ f t, fDoTcQdiscFq dev f root plain t).
Proof.
  intros t1 t2 t1' HR E. unfold fDoTcQdiscFq in *.
  mirror_start HR (Look ("tc qdisc show dev " +:+ dev +:+ " root > /tmp/NIC.cfgfile 2>/dev/null")).
  destruct (is_empty root).
  - mirror_start HR (Look ("tc qdisc show dev " +:+ dev +:+ "  > /tmp/NIC.cfgfile")). mirror_go.
  - mirror_go.
Qed.
Lemma flow_control_mirrored dev out : mirrored1 (λ f t, fDoFlowControl dev f out t).
Proof.
  intros t1 t2 t1' HR E. unfold fDoFlowControl, flow_apply in *.
  mirror_start HR (Look ("ethtool -a " +:+ dev +:+ " > /tmp/NIC.cfgfile 2>/dev/null")). mirror_go.
Qed.

(** ** Ring sizes *)
Lemma ring_size_bounds spd cur max n :
  ring_size spd cur max = Some n → 100000 ≤ spd ∧ cur ≤ n ≤ max ∧ (cur ≠ 8192 → n ≤ Z.max 8192 cur).
Proof.
  unfold ring_size.
  destruct (Z.ltb_spec cur max), (Z.ltb_spec spd 100000), (Z.ltb_spec 8192 max), (Z.ltb_spec cur 8192); cbn [andb];
    try done; zbool; cbn [andb]; intros [= <-]; lia.
Qed.
Lemma digits_at_text b pre n post c :
  str_forall nondigit pre = true → 0 ≤ n → isdigit c = false →
  digits_at (getline_buf b (pre +:+ (dec n +:+ String c post))) = Ret (dec n).
Proof.
  intros Hp Hn Hc. unfold digits_at. rewrite getline_buf_app. generalize (String NUL (drop_str (S (String.length (pre +:+ dec n +:+ String c post))) b)) as z. intros z.
  pose proof (dec_digits n Hn) as Hd. pose proof (dec_nonempty n).
  rewrite <- str_app_assoc. destruct (dec n) as [|d r] eqn:E; [done|]. rewrite !str_app_cons.
  cbn in Hd. apply andb_true_iff in Hd as [Hd Hr].
  rewrite scan_stop by (done || by apply negb_false_iff). cbn [mbind res_bind].
  rewrite <- (str_app_cons d r). rewrite scan_stop by (done || (cbn; by rewrite Hd, Hr)). done.
Qed.
Definition nat31 (x : Z) : Prop := 0 ≤ x < 2 ^ 31.
Lemma ring_number_text b pre n :
  str_forall nondigit pre = true → nat31 n →
  ring_number (getline_buf b (pre +:+ (dec n +:+ nl))) = Ret (Some (dec n)).
Proof.
  intros Hp Hn. unfold ring_number. unfold nl. rewrite digits_at_text by (done || apply Hn). cbn [mbind res_bind].
  pose proof (dec_len n). by rewrite fits_nul_ok by lia.
Qed.
Lemma number_line_plain pre n :
  str_forall not_nul pre = true → 0 ≤ n → str_forall not_nul (pre +:+ (dec n +:+ nl)) = true.
Proof.
  intros Hp Hn. rewrite !str_forall_app, Hp. cbn [andb]. rewrite andb_true_r.
  eapply str_forall_weaken; [apply isdigit_not_nul|by apply dec_digits].
Qed.
Lemma digits_lack s c t : str_forall isdigit s = true → isdigit c = false → strstr (s +:+ nl) (String c t) = strstr nl (String c t).
Proof.
  intros Hs Hc. apply strstr_skip. eapply str_forall_weaken; [|exact Hs]. intros d Hd. apply negb_true_iff, Ascii.eqb_neq.
  intros ->. congruence.
Qed.
Lemma str_has_prefix pat s : str_has (pat +:+ s) pat = true.
Proof. unfold str_has. by rewrite strstr_prefix. Qed.
Lemma tx_line_no_rx n : 0 ≤ n → str_has ("TX:" +:+ tab +:+ dec n +:+ nl) "RX:" = false.
Proof.
  intros Hn. unfold str_has. change ("TX:" +:+ tab +:+ dec n +:+ nl) with (("TX:" +:+ tab) +:+ (dec n +:+ nl)).
  rewrite strstr_skip by done. rewrite digits_lack by (done || by apply dec_digits). done.
Qed.
Lemma rx_line b n r :
  nat31 n → ring_line (getline_buf b ("RX:" +:+ tab +:+ dec n +:+ nl)) r =
  Ret ((if rxcount r =? 0 then r <| sRXMAXValue := Some (dec n) |> else r <| sRXCURRValue := Some (dec n) |>) <| rxcount := rxcount r + 1 |>, false).
Proof.
  intros Hn. unfold ring_line. change ("RX:" +:+ tab +:+ dec n +:+ nl) with (("RX:" +:+ tab) +:+ (dec n +:+ nl)).
  rewrite cstr_getline by (apply number_line_plain; [done|apply Hn]).
  change (("RX:" +:+ tab) +:+ (dec n +:+ nl)) with ("RX:" +:+ (tab +:+ dec n +:+ nl)) at 1.
  rewrite str_has_prefix, ring_number_text by done. done.
Qed.
Lemma tx_line b n r :
  nat31 n → ring_line (getline_buf b ("TX:" +:+ tab +:+ dec n +:+ nl)) r =
  Ret (if txcount r =? 0 then (r <| sTXMAXValue := Some (dec n) |> <| txcount := 1 |>, false)
       else (r <| sTXCURRValue := Some (dec n) |> <| txcount := txcount r + 1 |>, true)).
Proof.
  intros Hn. unfold ring_line. rewrite cstr_getline by (apply (number_line_plain ("TX:" +:+ tab)); [done|apply Hn]).
  rewrite tx_line_no_rx by apply Hn. rewrite str_has_prefix.
  change ("TX:" +:+ tab +:+ dec n +:+ nl) with (("TX:" +:+ tab) +:+ (dec n +:+ nl)).
  rewrite ring_number_text by done. cbn [mbind res_bind]. by case_match.
Qed.
Lemma other_line b l r :
  str_forall not_nul l = true → str_has l "RX:" = false → str_has l "TX:" = false →
  ring_line (getline_buf b l) r = Ret (r, false).
Proof. intros Hn H1 H2. unfold ring_line. by rewrite cstr_getline, H1, H2. Qed.
Lemma ring_text_read rm tm rc tc :
  nat31 rm → nat31 tm → nat31 rc → nat31 tc →
  each_line ring_line EmptyString (ring_text rm tm rc tc) (mkRingBufs None None None None 0 0) =
  Ret (mkRingBufs (Some (dec rm)) (Some (dec rc)) (Some (dec tm)) (Some (dec tc)) 2 2).
Proof.
  intros H1 H2 H3 H4. unfold ring_text.
  repeat (cbn [each_line]; first [rewrite other_line by reflexivity | rewrite rx_line by done | rewrite tx_line by done];
    cbn [mbind res_bind rxcount txcount Z.eqb set_field]). done.
Qed.

(** The commands for one direction. *)
Definition ring_cmds (dev dir : string) (spd cur max : Z) : list ncmd :=
  match ring_size spd cur max with Some n => [ring_cmd dev dir n] | None => [] end.
Lemma ring_apply_y dev spd dir cur max t :
  ring_apply dev "y" spd dir cur max t = Ret (mkTuner (executed t ++ ring_cmds dev dir spd cur max) (kept t)).
Proof. unfold ring_apply, ring_cmds. destruct (ring_size spd cur max); [done|]. rewrite app_nil_r. by destruct t. Qed.
Lemma ring_run dev spd rm tm rc tc m :
  nat31 rm → nat31 tm → nat31 rc → nat31 tc →
  fDoRingBufferSize dev "y" spd (mkOut (ring_text rm tm rc tc) true) m tuner0 =
  Ret (mkTuner (Look ("ethtool --show-ring " +:+ dev +:+ " > /tmp/NIC.cfgfile 2>/dev/null") ::
         ring_cmds dev "rx" spd rc rm ++ ring_cmds dev "tx" spd tc tm ++ [rm_nic]) [], (rm, tm)).
Proof.
  intros H1 H2 H3 H4. unfold fDoRingBufferSize. change (is_empty (mkOut (ring_text rm tm rc tc) true)) with false. cbn match.
  change (opened (mkOut (ring_text rm tm rc tc) true)) with (Some (ring_text rm tm rc tc)). cbn match.
  rewrite ring_text_read by done. cbn [mbind res_bind txcount Z.ltb Z.compare Pos.compare Pos.compare_cont of_opt sRXMAXValue sRXCURRValue sTXMAXValue sTXCURRValue].
  rewrite !atoi_dec by done. do 2 (rewrite ring_apply_y; cbn [mbind res_bind]). unfold exec. cbn. by rewrite <- ?app_assoc.
Qed.

(** ** Theorems *)
(** The four numbers of "ethtool --show-ring" are read exactly, and the only
    ring commands run are one per direction that is below its maximum, on an
    interface of at least 100 Gb/s; the new size lies between the current size
    and the maximum, and does not pass 8192 unless the current size is 8192 or more. *)
Theorem ring_sizes_bounded dev spd rm tm rc tc m :
  nat31 rm → nat31 tm → nat31 rc → nat31 tc →
  ∃ t, fDoRingBufferSize dev "y" spd (mkOut (ring_text rm tm rc tc) true) m tuner0 = Ret (t, (rm, tm)) ∧
    tunes t = ring_cmds dev "rx" spd rc rm ++ ring_cmds dev "tx" spd tc tm ∧
    ∀ c, c ∈ tunes t → 100000 ≤ spd ∧ ∃ dir cur max n,
      ((dir, cur, max) = ("rx", rc, rm) ∨ (dir, cur, max) = ("tx", tc, tm)) ∧
      c = ring_cmd dev dir n ∧ cur ≤ n ≤ max ∧ (cur ≠ 8192 → n ≤ Z.max 8192 cur).
Proof.
  intros H1 H2 H3 H4. eexists. split; [by apply ring_run|].
  assert (∀ dir cur max c, c ∈ ring_cmds dev dir spd cur max →
    100000 ≤ spd ∧ ∃ n, c = ring_cmd dev dir n ∧ cur ≤ n ≤ max ∧ (cur ≠ 8192 → n ≤ Z.max 8192 cur)) as Hc.
  { intros dir cur max c. unfold ring_cmds. destruct (ring_size spd cur max) as [n|] eqn:E; [|by intros ?%not_elem_of_nil].
    intros ->%list_elem_of_singleton. apply ring_size_bounds in E as (? & ? & ?). eauto. }
  match goal with |- ?A = ?B ∧ _ => assert (A = B) as -> end.
  { unfold tunes. cbn. rewrite !List.filter_app. cbn. rewrite app_nil_r. unfold ring_cmds. by repeat case_match. }
  split; [done|]. intros c [Hin|Hin]%elem_of_app; apply Hc in Hin as (? & n & ? & ?); split; try done; do 3 eexists; exists n; eauto.
Qed.
Lemma ring_sizes_bounded_witness :
  ∃ t, fDoRingBufferSize "eth0" "y" 100000 (mkOut (ring_text 16384 4096 1024 512) true) (0, 0) tuner0 = Ret (t, (16384, 4096)) ∧
    tunes t = [Tune "ethtool -G eth0 rx 8192"; Tune "ethtool -G eth0 tx 4096"].
Proof.
  edestruct (ring_sizes_bounded "eth0" 100000 16384 4096 1024 512 (0, 0)) as (t & E & Ht & _); [unfold nat31; lia..|].
  exists t. split; [exact E|]. rewrite Ht. vm_compute. reflexivity.
Defined.

(** An interface whose ring has exactly 8192 entries and could have more is
    set to its maximum, however large: both comparisons with 8192 are strict. *)
Theorem ring_at_8192_goes_to_maximum dev spd rm tm tc m :
  nat31 rm → nat31 tm → nat31 tc → 100000 ≤ spd → 8192 < rm →
  ∃ t, fDoRingBufferSize dev "y" spd (mkOut (ring_text rm tm 8192 tc) true) m tuner0 = Ret (t, (rm, tm)) ∧
    ring_cmd dev "rx" rm ∈ tunes t.
Proof.
  intros H1 H2 H3 Hs Hr. eexists. split; [apply ring_run; done|]. unfold tunes. cbn. rewrite List.filter_app.
  unfold ring_cmds at 1. unfold ring_size. destruct (Z.ltb_spec 8192 rm), (Z.ltb_spec spd 100000); try lia.
  cbn. rewrite andb_false_r. apply elem_of_cons. by left.
Qed.
Lemma ring_at_8192_goes_to_maximum_witness :
  ∃ t, fDoRingBufferSize "eth0" "y" 100000 (mkOut (ring_text 65536 8192 8192 8192) true) (0, 0) tuner0 = Ret (t, (65536, 8192)) ∧
    ring_cmd "eth0" "rx" 65536 ∈ tunes t.
Proof. apply ring_at_8192_goes_to_maximum; unfold nat31; lia. Defined.
