(* ===== verification/Assess.v ===== *)
(** * The assessment at start-up

    [user_assess] of user_assess.c: what the machine is, the kernel settings,
    the BIOS and the interface, then a file of kept commands for each of the
    three parts, from which the operator's menu can apply them. *)
From Stdlib Require Import ZArith Lia Ascii String.
From stdpp Require Import base strings numbers option list.
From S2P Require Import Prelude CString Lines UserConfig Tuner SysTuning NicTuning Timers.
Open Scope Z_scope.

(** What the commands write, and which files can be opened for writing. *)
Record Answers := mkAnswers {
  a_nproc : option (list string);
  a_numa : option (list string);
  a_numactl : option (list string);
  a_config : option (list string);           (* /tmp/current_config.orig *)
  a_modprobe : option (option string);
  a_governor : cmd_out;
  a_cpupower : cmd_out;
  a_irqbalance : cmd_out;
  a_ring : cmd_out;
  a_mtu : option (list string);
  a_channels : cmd_out;
  w_kernel : bool;
  w_nic : bool;
  w_bios : bool
}.
(** What became of a menu file. *)
Inductive menu :=
| Written (lines : list string)
| Removed                                    (* rm -f *)
| Failed                                     (* fopen failed: the function ends *)
| Untouched.
Record Assess := mkAssess {
  nProc : Z;
  numaNode : Z;
  numaNodeString : string;
  looked : list ncmd;                        (* the first three commands and their files *)
  kernel : KState;
  bios : Tuner ncmd;
  nic : Tuner ncmd;
  ring_maxima : Z * Z;
  channels : Channels;
  current_phase : workflow_phases;
  menus : menu * menu * menu                 (* /tmp/applyKernelDefFile, applyNicDefFile, applyBiosDefFile *)
}.
Definition menu_of {C} (text : C → string) (can_open : bool) (t : Tuner C) : menu :=
  match kept t with
  | [] => Removed
  | _ => if can_open then Written (menu_file text t) else Failed
  end.
(** The three blocks at the end, each left out when an earlier one failed. *)
Definition write_menus (a : Answers) (k : Tuner kcmd) (n b : Tuner ncmd) : menu * menu * menu :=
  let mk := menu_of kcmd_text (w_kernel a) k in
  let mn := menu_of ncmd_text (w_nic a) n in
  let mb := menu_of ncmd_text (w_bios a) b in
  match mk with
  | Failed => (mk, Untouched, Untouched)
  | _ => match mn with Failed => (mk, mn, Untouched) | _ => (mk, mn, mb) end
  end.
(** [None]: [fDoSystemTuning] could not open its file and the program exited.
    The arguments are the globals the configuration and [fDoGetDeviceCap] set. *)
Definition user_assess (g : Cfg) (netDevice : string) (netDeviceSpeed : Z) (a : Answers)
    (maxima : Z * Z) (chans0 : Channels) : res (option Assess) :=
  let '(c1, nproc) := fDoGetNproc (a_nproc a) in
  '(c2, numa) ← fDoGetNuma netDevice (a_numa a);
  '(c3, numastr) ← fDoGetNumaNodeString numa (a_numactl a) EmptyString;
  k ← fDoSystemTuning netDeviceSpeed (gApplyDefSysTuning g) (gMakeTuningPermanent g) (a_modprobe a) (a_config a) kstate0;
  match k with
  | None => Ret None
  | Some k =>
      b ← fDoBiosTuning (gApplyBiosTuning g) (a_governor a) (a_cpupower a) (a_irqbalance a) tuner0;
      '(n, (maxima, chans)) ← fDoNicTuning netDevice (gApplyNicTuning g) netDeviceSpeed (a_ring a) (a_mtu a) (a_channels a)
                                (maxima, chans0) tuner0;
      Ret (Some (mkAssess nproc numa numastr (c1 ++ c2 ++ c3) k b n maxima chans LEARNING
                   (write_menus a (tuner k) n b)))
  end.

(** ** Lemmas *)
(** The configuration with the three flags set to [f], nothing made permanent. *)
Definition with_flags (f : ascii) (g : Cfg) : Cfg :=
  g <| gApplyDefSysTuning := f |> <| gApplyBiosTuning := f |> <| gApplyNicTuning := f |> <| gMakeTuningPermanent := "n"%char |>.

Lemma flags_set f g :
  gApplyDefSysTuning (with_flags f g) = f ∧ gApplyBiosTuning (with_flags f g) = f ∧ gApplyNicTuning (with_flags f g) = f ∧
  gMakeTuningPermanent (with_flags f g) = "n"%char.
Proof. done. Qed.
Lemma mirror0 : mirror tuner0 tuner0.
Proof. by split. Qed.
Lemma nothing_kept {C} (text : C → string) b t : kept t = [] → menu_of text b t = Removed.
Proof. unfold menu_of. by intros ->. Qed.

(** A host with 8 processors, a slow governor and a short ring. *)
Definition answers_ex : Answers :=
  mkAnswers (Some ["8" +:+ nl]) (Some ["-1" +:+ nl]) (Some ["node 0 cpus: 0 1 2 3" +:+ nl]) (Some host_ex) (Some None)
    (mkOut ["powersave" +:+ nl] true) (mkOut [] true) (mkOut ["   Active: inactive (dead)" +:+ nl] true)
    (mkOut (ring_text 8192 8192 1024 8192) true) (Some ["1500" +:+ nl]) (mkOut [] true) true true true.
Definition no_channels : Channels := mkChannels 0 0 0 0 0 0 0.
Example answers_run :
  match user_assess cfg_init "eth0" 100000 answers_ex (0, 0) no_channels with
  | Ret (Some r) => (nProc r, numaNode r, numaNodeString r, menus r) =
      (8, 0, "node 0 cpus: 0 1 2 3" +:+ nl,
       (Written ["5" +:+ nl; "sysctl -w net.core.rmem_max=1147483647" +:+ nl; "sysctl -w net.ipv4.tcp_congestion_control=htcp" +:+ nl;
                 "sysctl -w net.ipv4.tcp_wmem=" +:+ dq +:+ "4096 65536 1147483647" +:+ dq +:+ nl],
        Written ["4" +:+ nl; "ethtool -G eth0 rx 8192" +:+ nl; "sudo ip link set dev eth0 mtu 9200" +:+ nl],
        Written ["3" +:+ nl; "sh -c 'echo performance | tee /sys/devices/system/cpu/cpu*/cpufreq/scaling_governor'" +:+ nl]))
  | _ => False
  end.
Proof. vm_compute. reflexivity. Qed.

(** ** Theorems *)
(** C20: The menu offers exactly what the flags would have done.  Whatever the
    host answers, when the assessment with no flag set ends, the one with all
    three flags set ends too, finds the same values, runs in each part exactly
    the commands the other kept, in order, and leaves no menu file. *)
Theorem menu_offers_what_flags_apply g dev spd a m c r :
  user_assess (with_flags "n" g) dev spd a m c = Ret (Some r) →
  ∃ r', user_assess (with_flags "y" g) dev spd a m c = Ret (Some r') ∧
    sysctls (kernel r') = kept (tuner (kernel r)) ∧ tunes (bios r') = kept (bios r) ∧ tunes (nic r') = kept (nic r) ∧
    menus r' = (Removed, Removed, Removed) ∧
    (nProc r', numaNode r', numaNodeString r', my_tune_max (kernel r'), ring_maxima r', channels r') =
    (nProc r, numaNode r, numaNodeString r, my_tune_max (kernel r), ring_maxima r, channels r).
Proof.
  unfold user_assess. destruct (flags_set "n" g) as (-> & -> & -> & ->). destruct (flags_set "y" g) as (-> & -> & -> & ->).
  destruct (fDoGetNproc (a_nproc a)) as [c1 np]. intros E.
  inv_bind E as [c2 nu] E2. inv_bind E as [c3 ns] E3. rewrite E2. cbn [mbind res_bind]. rewrite E3. cbn [mbind res_bind].
  inv_bind E as k Ek. apply tuning_same in Ek; [|exact same_value]. destruct k as [k|]; [|done].
  destruct Ek as (k' & Ek' & Hk). cbn in Ek'. unfold fDoSystemTuning. rewrite Ek'. cbn [mbind res_bind].
  inv_bind E as b Eb. destruct (bios_mirrored _ _ _ _ _ _ mirror0 Eb) as (b' & Eb' & Hb). cbn in Eb'. rewrite Eb'. cbn [mbind res_bind].
  inv_bind E as [n [mx ch]] En. destruct (nic_mirrored _ _ _ _ _ _ _ _ _ _ mirror0 En) as (n' & En' & Hn). cbn in En'. rewrite En'.
  cbn [mbind res_bind]. simplify_eq. eexists. split; [done|]. cbn. destruct Hk as (_ & ? & _ & Hk & _ & ? & _), Hb, Hn.
  split_and!; [done..| |congruence]. unfold write_menus. by rewrite !nothing_kept.
Qed.
Lemma menu_offers_what_flags_apply_witness :
  ∃ r', user_assess (with_flags "y" cfg_init) "eth0" 100000 answers_ex (0, 0) no_channels = Ret (Some r') ∧
    tunes (nic r') = [Tune "ethtool -G eth0 rx 8192"; Tune "sudo ip link set dev eth0 mtu 9200"].
Proof.
  edestruct (menu_offers_what_flags_apply cfg_init "eth0" 100000 answers_ex (0, 0) no_channels) as (r' & E & _ & _ & H & _);
    [vm_compute; reflexivity|]. exists r'. split; [exact E|]. rewrite H. vm_compute. reflexivity.
Defined.

(** C34: Unless the configuration sets one of the three flags to y the
    assessment changes nothing on the host but, perhaps, loading the htcp
    module: it runs only commands that look, and removes its own files. *)
Theorem unasked_assessment_changes_nothing file g dev spd a m c r :
  fDoGetUserCfgValues file cfg_init = Ret g →
  gApplyDefSysTuning g ≠ "y"%char → gApplyBiosTuning g ≠ "y"%char → gApplyNicTuning g ≠ "y"%char →
  user_assess g dev spd a m c = Ret (Some r) →
  Forall (λ k, harmless k = true) (executed (tuner (kernel r))) ∧ tunes (bios r) = [] ∧ tunes (nic r) = [].
Proof.
  intros Hg H1 H2 H3. apply config_given_wf in Hg. destruct (wf_flags g Hg) as ([?|F1] & [?|F2] & [?|F3] & _); try done.
  unfold user_assess. rewrite F1, F2, F3. destruct (fDoGetNproc (a_nproc a)) as [c1 np]. intros E.
  inv_bind E as [c2 nu] E2. inv_bind E as [c3 ns] E3. inv_bind E as k Ek. destruct k as [k|]; [|done].
  apply tuning_unchanged in Ek as [Hk _]; [|apply unchanged_value]. inv_bind E as b Eb. inv_bind E as [n [mx ch]] En. simplify_eq. cbn.
  destruct (bios_mirrored _ _ _ _ _ _ mirror0 Eb) as (b' & _ & []). destruct (nic_mirrored _ _ _ _ _ _ _ _ _ _ mirror0 En) as (n' & _ & []).
  done.
Qed.
Lemma unasked_assessment_changes_nothing_witness :
  ∃ r, user_assess sample_cfg "eth0" 100000 answers_ex (0, 0) no_channels = Ret (Some r) ∧
    tunes (bios r) = [] ∧ tunes (nic r) = [].
Proof.
  eexists. split; [vm_compute; reflexivity|].
  edestruct (unasked_assessment_changes_nothing (Some sample_file) sample_cfg "eth0" 100000 answers_ex (0, 0) no_channels) as (_ & H);
    [vm_compute; reflexivity|discriminate..|vm_compute; reflexivity|exact H].
Defined.
