(* ===== verification/DtnTune.v ===== *)
(** * The stand-alone assessment

    src/assess-tuning/dtn_tune.c, the program behind the operator's menu: it
    chooses a speed, reads its configuration, and runs the checks of the kernel,
    the BIOS and the interface once.  Most of its functions are those of
    user_assess.c; the ones that differ are modelled here, and the names of this
    file stand for dtn_tune.c. *)
From Stdlib Require Import ZArith Lia Ascii String.
From stdpp Require Import base strings numbers option list.
From S2P Require Import Prelude CString Lines UserConfig Tuner SysTuning NicTuning Timers Assess.
Open Scope Z_scope.

(** ** The configuration *)
Definition userValues : list sUserValues_t := [
  mkUserValue "learning_mode_only" "y" "-1";
  mkUserValue "apply_default_system_tuning" "n" "-1";
  mkUserValue "apply_bios_tuning" "n" "-1";
  mkUserValue "apply_nic_tuning" "n" "-1";
  mkUserValue "make_default_system_tuning_perm" "n" "-1"].
Record TuneCfg := mkTuneCfg {
  gTuningMode : Z;
  gApplyBiosTuning : ascii;
  gApplyNicTuning : ascii;
  gApplyDefSysTuning : ascii;
  gMakeTuningPermanent : ascii
}.
#[export] Instance TuneCfg_eta : Settable TuneCfg := λ g,
  mkTuneCfg (gTuningMode g) (gApplyBiosTuning g) (gApplyNicTuning g) (gApplyDefSysTuning g) (gMakeTuningPermanent g).
Definition cfg_init : TuneCfg := mkTuneCfg 0 "n" "n" "n" "n".
(** The value is copied with [strcpy] into the 32 bytes of [cfg_value]; none of
    the five keys is a wide one. *)
Fixpoint store_value (key m : string) (t : list sUserValues_t) : res (list sUserValues_t) :=
  match t with
  | [] => Ret []
  | v :: t' =>
      if String.eqb (aUserValues v) key then
        s ← value_at key m; _ ← fits_nul 32 s; Ret (v <| cfg_value := s |> :: t')
      else t'' ← store_value key m t'; Ret (v :: t'')
  end.
Definition config_line (m : string) (t : list sUserValues_t) : res (list sUserValues_t * bool) :=
  '(key, m) ← scan_while not_blank m;
  _ ← fits 256 key;
  t ← store_value (cstr key) m t; Ret (t, false).
Definition apply_value (g : TuneCfg) (v : sUserValues_t) : TuneCfg :=
  let named k := String.eqb (aUserValues v) k in
  if named "learning_mode_only" then if starts "n" (cfg_value v) then g <| gTuningMode := 1 |> else g
  else if named "apply_default_system_tuning" then
    if starts "y" (cfg_value v) then g <| gApplyDefSysTuning := "y"%char |> else g
  else if named "apply_bios_tuning" then
    if starts "y" (cfg_value v) then g <| gApplyBiosTuning := "y"%char |> else g
  else if named "apply_nic_tuning" then
    if starts "y" (cfg_value v) then g <| gApplyNicTuning := "y"%char |> else g
  else if named "make_default_system_tuning_perm" then
    if starts "y" (cfg_value v) then g <| gMakeTuningPermanent := "y"%char |> else g
  else g.
Definition fDoGetUserCfgValues (file : option (list string)) (g : TuneCfg) : res TuneCfg :=
  match file with
  | None => Ret g
  | Some ls => t ← each_line config_line EmptyString ls userValues; Ret (foldl apply_value g t)
  end.

(** ** The speed to tune for, when no interface is named *)
Record Speeds := mkSpeeds { tmpSpeed : Z; v10G : Z; v40G : Z; v100G : Z }.
#[export] Instance Speeds_eta : Settable Speeds := λ s, mkSpeeds (tmpSpeed s) (v10G s) (v40G s) (v100G s).
Definition count_speed (cfg_val : Z) (s : Speeds) : Speeds :=
  if cfg_val =? 0 then s
  else
    let s := if tmpSpeed s <=? cfg_val then s <| tmpSpeed := cfg_val |> else s in
    if cfg_val <=? 10000 then s <| v10G := v10G s + 1 |>
    else if cfg_val <? 100000 then s <| v40G := v40G s + 1 |>
    else s <| v100G := v100G s + 1 |>.
Definition speed_line (m : string) (s : Speeds) : res (Speeds * bool) :=
  v ← copy_chomp 256 m; Ret (count_speed (atoi v) s, false).
Definition clear_cmd : ncmd := Look "clear".
(** The menu on standard input: lines until one starts with the number of a choice;
    at the end of the input no choice was made. *)
Fixpoint ask (choices : list Z) (stdin : list string) : list ncmd * option Z :=
  match stdin with
  | [] => ([], None)
  | l :: stdin' =>
      let pick := match l with
                  | String c _ => if (49 <=? code c) then zget choices (code c - 49) else None
                  | EmptyString => None
                  end in
      match pick with
      | Some v => ([], Some v)
      | None => let '(cs, r) := ask choices stdin' in (clear_cmd :: cs, r)
      end
  end.
(** The speeds offered, when interfaces of more than one class were found. *)
Definition speed_choices (s : Speeds) : list Z :=
  let has n := negb (n =? 0) in
  if has (v10G s) && has (v40G s) && has (v100G s) then [10000; 40000; 100000]
  else if has (v40G s) && has (v100G s) then [40000; 100000]
  else if has (v10G s) && has (v100G s) then [10000; 100000]
  else if has (v10G s) && has (v40G s) then [10000; 40000]
  else [].
Definition fCheckForNicsAndSpeeds (out : option (list string)) (stdin : list string) : res (list ncmd * Z) :=
  let look := Look "cat /sys/class/net/*/speed > /tmp/NIC.cfgfile 2>/dev/null" in
  match out with
  | None => Ret ([look], 0)
  | Some ls =>
      s ← each_line speed_line EmptyString ls (mkSpeeds 0 0 0 0);
      let '(cs, v) := match speed_choices s with
                      | [] => ([clear_cmd],
                               if (v10G s =? 0) && (v40G s =? 0) && (v100G s =? 0) then 10000 else tmpSpeed s)
                      | choices => let '(cs, r) := ask choices stdin in (cs, default (tmpSpeed s) r)
                      end in
      Ret (look :: cs ++ [rm_nic], v)
  end.
Example speeds_ex : fCheckForNicsAndSpeeds (Some ["10000" +:+ nl; "-1" +:+ nl; "100000" +:+ nl]) ["x" +:+ nl; "2" +:+ nl] =
  Ret ([Look "cat /sys/class/net/*/speed > /tmp/NIC.cfgfile 2>/dev/null"; clear_cmd; rm_nic], 100000).
Proof. vm_compute. done. Qed.

(** ** The kernel settings

    One function of the kernel tuning differs: a triple is looked at whatever
    its first number is. *)
Definition tune_number (e : kenv) (h : host_tuning_vals_t) (n v : string) (s : KState) : res KState :=
  let intvalue := u32 (atoi v) in
  if (intvalue <=? minimum h) || negb (xDefault h =? -1) then
    if xDefault h =? -1 then
      if intvalue =? minimum h then Ret s else apply_kernel e n (One (decs (i32 (minimum h)))) s
    else
      '(_, _, vmax) ← parse_three v;
      if u32 (atoi vmax) <? maximum h then apply_kernel e n (three_of h) s else Ret s
  else Ret s.
Definition tune_value (e : kenv) (h : host_tuning_vals_t) (n v : string) (s : KState) : res KState :=
  match v with
  | String c _ => if isdigit c then tune_number e h n v s else tune_word e h n v s
  | EmptyString => tune_word e h n v s
  end.
Definition fDoSystemTuning := system_tuning tune_value.

(** ** The BIOS *)
Definition cpu_power : ncmd :=
  Look ("sudo cpupower frequency-info | grep " +:+ dq +:+ "The governor" +:+ dq +:+ " > /tmp/BIOS.cfgfile 2>/dev/null").
(** When neither way shows a governor the check ends. *)
Definition fDoCpuPerformance (flag : ascii) (cat power : cmd_out) (t : Tuner ncmd) : res (Tuner ncmd) :=
  let t := exec (Look cpu_cat) t in
  if is_empty cat then
    let t := exec cpu_power t in
    if is_empty power then Ret (exec rm_bios t)
    else match opened power with
         | None => Ub                       (* getline on a null FILE pointer *)
         | Some ls =>
             r ← find_governor EmptyString ls;
             match r with
             | Some (w, rest) => set_governor flag true w rest t
             | None => Ret (exec rm_bios t)
             end
         end
  else match opened cat with None => Ret t | Some ls => set_governor flag false EmptyString ls t end.
Definition fDoIrqBalance := NicTuning.fDoIrqBalance.
Definition fDoBiosTuning (flag : ascii) (cat power irq : cmd_out) (t : Tuner ncmd) : res (Tuner ncmd) :=
  t ← fDoCpuPerformance flag cat power t; fDoIrqBalance flag irq t.

(** ** The interface *)
Definition fDoGetDeviceCap (netDevice : string) (out : option (list string)) (netDeviceSpeed : Z) : res (list ncmd * Z) :=
  let look := Look ("cat /sys/class/net/" +:+ netDevice +:+ "/speed > /tmp/NIC.cfgfile 2>/dev/null") in
  match out with
  | None => Ret ([look], netDeviceSpeed)
  | Some ls =>
      n ← first_number ls;
      Ret ([look; rm_nic], match n with Some v => if v =? 0 then netDeviceSpeed else v | None => netDeviceSpeed end)
  end.
Definition fDoGetNuma := NicTuning.fDoGetNuma.
Definition rec_txqueuelen_Equal100G := 20000.
Definition rec_txqueuelen := 1000.
Definition rec_mtu := 9200.
Section Nic.
Context (netDevice : string) (flag : ascii).   (* flag: gApplyNicTuning *)
Implicit Types (t : Tuner ncmd) (out : cmd_out).

Definition fDoTxQueueLen (netDeviceSpeed : Z) : option (list string) → Tuner ncmd → res (Tuner ncmd) :=
  number_check flag ("cat /sys/class/net/" +:+ netDevice +:+ "/tx_queue_len > /tmp/NIC.cfgfile")
    (λ cfg_val,
       let r := if netDeviceSpeed <? 100000 then rec_txqueuelen else rec_txqueuelen_Equal100G in
       if cfg_val <? r then Some ("ifconfig " +:+ netDevice +:+ " txqueuelen " +:+ decs r) else None).
Definition fDoRingBufferSize := NicTuning.fDoRingBufferSize netDevice flag.
Definition fDoLRO (show fixed again : cmd_out) t : res (Tuner ncmd) :=
  let cmd := "ethtool --show-features " +:+ netDevice +:+ " | grep large-receive-offload" in
  let t := exec (Look (cmd +:+ " > /tmp/NIC.cfgfile 2>/dev/null")) t in
  if is_empty show then Ub                     (* fclose of a null FILE pointer *)
  else
    let t := exec (Look (cmd +:+ " | grep fixed > /tmp/NIC.cfgfile 2>/dev/null")) t in
    let '(t, o) := if is_empty fixed then (exec (Look (cmd +:+ " > /tmp/NIC.cfgfile 2>/dev/null")) t, again) else (t, fixed) in
    match opened o with
    | None => Ret t
    | Some ls =>
        t ← match ls with
            | [] => Ret t
            | l :: _ =>
                let q := drop_str 21 (getline_buf EmptyString l) in
                _ ← fits_nul 256 (cstr q);
                w ← word_at q; _ ← fits_nul 256 w;
                if String.eqb "on" w || negb (is_empty fixed) then Ret t
                else apply_or_keep flag (Tune ("ethtool -K " +:+ netDevice +:+ " lro on 2>/dev/null")) t
            end;
        Ret (exec rm_nic t)
    end.

(** The largest MTU: the digits behind "maxmtu" and blanks, on the first line that
    has the word; [Some None] when there are no digits, [None] without such a line. *)
Fixpoint find_maxmtu (b : string) (ls : list string) : res (option string) :=
  match ls with
  | [] => Ret None
  | l :: ls' =>
      let b := getline_buf b l in
      s ← copy_chomp 512 b;
      match strstr s "maxmtu" with
      | Some y => let d := (span isdigit (span isblank (drop_str 6 y)).2).1 in
                  _ ← fits_nul 256 d; Ret (match d with EmptyString => None | _ => Some d end)
      | None => find_maxmtu b ls'
      end
  end.
Definition rm_nic2 : ncmd := Clean "rm -f /tmp/NIC.cfgfile2".
(** Whether the interface can take [rec_mtu]: it is set without knowing only when
    the file cannot be opened. *)
Definition mtu_allowed out t : res (Tuner ncmd * bool) :=
  let t := exec (Look ("ip -d link list " +:+ netDevice +:+ " > /tmp/NIC.cfgfile2 2>/dev/null")) t in
  if is_empty out then Ret (exec rm_nic2 t, false)
  else match opened out with
       | None => Ret (t, true)
       | Some ls =>
           d ← find_maxmtu EmptyString ls;
           Ret (exec rm_nic2 t, match d with Some d => negb (atoi d <? rec_mtu) | None => false end)
       end.
Definition fDoMTU (mtu : option (list string)) (maxmtu : cmd_out) t : res (Tuner ncmd) :=
  let t := exec (Look ("cat /sys/class/net/" +:+ netDevice +:+ "/mtu  > /tmp/NIC.cfgfile")) t in
  match mtu with
  | None => Ret t
  | Some ls =>
      n ← first_number ls;
      t ← match n with
          | Some v =>
              if (v =? 0) || (rec_mtu <=? v) then Ret t
              else
                '(t, ok) ← mtu_allowed maxmtu t;
                if ok : bool then apply_or_keep flag (Tune ("sudo ip link set dev " +:+ netDevice +:+ " mtu " +:+ decs rec_mtu)) t
                else Ret t
          | None => Ret t
          end;
      Ret (exec rm_nic t)
  end.
(** Not compiled in, and called from nowhere. *)
Definition fDoTcQdiscFq := NicTuning.fDoTcQdiscFq netDevice flag.
Definition fDoFlowControl := NicTuning.fDoFlowControl netDevice flag.
Definition fDoIrqAffinity := NicTuning.fDoIrqAffinity netDevice flag.
End Nic.

(** ** The program *)
(** What the commands write, what is on standard input, which files open. *)
Record Host := mkHost {
  argv : list string;
  log_opens : bool;                          (* fopen("/tmp/tuningLog","w") *)
  has_device : string → bool;                (* access("/sys/class/net/...") *)
  speed_file : string → option (list string);
  all_speeds : option (list string);
  stdin : list string;
  user_config : option (list string);
  numa_file : option (list string);
  config_file : option (list string);        (* /tmp/current_config.orig *)
  modprobe : option (option string);
  governor : cmd_out;
  cpupower : cmd_out;
  irqbalance : cmd_out;
  txqueuelen : option (list string);
  ring : cmd_out;
  lro_show : cmd_out;
  lro_fixed : cmd_out;
  lro_again : cmd_out;
  mtu : option (list string);
  maxmtu : cmd_out;
  opens_kernel : bool;                       (* the three menu files, for writing *)
  opens_nic : bool;
  opens_bios : bool
}.
Definition fDoNicTuning (w : Host) (netDevice : string) (gApplyNicTuning : ascii) (netDeviceSpeed : Z)
    (t : Tuner ncmd) : res (Tuner ncmd * (Z * Z)) :=
  t ← fDoTxQueueLen netDevice gApplyNicTuning netDeviceSpeed (txqueuelen w) t;
  '(t, maxima) ← fDoRingBufferSize netDevice gApplyNicTuning netDeviceSpeed (ring w) (0, 0) t;
  t ← (if 100000 <=? netDeviceSpeed then fDoLRO netDevice gApplyNicTuning (lro_show w) (lro_fixed w) (lro_again w) t
       else Ret t);
  t ← fDoMTU netDevice gApplyNicTuning (mtu w) (maxmtu w) t;
  Ret (t, maxima).
(** The interface named by the only argument, if its link is up, or none; with the speed. *)
Inductive target :=
| Leave (code : Z)
| Device (name : string) (speed : Z)
| NoDevice (speed : Z).
Definition target_speed (t : target) : Z := match t with Leave _ => 0 | Device _ s => s | NoDevice s => s end.
Definition choose_target (w : Host) : res (list ncmd * target) :=
  match argv w with
  | [_; d] =>
      _ ← fits_nul 128 d;
      if has_device w d then
        '(cs, speed) ← fDoGetDeviceCap d (speed_file w d) 0;
        Ret (cs, if Z.quot speed 1000 =? 0 then Leave (-3) else Device d speed)
      else Ret ([], Leave (-1))
  | _ => '(cs, speed) ← fCheckForNicsAndSpeeds (all_speeds w) (stdin w); Ret (cs, NoDevice speed)
  end.
Record Tuned := mkTuned {
  cfg : TuneCfg;
  on_device : target;
  numaNode : Z;
  looked : list ncmd;
  kernel : KState;
  bios : Tuner ncmd;
  nic : Tuner ncmd;
  ring_maxima : Z * Z;
  current_phase : workflow_phases;
  menus : menu * menu * menu
}.
Definition write_menus (w : Host) (k : Tuner kcmd) (n b : Tuner ncmd) : menu * menu * menu :=
  let mk := menu_of kcmd_text (opens_kernel w) k in
  let mn := menu_of ncmd_text (opens_nic w) n in
  let mb := menu_of ncmd_text (opens_bios w) b in
  match mk with
  | Failed => (mk, Untouched, Untouched)
  | _ => match mn with Failed => (mk, mn, Untouched) | _ => (mk, mn, mb) end
  end.
(** The program behind the configuration. *)
Definition tune (w : Host) (cs : list ncmd) (d : target) (g : TuneCfg) : res (Z + Tuned) :=
  '(c2, numa) ← (match d with Device n _ => fDoGetNuma n (numa_file w) | _ => Ret ([], 0) end);
  k ← fDoSystemTuning (target_speed d) (gApplyDefSysTuning g) (gMakeTuningPermanent g) (modprobe w) (config_file w) kstate0;
  match k with
  | None => Ret (inl (-2))
  | Some k =>
      b ← fDoBiosTuning (gApplyBiosTuning g) (governor w) (cpupower w) (irqbalance w) tuner0;
      '(n, maxima) ← (match d with
                      | Device name speed => fDoNicTuning w name (gApplyNicTuning g) speed tuner0
                      | _ => Ret (tuner0, (0, 0))
                      end);
      Ret (inr (mkTuned g d numa (cs ++ c2) k b n maxima LEARNING (write_menus w (tuner k) n b)))
  end.
(** [inl]: the exit code of a run that ends early; a run to the end exits with 0. *)
Definition main (w : Host) : res (Z + Tuned) :=
  if negb (log_opens w) then Ret (inl (-1)) else
  '(cs, d) ← choose_target w;
  match d with
  | Leave code => Ret (inl code)
  | _ => g ← fDoGetUserCfgValues (user_config w) cfg_init; tune w cs d g
  end.

Definition host_ex : Host :=
  mkHost ["dtn_tune"; "eth0"] true (λ _, true) (λ _, Some ["100000" +:+ nl]) None []
    (Some ["apply_bios_tuning" +:+ tab +:+ "y" +:+ nl]) (Some ["1" +:+ nl])
    (Some ["net.core.wmem_max = 212992" +:+ nl; "net.ipv4.tcp_rmem = 8192 87380 6291456" +:+ nl]) (Some None)
    (mkOut [] true) (mkOut [] true) (mkOut ["   Active: active (running)" +:+ nl] true)
    (Some ["1000" +:+ nl]) (mkOut (ring_text 8192 8192 1024 8192) true)
    (mkOut ["large-receive-offload: off" +:+ nl] true) (mkOut [] true) (mkOut ["large-receive-offload: off" +:+ nl] true)
    (Some ["1500" +:+ nl]) (mkOut ["  link/ether promiscuity 0 minmtu 68 maxmtu 9978 numtxqueues 64" +:+ nl] true)
    true true true.
Example main_ex :
  match main host_ex with
  | Ret (inr r) => (numaNode r, tunes (bios r), menus r) =
      (1, [Tune "systemctl stop irqbalance"],
       (Written ["4" +:+ nl; "sysctl -w net.core.wmem_max=1147483647" +:+ nl;
                 "sysctl -w net.ipv4.tcp_rmem=" +:+ dq +:+ "4096 87380 1147483647" +:+ dq +:+ nl],
        Written ["6" +:+ nl; "ifconfig eth0 txqueuelen 20000" +:+ nl; "ethtool -G eth0 rx 8192" +:+ nl;
                 "ethtool -K eth0 lro on 2>/dev/null" +:+ nl; "sudo ip link set dev eth0 mtu 9200" +:+ nl],
        Removed))
  | _ => False
  end.
Proof. vm_compute. reflexivity. Qed.

(** ** Lemmas: the kernel settings *)
(** What a value asks for: a triple with a small maximum is always raised. *)
Definition needs (md : option (option string)) (avail : bool) (h : host_tuning_vals_t) (n v : string) : option kval :=
  if match v with String c _ => isdigit c | EmptyString => false end && negb (xDefault h =? -1) then
    match parse_three v with
    | Ret (_, _, c) => if atoi c <? maximum h then Some (three_of h) else None
    | _ => None
    end
  else SysTuning.needs md avail h n v.
Lemma needs_single md avail h n v : xDefault h = -1 → needs md avail h n v = SysTuning.needs md avail h n v.
Proof. intros E. unfold needs. rewrite E. by rewrite andb_false_r. Qed.
Lemma needs_three md avail h n a b c :
  is_nat31 a → is_nat31 b → is_nat31 c → xDefault h ≠ -1 →
  needs md avail h n (three_text a b c) = if c <? maximum h then Some (three_of h) else None.
Proof.
  intros Ha Hb Hc E. unfold needs. rewrite three_is_digit, (proj2 (Z.eqb_neq _ _) E), parse_three_text by done.
  cbn [andb negb]. by rewrite dec_atoi.
Qed.
Lemma value_single e h n v s : xDefault h = -1 → tune_value e h n v s = SysTuning.tune_value e h n v s.
Proof.
  intros E. unfold tune_value, SysTuning.tune_value, tune_number, SysTuning.tune_number. rewrite E. cbn [negb orb Z.eqb].
  change (-1 =? -1) with true. destruct v; [done|]. cbn [negb]. rewrite orb_false_r. by repeat case_match.
Qed.
Lemma stored_three h : entry_ok h → xDefault h ≠ -1 → stored (three_of h) = three_text (minimum h) (xDefault h) (maximum h).
Proof.
  intros (Hm & HM & Hd & _) E. destruct Hd as [|Hd]; [done|].
  unfold stored, three_of, three_text. rewrite !nat31_dec by done. by rewrite decs_nonneg by apply Hd.
Qed.
Lemma shape_cases h v :
  value_shape h v → xDefault h = -1 ∨ xDefault h ≠ -1 ∧ ∃ a b c, v = three_text a b c ∧ is_nat31 a ∧ is_nat31 b ∧ is_nat31 c.
Proof. intros []; [by left| |by left]. right. split; [done|]. by do 3 eexists. Qed.
Lemma three_not_htcp n a b c : is_nat31 a → shows_htcp n (three_text a b c) = false.
Proof. intros Ha. unfold shows_htcp. by rewrite three_is_digit. Qed.

#[export] Instance tune_value_prescribes : Prescribes tune_value needs.
Proof.
  split.
  - intros e h n v s He Hh Hn Hv. destruct (shape_cases h v Hv) as [E|(E & a & b & c & -> & Ha & Hb & Hc)].
    + rewrite needs_single, value_single by done. by apply (pr_does (nd := SysTuning.needs)).
    + rewrite needs_three, three_not_htcp, orb_false_r by done.
      unfold tune_value. pose proof (three_is_digit a b c Ha) as Hdg.
      destruct (three_text a b c) as [|d r] eqn:Et; [done|]. rewrite Hdg. unfold tune_number.
      rewrite <- Et, (proj2 (Z.eqb_neq _ _) E), orb_true_r, parse_three_text by done. cbn [mbind res_bind].
      rewrite dec_atoi, nat31_u32 by done. destruct (Z.ltb_spec c (maximum h)); cbn [option_list fmap list_fmap].
      * by apply apply_adds.
      * eexists. split; [done|]. by apply adds_nil.
  - intros md avail h n v k Hh Hv. destruct (shape_cases h v Hv) as [E|(E & a & b & c & -> & Ha & Hb & Hc)].
    + rewrite !needs_single by done. intros Hk. by apply (pr_settles (nd := SysTuning.needs)).
    + rewrite needs_three by done. case_match; [|done]. intros [= <-]. rewrite stored_three by done.
      destruct Hh as (Hm & HM & [|Hd] & _); [done|].
      rewrite needs_three, Z.ltb_irrefl, !three_not_htcp by done. split; [by constructor|done].
  - intros md avail h n v k Hh Hv. destruct (shape_cases h v Hv) as [E|(E & a & b & c & -> & Ha & Hb & Hc)].
    + rewrite needs_single by done. by apply (pr_raises (nd := SysTuning.needs)).
    + rewrite needs_three by done. destruct (Z.ltb_spec c (maximum h)); [|done]. intros [= <-].
      destruct Hh as (Hm & HM & _). exists a, b, c, (maximum h). by rewrite nat31_dec.
Qed.

(** *** The two programs side by side *)
(** Only user_assess.c notes the greatest wmem. *)
Definition erase (s : KState) : KState := s <| my_tune_max := 0 |>.
Lemma erase_note h n s : erase (note_wmem h n s) = erase s.
Proof. unfold note_wmem. by case_match. Qed.
Lemma apply_erase e n k s : apply_kernel e n k (erase s) = (r ← apply_kernel e n k s; Ret (erase r)).
Proof.
  unfold apply_kernel, keep. destruct (Ascii.eqb (ke_apply e) "y").
  - cbn [mbind res_bind]. unfold persist. destruct (Ascii.eqb (ke_permanent e) "y"); [|done]. unfold erase, run. cbn. by destruct (vModifySysctlFile s).
  - change (tuner (erase s)) with (tuner s). by case_match.
Qed.
Lemma word_erase e h n v s : tune_word e h n v (erase s) = (r ← tune_word e h n v s; Ret (erase r)).
Proof.
  unfold tune_word. destruct (of_opt (zget aStringval (minimum h))) as [w| |]; [|done..]. cbn [mbind res_bind].
  change (congestion_control_recommended_avail (erase s)) with (congestion_control_recommended_avail s).
  repeat case_match; try done; first [apply apply_erase | by rewrite <- apply_erase].
Qed.
(** A triple that starts above the recommended minimum: the two programs part. *)
Definition small_first (h : host_tuning_vals_t) (v : string) : Prop := xDefault h ≠ -1 → u32 (atoi v) ≤ minimum h.
Lemma value_erase e h n v s :
  small_first h v → tune_value e h n v (erase s) = (r ← SysTuning.tune_value e h n v s; Ret (erase r)).
Proof.
  intros Hs. assert (Hn : tune_number e h n v (erase s) = (r ← SysTuning.tune_number e h n v s; Ret (erase r))).
  { unfold tune_number, SysTuning.tune_number. destruct (Z.eqb_spec (xDefault h) (-1)) as [E|E]; cbn [negb].
    - rewrite orb_false_r. repeat case_match; first [done | apply apply_erase].
    - rewrite orb_true_r, (proj2 (Z.leb_le _ _) (Hs E)). destruct (parse_three v) as [[[? ?] vmax]| |]; [|done..]. cbn [mbind res_bind].
      case_match; rewrite <- (erase_note h n s); [apply apply_erase|done]. }
  unfold tune_value, SysTuning.tune_value. repeat case_match; auto using word_erase.
Qed.
Lemma each_erase e tbl b l s :
  Forall (λ p, (str_forall (λ c, not_sp c && not_nul c) p.1 = true ∧ strlen p.1 < 256) ∧
    (str_forall (λ c, not_nl c && not_nul c) p.2 = true ∧ strlen p.2 < 256) ∧
    ∀ h, find_setting p.1 tbl = Some h → small_first h p.2) l →
  each_line (setting_line (tune_value e) tbl) b (show_host l) (erase s) =
  (r ← each_line (setting_line (SysTuning.tune_value e) tbl) b (show_host l) s; Ret (erase r)).
Proof.
  intros Hf. revert b s. induction Hf as [|[n v] l ([Hp Hl] & [Hv Hlv] & Hs) _ IH]; intros b s; [done|].
  unfold show_host in *. rewrite fmap_cons. cbn [each_line fst snd] in *. rewrite !setting_line_text by done.
  destruct (find_setting n tbl) as [h|] eqn:Eh; [|apply IH]. rewrite value_erase by auto.
  destruct (SysTuning.tune_value e h n v s) as [s'| |]; [|done..]. apply IH.
Qed.
(** The two programs on one settings file. *)
Lemma tuning_erase spd flag perm md l :
  Forall (λ p, (str_forall (λ c, not_sp c && not_nul c) p.1 = true ∧ strlen p.1 < 256) ∧
    (str_forall (λ c, not_nl c && not_nul c) p.2 = true ∧ strlen p.2 < 256) ∧
    ∀ h, find_setting p.1 (aTuningNumsToUse spd).1 = Some h → small_first h p.2) l →
  fDoSystemTuning spd flag perm md (Some (show_host l)) kstate0 =
  (r ← SysTuning.fDoSystemTuning spd flag perm md (Some (show_host l)) kstate0; Ret (option_map erase r)).
Proof.
  unfold fDoSystemTuning, SysTuning.fDoSystemTuning, system_tuning. destruct (aTuningNumsToUse spd) as [tbl script].
  intros Hf. set (s0 := run _ _). change s0 with (erase s0) at 1.
  match goal with |- context [erase ?x] => change x with s0 end || idtac. rewrite each_erase by done.
  destruct (each_line _ EmptyString (show_host l) s0) as [s| |]; [|done..]. cbn [mbind res_bind].
  change (vModifySysctlFile (run RmConfig (erase s))) with (vModifySysctlFile (run RmConfig s)). by case_match.
Qed.


(** *** The menu *)
Lemma tune_value_offers : offers tune_value.
Proof.
  intros e h n v s1 s2 s1' Hp HR. destruct (Z.eqb_spec (xDefault h) (-1)) as [E|E].
  { rewrite !value_single by done. by apply same_value. }
  pose proof (same_value e h n v s1 s2 s1' Hp HR) as Hsame. unfold tune_value, SysTuning.tune_value in *.
  destruct v as [|c v]; [done|]. destruct (isdigit c); [|done]. unfold tune_number.
  rewrite (proj2 (Z.eqb_neq _ _) E), orb_true_r. intros Et. inv_bind Et as [[x y] vmax] Ep. rewrite Ep. cbn [mbind res_bind].
  case_match; [|simplify_eq; by eexists]. eapply same_apply; eauto.
Qed.
Lemma own_cpu_mirrored cat power : mirrored1 (λ f t, fDoCpuPerformance f cat power t).
Proof.
  intros t1 t2 t1' HR E. unfold fDoCpuPerformance in *. mirror_start HR (Look cpu_cat).
  destruct (is_empty cat).
  - mirror_start HR cpu_power. destruct (is_empty power); [mirror_go|]. destruct (opened power); [|done].
    inv_bind E as r Er. rewrite Er. cbn [mbind res_bind].
    destruct r as [[w rest]|]; [by eapply governor_mirrored|mirror_go].
  - destruct (opened cat); [by eapply governor_mirrored|mirror_go].
Qed.
Lemma own_bios_mirrored cat power irq : mirrored1 (λ f t, fDoBiosTuning f cat power irq t).
Proof.
  intros t1 t2 t1' HR E. unfold fDoBiosTuning in *. inv_bind E as t Et.
  destruct (own_cpu_mirrored _ _ _ _ _ HR Et) as (u & -> & HR'). cbn [mbind res_bind]. by eapply irq_mirrored.
Qed.
Lemma lro_mirrored dev show fixed again : mirrored1 (λ f t, fDoLRO dev f show fixed again t).
Proof.
  intros t1 t2 t1' HR E. unfold fDoLRO in *.
  mirror_start HR (Look (("ethtool --show-features " +:+ dev +:+ " | grep large-receive-offload") +:+ " > /tmp/NIC.cfgfile 2>/dev/null")).
  destruct (is_empty show); [done|].
  mirror_start HR (Look (("ethtool --show-features " +:+ dev +:+ " | grep large-receive-offload") +:+ " | grep fixed > /tmp/NIC.cfgfile 2>/dev/null")).
  destruct (is_empty fixed); [|mirror_go].
  mirror_start HR (Look (("ethtool --show-features " +:+ dev +:+ " | grep large-receive-offload") +:+ " > /tmp/NIC.cfgfile 2>/dev/null")).
  mirror_go.
Qed.
Lemma allowed_mirrored dev out t1 t2 t1' ok :
  mirror t1 t2 → mtu_allowed dev out t1 = Ret (t1', ok) → ∃ t2', mtu_allowed dev out t2 = Ret (t2', ok) ∧ mirror t1' t2'.
Proof.
  intros HR E. unfold mtu_allowed in *.
  mirror_start HR (Look ("ip -d link list " +:+ dev +:+ " > /tmp/NIC.cfgfile2 2>/dev/null")). mirror_go.
Qed.
Lemma mtu_mirrored dev m mx : mirrored1 (λ f t, fDoMTU dev f m mx t).
Proof.
  intros t1 t2 t1' HR E. unfold fDoMTU in *. mirror_start HR (Look ("cat /sys/class/net/" +:+ dev +:+ "/mtu  > /tmp/NIC.cfgfile")).
  destruct m as [ls|]; [|mirror_go]. inv_bind E as n En. rewrite En. cbn [mbind res_bind].
  destruct n as [v|]; [|mirror_go]. destruct ((v =? 0) || (rec_mtu <=? v)); [mirror_go|].
  inv_bind E as t Et. inv_bind Et as [t' ok] Eok. destruct (allowed_mirrored _ _ _ _ _ _ HR Eok) as (u' & -> & HR').
  cbn [mbind res_bind] in *. destruct ok; mirror_go.
Qed.
Lemma txqueuelen_mirrored dev spd out : mirrored1 (λ f t, fDoTxQueueLen dev f spd out t).
Proof. intros t1 t2 t1' HR E. unfold fDoTxQueueLen in *. by eapply number_check_mirrored. Qed.
Lemma own_nic_mirrored w dev spd : mirrored (λ f t, fDoNicTuning w dev f spd t).
Proof.
  intros t1 t2 t1' x HR E. unfold fDoNicTuning in *. inv_bind E as v1 E1.
  destruct (txqueuelen_mirrored _ _ _ _ _ _ HR E1) as (u1 & -> & HR1). cbn [mbind res_bind].
  inv_bind E as [v2 m] E2. destruct (ring_mirrored _ _ _ _ _ _ _ _ HR1 E2) as (u2 & H2 & HR2). unfold fDoRingBufferSize. rewrite H2.
  cbn [mbind res_bind]. inv_bind E as v3 E3.
  assert (∃ u3, (if 100000 <=? spd then fDoLRO dev "y" (lro_show w) (lro_fixed w) (lro_again w) u2 else Ret u2) = Ret u3 ∧ mirror v3 u3)
    as (u3 & -> & HR3) by (destruct (100000 <=? spd); [by eapply lro_mirrored|simplify_eq; eauto]).
  cbn [mbind res_bind]. inv_bind E as v4 E4. destruct (mtu_mirrored _ _ _ _ _ _ HR3 E4) as (u4 & -> & HR4).
  cbn [mbind res_bind]. simplify_eq. eauto.
Qed.

(** *** The speeds of the interfaces *)
(** A number as /sys shows a speed: -1 for a link that is down. *)
Definition speed_ok (v : Z) : Prop := v = -1 ∨ 0 ≤ v < 2 ^ 31.
Definition speed_text (v : Z) : string := decs v +:+ nl.
Definition class_of (v : Z) : Z := if v <=? 10000 then 10000 else if v <? 100000 then 40000 else 100000.
Definition found (l : list Z) (k : Z) : Prop := Exists (λ v, v ≠ 0 ∧ class_of v = k) l.
Definition all_counted (l : list Z) : Speeds := foldl (λ s v, count_speed v s) (mkSpeeds 0 0 0 0) l.
Lemma speed_line_text b v s :
  speed_ok v → speed_line (getline_buf b (speed_text v)) s = Ret (count_speed v s, false).
Proof.
  intros Hv. assert (str_forall (λ c, not_nl c && not_nul c) (decs v) = true ∧ strlen (decs v) <= 21 ∧ atoi (decs v) = v ∧
    ∃ c r, decs v = String c r) as (Hp & Hl & Ha & c & r & Ec).
  { destruct Hv as [->|Hv]; [split_and!; [done..|by do 2 eexists]|]. pose proof (decs_len v). rewrite decs_nonneg in * by lia.
    pose proof (dec_nonempty v). destruct (dec v) as [|c r] eqn:E; [done|]. rewrite <- E in *.
    split_and!; [by apply digits_plain, dec_digits; lia|done|by apply atoi_dec|by eauto]. }
  assert (str_forall not_nul (decs v) = true) as Hn by (eapply str_forall_weaken; [|exact Hp]; cbn; by intros ? [_ ?]%andb_true_iff).
  assert (str_forall not_nl (decs v) = true) as Hnl by (eapply str_forall_weaken; [|exact Hp]; cbn; by intros ? [? _]%andb_true_iff).
  unfold speed_line, copy_chomp, speed_text. rewrite cstr_getline by (by rewrite str_forall_app, Hn).
  rewrite fits_nul_ok by (rewrite strlen_app; change (strlen nl) with 1; lia). cbn [mbind res_bind].
  destruct (decs v +:+ nl) as [|d t] eqn:E; [rewrite Ec in E; discriminate E|].
  rewrite <- E. cbn [mbind res_bind]. by rewrite chomp_line, Ha by done.
Qed.
Lemma speeds_counted b l s :
  Forall speed_ok l → each_line speed_line b (speed_text <$> l) s = Ret (foldl (λ s v, count_speed v s) s l).
Proof.
  intros Hl. revert b s. induction Hl as [|v l Hv _ IH]; intros b s; [done|].
  rewrite fmap_cons. cbn [each_line]. rewrite speed_line_text by done. apply IH.
Qed.
Definition hit (v k : Z) : Z := if negb (v =? 0) && (class_of v =? k) then 1 else 0.
Lemma count_speed_fields v s :
  count_speed v s = mkSpeeds (if v =? 0 then tmpSpeed s else Z.max (tmpSpeed s) v)
    (v10G s + hit v 10000) (v40G s + hit v 40000) (v100G s + hit v 100000).
Proof.
  destruct s as [t a b c]. unfold count_speed, hit, class_of. cbn [tmpSpeed v10G v40G v100G].
  destruct (Z.eqb_spec v 0); [cbn; by rewrite !Z.add_0_r|].
  destruct (Z.leb_spec t v), (Z.leb_spec v 10000), (Z.ltb_spec v 100000); try lia; cbn; first [rewrite Z.max_r by lia | rewrite Z.max_l by lia]; by rewrite !Z.add_0_r.
Qed.
Lemma hit_found l v k a : 0 ≤ a → (a ≠ 0 ↔ found l k) → 0 ≤ a + hit v k ∧ (a + hit v k ≠ 0 ↔ found (l ++ [v]) k).
Proof.
  intros Ha Hk. unfold found in *. rewrite Exists_app, Exists_cons, Exists_nil, <- Hk. unfold hit.
  destruct (Z.eqb_spec v 0), (Z.eqb_spec (class_of v) k); cbn [negb andb]; cbv beta; lia.
Qed.
Lemma counted_spec l :
  let s := all_counted l in
  (0 ≤ v10G s ∧ (v10G s ≠ 0 ↔ found l 10000)) ∧ (0 ≤ v40G s ∧ (v40G s ≠ 0 ↔ found l 40000)) ∧
  (0 ≤ v100G s ∧ (v100G s ≠ 0 ↔ found l 100000)) ∧
  (∀ v, v ∈ l → v ≤ tmpSpeed s) ∧ 0 ≤ tmpSpeed s ∧ (tmpSpeed s = 0 ∨ tmpSpeed s ∈ l).
Proof.
  induction l as [|v l IH] using rev_ind; cbn zeta in *.
  { unfold found. cbn. rewrite !Exists_nil. split_and!; try lia; try tauto. by intros v ?%not_elem_of_nil. }
  unfold all_counted in *. rewrite foldl_snoc, count_speed_fields. destruct (foldl _ _ l) as [t a b c]. cbn in *.
  destruct IH as ([Ha Ia] & [Hb Ib] & [Hc Ic] & Hm & Ht & Hin).
  split; [by apply hit_found|]. split; [by apply hit_found|]. split; [by apply hit_found|]. split.
  - intros w [Hw|Hw]%elem_of_app; [apply Hm in Hw|apply list_elem_of_singleton in Hw as ->]; case_match; lia.
  - split; [case_match; lia|]. destruct (Z.eqb_spec v 0).
    + destruct Hin; [by left|right; apply elem_of_app; by left].
    + destruct (Z.max_spec t v) as [[_ ->]|[_ ->]]; [right; apply elem_of_app; right; by apply list_elem_of_singleton|].
      destruct Hin; [by left|right; apply elem_of_app; by left].
Qed.
Lemma ask_choice choices stdin cs v : ask choices stdin = (cs, Some v) → v ∈ choices.
Proof.
  revert cs. induction stdin as [|l stdin IH]; intros cs; [done|]. cbn [ask].
  destruct (match l with String c _ => _ | EmptyString => None end) as [w|] eqn:E.
  - intros [= _ ->]. destruct l as [|c l]; [done|]. case_match; [|done]. unfold zget in E. case_match; [done|].
    by eapply list_elem_of_lookup_2.
  - destruct (ask choices stdin) as [cs' r]. intros [= _ ->]. by eapply IH.
Qed.
Lemma class_of_classes v : class_of v = 10000 ∨ class_of v = 40000 ∨ class_of v = 100000.
Proof. unfold class_of. repeat case_match; auto. Qed.
Lemma class_table v w : class_of v = class_of w → aTuningNumsToUse v = aTuningNumsToUse w.
Proof. unfold class_of, aTuningNumsToUse. by repeat case_match. Qed.
(** Every speed offered is the class of an interface. *)
Lemma choice_found l v : v ∈ speed_choices (all_counted l) → found l (class_of v) ∧ class_of v = v.
Proof.
  destruct (counted_spec l) as ((_ & Ia) & (_ & Ib) & (_ & Ic) & _). unfold speed_choices.
  destruct (Z.eqb_spec (v10G (all_counted l)) 0), (Z.eqb_spec (v40G (all_counted l)) 0), (Z.eqb_spec (v100G (all_counted l)) 0);
    cbn [negb andb]; rewrite ?elem_of_cons, elem_of_nil; intros; destruct_or?; subst; try done; (split; [|done]); tauto.
Qed.
Lemma none_counted l :
  let s := all_counted l in
  if (v10G s =? 0) && (v40G s =? 0) && (v100G s =? 0) then ∀ x, x ∈ l → x = 0 else ¬ ∀ x, x ∈ l → x = 0.
Proof.
  destruct (counted_spec l) as ((_ & Ia) & (_ & Ib) & (_ & Ic) & _). cbn zeta.
  assert (∀ k, (∀ x, x ∈ l → x = 0) → ¬ found l k) as Hno by (intros k Hall (x & Hx & Hx0 & _)%Exists_exists; destruct Hx0; auto).
  destruct (Z.eqb_spec (v10G (all_counted l)) 0), (Z.eqb_spec (v40G (all_counted l)) 0), (Z.eqb_spec (v100G (all_counted l)) 0);
    cbn [andb]; try (intros Hall; by eapply Hno; [exact Hall|first [by apply Ia|by apply Ib|by apply Ic]]).
  intros x Hx. destruct (Z.eq_dec x 0) as [|Hx0]; [done|]. exfalso.
  assert (found l (class_of x)) as Hf by (apply Exists_exists; eauto).
  destruct (class_of_classes x) as [E|[E|E]]; rewrite E in Hf; [by apply Ia in Hf|by apply Ib in Hf|by apply Ic in Hf].
Qed.
(** The configuration with the three flags set to [f], nothing made permanent. *)
Definition with_flags (f : ascii) (g : TuneCfg) : TuneCfg :=
  g <| gApplyDefSysTuning := f |> <| gApplyBiosTuning := f |> <| gApplyNicTuning := f |> <| gMakeTuningPermanent := "n"%char |>.
Lemma own_flags_set f g :
  gApplyDefSysTuning (with_flags f g) = f ∧ gApplyBiosTuning (with_flags f g) = f ∧ gApplyNicTuning (with_flags f g) = f ∧
  gMakeTuningPermanent (with_flags f g) = "n"%char.
Proof. done. Qed.
Lemma target_device w cs d speed :
  choose_target w = Ret (cs, Device d speed) → has_device w d = true ∧ 1000 ≤ Z.abs speed.
Proof.
  unfold choose_target. intros E. destruct (argv w) as [|a0 [|a1 [|]]]; try (inv_bind E as [c v] Ev; by simplify_eq).
  inv_bind E as u Eu. destruct (has_device w a1) eqn:Ehd; [|by simplify_eq]. inv_bind E as [c v] Ev.
  destruct (Z.eqb_spec (Z.quot v 1000) 0) as [Hq|Hq]; [by simplify_eq|]. simplify_eq.
  split; [done|]. clear -Hq. zdivmod.
Qed.
(** A run that ends well has made every check. *)
Lemma main_tuned w r :
  main w = Ret (inr r) →
  log_opens w = true ∧ ∃ cs, choose_target w = Ret (cs, on_device r) ∧ (∀ c, on_device r ≠ Leave c) ∧
    fDoGetUserCfgValues (user_config w) cfg_init = Ret (cfg r) ∧ tune w cs (on_device r) (cfg r) = Ret (inr r).
Proof.
  unfold main. destruct (log_opens w); cbn [negb]; [|done]. intros E. inv_bind E as [cs d] Ed.
  split; [done|]. exists cs. destruct d as [c|n s|s]; [done| |]; inv_bind E as g Eg;
    assert (on_device r = on_device r ∧ cfg r = cfg r) as _ by done;
    pose proof E as E'; unfold tune in E'; inv_bind E' as [c2 nu] E1; inv_bind E' as k E2; (destruct k as [k|]; [|done]);
    inv_bind E' as b E3; inv_bind E' as [n' m] E4; simplify_eq; cbn [cfg on_device]; done.
Qed.

(** ** Theorems *)
(** C21: The two programs agree on the kernel settings.  On every settings file
    whose triples start at or below the recommended minimum (whatever else it
    says), the stand-alone program and the daemon run, or keep for the menu, the
    same commands in the same order, under all flags and with the same errors;
    the daemon only notes the greatest wmem besides. *)
Theorem standalone_tunes_as_daemon spd flag perm md l :
  Forall (λ p, (str_forall (λ c, not_sp c && not_nul c) p.1 = true ∧ strlen p.1 < 256) ∧
    (str_forall (λ c, not_nl c && not_nul c) p.2 = true ∧ strlen p.2 < 256) ∧
    ∀ h, find_setting p.1 (aTuningNumsToUse spd).1 = Some h → small_first h p.2) l →
  fDoSystemTuning spd flag perm md (Some (show_host l)) kstate0 =
  (r ← SysTuning.fDoSystemTuning spd flag perm md (Some (show_host l)) kstate0; Ret (option_map erase r)).
Proof. apply tuning_erase. Qed.
Lemma standalone_tunes_as_daemon_witness :
  fDoSystemTuning 10000 "y" "y" None (Some (show_host host_pairs)) kstate0 =
  (r ← SysTuning.fDoSystemTuning 10000 "y" "y" None (Some (show_host host_pairs)) kstate0; Ret (option_map erase r)).
Proof.
  apply (standalone_tunes_as_daemon 10000). unfold host_pairs.
  repeat (constructor; [split; [done|split; [done|]]; intros h Hh; vm_compute in Hh; simplify_eq; unfold small_first; vm_compute; done|]).
  constructor.
Defined.


(** Without an interface the stand-alone program tunes for one that the host
    has.  For every list of speeds (a link that is down shows -1, zeros are
    skipped) and whatever the operator types, the result is a class offered in
    the menu or the greatest speed (at least 0), and selects the same table and
    script as one of the interfaces; with no speed at all it is 10000. *)
Theorem speed_matches_an_interface speeds stdin :
  Forall speed_ok speeds →
  ∃ cs v, fCheckForNicsAndSpeeds (Some (speed_text <$> speeds)) stdin = Ret (cs, v) ∧
    ((∃ x, x ∈ speeds ∧ x ≠ 0) → ∃ x, x ∈ speeds ∧ x ≠ 0 ∧ aTuningNumsToUse v = aTuningNumsToUse x) ∧
    ((∀ x, x ∈ speeds → x = 0) → v = 10000).
Proof.
  intros Hok. unfold fCheckForNicsAndSpeeds. rewrite speeds_counted by done. cbn [mbind res_bind]. fold (all_counted speeds).
  pose proof (choice_found speeds) as Hch. destruct (counted_spec speeds) as ((_ & Ia) & (_ & Ib) & (_ & Ic) & Hm & H0 & Hin).
  assert (Hfound : ∀ k, found speeds k → ∃ x, x ∈ speeds ∧ x ≠ 0 ∧ class_of x = k).
  { intros k (x & Hx & ? & ?)%Exists_exists. eauto. }
  assert (Hmax : (∃ x, x ∈ speeds ∧ x ≠ 0) → ∃ x, x ∈ speeds ∧ x ≠ 0 ∧ aTuningNumsToUse (tmpSpeed (all_counted speeds)) = aTuningNumsToUse x).
  { intros (x & Hx & Hx0). destruct Hin as [E|Hin]; [|destruct (Z.eq_dec (tmpSpeed (all_counted speeds)) 0) as [E|]; [|by eauto]];
      exists x; (split; [done|split; [done|]]); apply class_table; specialize (Hm x Hx); rewrite E in *;
      unfold class_of; by rewrite !(proj2 (Z.leb_le _ _)) by lia. }
  destruct (speed_choices (all_counted speeds)) as [|c1 cc] eqn:Ech.
  - do 2 eexists. split; [done|]. pose proof (none_counted speeds) as Hz. cbn zeta in Hz. case_match.
    + split; [|done]. intros (x & Hx & Hx0). destruct Hx0. by apply Hz.
    + split; [done|]. intros Hall. by apply Hz in Hall.
  - destruct (Hch c1) as [Hf _]; [apply elem_of_cons; by left|]. destruct (Hfound _ Hf) as (x0 & Hx0 & Hn0 & _).
    destruct (ask (c1 :: cc) stdin) as [cs [v|]] eqn:Ea; do 2 eexists; (split; [done|]); (split; [|by intros Hall; destruct Hn0; apply Hall]).
    + intros _. apply ask_choice in Ea. destruct (Hch v Ea) as [Hfv _]. destruct (Hfound _ Hfv) as (x & Hx & Hxn & Hxc).
      exists x. cbn [default from_option id]. eauto using class_table.
    + exact Hmax.
Qed.
Lemma speed_matches_an_interface_witness :
  Forall speed_ok [10000; -1; 100000] ∧
  ∃ cs v, fCheckForNicsAndSpeeds (Some (speed_text <$> [10000; -1; 100000])) ["2" +:+ nl] = Ret (cs, v) ∧ v = 100000 ∧
    ∃ x, x ∈ [10000; -1; 100000] ∧ x ≠ 0 ∧ aTuningNumsToUse v = aTuningNumsToUse x.
Proof.
  assert (Forall speed_ok [10000; -1; 100000]) as Hok by (repeat constructor; unfold speed_ok; lia).
  split; [exact Hok|]. destruct (speed_matches_an_interface [10000; -1; 100000] ["2" +:+ nl] Hok) as (cs & v & E & H & _).
  exists cs, v. split; [exact E|]. split; [vm_compute in E; by simplify_eq|]. apply H. exists 10000. split; [apply elem_of_cons; by left|done].
Defined.

(** The menu of the stand-alone program offers what its flags would do: with
    the three flags set a run makes in each part exactly the commands that the
    run without them kept, in order, on the same interface, and leaves no menu. *)
Theorem standalone_menu_offers w cs d g r :
  tune w cs d (with_flags "n" g) = Ret (inr r) →
  ∃ r', tune w cs d (with_flags "y" g) = Ret (inr r') ∧
    sysctls (kernel r') = kept (tuner (kernel r)) ∧ tunes (bios r') = kept (bios r) ∧ tunes (nic r') = kept (nic r) ∧
    menus r' = (Removed, Removed, Removed) ∧ (on_device r', numaNode r', ring_maxima r') = (on_device r, numaNode r, ring_maxima r).
Proof.
  unfold tune. destruct (own_flags_set "n" g) as (-> & -> & -> & ->). destruct (own_flags_set "y" g) as (-> & -> & -> & ->).
  intros E. inv_bind E as [c2 nu] E1. rewrite E1. cbn [mbind res_bind]. inv_bind E as k Ek.
  apply tuning_same in Ek; [|exact tune_value_offers]. destruct k as [k|]; [|done]. destruct Ek as (k' & Ek' & Hk).
  unfold fDoSystemTuning. rewrite Ek'. cbn [mbind res_bind].
  inv_bind E as b Eb. destruct (own_bios_mirrored _ _ _ _ _ _ mirror0 Eb) as (b' & Eb' & Hb). cbn in Eb'.
  rewrite Eb'. cbn [mbind res_bind]. inv_bind E as [n m] En.
  assert (∃ n', match d with
    | Device name speed => fDoNicTuning w name "y" speed tuner0 | _ => Ret (tuner0, (0, 0)) end = Ret (n', m) ∧ mirror n n')
    as (n' & En' & Hn) by (destruct d; [simplify_eq; eauto using mirror0|by eapply own_nic_mirrored; [apply mirror0|]|simplify_eq; eauto using mirror0]).
  rewrite En'. cbn [mbind res_bind]. simplify_eq. eexists. split; [done|].
  destruct Hk as (_ & ? & _ & Hk & _), Hb, Hn. cbn. split_and!; [done..| |done]. unfold write_menus. by rewrite !nothing_kept.
Qed.
Lemma standalone_menu_offers_witness :
  ∃ r', tune host_ex [] (Device "eth0" 100000) (with_flags "y" cfg_init) = Ret (inr r') ∧
    tunes (nic r') = [Tune "ifconfig eth0 txqueuelen 20000"; Tune "ethtool -G eth0 rx 8192";
                      Tune "ethtool -K eth0 lro on 2>/dev/null"; Tune "sudo ip link set dev eth0 mtu 9200"].
Proof.
  edestruct (standalone_menu_offers host_ex [] (Device "eth0" 100000) cfg_init) as (r' & E & _ & _ & H & _);
    [vm_compute; reflexivity|]. exists r'. split; [exact E|]. rewrite H. vm_compute. reflexivity.
Defined.

(** From 100 Gb/s on the stand-alone program needs an interface that knows
    large-receive-offload: on any other it never reaches its end (it closes a
    file it has not opened), and the commands it kept for the menus are lost.
    It tunes only an interface that exists and whose speed is not between -999
    and 999 Mb/s. *)
Theorem standalone_needs_lro w r d speed :
  main w = Ret (inr r) → on_device r = Device d speed →
  has_device w d = true ∧ 1000 ≤ Z.abs speed ∧ (100000 ≤ speed → is_empty (lro_show w) = false).
Proof.
  intros (_ & cs & Ed & _ & _ & Et)%main_tuned E. rewrite E in *. apply target_device in Ed as [Hd Hv].
  split; [done|]. split; [done|]. intros Hs.
  unfold tune in Et. inv_bind Et as [c2 nu] E1. inv_bind Et as k E2. destruct k as [k|]; [|done]. inv_bind Et as b E3.
  inv_bind Et as [n m] E4. unfold fDoNicTuning in E4. inv_bind E4 as t1 E5. inv_bind E4 as [t2 m2] E6. inv_bind E4 as t3 E7.
  cbn [target_speed] in *. rewrite (proj2 (Z.leb_le _ _) Hs) in E7. unfold fDoLRO in E7. by destruct (is_empty (lro_show w)).
Qed.
Lemma standalone_needs_lro_witness :
  ∃ r, main host_ex = Ret (inr r) ∧ on_device r = Device "eth0" 100000 ∧ is_empty (lro_show host_ex) = false.
Proof.
  eexists. split; [vm_compute; reflexivity|]. split; [reflexivity|].
  eapply (standalone_needs_lro host_ex _ "eth0" 100000); [vm_compute; reflexivity|reflexivity|lia].
Defined.

(** A value of 32 characters does not fit its field. *)
Example long_setting :
  fDoGetUserCfgValues (Some ["apply_nic_tuning yesyesyesyesyesyesyesyesyesyesye" +:+ nl]) cfg_init = Ub.
Proof. vm_compute. done. Qed.
