(* ===== verification/Startup.v ===== *)
(** * Starting the program

    [main] of user_dtn.c up to its threads: the configuration, the choice of the
    interface, the CSV log, the assessment, the limit of log files, and which
    threads are started; and the timers that
    [fDoRunBpfCollectionPerfEventArray2] creates from the configured interval.
    The fork, the shared memory and the globals are in Boot. *)
From Stdlib Require Import ZArith Lia Ascii String.
From stdpp Require Import base strings numbers option list.
From S2P Require Import Prelude CString Lines Dbl Timers UserConfig Tuner SysTuning NicTuning Assess.
Open Scope Z_scope.

(** ** The timers *)
Definition vHouseKeepingTime := 10000000.
Definition its_zero : itimerspec := mkIts (mkTs 0 0) (mkTs 0 0).
(** A product of ints: beyond the range of int it is undefined. *)
Definition mul_int (x y : Z) : res Z :=
  if (- 2 ^ 31 <=? x * y) && (x * y <? 2 ^ 31) then Ret (x * y) else Ub.
Record TimerSpecs := mkTimerSpecs {
  sStartTimer : itimerspec;                  (* of qOCC_Hop_TimerID and of qOCC_TimerID *)
  sStartEvaluationTimer : itimerspec;
  sHouseKeepingTimer : itimerspec
}.
(** The times set when [sigaction] does not fail. *)
Definition timer_specs (g : Cfg) : res TimerSpecs :=
  let '(_, t1) := makeTimer 0 (gInterval g) its_zero false in
  let '(_, t1) := makeTimer 0 (gInterval g) t1 false in
  ten ← mul_int (gInterval g) 10;
  let '(_, t2) := makeTimer 0 ten its_zero false in
  let '(_, t3) := makeTimer 0 vHouseKeepingTime its_zero true in
  Ret (mkTimerSpecs t1 t2 t3).

(** ** [main] *)
Inductive thread :=
| BpfCollection | HttpServer | GetThresholds | HelperDtn | FindHighestRtt | GetMessageFromPeer
| SendMessageToPeer | FindRetransmissionRate | HandleHpnsshQfactorEnv | ThreadKafkaConsume.
#[export] Instance thread_eq_dec : EqDecision thread.
Proof. solve_decision. Defined.
(** In the order of their creation. *)
Definition threads (gUseApacheKafka : Z) : list thread :=
  (if gUseApacheKafka =? 0 then [BpfCollection] else []) ++
  [HttpServer; GetThresholds; HelperDtn; FindHighestRtt; GetMessageFromPeer; SendMessageToPeer;
   FindRetransmissionRate; HandleHpnsshQfactorEnv] ++
  (if gUseApacheKafka =? 0 then [] else [ThreadKafkaConsume]).
Record Started := mkStarted {
  st_cfg : Cfg;
  netDevice : string;
  netDeviceSpeed : Z;
  st_assess : Assess;
  log_cmds : list string;
  vGoodBitrateValue : double;
  vGoodBitrateValueThatDoesntNeedMessage : double;
  st_threads : list thread
}.
Inductive start := Exits (code : Z) | Starts (s : Started).
Record World := mkWorld {
  argv : list string;
  log_opens : bool;                          (* fopen("/tmp/tuningLog","w") *)
  csv_opens : bool;                          (* fopen("/tmp/csvTuningLog","w") *)
  timer_rc : Z;                              (* sigaction in makeTimer *)
  user_config : option (list string);
  has_device : string → bool;                (* access("/sys/class/net/...") *)
  speed_file : string → option (list string);
  count_file : option (list string);
  answers : Answers
}.
(** The interface [d] if it exists and its link is up; the two exit values of the
    branch are arguments. [netDevice] has 128 bytes. *)
Definition use_device (w : World) (d : string) (down missing : Z) : res (Z + (string * Z)) :=
  _ ← fits_nul 128 d;
  if has_device w d then
    '(_, speed) ← fDoGetDeviceCap d (speed_file w d) 0;
    Ret (if Z.quot speed 1000 =? 0 then inl down else inr (d, speed))
  else Ret (inl missing).
Definition choose_device (w : World) (g : Cfg) : res (Z + (string * Z)) :=
  match argv w with
  | [_; _; d] => use_device w d (-3) (-1)
  | _ => match gNic_to_use g with
         | Some d => use_device w d (-4) (-5)
         | None => Ret (inl (-3))
         end
  end.
Definition good_bitrate (percent speed : Z) : double := ddiv (dmul (ddiv (dofZ percent) d100) (dofZ speed)) d1000.
Definition main (w : World) : res start :=
  if negb (log_opens w) then Ret (Exits (-1)) else
  g ← fDoGetUserCfgValues (user_config w) cfg_init;
  d ← choose_device w g;
  match d with
  | inl code => Ret (Exits code)
  | inr (dev, speed) =>
      if negb (csv_opens w) then Ret (Exits (-1)) else
      a ← user_assess g dev speed (answers w) (0, 0) no_channels;
      match a with
      | None => Ret (Exits (-2))
      | Some a =>
          cmds ← fCheck_log_limit (count_file w) g;
          rc ← (if gUseApacheKafka g =? 0 then Ret 0
                else ten ← mul_int (gInterval g) 10; Ret (makeTimer (timer_rc w) ten its_zero false).1);
          if negb (rc =? 0) then Ret (Exits 1) else
          Ret (Starts (mkStarted g dev speed a cmds (good_bitrate 97 speed) (good_bitrate 88 speed)
                         (threads (gUseApacheKafka g))))
      end
  end.
Example good_ex : fmt 1 (good_bitrate 97 100000) = "97.0". Proof. vm_compute. done. Qed.

(** ** Lemmas *)
Lemma use_device_spec w n down missing d :
  use_device w n down missing = Ret d →
  match d with inl c => c = down ∨ c = missing | inr (n', v) => n' = n ∧ has_device w n = true ∧ 1000 ≤ Z.abs v end.
Proof.
  unfold use_device. intros E. inv_bind E as u Eu. destruct (has_device w n); [|simplify_eq; by right].
  inv_bind E as [cs s] Es. simplify_eq. destruct (Z.eqb_spec (Z.quot s 1000) 0) as [|Hq]; [by left|].
  split_and!; [done..|]. clear -Hq. zdivmod.
Qed.
Lemma choose_device_spec w g d :
  choose_device w g = Ret d →
  match d with
  | inl c => -5 ≤ c ≤ -1
  | inr (n, s) => has_device w n = true ∧ 1000 ≤ Z.abs s ∧
      ((∃ a b, argv w = [a; b; n]) ∨ length (argv w) ≠ 3%nat ∧ gNic_to_use g = Some n)
  end.
Proof.
  unfold choose_device. intros Hd. destruct (argv w) as [|a1 [|a2 [|a3 [|]]]];
    try (destruct (gNic_to_use g) as [n|]; [|simplify_eq; lia]);
    apply use_device_spec in Hd; destruct d as [c|[n' v]]; try lia; destruct Hd as (-> & ? & ?);
    (split; [done|]); (split; [done|]); first [left; eauto; fail | right; by split].
Qed.
Lemma assess_ends_learning g dev spd a m c r : user_assess g dev spd a m c = Ret (Some r) → current_phase r = LEARNING.
Proof.
  unfold user_assess. destruct (fDoGetNproc _). intros E. inv_bind E as [? ?] E1. inv_bind E as [? ?] E2. inv_bind E as k E3.
  destruct k; [|done]. inv_bind E as b E4. inv_bind E as [? [? ?]] E5. by simplify_eq.
Qed.
Lemma makeTimer_rc rc u t i : (makeTimer rc u t i).1 = 0 ∨ (makeTimer rc u t i).1 = -1.
Proof. unfold makeTimer. destruct (rc =? -1); auto. Qed.
(** Telemetry comes either from the switch or from Kafka. *)
Lemma threads_telemetry n :
  (BpfCollection ∈ threads n ↔ n = 0) ∧ (ThreadKafkaConsume ∈ threads n ↔ n ≠ 0).
Proof.
  unfold threads. destruct (Z.eqb_spec n 0) as [->|Hn]; cbn [app]; rewrite !elem_of_cons, !elem_of_nil;
    split; split; intros; destruct_or?; simplify_eq; try done; tauto.
Qed.

(** ** Theorems *)
(** For every configuration file the alarms of both congestion timers are set
    to the configured interval, the house-keeping timer to a periodic ten
    seconds, and none of them to zero, which would disarm them.  The evaluation
    timer is set to exactly ten intervals as long as these fit an int; from
    214748365 microseconds on, which the configuration accepts, the product
    overflows. *)
Theorem timers_from_configuration file g :
  fDoGetUserCfgValues file cfg_init = Ret g →
  if gInterval g <=? 214748364 then
    ∃ s, timer_specs g = Ret s ∧
      nanosecs (it_value (sStartTimer s)) = gInterval g * 1000 ∧
      nanosecs (it_value (sStartEvaluationTimer s)) = gInterval g * 10000 ∧
      nanosecs (it_value (sHouseKeepingTimer s)) = 10 * 10 ^ 9 ∧
      it_interval (sHouseKeepingTimer s) = it_value (sHouseKeepingTimer s) ∧
      it_interval (sStartTimer s) = mkTs 0 0 ∧ it_interval (sStartEvaluationTimer s) = mkTs 0 0 ∧
      0 < nanosecs (it_value (sStartTimer s))
  else timer_specs g = Ub.
Proof.
  intros Hg%config_given_wf. destruct (wf_interval g Hg) as [H1 H2]. unfold timer_specs.
  destruct (makeTimer_exact (gInterval g) its_zero false ltac:(lia)) as (t0 & -> & _ & _ & E0).
  destruct (makeTimer_exact (gInterval g) t0 false ltac:(lia)) as (t1 & -> & Ht1 & _ & E1). unfold mul_int.
  destruct (Z.leb_spec (gInterval g) 214748364), (Z.leb_spec (- 2 ^ 31) (gInterval g * 10)), (Z.ltb_spec (gInterval g * 10) (2 ^ 31));
    try lia; [|done]. cbn [andb mbind res_bind].
  destruct (makeTimer_exact (gInterval g * 10) its_zero false ltac:(lia)) as (t2 & -> & Ht2 & _ & E2).
  destruct (makeTimer_exact vHouseKeepingTime its_zero true ltac:(unfold vHouseKeepingTime; lia)) as (t3 & -> & Ht3 & _ & E3).
  eexists. split; [done|]. cbn [sStartTimer sStartEvaluationTimer sHouseKeepingTimer].
  rewrite Ht1, Ht2, Ht3, E1, E2, E3, E0. unfold vHouseKeepingTime. split_and!; try done; lia.
Qed.
Lemma timers_from_configuration_witness :
  fDoGetUserCfgValues (Some sample_file) cfg_init = Ret sample_cfg ∧
  ∃ s, timer_specs sample_cfg = Ret s ∧ nanosecs (it_value (sStartEvaluationTimer s)) = 2500000000.
Proof.
  assert (fDoGetUserCfgValues (Some sample_file) cfg_init = Ret sample_cfg) as E by (vm_compute; reflexivity).
  split; [exact E|]. pose proof (timers_from_configuration (Some sample_file) sample_cfg E) as H.
  change (gInterval sample_cfg <=? 214748364) with true in H. cbv iota in H. destruct H as (s & Es & _ & H & _).
  exists s. split; [exact Es|exact H].
Defined.

(** C36: The program starts its threads only for an interface that exists, named
    by the third argument or else by the configuration, whose speed is not
    between -999 and 999 Mb/s (a link that is down says -1, a missing number 0),
    and then exactly one of the two sources of telemetry, as configured; every
    other start ends with an exit code from -5 to -1, or 1 when the Kafka
    timer cannot be made. *)
Theorem threads_need_a_live_interface w r :
  main w = Ret r →
  match r with
  | Exits code => -5 ≤ code ≤ -1 ∨ code = 1
  | Starts s =>
      log_opens w = true ∧ fDoGetUserCfgValues (user_config w) cfg_init = Ret (st_cfg s) ∧ cfg_wf (st_cfg s) ∧
      has_device w (netDevice s) = true ∧ 1000 ≤ Z.abs (netDeviceSpeed s) ∧
      ((∃ a b, argv w = [a; b; netDevice s]) ∨ length (argv w) ≠ 3%nat ∧ gNic_to_use (st_cfg s) = Some (netDevice s)) ∧
      (BpfCollection ∈ st_threads s ↔ gUseApacheKafka (st_cfg s) = 0) ∧
      (ThreadKafkaConsume ∈ st_threads s ↔ gUseApacheKafka (st_cfg s) = 1) ∧
      current_phase (st_assess s) = LEARNING
  end.
Proof.
  unfold main. destruct (log_opens w); cbn [negb]; [|intros [= <-]; lia]. intros E. inv_bind E as g Hg.
  inv_bind E as d Hd. apply choose_device_spec in Hd. destruct d as [c|[n v]]; [simplify_eq; lia|].
  destruct (csv_opens w); cbn [negb] in E; [|simplify_eq; lia].
  inv_bind E as a Ea. destruct a as [a|]; [|simplify_eq; lia]. apply assess_ends_learning in Ea.
  inv_bind E as cmds Ec. inv_bind E as rc Er. destruct (negb (rc =? 0)); simplify_eq; [by right|].
  pose proof (config_given_wf _ _ Hg) as Hwf. pose proof (wf_kafka g Hwf). destruct (threads_telemetry (gUseApacheKafka g)) as [Ht1 Ht2].
  destruct Hd as (? & ? & ?). split_and!; try done. cbn [st_threads st_cfg]. rewrite Ht2. lia.
Qed.
Definition world_ex : World :=
  mkWorld ["user_dtn"] true true 0 (Some sample_file) (λ d, String.eqb d "enp1s0-f0") (λ _, Some ["100000" +:+ nl]) (Some ["10" +:+ nl]) answers_ex.
Lemma threads_need_a_live_interface_witness :
  ∃ s, main world_ex = Ret (Starts s) ∧ netDevice s = "enp1s0-f0" ∧ has_device world_ex (netDevice s) = true ∧
    log_cmds s = ["echo 0 > /tmp/tuningLog.count"].
Proof.
  eexists. split; [vm_compute; reflexivity|]. split; [reflexivity|].
  split; [|reflexivity]. eapply (threads_need_a_live_interface world_ex (Starts _)). vm_compute. reflexivity.
Defined.
