(* ===== verification/Boot.v ===== *)
(** * From the command line to the threads

    The parts of [main] (user_dtn.c) around Startup: the fork that makes the
    daemon, the shared memory, the globals as the threads find them, and the
    handler of SIGINT.  The theorem shows that the state the threads start with
    satisfies the invariants which the theorems of the components assume, and
    the one exception. *)
From Stdlib Require Import ZArith Lia Ascii String.
From stdpp Require Import base gmap strings numbers option list.
From S2P Require Import Prelude CString Lines Dbl Ring DtnTables FlowCounters Timers Telemetry Congestion Pacing Episode HttpApi UserConfig NicTuning Assess Startup.
Open Scope Z_scope.

(** ** The globals *)
(** [shm_new]: a fresh segment is zero; [None] is the null pointer it answers when
    [shmget] fails. *)
Definition shm_new (shmget_ok : bool) : option sResetPacingBack_t := if shmget_ok then Some back_init else None.
(** The null pointer is not looked for. *)
Definition shm_del (p : option sResetPacingBack_t) : res unit := match p with Some _ => Ret tt | None => Ub end.

Record Globals := mkGlobals {
  gl_detector : Detector;                    (* with the ring [sMsg] and [sFlowCounters] *)
  gl_tables : Tables;
  gl_hpn : HpnRet;
  sTimeoutMsg : PeerMsg;
  gl_shm : option sResetPacingBack_t;
  gl_api : Api
}.
Definition hpn_greeting : PeerMsg :=
  zero_msg <| msg := "Hello there!!! This is a Hpn msg..." +:+ nl |> <| msg_no := htonl HPNSSH_MSG |>.
(** [ms] is the time stamp taken after the assessment. *)
Definition timeout_msg (ms : string) : PeerMsg :=
  zero_msg <| msg := "Hello there!!! This is  a dummy message ..., Here's some data" +:+ nl |>
    <| msg_no := htonl HPNSSH_MSG |> <| value := htonl HPNSSH_DUMMY |> <| timestamp := ms |>
    <| hop_latency := htonl 1 |> <| queue_occupancy := htonl 2 |> <| switch_id := htonl 3 |> <| seq_no := htonl 4 |>.
(** The phase becomes LEARNING whatever the mode is. *)
Definition globals (g : Cfg) (shmget_ok : bool) (ms : string) : Globals :=
  mkGlobals det_init tables_init (mkHpnRet hpn_greeting hpn_greeting false) (timeout_msg ms) (shm_new shmget_ok)
    (api_init <| HttpApi.gTuningMode := negb (UserConfig.gTuningMode g =? 0) |> <| HttpApi.current_phase := LEARNING |>).

(** ** The process *)
(** ["rf"] as the only argument keeps the program in the foreground. *)
Definition foreground (argv : list string) : bool := match argv with [_; a] => String.eqb a "rf" | _ => false end.
(** The parent, and a program that cannot fork, leave with 0. *)
Definition boot (w : World) (fork_rc : Z) (shmget_ok : bool) (ms : string) : res (Z + (Started * Globals)) :=
  if negb (foreground (argv w)) && negb (fork_rc =? 0) then Ret (inl 0) else
  r ← main w;
  Ret (match r with Exits code => inl code | Starts s => inr (s, globals (st_cfg s) shmget_ok ms) end).

(** ** SIGINT *)
Inductive farewell := DeleteShm | CloseTuningLog | CloseCsvLog | StopConsumer | ExitProcess (code : Z).
Definition sig_int_handler (p : option sResetPacingBack_t) (csv_open : bool) : res (list farewell) :=
  _ ← shm_del p;
  Ret ([DeleteShm; CloseTuningLog] ++ (if csv_open then [CloseCsvLog] else []) ++ [StopConsumer; ExitProcess 0]).
(** The handler is installed first of all, the segment made last: a SIGINT during
    the assessment (or without a segment) follows a null pointer. *)
Example sigint_without_segment csv : sig_int_handler None csv = Ub. Proof. done. Qed.

(** ** Properties *)
Lemma empty_table_wf (E : Type) (H : DtnEntry E) (e : E) :
  e_ip e = 0 → DtnTables.table_wf (replicate 10 e) 0 ∧ table_abs (replicate 10 e) = ∅.
Proof.
  intros He. assert (filter (λ x, e_ip x ≠ 0) (replicate 10 e) = []) as Hf.
  { generalize 10%nat. intros n. induction n as [|n IH]; [done|]. cbn [replicate]. rewrite filter_cons_False by tauto. exact IH. }
  split; [split|].
  - done.
  - unfold distinct. rewrite Hf. constructor.
  - unfold used. by rewrite Hf.
  - unfold table_abs. by rewrite Hf.
Qed.
Lemma tables_init_wf : tables_wf tables_init ∧ src_abs tables_init = ∅ ∧ dst_abs tables_init = ∅.
Proof.
  destruct (empty_table_wf sSrc_Dtn_IPs_t _ e_zero) as [H1 H2], (empty_table_wf sDest_Dtn_IPs_t _ e_zero) as [H3 H4]; try done.
Qed.
(** The settings are consistent unless the configuration asks for the tuning mode. *)
Lemma start_settings g ok ms :
  api_wf (gl_api (globals g ok ms)) ↔ UserConfig.gTuningMode g = 0.
Proof.
  destruct (Z.eqb_spec (UserConfig.gTuningMode g) 0) as [E|E].
  - split; [done|]. intros _. split; [vm_compute; discriminate| |done]. cbn. by rewrite E.
  - split; [|done]. intros [_ H _]. apply Z.eqb_neq in E. cbn in H. by rewrite E in H.
Qed.
(** Choosing the mode by a request makes them consistent. *)
Lemma chosen_mode_settings g ok ms on : api_wf (req_learning on (gl_api (globals g ok ms))).1.1.
Proof. destruct on; split; done || (vm_compute; discriminate). Qed.

(** C10: The threads are started by the child alone (or in the foreground), and find
    a state that satisfies the invariants on which the components rest: an empty
    well-formed queue, an idle detector, empty well-formed tables and records,
    a shared record that agrees with the empty list of commands, nothing
    published yet.  Only the phase may be wrong: it is
    LEARNING even if the configuration turned learning off, so that it agrees
    with the mode exactly when it did not; until the first request for a mode. *)
Theorem threads_start_well_formed w rc ok ms s gl :
  boot w rc ok ms = Ret (inr (s, gl)) →
  (foreground (argv w) = true ∨ rc = 0) ∧ main w = Ret (Starts s) ∧
  detector_idle (gl_detector gl) ∧ alarm_inv (gl_detector gl) ∧
  tables_wf (gl_tables gl) ∧ src_abs (gl_tables gl) = ∅ ∧ dst_abs (gl_tables gl) = ∅ ∧
  (∀ b, gl_shm gl = Some b → ok = true ∧ pacer_ok (mkPacer b [])) ∧
  hpnretcdone (gl_hpn gl) = false ∧ pts (sHpnRetMsg2 (gl_hpn gl)) = None ∧
  (api_wf (gl_api gl) ↔ UserConfig.gTuningMode (st_cfg s) = 0) ∧
  ∀ on, api_wf (req_learning on (gl_api gl)).1.1.
Proof.
  unfold boot. intros E. destruct (negb (foreground _) && negb (rc =? 0)) eqn:Ef; [done|]. inv_bind E as r Er.
  destruct r as [c|s']; simplify_eq. destruct tables_init_wf as (H1 & H2 & H3).
  split. { apply andb_false_iff in Ef as [Ef|Ef]; apply negb_false_iff in Ef; [by left|right; lia]. }
  split_and!; try done.
  - apply idle_init.
  - intros b. cbn. destruct ok; [|done]. intros [= <-]. split; [done|constructor].
  - apply (start_settings (st_cfg s) ok ms).
  - intros on. apply (chosen_mode_settings (st_cfg s) ok ms).
Qed.
(** A configuration that turns learning off. *)
Lemma threads_start_well_formed_witness :
  ∃ s gl, boot world_ex 0 true "t0" = Ret (inr (s, gl)) ∧ tables_wf (gl_tables gl) ∧
    UserConfig.gTuningMode (st_cfg s) = 1 ∧ ¬ api_wf (gl_api gl).
Proof.
  destruct (boot world_ex 0 true "t0") as [[c|[s gl]]| |] eqn:E; [by vm_compute in E| |by vm_compute in E..].
  exists s, gl. split; [done|]. pose proof (threads_start_well_formed _ _ _ _ _ _ E) as (_ & Hm & _ & _ & H & _ & _ & _ & _ & _ & Ha & _).
  split; [exact H|]. assert (UserConfig.gTuningMode (st_cfg s) = 1) as Hg by (vm_compute in Hm; injection Hm as <-; reflexivity).
  split; [exact Hg|]. rewrite Ha, Hg. discriminate.
Defined.
(** With [learning_mode_only n] the log says LEARNING while the program tunes. *)
Example tuning_called_learning :
  ∃ g, fDoGetUserCfgValues (Some ["learning_mode_only" +:+ tab +:+ "n" +:+ nl]) cfg_init = Ret g ∧
    HttpApi.gTuningMode (gl_api (globals g true "")) = true ∧ HttpApi.current_phase (gl_api (globals g true "")) = LEARNING.
Proof. eexists. split; [vm_compute; reflexivity|]. split; reflexivity. Qed.
